(* ===== verification/_CoqProject ===== *)
-Q . S2P
Prelude.v
GoErrors.v
GoStrings.v
GoPath.v
Base64.v
Utf8.v
Sha256.v
SafeInt.v
Proto.v
External.v
IO.v
Threads.v
Verifiers.v
AlgorithmRegistry.v
HashedRekord.v
Dsse.v
DsseSpec.v
Sample.v
DsseOrder.v
Note.v
TesseraLib.v
VerifyEntry.v
Storage.v
Service.v
History.v
Concurrent.v
Pool.v
RekorGrpc.v
Messages.v
Gateway.v
RekorGateway.v
Config.v
MockServer.v
Metrics.v
Servers.v
Serve.v
Lifetime.v
SignerVerifier.v
Freeze.v
Client.v
Drivers.v
Cmd.v
Deployment.v
Flags.v
Main.v
WritePath.v
HttpHistory.v
Sharding.v
SampleLog.v
LogExamples.v
LifetimeExamples.v
CmdExamples.v
WriteExamples.v
DeploymentExamples.v
