(* ===== verification/Prelude.v ===== *)
(** * Rekor v2 (rekor-tiles): a verification development

    ** The program

    Rekor v2 is a transparency log for software signatures.  A server accepts
    signed artifacts over gRPC or HTTP, checks the signature, puts a canonical
    record of it into a Merkle tree kept by the Tessera library, and answers
    with the record, its index and an inclusion proof under a signed
    checkpoint.  Clients verify that answer offline.  A request goes through

    - the HTTP gateway (internal/server/http.go with the routes of
      rekor_service.pb.gw.go), which forwards over the stubs of
      rekor_service_grpc.pb.go to
    - the gRPC server and its interceptors (internal/server/grpc.go), which call
    - the handler [CreateEntry] (internal/server/service.go), which asks
    - pkg/types/hashedrekord or pkg/types/dsse for the log entry (these use
      pkg/types/verifier, pkg/verifier and internal/algorithmregistry), and then
    - the storage (internal/tessera/tessera.go), which uses Tessera on one of
      four backends (internal/tessera/posix, gcp, aws, gcpcloudsql).

    The answer is checked by the functions of pkg/verify with a note verifier
    of pkg/note; pkg/client/read and pkg/client/write are the HTTP clients.
    internal/server/serve.go starts and stops the servers; the commands under
    cmd/ build everything from flags; cmd/freeze-checkpoint ends a log's life.

    ** How Go is modelled

    - A call returns a value, returns an error or panics: [result] in
      [GoErrors], with the repository's error types as one inductive type,
      their texts, and the [errors.Is] and [errors.As] walks.  A nil
      dereference is [Panic]; a pointer is an [option], and a pointer used as a
      map key carries its address ([ptr] in [Proto]).
    - Code with effects is [io S A] ([IO]): the state [S] is the log, the
      response headers and metrics of a call, the network, a bucket.
    - Strings and byte slices are strings of octets.  Integers are [Z]; their
      width is a hypothesis ([is_int64] and the like) or a check, as in
      [SafeInt], where the code depends on it.
    - Ranging over a map takes a [map_order], an arbitrary permutation; theorems
      quantify over it.
    - Goroutines are the threads of a transition system.  The goroutine of a call
      is a [prog] ([Threads]): a tree of accesses to the shared state, each one
      an atomic step, between which other goroutines may act.  [run] makes it an
      [io] again.
    - The standard library is written out where its result matters: SHA-256
      ([Sha256]), base64 ([Base64]), UTF-8 and white space ([Utf8]), path
      cleaning ([GoPath]), prefixes, [Atoi], [slices.Sort] ([GoStrings]).
    - Libraries outside the repository are operations of a class ([External],
      [TesseraLib] and the [Lib] classes beside their users); what is relied
      upon is a separate class of laws, each documented behaviour.  [Sample]
      and [SampleLog] implement the classes and prove the laws, and the
      witnesses run on them.

    - A connection, to a gRPC server ([grpc_conn]) or over HTTP ([connected]), is
      a relation between what a client calls and what the server does with it:
      messages arrive as copies ([same_content]) within the size limits.

    All definitions are total.  Recursion is on the structure of the data or a
    fold over a list (the polling loop of the mock server is one over its six
    indices), with one exception: the block loop of SHA-256 takes the
    number of words of the padded message as fuel, one block consumes sixteen
    of them, and [blocks_fuel] shows that more fuel changes nothing.

    ** Files, and the code they model

    - [Prelude], [GoErrors], [GoStrings], [GoPath], [Base64], [Utf8], [Sha256],
      [IO], [Threads]: Go and its standard library, with the lemmas the rest
      shares, and rely-guarantee reasoning about goroutines.
    - [SafeInt]: internal/safeint/safeint.go.
    - [Proto], [Messages]: the messages of pkg/generated/protobuf and of
      protobuf-specs, and their methods.
    - [External], [TesseraLib]: crypto, sigstore, JSON; Tessera, merkle,
      checkpoint formats and sumdb/note.
    - [Verifiers]: pkg/types/verifier, pkg/verifier and its implementations.
    - [AlgorithmRegistry]: internal/algorithmregistry.
    - [HashedRekord]: pkg/types/hashedrekord.
    - [Dsse], [DsseSpec], [DsseOrder]: pkg/types/dsse, its specification, and
      what the order of its map loops changes.
    - [Note]: pkg/note.  [VerifyEntry]: pkg/verify.
    - [Storage]: internal/tessera/tessera.go; the class [StorageSpec] is the
      interface the service is verified against.
    - [Service]: internal/server/service.go (with the counters of metrics.go).
      [History]: what Tessera promises of a log that only grows.
      [Concurrent]: the storage and the handler as goroutines.
      [Pool]: a server with any number of calls in flight.
    - [RekorGrpc]: rekor_service.pb.go and rekor_service_grpc.pb.go: stubs,
      method table and handlers, and what a gRPC connection does.
    - [Gateway]: http.go, grpcstats.go and logging.go of internal/server.
    - [RekorGateway]: rekor_service.pb.gw.go: compiled path patterns, requests,
      handlers and registration; the mux of http.go.
    - [Config]: grpcconfig.go, httpconfig.go.  [Servers]: the construction of
      the gRPC server and the proxy, and the interceptor chain (grpc.go,
      http.go).  [Metrics]: metrics.go.  [Serve]: serve.go and the [start]
      methods; [Lifetime]: these together with the calls of [Pool].  [MockServer]: service_mock.go.
    - [SignerVerifier]: internal/signerverifier and those of the backends.
    - [Drivers]: the four storage backends.
    - [Freeze]: cmd/freeze-checkpoint/gcp/app/root.go.
    - [Client]: pkg/client.
    - [Cmd]: the flags of internal/cli/flags.go as a record and the four serve
      commands.  [Flags]: registration of the flags of all commands, and how
      the commands read them through viper.  [Main]: root.go, version.go and
      main.go of the programs.
    - [WritePath]: the write client, the routes, the stubs, the interceptors and
      the service put together.  [HttpHistory]: any sequence of writes over HTTP
      to a server that a command started.  [Deployment]: such a server with its
      calls in flight, from start to stop, and a client that verifies.
    - [Sharding]: the programs of tests/sharding/client.
    - [Sample], [SampleLog], [LogExamples], [LifetimeExamples], [CmdExamples],
      [WriteExamples], [DeploymentExamples]:
      instances of the library classes and concrete runs.

    ** What the theorems show

    - Entries.  A hashedrekord request becomes an entry exactly when its
      signature verifies under a permitted key ([hashedrekord_ToLogEntry_iff]).
      A DSSE entry lists, sorted, exactly the signatures of the envelope, each
      with a verifier that accepts it, whatever the map order
      ([dsse_ToLogEntry_sound]); when the entry is independent of the order
      ([dsse_order_irrelevant]) and when not ([dsse_order_matters]).
      No request message makes the code panic.
    - The log.  An answer of the storage carries a proof that was verified
      ([storage_Add_sound], [buildProof_verifies]); every outcome of the
      sequencer is covered ([storage_Add_cases], [CreateEntry_sequencer_errors]).
    - The service.  Proved against [StorageSpec]: what a success returns, that
      only canonical bodies of valid entries reach the log, how errors become
      statuses and headers, what a frozen log answers, and that the counters
      count.
    - Concurrency.  The handler as a goroutine is the sequential one with its
      accesses of shared state taken apart; that both translations agree when
      nothing interferes is checked by [steps_are_the_handler].  In every state
      a server reaches, whatever calls arrive, however they interleave and
      whatever other writers do, the answers given are true and stay true
      ([concurrent_answers_true], against the class [AppendOnly]) and the
      counters are exact ([concurrent_counters_exact]).
      A call of a library, the waiting for a checkpoint included, is one access
      that is assumed to return.
    - Over HTTP.  The opcodes of the routes mean the templates written beside
      them ([patterns_match_templates]), each request goes to the one method it
      should ([routes_exact]), and each stub reaches the method of its name
      ([stubs_reach_methods]).  So the write client's [Add] does what
      [CreateEntry] does on a copy of the request ([http_write_refines]), a
      frozen log is seen as 405 ([http_write_frozen]), and reads are refused
      ([http_reads_refused]).  [http_entries_kept] composes this with the
      serve command, the storage, pkg/note and pkg/verify, over any history of
      writes: whatever [Add] returned from a started server is in the log, stays
      there, and is accepted by a client that holds the log's hostname and
      public key.
    - Commands.  Every command runs with exactly the values of its flags, as far
      as viper can represent them, each registered once and read with its type
      ([commands_read_their_flags]); the key is the one the flags select
      ([New_uses_selected]).  From the command line to a running server or an
      exit status: [main_serves].
    - Metrics are made once, and their labels fit the service
      ([metrics_fit_service]).
    - Clients.  What acceptance of an entry, a checkpoint or a consistency
      proof is equivalent to and what it implies; what the HTTP clients send
      and accept.
    - Keys.  The log ID and note key ID are those of the C2SP signed-note format
      ([KeyHash_spec], with the vectors of the repository's test), the log ID
      covers origin and key ([key_id_separates]), and the log ID in the answers
      belongs to the key that signs the checkpoints
      ([log_id_identifies_signer]).
    - Running.  By induction over the steps of the transition system: Tessera
      stops last ([tessera_stops_last]); shutdown completes under every
      schedule once each server has its signal ([shutdown_completes]); with the
      calls in flight, every call that ever arrived has been answered, truly, by
      the time Tessera is shut down ([shutdown_loses_no_call]), and no schedule
      keeps a server that was told to stop from answering its calls and
      returning ([shutdown_drains]); a signal during
      startup can leave servers running ([startup_signal_lost]); the
      OpenTelemetry exporter is not waited for ([otel_shutdown_not_awaited]).
      Starting the mock server ends ([Start_terminates]).
    - All together.  Whatever a server that a command started acknowledges,
      with calls, other writers and signals in any order, is in the log and
      verifies for a client that has the hostname and the public key
      ([served_answers_verify]).
    - Sharding.  The bundle of sign is made with the logs that are named or
      selected, and after sign has succeeded, verify asks about the signed
      artifact the trusted material the bundle was made with
      ([sign_then_verify]).
    - Freezing keeps the checkpoint under the key that the flags select
      ([freeze_preserves_checkpoint]) and is idempotent, and a frozen server leaves
      the log alone.

    ** What is not modelled

    - The protobuf runtime, to which the generated code hands descriptors,
      reflection, text and the wire format.
    - Cobra and pflag: how a line selects a command is a class ([CobraLaws]), and
      parsing only sets values ([parsed_from]).
    - Prometheus and OpenTelemetry exporters, log output, and the values and
      deadlines of contexts (cancellation appears as an error of the sequencer).
    - The inside of Tessera, merkle, X.509, the cloud clients and the key
      libraries.
    - The flag package of the sharding client, whose flags are given as values,
      and the Go tests.

    ** Order of work

    The components were modelled from the inside out: messages and entry types,
    pkg/note and pkg/verify, storage, service, gateway and servers, shutdown,
    then keys, backends, commands and clients; after that the generated routes
    and stubs, so that a request can be followed from the write client's POST to
    the handler and back, the flags and the metrics, the trees of commands from
    [main], concurrent calls, histories over HTTP, the sharding client, and
    calls in flight while a server stops.  What is left is in libraries: the
    tiles that the read client fetches are written by Tessera and served by the
    storage of the backend, not by this program. *)

From Stdlib Require Export ZArith Lia String Ascii.
From stdpp Require Export base tactics list gmap strings pretty sorting.

(** ** Notations and scopes *)

Declare Scope go_scope.
Delimit Scope go_scope with go.

#[global] Open Scope string_scope.
#[global] Open Scope list_scope.
#[global] Open Scope go_scope.
#[global] Open Scope Z_scope.

(** A Go [string] and a Go [[]byte] are both finite sequences of octets; the
    conversions between them copy and change nothing.  Both are modelled by
    [string], whose characters are 8-bit.  The name [bytes] marks the places
    where the source has a [[]byte]. *)
Abbreviation bytes := string (only parsing).

#[global] Arguments String.append !_ _ : simpl nomatch.

(** [len(s)] as Go computes it, and the test [len(s) == 0]. *)
Definition len (s : string) : Z := Z.of_nat (String.length s).
Definition is_empty (s : string) : bool := match s with EmptyString => true | _ => false end.

(** ** Machine integers *)

Definition MaxInt64 : Z := 2 ^ 63 - 1.
Definition MaxUint64 : Z := 2 ^ 64 - 1.

(** The conversions [uint64(x)] and [int64(x)]: reduction modulo 2^64, the
    signed one with its range centred on zero. *)
Definition to_uint64 (x : Z) : Z := x mod 2 ^ 64.
Definition to_int64 (x : Z) : Z := (x + 2 ^ 63) mod 2 ^ 64 - 2 ^ 63.

Definition is_uint64 (x : Z) : Prop := 0 ≤ x ≤ MaxUint64.
Definition is_int64 (x : Z) : Prop := - 2 ^ 63 ≤ x ≤ MaxInt64.

(** ** Decimal text: [strconv.FormatUint(n, 10)] and [strconv.Itoa] *)

Definition FormatUint (n : Z) : string := pretty (Z.to_N n).
Definition Itoa (n : Z) : string :=
  if n <? 0 then "-" +:+ FormatUint (- n) else FormatUint n.

(** ** Ranging over a Go map

    The order in which [range] visits a map is unspecified and changes from
    one loop to the next.  A loop over a map takes a [map_order], which
    rearranges the map's entries; what holds for every [map_order] holds for
    every execution. *)
Record map_order := {
  order : ∀ {A : Type}, list A → list A;
  order_perm : ∀ {A : Type} (l : list A), order l ≡ₚ l
}.

Definition order_id : map_order := {| order := λ A l, l; order_perm := λ A l, Permutation_refl l |}.
Lemma reverse_perm {A} (l : list A) : reverse l ≡ₚ l.
Proof. apply reverse_Permutation. Qed.
Definition order_rev : map_order := {| order := @reverse; order_perm := @reverse_perm |}.

(** ** Automation *)

(** Facts about results of Go calls: [eauto with go] and [autorewrite with go]. *)
Create HintDb go.

(** Split the conjunctions and existentials of the context. *)
Ltac split_hyps :=
  repeat match goal with
  | H : _ ∧ _ |- _ => destruct H
  | H : ∃ _, _ |- _ => destruct H
  end.

(** ** Integers *)

Lemma to_uint64_id x : is_uint64 x → to_uint64 x = x.
Proof. unfold is_uint64, to_uint64, MaxUint64. intros. apply Z.mod_small. lia. Qed.

Lemma to_int64_id x : is_int64 x → to_int64 x = x.
Proof. unfold is_int64, to_int64, MaxInt64. intros. rewrite Z.mod_small; lia. Qed.

Lemma to_uint64_range x : is_uint64 (to_uint64 x).
Proof. unfold is_uint64, to_uint64, MaxUint64. pose proof (Z.mod_pos_bound x (2^64)). lia. Qed.

Lemma to_int64_range x : is_int64 (to_int64 x).
Proof.
  unfold is_int64, to_int64, MaxInt64.
  pose proof (Z.mod_pos_bound (x + 2^63) (2^64)). lia.
Qed.

#[export] Hint Resolve to_uint64_range to_int64_range : go.

Lemma gtb_false x y : x ≤ y → (x >? y) = false.
Proof. intros. rewrite Z.gtb_ltb. apply Z.ltb_ge. lia. Qed.

(** A shift by [k] bits and the low [k] bits do not overlap. *)
Lemma lor_shiftl a b k : 0 ≤ k → 0 ≤ b < 2 ^ k → Z.lor (Z.shiftl a k) b = a * 2 ^ k + b.
Proof.
  intros Hk Hb. rewrite <-Z.shiftl_mul_pow2 by lia. symmetry. apply Z.add_nocarry_lor.
  apply Z.bits_inj'. intros n Hn. rewrite Z.land_spec, Z.bits_0.
  destruct (Z.lt_ge_cases n k).
  - by rewrite Z.shiftl_spec_low.
  - rewrite (Z.testbit_eqb b) by lia.
    rewrite Z.div_small; [apply andb_false_r|].
    pose proof (Z.pow_le_mono_r 2 k n). lia.
Qed.

(** ** Decimal text *)

Lemma FormatUint_inj m n : 0 ≤ m → 0 ≤ n → FormatUint m = FormatUint n → m = n.
Proof. unfold FormatUint. intros ?? H%(inj pretty). lia. Qed.

(** ** Strings *)

Lemma is_empty_spec s : is_empty s = true ↔ s = "".
Proof. destruct s; simpl; split; congruence. Qed.

Lemma is_empty_false s : is_empty s = false ↔ s ≠ "".
Proof. destruct s; simpl; split; congruence. Qed.

Lemma len_zero s : (len s =? 0) = is_empty s.
Proof. destruct s; reflexivity. Qed.

#[export] Hint Rewrite len_zero : go.

(** ** Lists *)

(** A list of options without [None]. *)
Lemma list_all_Some {A} (l : list (option A)) :
  (∀ x, x ∈ l → is_Some x) → ∃ k, l = Some <$> k.
Proof.
  induction l as [|x l IH]; intros H; [by exists []|].
  destruct (H x) as [y ->]; [left|]. destruct IH as [k ->]; [intros; apply H; by right|].
  by exists (y :: k).
Qed.

(** A list is cut at an element in one way when the element is not in the first part. *)
Lemma split_unique {A} (x : A) l1 l2 r1 r2 :
  l1 ++ x :: r1 = l2 ++ x :: r2 → x ∉ l1 → x ∉ l2 → l1 = l2 ∧ r1 = r2.
Proof.
  revert l2. induction l1 as [|a l1 IH]; intros [|b l2] Heq H1 H2; simpl in *.
  - by injection Heq.
  - injection Heq as <- _. set_solver.
  - injection Heq as -> _. set_solver.
  - injection Heq as <- Heq. destruct (IH l2 Heq) as [-> ->]; [set_solver..|done].
Qed.
