(* ===== verification/GoErrors.v ===== *)
(** * Go errors and the outcome of a call

    The [error] values of the repository with their [Error()] texts, the
    [errors.Is]/[errors.As] walk over a chain of wrapped errors, and the type
    [result] of what a Go call does: it returns a value, returns an error, or
    panics. *)
From S2P Require Import Prelude.

(** ** Public keys and hash identifiers of the standard library

    They are declared here because the error type below carries them. *)

(** [rsa.PublicKey], [ecdsa.PublicKey] (the curve by its parameters' name and
    bit size) and [ed25519.PublicKey]; a [crypto.PublicKey] is an [any] holding
    one of them or a value of some other type, of which only the type's name
    matters to the sources. *)
Record rsa_PublicKey := { rsa_N : Z; rsa_E : Z }.
Record ecdsa_PublicKey := { ecdsa_Curve_Name : string; ecdsa_X : Z; ecdsa_Y : Z }.

Inductive PublicKey :=
  | PK_rsa (k : rsa_PublicKey)
  | PK_ecdsa (k : ecdsa_PublicKey)
  | PK_ed25519 (k : bytes)
  | PK_other (type_name : string).

(** [crypto.Hash] is an unsigned integer. *)
Abbreviation Hash := Z (only parsing).

#[export] Instance rsa_PublicKey_eq_dec : EqDecision rsa_PublicKey.
Proof. solve_decision. Defined.
#[export] Instance ecdsa_PublicKey_eq_dec : EqDecision ecdsa_PublicKey.
Proof. solve_decision. Defined.
#[export] Instance PublicKey_eq_dec : EqDecision PublicKey.
Proof. solve_decision. Defined.

(** ** Go errors *)

(** Package-level error values compared by identity with [errors.Is]; the text
    each of them carries belongs to the package that declares it. *)
Inductive sentinel := ErrPushback | ContextCanceled | ErrServerClosed | EOF.

#[export] Instance sentinel_eq_dec : EqDecision sentinel.
Proof. solve_decision. Defined.

(** [codes.Code] of gRPC, the codes the sources use, with their texts. *)
Inductive Code := OK | Canceled | Unknown | InvalidArgument | AlreadyExists | Unimplemented | Internal | Unavailable.

#[export] Instance Code_eq_dec : EqDecision Code.
Proof. solve_decision. Defined.

Definition Code_String (c : Code) : string :=
  match c with
  | OK => "OK" | Canceled => "Canceled" | Unknown => "Unknown" | InvalidArgument => "InvalidArgument"
  | AlreadyExists => "AlreadyExists" | Unimplemented => "Unimplemented" | Internal => "Internal"
  | Unavailable => "Unavailable"
  end.

(** An [error] value.  [ErrorString] is [errors.New] and every [fmt.Errorf]
    without [%w]; [Wrapf p e] is [fmt.Errorf("p%w", e)], which keeps [e] in
    the chain that [errors.Is] and [errors.As] walk.  [StatusError] is
    [status.Errorf] of gRPC; the remaining constructors are the repository's
    own error types. *)
Inductive error :=
  | ErrorString (msg : string)
  | Sentinel (s : sentinel) (text : string)
  | Wrapf (prefix : string) (err : error)
  | DuplicateError (index : Z)
  | InclusionProofVerificationError (index : Z) (err : error)
  | UnsupportedAlgorithm (Pub : PublicKey) (Alg : Hash)
  | StatusError (code : Code) (desc : string).

#[export] Instance error_eq_dec : EqDecision error.
Proof. solve_decision. Defined.

(** [errors.Unwrap]. *)
Definition Unwrap (e : error) : option error :=
  match e with
  | Wrapf _ e' | InclusionProofVerificationError _ e' => Some e'
  | _ => None
  end.

(** The chain [errors.Is] and [errors.As] inspect: the error, then what it unwraps to. *)
Fixpoint chain (e : error) : list error :=
  e :: match e with
       | Wrapf _ e' | InclusionProofVerificationError _ e' => chain e'
       | _ => []
       end.

(** [errors.Is(err, s)] for a sentinel [s]. *)
Definition errors_Is (e : error) (s : sentinel) : bool :=
  existsb (λ x, match x with Sentinel s' _ => bool_decide (s' = s) | _ => false end) (chain e).

(** [errors.As] for a target of one type: the first error of the chain the
    selector [sel] recognises. *)
Definition errors_As {A} (sel : error → option A) (e : error) : option A :=
  head (omap sel (chain e)).

(** ** Texts *)

(** [Hash.String] of package crypto. *)
Definition Hash_String (h : Hash) : string :=
  match nth_error
    ["MD4"; "MD5"; "SHA-1"; "SHA-224"; "SHA-256"; "SHA-384"; "SHA-512"; "MD5+SHA1"; "RIPEMD-160";
     "SHA3-224"; "SHA3-256"; "SHA3-384"; "SHA3-512"; "SHA-512/224"; "SHA-512/256";
     "BLAKE2s-256"; "BLAKE2b-256"; "BLAKE2b-384"; "BLAKE2b-512"] (Z.to_nat (h - 1)) with
  | Some s => if 1 <=? h then s else "unknown hash value " +:+ Itoa h
  | None => "unknown hash value " +:+ Itoa h
  end.

Definition crypto_SHA256 : Hash := 5.
Definition crypto_SHA384 : Hash := 6.
Definition crypto_SHA512 : Hash := 7.

(** [rsa.PublicKey.Size]: the modulus size in bytes, from [big.Int.BitLen]. *)
Definition BitLen (n : Z) : Z := if n =? 0 then 0 else Z.log2 (Z.abs n) + 1.
Definition rsa_Size (k : rsa_PublicKey) : Z := (BitLen (rsa_N k) + 7) / 8.

(** [UnsupportedAlgorithm.Error] *)
Definition UnsupportedAlgorithm_Error (Pub : PublicKey) (Alg : Hash) : string :=
  let hash := Hash_String Alg in
  match Pub with
  | PK_rsa v =>
      let bits := rsa_Size v * 8 in
      "unsupported entry algorithm for RSA key, size " +:+ Itoa bits +:+ ", digest " +:+ hash
  | PK_ecdsa v =>
      let name := ecdsa_Curve_Name v in
      "unsupported entry algorithm for ECDSA key, curve " +:+ name +:+ ", digest " +:+ hash
  | PK_ed25519 _ => "unsupported entry algorithm for Ed25519 key, digest " +:+ hash
  | PK_other ty => "unsupported key type " +:+ ty +:+ ", digest " +:+ hash
  end.

(** [DuplicateError.Error] and [DuplicateError.Index] *)
Definition DuplicateError_Error (index : Z) : string :=
  "an equivalent entry already exists in the transparency log with index " +:+ FormatUint index.

(** [InclusionProofVerificationError.Error], given the text of the error inside *)
Definition InclusionProofVerificationError_Error (index : Z) (err_text : string) : string :=
  "verifying inclusion proof for index " +:+ FormatUint index +:+ ": " +:+ err_text.

(** The method [Error] of the [error] interface. *)
Fixpoint Error (e : error) : string :=
  match e with
  | ErrorString msg => msg
  | Sentinel _ text => text
  | Wrapf p e' => p +:+ Error e'
  | DuplicateError i => DuplicateError_Error i
  | InclusionProofVerificationError i e' => InclusionProofVerificationError_Error i (Error e')
  | UnsupportedAlgorithm pub alg => UnsupportedAlgorithm_Error pub alg
  | StatusError c desc => "rpc error: code = " +:+ Code_String c +:+ " desc = " +:+ desc
  end.

(** ** Results: a value, an error, or a run-time panic *)

(** What a Go call returning [(A, error)] does.  [Panic] is a nil dereference
    (or another run-time panic) reached on the way. *)
Inductive result (A : Type) :=
  | Ok (a : A)
  | Err (e : error)
  | Panic.
Arguments Ok {A} a.
Arguments Err {A} e.
Arguments Panic {A}.

#[export] Instance result_eq_dec `{EqDecision A} : EqDecision (result A).
Proof. solve_decision. Defined.

#[export] Instance result_ret : MRet result := λ A a, Ok a.
#[export] Instance result_bind : MBind result := λ A B f m,
  match m with Ok a => f a | Err e => Err e | Panic => Panic end.
#[export] Instance result_fmap : FMap result := λ A B f m,
  match m with Ok a => Ok (f a) | Err e => Err e | Panic => Panic end.

(** [if err != nil { return ..., fmt.Errorf("p%w", err) }] *)
Definition wrap {A} (p : string) (m : result A) : result A :=
  match m with Ok a => Ok a | Err e => Err (Wrapf p e) | Panic => Panic end.

(** The same with [%v]: only the text of the error survives. *)
Definition wrapv {A} (p : string) (m : result A) : result A :=
  match m with Ok a => Ok a | Err e => Err (ErrorString (p +:+ Error e)) | Panic => Panic end.

(** Dereferencing a pointer to a message: nil panics. *)
Definition deref {A} (p : option A) : result A :=
  match p with Some a => Ok a | None => Panic end.

(** [if cond { return ..., e }] *)
Definition guard_err (cond : bool) (e : error) : result unit :=
  if cond then Err e else Ok tt.

Definition is_Ok {A} (m : result A) : Prop := match m with Ok _ => True | _ => False end.
Definition is_Err {A} (m : result A) : Prop := match m with Err _ => True | _ => False end.
Definition no_panic {A} (m : result A) : Prop := match m with Panic => False | _ => True end.

#[export] Instance is_Ok_dec {A} (m : result A) : Decision (is_Ok m).
Proof. destruct m; simpl; apply _. Defined.
#[export] Instance no_panic_dec {A} (m : result A) : Decision (no_panic m).
Proof. destruct m; simpl; apply _. Defined.


(** ** Inversion and reasoning lemmas *)

Section results.
Context {A B : Type}.
Implicit Types (m : result A) (f : A → result B).

Lemma bind_Ok f m b : m ≫= f = Ok b ↔ ∃ a, m = Ok a ∧ f a = Ok b.
Proof. destruct m; cbn; naive_solver. Qed.

Lemma bind_Err f m e :
  m ≫= f = Err e ↔ m = Err e ∨ ∃ a, m = Ok a ∧ f a = Err e.
Proof. destruct m; cbn; naive_solver. Qed.

Lemma wrap_Ok p m a : wrap p m = Ok a ↔ m = Ok a.
Proof. destruct m; cbn; naive_solver. Qed.

Lemma wrap_Err p m e : wrap p m = Err e ↔ ∃ e', m = Err e' ∧ e = Wrapf p e'.
Proof. destruct m; cbn; naive_solver. Qed.

Lemma wrapv_Ok p m a : wrapv p m = Ok a ↔ m = Ok a.
Proof. destruct m; cbn; naive_solver. Qed.

Lemma deref_Ok (p : option A) a : deref p = Ok a ↔ p = Some a.
Proof. destruct p; cbn; naive_solver. Qed.

Lemma guard_err_Ok c e u : guard_err c e = Ok u ↔ c = false.
Proof. destruct c, u; cbn; naive_solver. Qed.

Lemma no_panic_Ok (a : A) : no_panic (Ok a).
Proof. exact I. Qed.

Lemma no_panic_Err (e : error) : no_panic (@Err A e).
Proof. exact I. Qed.

Lemma no_panic_wrap p m : no_panic m → no_panic (wrap p m).
Proof. by destruct m. Qed.

Lemma no_panic_wrapv p m : no_panic m → no_panic (wrapv p m).
Proof. by destruct m. Qed.

Lemma no_panic_guard c e : no_panic (guard_err c e).
Proof. by destruct c. Qed.

Lemma no_panic_deref (p : option A) : is_Some p → no_panic (deref p).
Proof. intros [? ->]. exact I. Qed.

Lemma no_panic_bind f m :
  no_panic m → (∀ a, m = Ok a → no_panic (f a)) → no_panic (m ≫= f).
Proof. destruct m; cbn; naive_solver. Qed.
End results.

#[export] Hint Resolve no_panic_Ok no_panic_Err no_panic_wrap no_panic_wrapv
  no_panic_guard no_panic_deref : go.

(** Decompose a successful run: every bind, wrapped call, dereference and guard
    of a hypothesis [_ = Ok _] is turned into the equations it stands for. *)
Ltac go_inv_step :=
  match goal with
  | H : mbind _ _ = Ok _ |- _ => apply bind_Ok in H as (? & ? & ?)
  | H : wrap _ _ = Ok _ |- _ => apply wrap_Ok in H
  | H : wrapv _ _ = Ok _ |- _ => apply wrapv_Ok in H
  | H : deref _ = Ok _ |- _ => apply deref_Ok in H
  | H : guard_err _ _ = Ok _ |- _ => apply guard_err_Ok in H
  | H : Ok _ = Ok _ |- _ => injection H as H
  | H : mret _ = Ok _ |- _ => injection H as H
  | H : Err _ = Ok _ |- _ => discriminate H
  | H : Panic = Ok _ |- _ => discriminate H
  end.
Ltac go_inv := repeat (go_inv_step; simpl in *; subst).

(** ** Loops that stop at the first error *)

Lemma mapM_Ok {A B} (f : A → result B) l k :
  mapM f l = Ok k ↔ Forall2 (λ x y, f x = Ok y) l k.
Proof.
  revert k. induction l as [|x l IH]; intros k; simpl.
  - split; [intros [= <-]; constructor|]. by inversion 1.
  - split.
    + intros H. go_inv. constructor; [done|]. by apply IH.
    + inversion_clear 1 as [|? y ? k' Hx Hl]. rewrite Hx. cbn.
      apply IH in Hl. by rewrite Hl.
Qed.

Lemma mapM_Ok_elem {A B} (f : A → result B) l k x :
  mapM f l = Ok k → x ∈ l → ∃ y, f x = Ok y.
Proof.
  intros Hm [i Hi]%list_elem_of_lookup. apply mapM_Ok in Hm.
  destruct (Forall2_lookup_l _ _ _ _ _ Hm Hi) as (y & _ & Hy). eauto.
Qed.

Lemma no_panic_mapM {A B} (f : A → result B) l :
  (∀ x, x ∈ l → no_panic (f x)) → no_panic (mapM f l).
Proof.
  induction l as [|x l IH]; intros Hf; simpl; [exact I|].
  apply no_panic_bind; [apply Hf; left|]. intros y _.
  apply no_panic_bind; [apply IH; intros; apply Hf; by right|]. intros; exact I.
Qed.

(** ** Chains *)

Lemma chain_Wrapf p e : chain (Wrapf p e) = Wrapf p e :: chain e.
Proof. reflexivity. Qed.

Lemma errors_Is_Wrapf p e s : errors_Is (Wrapf p e) s = errors_Is e s.
Proof. reflexivity. Qed.

Lemma errors_As_Wrapf {A} (sel : error → option A) p e :
  sel (Wrapf p e) = None → errors_As sel (Wrapf p e) = errors_As sel e.
Proof. intros H. unfold errors_As. cbn. by rewrite H. Qed.

Lemma errors_Is_Sentinel s t s' : errors_Is (Sentinel s t) s' = bool_decide (s = s').
Proof. unfold errors_Is. cbn. by rewrite orb_false_r. Qed.

#[export] Hint Rewrite errors_Is_Wrapf errors_Is_Sentinel : go.
