(* ===== verification/GoStrings.v ===== *)
(** * The parts of packages strings, strconv and slices that the sources use

    Octets of a string as integers, [strings.HasPrefix], [strings.TrimPrefix],
    [strings.Index], [strings.Contains], [strconv.Atoi], and [slices.Sort] on
    strings (octet-wise lexicographic order). *)
From S2P Require Import Prelude GoErrors.

(** ** Octets *)

Definition octet (c : ascii) : Z := Z.of_N (N_of_ascii c).
Definition char_of (z : Z) : ascii := ascii_of_N (Z.to_N z).

Definition octets (s : string) : list Z := octet <$> list_ascii_of_string s.
Definition of_octets (l : list Z) : string := string_of_list_ascii (char_of <$> l).

Definition is_octet (z : Z) : Prop := 0 ≤ z < 256.

#[export] Instance is_octet_dec z : Decision (is_octet z).
Proof. unfold is_octet. apply _. Defined.

Lemma octet_range c : is_octet (octet c).
Proof. unfold is_octet, octet. pose proof (N_ascii_bounded c). lia. Qed.

Lemma char_of_octet c : char_of (octet c) = c.
Proof. unfold char_of, octet. rewrite N2Z.id. apply ascii_N_embedding. Qed.

Lemma octet_char_of z : is_octet z → octet (char_of z) = z.
Proof. unfold is_octet, char_of, octet. intros. rewrite N_ascii_embedding; lia. Qed.

Lemma octet_inj c c' : octet c = octet c' → c = c'.
Proof. intros H. by rewrite <-(char_of_octet c), <-(char_of_octet c'), H. Qed.

Lemma octets_range s : Forall is_octet (octets s).
Proof. unfold octets. apply Forall_fmap, Forall_true. intros. apply octet_range. Qed.

Lemma of_octets_octets s : of_octets (octets s) = s.
Proof.
  unfold of_octets, octets. rewrite <-list_fmap_compose.
  rewrite (list_fmap_ext _ id) by (intros; apply char_of_octet).
  rewrite list_fmap_id. apply string_of_list_ascii_of_string.
Qed.

Lemma octets_of_octets l : Forall is_octet l → octets (of_octets l) = l.
Proof.
  unfold of_octets, octets. rewrite list_ascii_of_string_of_list_ascii.
  induction 1; simpl; f_equal; auto using octet_char_of.
Qed.

Lemma octets_inj s s' : octets s = octets s' → s = s'.
Proof. intros H. by rewrite <-(of_octets_octets s), <-(of_octets_octets s'), H. Qed.

Lemma octets_app s s' : octets (s +:+ s') = octets s ++ octets s'.
Proof. unfold octets. induction s as [|c s IH]; simpl; [done|]. by f_equal. Qed.

Lemma of_octets_app l l' : of_octets (l ++ l') = of_octets l +:+ of_octets l'.
Proof. unfold of_octets. induction l as [|z l IH]; simpl; [done|]. by f_equal. Qed.

Lemma length_octets s : length (octets s) = String.length s.
Proof. unfold octets. rewrite length_fmap. induction s; simpl; auto. Qed.

(** ** Appending *)

Lemma append_assoc s1 s2 s3 : (s1 +:+ s2) +:+ s3 = s1 +:+ s2 +:+ s3.
Proof. induction s1; simpl; congruence. Qed.

Lemma append_empty_r s : s +:+ "" = s.
Proof. induction s; simpl; congruence. Qed.

Lemma append_inj_l s s1 s2 : s +:+ s1 = s +:+ s2 → s1 = s2.
Proof. induction s; simpl; naive_solver. Qed.

Lemma length_append s1 s2 : String.length (s1 +:+ s2) = (String.length s1 + String.length s2)%nat.
Proof. induction s1; simpl; congruence. Qed.

(** ** Searching *)

Definition HasPrefix (s pre : string) : bool := String.prefix pre s.

Definition TrimPrefix (s pre : string) : string :=
  if HasPrefix s pre then String.substring (String.length pre) (String.length s - String.length pre) s
  else s.

(** [strings.Index]: the offset of the first instance of [sub], [None] for -1. *)
Definition Index (s sub : string) : option nat := String.index 0 sub s.
Definition Contains (s sub : string) : bool := match Index s sub with Some _ => true | None => false end.

(** [s[:n]] and [s[n:]] for an [n] within [s] *)
Definition slice_to (s : string) (n : nat) : string := String.substring 0 n s.
Definition slice_from (s : string) (n : nat) : string := String.substring n (String.length s - n) s.

Lemma substring_full s : String.substring 0 (String.length s) s = s.
Proof. induction s; simpl; congruence. Qed.

Lemma substring_append_l s1 s2 : String.substring 0 (String.length s1) (s1 +:+ s2) = s1.
Proof. induction s1; simpl; [by destruct s2|congruence]. Qed.

Lemma substring_append_r s1 s2 n :
  String.substring (String.length s1) n (s1 +:+ s2) = String.substring 0 n s2.
Proof. induction s1; simpl; auto. Qed.

Lemma Contains_append s1 sub s2 : Contains (s1 +:+ sub +:+ s2) sub = true.
Proof.
  unfold Contains, Index. destruct (String.index _ _ _) eqn:E; [done|].
  destruct sub as [|c sub]; [by destruct (s1 +:+ "" +:+ s2)|].
  exfalso. eapply (index_correct3 0 (String.length s1)); [exact E|done|lia|].
  rewrite substring_append_r. apply substring_append_l.
Qed.

Lemma prefix_append p s : String.prefix p (p +:+ s) = true.
Proof. induction p as [|c p IH]; simpl; [by destruct s|]. destruct (ascii_dec c c); [exact IH|congruence]. Qed.

Lemma prefix_inv p s : String.prefix p s = true → ∃ s', s = p +:+ s'.
Proof.
  revert s. induction p as [|c p IH]; intros s H; simpl in *; [by exists s|].
  destruct s as [|c' s]; [done|]. simpl in H.
  destruct (ascii_dec c c') as [->|]; [|congruence].
  destruct (IH _ H) as [s' ->]. by exists s'.
Qed.

Lemma HasPrefix_spec s p : HasPrefix s p = true ↔ ∃ s', s = p +:+ s'.
Proof. split; [apply prefix_inv|]. intros [s' ->]. apply prefix_append. Qed.

Lemma TrimPrefix_append p s : TrimPrefix (p +:+ s) p = s.
Proof.
  unfold TrimPrefix, HasPrefix. rewrite prefix_append, length_append, substring_append_r.
  replace (String.length p + String.length s - String.length p)%nat with (String.length s) by lia.
  apply substring_full.
Qed.

(** ** [strconv.Atoi] on 64-bit [int] *)

Definition digit_of (c : ascii) : option Z :=
  let z := octet c in if (48 <=? z) && (z <=? 57) then Some (z - 48) else None.

Fixpoint digits_val (acc : Z) (l : list ascii) : option Z :=
  match l with
  | [] => Some acc
  | c :: l' => match digit_of c with Some d => digits_val (10 * acc + d) l' | None => None end
  end.

(** At least one digit; before it, an optional sign. *)
Definition unsigned_val (l : list ascii) : option Z := match l with [] => None | _ => digits_val 0 l end.

Definition signed_val (l : list ascii) : option Z :=
  match l with
  | c :: l' =>
      if Ascii.eqb c "-" then Z.opp <$> unsigned_val l'
      else if Ascii.eqb c "+" then unsigned_val l'
      else unsigned_val l
  | [] => None
  end.

(** The value must be in the range of [int]. *)
Definition Atoi (s : string) : result Z :=
  let bad := Err (ErrorString ("strconv.Atoi: parsing " +:+ s)) in
  match signed_val (list_ascii_of_string s) with
  | Some n => if (- 2 ^ 63 <=? n) && (n <=? MaxInt64) then Ok n else bad
  | None => bad
  end.

(** Parsing reads back what formatting writes. *)
Lemma digit_of_pretty_char (n : N) : (n < 10)%N → digit_of (pretty_N_char n) = Some (Z.of_N n).
Proof.
  intros Hn. assert (n = 0 ∨ n = 1 ∨ n = 2 ∨ n = 3 ∨ n = 4 ∨ n = 5 ∨ n = 6 ∨ n = 7 ∨ n = 8 ∨ n = 9)%N by lia.
  repeat match goal with H : _ ∨ _ |- _ => destruct H as [->|H] | H : n = _ |- _ => subst n end; reflexivity.
Qed.

Lemma digits_val_pretty (x : N) s :
  digits_val 0 (list_ascii_of_string (pretty_N_go x s)) = digits_val (Z.of_N x) (list_ascii_of_string s).
Proof.
  revert s. induction (N.lt_wf_0 x) as [x _ IH]. intros s.
  destruct (decide (0 < x)%N) as [Hx|Hx].
  - rewrite pretty_N_go_step by done. rewrite IH by (apply N.div_lt; lia). cbn [list_ascii_of_string digits_val].
    rewrite digit_of_pretty_char by (apply N.mod_lt; lia). f_equal. rewrite (N.div_mod x 10) at 3 by lia. lia.
  - replace x with 0%N by lia. by rewrite pretty_N_go_0.
Qed.

Lemma pretty_N_head (n : N) : ∃ c l, list_ascii_of_string (pretty n) = c :: l ∧ c ≠ "-"%char ∧ c ≠ "+"%char.
Proof.
  destruct (decide (n = 0)%N) as [->|Hn]; [by eexists _, _|].
  assert (digits_val 0 (list_ascii_of_string (pretty n)) = Some (Z.of_N n)) as Hd.
  { unfold pretty, pretty_N. rewrite decide_False by done. apply digits_val_pretty. }
  destruct (list_ascii_of_string (pretty n)) as [|c l]; [cbn in Hd; injection Hd; lia|].
  exists c, l. split; [done|]. cbn [digits_val] in Hd.
  split; intros ->; discriminate Hd.
Qed.

Lemma digits_val_FormatUint n : 0 ≤ n → digits_val 0 (list_ascii_of_string (FormatUint n)) = Some n.
Proof.
  intros Hn. unfold FormatUint. destruct (decide (n = 0)) as [->|Hne]; [done|].
  unfold pretty, pretty_N. rewrite decide_False by lia. rewrite digits_val_pretty. cbn. f_equal. lia.
Qed.

Lemma signed_val_FormatUint n : 0 ≤ n → signed_val (list_ascii_of_string (FormatUint n)) = Some n.
Proof.
  intros Hn. pose proof (digits_val_FormatUint n Hn) as Hd.
  destruct (pretty_N_head (Z.to_N n)) as (c & l & Hl & Hm & Hp). unfold FormatUint in *.
  rewrite Hl in Hd |- *. cbn [signed_val unsigned_val].
  by rewrite (proj2 (Ascii.eqb_neq c "-") Hm), (proj2 (Ascii.eqb_neq c "+") Hp).
Qed.

Lemma Atoi_FormatUint n : 0 ≤ n ≤ MaxInt64 → Atoi (FormatUint n) = Ok n.
Proof.
  intros Hn. unfold Atoi. rewrite signed_val_FormatUint by lia.
  assert ((- 2 ^ 63 <=? n) && (n <=? MaxInt64) = true) as ->; [|done].
  apply andb_true_iff. split; apply Z.leb_le; lia.
Qed.

(** ** [slices.Sort] on strings *)

Definition string_le (s t : string) : Prop := String.leb s t = true.

#[export] Instance string_le_dec : RelDecision string_le.
Proof. intros s t. unfold string_le. apply _. Defined.

#[export] Instance string_le_total : Total string_le.
Proof. intros s t. unfold string_le. apply String.leb_total. Qed.

Lemma string_compare_lt_trans s t r :
  String.compare s t = Lt → String.compare t r = Lt → String.compare s r = Lt.
Proof.
  revert t r. induction s as [|c s IH]; intros [|c' t] [|c'' r]; simpl; try done.
  destruct (Ascii.compare c c') eqn:E1; try done;
  destruct (Ascii.compare c' c'') eqn:E2; try done; intros H1 H2;
  unfold Ascii.compare in *;
  rewrite ?N.compare_eq_iff, ?N.compare_lt_iff in E1;
  rewrite ?N.compare_eq_iff, ?N.compare_lt_iff in E2.
  - replace (N_of_ascii c ?= N_of_ascii c'')%N with Eq by (symmetry; apply N.compare_eq_iff; lia).
    eauto.
  - by replace (N_of_ascii c ?= N_of_ascii c'')%N with Lt by (symmetry; apply N.compare_lt_iff; lia).
  - by replace (N_of_ascii c ?= N_of_ascii c'')%N with Lt by (symmetry; apply N.compare_lt_iff; lia).
  - by replace (N_of_ascii c ?= N_of_ascii c'')%N with Lt by (symmetry; apply N.compare_lt_iff; lia).
Qed.

Lemma string_le_lt_or_eq s t : string_le s t ↔ String.compare s t = Lt ∨ s = t.
Proof.
  unfold string_le, String.leb. split.
  - pose proof (String.compare_eq_iff s t) as Heq.
    destruct (String.compare s t); intuition congruence.
  - intros [->| ->]; [done|].
    assert (String.compare t t = Eq) as -> by (induction t as [|c t IH]; simpl; [done|];
      unfold Ascii.compare; by rewrite N.compare_refl). done.
Qed.

#[export] Instance string_le_trans : Transitive string_le.
Proof.
  intros s t r. rewrite !string_le_lt_or_eq. intros [H1| ->] [H2| ->]; eauto using string_compare_lt_trans.
Qed.

#[export] Instance string_le_antisymm : AntiSymm (=) string_le.
Proof.
  intros s t. rewrite !string_le_lt_or_eq. intros [H1| ->] [H2|H2]; try done.
  rewrite String.compare_antisym, H2 in H1. done.
Qed.

Definition Sort (l : list string) : list string := merge_sort string_le l.

Lemma Sort_Sorted l : Sorted string_le (Sort l).
Proof. apply Sorted_merge_sort, _. Qed.

Lemma Sort_perm l : Sort l ≡ₚ l.
Proof. apply merge_sort_Permutation. Qed.

(** Sorting forgets the order of its input. *)
Lemma Sort_ext l l' : l ≡ₚ l' → Sort l = Sort l'.
Proof.
  intros H. eapply (Sorted_unique string_le); auto using Sort_Sorted.
  by rewrite !Sort_perm.
Qed.
