(* ===== verification/GoPath.v ===== *)
(** * Package path: [Clean] and [Join] on slash-separated paths

    [path/filepath] does the same on the systems the program runs on. *)
From S2P Require Import Prelude GoErrors GoStrings.

Fixpoint split_slash (s : string) : list string :=
  match s with
  | EmptyString => [""]
  | String c s' =>
      if bool_decide (c = "/"%char) then "" :: split_slash s'
      else match split_slash s' with
           | h :: t => String c h :: t
           | [] => [String c ""]
           end
  end.

Definition join_slash (cs : list string) : string := String.concat "/" cs.

(** One component onto the stack of components (the last one first). *)
Definition clean_step (rooted : bool) (stack : list string) (c : string) : list string :=
  if bool_decide (c = "") || bool_decide (c = ".") then stack
  else if bool_decide (c = "..") then
    match stack with
    | top :: stack' => if bool_decide (top = "..") then c :: stack else stack'
    | [] => if rooted then [] else [c]
    end
  else c :: stack.

Definition Clean (s : string) : string :=
  let rooted := HasPrefix s "/" in
  let body := join_slash (reverse (foldl (clean_step rooted) [] (split_slash s))) in
  if rooted then "/" +:+ body
  else if is_empty body then "." else body.

Definition Join (elems : list string) : string :=
  match List.filter (λ e, negb (is_empty e)) elems with
  | [] => ""
  | l => Clean (join_slash l)
  end.

(** ** Paths of plain components *)

(** A component that [Clean] keeps. *)
Definition plain (c : string) : Prop :=
  c ≠ "" ∧ c ≠ "." ∧ c ≠ ".." ∧ "/"%char ∉ list_ascii_of_string c.

#[export] Instance plain_dec c : Decision (plain c).
Proof. unfold plain. apply _. Defined.

Lemma split_slash_plain c rest :
  "/"%char ∉ list_ascii_of_string c → split_slash (c +:+ "/" +:+ rest) = c :: split_slash rest.
Proof.
  induction c as [|a c IH]; intros Hc; [done|]. cbn in *. apply not_elem_of_cons in Hc as [Ha Hc].
  rewrite bool_decide_false by congruence. cbn in IH. by rewrite IH.
Qed.

Lemma split_slash_one c : "/"%char ∉ list_ascii_of_string c → split_slash c = [c].
Proof.
  induction c as [|a c IH]; intros Hc; [done|]. cbn in *. apply not_elem_of_cons in Hc as [Ha Hc].
  rewrite bool_decide_false by congruence. by rewrite IH.
Qed.

Lemma join_slash_cons c c' cs : join_slash (c :: c' :: cs) = c +:+ "/" +:+ join_slash (c' :: cs).
Proof. reflexivity. Qed.

Lemma join_slash_app cs cs' : cs ≠ [] → cs' ≠ [] → join_slash (cs ++ cs') = join_slash cs +:+ "/" +:+ join_slash cs'.
Proof.
  intros Hne Hne'. induction cs as [|c [|c' cs] IH]; [done| |].
  - destruct cs'; [done|]. reflexivity.
  - change ((c :: c' :: cs) ++ cs') with (c :: c' :: (cs ++ cs')). rewrite join_slash_cons.
    change (c' :: cs ++ cs') with ((c' :: cs) ++ cs'). rewrite IH by done. rewrite join_slash_cons, !append_assoc.
    reflexivity.
Qed.

Lemma split_join_no_slash cs :
  cs ≠ [] → Forall (λ c, "/"%char ∉ list_ascii_of_string c) cs → split_slash (join_slash cs) = cs.
Proof.
  induction cs as [|c [|c' cs] IH]; intros Hne Hp; [done| |]; apply Forall_cons in Hp as [Hc Hp].
  - by apply split_slash_one.
  - rewrite join_slash_cons, split_slash_plain by done. by rewrite IH.
Qed.

Lemma split_join cs : cs ≠ [] → Forall plain cs → split_slash (join_slash cs) = cs.
Proof.
  intros Hne Hp. apply split_join_no_slash; [done|]. eapply Forall_impl; [exact Hp|]. by intros c (_ & _ & _ & Hc).
Qed.

Lemma clean_step_plain rooted stack c : plain c → clean_step rooted stack c = c :: stack.
Proof.
  intros (H1 & H2 & H3 & _). unfold clean_step. by rewrite !bool_decide_false.
Qed.

Lemma foldl_clean_plain rooted stack cs :
  Forall plain cs → foldl (clean_step rooted) stack cs = reverse cs ++ stack.
Proof.
  revert stack. induction cs as [|c cs IH]; intros stack Hp; [done|]. apply Forall_cons in Hp as [Hc Hp].
  cbn [foldl]. rewrite clean_step_plain, IH by done. by rewrite reverse_cons, <-app_assoc.
Qed.

(** A rooted path of plain components, with doubled or trailing slashes, is cleaned to those components. *)
Lemma Clean_rooted p cs :
  split_slash p = cs → HasPrefix p "/" = true →
  Forall plain (List.filter (λ c, negb (is_empty c)) cs) →
  Clean p = "/" +:+ join_slash (List.filter (λ c, negb (is_empty c)) cs).
Proof.
  intros <- Hr Hp. unfold Clean. rewrite Hr. do 2 f_equal.
  assert (∀ l st, Forall plain (List.filter (λ c, negb (is_empty c)) l) →
    foldl (clean_step true) st l = reverse (List.filter (λ c, negb (is_empty c)) l) ++ st) as Hfold.
  { induction l as [|c l IH]; intros st Hl; [done|]. cbn [foldl List.filter] in *. destruct (is_empty c) eqn:He; cbn [negb] in *.
    - apply is_empty_spec in He as ->. by apply IH.
    - apply Forall_cons in Hl as [Hc Hl]. rewrite clean_step_plain, IH by done. by rewrite reverse_cons, <-app_assoc. }
  rewrite Hfold by done. by rewrite app_nil_r, reverse_involutive.
Qed.

Lemma split_slash_ne p : split_slash p ≠ [].
Proof. destruct p as [|c p]; cbn; [done|]. destruct (bool_decide _); [done|]. by destruct (split_slash p). Qed.

Lemma split_slash_append_slash p q :
  split_slash (p +:+ "/" +:+ q) = split_slash p ++ split_slash q.
Proof.
  induction p as [|a p IH]; [reflexivity|]. cbn -[split_slash String.append]. 
  change (String a p +:+ "/" +:+ q) with (String a (p +:+ "/" +:+ q)).
  cbn [split_slash]. destruct (bool_decide (a = "/"%char)); [by rewrite IH|].
  rewrite IH. destruct (split_slash p) eqn:Hp; [|done]. by destruct (split_slash_ne p).
Qed.
