(* ===== verification/Base64.v ===== *)
(** * encoding/base64: [StdEncoding.EncodeToString] and [DecodeString]

    The DSSE code converts signatures and payloads between octets and padded
    standard base64.  Both directions follow the library's bit manipulation;
    decoding skips carriage returns and line feeds and, not being strict, does
    not look at the unused low bits before the padding. *)
From S2P Require Import Prelude GoErrors GoStrings.

(** ** Alphabet *)

Definition alphabet : list ascii :=
  list_ascii_of_string "ABCDEFGHIJKLMNOPQRSTUVWXYZabcdefghijklmnopqrstuvwxyz0123456789+/".

Definition enc_char (v : Z) : ascii := nth (Z.to_nat (Z.land v 63)) alphabet "A"%char.

Fixpoint index_of (c : ascii) (l : list ascii) (i : Z) : option Z :=
  match l with
  | [] => None
  | c' :: l' => if bool_decide (c = c') then Some i else index_of c l' (i + 1)
  end.

(** The decoding map: the value of an alphabet character, [None] for any other. *)
Definition dec_char (c : ascii) : option Z := index_of c alphabet 0.

Definition pad : ascii := "="%char.

(** ** Encoding *)

Fixpoint encode (l : list Z) : list ascii :=
  match l with
  | [] => []
  | [b0] =>
      let val := Z.shiftl b0 16 in
      [enc_char (Z.shiftr val 18); enc_char (Z.shiftr val 12); pad; pad]
  | [b0; b1] =>
      let val := Z.lor (Z.shiftl b0 16) (Z.shiftl b1 8) in
      [enc_char (Z.shiftr val 18); enc_char (Z.shiftr val 12); enc_char (Z.shiftr val 6); pad]
  | b0 :: b1 :: b2 :: l' =>
      let val := Z.lor (Z.lor (Z.shiftl b0 16) (Z.shiftl b1 8)) b2 in
      enc_char (Z.shiftr val 18) :: enc_char (Z.shiftr val 12) ::
      enc_char (Z.shiftr val 6) :: enc_char val :: encode l'
  end.

Definition EncodeToString (src : bytes) : string := string_of_list_ascii (encode (octets src)).

(** ** Decoding *)

(** The octets of one quantum of two, three or four alphabet characters. *)
Definition quantum (c0 c1 c2 c3 : Z) : Z :=
  Z.lor (Z.lor (Z.lor (Z.shiftl c0 18) (Z.shiftl c1 12)) (Z.shiftl c2 6)) c3.
Definition byte_at (val sh : Z) : Z := Z.land (Z.shiftr val sh) 255.

Fixpoint decode (l : list ascii) : option (list Z) :=
  match l with
  | [] => Some []
  | a :: b :: c :: d :: l' =>
      va ← dec_char a; vb ← dec_char b;
      if bool_decide (d = pad) && bool_decide (l' = []) then
        if bool_decide (c = pad) then
          Some [byte_at (quantum va vb 0 0) 16]
        else
          vc ← dec_char c;
          let v := quantum va vb vc 0 in Some [byte_at v 16; byte_at v 8]
      else
        vc ← dec_char c; vd ← dec_char d;
        rest ← decode l';
        let v := quantum va vb vc vd in
        Some (byte_at v 16 :: byte_at v 8 :: byte_at v 0 :: rest)
  | _ => None
  end.

Definition is_newline (c : ascii) : bool := bool_decide (c = "010"%char) || bool_decide (c = "013"%char).

(** The error text's offset is not modelled. *)
Definition CorruptInputError : error := ErrorString "illegal base64 data".

Definition DecodeString (s : string) : result bytes :=
  match decode (List.filter (λ c, negb (is_newline c)) (list_ascii_of_string s)) with
  | Some l => Ok (of_octets l)
  | None => Err CorruptInputError
  end.

(** ** Round trip *)

#[global] Arguments dec_char : simpl never.
#[global] Arguments enc_char : simpl never.
#[global] Arguments quantum : simpl never.
#[global] Arguments byte_at : simpl never.

Lemma sextet_cases (P : Z → Prop) :
  Forall P (Z.of_nat <$> seq 0 64) → ∀ v, 0 ≤ v < 64 → P v.
Proof.
  intros H v Hv. rewrite Forall_forall in H. apply H.
  apply list_elem_of_fmap. exists (Z.to_nat v). split; [lia|].
  apply elem_of_seq. lia.
Qed.

Lemma dec_enc_char v : 0 ≤ v < 64 → dec_char (enc_char v) = Some v.
Proof.
  revert v. apply sextet_cases. repeat constructor.
Qed.

Lemma enc_char_mod v : enc_char v = enc_char (v mod 64).
Proof. unfold enc_char. change 63 with (Z.ones 6). rewrite !Z.land_ones by lia. by rewrite Z.mod_mod. Qed.

Lemma dec_enc_char_mod v : dec_char (enc_char v) = Some (v mod 64).
Proof. rewrite enc_char_mod. apply dec_enc_char. apply Z.mod_pos_bound. lia. Qed.

Lemma enc_char_plain v : enc_char v ≠ pad ∧ is_newline (enc_char v) = false.
Proof.
  rewrite enc_char_mod. generalize (Z.mod_pos_bound v 64 ltac:(lia)). generalize (v mod 64).
  apply sextet_cases. repeat constructor; done.
Qed.

Lemma byte_at_val v k : 0 ≤ k → byte_at v k = v / 2 ^ k mod 256.
Proof.
  intros. unfold byte_at. change 255 with (Z.ones 8).
  by rewrite Z.land_ones, Z.shiftr_div_pow2 by lia.
Qed.

Lemma quantum_val c0 c1 c2 c3 :
  0 ≤ c1 < 64 → 0 ≤ c2 < 64 → 0 ≤ c3 < 64 →
  quantum c0 c1 c2 c3 = c0 * 2 ^ 18 + c1 * 2 ^ 12 + c2 * 2 ^ 6 + c3.
Proof.
  intros. unfold quantum.
  rewrite <-!Z.lor_assoc, (Z.lor_assoc (Z.shiftl c1 12)).
  rewrite (Z.lor_comm _ c3), (Z.lor_comm c3).
  rewrite <-Z.lor_assoc, (lor_shiftl c2 c3), (lor_shiftl c1), (lor_shiftl c0) by lia. lia.
Qed.

(** The four sextets of a 24-bit value put together give the value back. *)
Lemma quantum_split v :
  0 ≤ v < 2 ^ 24 →
  quantum (Z.shiftr v 18 mod 64) (Z.shiftr v 12 mod 64) (Z.shiftr v 6 mod 64) (v mod 64) = v.
Proof.
  intros. rewrite quantum_val by (apply Z.mod_pos_bound; lia).
  rewrite !Z.shiftr_div_pow2 by lia. Z.to_euclidean_division_equations. lia.
Qed.

Lemma pack3 b0 b1 b2 :
  is_octet b1 → is_octet b2 →
  Z.lor (Z.lor (Z.shiftl b0 16) (Z.shiftl b1 8)) b2 = b0 * 2 ^ 16 + b1 * 2 ^ 8 + b2.
Proof.
  unfold is_octet. intros. rewrite <-Z.lor_assoc.
  rewrite (lor_shiftl b1 b2), lor_shiftl by lia. lia.
Qed.

Lemma unpack3 b0 b1 b2 :
  is_octet b0 → is_octet b1 → is_octet b2 →
  let v := b0 * 2 ^ 16 + b1 * 2 ^ 8 + b2 in
  0 ≤ v < 2 ^ 24 ∧ byte_at v 16 = b0 ∧ byte_at v 8 = b1 ∧ byte_at v 0 = b2.
Proof.
  unfold is_octet. intros. rewrite !byte_at_val by lia.
  repeat split; Z.to_euclidean_division_equations; lia.
Qed.

Lemma list_ind3 {A} (P : list A → Prop) :
  P [] → (∀ a, P [a]) → (∀ a b, P [a; b]) → (∀ a b c l, P l → P (a :: b :: c :: l)) →
  ∀ l, P l.
Proof.
  intros H0 H1 H2 H3. fix IH 1. intros [|a [|b [|c l]]]; [exact H0|apply H1|apply H2|apply H3, IH].
Qed.

Lemma decode_quantum v l rest :
  0 ≤ v < 2 ^ 24 → decode l = Some rest →
  decode (enc_char (Z.shiftr v 18) :: enc_char (Z.shiftr v 12) ::
          enc_char (Z.shiftr v 6) :: enc_char v :: l)
  = Some (byte_at v 16 :: byte_at v 8 :: byte_at v 0 :: rest).
Proof.
  intros Hv Hl. cbn [decode]. rewrite !dec_enc_char_mod. cbn.
  rewrite (bool_decide_false (enc_char v = pad)) by apply enc_char_plain. cbn.
  rewrite Hl. cbn. by rewrite quantum_split.
Qed.

(** A value whose low sextets are zero is given back without them. *)
Lemma quantum_split2 v :
  0 ≤ v < 2 ^ 24 → v mod 2 ^ 12 = 0 →
  quantum (Z.shiftr v 18 mod 64) (Z.shiftr v 12 mod 64) 0 0 = v.
Proof.
  intros. rewrite quantum_val by (apply Z.mod_pos_bound || done; lia).
  rewrite !Z.shiftr_div_pow2 by lia. Z.to_euclidean_division_equations. lia.
Qed.

Lemma quantum_split3 v :
  0 ≤ v < 2 ^ 24 → v mod 2 ^ 6 = 0 →
  quantum (Z.shiftr v 18 mod 64) (Z.shiftr v 12 mod 64) (Z.shiftr v 6 mod 64) 0 = v.
Proof.
  intros. rewrite quantum_val by (apply Z.mod_pos_bound || done; lia).
  rewrite !Z.shiftr_div_pow2 by lia. Z.to_euclidean_division_equations. lia.
Qed.

Lemma decode_encode l : Forall is_octet l → decode (encode l) = Some l.
Proof.
  induction l as [|b0|b0 b1|b0 b1 b2 l IH] using list_ind3; intros Hl; [done|..];
    repeat match goal with H : Forall _ (_ :: _) |- _ => apply Forall_cons in H as [? H] end.
  - destruct (unpack3 b0 0 0) as (Hv & Hb0 & _); [done..|].
    cbn. rewrite !dec_enc_char_mod. cbn.
    rewrite !Z.mul_0_l, !Z.add_0_r, <-Z.shiftl_mul_pow2 in * by lia.
    rewrite quantum_split2; [by rewrite Hb0|lia|].
    rewrite Z.shiftl_mul_pow2 by lia. Z.to_euclidean_division_equations. lia.
  - destruct (unpack3 b0 b1 0) as (Hv & Hb0 & Hb1 & _); [done..|].
    cbn. rewrite !dec_enc_char_mod.
    rewrite (bool_decide_false (enc_char _ = pad)) by apply enc_char_plain.
    cbn.
    rewrite <-(pack3 b0 b1 0), Z.lor_0_r in * by done.
    rewrite quantum_split3; [by rewrite Hb0, Hb1|lia|].
    rewrite <-(Z.lor_0_r (Z.lor _ _)), pack3 by done. Z.to_euclidean_division_equations. lia.
  - destruct (unpack3 b0 b1 b2) as (Hv & Hb0 & Hb1 & Hb2); [done..|].
    cbn [encode]. rewrite <-(pack3 b0 b1 b2) in * by done.
    rewrite (decode_quantum _ _ l) by auto. by rewrite Hb0, Hb1, Hb2.
Qed.

Lemma encode_no_newline l : List.filter (λ c, negb (is_newline c)) (encode l) = encode l.
Proof.
  assert (∀ v l', List.filter (λ c, negb (is_newline c)) (enc_char v :: l') =
                  enc_char v :: List.filter (λ c, negb (is_newline c)) l') as Hstep.
  { intros v l'. cbn [List.filter]. by rewrite (proj2 (enc_char_plain v)). }
  induction l as [|b0|b0 b1|b0 b1 b2 l IH] using list_ind3; [done|..];
    cbn [encode]; rewrite !Hstep; [done..|]. by rewrite IH.
Qed.

(** Decoding what was encoded returns it. *)
Lemma DecodeString_EncodeToString s : DecodeString (EncodeToString s) = Ok s.
Proof.
  unfold DecodeString, EncodeToString.
  rewrite list_ascii_of_string_of_list_ascii, encode_no_newline.
  rewrite decode_encode by apply octets_range. by rewrite of_octets_octets.
Qed.

#[export] Instance EncodeToString_inj : Inj (=) (=) EncodeToString.
Proof.
  intros s s' H. pose proof (DecodeString_EncodeToString s) as H1.
  rewrite H, DecodeString_EncodeToString in H1. congruence.
Qed.

Lemma EncodeToString_nonempty s : s ≠ "" → EncodeToString s ≠ "".
Proof. intros H H'. apply H. apply (inj EncodeToString). by rewrite H'. Qed.

Lemma DecodeString_no_panic s : no_panic (DecodeString s).
Proof. unfold DecodeString. by case_match. Qed.

#[export] Hint Resolve DecodeString_no_panic : go.
#[export] Hint Rewrite DecodeString_EncodeToString : go.
