(* ===== verification/Utf8.v ===== *)
(** * unicode/utf8 and unicode: validity, runes and white space

    Decoding as [utf8.DecodeRune] does it (shortest forms only, no surrogates,
    nothing above U+10FFFF; an octet that starts no valid sequence stands for
    U+FFFD and is one octet wide), [utf8.ValidString], and [unicode.IsSpace]. *)
From S2P Require Import Prelude GoErrors GoStrings.

Definition RuneError : Z := 65533.

Definition in_range (lo hi z : Z) : bool := (lo <=? z) && (z <=? hi).
Definition cont (z : Z) : bool := in_range 128 191 z.

(** The two-, three- and four-octet sequences that are valid. *)
Definition valid2 (a b : Z) : bool := in_range 194 223 a && cont b.
Definition valid3 (a b c : Z) : bool :=
  cont c &&
  ((a =? 224) && in_range 160 191 b ||
   (in_range 225 236 a || in_range 238 239 a) && cont b ||
   (a =? 237) && in_range 128 159 b).
Definition valid4 (a b c d : Z) : bool :=
  cont c && cont d &&
  ((a =? 240) && in_range 144 191 b ||
   in_range 241 243 a && cont b ||
   (a =? 244) && in_range 128 143 b).

Definition rune2 (a b : Z) : Z := Z.lor (Z.shiftl (Z.land a 31) 6) (Z.land b 63).
Definition rune3 (a b c : Z) : Z :=
  Z.lor (Z.lor (Z.shiftl (Z.land a 15) 12) (Z.shiftl (Z.land b 63) 6)) (Z.land c 63).
Definition rune4 (a b c d : Z) : Z :=
  Z.lor (Z.lor (Z.lor (Z.shiftl (Z.land a 7) 18) (Z.shiftl (Z.land b 63) 12)) (Z.shiftl (Z.land c 63) 6))
        (Z.land d 63).

(** The runes of [for _, r := range s], each with whether its octets were valid. *)
Fixpoint runes (l : list Z) : list (Z * bool) :=
  match l with
  | [] => []
  | a :: l1 =>
      if a <? 128 then (a, true) :: runes l1
      else match l1 with
      | [] => [(RuneError, false)]
      | b :: l2 =>
          if valid2 a b then (rune2 a b, true) :: runes l2
          else match l2 with
          | [] => (RuneError, false) :: runes l1
          | c :: l3 =>
              if valid3 a b c then (rune3 a b c, true) :: runes l3
              else match l3 with
              | [] => (RuneError, false) :: runes l1
              | d :: l4 =>
                  if valid4 a b c d then (rune4 a b c d, true) :: runes l4
                  else (RuneError, false) :: runes l1
              end
          end
      end
  end.

Definition ValidString (s : string) : bool := forallb snd (runes (octets s)).

(** [unicode.IsSpace] *)
Definition IsSpace (r : Z) : bool :=
  in_range 9 13 r || (r =? 32) || (r =? 133) || (r =? 160) || (r =? 5760) || in_range 8192 8202 r ||
  (r =? 8232) || (r =? 8233) || (r =? 8239) || (r =? 8287) || (r =? 12288).

(** [strings.IndexFunc(s, f) < 0] *)
Definition no_rune (f : Z → bool) (s : string) : bool := forallb (λ r, negb (f r.1)) (runes (octets s)).

(** ** An ASCII octet of a valid string is one of its runes *)

Lemma cont_not_ascii b : cont b = true → 128 ≤ b.
Proof. unfold cont, in_range. lia. Qed.

Lemma valid2_not_ascii a b : valid2 a b = true → 128 ≤ b.
Proof. unfold valid2, cont, in_range. lia. Qed.

Lemma valid3_not_ascii a b c : valid3 a b c = true → 128 ≤ b ∧ 128 ≤ c.
Proof. unfold valid3, cont, in_range. lia. Qed.

Lemma valid4_not_ascii a b c d : valid4 a b c d = true → 128 ≤ b ∧ 128 ≤ c ∧ 128 ≤ d.
Proof. unfold valid4, cont, in_range. lia. Qed.

Lemma runes_ascii l z :
  forallb snd (runes l) = true → z ∈ l → z < 128 → (z, true) ∈ runes l.
Proof.
  remember (length l) as n eqn:Hn. revert l Hn.
  induction (lt_wf n) as [n _ IH]. intros l -> Hv Hz Hlt.
  destruct l as [|a l1]; [by apply elem_of_nil in Hz|]. cbn [runes] in *.
  assert (∀ l', (length l' < length (a :: l1))%nat → forallb snd (runes l') = true → z ∈ l' →
    (z, true) ∈ runes l') as IH' by (intros; eapply IH; eauto).
  apply elem_of_cons in Hz as [->|Hz].
  { rewrite (proj2 (Z.ltb_lt a 128)) by lia. left. }
  destruct (a <? 128). { right. apply IH'; [cbn; lia|done|done]. }
  destruct l1 as [|b l2]; [done|].
  destruct (valid2 a b) eqn:V2.
  { apply valid2_not_ascii in V2. right. apply elem_of_cons in Hz as [->|Hz]; [lia|].
    apply IH'; [cbn; lia|done|done]. }
  destruct l2 as [|c l3]; [done|].
  destruct (valid3 a b c) eqn:V3.
  { apply valid3_not_ascii in V3. right. do 2 (apply elem_of_cons in Hz as [->|Hz]; [lia|]).
    apply IH'; [cbn; lia|done|done]. }
  destruct l3 as [|d l4]; [done|].
  destruct (valid4 a b c d) eqn:V4; [|done].
  apply valid4_not_ascii in V4. right. do 3 (apply elem_of_cons in Hz as [->|Hz]; [lia|]).
  apply IH'; [cbn; lia|done|done].
Qed.

(** A valid string without runes satisfying [f] has no ASCII octet satisfying it. *)
Lemma no_rune_ascii f s z :
  ValidString s = true → no_rune f s = true → z < 128 → f z = true → z ∉ octets s.
Proof.
  intros Hv Hf Hz Hfz Hin. pose proof (runes_ascii _ _ Hv Hin Hz) as Hr.
  unfold no_rune in Hf. rewrite forallb_forall in Hf.
  apply list_elem_of_In, Hf in Hr. cbn in Hr. by rewrite Hfz in Hr.
Qed.
