(* ===== verification/Sha256.v ===== *)
(** * crypto/sha256 and encoding/binary

    SHA-256 (FIPS 180-4) on the octets of a string, as [sha256.Sum256] and the
    [sha256.New]/[Write]/[Sum] sequence compute it, and the big-endian reading
    of a digest's first four octets. *)
From S2P Require Import Prelude GoErrors GoStrings.

(** ** 32-bit words *)

Definition w32 (x : Z) : Z := Z.land x (Z.ones 32).
Definition add32 (x y : Z) : Z := w32 (x + y).
Definition rotr (x n : Z) : Z := Z.lor (Z.shiftr x n) (w32 (Z.shiftl x (32 - n))).
Definition not32 (x : Z) : Z := Z.lxor x (Z.ones 32).

Definition Ch (x y z : Z) : Z := Z.lxor (Z.land x y) (Z.land (not32 x) z).
Definition Maj (x y z : Z) : Z := Z.lxor (Z.lxor (Z.land x y) (Z.land x z)) (Z.land y z).
Definition bsig0 (x : Z) : Z := Z.lxor (Z.lxor (rotr x 2) (rotr x 13)) (rotr x 22).
Definition bsig1 (x : Z) : Z := Z.lxor (Z.lxor (rotr x 6) (rotr x 11)) (rotr x 25).
Definition ssig0 (x : Z) : Z := Z.lxor (Z.lxor (rotr x 7) (rotr x 18)) (Z.shiftr x 3).
Definition ssig1 (x : Z) : Z := Z.lxor (Z.lxor (rotr x 17) (rotr x 19)) (Z.shiftr x 10).

(** The standard's constants are the first 32 bits of the fractional parts of
    the cube roots of the first 64 primes and of the square roots of the first
    eight; they are computed here from that definition. *)
Definition is_prime (n : Z) : bool :=
  forallb (λ d, negb (n mod (Z.of_nat d) =? 0)) (seq 2 (Z.to_nat (Z.sqrt n) - 1)).
Definition primes : list Z := List.filter is_prime (Z.of_nat <$> seq 2 310).

(** The integer cube root of [n], bit by bit from bit [k - 1]. *)
Fixpoint cbrt_from (k : nat) (n root : Z) : Z :=
  match k with
  | O => root
  | S k' =>
      let cand := root + 2 ^ Z.of_nat k' in
      cbrt_from k' n (if cand * cand * cand <=? n then cand else root)
  end.

Definition K : list Z := Eval vm_compute in (λ p, w32 (cbrt_from 36 (Z.shiftl p 96) 0)) <$> primes.
Definition H0 : list Z := Eval vm_compute in (λ p, w32 (Z.sqrt (Z.shiftl p 64))) <$> take 8 primes.

(** ** Padding and parsing *)

(** Big-endian octets of [x], [n] of them. *)
Fixpoint be_octets (n : nat) (x : Z) : list Z :=
  match n with
  | O => []
  | S n' => Z.land (Z.shiftr x (8 * Z.of_nat n')) 255 :: be_octets n' x
  end.

Definition be_value (l : list Z) : Z := fold_left (λ acc b, Z.lor (Z.shiftl acc 8) b) l 0.

Definition padding (n : nat) : list Z :=
  128 :: repeat 0 (Z.to_nat ((55 - Z.of_nat n) mod 64)) ++ be_octets 8 (8 * Z.of_nat n).

Fixpoint words (l : list Z) : list Z :=
  match l with
  | a :: b :: c :: d :: l' => be_value [a; b; c; d] :: words l'
  | _ => []
  end.

(** ** Compression *)

(** The message schedule, most recent word first, extended [n] times. *)
Fixpoint schedule (n : nat) (w : list Z) : list Z :=
  match n with
  | O => w
  | S n' =>
      let x := add32 (add32 (ssig1 (nth 1 w 0)) (nth 6 w 0)) (add32 (ssig0 (nth 14 w 0)) (nth 15 w 0)) in
      schedule n' (x :: w)
  end.

Record regs := mk_regs { ra : Z; rb : Z; rc : Z; rd : Z; re : Z; rf : Z; rg : Z; rh : Z }.

Definition round (r : regs) (kw : Z * Z) : regs :=
  let t1 := add32 (add32 (rh r) (bsig1 (re r))) (add32 (Ch (re r) (rf r) (rg r)) (add32 kw.1 kw.2)) in
  let t2 := add32 (bsig0 (ra r)) (Maj (ra r) (rb r) (rc r)) in
  mk_regs (add32 t1 t2) (ra r) (rb r) (rc r) (add32 (rd r) t1) (re r) (rf r) (rg r).

Definition regs_of (h : list Z) : regs :=
  mk_regs (nth 0 h 0) (nth 1 h 0) (nth 2 h 0) (nth 3 h 0) (nth 4 h 0) (nth 5 h 0) (nth 6 h 0) (nth 7 h 0).

Definition compress (h block : list Z) : list Z :=
  let w := reverse (schedule 48 (reverse block)) in
  let r := fold_left round (zip K w) (regs_of h) in
  zip_with add32 h [ra r; rb r; rc r; rd r; re r; rf r; rg r; rh r].

Fixpoint blocks (fuel : nat) (h w : list Z) : list Z :=
  match fuel with
  | O => h
  | S fuel' => match w with [] => h | _ => blocks fuel' (compress h (take 16 w)) (drop 16 w) end
  end.

(** The digest as octets; the words of the padded message bound the number of blocks. *)
Definition sha256_octets (msg : list Z) : list Z :=
  let w := words (msg ++ padding (length msg)) in
  mbind (be_octets 4) (blocks (length w) H0 w).

Definition Sum256 (data : bytes) : bytes := of_octets (sha256_octets (octets data)).

(** [binary.BigEndian.Uint32]: the first four octets. *)
Definition BigEndian_Uint32 (b : bytes) : Z := be_value (take 4 (octets b)).

(** On octets, big-endian by shifts is positional notation. *)
Lemma be_value_4 b0 b1 b2 b3 :
  is_octet b0 → is_octet b1 → is_octet b2 → is_octet b3 →
  be_value [b0; b1; b2; b3] = b0 * 2 ^ 24 + b1 * 2 ^ 16 + b2 * 2 ^ 8 + b3.
Proof. unfold is_octet, be_value. cbn [fold_left]. intros. rewrite !lor_shiftl by lia. lia. Qed.

(** ** Lengths *)

Lemma length_be_octets n x : length (be_octets n x) = n.
Proof. induction n; simpl; auto. Qed.

Lemma be_octets_range n x : Forall is_octet (be_octets n x).
Proof.
  induction n; simpl; constructor; [|done].
  change 255 with (Z.ones 8). rewrite Z.land_ones by lia. unfold is_octet.
  apply Z.mod_pos_bound. lia.
Qed.

Lemma length_compress h b : length h = 8%nat → length (compress h b) = 8%nat.
Proof. intros H. unfold compress. rewrite length_zip_with, H. reflexivity. Qed.

Lemma length_blocks n h w : length h = 8%nat → length (blocks n h w) = 8%nat.
Proof.
  revert h w. induction n as [|n IH]; intros h w H; simpl; [done|].
  destruct w; [done|]. apply IH. by apply length_compress.
Qed.

(** As many steps as there are words are enough: more change nothing. *)
Lemma blocks_fuel n m h w : (length w ≤ n)%nat → (length w ≤ m)%nat → blocks n h w = blocks m h w.
Proof.
  revert m h w. induction n as [|n IH]; intros [|m] h [|x w] Hn Hm; simpl in *; try lia; auto.
  apply IH; rewrite length_drop; lia.
Qed.

Lemma mbind_be_octets l :
  length (mbind (be_octets 4) l) = (4 * length l)%nat ∧ Forall is_octet (mbind (be_octets 4) l).
Proof.
  induction l as [|x l [IH1 IH2]]; [split; [done|constructor]|].
  rewrite bind_cons, length_app, IH1, length_be_octets. simpl length. split; [lia|].
  apply Forall_app. auto using be_octets_range.
Qed.

Lemma octets_Sum256 data : octets (Sum256 data) = sha256_octets (octets data).
Proof. apply octets_of_octets. apply mbind_be_octets. Qed.

(** A digest has 32 octets. *)
Lemma length_Sum256 data : len (Sum256 data) = 32.
Proof.
  unfold len. rewrite <-length_octets, octets_Sum256.
  unfold sha256_octets. rewrite (proj1 (mbind_be_octets _)), length_blocks; done.
Qed.

(** ** Test vectors of FIPS 180-4 *)

Fixpoint unhex (l : list ascii) : list Z :=
  let d c := let z := octet c in if z <=? 57 then z - 48 else z - 87 in
  match l with a :: b :: l' => 16 * d a + d b :: unhex l' | _ => [] end.

Example sha256_empty : octets (Sum256 "") =
  unhex (list_ascii_of_string "e3b0c44298fc1c149afbf4c8996fb92427ae41e4649b934ca495991b7852b855").
Proof. vm_compute. reflexivity. Qed.

Example sha256_abc : octets (Sum256 "abc") =
  unhex (list_ascii_of_string "ba7816bf8f01cfea414140de5dae2223b00361a396177a9cb410ff61f20015ad").
Proof. vm_compute. reflexivity. Qed.

Example sha256_two_blocks :
  octets (Sum256 "abcdbcdecdefdefgefghfghighijhijkijkljklmklmnlmnomnopnopq") =
  unhex (list_ascii_of_string "248d6a61d20638b8e5c026930c3e6039a33ce45964ff2167f6ecedd419db06c1").
Proof. vm_compute. reflexivity. Qed.

#[global] Opaque Sum256.
