(* ===== verification/SafeInt.v ===== *)
(** * internal/safeint: integers that are both an int64 and a uint64

    [NewSafeInt64] is the only constructor of [SafeInt64]; the log index and
    the tree size of a transparency log entry pass through it. *)
From S2P Require Import Prelude GoErrors.

(** ** Data and operations *)

(** An argument of type [any]: the two integer types the constructor accepts,
    or a value of another type. *)
Inductive number := num_uint64 (n : Z) | num_int64 (n : Z) | num_other.

Definition number_wf (x : number) : Prop :=
  match x with
  | num_uint64 n => is_uint64 n
  | num_int64 n => is_int64 n
  | num_other => True
  end.

Record SafeInt64 := { u : Z; i : Z }.

#[export] Instance SafeInt64_eq_dec : EqDecision SafeInt64.
Proof. solve_decision. Defined.

Definition NewSafeInt64 (x : number) : result SafeInt64 :=
  match x with
  | num_uint64 n =>
      if n >? MaxInt64 then Err (ErrorString ("exceeded max int64: " +:+ FormatUint n))
      else Ok {| u := n; i := to_int64 n |}
  | num_int64 n =>
      if n <? 0 then Err (ErrorString ("negative integer: " +:+ Itoa n))
      else Ok {| u := to_uint64 n; i := n |}
  | num_other => Err (ErrorString "only uint64 and int64 are supported")
  end.

Definition U (s : SafeInt64) : Z := u s.
Definition I (s : SafeInt64) : Z := i s.

(** The invariant of the type: both views hold the same number, and it fits in both. *)
Definition SafeInt64_wf (s : SafeInt64) : Prop := U s = I s ∧ 0 ≤ U s ≤ MaxInt64.

#[export] Instance SafeInt64_wf_dec s : Decision (SafeInt64_wf s).
Proof. unfold SafeInt64_wf. apply _. Defined.

(** The number an argument denotes. *)
Definition number_value (x : number) : option Z :=
  match x with num_uint64 n | num_int64 n => Some n | num_other => None end.

(** ** Theorems *)

Lemma NewSafeInt64_uint64_ok n :
  is_uint64 n → n ≤ MaxInt64 → NewSafeInt64 (num_uint64 n) = Ok {| u := n; i := n |}.
Proof.
  intros Hn Hle. unfold NewSafeInt64. destruct (Z.gtb_spec n MaxInt64); [lia|].
  rewrite to_int64_id; [done|]. unfold is_uint64, is_int64, MaxInt64 in *. lia.
Qed.

Lemma NewSafeInt64_int64_ok n :
  is_int64 n → 0 ≤ n → NewSafeInt64 (num_int64 n) = Ok {| u := n; i := n |}.
Proof.
  intros Hn Hle. unfold NewSafeInt64. destruct (Z.ltb_spec n 0); [lia|].
  rewrite to_uint64_id; [done|]. unfold is_uint64, is_int64, MaxInt64, MaxUint64 in *. lia.
Qed.

Lemma NewSafeInt64_inv x s :
  number_wf x → NewSafeInt64 x = Ok s →
  ∃ n, number_value x = Some n ∧ 0 ≤ n ≤ MaxInt64 ∧ s = {| u := n; i := n |}.
Proof.
  destruct x as [n|n|]; simpl; intros Hwf H.
  - destruct (Z.gtb_spec n MaxInt64) as [|Hle]; [done|]. exists n.
    rewrite to_int64_id in H by (unfold is_uint64, is_int64, MaxInt64 in *; lia).
    unfold is_uint64 in Hwf. naive_solver lia.
  - destruct (Z.ltb_spec n 0) as [|Hle]; [done|]. exists n.
    rewrite to_uint64_id in H by (unfold is_uint64, is_int64, MaxInt64, MaxUint64 in *; lia).
    unfold is_int64 in Hwf. naive_solver lia.
  - done.
Qed.

Lemma NewSafeInt64_no_panic x : no_panic (NewSafeInt64 x).
Proof. destruct x; simpl; repeat case_match; done. Qed.

#[export] Hint Resolve NewSafeInt64_no_panic : go.

(** C37: NewSafeInt64 succeeds exactly on a uint64 or int64 value in the range 0 to MaxInt64, and
    then the uint64 view and the int64 view of the result are both the number that was
    given, so neither conversion wraps around. *)
Theorem NewSafeInt64_spec (x : number) (Hwf : number_wf x) :
  (∀ s, NewSafeInt64 x = Ok s → SafeInt64_wf s ∧ number_value x = Some (U s)) ∧
  ((∃ n, number_value x = Some n ∧ 0 ≤ n ≤ MaxInt64) ↔ is_Ok (NewSafeInt64 x)).
Proof.
  split.
  - intros s Hs. destruct (NewSafeInt64_inv x s Hwf Hs) as (n & Hv & Hr & ->).
    rewrite Hv. done.
  - split.
    + intros (n & Hv & Hr). destruct x; simpl in Hv; simplify_eq.
      * by rewrite NewSafeInt64_uint64_ok by (done || lia).
      * by rewrite NewSafeInt64_int64_ok by (done || lia).
    + destruct (NewSafeInt64 x) as [s| |] eqn:Hs; [|done..]. intros _.
      destruct (NewSafeInt64_inv x s Hwf Hs) as (n & Hv & Hr & _). eauto.
Qed.

Lemma NewSafeInt64_spec_witness :
  number_wf (num_uint64 7) ∧
  SafeInt64_wf {| u := 7; i := 7 |} ∧ number_value (num_uint64 7) = Some 7.
Proof.
  assert (H : number_wf (num_uint64 7)) by (simpl; unfold is_uint64, MaxUint64; lia).
  split; [exact H|]. destruct (NewSafeInt64_spec (num_uint64 7) H) as [H1 _].
  apply (H1 {| u := 7; i := 7 |}). reflexivity.
Defined.

#[global] Arguments NewSafeInt64 : simpl never.
