(* ===== verification/Proto.v ===== *)
(** * Messages

    The protocol-buffer messages of [pkg/generated/protobuf] and the messages
    of sigstore/protobuf-specs the handlers build or read.  A pointer to a
    message is an [option]; a oneof is an inductive type, and its wrapper
    struct may itself hold a nil pointer.  Fields the program never sets or
    reads (bookkeeping of the protobuf runtime) are left out. *)
From S2P Require Import Prelude GoErrors.

(** ** Pointers with identity

    [map[*pb.Verifier]...] compares pointers, so a pointer used as a map key
    carries its address along with the message it points to. *)
Record ptr (A : Type) := mk_ptr { addr : positive; pointee : A }.
Arguments mk_ptr {A}.
Arguments addr {A}.
Arguments pointee {A}.

#[export] Instance ptr_eq_dec `{EqDecision A} : EqDecision (ptr A).
Proof. solve_decision. Defined.

(** Pointers into one store: the address determines the pointer. *)
Definition ptrs_consistent {A} (l : list (ptr A)) : Prop :=
  ∀ p q, p ∈ l → q ∈ l → addr p = addr q → p = q.

(** ** Verification material *)

(** [v1.PublicKeyDetails], the members the sources name. *)
Inductive PublicKeyDetails :=
  | PKIX_RSA_PKCS1V15_2048_SHA256 | PKIX_RSA_PKCS1V15_3072_SHA256 | PKIX_RSA_PKCS1V15_4096_SHA256
  | PKIX_ECDSA_P256_SHA_256 | PKIX_ECDSA_P384_SHA_384 | PKIX_ECDSA_P521_SHA_512
  | PKIX_ED25519 | PKIX_ED25519_PH
  | PublicKeyDetails_other (n : Z).

(** [v1.HashAlgorithm] *)
Inductive HashAlgorithm := SHA2_256 | HashAlgorithm_other (n : Z).

Record pb_PublicKey := { pk_RawBytes : bytes }.
Record X509Certificate := { x509_RawBytes : bytes }.

Inductive isVerifier_Verifier :=
  | Verifier_PublicKey (PublicKey : option pb_PublicKey)
  | Verifier_X509Certificate (X509Certificate : option X509Certificate).

Record Verifier := {
  Verifier_Verifier : option isVerifier_Verifier;
  KeyDetails : PublicKeyDetails
}.

Definition GetRawBytes (x : option pb_PublicKey) : bytes :=
  match x with Some x => pk_RawBytes x | None => "" end.
Definition X509_GetRawBytes (x : option X509Certificate) : bytes :=
  match x with Some x => x509_RawBytes x | None => "" end.

Definition GetPublicKey (x : option Verifier) : option pb_PublicKey :=
  match x with
  | Some x => match Verifier_Verifier x with Some (Verifier_PublicKey k) => k | _ => None end
  | None => None
  end.

Definition GetX509Certificate (x : option Verifier) : option X509Certificate :=
  match x with
  | Some x => match Verifier_Verifier x with Some (Verifier_X509Certificate c) => c | _ => None end
  | None => None
  end.

Record Signature := { Content : bytes; Signature_Verifier : option Verifier }.
Record HashOutput := { Algorithm : HashAlgorithm; Digest : bytes }.

(** ** Requests *)

Record HashedRekordRequestV002 := { hr_Digest : bytes; hr_Signature : option Signature }.

(** [io.intoto.Envelope] and its signatures *)
Record pbdsse_Signature := { pb_Sig : bytes; pb_Keyid : string }.
Record pbdsse_Envelope := {
  pb_Payload : bytes;
  pb_PayloadType : string;
  pb_Signatures : list (option pbdsse_Signature)
}.

Record DSSERequestV002 := {
  ds_Envelope : option pbdsse_Envelope;
  ds_Verifiers : list (option (ptr Verifier))
}.

Inductive isCreateEntryRequest_Spec :=
  | CreateEntryRequest_HashedRekordRequestV002 (r : option HashedRekordRequestV002)
  | CreateEntryRequest_DsseRequestV002 (r : option DSSERequestV002).

Record CreateEntryRequest := { Request_Spec : option isCreateEntryRequest_Spec }.

(** ** Log entries *)

Record HashedRekordLogEntryV002 := { hre_Data : option HashOutput; hre_Signature : option Signature }.
Record DSSELogEntryV002 := { dse_PayloadHash : option HashOutput; dse_Signatures : list (option Signature) }.

Inductive isSpec_Spec :=
  | Spec_HashedRekordV002 (e : option HashedRekordLogEntryV002)
  | Spec_DsseV002 (e : option DSSELogEntryV002).

Record Spec := { Spec_Spec : option isSpec_Spec }.
Record Entry := { Kind : string; ApiVersion : string; Entry_Spec : option Spec }.

(** ** What the log returns: [TransparencyLogEntry] of protobuf-specs *)

Record KindVersion := { kv_Kind : string; kv_Version : string }.
Record pb_Checkpoint := { Envelope : string }.
Record InclusionProof := {
  ip_LogIndex : Z;
  ip_RootHash : bytes;
  ip_TreeSize : Z;
  ip_Hashes : list bytes;
  ip_Checkpoint : option pb_Checkpoint
}.
Record TransparencyLogEntry := {
  tle_LogIndex : Z;
  tle_LogId : option bytes;
  tle_KindVersion : option KindVersion;
  tle_InclusionProof : option InclusionProof;
  tle_CanonicalizedBody : bytes
}.

(** ** Decidable equality *)

#[export] Instance PublicKeyDetails_eq_dec : EqDecision PublicKeyDetails.
Proof. solve_decision. Defined.
#[export] Instance HashAlgorithm_eq_dec : EqDecision HashAlgorithm.
Proof. solve_decision. Defined.
#[export] Instance pb_PublicKey_eq_dec : EqDecision pb_PublicKey.
Proof. solve_decision. Defined.
#[export] Instance X509Certificate_eq_dec : EqDecision X509Certificate.
Proof. solve_decision. Defined.
#[export] Instance isVerifier_Verifier_eq_dec : EqDecision isVerifier_Verifier.
Proof. solve_decision. Defined.
#[export] Instance Verifier_eq_dec : EqDecision Verifier.
Proof. solve_decision. Defined.
#[export] Instance Signature_eq_dec : EqDecision Signature.
Proof. solve_decision. Defined.
#[export] Instance HashOutput_eq_dec : EqDecision HashOutput.
Proof. solve_decision. Defined.
#[export] Instance HashedRekordLogEntryV002_eq_dec : EqDecision HashedRekordLogEntryV002.
Proof. solve_decision. Defined.
#[export] Instance DSSELogEntryV002_eq_dec : EqDecision DSSELogEntryV002.
Proof. solve_decision. Defined.
#[export] Instance isSpec_Spec_eq_dec : EqDecision isSpec_Spec.
Proof. solve_decision. Defined.
#[export] Instance Spec_eq_dec : EqDecision Spec.
Proof. solve_decision. Defined.
#[export] Instance Entry_eq_dec : EqDecision Entry.
Proof. solve_decision. Defined.
#[export] Instance pbdsse_Signature_eq_dec : EqDecision pbdsse_Signature.
Proof. solve_decision. Defined.
#[export] Instance pbdsse_Envelope_eq_dec : EqDecision pbdsse_Envelope.
Proof. solve_decision. Defined.
#[export] Instance HashedRekordRequestV002_eq_dec : EqDecision HashedRekordRequestV002.
Proof. solve_decision. Defined.
#[export] Instance DSSERequestV002_eq_dec : EqDecision DSSERequestV002.
Proof. solve_decision. Defined.
#[export] Instance isCreateEntryRequest_Spec_eq_dec : EqDecision isCreateEntryRequest_Spec.
Proof. solve_decision. Defined.
#[export] Instance CreateEntryRequest_eq_dec : EqDecision CreateEntryRequest.
Proof. solve_decision. Defined.
#[export] Instance KindVersion_eq_dec : EqDecision KindVersion.
Proof. solve_decision. Defined.
#[export] Instance pb_Checkpoint_eq_dec : EqDecision pb_Checkpoint.
Proof. solve_decision. Defined.
#[export] Instance InclusionProof_eq_dec : EqDecision InclusionProof.
Proof. solve_decision. Defined.
#[export] Instance TransparencyLogEntry_eq_dec : EqDecision TransparencyLogEntry.
Proof. solve_decision. Defined.
