(* ===== verification/External.v ===== *)
(** * Interfaces of the libraries the program calls

    Code that is not part of the repository enters the model as the operations
    of a class; what the program relies on is stated beside it as a class of
    laws, each one documented behaviour of that library.  An operation returns
    [error + A]: it fails with an error or returns a value. *)
From S2P Require Import Prelude GoErrors GoStrings Base64 Proto.

(** A library call as a step of the program. *)
Definition lift {A} (x : error + A) : result A :=
  match x with inl e => Err e | inr a => Ok a end.

Lemma lift_Ok {A} (x : error + A) a : lift x = Ok a ↔ x = inr a.
Proof. destruct x; naive_solver. Qed.

Lemma lift_Err {A} (x : error + A) e : lift x = Err e ↔ x = inl e.
Proof. destruct x; naive_solver. Qed.

Lemma no_panic_lift {A} (x : error + A) : no_panic (lift x).
Proof. by destruct x. Qed.

#[export] Hint Resolve no_panic_lift : go.

(** Inversion that also looks through library calls. *)
Ltac go_inv_ext :=
  repeat (go_inv; try match goal with H : lift _ = Ok _ |- _ => apply lift_Ok in H end).

(** Unfold the plumbing of the error monad and nothing else. *)
Ltac go_step := cbn [mbind result_bind fmap result_fmap deref guard_err wrap wrapv lift].
Ltac go_step_in H := cbn [mbind result_bind fmap result_fmap deref guard_err wrap wrapv lift] in H.

(** ** crypto/x509: DER parsing and marshalling *)

(** [x509.Certificate], the fields the sources read. *)
Record Certificate := { cert_Raw : bytes; cert_PublicKey : PublicKey }.

Class X509 := {
  ParsePKIXPublicKey : bytes → error + PublicKey;
  ParseCertificate : bytes → error + Certificate;
  MarshalPKIXPublicKey : PublicKey → error + bytes;
  (** cryptoutils of sigstore *)
  MarshalPublicKeyToPEM : PublicKey → error + bytes;
  MarshalCertificateToPEM : Certificate → error + bytes;
  MarshalPublicKeyToDER : PublicKey → error + bytes
}.

(** ** sigstore/pkg/signature *)

Class SigstoreSignature := {
  AlgorithmDetails : Type;
  GetHashType : AlgorithmDetails → Hash;
  GetProtoHashType : AlgorithmDetails → HashAlgorithm;
  GetAlgorithmDetails : PublicKeyDetails → error + AlgorithmDetails;
  ParseSignatureAlgorithmFlag : string → error + PublicKeyDetails;
  FormatSignatureAlgorithmFlag : PublicKeyDetails → error + string;
  AlgorithmRegistryConfig : Type;
  NewAlgorithmRegistryConfig : list PublicKeyDetails → error + AlgorithmRegistryConfig;
  IsAlgorithmPermitted : AlgorithmRegistryConfig → PublicKey → Hash → error + bool;
  (** A verifier bound to a key: [LoadVerifier] with a hash,
      [LoadVerifierWithOpts] with [WithED25519ph]. *)
  SigVerifier : Type;
  LoadVerifier : PublicKey → Hash → error + SigVerifier;
  LoadVerifier_ED25519ph : PublicKey → error + SigVerifier;
  (** [VerifySignature(sig, nil, WithDigest(d), WithCryptoSignerOpts(h))] *)
  VerifyDigest : SigVerifier → bytes → bytes → Hash → error + unit;
  (** [VerifySignature(sig, message)] *)
  VerifyMessage : SigVerifier → bytes → bytes → error + unit
}.

(** ** go-securesystemslib/dsse *)

Record dsse_Signature := { KeyID : string; Sig : string }.
Record dsse_Envelope := { PayloadType : string; Payload : string; Signatures : list dsse_Signature }.
Record AcceptedKey := { ak_Sig : dsse_Signature }.

#[export] Instance dsse_Signature_eq_dec : EqDecision dsse_Signature.
Proof. solve_decision. Defined.

Class DsseLib `{SigstoreSignature} := {
  EnvelopeVerifier : Type;
  (** [dsse.NewEnvelopeVerifier(&sigdsse.VerifierAdapter{SignatureVerifier: v})] *)
  NewEnvelopeVerifier : SigVerifier → error + EnvelopeVerifier;
  Verify : EnvelopeVerifier → dsse_Envelope → error + list AcceptedKey;
  (** The pre-authentication encoding of a payload type and a payload. *)
  PAE : string → bytes → bytes
}.

(** What [EnvelopeVerifier.Verify] documents: it accepts signatures of the
    envelope, and only those the key verifies over the pre-authentication
    encoding of the decoded payload. *)
Class DsseLaws `{DsseLib} : Prop := {
  Verify_in : ∀ ev env acc a,
    Verify ev env = inr acc → a ∈ acc → ak_Sig a ∈ Signatures env;
  Verify_valid : ∀ sv ev env acc a body raw,
    NewEnvelopeVerifier sv = inr ev → Verify ev env = inr acc → a ∈ acc →
    DecodeString (Payload env) = Ok body → DecodeString (Sig (ak_Sig a)) = Ok raw →
    VerifyMessage sv raw (PAE (PayloadType env) body) = inr tt
}.
