(* ===== verification/IO.v ===== *)
(** * Effectful Go code

    A function that reads or changes state outside its arguments is a
    computation [io S A]: from a state it gives a [result] and the state
    afterwards.  An error or a panic keeps the effects made before it, as
    in Go. *)
From S2P Require Import Prelude GoErrors External.

Definition io (S A : Type) : Type := S → result A * S.

Definition io_bind_def {S A B} (f : A → io S B) (m : io S A) : io S B := λ s,
  match m s with
  | (Ok a, s') => f a s'
  | (Err e, s') => (Err e, s')
  | (Panic, s') => (Panic, s')
  end.

#[export] Instance io_ret S : MRet (io S) := λ A a s, (Ok a, s).
#[export] Instance io_bind S : MBind (io S) := λ A B f m, io_bind_def f m.

(** A computation without effects. *)
Definition pure {S A} (m : result A) : io S A := λ s, (m, s).
Definition fail {S A} (e : error) : io S A := λ s, (Err e, s).

(** A call into a library, which fails with an error or returns a value. *)
Definition call {S A} (f : S → (error + A) * S) : io S A := λ s, let '(x, s') := f s in (lift x, s').

(** [if err != nil { return ..., fmt.Errorf("p%w", err) }] *)
Definition io_wrap {S A} (p : string) (m : io S A) : io S A := λ s, let '(x, s') := m s in (wrap p x, s').

(** [x, err := m()] with the error kept for the code that follows. *)
Definition try {S A} (m : io S A) : io S (error + A) := λ s,
  match m s with
  | (Ok a, s') => (Ok (inr a), s')
  | (Err e, s') => (Ok (inl e), s')
  | (Panic, s') => (Panic, s')
  end.

Definition modify {S} (f : S → S) : io S unit := λ s, (Ok tt, f s).
Definition gets {S A} (f : S → A) : io S A := λ s, (Ok (f s), s).

(** Running on a part of the state. *)
Definition zoom {S T A} (get : S → T) (put : T → S → S) (m : io T A) : io S A := λ s,
  let '(x, t) := m (get s) in (x, put t s).

(** ** Inversion lemmas *)

Section io.
Context {S A B : Type}.
Implicit Types (m : io S A) (f : A → io S B) (s : S).

Lemma io_bind_inv f m s r s' :
  (m ≫= f) s = (r, s') →
  (∃ a s1, m s = (Ok a, s1) ∧ f a s1 = (r, s')) ∨
  (∃ e, m s = (Err e, s') ∧ r = Err e) ∨ (m s = (Panic, s') ∧ r = Panic).
Proof. unfold mbind, io_bind, io_bind_def. destruct (m s) as [[a|e|] s1]; intros; simplify_eq; eauto 10. Qed.

Lemma io_bind_Ok f m s b s' :
  (m ≫= f) s = (Ok b, s') ↔ ∃ a s1, m s = (Ok a, s1) ∧ f a s1 = (Ok b, s').
Proof.
  split.
  - intros [?|[(e & _ & ?)|[_ ?]]]%io_bind_inv; [done|discriminate..].
  - intros (a & s1 & Hm & Hf). unfold mbind, io_bind, io_bind_def. by rewrite Hm.
Qed.

Lemma io_wrap_Ok p m s a s' : io_wrap p m s = (Ok a, s') ↔ m s = (Ok a, s').
Proof. unfold io_wrap. destruct (m s) as [[] ?]; cbn; split; intros; simplify_eq; done. Qed.

Lemma call_Ok (f : S → (error + A) * S) s a s' : call f s = (Ok a, s') ↔ f s = (inr a, s').
Proof. unfold call. destruct (f s) as [[] ?]; cbn; split; intros; simplify_eq; done. Qed.

Lemma pure_Ok (r : result A) s a s' : pure r s = (Ok a, s') ↔ r = Ok a ∧ s' = s.
Proof. unfold pure. split; [by intros [= -> ->]|by intros [-> ->]]. Qed.

(** ** Computations that never panic *)

Definition io_safe m : Prop := ∀ s, no_panic (m s).1.

Lemma io_safe_call (f : S → (error + A) * S) : io_safe (call f).
Proof. intros s. unfold call. destruct (f s) as [[] ?]; exact I. Qed.

Lemma io_safe_wrap p m : io_safe m → io_safe (io_wrap p m).
Proof.
  intros Hm s. specialize (Hm s). unfold io_wrap. destruct (m s) as [r s']. cbn in *.
  by apply no_panic_wrap.
Qed.

Lemma io_safe_pure (r : result A) : no_panic r → io_safe (pure r).
Proof. by intros H s. Qed.

Lemma io_safe_fail e : io_safe (@fail S A e).
Proof. by intros s. Qed.
End io.

Lemma io_safe_bind {S A B} (f : A → io S B) (m : io S A) :
  io_safe m → (∀ a, io_safe (f a)) → io_safe (m ≫= f).
Proof.
  intros Hm Hf s. specialize (Hm s). unfold mbind, io_bind, io_bind_def.
  destruct (m s) as [[a|e|] s1]; [apply Hf|exact I|destruct Hm].
Qed.

Lemma io_safe_try {S A} (m : io S A) : io_safe m → io_safe (try m).
Proof. intros Hm s. specialize (Hm s). unfold try. by destruct (m s) as [[] ?]. Qed.

Lemma io_safe_zoom {S T A} get put (m : io T A) : io_safe m → io_safe (@zoom S T A get put m).
Proof. intros Hm s. specialize (Hm (get s)). unfold zoom. by destruct (m (get s)). Qed.

#[export] Hint Resolve io_safe_call io_safe_wrap io_safe_pure io_safe_fail io_safe_bind io_safe_try
  io_safe_zoom : go.

(** Decompose a successful effectful run. *)
Ltac io_inv_step :=
  match goal with
  | H : mbind _ _ _ = (Ok _, _) |- _ => apply io_bind_Ok in H as (? & ? & ? & ?)
  | H : io_wrap _ _ _ = (Ok _, _) |- _ => apply io_wrap_Ok in H
  | H : call _ _ = (Ok _, _) |- _ => apply call_Ok in H
  | H : pure _ _ = (Ok _, _) |- _ => apply pure_Ok in H as [? ?]
  | H : fail _ _ = (Ok _, _) |- _ => discriminate H
  | H : mret _ _ = (Ok _, _) |- _ => injection H as ? ?
  end.
Ltac io_inv := repeat (io_inv_step; subst; cbn beta iota zeta in *).

(** Evaluate an effectful run whose library calls are known. *)
Ltac io_step := cbn [mbind io_bind io_bind_def io_wrap call pure fail try modify gets wrap lift mret io_ret].
