(* ===== verification/Threads.v ===== *)
(** * Goroutines on shared state

    [io] runs a computation at one go.  Here a computation is a tree of
    accesses to the shared state, so that others can act between two of them:
    a free monad over the accesses, its run without interference, and
    rely-guarantee reasoning about it. *)
From S2P Require Import Prelude GoErrors External IO.

(** ** Computations in steps *)

Inductive prog (S A : Type) : Type :=
  | Return (r : result A)
  | Access (B : Type) (f : S → B * S) (k : B → prog S A).
Arguments Return {S A}.
Arguments Access {S A} B.

Section combinators.
Context {S : Type}.

(** Alone, the accesses follow each other. *)
Fixpoint run {A} (p : prog S A) : io S A := λ s,
  match p with
  | Return r => (r, s)
  | Access _ f k => let '(b, s') := f s in run (k b) s'
  end.

Fixpoint prog_bind_def {A B} (f : A → prog S B) (p : prog S A) : prog S B :=
  match p with
  | Return (Ok a) => f a
  | Return (Err e) => Return (Err e)
  | Return Panic => Return Panic
  | Access C g k => Access C g (λ c, prog_bind_def f (k c))
  end.

#[export] Instance prog_ret : MRet (prog S) := λ A a, Return (Ok a).
#[export] Instance prog_bind : MBind (prog S) := λ A B f p, prog_bind_def f p.

(** A change of the result, as by a caller that looks at the error. *)
Fixpoint on_result {A B} (h : result A → result B) (p : prog S A) : prog S B :=
  match p with
  | Return r => Return (h r)
  | Access C g k => Access C g (λ c, on_result h (k c))
  end.

Definition step_wrap {A} (p : string) : prog S A → prog S A := on_result (wrap p).
Definition step_try {A} : prog S A → prog S (error + A) :=
  on_result (λ r, match r with Ok a => Ok (inr a) | Err e => Ok (inl e) | Panic => Panic end).

(** One access: a call of a library, or a computation that nothing interrupts. *)
Definition step_call {A} (f : S → (error + A) * S) : prog S A := Access _ f (λ x, Return (lift x)).
Definition step_io {A} (m : io S A) : prog S A := Access _ m Return.
End combinators.

(** Accesses to a part of the state. *)
Fixpoint step_zoom {S T A} (get : S → T) (put : T → S → S) (p : prog T A) : prog S A :=
  match p with
  | Return r => Return r
  | Access C g k => Access C (λ s, let '(c, t) := g (get s) in (c, put t s)) (λ c, step_zoom get put (k c))
  end.

(** ** Running alone is [io] *)

Section run_lemmas.
Context {S : Type}.

Lemma run_bind {A B} (f : A → prog S B) (p : prog S A) s :
  run (p ≫= f) s = (run p ≫= (λ a, run (f a))) s.
Proof.
  revert s. unfold mbind, io_bind, io_bind_def, prog_bind.
  induction p as [r|C g k IH]; intros s; cbn; [by destruct r|]. destruct (g s) as [c s']. apply IH.
Qed.

Lemma run_on_result {A B} (h : result A → result B) (p : prog S A) s :
  run (on_result h p) s = let '(r, s') := run p s in (h r, s').
Proof. revert s. induction p as [r|C g k IH]; intros s; cbn; [done|]. destruct (g s) as [c s']. apply IH. Qed.

Lemma run_wrap {A} t (p : prog S A) s : run (step_wrap t p) s = io_wrap t (run p) s.
Proof. apply run_on_result. Qed.

Lemma run_try {A} (p : prog S A) s : run (step_try p) s = try (run p) s.
Proof. unfold step_try, try. rewrite run_on_result. by destruct (run p s) as [[] ?]. Qed.

Lemma run_call {A} (f : S → (error + A) * S) s : run (step_call f) s = call f s.
Proof. done. Qed.

Lemma run_io {A} (m : io S A) s : run (step_io m) s = m s.
Proof. cbn. by destruct (m s). Qed.

(** On a part of the state that can be taken out and put back. *)
Lemma run_zoom {T A} (get : S → T) (put : T → S → S) (p : prog T A) s :
  (∀ s, put (get s) s = s) → (∀ t s, get (put t s) = t) → (∀ t t' s, put t (put t' s) = put t s) →
  run (step_zoom get put p) s = zoom get put (run p) s.
Proof.
  intros Hpg Hgp Hpp. revert s. unfold zoom. induction p as [r|C g k IH]; intros s; cbn; [by rewrite Hpg|].
  destruct (g (get s)) as [c t]. rewrite IH, Hgp. destruct (run (k c) t). by rewrite Hpp.
Qed.

(** Binding respects what the runs do. *)
Lemma io_bind_ext {A B} (m m' : io S A) (f f' : A → io S B) s :
  m s = m' s → (∀ a s, f a s = f' a s) → (m ≫= f) s = (m' ≫= f') s.
Proof. intros Hm Hf. unfold mbind, io_bind, io_bind_def. rewrite Hm. destruct (m' s) as [[] ?]; auto. Qed.

Lemma pure_bind_Ok {A B} (a : A) (f : A → io S B) s : (pure (Ok a) ≫= f) s = f a s.
Proof. done. Qed.

Lemma io_wrap_ext {A} t (m m' : io S A) s : m s = m' s → io_wrap t m s = io_wrap t m' s.
Proof. unfold io_wrap. by intros ->. Qed.

Lemma try_ext {A} (m m' : io S A) s : m s = m' s → try m s = try m' s.
Proof. unfold try. by intros ->. Qed.
End run_lemmas.

(** ** Rely and guarantee

    Others may change the state along [R] at any time; the accesses of the
    computation change it along [G]; it ends with [Q]. *)

Section rely_guarantee.
Context {S : Type} (R G : S → S → Prop) `{!PreOrder R}.

Fixpoint rg {A} (p : prog S A) (Q : result A → S → Prop) (s : S) : Prop :=
  match p with
  | Return r => ∀ s', R s s' → Q r s'
  | Access _ f k => ∀ s', R s s' → G s' (f s').2 ∧ rg (k (f s').1) Q (f s').2
  end.

Lemma rg_stable {A} (p : prog S A) Q s s' : rg p Q s → R s s' → rg p Q s'.
Proof.
  destruct p as [r|C f k]; cbn; intros Hp Hr s1 Hs1; apply Hp; by etrans.
Qed.

Lemma rg_mono {A} (p : prog S A) (Q Q' : result A → S → Prop) s : rg p Q s → (∀ r s, Q r s → Q' r s) → rg p Q' s.
Proof.
  revert s. induction p as [r|C f k IH]; cbn; intros s Hp HQ s' Hr; [by apply HQ, Hp|].
  destruct (Hp s' Hr) as [Hg Hk]. split; [done|]. by apply IH.
Qed.

Lemma rg_bind {A B} (f : A → prog S B) (p : prog S A) Q s :
  rg p (λ r s, match r with Ok a => rg (f a) Q s | Err e => Q (Err e) s | Panic => Q Panic s end) s → rg (p ≫= f) Q s.
Proof.
  unfold mbind, prog_bind. revert s. induction p as [r|C g k IH]; cbn; intros s Hp.
  - destruct r as [a|e|]; cbn; [by apply Hp|done..].
  - intros s' Hr. destruct (Hp s' Hr) as [Hg Hk]. split; [done|]. by apply IH.
Qed.

Lemma rg_on_result {A B} (h : result A → result B) (p : prog S A) Q s :
  rg p (λ r, Q (h r)) s → rg (on_result h p) Q s.
Proof.
  revert s. induction p as [r|C g k IH]; cbn; intros s Hp; [done|]. intros s' Hr.
  destruct (Hp s' Hr) as [Hg Hk]. split; [done|]. by apply IH.
Qed.

(** What nobody changes may be kept. *)
Lemma rg_frame {A} (P : S → Prop) (p : prog S A) Q s :
  (∀ s s', P s → R s s' → P s') → (∀ s s', P s → G s s' → P s') → P s →
  rg p Q s → rg p (λ r s, Q r s ∧ P s) s.
Proof.
  intros HR HG. revert s. induction p as [r|C f k IH]; cbn; intros s HP Hp s' Hr; [by eauto|].
  destruct (Hp s' Hr) as [Hg Hk]. split; [done|]. apply IH; eauto.
Qed.

Lemma rg_return {A} (r : result A) (Q : result A → S → Prop) s : (∀ s', R s s' → Q r s') → rg (Return r) Q s.
Proof. done. Qed.

Lemma rg_access {A B} (f : S → B * S) (k : B → prog S A) Q s :
  (∀ s', R s s' → G s' (f s').2 ∧ rg (k (f s').1) Q (f s').2) → rg (Access B f k) Q s.
Proof. done. Qed.
End rely_guarantee.

(** A computation on a part of the state: what it relies on and guarantees there, and a
    property of the rest that nobody changes. *)
Lemma rg_zoom {S T A} (R G : S → S → Prop) (RT GT : T → T → Prop) (get : S → T) (put : T → S → S) (F : S → Prop)
    (p : prog T A) (Q : result A → T → Prop) s :
  (∀ s s', R s s' → RT (get s) (get s')) → (∀ s t, GT (get s) t → G s (put t s)) → (∀ t s, get (put t s) = t) →
  (∀ s s', R s s' → F s → F s') → (∀ s t, F s → F (put t s)) →
  F s → rg RT GT p Q (get s) → rg R G (step_zoom get put p) (λ r s', Q r (get s') ∧ F s') s.
Proof.
  intros HR HG Hgp HF HFp. revert s. induction p as [r|C g k IH]; cbn; intros s Hs Hp.
  - intros s' Hr. split; [by apply Hp, HR|by eapply HF].
  - intros s' Hr. destruct (Hp (get s') (HR _ _ Hr)) as [Hg Hk]. destruct (g (get s')) as [c t] eqn:He. cbn in *.
    split; [by apply HG|]. apply IH; [by apply HFp, (HF _ _ Hr)|]. by rewrite Hgp.
Qed.

(** ** How many accesses a computation makes *)

(** At most [n], a panic counting as one, as it takes one to recover from it. *)
Fixpoint within {S A} (n : nat) (p : prog S A) : Prop :=
  match p, n with
  | Return Panic, O => False
  | Return _, _ => True
  | Access _ _ _, O => False
  | Access _ f k, S n => ∀ s, within n (k (f s).1)
  end.

Lemma within_mono {S A} (p : prog S A) n m : within n p → (n ≤ m)%nat → within m p.
Proof.
  revert n m. induction p as [r|B f k IH]; intros n m Hp Hle.
  - destruct r, n, m; try done; lia.
  - destruct n as [|n], m as [|m]; [done|done|lia|]. intros b. eapply IH; [apply Hp|lia].
Qed.

Lemma within_on_result {S A B} (h : result A → result B) (p : prog S A) n :
  (∀ r, h r = Panic → r = Panic) → within n p → within n (on_result h p).
Proof.
  intros Hh. revert n. induction p as [r|C f k IH]; intros [|n]; cbn; try done; [| |by auto].
  - destruct (h r) eqn:He; [done..|]. by rewrite (Hh _ He).
  - by destruct (h r).
Qed.

Lemma within_zoom {S T A} (get : S → T) (put : T → S → S) (p : prog T A) n : within n p → within n (step_zoom get put p).
Proof.
  revert n. induction p as [r|C f k IH]; intros [|n]; cbn; try done. intros Hk s. specialize (Hk (get s)).
  destruct (f (get s)). by apply IH.
Qed.

Lemma within_bind {S A B} (f : A → prog S B) (p : prog S A) n m :
  within n p → (∀ a, within m (f a)) → within (n + m) (p ≫= f).
Proof.
  intros Hp Hf. revert n Hp. unfold mbind, prog_bind. induction p as [r|C g k IH]; intros n Hp.
  - destruct r as [a|e|]; [|by destruct (n + m)%nat|by destruct n].
    eapply within_mono; [apply Hf|lia].
  - destruct n as [|n]; [done|]. cbn in *. intros b. by apply IH.
Qed.

(** ** What a computation can return *)

(** Whatever others do between its accesses, a value it returns satisfies [R]. *)
Fixpoint yields {S A} (R : A → Prop) (p : prog S A) : Prop :=
  match p with
  | Return (Ok a) => R a
  | Return _ => True
  | Access _ f k => ∀ s, yields R (k (f s).1)
  end.

Lemma yields_bind {S A B} (P : A → Prop) (R : B → Prop) (f : A → prog S B) (p : prog S A) :
  yields P p → (∀ a, P a → yields R (f a)) → yields R (p ≫= f).
Proof.
  unfold mbind, prog_bind. intros Hp Hf. induction p as [[a|e|]|C g k IH]; cbn in *; auto.
Qed.

Lemma yields_True {S A} (p : prog S A) : yields (λ _, True) p.
Proof. induction p as [[]|]; cbn; auto. Qed.

(** Nothing is known of the first part. *)
Lemma yields_then {S A B} (R : B → Prop) (f : A → prog S B) (p : prog S A) : (∀ a, yields R (f a)) → yields R (p ≫= f).
Proof. intros Hf. apply (yields_bind (λ _, True)); [apply yields_True|auto]. Qed.

Lemma yields_wrap {S A} (R : A → Prop) t (p : prog S A) : yields R p → yields R (step_wrap t p).
Proof. unfold step_wrap. induction p as [[a|e|]|C g k IH]; cbn; auto. Qed.

Lemma yields_try {S A} (R : A → Prop) (p : prog S A) :
  yields R p → yields (λ x, match x with inr a => R a | inl _ => True end) (step_try p).
Proof. unfold step_try. induction p as [[a|e|]|C g k IH]; cbn; auto. Qed.

Lemma yields_zoom {S T A} (R : A → Prop) (get : S → T) (put : T → S → S) (p : prog T A) :
  yields R p → yields R (step_zoom get put p).
Proof.
  induction p as [[a|e|]|C f k IH]; cbn; auto. intros Hk s. specialize (Hk (get s)). destruct (f (get s)). by apply IH.
Qed.

(** A call of a library. *)
Lemma yields_call {S A} (R : A → Prop) (f : S → (error + A) * S) :
  (∀ s a s', f s = (inr a, s') → R a) → yields R (step_call f).
Proof. intros Hf s. cbn. destruct (f s) as [[e|a] s'] eqn:He; cbn; [done|by eapply Hf]. Qed.
