(* ===== verification/Verifiers.v ===== *)
(** * pkg/types/verifier, pkg/verifier and its two implementations

    Validation of a [Verifier] message, and the [verifier.Verifier] interface
    as implemented by a public key and by a certificate. *)
From S2P Require Import Prelude GoErrors GoStrings Sha256 Proto External.

(** ** pkg/types/verifier *)

Definition Validate (v : option Verifier) : result unit :=
  let publicKey := GetPublicKey v in
  let x509Cert := GetX509Certificate v in
  _ ← guard_err (bool_decide (publicKey = None) && bool_decide (x509Cert = None))
        (ErrorString "missing signature public key or X.509 certificate");
  _ ← match publicKey with
      | Some _ => guard_err (len (GetRawBytes publicKey) =? 0) (ErrorString "missing public key raw bytes")
      | None => Ok tt
      end;
  match x509Cert with
  | Some _ => guard_err (len (X509_GetRawBytes x509Cert) =? 0) (ErrorString "missing X.509 certificate raw bytes")
  | None => Ok tt
  end.

(** The verification material of a message: the key or the certificate it holds. *)
Inductive material := Mat_key (der : bytes) | Mat_cert (der : bytes).

Definition material_bytes (m : material) : bytes := match m with Mat_key d | Mat_cert d => d end.

Definition material_of (v : Verifier) : option material :=
  match Verifier_Verifier v with
  | Some (Verifier_PublicKey (Some k)) => Some (Mat_key (pk_RawBytes k))
  | Some (Verifier_X509Certificate (Some c)) => Some (Mat_cert (x509_RawBytes c))
  | _ => None
  end.

Lemma Validate_spec v :
  Validate v = Ok tt ↔ ∃ v' m, v = Some v' ∧ material_of v' = Some m ∧ material_bytes m ≠ "".
Proof.
  split.
  - destruct v as [[[[[[k]|]|[[c]|]]|] kd]|]; cbn; try done; rewrite len_zero; intros H;
      (eexists _, _; split; [reflexivity|]; split; [reflexivity|]); cbn; apply is_empty_false.
    + by destruct (is_empty k).
    + by destruct (is_empty c).
  - intros (v' & m & -> & Hm & Hne). apply is_empty_false in Hne.
    destruct v' as [[[[[k]|]|[[c]|]]|] kd]; cbn in Hm; simplify_eq; cbn in *;
      rewrite len_zero, Hne; done.
Qed.

Lemma Validate_no_panic v : no_panic (Validate v).
Proof.
  unfold Validate. apply no_panic_bind; [eauto with go|]. intros _ _.
  apply no_panic_bind; [|intros _ _]; case_match; eauto with go.
Qed.

#[export] Hint Resolve Validate_no_panic : go.

(** ** pkg/verifier *)

(** [identity.Identity]; [Crypto] holds the key or the certificate. *)
Record Identity := { Crypto : PublicKey + Certificate; Raw : bytes; Fingerprint : string }.

(** An [io.Reader]: nil, or one that [io.ReadAll] drains to octets or an error. *)
Definition Reader : Type := option (error + bytes).
Definition NewReader (b : bytes) : Reader := Some (inr b).

(** [hex.EncodeToString] *)
Definition hex_digit (z : Z) : ascii :=
  nth (Z.to_nat z) (list_ascii_of_string "0123456789abcdef") "0"%char.
Definition hex_EncodeToString (b : bytes) : string :=
  string_of_list_ascii (mbind (λ z, [hex_digit (Z.shiftr z 4); hex_digit (Z.land z 15)]) (octets b)).

Section verifiers.
Context `{X509}.

(** *** pkg/verifier/publickey *)

Record publickey_PublicKey := { key : PublicKey }.

Definition publickey_NewVerifier (r : Reader) : result publickey_PublicKey :=
  match r with
  | None => Err (ErrorString "public key reader is nil")
  | Some data =>
      derVerifier ← lift data;
      k ← wrapv "parsing public key: " (lift (ParsePKIXPublicKey derVerifier));
      Ok {| key := k |}
  end.

Definition publickey_String (k : publickey_PublicKey) : string :=
  match MarshalPublicKeyToPEM (key k) with inr encoded => encoded | inl _ => "" end.

Definition publickey_Identity (k : publickey_PublicKey) : result Identity :=
  pkixKey ← lift (MarshalPublicKeyToDER (key k));
  let digest := Sum256 pkixKey in
  Ok {| Crypto := inl (key k); Raw := pkixKey; Fingerprint := hex_EncodeToString digest |}.

(** *** pkg/verifier/certificate *)

Record certificate_Certificate := { cert : Certificate }.

Definition certificate_NewVerifier (r : Reader) : result certificate_Certificate :=
  match r with
  | None => Err (ErrorString "certificate reader is nil")
  | Some data =>
      derVerifier ← lift data;
      c ← wrapv "parsing certificate: " (lift (ParseCertificate derVerifier));
      Ok {| cert := c |}
  end.

Definition certificate_String (c : certificate_Certificate) : string :=
  match MarshalCertificateToPEM (cert c) with inr encoded => encoded | inl _ => "" end.

Definition certificate_Identity (c : certificate_Certificate) : result Identity :=
  let digest := Sum256 (cert_Raw (cert c)) in
  Ok {| Crypto := inr (cert c); Raw := cert_Raw (cert c); Fingerprint := hex_EncodeToString digest |}.

(** *** The interface [verifier.Verifier] *)

Inductive VerifierImpl :=
  | V_publickey (k : publickey_PublicKey)
  | V_certificate (c : certificate_Certificate).

Definition V_PublicKey (v : VerifierImpl) : PublicKey :=
  match v with
  | V_publickey k => key k
  | V_certificate c => cert_PublicKey (cert c)
  end.

Definition V_Identity (v : VerifierImpl) : result Identity :=
  match v with
  | V_publickey k => publickey_Identity k
  | V_certificate c => certificate_Identity c
  end.

Definition V_String (v : VerifierImpl) : string :=
  match v with
  | V_publickey k => publickey_String k
  | V_certificate c => certificate_String c
  end.

(** What building a verifier from material amounts to: the key the material carries. *)
Definition material_key (m : material) : option PublicKey :=
  match m with
  | Mat_key d => match ParsePKIXPublicKey d with inr k => Some k | inl _ => None end
  | Mat_cert d => match ParseCertificate d with inr c => Some (cert_PublicKey c) | inl _ => None end
  end.

Lemma publickey_NewVerifier_Ok d v :
  publickey_NewVerifier (NewReader d) = Ok v → ParsePKIXPublicKey d = inr (key v).
Proof. unfold publickey_NewVerifier. cbn. intros. go_inv_ext. done. Qed.

Lemma certificate_NewVerifier_Ok d v :
  certificate_NewVerifier (NewReader d) = Ok v → ParseCertificate d = inr (cert v).
Proof. unfold certificate_NewVerifier. cbn. intros. go_inv_ext. done. Qed.

Lemma publickey_NewVerifier_no_panic r : no_panic (publickey_NewVerifier r).
Proof.
  destruct r; cbn; [|done]. apply no_panic_bind; [eauto with go|]. intros.
  apply no_panic_bind; eauto with go.
Qed.

Lemma certificate_NewVerifier_no_panic r : no_panic (certificate_NewVerifier r).
Proof.
  destruct r; cbn; [|done]. apply no_panic_bind; [eauto with go|]. intros.
  apply no_panic_bind; eauto with go.
Qed.
End verifiers.

#[export] Hint Resolve publickey_NewVerifier_no_panic certificate_NewVerifier_no_panic : go.

#[global] Arguments Validate : simpl never.
#[global] Arguments publickey_NewVerifier : simpl never.
#[global] Arguments certificate_NewVerifier : simpl never.

(** ** Fingerprints *)

Lemma length_string_of_list l : String.length (string_of_list_ascii l) = length l.
Proof. induction l; simpl; auto. Qed.

Lemma len_hex b : len (hex_EncodeToString b) = 2 * len b.
Proof.
  unfold len, hex_EncodeToString. rewrite length_string_of_list, <-length_octets.
  induction (octets b) as [|z l IH]; [done|]. rewrite bind_cons, length_app. cbn [length] in *. lia.
Qed.

Lemma V_Identity_fingerprint `{X509} v id :
  V_Identity v = Ok id →
  Fingerprint id = hex_EncodeToString (Sum256 (Raw id)) ∧ len (Fingerprint id) = 64.
Proof.
  intros Hid. assert (Fingerprint id = hex_EncodeToString (Sum256 (Raw id))) as Hf.
  { destruct v; cbn in Hid; [unfold publickey_Identity in Hid|unfold certificate_Identity in Hid];
      go_inv_ext; done. }
  split; [done|]. by rewrite Hf, len_hex, length_Sum256.
Qed.
