(* ===== verification/AlgorithmRegistry.v ===== *)
(** * internal/algorithmregistry: the signing algorithms a server accepts *)
From S2P Require Import Prelude GoErrors Proto External.

(** ** Operations *)

Definition AllowedClientSigningAlgorithms : list PublicKeyDetails :=
  [ PKIX_RSA_PKCS1V15_2048_SHA256;
    PKIX_RSA_PKCS1V15_3072_SHA256;
    PKIX_RSA_PKCS1V15_4096_SHA256;
    PKIX_ECDSA_P256_SHA_256;
    PKIX_ECDSA_P384_SHA_384;
    PKIX_ECDSA_P521_SHA_512;
    PKIX_ED25519;
    PKIX_ED25519_PH ].

Section registry.
Context `{SigstoreSignature}.

(** The options are nil or a slice of flags. *)
Definition AlgorithmRegistry (algorithmOptions : option (list string)) : result AlgorithmRegistryConfig :=
  algorithms ← match algorithmOptions with
               | None => Ok AllowedClientSigningAlgorithms
               | Some opts =>
                   mapM (λ a, wrap "parsing signature algorithm flag: "
                                (lift (ParseSignatureAlgorithmFlag a))) opts
               end;
  _ ← mapM (λ a, wrap "formatting signature algorithm flag: "
                   (lift (FormatSignatureAlgorithmFlag a))) algorithms;
  wrap "getting algorithm registry: " (lift (NewAlgorithmRegistryConfig algorithms)).

(** A nil registry is dereferenced by the method call. *)
Definition CheckEntryAlgorithms (pubKey : PublicKey) (alg : Hash)
    (algorithmRegistry : option AlgorithmRegistryConfig) : result bool :=
  reg ← deref algorithmRegistry;
  isPermitted ← wrap "checking if algorithm is permitted: " (lift (IsAlgorithmPermitted reg pubKey alg));
  if negb isPermitted then Ok false else Ok true.

(** ** Lemmas *)

Lemma CheckEntryAlgorithms_Ok pub alg reg b :
  CheckEntryAlgorithms pub alg (Some reg) = Ok b ↔ IsAlgorithmPermitted reg pub alg = inr b.
Proof.
  unfold CheckEntryAlgorithms. cbn. destruct (IsAlgorithmPermitted reg pub alg) as [e|[]]; cbn; naive_solver.
Qed.

Lemma CheckEntryAlgorithms_no_panic pub alg reg : no_panic (CheckEntryAlgorithms pub alg (Some reg)).
Proof. unfold CheckEntryAlgorithms. cbn. by destruct (IsAlgorithmPermitted reg pub alg) as [e|[]]. Qed.

(** The registry is built from the algorithms the flags name, in order; with
    no flags, from the default set. *)
Lemma AlgorithmRegistry_Ok opts cfg :
  AlgorithmRegistry opts = Ok cfg →
  ∃ algs, NewAlgorithmRegistryConfig algs = inr cfg ∧
    match opts with
    | None => algs = AllowedClientSigningAlgorithms
    | Some flags => Forall2 (λ f a, ParseSignatureAlgorithmFlag f = inr a) flags algs
    end.
Proof.
  unfold AlgorithmRegistry. intros. go_inv_ext.
  match goal with H : context [NewAlgorithmRegistryConfig ?l] |- _ => exists l end.
  split; [done|]. destruct opts as [flags|]; [|naive_solver].
  match goal with H : mapM _ flags = Ok _ |- _ => apply mapM_Ok in H; revert H end.
  intros HF. eapply Forall2_impl; [exact HF|]. intros f a Hf. by apply wrap_Ok, lift_Ok in Hf.
Qed.
End registry.

#[global] Arguments CheckEntryAlgorithms : simpl never.
#[export] Hint Resolve CheckEntryAlgorithms_no_panic : go.
