(* ===== verification/HashedRekord.v ===== *)
(** * pkg/types/hashedrekord: from a request to a log entry *)
From S2P Require Import Prelude GoErrors Proto External Verifiers AlgorithmRegistry.

(** ** Operations *)

(** [validate]: no field may be missing. *)
Definition validate (hr : option HashedRekordRequestV002) : result unit :=
  hr ← deref hr;
  _ ← match hr_Signature hr with
      | None => Err (ErrorString "missing signature")
      | Some sg => guard_err (len (Content sg) =? 0) (ErrorString "missing signature")
      end;
  sg ← deref (hr_Signature hr);
  _ ← guard_err (bool_decide (Signature_Verifier sg = None)) (ErrorString "missing verifier");
  _ ← guard_err (len (hr_Digest hr) =? 0) (ErrorString "missing digest");
  wrapv "invalid verifier: " (Validate (Signature_Verifier sg)).

Section hashedrekord.
Context `{X509, SigstoreSignature}.

Definition extractVerifier (hr : option HashedRekordRequestV002) : result VerifierImpl :=
  hr ← deref hr;
  sg ← deref (hr_Signature hr);
  match GetPublicKey (Signature_Verifier sg), GetX509Certificate (Signature_Verifier sg) with
  | Some pubKey, _ =>
      v ← wrap "parsing verifier: " (publickey_NewVerifier (NewReader (pk_RawBytes pubKey)));
      Ok (V_publickey v)
  | None, Some cert =>
      v ← wrap "parsing verifier: " (certificate_NewVerifier (NewReader (x509_RawBytes cert)));
      Ok (V_certificate v)
  | None, None => Err (ErrorString "must contain either a public key or X.509 certificate")
  end.

Definition verifySupportedAlgorithm (keyDetails : PublicKeyDetails) (v : VerifierImpl)
    (algorithmRegistry : option AlgorithmRegistryConfig) : result AlgorithmDetails :=
  algDetails ← wrap "getting key algorithm details: " (lift (GetAlgorithmDetails keyDetails));
  let alg := GetHashType algDetails in
  valid ← wrap "checking entry algorithm: " (CheckEntryAlgorithms (V_PublicKey v) alg algorithmRegistry);
  if negb valid then Err (UnsupportedAlgorithm (V_PublicKey v) alg) else Ok algDetails.

Definition verifySignature (hr : option HashedRekordRequestV002) (v : VerifierImpl) (hashAlg : Hash) : result unit :=
  sigVerifier ← wrapv "loading verifier: " (lift (LoadVerifier_ED25519ph (V_PublicKey v)));
  hr ← deref hr;
  sg ← deref (hr_Signature hr);
  wrap "verifying signature: " (lift (VerifyDigest sigVerifier (Content sg) (hr_Digest hr) hashAlg)).

Definition ToLogEntry (hr : option HashedRekordRequestV002)
    (algorithmRegistry : option AlgorithmRegistryConfig) : result Entry :=
  _ ← validate hr;
  v ← extractVerifier hr;
  req ← deref hr;
  sg ← deref (hr_Signature req);
  vf ← deref (Signature_Verifier sg);
  algDetails ← verifySupportedAlgorithm (KeyDetails vf) v algorithmRegistry;
  _ ← verifySignature hr v (GetHashType algDetails);
  Ok {| Kind := "hashedrekord";
        ApiVersion := "0.0.2";
        Entry_Spec := Some {| Spec_Spec := Some (Spec_HashedRekordV002 (Some
          {| hre_Signature := hr_Signature req;
             hre_Data := Some {| Digest := hr_Digest req; Algorithm := GetProtoHashType algDetails |} |})) |} |}.

#[local] Arguments extractVerifier : simpl never.
#[local] Arguments verifySupportedAlgorithm : simpl never.
#[local] Arguments verifySignature : simpl never.

(** ** Specification

    What a request must satisfy to become a log entry, and the entry. *)

(** The key of the material verifies the signature over the digest with the
    algorithm the key details name, and the registry permits the pair. *)
Record accepts (reg : AlgorithmRegistryConfig) (req : HashedRekordRequestV002)
    (sg : Signature) (vf : Verifier) (ad : AlgorithmDetails) : Prop := {
  acc_sig : hr_Signature req = Some sg;
  acc_content : Content sg ≠ "";
  acc_digest : hr_Digest req ≠ "";
  acc_vf : Signature_Verifier sg = Some vf;
  acc_details : GetAlgorithmDetails (KeyDetails vf) = inr ad;
  acc_key : ∃ m pub sv,
    material_of vf = Some m ∧ material_bytes m ≠ "" ∧ material_key m = Some pub ∧
    IsAlgorithmPermitted reg pub (GetHashType ad) = inr true ∧
    LoadVerifier_ED25519ph pub = inr sv ∧
    VerifyDigest sv (Content sg) (hr_Digest req) (GetHashType ad) = inr tt
}.

Definition entry_of (req : HashedRekordRequestV002) (sg : Signature) (ad : AlgorithmDetails) : Entry :=
  {| Kind := "hashedrekord";
     ApiVersion := "0.0.2";
     Entry_Spec := Some {| Spec_Spec := Some (Spec_HashedRekordV002 (Some
       {| hre_Signature := Some sg;
          hre_Data := Some {| Digest := hr_Digest req; Algorithm := GetProtoHashType ad |} |})) |} |}.

(** ** Lemmas *)

Lemma hashedrekord_validate_spec req :
  validate (Some req) = Ok tt ↔
  ∃ sg vf m, hr_Signature req = Some sg ∧ Content sg ≠ "" ∧ Signature_Verifier sg = Some vf ∧
    hr_Digest req ≠ "" ∧ material_of vf = Some m ∧ material_bytes m ≠ "".
Proof.
  unfold validate. cbn. destruct (hr_Signature req) as [sg|]; cbn; [|naive_solver].
  rewrite !len_zero. split.
  - intros Hv. go_inv.
    match goal with H : Validate _ = Ok _ |- _ => apply Validate_spec in H as (vf & m & Hvf & Hm & Hne) end.
    exists sg, vf, m. split_and!; try done; by apply is_empty_false.
  - intros (sg' & vf & m & [= <-] & Hc & Hvf & Hd & Hm & Hne).
    apply is_empty_false in Hc, Hd. rewrite Hc. cbn. rewrite Hvf. cbn. rewrite Hd. cbn.
    rewrite (proj2 (Validate_spec (Some vf))); eauto.
Qed.

Lemma extractVerifier_spec req sg vf m pub :
  hr_Signature req = Some sg → Signature_Verifier sg = Some vf → material_of vf = Some m →
  (material_key m = Some pub ↔ ∃ v, extractVerifier (Some req) = Ok v ∧ V_PublicKey v = pub).
Proof.
  intros Hsg Hvf Hm. unfold extractVerifier. cbn. rewrite Hsg. cbn. rewrite Hvf.
  destruct vf as [[[[[k]|]|[[c]|]]|] kd]; cbn in *; simplify_eq; cbn.
  - unfold publickey_NewVerifier. cbn. destruct (ParsePKIXPublicKey _) as [e|k']; cbn;
      (split; [intros [= <-]; eauto|intros (v & [= <-] & <-); done]).
  - unfold certificate_NewVerifier. cbn. destruct (ParseCertificate _) as [e|k']; cbn;
      (split; [intros [= <-]; eauto|intros (v & [= <-] & <-); done]).
Qed.

Lemma verifySupportedAlgorithm_Ok kd v reg ad :
  verifySupportedAlgorithm kd v (Some reg) = Ok ad ↔
  GetAlgorithmDetails kd = inr ad ∧
  IsAlgorithmPermitted reg (V_PublicKey v) (GetHashType ad) = inr true.
Proof.
  unfold verifySupportedAlgorithm. split.
  - intros Hs. go_inv_ext.
    match goal with H : CheckEntryAlgorithms _ _ _ = Ok ?b |- _ =>
      apply CheckEntryAlgorithms_Ok in H; destruct b; cbn in *; go_inv end.
    eauto.
  - intros [Hd Hp]. rewrite Hd. cbn. apply CheckEntryAlgorithms_Ok in Hp. by rewrite Hp.
Qed.

Lemma verifySignature_Ok req sg v h :
  hr_Signature req = Some sg →
  verifySignature (Some req) v h = Ok tt ↔
  ∃ sv, LoadVerifier_ED25519ph (V_PublicKey v) = inr sv ∧
    VerifyDigest sv (Content sg) (hr_Digest req) h = inr tt.
Proof.
  intros Hsg. unfold verifySignature. split.
  - intros Hs. go_inv_ext. simplify_eq. eauto.
  - intros (sv & Hl & Hv). rewrite Hl. cbn. rewrite Hsg. cbn. by rewrite Hv.
Qed.

Lemma ToLogEntry_inv req reg e :
  ToLogEntry (Some req) (Some reg) = Ok e →
  ∃ sg vf ad, accepts reg req sg vf ad ∧ e = entry_of req sg ad.
Proof.
  unfold ToLogEntry. intros Ht. go_inv.
  match goal with H : validate _ = Ok ?u |- _ =>
    destruct u; apply hashedrekord_validate_spec in H as (sg & vf & m & Hsg & Hc & Hvf & Hd & Hm & Hne) end.
  simplify_eq.
  match goal with H : verifySupportedAlgorithm _ _ _ = Ok _ |- _ =>
    apply verifySupportedAlgorithm_Ok in H as [Had Hperm] end.
  match goal with H : verifySignature _ _ _ = Ok ?u |- _ =>
    destruct u; apply (verifySignature_Ok _ _ _ _ Hsg) in H as (sv & Hload & Hver) end.
  match goal with H : extractVerifier _ = Ok ?v |- _ =>
    assert (material_key m = Some (V_PublicKey v)) as Hk
      by (eapply extractVerifier_spec; eauto) end.
  eexists _, _, _. split; [|unfold entry_of; rewrite <-?Hsg; reflexivity].
  constructor; eauto 10.
Qed.

Lemma ToLogEntry_accepts req reg sg vf ad :
  accepts reg req sg vf ad → ToLogEntry (Some req) (Some reg) = Ok (entry_of req sg ad).
Proof.
  intros [Hsg Hc Hd Hvf Had (m & pub & sv & Hm & Hne & Hk & Hp & Hl & Hv)].
  unfold ToLogEntry.
  rewrite (proj2 (hashedrekord_validate_spec req)) by eauto 10. cbn.
  destruct (proj1 (extractVerifier_spec req sg vf m pub Hsg Hvf Hm) Hk) as (v & -> & <-). cbn.
  rewrite Hsg. cbn. rewrite Hvf. cbn.
  rewrite (proj2 (verifySupportedAlgorithm_Ok _ _ _ ad)) by auto. cbn.
  rewrite (proj2 (verifySignature_Ok req sg v _ Hsg)) by eauto. done.
Qed.

Lemma extractVerifier_no_panic req sg :
  hr_Signature req = Some sg → no_panic (extractVerifier (Some req)).
Proof.
  intros Hsg. unfold extractVerifier. cbn. rewrite Hsg. cbn.
  repeat case_match; try apply no_panic_bind; eauto with go.
Qed.

(** ** Theorems *)

(** C2: a hashedrekord request becomes a log entry if and only if its signature, digest and
    verifier are present, the verifier's material parses to a key the registry permits
    with the algorithm of the key details, and that key verifies the signature over the
    digest; the entry then carries the request's signature and digest and the
    algorithm's hash identifier. *)
Theorem hashedrekord_ToLogEntry_iff req reg e :
  ToLogEntry (Some req) (Some reg) = Ok e ↔
  ∃ sg vf ad, accepts reg req sg vf ad ∧ e = entry_of req sg ad.
Proof.
  split; [apply ToLogEntry_inv|]. intros (sg & vf & ad & Hacc & ->). by eapply ToLogEntry_accepts.
Qed.

Lemma hashedrekord_ToLogEntry_safe req reg : no_panic (ToLogEntry (Some req) (Some reg)).
Proof.
  unfold ToLogEntry. apply no_panic_bind.
  { unfold validate. cbn. destruct (hr_Signature req); cbn; [|done].
    repeat (apply no_panic_bind; [eauto with go|]; intros _ _). eauto with go. }
  intros [] Hv. apply hashedrekord_validate_spec in Hv as (sg & vf & m & Hsg & _ & Hvf & _).
  apply no_panic_bind; [by eapply extractVerifier_no_panic|]. intros v _. cbn.
  rewrite Hsg. cbn. rewrite Hvf. cbn.
  apply no_panic_bind.
  { unfold verifySupportedAlgorithm. apply no_panic_bind; [eauto with go|]. intros ad _.
    apply no_panic_bind; [eauto with go|]. intros [] _; exact I. }
  intros ad _. apply no_panic_bind; [|intros; exact I].
  unfold verifySignature. apply no_panic_bind; [eauto with go|]. intros sv _. cbn.
  rewrite Hsg. cbn. eauto with go.
Qed.

(** Hashedrekord.ToLogEntry dereferences no nil pointer on any request message, whichever
    of its fields are nil: validation catches them first. *)
Theorem hashedrekord_ToLogEntry_no_panic req reg : no_panic (ToLogEntry (Some req) (Some reg)).
Proof. exact (hashedrekord_ToLogEntry_safe req reg). Qed.
End hashedrekord.
