(* ===== verification/Dsse.v ===== *)
(** * pkg/types/dsse: from a DSSE request to a log entry

    The whole of [dsse.go]: validation of the request, extraction of the
    verifiers into a map keyed by message pointer, the algorithm policy, the
    verification loop over that map, the canonical order of the signatures,
    and the conversions between the protobuf envelope and the base64 one. *)
From S2P Require Import Prelude GoErrors GoStrings Base64 Sha256 Proto External Verifiers AlgorithmRegistry.

(** ** Operations *)

Definition maxVerifiers : Z := 10.
Definition maxSignatures : Z := 10.

(** The nil-safe getters take the message pointer; addresses do not matter to them. *)
Definition msg {A} (p : option (ptr A)) : option A := pointee <$> p.

(** The octets by which [validate] recognises a repeated verifier. *)
Definition rawBytes_of (v : option Verifier) : bytes :=
  match GetPublicKey v with
  | Some pk => pk_RawBytes pk
  | None => match GetX509Certificate v with Some cert => x509_RawBytes cert | None => "" end
  end.

(** The loop over [ds.Verifiers], with the set [seen]. *)
Fixpoint validate_verifiers (vs : list (option (ptr Verifier))) (seen : gset string) : result unit :=
  match vs with
  | [] => Ok tt
  | v :: vs' =>
      _ ← wrapv "invalid verifier: " (Validate (msg v));
      let key := rawBytes_of (msg v) in
      if bool_decide (key ∈ seen) then Err (ErrorString "duplicate verifier")
      else validate_verifiers vs' ({[key]} ∪ seen)
  end.

(** The loop over [ds.Envelope.Signatures]. *)
Fixpoint validate_signatures (ss : list (option pbdsse_Signature)) : result unit :=
  match ss with
  | [] => Ok tt
  | None :: _ => Err (ErrorString "envelope signature empty")
  | Some s :: ss' =>
      if len (pb_Sig s) =? 0 then Err (ErrorString "envelope signature empty")
      else validate_signatures ss'
  end.

Definition zlength {A} (l : list A) : Z := Z.of_nat (length l).

Definition validate (ds : option DSSERequestV002) : result unit :=
  ds ← deref ds;
  _ ← match ds_Envelope ds with None => Err (ErrorString "missing envelope") | Some _ => Ok tt end;
  _ ← guard_err (zlength (ds_Verifiers ds) =? 0) (ErrorString "missing verifiers");
  _ ← guard_err (zlength (ds_Verifiers ds) >? maxVerifiers)
        (ErrorString ("too many verifiers: " +:+ Itoa (zlength (ds_Verifiers ds)) +:+
                      ", max allowed: " +:+ Itoa maxVerifiers));
  _ ← validate_verifiers (ds_Verifiers ds) ∅;
  env ← deref (ds_Envelope ds);
  _ ← guard_err (zlength (pb_Signatures env) =? 0) (ErrorString "envelope missing signatures");
  _ ← guard_err (zlength (pb_Signatures env) >? maxSignatures)
        (ErrorString ("too many signatures: " +:+ Itoa (zlength (pb_Signatures env)) +:+
                      ", max allowed: " +:+ Itoa maxSignatures));
  validate_signatures (pb_Signatures env).

(** *** Envelope conversions *)

Definition FromProto (env : option pbdsse_Envelope) : result dsse_Envelope :=
  env ← deref env;
  sigs ← mapM (λ s, s ← deref s;
                    Ok {| KeyID := pb_Keyid s; Sig := EncodeToString (pb_Sig s) |}) (pb_Signatures env);
  Ok {| PayloadType := pb_PayloadType env;
        Payload := EncodeToString (pb_Payload env);
        Signatures := sigs |}.

Definition ToProto (env : option dsse_Envelope) : result pbdsse_Envelope :=
  env ← deref env;
  payloadBytes ← wrap "failed to decode dsse payload: " (DecodeString (Payload env));
  sigs ← mapM (λ s, sigBytes ← wrap "failed to decode dsse signature: " (DecodeString (Sig s));
                    Ok (Some {| pb_Keyid := KeyID s; pb_Sig := sigBytes |})) (Signatures env);
  Ok {| pb_PayloadType := PayloadType env; pb_Payload := payloadBytes; pb_Signatures := sigs |}.

Section dsse.
Context `{X509, SigstoreSignature, !DsseLib}.

(** A map keyed by [*pb.Verifier]: by the pointer's address. *)
Definition verifier_map : Type := gmap positive (ptr Verifier * VerifierImpl).

Definition extractVerifier1 (v : ptr Verifier) : result VerifierImpl :=
  match GetPublicKey (Some (pointee v)), GetX509Certificate (Some (pointee v)) with
  | Some pubKey, _ =>
      vf ← wrapv "parsing public key: " (publickey_NewVerifier (NewReader (pk_RawBytes pubKey)));
      Ok (V_publickey vf)
  | None, Some cert =>
      vf ← wrapv "parsing certificate: " (certificate_NewVerifier (NewReader (x509_RawBytes cert)));
      Ok (V_certificate vf)
  | None, None => Err (ErrorString "must contain either a public key or X.509 certificate")
  end.

(** The loop of [extractVerifiers]; a nil pointer holds neither a key nor a certificate. *)
Fixpoint extract_loop (vs : list (option (ptr Verifier))) (verifiers : gmap positive (ptr Verifier * VerifierImpl))
    : result (gmap positive (ptr Verifier * VerifierImpl)) :=
  match vs with
  | [] => Ok verifiers
  | None :: _ => Err (ErrorString "must contain either a public key or X.509 certificate")
  | Some v :: vs' =>
      vf ← extractVerifier1 v;
      extract_loop vs' (<[addr v := (v, vf)]> verifiers)
  end.

Definition extractVerifiers (ds : option DSSERequestV002) : result (gmap positive (ptr Verifier * VerifierImpl)) :=
  ds ← deref ds; extract_loop (ds_Verifiers ds) ∅.

(** The upfront check of one verifier against the registry. *)
Definition check_algorithm (reg : option AlgorithmRegistryConfig) (kv : positive * (ptr Verifier * VerifierImpl))
    : result unit :=
  let '(_, (v, verifierKey)) := kv in
  algDetails ← wrap "getting key algorithm details: " (lift (GetAlgorithmDetails (KeyDetails (pointee v))));
  let alg := GetHashType algDetails in
  valid ← wrap "checking entry algorithm: " (CheckEntryAlgorithms (V_PublicKey verifierKey) alg reg);
  if negb valid then Err (UnsupportedAlgorithm (V_PublicKey verifierKey) alg) else Ok tt.

(** The inner loop over the accepted signatures. *)
Fixpoint accept_loop (accepted : list AcceptedKey) (v : ptr Verifier)
    (allSigs : gset string) (savs : gmap string (ptr Verifier)) : result (gset string * gmap string (ptr Verifier)) :=
  match accepted with
  | [] => Ok (allSigs, savs)
  | accept :: accepted' =>
      let allSigs := allSigs ∖ {[Sig (ak_Sig accept)]} in
      sigBytes ← wrap "could not decode base64 signature: " (DecodeString (Sig (ak_Sig accept)));
      accept_loop accepted' v allSigs (<[sigBytes := v]> savs)
  end.

(** What one verifier accepts of the envelope. *)
Definition verify_with (env : dsse_Envelope) (v : ptr Verifier) (verifierKey : VerifierImpl) : result (list AcceptedKey) :=
  algDetails ← wrap "getting key algorithm details: " (lift (GetAlgorithmDetails (KeyDetails (pointee v))));
  let alg := GetHashType algDetails in
  vfr ← wrap "could not load verifier: " (lift (LoadVerifier (V_PublicKey verifierKey) alg));
  dsseVfr ← wrap "could not use public key as a dsse verifier: " (lift (NewEnvelopeVerifier vfr));
  wrap "could not verify envelope: " (lift (Verify dsseVfr env)).

(** The loop over the verifiers; it breaks once every signature has been accepted. *)
Fixpoint verify_loop (env : dsse_Envelope) (l : list (positive * (ptr Verifier * VerifierImpl)))
    (allSigs : gset string) (savs : gmap string (ptr Verifier)) : result (gset string * gmap string (ptr Verifier)) :=
  match l with
  | [] => Ok (allSigs, savs)
  | (_, (v, verifierKey)) :: l' =>
      if bool_decide (allSigs = ∅) then Ok (allSigs, savs)
      else
        accepted ← verify_with env v verifierKey;
        '(allSigs, savs) ← accept_loop accepted v allSigs savs;
        verify_loop env l' allSigs savs
  end.

(** [o1] and [o2] are the orders of the two loops over [verifiers]. *)
Definition verifyEnvelopeAndSupportedAlgs (o1 o2 : map_order)
    (verifiers : gmap positive (ptr Verifier * VerifierImpl)) (pbenv : option pbdsse_Envelope)
    (algorithmRegistry : option AlgorithmRegistryConfig) : result (gmap string (ptr Verifier)) :=
  _ ← mapM (check_algorithm algorithmRegistry) (order o1 (map_to_list verifiers));
  env ← FromProto pbenv;
  let allSigs : gset string := list_to_set (Sig <$> Signatures env) in
  '(allSigs, savs) ← verify_loop env (order o2 (map_to_list verifiers)) allSigs ∅;
  if bool_decide (allSigs = ∅) then Ok savs
  else Err (ErrorString "all signatures must have a key that verifies it").

(** The signatures in ascending order of their octets; [o3] is the order of the loop that collects the keys. *)
Definition canonicalize (o3 : map_order) (signerVerifiers : gmap string (ptr Verifier)) : list (option Signature) :=
  let sortedSigs := Sort (order o3 (fst <$> map_to_list signerVerifiers)) in
  (λ s, Some {| Content := s; Signature_Verifier := pointee <$> signerVerifiers !! s |}) <$> sortedSigs.

Definition ToLogEntry (o1 o2 o3 : map_order) (ds : option DSSERequestV002)
    (algorithmRegistry : option AlgorithmRegistryConfig) : result Entry :=
  _ ← validate ds;
  verifiers ← extractVerifiers ds;
  req ← deref ds;
  signerVerifiers ← verifyEnvelopeAndSupportedAlgs o1 o2 verifiers (ds_Envelope req) algorithmRegistry;
  let canonicalizedSigs := canonicalize o3 signerVerifiers in
  env ← deref (ds_Envelope req);
  let payloadHash := Sum256 (pb_Payload env) in
  Ok {| Kind := "dsse";
        ApiVersion := "0.0.2";
        Entry_Spec := Some {| Spec_Spec := Some (Spec_DsseV002 (Some
          {| dse_PayloadHash := Some {| Algorithm := SHA2_256; Digest := payloadHash |};
             dse_Signatures := canonicalizedSigs |})) |} |}.

#[local] Arguments extractVerifier1 : simpl never.
#[local] Arguments check_algorithm : simpl never.
#[local] Arguments verify_with : simpl never.
End dsse.

(** ** Validation *)

Section validation.
Implicit Types (vs : list (option (ptr Verifier))) (seen : gset string).

Lemma rawBytes_of_material v m : material_of v = Some m → rawBytes_of (Some v) = material_bytes m.
Proof. destruct v as [[[[[k]|]|[[c]|]]|] kd]; cbn; naive_solver. Qed.

(** Every verifier is present, holds material, and no two hold the same octets. *)
Lemma validate_verifiers_Ok vs seen :
  validate_verifiers vs seen = Ok tt ↔
  (∀ v, v ∈ vs → ∃ p m, v = Some p ∧ material_of (pointee p) = Some m ∧ material_bytes m ≠ "") ∧
  NoDup (rawBytes_of ∘ msg <$> vs) ∧ (∀ v, v ∈ vs → rawBytes_of (msg v) ∉ seen).
Proof.
  revert seen. induction vs as [|v vs IH]; intros seen; cbn [validate_verifiers].
  - split; [|done]. intros _. split; [by intros ? ?%elem_of_nil|]. split; [constructor|by intros ? ?%elem_of_nil].
  - rewrite bind_Ok. split.
    + intros ([] & Hv & Hrest). apply wrapv_Ok, Validate_spec in Hv as (v' & m & Hv & Hm & Hne).
      destruct v as [p|]; [|done]. cbn in Hv. injection Hv as <-.
      case_bool_decide as Hseen; [done|]. apply IH in Hrest as (H1 & H2 & H3).
      split_and!.
      * intros v [->|Hv]%elem_of_cons; [|auto]. eauto.
      * cbn. constructor; [|done]. intros (v & Heq & Hin)%list_elem_of_fmap.
        apply (H3 v Hin). cbn in *. rewrite <-Heq. set_solver.
      * intros v [->|Hv]%elem_of_cons; [done|]. specialize (H3 v Hv). set_solver.
    + intros (H1 & H2 & H3). exists tt.
      destruct (H1 v ltac:(left)) as (p & m & -> & Hm & Hne). split.
      { apply wrapv_Ok, Validate_spec. eauto. }
      rewrite bool_decide_false by (apply H3; left). apply IH.
      cbn in H2. apply NoDup_cons in H2 as [Hnin Hnd]. split_and!; [|done|].
      * intros v Hv. apply H1. by right.
      * intros v Hv. apply not_elem_of_union. split; [|apply H3; by right].
        intros Heq%elem_of_singleton. apply Hnin. apply list_elem_of_fmap. exists v. split; [|done]. by cbn.
Qed.

Lemma validate_signatures_Ok ss :
  validate_signatures ss = Ok tt ↔ ∀ s, s ∈ ss → ∃ s', s = Some s' ∧ pb_Sig s' ≠ "".
Proof.
  induction ss as [|[s|] ss IH]; cbn [validate_signatures].
  - split; [by intros _ ? ?%elem_of_nil|done].
  - rewrite len_zero. split.
    + destruct (is_empty (pb_Sig s)) eqn:E; [done|]. apply is_empty_false in E. intros Hs.
      intros s' [->|Hin]%elem_of_cons; [eauto|]. by apply IH.
    + intros Hs. destruct (Hs (Some s) ltac:(left)) as (s' & [= <-] & Hne).
      apply is_empty_false in Hne as ->. apply IH. intros. apply Hs. by right.
  - split; [done|]. intros Hs. destruct (Hs None ltac:(left)) as (? & ? & _). done.
Qed.

(** What a valid request is: an envelope, one to ten verifiers with distinct
    non-empty material, one to ten non-empty signatures. *)
Record valid_request (ds : DSSERequestV002) (env : pbdsse_Envelope)
    (ps : list (ptr Verifier)) (sigs : list pbdsse_Signature) : Prop := {
  vr_env : ds_Envelope ds = Some env;
  vr_ptrs : ds_Verifiers ds = Some <$> ps;
  vr_sigs : pb_Signatures env = Some <$> sigs;
  vr_num_verifiers : 1 ≤ zlength ps ≤ maxVerifiers;
  vr_num_signatures : 1 ≤ zlength sigs ≤ maxSignatures;
  vr_material : ∀ p, p ∈ ps → ∃ m, material_of (pointee p) = Some m ∧ material_bytes m ≠ "";
  vr_distinct : NoDup (rawBytes_of ∘ Some ∘ pointee <$> ps);
  vr_nonempty : ∀ s, s ∈ sigs → pb_Sig s ≠ ""
}.

Lemma dsse_validate_spec ds :
  validate (Some ds) = Ok tt ↔ ∃ env ps sigs, valid_request ds env ps sigs.
Proof.
  unfold validate. go_step. split.
  - intros Hv. destruct (ds_Envelope ds) as [env|] eqn:Henv; [|done].
    go_step_in Hv. go_inv.
    repeat match goal with x : unit |- _ => destruct x end.
    match goal with H : validate_verifiers _ _ = _ |- _ =>
      apply validate_verifiers_Ok in H as (Hvs & Hnd & _) end.
    match goal with H : validate_signatures _ = _ |- _ =>
      pose proof (proj1 (validate_signatures_Ok _) H) as Hss end.
    destruct (list_all_Some (ds_Verifiers ds)) as [ps Hps].
    { intros v Hv. destruct (Hvs v Hv) as (p & _ & -> & _). done. }
    destruct (list_all_Some (pb_Signatures env)) as [sigs Hsigs].
    { intros s Hs. destruct (Hss s Hs) as (s' & -> & _). done. }
    exists env, ps, sigs. rewrite Hps in *. rewrite Hsigs in *.
    unfold zlength in *. rewrite !length_fmap in *. constructor; unfold zlength; auto; try lia.
    + intros p Hp. destruct (Hvs (Some p)) as (p' & m & [= <-] & ?); [by apply list_elem_of_fmap_2|].
      eauto.
    + by rewrite <-list_fmap_compose in Hnd.
    + intros s Hs. destruct (Hss (Some s)) as (s' & [= <-] & ?); [by apply list_elem_of_fmap_2|done].
  - intros (env & ps & sigs & [Henv Hps Hsigs Hnv Hns Hmat Hd Hne]).
    rewrite Henv. go_step. rewrite Hps, Hsigs. unfold zlength in *.
    rewrite !length_fmap.
    rewrite (proj2 (Z.eqb_neq _ 0)) by lia. go_step.
    rewrite (gtb_false (Z.of_nat (length ps))) by lia. go_step.
    rewrite (proj2 (validate_verifiers_Ok _ _)); go_step.
    2: { split_and!; [|by rewrite <-list_fmap_compose|set_solver].
         intros v (p & -> & Hp)%list_elem_of_fmap. destruct (Hmat p Hp) as (m & ?). eauto. }
    rewrite (proj2 (Z.eqb_neq _ 0)) by lia. go_step.
    rewrite (gtb_false (Z.of_nat (length sigs))) by lia. go_step.
    apply validate_signatures_Ok. intros s (s' & -> & Hs)%list_elem_of_fmap. eauto.
Qed.

Lemma dsse_validate_no_panic ds : no_panic (validate (Some ds)).
Proof.
  assert (∀ vs seen, no_panic (validate_verifiers vs seen)) as Hvs.
  { induction vs as [|v vs IH]; intros seen; cbn; [done|].
    apply no_panic_bind; [eauto with go|]. intros. by case_bool_decide. }
  assert (∀ ss, no_panic (validate_signatures ss)) as Hss.
  { induction ss as [|[s|] ss IH]; cbn; [done| |done]. by case_match. }
  unfold validate. go_step. destruct (ds_Envelope ds) as [env|]; go_step; [|done].
  do 2 (apply no_panic_bind; [eauto with go|]; intros _ _).
  apply no_panic_bind; [auto|]. intros _ _. go_step.
  do 2 (apply no_panic_bind; [eauto with go|]; intros _ _). auto.
Qed.
End validation.

(** ** Envelopes *)

(** The base64 form of a protobuf signature. *)
Definition sig_to_lib (s : pbdsse_Signature) : dsse_Signature :=
  {| KeyID := pb_Keyid s; Sig := EncodeToString (pb_Sig s) |}.

Definition env_to_lib (env : pbdsse_Envelope) (sigs : list pbdsse_Signature) : dsse_Envelope :=
  {| PayloadType := pb_PayloadType env;
     Payload := EncodeToString (pb_Payload env);
     Signatures := sig_to_lib <$> sigs |}.

Lemma FromProto_Ok env sigs :
  pb_Signatures env = Some <$> sigs → FromProto (Some env) = Ok (env_to_lib env sigs).
Proof.
  intros Hs. unfold FromProto. go_step. rewrite Hs.
  assert (mapM (λ s, s ← deref s; Ok {| KeyID := pb_Keyid s; Sig := EncodeToString (pb_Sig s) |})
            (Some <$> sigs) = Ok (sig_to_lib <$> sigs)) as ->; [|done].
  apply mapM_Ok. clear Hs. induction sigs; cbn; constructor; auto.
Qed.

Lemma sig_to_lib_Sig (sigs : list pbdsse_Signature) : Sig <$> (sig_to_lib <$> sigs) = EncodeToString ∘ pb_Sig <$> sigs.
Proof. by rewrite <-list_fmap_compose. Qed.

(** Converting a protobuf envelope without nil signatures to the base64 form and back gives
    the envelope unchanged. *)
Theorem ToProto_FromProto (env : pbdsse_Envelope) (Hnil : Forall is_Some (pb_Signatures env)) :
  (e ← FromProto (Some env); ToProto (Some e)) = Ok env.
Proof.
  destruct (list_all_Some (pb_Signatures env)) as [sigs Hs]; [by apply Forall_forall|].
  rewrite (FromProto_Ok _ _ Hs). go_step. unfold ToProto. go_step. cbn [env_to_lib Payload].
  rewrite DecodeString_EncodeToString. go_step. cbn [Signatures PayloadType].
  rewrite (proj2 (mapM_Ok _ _ (Some <$> sigs))).
  2: { clear Hs. induction sigs as [|[s k] sigs IH]; constructor; [|exact IH].
       cbn -[DecodeString EncodeToString]. by rewrite DecodeString_EncodeToString. }
  go_step. destruct env; cbn in *. by rewrite Hs.
Qed.

Lemma ToProto_FromProto_witness :
  (e ← FromProto (Some {| pb_Payload := "payload"; pb_PayloadType := "t";
                          pb_Signatures := [Some {| pb_Sig := "sig"; pb_Keyid := "k" |}] |});
   ToProto (Some e))
  = Ok {| pb_Payload := "payload"; pb_PayloadType := "t";
          pb_Signatures := [Some {| pb_Sig := "sig"; pb_Keyid := "k" |}] |}.
Proof. apply ToProto_FromProto. constructor; [by eexists|constructor]. Defined.

(** ** The loops *)

Section loops.
Context `{X509, SigstoreSignature, !DsseLib}.

#[local] Arguments extractVerifier1 : simpl never.
#[local] Arguments check_algorithm : simpl never.
#[local] Arguments verify_with : simpl never.

Abbreviation entry := (positive * (ptr Verifier * VerifierImpl))%type.
Implicit Types (l : list entry) (env : dsse_Envelope).

(** *** Extraction *)

Lemma extractVerifier1_key v vk m :
  material_of (pointee v) = Some m → extractVerifier1 v = Ok vk → material_key m = Some (V_PublicKey vk).
Proof.
  destruct v as [a [[[[[k]|]|[[c]|]]|] kd]]; cbn; intros [= <-];
    unfold extractVerifier1; cbn; intros Hv; go_inv.
  - match goal with H : publickey_NewVerifier _ = _ |- _ => apply publickey_NewVerifier_Ok in H as -> end. done.
  - match goal with H : certificate_NewVerifier _ = _ |- _ => apply certificate_NewVerifier_Ok in H as -> end. done.
Qed.

Lemma extractVerifier1_no_panic v : no_panic (extractVerifier1 v).
Proof. unfold extractVerifier1. repeat case_match; try apply no_panic_bind; eauto with go. Qed.

(** What the map holds: the request's pointers, each with the verifier built from it. *)
Lemma extract_loop_Ok ps m0 m :
  extract_loop (Some <$> ps) m0 = Ok m →
  NoDup (addr <$> ps) → (∀ p, p ∈ ps → m0 !! addr p = None) →
  ∀ a v vk, m !! a = Some (v, vk) ↔
    m0 !! a = Some (v, vk) ∨ v ∈ ps ∧ a = addr v ∧ extractVerifier1 v = Ok vk.
Proof.
  revert m0. induction ps as [|p ps IH]; intros m0 Hm Hnd Hfresh a v vk; cbn in Hm, Hnd.
  - injection Hm as <-. set_solver.
  - apply bind_Ok in Hm as (vf & Hvf & Hm). apply NoDup_cons in Hnd as [Hnin Hnd].
    rewrite (IH _ Hm Hnd).
    + destruct (decide (a = addr p)) as [->|Hne].
      * rewrite lookup_insert_eq. split.
        { intros [[= <- <-]|(Hin & Heq & _)]; [right; split; [left|done]|].
          exfalso. apply Hnin. rewrite Heq. by apply list_elem_of_fmap_2. }
        { intros [Hm0|(Hin & Heq & Hv)]; [by rewrite Hfresh in Hm0 by left|].
          apply elem_of_cons in Hin as [->|Hin]; [left; congruence|by right]. }
      * rewrite lookup_insert_ne by done. split.
        { intros [?|(? & ? & ?)]; [by left|right]. split; [by right|done]. }
        { intros [?|(Hin & -> & ?)]; [by left|right].
          apply elem_of_cons in Hin as [->|Hin]; [done|auto]. }
    + intros q Hq. rewrite lookup_insert_ne; [apply Hfresh; by right|].
      intros Heq. apply Hnin. rewrite Heq. by apply list_elem_of_fmap_2.
Qed.

Lemma extract_loop_no_panic vs m : no_panic (extract_loop vs m).
Proof.
  revert m. induction vs as [|[v|] vs IH]; intros m; cbn; [done| |done].
  apply no_panic_bind; auto using extractVerifier1_no_panic.
Qed.

(** *** Acceptance *)

(** The raw octets of the signatures in a list of accepted keys. *)
Definition raws (acc : list AcceptedKey) : list bytes :=
  omap (λ a, match DecodeString (Sig (ak_Sig a)) with Ok r => Some r | _ => None end) acc.
Definition sig_set (acc : list AcceptedKey) : gset string := list_to_set (Sig ∘ ak_Sig <$> acc).
Definition decodable (acc : list AcceptedKey) : Prop :=
  ∀ a, a ∈ acc → ∃ r, DecodeString (Sig (ak_Sig a)) = Ok r.

Lemma accept_loop_Ok acc v A S :
  decodable acc →
  accept_loop acc v A S = Ok (A ∖ sig_set acc, gset_to_gmap v (list_to_set (raws acc)) ∪ S).
Proof.
  revert A S. induction acc as [|a acc IH]; intros A S Hd; cbn [accept_loop].
  - f_equal. f_equal; [set_solver|]. unfold raws. cbn.
    by rewrite gset_to_gmap_empty, (left_id_L ∅ (∪)).
  - destruct (Hd a) as [r Hr]; [left|]. rewrite Hr. go_step.
    rewrite IH by (intros b Hb; apply Hd; by right). unfold raws, sig_set. cbn. rewrite Hr. cbn.
    f_equal. f_equal; [set_solver|].
    apply map_eq. intros k. rewrite !lookup_union, !lookup_gset_to_gmap.
    destruct (decide (k = r)) as [->|Hne].
    + rewrite lookup_insert_eq.
      rewrite (option_guard_True (r ∈ {[r]} ∪ _)) by set_solver.
      case_guard; by destruct (S !! r).
    + rewrite lookup_insert_ne by done.
      repeat case_guard; try set_solver; done.
Qed.

(** *** Verification, whatever the order of the verifiers *)

Lemma verify_with_Ok env v vk acc :
  verify_with env v vk = Ok acc →
  ∃ ad sv ev, GetAlgorithmDetails (KeyDetails (pointee v)) = inr ad ∧
    LoadVerifier (V_PublicKey vk) (GetHashType ad) = inr sv ∧
    NewEnvelopeVerifier sv = inr ev ∧ Verify ev env = inr acc.
Proof. unfold verify_with. intros. go_inv_ext. eauto 10. Qed.

Lemma verify_with_no_panic env v vk : no_panic (verify_with env v vk).
Proof.
  unfold verify_with. repeat (apply no_panic_bind; [eauto with go|]; intros ? _). eauto with go.
Qed.

(** [p] is a verifier of [l] that accepts the signature [raw]. *)
Definition accepted_by env l (raw : bytes) (p : ptr Verifier) : Prop :=
  ∃ k vk acc a, (k, (p, vk)) ∈ l ∧ verify_with env p vk = Ok acc ∧ a ∈ acc ∧
    DecodeString (Sig (ak_Sig a)) = Ok raw.

Lemma elem_of_raws acc r :
  r ∈ raws acc ↔ ∃ a, a ∈ acc ∧ DecodeString (Sig (ak_Sig a)) = Ok r.
Proof.
  unfold raws. rewrite list_elem_of_omap. split; intros (a & Ha & Hr); exists a; (split; [done|]).
  - by case_match; simplify_eq.
  - by rewrite Hr.
Qed.

Lemma verify_loop_sound env l A S A' S' :
  (∀ k v vk acc, (k, (v, vk)) ∈ l → verify_with env v vk = Ok acc → decodable acc) →
  verify_loop env l A S = Ok (A', S') →
  (∀ raw p, S' !! raw = Some p → S !! raw = Some p ∨ accepted_by env l raw p) ∧
  (∀ raw, is_Some (S !! raw) → is_Some (S' !! raw)) ∧
  (∀ s, s ∈ A → s ∈ A' ∨ ∃ raw, DecodeString s = Ok raw ∧ is_Some (S' !! raw)).
Proof.
  revert A S. induction l as [|[k [v vk]] l IH]; intros A S Hdec Hl; cbn [verify_loop] in Hl.
  { injection Hl as <- <-. auto. }
  case_bool_decide as HA; [injection Hl as <- <-; auto|].
  apply bind_Ok in Hl as (acc & Hacc & Hl).
  assert (decodable acc) as Hd by (eapply Hdec; [left|done]).
  rewrite (accept_loop_Ok acc v A S Hd) in Hl. go_step_in Hl.
  apply IH in Hl as (Hsound & Hmono & Hdone); [|intros; eapply Hdec; [by right|done]].
  set (S1 := gset_to_gmap v (list_to_set (raws acc)) ∪ S) in *.
  assert (∀ r, r ∈ raws acc → S1 !! r = Some v) as Hnew.
  { intros r Hr. apply lookup_union_Some_l, lookup_gset_to_gmap_Some. set_solver. }
  split_and!.
  - intros raw p Hp. destruct (Hsound raw p Hp) as [Hp1|(k' & vk' & acc' & a & Hin & ? & ? & ?)].
    + apply lookup_union_Some_raw in Hp1 as [Hp1|[_ Hp1]]; [|by left].
      apply lookup_gset_to_gmap_Some in Hp1 as [Hr <-]. right.
      apply elem_of_list_to_set, elem_of_raws in Hr as (a & Ha & Hr).
      exists k, vk, acc, a. split; [left|done].
    + right. exists k', vk', acc', a. split; [by right|done].
  - intros raw Hraw. apply Hmono. subst S1. apply lookup_union_is_Some. by right.
  - intros s Hs. destruct (decide (s ∈ sig_set acc)) as [Hin|Hnin].
    + right. unfold sig_set in Hin. apply elem_of_list_to_set, list_elem_of_fmap in Hin as (a & -> & Ha).
      destruct (Hd a Ha) as [r Hr]. exists r. split; [done|]. apply Hmono.
      exists v. apply Hnew, elem_of_raws. eauto.
    + apply Hdone. set_solver.
Qed.

Lemma verify_loop_no_panic env l A S :
  (∀ k v vk acc, (k, (v, vk)) ∈ l → verify_with env v vk = Ok acc → decodable acc) →
  no_panic (verify_loop env l A S).
Proof.
  revert A S. induction l as [|[k [v vk]] l IH]; intros A S Hdec; cbn [verify_loop]; [done|].
  case_bool_decide; [done|]. apply no_panic_bind; [apply verify_with_no_panic|]. intros acc Hacc.
  rewrite accept_loop_Ok by (eapply Hdec; [left|done]). go_step.
  apply IH. intros. eapply Hdec; [by right|done].
Qed.

Lemma check_algorithm_Ok reg k v vk :
  check_algorithm (Some reg) (k, (v, vk)) = Ok tt ↔
  ∃ ad, GetAlgorithmDetails (KeyDetails (pointee v)) = inr ad ∧
    IsAlgorithmPermitted reg (V_PublicKey vk) (GetHashType ad) = inr true.
Proof.
  unfold check_algorithm. destruct (GetAlgorithmDetails _) as [e|ad] eqn:E; go_step.
  - split; [done|]. intros (? & ? & _). done.
  - rewrite bind_Ok. split.
    + intros (b & Hb & Hv). apply wrap_Ok, CheckEntryAlgorithms_Ok in Hb.
      destruct b; [|done]. eauto.
    + intros (ad' & [= <-] & Hp). exists true. split; [|done]. by apply wrap_Ok, CheckEntryAlgorithms_Ok.
Qed.

Lemma check_algorithm_no_panic reg x : no_panic (check_algorithm (Some reg) x).
Proof.
  destruct x as [k [v vk]]. unfold check_algorithm. apply no_panic_bind; [eauto with go|]. intros ad _.
  apply no_panic_bind; [eauto with go|]. by intros [] _.
Qed.

(** *** What an envelope verifier accepts *)

(** Every accepted signature is an encoding of one of the request's. *)
Lemma accepted_decodable `{!DsseLaws} (env : pbdsse_Envelope) sigs v vk acc :
  verify_with (env_to_lib env sigs) v vk = Ok acc →
  ∀ a, a ∈ acc → ∃ s, s ∈ sigs ∧ Sig (ak_Sig a) = EncodeToString (pb_Sig s) ∧
    DecodeString (Sig (ak_Sig a)) = Ok (pb_Sig s).
Proof.
  intros (ad & sv & ev & _ & _ & _ & Hacc)%verify_with_Ok a Ha.
  pose proof (Verify_in _ _ _ _ Hacc Ha) as Hin.
  apply list_elem_of_fmap in Hin as (s & Hs & Hin). exists s.
  rewrite Hs. cbn. by rewrite DecodeString_EncodeToString.
Qed.

Lemma verify_decodable `{!DsseLaws} (env : pbdsse_Envelope) sigs v vk acc :
  verify_with (env_to_lib env sigs) v vk = Ok acc → decodable acc.
Proof. intros Hacc a Ha. destruct (accepted_decodable _ _ _ _ _ Hacc a Ha) as (s & _ & _ & ?). eauto. Qed.

(** ** Theorem *)

Lemma dsse_ToLogEntry_safe `{!DsseLaws} (o1 o2 o3 : map_order) ds reg :
  no_panic (ToLogEntry o1 o2 o3 (Some ds) (Some reg)).
Proof.
  unfold ToLogEntry. apply no_panic_bind; [apply dsse_validate_no_panic|].
  intros [] (env & ps & sigs & Hv)%dsse_validate_spec.
  apply no_panic_bind; [apply extract_loop_no_panic|]. intros m Hm. go_step.
  rewrite (vr_env _ _ _ _ Hv). apply no_panic_bind; [|intros; exact I].
  unfold verifyEnvelopeAndSupportedAlgs.
  apply no_panic_bind; [apply no_panic_mapM; intros; apply check_algorithm_no_panic|]. intros _ _.
  rewrite (FromProto_Ok _ _ (vr_sigs _ _ _ _ Hv)). go_step.
  apply no_panic_bind; [apply verify_loop_no_panic; intros; by eapply verify_decodable|].
  intros [A S] _. by case_bool_decide.
Qed.

(** Dsse.ToLogEntry dereferences no nil pointer on any request message, including nil
    verifiers, a nil envelope and nil signatures. *)
Theorem dsse_ToLogEntry_no_panic `{!DsseLaws} (o1 o2 o3 : map_order) ds reg :
  no_panic (ToLogEntry o1 o2 o3 (Some ds) (Some reg)).
Proof. exact (dsse_ToLogEntry_safe o1 o2 o3 ds reg). Qed.
End loops.
