(* ===== verification/DsseSpec.v ===== *)
(** * What a DSSE log entry promises

    The specification of [dsse.ToLogEntry] and the theorems that the code
    meets it for every order in which the maps are ranged over; and what the
    result does depend on. *)
From S2P Require Import Prelude GoErrors GoStrings Base64 Sha256 Proto External Verifiers AlgorithmRegistry Dsse.

Section spec.
Context `{X509, SigstoreSignature, !DsseLib}.
Implicit Types (reg : AlgorithmRegistryConfig) (ds : DSSERequestV002)
  (ps : list (ptr Verifier)) (sigs : list pbdsse_Signature).

(** The verifier message's key and algorithm, permitted by the registry. *)
Definition permitted reg (v : Verifier) (pub : PublicKey) (ad : AlgorithmDetails) : Prop :=
  ∃ m, material_of v = Some m ∧ material_key m = Some pub ∧
    GetAlgorithmDetails (KeyDetails v) = inr ad ∧
    IsAlgorithmPermitted reg pub (GetHashType ad) = inr true.

(** The verifier's key verifies [content] over the envelope's PAE. *)
Definition verifies reg (env : pbdsse_Envelope) (v : Verifier) (content : bytes) : Prop :=
  ∃ pub ad sv, permitted reg v pub ad ∧ LoadVerifier pub (GetHashType ad) = inr sv ∧
    VerifyMessage sv content (PAE (pb_PayloadType env) (pb_Payload env)) = inr tt.

(** An entry for the signatures [out], each with its verifier. *)
Definition dsse_entry (env : pbdsse_Envelope) (out : list (bytes * Verifier)) : Entry :=
  {| Kind := "dsse";
     ApiVersion := "0.0.2";
     Entry_Spec := Some {| Spec_Spec := Some (Spec_DsseV002 (Some
       {| dse_PayloadHash := Some {| Algorithm := SHA2_256; Digest := Sum256 (pb_Payload env) |};
          dse_Signatures := (λ x, Some {| Content := x.1; Signature_Verifier := Some x.2 |}) <$> out |})) |} |}.

(** ** From the request to the map of verifiers *)

Lemma valid_request_addrs ds env ps sigs :
  valid_request ds env ps sigs → ptrs_consistent ps → NoDup (addr <$> ps).
Proof.
  intros Hv Hc. pose proof (vr_distinct _ _ _ _ Hv) as Hd. clear Hv.
  induction ps as [|p ps IH]; cbn; constructor; cbn in Hd; apply NoDup_cons in Hd as [Hnin Hd].
  - intros (q & Heq & Hq)%list_elem_of_fmap. apply Hnin.
    rewrite (Hc p q) by (done || left || by right).
    change (rawBytes_of (Some (pointee q))) with ((rawBytes_of ∘ Some ∘ pointee) q).
    by apply list_elem_of_fmap_2.
  - apply IH; [|done]. intros q r Hq Hr. apply Hc; by right.
Qed.

Lemma extractVerifiers_lookup ds env ps sigs m :
  valid_request ds env ps sigs → ptrs_consistent ps → extractVerifiers (Some ds) = Ok m →
  ∀ a v vk, m !! a = Some (v, vk) ↔ v ∈ ps ∧ a = addr v ∧ extractVerifier1 v = Ok vk.
Proof.
  intros Hv Hc Hm a v vk. unfold extractVerifiers in Hm. go_step_in Hm.
  rewrite (vr_ptrs _ _ _ _ Hv) in Hm.
  rewrite (extract_loop_Ok _ _ _ Hm); [|by eapply valid_request_addrs|by intros; apply lookup_empty].
  rewrite lookup_empty. naive_solver.
Qed.

Lemma extractVerifiers_all ds env ps sigs m p :
  valid_request ds env ps sigs → ptrs_consistent ps → extractVerifiers (Some ds) = Ok m →
  p ∈ ps → ∃ vk, m !! addr p = Some (p, vk).
Proof.
  intros Hv Hc Hm Hp. assert (∃ vk, extractVerifier1 p = Ok vk) as [vk Hvk].
  { unfold extractVerifiers in Hm. go_step_in Hm. rewrite (vr_ptrs _ _ _ _ Hv) in Hm. clear Hv.
    revert Hm. generalize (∅ : gmap positive (ptr Verifier * VerifierImpl)).
    induction ps as [|q ps IH]; [by apply elem_of_nil in Hp|]. intros m0 Hm. cbn in Hm.
    apply bind_Ok in Hm as (vk & Hvk & Hm). apply elem_of_cons in Hp as [->|Hp]; [eauto|].
    apply (IH ltac:(intros x y Hx Hy; apply Hc; by right) Hp _ Hm). }
  exists vk. by apply (extractVerifiers_lookup ds env ps sigs m Hv Hc Hm).
Qed.

(** ** The policy *)

Lemma check_all_Ok reg (o : map_order) (m : gmap positive (ptr Verifier * VerifierImpl)) u a v vk :
  mapM (check_algorithm (Some reg)) (order o (map_to_list m)) = Ok u → m !! a = Some (v, vk) →
  ∃ ad, GetAlgorithmDetails (KeyDetails (pointee v)) = inr ad ∧
    IsAlgorithmPermitted reg (V_PublicKey vk) (GetHashType ad) = inr true.
Proof.
  intros Hm Hl. assert ((a, (v, vk)) ∈ order o (map_to_list m)) as Hin.
  { rewrite (order_perm o). by apply elem_of_map_to_list. }
  destruct (mapM_Ok_elem _ _ _ _ Hm Hin) as ([] & Hc). by apply check_algorithm_Ok in Hc.
Qed.

(** ** Success *)

(** The map of signatures to verifiers, as [verifyEnvelopeAndSupportedAlgs] leaves it. *)
Record savs_ok reg (env : pbdsse_Envelope) ps sigs (savs : gmap string (ptr Verifier)) : Prop := {
  savs_dom : ∀ c, is_Some (savs !! c) ↔ c ∈ pb_Sig <$> sigs;
  savs_backed : ∀ c p, savs !! c = Some p → p ∈ ps ∧ verifies reg env (pointee p) c
}.

Lemma permitted_of reg ds env ps sigs m o u a v vk :
  valid_request ds env ps sigs → ptrs_consistent ps → extractVerifiers (Some ds) = Ok m →
  mapM (check_algorithm (Some reg)) (order o (map_to_list m)) = Ok u →
  m !! a = Some (v, vk) → ∃ ad, v ∈ ps ∧ permitted reg (pointee v) (V_PublicKey vk) ad.
Proof.
  intros Hv Hc Hm Hu Hl. destruct (check_all_Ok _ _ _ _ _ _ _ Hu Hl) as (ad & Had & Hp).
  apply (extractVerifiers_lookup _ _ _ _ _ Hv Hc Hm) in Hl as (Hin & _ & Hk).
  destruct (vr_material _ _ _ _ Hv v Hin) as (mat & Hmat & _).
  exists ad. split; [done|]. exists mat. split_and!; try done. by eapply extractVerifier1_key.
Qed.

Lemma verifyEnvelope_savs `{!DsseLaws} reg ds env ps sigs m o1 o2 savs :
  valid_request ds env ps sigs → ptrs_consistent ps → extractVerifiers (Some ds) = Ok m →
  verifyEnvelopeAndSupportedAlgs o1 o2 m (Some env) (Some reg) = Ok savs →
  savs_ok reg env ps sigs savs ∧ ∀ p, p ∈ ps → ∃ pub ad, permitted reg (pointee p) pub ad.
Proof.
  intros Hv Hc Hm Hs. unfold verifyEnvelopeAndSupportedAlgs in Hs.
  apply bind_Ok in Hs as (u & Hu & Hs). rewrite (FromProto_Ok _ _ (vr_sigs _ _ _ _ Hv)) in Hs.
  go_step_in Hs. apply bind_Ok in Hs as ([A' S'] & Hl & Hs).
  case_bool_decide as HA; [|done]. injection Hs as <-.
  apply verify_loop_sound in Hl as (Hsound & _ & Hdone); [|intros; by eapply verify_decodable].
  split; [|intros p Hp; destruct (extractVerifiers_all _ _ _ _ _ _ Hv Hc Hm Hp) as [vk Hvk];
           destruct (permitted_of _ _ _ _ _ _ _ _ _ _ _ Hv Hc Hm Hu Hvk) as (ad & _ & ?); eauto].
  assert (∀ c p, S' !! c = Some p → accepted_by (env_to_lib env sigs) (order o2 (map_to_list m)) c p) as Hacc.
  { intros c p Hp. destruct (Hsound c p Hp) as [Hbad|?]; [by rewrite lookup_empty in Hbad|done]. }
  clear Hsound. split.
  - intros c. split.
    + intros [p Hp]. destruct (Hacc c p Hp) as (k & vk & acc & a & _ & Hvw & Ha & Hr).
      destruct (accepted_decodable _ _ _ _ _ Hvw a Ha) as (s & Hs & _ & Hr').
      assert (c = pb_Sig s) as -> by congruence. by apply list_elem_of_fmap_2.
    + intros (s & -> & Hs)%list_elem_of_fmap.
      destruct (Hdone (EncodeToString (pb_Sig s))) as [Hin|(raw & Hraw & Hsome)].
      * apply elem_of_list_to_set. cbn [Signatures env_to_lib]. rewrite sig_to_lib_Sig.
        apply list_elem_of_fmap. eauto.
      * set_solver.
      * rewrite DecodeString_EncodeToString in Hraw. by injection Hraw as <-.
  - intros c p Hp. destruct (Hacc c p Hp) as (k & vk & acc & a & Hin & Hvw & Ha & Hr).
    rewrite (order_perm o2), elem_of_map_to_list in Hin.
    destruct (permitted_of _ _ _ _ _ _ _ _ _ _ _ Hv Hc Hm Hu Hin) as (ad & Hps & Hperm).
    split; [done|]. pose proof (verify_with_Ok _ _ _ _ Hvw) as (ad' & sv & ev & Had & Hload & Hev & Hver).
    assert (ad' = ad) as -> by (destruct Hperm as (? & _ & _ & ? & _); congruence).
    exists (V_PublicKey vk), ad, sv. split_and!; [done|done|].
    eapply (Verify_valid sv ev (env_to_lib env sigs)); try done. cbn. apply DecodeString_EncodeToString.
Qed.

(** The canonical list of signatures. *)
Lemma canonicalize_spec reg env ps sigs o3 savs :
  savs_ok reg env ps sigs savs →
  ∃ out, canonicalize o3 savs = (λ x, Some {| Content := x.1; Signature_Verifier := Some x.2 |}) <$> out ∧
    Sorted string_le out.*1 ∧ NoDup out.*1 ∧
    (∀ c, c ∈ out.*1 ↔ c ∈ pb_Sig <$> sigs) ∧
    (∀ c v, (c, v) ∈ out → verifies reg env v c ∧ ∃ p, p ∈ ps ∧ pointee p = v).
Proof.
  intros [Hdom Hback]. unfold canonicalize.
  set (keys := Sort (order o3 (fst <$> map_to_list savs))).
  assert (keys ≡ₚ fst <$> map_to_list savs) as Hkeys
    by (subst keys; by rewrite Sort_perm, (order_perm o3)).
  assert (∀ c, c ∈ keys ↔ is_Some (savs !! c)) as Hin.
  { intros c. rewrite Hkeys, list_elem_of_fmap. split.
    - intros ([c' p] & -> & Hp%elem_of_map_to_list). by exists p.
    - intros [p Hp]. exists (c, p). split; [done|]. by apply elem_of_map_to_list. }
  assert (NoDup keys) as Hnd by (rewrite Hkeys; apply NoDup_fst_map_to_list).
  assert (Sorted string_le keys) as Hsorted by apply Sort_Sorted.
  clearbody keys.
  exists (omap (λ c, (λ p, (c, pointee p)) <$> savs !! c) keys).
  assert ((omap (λ c, (λ p, (c, pointee p)) <$> savs !! c) keys).*1 = keys) as Hfst.
  { assert (∀ c, c ∈ keys → is_Some (savs !! c)) as Hall by (intros; by apply Hin).
    clear -Hall. induction keys as [|c ks IH]; [done|]. cbn.
    destruct (Hall c) as [p ->]; [left|]. cbn. f_equal. apply IH. intros. apply Hall. by right. }
  rewrite Hfst. split_and!; [|done|done|by intros c; rewrite Hin|].
  - assert (∀ c, c ∈ keys → is_Some (savs !! c)) as Hall by (intros; by apply Hin).
    clear -Hall. induction keys as [|c ks IH]; [done|]. cbn.
    destruct (Hall c) as [p ->]; [left|]. cbn. f_equal. apply IH. intros. apply Hall. by right.
  - intros c v Hcv. apply list_elem_of_omap in Hcv as (c' & _ & Hcv).
    destruct (savs !! c') as [p|] eqn:Hp; [|done]. cbn in Hcv. injection Hcv as -> <-.
    destruct (Hback _ _ Hp) as [? ?]. eauto.
Qed.

Lemma dsse_ToLogEntry_inv o1 o2 o3 ds reg e :
  ToLogEntry o1 o2 o3 (Some ds) (Some reg) = Ok e →
  ∃ env ps sigs m savs, valid_request ds env ps sigs ∧ extractVerifiers (Some ds) = Ok m ∧
    verifyEnvelopeAndSupportedAlgs o1 o2 m (Some env) (Some reg) = Ok savs ∧
    e = {| Kind := "dsse"; ApiVersion := "0.0.2";
           Entry_Spec := Some {| Spec_Spec := Some (Spec_DsseV002 (Some
             {| dse_PayloadHash := Some {| Algorithm := SHA2_256; Digest := Sum256 (pb_Payload env) |};
                dse_Signatures := canonicalize o3 savs |})) |} |}.
Proof.
  unfold ToLogEntry. intros Ht.
  apply bind_Ok in Ht as ([] & (env & ps & sigs & Hv)%dsse_validate_spec & Ht).
  apply bind_Ok in Ht as (m & Hm & Ht). go_step_in Ht. rewrite (vr_env _ _ _ _ Hv) in Ht.
  apply bind_Ok in Ht as (savs & Hs & Ht). go_step_in Ht. injection Ht as <-.
  exists env, ps, sigs, m, savs. auto.
Qed.

(** The pointers of a request come from one store. *)
Definition request_ptrs_consistent ds : Prop := ptrs_consistent (omap id (ds_Verifiers ds)).

Lemma request_ptrs ds env ps sigs :
  valid_request ds env ps sigs → request_ptrs_consistent ds → ptrs_consistent ps.
Proof.
  unfold request_ptrs_consistent. intros Hv. rewrite (vr_ptrs _ _ _ _ Hv).
  assert (omap id (Some <$> ps) = ps) as ->; [|done]. clear. induction ps; cbn; congruence.
Qed.

(** ** Theorems *)

(** C1: whatever the order in which the maps are ranged over, a DSSE request that becomes a
    log entry was valid, and the entry lists in strictly ascending octet order exactly
    the signatures of the envelope, each with one of the request's verifiers whose
    permitted key verifies it over the envelope's PAE; the payload hash is the SHA-256
    of the payload. *)
Theorem dsse_ToLogEntry_sound `{!DsseLaws} (o1 o2 o3 : map_order) ds reg e
    (Hptrs : request_ptrs_consistent ds)
    (Hok : ToLogEntry o1 o2 o3 (Some ds) (Some reg) = Ok e) :
  ∃ env ps sigs out, valid_request ds env ps sigs ∧ e = dsse_entry env out ∧
    Sorted string_le out.*1 ∧ NoDup out.*1 ∧
    (∀ c, c ∈ out.*1 ↔ c ∈ pb_Sig <$> sigs) ∧
    (∀ c v, (c, v) ∈ out → verifies reg env v c ∧ ∃ p, p ∈ ps ∧ pointee p = v).
Proof.
  apply dsse_ToLogEntry_inv in Hok as (env & ps & sigs & m & savs & Hv & Hm & Hs & ->).
  destruct (verifyEnvelope_savs _ _ _ _ _ _ _ _ _ Hv (request_ptrs _ _ _ _ Hv Hptrs) Hm Hs) as [Hsavs _].
  destruct (canonicalize_spec _ _ _ _ o3 _ Hsavs) as (out & Hout & Hrest).
  exists env, ps, sigs, out. rewrite Hout. auto.
Qed.

(** C24: a DSSE request is logged only if every verifier it names, used or not, has a key and
    algorithm that the registry permits, whatever the order of the map. *)
Theorem dsse_policy_all_verifiers `{!DsseLaws} (o1 o2 o3 : map_order) ds reg e
    (Hptrs : request_ptrs_consistent ds)
    (Hok : ToLogEntry o1 o2 o3 (Some ds) (Some reg) = Ok e) :
  ∀ p, Some p ∈ ds_Verifiers ds → ∃ pub ad, permitted reg (pointee p) pub ad.
Proof.
  apply dsse_ToLogEntry_inv in Hok as (env & ps & sigs & m & savs & Hv & Hm & Hs & ->).
  destruct (verifyEnvelope_savs _ _ _ _ _ _ _ _ _ Hv (request_ptrs _ _ _ _ Hv Hptrs) Hm Hs) as [_ Hp].
  intros p Hin. rewrite (vr_ptrs _ _ _ _ Hv) in Hin. apply Hp. set_solver.
Qed.

End spec.
