(* ===== verification/Sample.v ===== *)
(** * A sample implementation of the library interfaces

    Small concrete functions with the documented behaviour of the libraries:
    a key's DER form is the key itself, a certificate is a key with a label,
    and a signature is the key followed by the message.  They show that the
    laws of [External] can hold, and the concrete runs of the development use
    them. *)
From S2P Require Import Prelude GoErrors GoStrings Base64 Proto External.

Module Sample.

Definition cert_label : string := "cert:".

Definition parse_cert (d : bytes) : error + Certificate :=
  if HasPrefix d cert_label
  then inr {| cert_Raw := d; cert_PublicKey := PK_ed25519 (TrimPrefix d cert_label) |}
  else inl (ErrorString "x509: malformed certificate").

Definition marshal_key (k : PublicKey) : error + bytes :=
  match k with
  | PK_ed25519 b => inr b
  | PK_rsa k => inr ("rsa:" +:+ FormatUint (Zpos (countable.encode (rsa_N k, rsa_E k))))
  | PK_ecdsa k => inr ("ecdsa:" +:+ ecdsa_Curve_Name k)
  | PK_other _ => inl (ErrorString "x509: unsupported public key type")
  end.

Lemma marshal_rsa_inj k k' d :
  marshal_key (PK_rsa k) = inr d → marshal_key (PK_rsa k') = inr d → k = k'.
Proof.
  intros [= <-] [= Heq]. apply FormatUint_inj in Heq; [|lia..]. injection Heq as Heq.
  apply (inj countable.encode) in Heq. destruct k, k'. cbn in *. congruence.
Qed.

#[export] Instance x509 : X509 := {|
  ParsePKIXPublicKey := λ d, inr (PK_ed25519 d);
  ParseCertificate := parse_cert;
  MarshalPKIXPublicKey := marshal_key;
  MarshalPublicKeyToPEM := marshal_key;
  MarshalCertificateToPEM := λ c, inr (cert_Raw c);
  MarshalPublicKeyToDER := marshal_key
|}.

(** Algorithms are their own details; a registry is the list of permitted ones. *)
Definition details (d : PublicKeyDetails) : error + PublicKeyDetails :=
  match d with
  | PublicKeyDetails_other _ => inl (ErrorString "could not find algorithm details")
  | d => inr d
  end.

Definition hash_type (d : PublicKeyDetails) : Hash :=
  match d with
  | PKIX_ECDSA_P384_SHA_384 => crypto_SHA384
  | PKIX_ECDSA_P521_SHA_512 | PKIX_ED25519 | PKIX_ED25519_PH => crypto_SHA512
  | _ => crypto_SHA256
  end.

Definition flags : list (string * PublicKeyDetails) :=
  [ ("rsa-sign-pkcs1-2048-sha256", PKIX_RSA_PKCS1V15_2048_SHA256);
    ("rsa-sign-pkcs1-3072-sha256", PKIX_RSA_PKCS1V15_3072_SHA256);
    ("rsa-sign-pkcs1-4096-sha256", PKIX_RSA_PKCS1V15_4096_SHA256);
    ("ecdsa-sha2-256-nistp256", PKIX_ECDSA_P256_SHA_256);
    ("ecdsa-sha2-384-nistp384", PKIX_ECDSA_P384_SHA_384);
    ("ecdsa-sha2-512-nistp521", PKIX_ECDSA_P521_SHA_512);
    ("ed25519", PKIX_ED25519);
    ("ed25519-ph", PKIX_ED25519_PH) ].

Definition parse_flag (f : string) : error + PublicKeyDetails :=
  match list_find (λ x, x.1 = f) flags with
  | Some (_, (_, d)) => inr d
  | None => inl (ErrorString "unknown signature algorithm")
  end.

Definition format_flag (d : PublicKeyDetails) : error + string :=
  match list_find (λ x, x.2 = d) flags with
  | Some (_, (f, _)) => inr f
  | None => inl (ErrorString "unknown signature algorithm")
  end.

Definition key_kind (k : PublicKey) (d : PublicKeyDetails) : bool :=
  match k, d with
  | PK_ed25519 _, PKIX_ED25519 | PK_ed25519 _, PKIX_ED25519_PH => true
  | PK_ecdsa k, PKIX_ECDSA_P256_SHA_256 => bool_decide (ecdsa_Curve_Name k = "P-256")
  | PK_ecdsa k, PKIX_ECDSA_P384_SHA_384 => bool_decide (ecdsa_Curve_Name k = "P-384")
  | PK_ecdsa k, PKIX_ECDSA_P521_SHA_512 => bool_decide (ecdsa_Curve_Name k = "P-521")
  | PK_rsa k, PKIX_RSA_PKCS1V15_2048_SHA256 => rsa_Size k =? 256
  | PK_rsa k, PKIX_RSA_PKCS1V15_3072_SHA256 => rsa_Size k =? 384
  | PK_rsa k, PKIX_RSA_PKCS1V15_4096_SHA256 => rsa_Size k =? 512
  | _, _ => false
  end.

Definition permitted (reg : list PublicKeyDetails) (k : PublicKey) (h : Hash) : error + bool :=
  inr (existsb (λ d, key_kind k d && (hash_type d =? h)) reg).

Definition load (k : PublicKey) : error + bytes :=
  match k with PK_other _ => inl (ErrorString "unsupported public key type") | k => marshal_key k end.

Definition sign (key message : bytes) : bytes := key +:+ ":" +:+ message.

Definition verify_message (key sig message : bytes) : error + unit :=
  if bool_decide (sig = sign key message) then inr tt else inl (ErrorString "invalid signature").

#[export] Instance sigstore : SigstoreSignature := {|
  AlgorithmDetails := PublicKeyDetails;
  GetHashType := hash_type;
  GetProtoHashType := λ d, if hash_type d =? crypto_SHA256 then SHA2_256 else HashAlgorithm_other (hash_type d);
  GetAlgorithmDetails := details;
  ParseSignatureAlgorithmFlag := parse_flag;
  FormatSignatureAlgorithmFlag := format_flag;
  AlgorithmRegistryConfig := list PublicKeyDetails;
  NewAlgorithmRegistryConfig := inr;
  IsAlgorithmPermitted := permitted;
  SigVerifier := bytes;
  LoadVerifier := λ k _, load k;
  LoadVerifier_ED25519ph := load;
  VerifyDigest := λ sv sig digest _, verify_message sv sig digest;
  VerifyMessage := verify_message
|}.

Definition pae (payloadType payload : bytes) : bytes :=
  "DSSEv1 " +:+ Itoa (len payloadType) +:+ " " +:+ payloadType +:+ " " +:+
  Itoa (len payload) +:+ " " +:+ payload.

(** One key, threshold one: the signatures of the envelope that the key verifies, at least one. *)
Definition sig_ok (key : bytes) (env : dsse_Envelope) (s : dsse_Signature) : bool :=
  match DecodeString (Payload env), DecodeString (Sig s) with
  | Ok body, Ok raw => bool_decide (raw = sign key (pae (PayloadType env) body))
  | _, _ => false
  end.

Definition verify_envelope (key : bytes) (env : dsse_Envelope) : error + list AcceptedKey :=
  match List.filter (sig_ok key env) (Signatures env) with
  | [] => inl (ErrorString "accepted signatures do not match threshold, Found: 0, Expected 1")
  | l => inr (Build_AcceptedKey <$> l)
  end.

#[export] Instance dsse_lib : DsseLib := {|
  EnvelopeVerifier := bytes;
  NewEnvelopeVerifier := inr;
  Verify := verify_envelope;
  PAE := pae
|}.

Lemma verify_envelope_In key env acc a :
  verify_envelope key env = inr acc → a ∈ acc → ak_Sig a ∈ Signatures env ∧ sig_ok key env (ak_Sig a) = true.
Proof.
  intros Hv Ha. assert (acc = Build_AcceptedKey <$> List.filter (sig_ok key env) (Signatures env)) as ->.
  { unfold verify_envelope in Hv. destruct (List.filter _ _); by simplify_eq. }
  apply list_elem_of_fmap in Ha as (s & -> & Hs). apply list_elem_of_In, filter_In in Hs as [Hin Hok].
  split; [by apply list_elem_of_In|done].
Qed.

#[export] Instance dsse_laws : DsseLaws.
Proof.
  split.
  - intros ev env acc a Hv Ha. by destruct (verify_envelope_In _ _ _ _ Hv Ha).
  - intros sv ev env acc a body raw [= ->] Hv Ha Hbody Hraw.
    destruct (verify_envelope_In _ _ _ _ Hv Ha) as [_ Hok]. unfold sig_ok in Hok.
    rewrite Hbody, Hraw in Hok. cbn. unfold verify_message. by destruct (bool_decide _).
Qed.

End Sample.
