(* ===== verification/DsseOrder.v ===== *)
(** * What the entry owes to the order of the map

    [verifyEnvelopeAndSupportedAlgs] ranges over a map of verifiers and stops
    once every signature has been accepted.  When every verifier accepts a
    signature and no signature is accepted by two of them, the order does not
    matter.  Without that, it does: the last section runs the code on a request
    it accepts in one order and rejects in another, and on one for which two
    orders log different entries. *)
From S2P Require Import Prelude GoErrors GoStrings Base64 Sha256 Proto External Verifiers AlgorithmRegistry Dsse DsseSpec Sample.

Section order.
Context `{X509, SigstoreSignature, !DsseLib}.

Abbreviation entry := (positive * (ptr Verifier * VerifierImpl))%type.
Implicit Types (l : list entry) (env : dsse_Envelope) (x y : entry).

(** What the verifier of a map entry accepts. *)
Definition acc_of env x : list AcceptedKey :=
  match verify_with env x.2.1 x.2.2 with Ok acc => acc | _ => [] end.

(** Every verifier accepts something, and no two accept the same signature. *)
Record exclusive env (m : gmap positive (ptr Verifier * VerifierImpl)) : Prop := {
  ex_accepts : ∀ a v vk, m !! a = Some (v, vk) → ∃ acc, verify_with env v vk = Ok acc ∧ acc ≠ [];
  ex_disjoint : ∀ a1 a2 w1 w2, a1 ≠ a2 → m !! a1 = Some w1 → m !! a2 = Some w2 →
    sig_set (acc_of env (a1, w1)) ## sig_set (acc_of env (a2, w2))
}.

Definition one_key_per_signature (ds : DSSERequestV002) : Prop :=
  ∀ m env, extractVerifiers (Some ds) = Ok m → FromProto (ds_Envelope ds) = Ok env → exclusive env m.

(** ** The verification loop under exclusivity *)

Lemma verify_loop_exclusive env l A S :
  NoDup l.*1 →
  (∀ x, x ∈ l → ∃ acc, verify_with env x.2.1 x.2.2 = Ok acc ∧ acc ≠ [] ∧ decodable acc ∧ sig_set acc ⊆ A) →
  (∀ x y, x ∈ l → y ∈ l → x.1 ≠ y.1 →
     sig_set (acc_of env x) ## sig_set (acc_of env y) ∧
     ∀ r, r ∈ raws (acc_of env x) → r ∉ raws (acc_of env y)) →
  ∃ A' S', verify_loop env l A S = Ok (A', S') ∧
    (∀ s, s ∈ A' ↔ s ∈ A ∧ ∀ x, x ∈ l → s ∉ sig_set (acc_of env x)) ∧
    (∀ r p, S' !! r = Some p ↔
       (∃ x, x ∈ l ∧ x.2.1 = p ∧ r ∈ raws (acc_of env x)) ∨
       S !! r = Some p ∧ ∀ x, x ∈ l → r ∉ raws (acc_of env x)).
Proof.
  revert A S. induction l as [|[k [v vk]] l IH]; intros A S Hnd Hacc Hdisj.
  { exists A, S. split; [done|]. split; [set_solver|]. set_solver. }
  cbn in Hnd. apply NoDup_cons in Hnd as [Hnin Hnd].
  destruct (Hacc (k, (v, vk))) as (acc & Hv & Hne & Hdec & Hsub); [left|]. cbn in Hv.
  assert (acc_of env (k, (v, vk)) = acc) as Hacc_of by (unfold acc_of; cbn; by rewrite Hv).
  assert (∀ y, y ∈ l → k ≠ y.1) as Hk.
  { intros y Hy ->. apply Hnin. by apply list_elem_of_fmap_2. }
  assert (∀ y, y ∈ l → sig_set acc ## sig_set (acc_of env y) ∧
    ∀ r, r ∈ raws acc → r ∉ raws (acc_of env y)) as Hd1.
  { intros y Hy. rewrite <-Hacc_of. apply Hdisj; [left|by right|by apply Hk]. }
  set (S1 := gset_to_gmap v (list_to_set (raws acc)) ∪ S).
  destruct (IH (A ∖ sig_set acc) S1) as (A' & S' & Hl & HA & HS); [done| | |].
  { intros y Hy. destruct (Hacc y) as (acc' & Hv' & Hne' & Hdec' & Hsub'); [by right|].
    exists acc'. split_and!; try done. destruct (Hd1 y Hy) as [Hd _]. unfold acc_of in Hd.
    rewrite Hv' in Hd. set_solver. }
  { intros x y Hx Hy. apply Hdisj; by right. }
  exists A', S'. split_and!.
  - cbn [verify_loop]. rewrite bool_decide_false.
    2: { intros ->. destruct acc as [|a acc]; [done|]. unfold sig_set in Hsub. cbn in Hsub. set_solver. }
    rewrite Hv. go_step. by rewrite (accept_loop_Ok acc v A S Hdec).
  - intros s. rewrite HA, elem_of_difference. split.
    + intros [[HsA Hs] Hall]. split; [done|].
      intros x [->|Hx]%elem_of_cons; [by rewrite Hacc_of|auto].
    + intros [HsA Hall]. split; [split; [done|]|intros; apply Hall; by right].
      rewrite <-Hacc_of. apply Hall. left.
  - intros r p. rewrite HS. subst S1.
    rewrite lookup_union_Some_raw, lookup_gset_to_gmap_Some, lookup_gset_to_gmap_None.
    rewrite !elem_of_list_to_set. split.
    + intros [(x & Hx & Hp & Hr)|[[[Hr <-]|[Hr HSr]] Hall]].
      * left. exists x. split; [by right|done].
      * left. exists (k, (v, vk)). split; [left|]. by rewrite Hacc_of.
      * right. split; [done|]. intros x [->|Hx]%elem_of_cons; [by rewrite Hacc_of|auto].
    + intros [(x & [->|Hx]%elem_of_cons & Hp & Hr)|[HSr Hall]].
      * right. rewrite Hacc_of in Hr. cbn in Hp. split; [by left|].
        intros y Hy. by apply Hd1.
      * left. eauto.
      * right. split; [|intros; apply Hall; by right]. right. split; [|done].
        rewrite <-Hacc_of. apply Hall. left.
Qed.

(** Two orders of the same entries leave the same sets and maps. *)
Lemma verify_loop_perm env l l' A S :
  l ≡ₚ l' → NoDup l.*1 →
  (∀ x, x ∈ l → ∃ acc, verify_with env x.2.1 x.2.2 = Ok acc ∧ acc ≠ [] ∧ decodable acc ∧ sig_set acc ⊆ A) →
  (∀ x y, x ∈ l → y ∈ l → x.1 ≠ y.1 →
     sig_set (acc_of env x) ## sig_set (acc_of env y) ∧
     ∀ r, r ∈ raws (acc_of env x) → r ∉ raws (acc_of env y)) →
  verify_loop env l A S = verify_loop env l' A S.
Proof.
  intros Hp Hnd Hacc Hdisj.
  destruct (verify_loop_exclusive env l A S) as (A1 & S1 & -> & HA1 & HS1); [done..|].
  destruct (verify_loop_exclusive env l' A S) as (A2 & S2 & -> & HA2 & HS2).
  { by rewrite <-Hp. }
  { intros x. rewrite <-Hp. apply Hacc. }
  { intros x y. rewrite <-Hp. apply Hdisj. }
  f_equal. f_equal.
  - apply set_eq. intros s. rewrite HA1, HA2. by setoid_rewrite Hp.
  - apply map_eq. intros r. apply option_eq. intros p. rewrite HS1, HS2. by setoid_rewrite Hp.
Qed.

Lemma mapM_Ok_perm {A B} (f : A → result B) (k k' : list A) u :
  k ≡ₚ k' → mapM f k = Ok u → ∃ u', mapM f k' = Ok u'.
Proof.
  intros Hp Hm. assert (∀ a, a ∈ k' → ∃ b, f a = Ok b) as Hall.
  { intros a Ha. rewrite <-Hp in Ha. by eapply mapM_Ok_elem. }
  clear Hm Hp u. induction k' as [|a k' IH]; [by exists []|]. cbn.
  destruct (Hall a) as [b ->]; [left|]. destruct IH as [u' ->]; [intros; apply Hall; by right|].
  by eexists.
Qed.

(** The raw octets an accepted list stands for come from its signatures. *)
Lemma raws_sig_set `{!DsseLaws} (env : pbdsse_Envelope) sigs x r :
  r ∈ raws (acc_of (env_to_lib env sigs) x) → EncodeToString r ∈ sig_set (acc_of (env_to_lib env sigs) x).
Proof.
  unfold acc_of. destruct (verify_with _ _ _) as [acc| |] eqn:Hv; [|by intros ?%elem_of_nil..].
  intros (a & Ha & Hr)%elem_of_raws. unfold sig_set. apply elem_of_list_to_set, list_elem_of_fmap.
  exists a. split; [|done]. destruct (accepted_decodable _ _ _ _ _ Hv a Ha) as (s & _ & Hs & Hd).
  cbn. rewrite Hs. congruence.
Qed.

Lemma verifyEnvelope_perm `{!DsseLaws} reg ds (env : pbdsse_Envelope) ps sigs m o1 o2 o1' o2' savs :
  valid_request ds env ps sigs → exclusive (env_to_lib env sigs) m →
  verifyEnvelopeAndSupportedAlgs o1 o2 m (Some env) (Some reg) = Ok savs →
  verifyEnvelopeAndSupportedAlgs o1' o2' m (Some env) (Some reg) = Ok savs.
Proof.
  intros Hv [Hacc Hdisj] Hs. unfold verifyEnvelopeAndSupportedAlgs in *.
  apply bind_Ok in Hs as (u & Hu & Hs).
  assert (order o1 (map_to_list m) ≡ₚ order o1' (map_to_list m)) as Hperm
    by (by rewrite (order_perm o1), (order_perm o1')).
  destruct (mapM_Ok_perm _ _ _ _ Hperm Hu) as [u' ->].
  rewrite (FromProto_Ok _ _ (vr_sigs _ _ _ _ Hv)) in *. go_step. go_step_in Hs.
  rewrite <-Hs. clear Hs Hu.
  rewrite (verify_loop_perm _ (order o2' (map_to_list m)) (order o2 (map_to_list m))); [done|..].
  - by rewrite (order_perm o2), (order_perm o2').
  - rewrite (order_perm o2'). apply NoDup_fst_map_to_list.
  - intros [a [v vk]] Hin. rewrite (order_perm o2'), elem_of_map_to_list in Hin. cbn.
    destruct (Hacc a v vk Hin) as (acc & Hvw & Hne). exists acc.
    split_and!; [done|done|by eapply verify_decodable|].
    intros s Hs. unfold sig_set in Hs. apply elem_of_list_to_set, list_elem_of_fmap in Hs as (b & -> & Hb).
    destruct (accepted_decodable _ _ _ _ _ Hvw b Hb) as (s & Hs & Heq & _).
    cbn. rewrite Heq. apply elem_of_list_to_set. rewrite sig_to_lib_Sig. apply list_elem_of_fmap. by exists s.
  - intros [a1 w1] [a2 w2] H1' H2' Hne.
    rewrite (order_perm o2'), elem_of_map_to_list in H1', H2'. cbn in Hne.
    pose proof (Hdisj a1 a2 w1 w2 Hne H1' H2') as Hd. split; [done|].
    intros r Hr1%raws_sig_set Hr2%raws_sig_set. set_solver.
Qed.

Lemma canonicalize_order o3 o3' savs : canonicalize o3 savs = canonicalize o3' savs.
Proof.
  unfold canonicalize. rewrite (Sort_ext _ (order o3' (fst <$> map_to_list savs))); [done|].
  by rewrite (order_perm o3), (order_perm o3').
Qed.

(** ** Theorem *)

(** C20: when every verifier of a request accepts a signature and no signature is accepted by
    two of them, the log entry does not depend on the order in which the three loops
    over maps run. *)
Theorem dsse_order_irrelevant `{!DsseLaws} (o1 o2 o3 o1' o2' o3' : map_order) ds reg e
    (Hex : one_key_per_signature ds)
    (Hok : ToLogEntry o1 o2 o3 (Some ds) (Some reg) = Ok e) :
  ToLogEntry o1' o2' o3' (Some ds) (Some reg) = Ok e.
Proof.
  apply dsse_ToLogEntry_inv in Hok as (env & ps & sigs & m & savs & Hv & Hm & Hs & ->).
  pose proof (proj2 (dsse_validate_spec ds) ltac:(eauto)) as Hvalid.
  unfold ToLogEntry. rewrite Hvalid. go_step. rewrite Hm. go_step. rewrite (vr_env _ _ _ _ Hv). go_step.
  assert (exclusive (env_to_lib env sigs) m) as Hexm.
  { apply Hex; [done|]. rewrite (vr_env _ _ _ _ Hv). by apply FromProto_Ok, (vr_sigs _ _ _ _ Hv). }
  rewrite (verifyEnvelope_perm _ _ _ _ _ _ _ _ o1' o2' _ Hv Hexm Hs). go_step.
  by rewrite (canonicalize_order o3' o3).
Qed.
End order.

(** ** Concrete requests *)

Module OrderExamples.
Import Sample.

Definition payload : bytes := "payload".
Definition payload_type : string := "application/vnd.in-toto+json".

Definition key_verifier (a : positive) (k : bytes) : ptr Verifier :=
  mk_ptr a {| Verifier_Verifier := Some (Verifier_PublicKey (Some {| pk_RawBytes := k |}));
              KeyDetails := PKIX_ED25519 |}.
Definition cert_verifier (a : positive) (k : bytes) : ptr Verifier :=
  mk_ptr a {| Verifier_Verifier := Some (Verifier_X509Certificate (Some {| x509_RawBytes := cert_label +:+ k |}));
              KeyDetails := PKIX_ED25519 |}.
Definition signed_by (k : bytes) : option pbdsse_Signature :=
  Some {| pb_Sig := sign k (pae payload_type payload); pb_Keyid := "" |}.
Definition request (vs : list (ptr Verifier)) (ks : list bytes) : DSSERequestV002 :=
  {| ds_Envelope := Some {| pb_Payload := payload; pb_PayloadType := payload_type;
                            pb_Signatures := signed_by <$> ks |};
     ds_Verifiers := Some <$> vs |}.

(** Two signers, two keys. *)
Definition two_signers : DSSERequestV002 := request [key_verifier 1 "alice"; key_verifier 2 "bob"] ["bob"; "alice"].
(** One signature, its key, and a key that signed nothing. *)
Definition extra_key : DSSERequestV002 := request [key_verifier 1 "alice"; key_verifier 2 "bob"] ["alice"].
(** One signature, and its key both as a key and in a certificate. *)
Definition key_and_cert : DSSERequestV002 := request [key_verifier 1 "alice"; cert_verifier 2 "alice"] ["alice"].

Definition registry : @AlgorithmRegistryConfig Sample.sigstore := [PKIX_ED25519].

Definition signature_of (k : bytes) : bytes := sign k (pae payload_type payload).

(** The entry logged for [two_signers]. *)
Definition two_signers_entry : Entry :=
  dsse_entry {| pb_Payload := payload; pb_PayloadType := payload_type; pb_Signatures := [] |}
    [(signature_of "alice", pointee (key_verifier 1 "alice")); (signature_of "bob", pointee (key_verifier 2 "bob"))].

Lemma two_signers_logged o1 o2 o3 :
  o1 ∈ [order_id; order_rev] → o2 ∈ [order_id; order_rev] → o3 ∈ [order_id; order_rev] →
  ToLogEntry o1 o2 o3 (Some two_signers) (Some registry) = Ok two_signers_entry.
Proof.
  intros H1 H2 H3. repeat match goal with H : _ ∈ [_; _] |- _ => apply list_elem_of_In in H; destruct H as [<-|[<-|[]]] end;
    vm_compute; reflexivity.
Qed.

Lemma two_signers_ptrs : request_ptrs_consistent two_signers.
Proof.
  intros p q Hp Hq. apply list_elem_of_In in Hp, Hq. cbn in Hp, Hq.
  destruct Hp as [<-|[<-|[]]], Hq as [<-|[<-|[]]]; done.
Qed.

Definition two_signers_map : gmap positive (ptr Verifier * VerifierImpl) :=
  {[ 1%positive := (key_verifier 1 "alice", V_publickey {| key := PK_ed25519 "alice" |});
     2%positive := (key_verifier 2 "bob", V_publickey {| key := PK_ed25519 "bob" |}) ]}.

Lemma two_signers_exclusive : one_key_per_signature two_signers.
Proof.
  intros m env Hm Henv.
  assert (m = two_signers_map) as ->.
  { enough (extractVerifiers (Some two_signers) = Ok two_signers_map) by congruence.
    vm_compute. reflexivity. }
  assert (env = env_to_lib {| pb_Payload := payload; pb_PayloadType := payload_type; pb_Signatures := [] |}
            [{| pb_Sig := signature_of "bob"; pb_Keyid := "" |}; {| pb_Sig := signature_of "alice"; pb_Keyid := "" |}]) as ->.
  { cbn in Henv. by injection Henv as <-. }
  assert (∀ a w, two_signers_map !! a = Some w →
    (a, w) = (1%positive, (key_verifier 1 "alice", V_publickey {| key := PK_ed25519 "alice" |})) ∨
    (a, w) = (2%positive, (key_verifier 2 "bob", V_publickey {| key := PK_ed25519 "bob" |}))) as Hcases.
  { intros a w Ha. unfold two_signers_map in Ha.
    apply lookup_insert_Some in Ha as [[<- <-]|[_ Ha]]; [by left|].
    apply lookup_singleton_Some in Ha as [<- <-]. by right. }
  split.
  - intros a v vk Ha. destruct (Hcases a _ Ha) as [[= -> -> ->]|[= -> -> ->]];
      eexists; (split; [vm_compute; reflexivity|done]).
  - intros a1 a2 w1 w2 Hne Ha1 Ha2.
    destruct (Hcases a1 _ Ha1) as [[= -> ->]|[= -> ->]], (Hcases a2 _ Ha2) as [[= -> ->]|[= -> ->]].
    + congruence.
    + refine (bool_decide_eq_true_1 _ _). vm_compute. reflexivity.
    + refine (bool_decide_eq_true_1 _ _). vm_compute. reflexivity.
    + congruence.
Qed.

Lemma dsse_ToLogEntry_sound_witness :
  ∃ env ps sigs out, valid_request two_signers env ps sigs ∧ two_signers_entry = dsse_entry env out ∧
    Sorted string_le out.*1 ∧ NoDup out.*1 ∧ (∀ c, c ∈ out.*1 ↔ c ∈ pb_Sig <$> sigs) ∧
    (∀ c v, (c, v) ∈ out → verifies registry env v c ∧ ∃ p, p ∈ ps ∧ pointee p = v).
Proof.
  apply (dsse_ToLogEntry_sound order_id order_rev order_id).
  - exact two_signers_ptrs.
  - vm_compute. reflexivity.
Defined.

Lemma dsse_policy_all_verifiers_witness :
  ∃ pub ad, DsseSpec.permitted registry (pointee (key_verifier 2 "bob")) pub ad.
Proof.
  apply (dsse_policy_all_verifiers order_id order_id order_id two_signers registry two_signers_entry).
  - exact two_signers_ptrs.
  - vm_compute. reflexivity.
  - right. left.
Defined.

Lemma dsse_ToLogEntry_no_panic_witness :
  no_panic (ToLogEntry order_id order_id order_id
    (Some {| ds_Envelope := None; ds_Verifiers := [None] |}) (Some registry)).
Proof. apply dsse_ToLogEntry_no_panic. Defined.

Lemma dsse_order_irrelevant_witness :
  ToLogEntry order_rev order_rev order_rev (Some two_signers) (Some registry) = Ok two_signers_entry.
Proof.
  apply (dsse_order_irrelevant order_id order_id order_id).
  - exact two_signers_exclusive.
  - vm_compute. reflexivity.
Defined.

(** C25: without that condition the outcome depends on the map order: a request with one key too
    many is logged in one order and rejected in the other, and a request naming one key both
    bare and in a certificate is logged as two different entries. *)
Theorem dsse_order_matters :
  (is_Ok (ToLogEntry order_id order_rev order_id (Some extra_key) (Some registry)) ∧
   ToLogEntry order_id order_id order_id (Some extra_key) (Some registry)
   = Err (Wrapf "could not verify envelope: "
       (ErrorString "accepted signatures do not match threshold, Found: 0, Expected 1"))) ∧
  (∃ e e', ToLogEntry order_id order_id order_id (Some key_and_cert) (Some registry) = Ok e ∧
           ToLogEntry order_id order_rev order_id (Some key_and_cert) (Some registry) = Ok e' ∧ e ≠ e').
Proof.
  split; [split; vm_compute; done|].
  eexists _, _. split; [vm_compute; reflexivity|]. split; [vm_compute; reflexivity|]. by intros [=].
Qed.
End OrderExamples.
