(* ===== verification/Note.v ===== *)
(** * pkg/note: key identifiers, note signers and note verifiers

    The C2SP signed-note key ID of a log key and origin, and the adapters that
    turn a sigstore signer or verifier into a note signer or verifier. *)
From S2P Require Import Prelude GoErrors GoStrings Sha256 Proto External Utf8 Sample.

(** ** Operations *)

Definition algEd25519 : Z := 1.
Definition algUndef : Z := 255.
Definition rsaID : string := "PKIX-RSA-PKCS#1v1.5".

(** [noteSigner] and [noteVerifier], which implement the interfaces of sumdb/note. *)
Record noteSigner := { ns_name : string; ns_hash : Z; ns_sign : bytes → error + bytes }.
Record noteVerifier := { nv_name : string; nv_hash : Z; nv_verify : bytes → bytes → bool }.

Definition isValidName (name : string) : bool :=
  negb (is_empty name) && ValidString name && no_rune IsSpace name && negb (Contains name "+").

(** A [signature.Signer] and a [signature.Verifier] of sigstore, by their methods. *)
Record sig_Signer := { signer_PublicKey : error + PublicKey; SignMessage : bytes → error + bytes }.
Record sig_Verifier := { verifier_PublicKey : error + PublicKey; VerifySig : bytes → bytes → error + unit }.

(** The four writes to the hash, in their order; "010" is the line feed. *)
Definition genConformantKeyHash (name : string) (sigType key : bytes) : Z * bytes :=
  let sum := Sum256 (name +:+ String "010" "" +:+ sigType +:+ key) in
  (BigEndian_Uint32 sum, sum).

Definition ed25519KeyHash (name : string) (key : bytes) : Z * bytes :=
  genConformantKeyHash name (of_octets [algEd25519]) key.

Section note.
Context `{X509}.

Definition ecdsaKeyHash (key : ecdsa_PublicKey) : result (Z * bytes) :=
  marshaled ← wrap "marshaling public key: " (lift (MarshalPKIXPublicKey (PK_ecdsa key)));
  let hash := Sum256 marshaled in
  Ok (BigEndian_Uint32 hash, hash).

Definition rsaKeyHash (name : string) (key : rsa_PublicKey) : result (Z * bytes) :=
  marshaled ← wrap "marshaling public key: " (lift (MarshalPKIXPublicKey (PK_rsa key)));
  let rsaAlg := of_octets [algUndef] +:+ rsaID in
  Ok (genConformantKeyHash name rsaAlg marshaled).

Definition KeyHash (origin : string) (key : PublicKey) : result (Z * bytes) :=
  match key with
  | PK_ecdsa pk => wrap "getting ECDSA key hash: " (ecdsaKeyHash pk)
  | PK_ed25519 pk => Ok (ed25519KeyHash origin pk)
  | PK_rsa pk => wrap "getting RSA key hash: " (rsaKeyHash origin pk)
  | PK_other ty => Err (ErrorString ("unsupported key type: " +:+ ty))
  end.

Definition NewNoteSigner (origin : string) (signer : sig_Signer) : result noteSigner :=
  _ ← guard_err (negb (isValidName origin)) (ErrorString ("invalid name " +:+ origin));
  pubKey ← wrap "getting public key: " (lift (signer_PublicKey signer));
  '(keyID, _) ← KeyHash origin pubKey;
  Ok {| ns_name := origin; ns_hash := keyID; ns_sign := SignMessage signer |}.

Definition NewNoteVerifier (origin : string) (verifier : sig_Verifier) : result noteVerifier :=
  _ ← guard_err (negb (isValidName origin)) (ErrorString ("invalid name " +:+ origin));
  pubKey ← wrap "getting public key: " (lift (verifier_PublicKey verifier));
  '(keyID, _) ← KeyHash origin pubKey;
  Ok {| nv_name := origin;
        nv_hash := keyID;
        nv_verify := λ msg sig, match VerifySig verifier sig msg with inl _ => false | inr _ => true end |}.

(** ** Specification: the key identifiers of C2SP signed notes *)

(** The octets whose SHA-256 identifies a key, written from the formats that
    note.go refers to and not from its constants: key name, 0x0A, signature
    type and key, where the type of an Ed25519 key is 0x01 and that of an RSA
    key 0xFF followed by a name of the type; for ECDSA the DER form alone. *)
Definition id_preimage (origin : string) (key : PublicKey) : option bytes :=
  match key with
  | PK_ed25519 pk => Some (of_octets (octets origin ++ 10 :: 1 :: octets pk))
  | PK_rsa _ =>
      match MarshalPKIXPublicKey key with
      | inr der => Some (of_octets (octets origin ++ 10 :: 255 :: octets "PKIX-RSA-PKCS#1v1.5" ++ octets der))
      | inl _ => None
      end
  | PK_ecdsa _ => match MarshalPKIXPublicKey key with inr der => Some der | inl _ => None end
  | PK_other _ => None
  end.

(** The key ID of a digest: its first four octets, the most significant first. *)
Definition key_id_of (digest : bytes) (id : Z) : Prop :=
  ∃ b0 b1 b2 b3 rest, octets digest = b0 :: b1 :: b2 :: b3 :: rest ∧
    id = b0 * 2 ^ 24 + b1 * 2 ^ 16 + b2 * 2 ^ 8 + b3.

(** ** Names *)

Lemma isValidName_octets name z :
  isValidName name = true → z < 128 → IsSpace z = true → z ∉ octets name.
Proof.
  unfold isValidName. rewrite !andb_true_iff. intros [[[_ Hv] Hs] _] Hz Hsp.
  by apply (no_rune_ascii IsSpace).
Qed.

(** The origin is delimited: a valid name has no line feed. *)
Lemma delimited_inj n1 n2 l1 l2 :
  isValidName n1 = true → isValidName n2 = true →
  octets n1 ++ 10 :: l1 = octets n2 ++ 10 :: l2 → n1 = n2 ∧ l1 = l2.
Proof.
  intros H1 H2 Heq. apply split_unique in Heq as [Hn Hr]; [|by apply isValidName_octets..].
  split; [by apply octets_inj|done].
Qed.

(** ** Key identifiers *)

Lemma hashed_octets name l :
  of_octets (octets name ++ 10 :: l) = name +:+ String "010" "" +:+ of_octets l.
Proof. by rewrite of_octets_app, of_octets_octets. Qed.

Lemma BigEndian_Uint32_spec b :
  4 ≤ len b → key_id_of b (BigEndian_Uint32 b).
Proof.
  unfold len, key_id_of, BigEndian_Uint32. rewrite <-length_octets. intros Hlen. pose proof (octets_range b) as Hr.
  destruct (octets b) as [|b0 [|b1 [|b2 [|b3 rest]]]]; cbn [length] in Hlen; try lia.
  exists b0, b1, b2, b3, rest. split; [done|]. cbn [take]. decompose_Forall. by apply be_value_4.
Qed.

Lemma KeyHash_cases origin key :
  match id_preimage origin key with
  | Some pre => KeyHash origin key = Ok (BigEndian_Uint32 (Sum256 pre), Sum256 pre)
  | None => is_Err (KeyHash origin key)
  end.
Proof.
  destruct key as [k|k|k|ty]; cbn [KeyHash id_preimage]; [| | |done].
  - unfold rsaKeyHash. destruct (MarshalPKIXPublicKey (PK_rsa k)) as [e|der]; [done|].
    rewrite hashed_octets, app_comm_cons, of_octets_app, of_octets_octets. done.
  - unfold ecdsaKeyHash. by destruct (MarshalPKIXPublicKey (PK_ecdsa k)).
  - rewrite hashed_octets. change (1 :: octets k) with ([1] ++ octets k). by rewrite of_octets_app, of_octets_octets.
Qed.

Lemma KeyHash_no_panic origin key : no_panic (KeyHash origin key).
Proof.
  pose proof (KeyHash_cases origin key) as Hs. destruct (id_preimage origin key).
  - by rewrite Hs.
  - by destruct (KeyHash origin key).
Qed.

Lemma KeyHash_Ok origin key id logID :
  KeyHash origin key = Ok (id, logID) →
  ∃ pre, id_preimage origin key = Some pre ∧ logID = Sum256 pre ∧ id = BigEndian_Uint32 logID.
Proof.
  intros Hk. pose proof (KeyHash_cases origin key) as Hs. destruct (id_preimage origin key) as [pre|].
  - exists pre. rewrite Hk in Hs. by simplify_eq.
  - by rewrite Hk in Hs.
Qed.

(** What DER marshalling promises: it does not confuse two RSA keys. *)
Definition marshal_injective : Prop :=
  ∀ k k' d, MarshalPKIXPublicKey (PK_rsa k) = inr d → MarshalPKIXPublicKey (PK_rsa k') = inr d → k = k'.

Definition is_ecdsa (key : PublicKey) : bool := match key with PK_ecdsa _ => true | _ => false end.

(** What follows the origin's line feed in the hashed octets. *)
Definition conformant_key (key : PublicKey) (l : list Z) : Prop :=
  match key with
  | PK_ed25519 pk => l = 1 :: octets pk
  | PK_rsa _ => ∃ der, MarshalPKIXPublicKey key = inr der ∧ l = 255 :: octets "PKIX-RSA-PKCS#1v1.5" ++ octets der
  | _ => False
  end.

Lemma conformant_key_octets key l : conformant_key key l → Forall is_octet l.
Proof.
  destruct key as [k|k|k|ty]; cbn [conformant_key]; [intros (der & _ & ->)|done|intros ->|done];
    (constructor; [unfold is_octet; lia|]); try apply Forall_app; auto using octets_range.
Qed.

Lemma id_preimage_Some origin key pre :
  is_ecdsa key = false → id_preimage origin key = Some pre →
  ∃ l, octets pre = octets origin ++ 10 :: l ∧ conformant_key key l.
Proof.
  intros He Hpre.
  enough (∃ l, pre = of_octets (octets origin ++ 10 :: l) ∧ conformant_key key l) as (l & -> & Hc).
  { exists l. split; [|done]. apply octets_of_octets, Forall_app. split; [apply octets_range|].
    constructor; [unfold is_octet; lia|by eapply conformant_key_octets]. }
  destruct key as [k|k|k|ty]; cbn [id_preimage conformant_key] in *; [|done| |done].
  - destruct (MarshalPKIXPublicKey (PK_rsa k)) as [e|der]; [done|]. injection Hpre as <-. eauto.
  - injection Hpre as <-. eauto.
Qed.

Lemma conformant_key_inj (Hmarshal : marshal_injective) k1 k2 l :
  conformant_key k1 l → conformant_key k2 l → k1 = k2.
Proof.
  destruct k1 as [r1|?|e1|?], k2 as [r2|?|e2|?]; cbn [conformant_key]; try done.
  - intros (d1 & Hd1 & ->) (d2 & Hd2 & [= Hd%octets_inj]). subst d2. f_equal. by eapply Hmarshal.
  - by intros (d1 & _ & ->) [=].
  - by intros -> (d2 & _ & [=]).
  - intros -> [= ->%octets_inj]. done.
Qed.

(** Two pairs of valid origin and key, neither an ECDSA key, are not hashed from the same octets. *)
Lemma id_preimage_inj (Hmarshal : marshal_injective) o1 o2 k1 k2 pre :
  isValidName o1 = true → isValidName o2 = true → is_ecdsa k1 = false → is_ecdsa k2 = false →
  id_preimage o1 k1 = Some pre → id_preimage o2 k2 = Some pre → (o1, k1) = (o2, k2).
Proof.
  intros Ho1 Ho2 He1 He2 (l1 & Hp1 & Hc1)%id_preimage_Some (l2 & Hp2 & Hc2)%id_preimage_Some; [|done..].
  rewrite Hp1 in Hp2. apply delimited_inj in Hp2 as [-> ->]; [|done..].
  f_equal. by apply (conformant_key_inj Hmarshal k1 k2 l2).
Qed.

Lemma NewNote_match origin signer verifier ns nv
    (Hs : NewNoteSigner origin signer = Ok ns) (Hv : NewNoteVerifier origin verifier = Ok nv)
    (Hkey : signer_PublicKey signer = verifier_PublicKey verifier)
    (Hmatch : ∀ msg sig, SignMessage signer msg = inr sig → VerifySig verifier sig msg = inr tt) :
  isValidName origin = true ∧ ns_name ns = origin ∧ nv_name nv = origin ∧ ns_hash ns = nv_hash nv ∧
  ∀ msg sig, ns_sign ns msg = inr sig → nv_verify nv msg sig = true.
Proof.
  unfold NewNoteSigner in Hs. unfold NewNoteVerifier in Hv. go_inv_ext.
  repeat match goal with x : _ * _ |- _ => destruct x end. go_inv. cbn in *.
  assert (x3 = x0) as -> by congruence. split_and!; try done.
  - by apply negb_false_iff.
  - congruence.
  - intros msg sig Hsig. by rewrite (Hmatch msg sig Hsig).
Qed.

Lemma NewNoteVerifier_Ok origin verifier nv :
  NewNoteVerifier origin verifier = Ok nv →
  isValidName origin = true ∧ nv_name nv = origin ∧
  ∀ msg sig, nv_verify nv msg sig = true ↔ VerifySig verifier sig msg = inr tt.
Proof.
  unfold NewNoteVerifier. intros ([] & Hg%guard_err_Ok & (pk & _ & ([id full] & _ & Hr)%bind_Ok)%bind_Ok)%bind_Ok.
  injection Hr as <-. cbn. split_and!; [by apply negb_false_iff|done|].
  intros msg sig. destruct (VerifySig verifier sig msg) as [e|[]]; split; congruence.
Qed.

Lemma NewNoteVerifier_key origin verifier nv :
  NewNoteVerifier origin verifier = Ok nv →
  ∃ pub logID, verifier_PublicKey verifier = inr pub ∧ KeyHash origin pub = Ok (nv_hash nv, logID).
Proof.
  unfold NewNoteVerifier.
  intros ([] & _ & (pk & Hpk%wrap_Ok%lift_Ok & ([id logID] & Hk & Hr)%bind_Ok)%bind_Ok)%bind_Ok.
  injection Hr as <-. cbn. eauto.
Qed.

(** ** Theorems *)

(** C26: the identifiers are those of the C2SP signed-note format. For an Ed25519 key the log ID is
    the SHA-256 of the origin, the octets 0x0A and 0x01, and the key; for an RSA key that of the
    origin, 0x0A, 0xFF, the type name PKIX-RSA-PKCS#1v1.5 and the DER form; for an ECDSA key that of
    the DER form. It is 32 octets long and the key ID is its first four octets, most significant
    first. KeyHash fails exactly on the keys that have no identifying octets: other key types, and
    RSA and ECDSA keys that cannot be marshalled. *)
Theorem KeyHash_spec origin key :
  match id_preimage origin key with
  | Some pre =>
      ∃ id, KeyHash origin key = Ok (id, Sum256 pre) ∧ len (Sum256 pre) = 32 ∧ key_id_of (Sum256 pre) id
  | None => is_Err (KeyHash origin key)
  end.
Proof.
  pose proof (KeyHash_cases origin key). destruct (id_preimage origin key); [|done].
  eexists. split_and!; [done|apply length_Sum256|]. apply BigEndian_Uint32_spec. by rewrite length_Sum256.
Qed.

(** C27: a log ID covers the origin and the key. When KeyHash identifies two different pairs of a
    valid origin and an Ed25519 or RSA key, the two log IDs are the SHA-256 of two different inputs
    (the pairs' identifying octets), so equal log IDs would be a collision of SHA-256. ECDSA keys
    are left out: their identifier does not cover the origin. *)
Theorem key_id_separates
    (Hmarshal : marshal_injective) o1 o2 k1 k2 id1 id2 logID1 logID2
    (Ho1 : isValidName o1 = true) (Ho2 : isValidName o2 = true)
    (He1 : is_ecdsa k1 = false) (He2 : is_ecdsa k2 = false)
    (Hk1 : KeyHash o1 k1 = Ok (id1, logID1)) (Hk2 : KeyHash o2 k2 = Ok (id2, logID2))
    (Hne : (o1, k1) ≠ (o2, k2)) :
  ∃ pre1 pre2, id_preimage o1 k1 = Some pre1 ∧ id_preimage o2 k2 = Some pre2 ∧ pre1 ≠ pre2 ∧
    logID1 = Sum256 pre1 ∧ logID2 = Sum256 pre2.
Proof.
  apply KeyHash_Ok in Hk1 as (pre1 & Hp1 & -> & _), Hk2 as (pre2 & Hp2 & -> & _).
  exists pre1, pre2. split_and!; [done..| |done|done].
  intros <-. by apply Hne, (id_preimage_inj Hmarshal o1 o2 k1 k2 pre1).
Qed.

(** C28: a note signer and a note verifier built for the same origin from a matching sigstore
    signer and verifier have the same name and key ID, and the verifier accepts every signature
    the signer makes; the name they carry is a valid one. *)
Theorem note_signer_verifier_match origin signer verifier ns nv
    (Hs : NewNoteSigner origin signer = Ok ns) (Hv : NewNoteVerifier origin verifier = Ok nv)
    (Hkey : signer_PublicKey signer = verifier_PublicKey verifier)
    (Hmatch : ∀ msg sig, SignMessage signer msg = inr sig → VerifySig verifier sig msg = inr tt) :
  isValidName origin = true ∧ ns_name ns = origin ∧ nv_name nv = origin ∧ ns_hash ns = nv_hash nv ∧
  ∀ msg sig, ns_sign ns msg = inr sig → nv_verify nv msg sig = true.
Proof. exact (NewNote_match origin signer verifier ns nv Hs Hv Hkey Hmatch). Qed.
End note.

(** ** Concrete runs *)

Module NoteExamples.

Definition sample_key : PublicKey := PK_ed25519 "key".
Definition sample_signer : sig_Signer :=
  {| signer_PublicKey := inr sample_key; SignMessage := λ msg, inr (Sample.sign "key" msg) |}.
Definition sample_verifier : sig_Verifier :=
  {| verifier_PublicKey := inr sample_key; VerifySig := Sample.verify_message "key" |}.

(** One key under two origins: the inputs of the two identifiers, and that they differ. *)
Lemma key_id_separates_witness :
  ∃ pre1 pre2,
    @id_preimage Sample.x509 "log1.example" sample_key = Some pre1 ∧
    @id_preimage Sample.x509 "log2.example" sample_key = Some pre2 ∧ pre1 ≠ pre2 ∧
    (ed25519KeyHash "log1.example" "key").2 = Sum256 pre1 ∧ (ed25519KeyHash "log2.example" "key").2 = Sum256 pre2.
Proof.
  apply (@key_id_separates Sample.x509 Sample.marshal_rsa_inj "log1.example" "log2.example" sample_key sample_key
           (ed25519KeyHash "log1.example" "key").1 (ed25519KeyHash "log2.example" "key").1);
    [reflexivity..|discriminate].
Defined.

Lemma note_signer_verifier_match_witness :
  match @NewNoteSigner Sample.x509 "log.example" sample_signer,
        @NewNoteVerifier Sample.x509 "log.example" sample_verifier with
  | Ok ns, Ok nv => nv_verify nv "msg" (Sample.sign "key" "msg") = true ∧ ns_hash ns = nv_hash nv
  | _, _ => False
  end.
Proof.
  set (h := (ed25519KeyHash "log.example" "key").1).
  destruct (@note_signer_verifier_match Sample.x509 "log.example" sample_signer sample_verifier
              {| ns_name := "log.example"; ns_hash := h; ns_sign := SignMessage sample_signer |}
              {| nv_name := "log.example"; nv_hash := h; nv_verify := λ msg sig,
                   match VerifySig sample_verifier sig msg with inl _ => false | inr _ => true end |})
    as (_ & _ & _ & Hh & Hall); [reflexivity|reflexivity|reflexivity| |].
  - intros msg sig [= <-]. cbn. unfold Sample.verify_message. by rewrite bool_decide_true.
  - split; [by apply (Hall "msg" (Sample.sign "key" "msg"))|exact Hh].
Defined.

(** *** The keys of note_test.go

    The public keys of the test's three private keys and the identifiers it
    expects under the origin "testkey". *)

Definition from_hex (s : string) : bytes := of_octets (unhex (list_ascii_of_string s)).

Definition ed25519_test_key : bytes :=
  from_hex "444bc9c8d6468d7e81dc3008b83dc14e0f6b230574d0663c5e0e4553e2050d44".

Definition ecdsa_test_der : bytes :=
  from_hex ("3059301306072a8648ce3d020106082a8648ce3d0301070342000478bc3b817e34ab2d73ec952118c01a68" +:+
            "32136d5ee9d83f82e46f713c4b32fcf540a3d1f49a04b8358ce91a2ae45f1061b7e22fbcbd7d591d57f40357" +:+
            "85ae6575").

Definition rsa_test_der : bytes :=
  from_hex ("30820122300d06092a864886f70d01010105000382010f003082010a0282010100b3b89e4da27c3c09330a4b" +:+
            "3efae6c3356e0d738862efefc95264afaaaea921601f8c6ad55c8fd9e913943a7360be3916ea938ffca90ed5" +:+
            "841fb8bb4ff3a5f92c3e37688b1f1ffdd54342fc5f85bae31fc982603d4d641afb0e0e797685746c3e9449c6" +:+
            "cb6ae500bde42189ff0406e6a00661c965d01643d883abe5ca93741faa901fc85cb744979fbcba71ab0893b1" +:+
            "81ed342dffe3aa924439e688ccf7571752ae9862cbc08c18d0c04bc6197a8bbf03a1b5b0fe78c7367e9c3b1a" +:+
            "50208a2429ab8921cd6aedb992741ddfc11593691c7f9401d750e09befedd6d70e29dabd5cc46ef26cb1000d" +:+
            "f67077f543c7a54427f66a2302e87faa0faf0cdc841f7962210203010001").

Section vectors.
Context `{X509}.

Example KeyHash_ed25519_vector :
  KeyHash "testkey" (PK_ed25519 ed25519_test_key) =
  Ok (3839787747, from_hex "e4de82e34c8c270d87612a3d6a1e297e2cd0ed9cb89ea7aeec8ce4d0b54e6775").
Proof. vm_compute. reflexivity. Qed.

Example KeyHash_ecdsa_vector k (Hder : MarshalPKIXPublicKey (PK_ecdsa k) = inr ecdsa_test_der) :
  KeyHash "testkey" (PK_ecdsa k) =
  Ok (2408765216, from_hex "8f92d720f56c219e34895a76a636a3353ddbf7813f9fa317e19982eafa945328").
Proof. cbn [KeyHash]. unfold ecdsaKeyHash. rewrite Hder. vm_compute. reflexivity. Qed.

Example KeyHash_rsa_vector k (Hder : MarshalPKIXPublicKey (PK_rsa k) = inr rsa_test_der) :
  KeyHash "testkey" (PK_rsa k) =
  Ok (2918460683, from_hex "adf42d0b4478f2d07e5c8c3e63640a7e41b440c19dc47010c3a4936af75d85b6").
Proof. cbn [KeyHash]. unfold rsaKeyHash. rewrite Hder. vm_compute. reflexivity. Qed.
End vectors.

End NoteExamples.
