(* ===== verification/TesseraLib.v ===== *)
(** * Interfaces of the transparency-log libraries

    transparency-dev/tessera (sequencing and storage of the log),
    transparency-dev/merkle (RFC 6962 hashing and proof verification),
    transparency-dev/formats (checkpoints) and golang.org/x/mod/sumdb/note
    (signed notes), as the operations the program calls.  The state these
    libraries keep, in memory and in their backends, is the abstract
    [World]. *)
From S2P Require Import Prelude GoErrors GoStrings Proto External IO Note.

(** ** merkle: package proof with [rfc6962.DefaultHasher] *)

Class Merkle := {
  HashLeaf : bytes → bytes;
  (** index, size, leaf hash, proof, root *)
  VerifyInclusion : Z → Z → bytes → list bytes → bytes → error + unit;
  (** size1, size2, proof, root1, root2 *)
  VerifyConsistency : Z → Z → list bytes → bytes → bytes → error + unit
}.

(** What [proof.VerifyConsistency] documents: it requires that the first tree is
    not the larger one, and for trees of equal size compares the roots. *)
Class MerkleLaws `{Merkle} : Prop := {
  Consistency_sizes : ∀ n m p r1 r2, VerifyConsistency n m p r1 r2 = inr tt → n ≤ m;
  Consistency_same_size : ∀ n p r1 r2, VerifyConsistency n n p r1 r2 = inr tt → r1 = r2
}.

(** ** formats: package log, and sumdb/note *)

Record f_Checkpoint := { cp_Origin : string; cp_Size : Z; cp_Hash : bytes }.
Record note_Signature := { sig_Name : string; sig_Hash : Z; sig_Base64 : string }.
Record sumdb_Note := { note_Text : string; note_Sigs : list note_Signature; note_UnverifiedSigs : list note_Signature }.

Class LogFormat := {
  (** [Checkpoint.Unmarshal]: the checkpoint and the rest of the text *)
  Unmarshal : bytes → error + (f_Checkpoint * bytes);
  (** [Checkpoint.Marshal] *)
  Marshal : f_Checkpoint → bytes;
  (** [ParseCheckpoint(raw, origin, verifier, others...)] *)
  ParseCheckpoint : bytes → string → noteVerifier → list noteVerifier → error + (f_Checkpoint * bytes * sumdb_Note);
  (** [note.Sign(n, signers...)] and [note.Open(msg, VerifierList(verifiers...))] *)
  note_Sign : sumdb_Note → list noteSigner → error + bytes;
  note_Open : bytes → list noteVerifier → error + sumdb_Note
}.

(** What the checkpoint format documents.  A parsed checkpoint has the origin
    asked for and is the one [Unmarshal] reads from the same octets and from
    the text of the note; it is only returned when the given verifier accepts a
    signature over that text, with which the octets begin; the empty text is not a checkpoint;
    sizes are of type uint64. *)
Class LogFormatLaws `{LogFormat} : Prop := {
  Parse_Unmarshal : ∀ raw origin v vs cp rest n,
    ParseCheckpoint raw origin v vs = inr (cp, rest, n) → ∃ rest', Unmarshal raw = inr (cp, rest');
  Parse_origin : ∀ raw origin v vs cp rest n,
    ParseCheckpoint raw origin v vs = inr (cp, rest, n) → cp_Origin cp = origin;
  Parse_signed : ∀ raw origin v vs cp rest n,
    ParseCheckpoint raw origin v vs = inr (cp, rest, n) →
    HasPrefix raw (note_Text n) = true ∧ ∃ sig, nv_verify v (note_Text n) sig = true;
  Parse_text : ∀ raw origin v vs cp rest n,
    ParseCheckpoint raw origin v vs = inr (cp, rest, n) → Unmarshal (note_Text n) = inr (cp, rest);
  Parse_empty : ∀ origin v vs, ∃ e, ParseCheckpoint "" origin v vs = inl e;
  Unmarshal_uint64 : ∀ raw cp rest, Unmarshal raw = inr (cp, rest) → is_uint64 (cp_Size cp)
}.

(** A note signer and a note verifier for the same name and key. *)
Record matching (s : noteSigner) (v : noteVerifier) : Prop := {
  m_name : ns_name s = nv_name v;
  m_hash : ns_hash s = nv_hash v;
  m_sig : ∀ msg sig, ns_sign s msg = inr sig → nv_verify v msg sig = true
}.

(** What is documented of signing and opening notes, and of writing checkpoints:
    a signed note opens under a matching verifier and gives back its text, and
    a checkpoint that was read is read back, with any extension lines as the
    rest, from its marshalled form. *)
Class NoteLaws `{LogFormat} : Prop := {
  Open_Sign : ∀ n s v raw, note_Sign n [s] = inr raw → matching s v →
    ∃ n', note_Open raw [v] = inr n' ∧ note_Text n' = note_Text n;
  Unmarshal_Marshal : ∀ raw cp rest ext, Unmarshal raw = inr (cp, rest) → Unmarshal (Marshal cp +:+ ext) = inr (cp, ext)
}.

(** ** tessera *)

(** [tessera.Index] *)
Record tessera_Index := { Index_Index : Z; IsDup : bool }.

Class Tessera := {
  World : Type;
  (** Entries: [NewEntry(data)], [Entry.Data], [Entry.LeafHash]. *)
  tessera_Entry : Type;
  NewEntry : bytes → tessera_Entry;
  Data : tessera_Entry → bytes;
  LeafHash : tessera_Entry → bytes;
  (** Appending: [AddFn] gives a future; the awaiter resolves it once a
      checkpoint that covers it is published, and returns that checkpoint. *)
  IndexFuture : Type;
  PublicationAwaiter : Type;
  NewPublicationAwaiter : (World → (error + bytes) * World) → Z → PublicationAwaiter;
  Await : PublicationAwaiter → IndexFuture → World → (error + (tessera_Index * bytes)) * World;
  (** Proofs: package client. *)
  ProofBuilder : Type;
  NewProofBuilder : Z → (Z → Z → Z → World → result bytes * World) → World → (error + ProofBuilder) * World;
  ProofBuilder_InclusionProof : ProofBuilder → Z → World → (error + list bytes) * World;
  (** Options; the [With...] methods change their receiver and return it. *)
  AppendOptions : Type;
  tessera_NewAppendOptions : AppendOptions;
  WithCheckpointSigner : AppendOptions → noteSigner → AppendOptions;
  WithBatching : AppendOptions → Z → Z → AppendOptions;
  WithCheckpointInterval : AppendOptions → Z → AppendOptions;
  WithPushback : AppendOptions → Z → AppendOptions;
  Antispam : Type;
  WithAntispam : AppendOptions → Z → option Antispam → AppendOptions;
  WitnessGroup : Type;
  NewWitnessGroupFromPolicy : bytes → error + WitnessGroup;
  (** the witness group, and [WitnessOptions.FailOpen] *)
  WithWitnesses : AppendOptions → WitnessGroup → bool → AppendOptions;
  (** The appender: [Add], its shutdown function, and the reader's methods. *)
  Driver : Type;
  Appender : Type;
  Appender_Add : Appender → tessera_Entry → World → IndexFuture * World;
  LogReader : Type;
  ReadCheckpoint : LogReader → World → (error + bytes) * World;
  LogReader_ReadTile : LogReader → Z → Z → Z → World → (error + bytes) * World;
  NewAppender : Driver → AppendOptions → World →
    (error + (Appender * (World → (error + unit) * World) * LogReader)) * World
}.

(** What the program relies on: an entry keeps its data, its leaf hash is the
    RFC 6962 one, and indices are of type uint64. *)
Class TesseraLaws `{Tessera} `{Merkle} : Prop := {
  Data_NewEntry : ∀ d, Data (NewEntry d) = d;
  LeafHash_NewEntry : ∀ d, LeafHash (NewEntry d) = HashLeaf d;
  Await_uint64 : ∀ a f w ix cp w', Await a f w = (inr (ix, cp), w') → is_uint64 (Index_Index ix)
}.

(** What tessera documents of the checkpoints it publishes.  The options name
    the signer that [WithCheckpointSigner] sets, and the other options leave it
    alone; an appender publishes checkpoints that carry that signer's name as
    their origin and its signature, so that a checkpoint which an awaiter on the
    appender's reader returns parses under every matching verifier. *)
Class CheckpointSigning `{Tessera} `{LogFormat} := {
  checkpoint_signer : AppendOptions → noteSigner → Prop;
  signer_set : ∀ o s, checkpoint_signer (WithCheckpointSigner o s) s;
  signer_WithBatching : ∀ o s n d, checkpoint_signer o s → checkpoint_signer (WithBatching o n d) s;
  signer_WithCheckpointInterval : ∀ o s d, checkpoint_signer o s → checkpoint_signer (WithCheckpointInterval o d) s;
  signer_WithPushback : ∀ o s n, checkpoint_signer o s → checkpoint_signer (WithPushback o n) s;
  signer_WithAntispam : ∀ o s n a, checkpoint_signer o s → checkpoint_signer (WithAntispam o n a) s;
  signer_WithWitnesses : ∀ o s g b, checkpoint_signer o s → checkpoint_signer (WithWitnesses o g b) s;
  Await_signed : ∀ driver opts w0 appender shutdown reader w1 s v period f w ix raw w',
    NewAppender driver opts w0 = (inr (appender, shutdown, reader), w1) →
    checkpoint_signer opts s → matching s v →
    Await (NewPublicationAwaiter (ReadCheckpoint reader) period) f w = (inr (ix, raw), w') →
    ∃ cp rest n, ParseCheckpoint raw (nv_name v) v [] = inr (cp, rest, n)
}.
