(* ===== verification/VerifyEntry.v ===== *)
(** * pkg/verify: what a client checks of a log entry

    Verification of checkpoints, inclusion proofs and consistency proofs
    against the key of a log.  A client that accepts an entry knows exactly
    what [VerifyLogEntry_iff] states. *)
From S2P Require Import Prelude GoErrors GoStrings SafeInt Proto External IO Note TesseraLib.

(** ** Operations *)

(** Nil-safe getters of the generated messages *)
Definition GetInclusionProof (e : TransparencyLogEntry) : option InclusionProof := tle_InclusionProof e.
Definition GetCheckpoint (p : option InclusionProof) : option pb_Checkpoint :=
  match p with Some p => ip_Checkpoint p | None => None end.
Definition GetEnvelope (c : option pb_Checkpoint) : string :=
  match c with Some c => Envelope c | None => "" end.

Section verify.
Context `{Merkle} `{LogFormat}.

(** The entry and the checkpoint are not nil in any caller; the entry's proof may be. *)
Definition VerifyInclusionProof (entry : TransparencyLogEntry) (cp : f_Checkpoint) : result unit :=
  let leafHash := HashLeaf (tle_CanonicalizedBody entry) in
  index ← wrap "invalid index: " (NewSafeInt64 (num_int64 (tle_LogIndex entry)));
  ip ← deref (tle_InclusionProof entry);
  wrap "verifying inclusion: "
    (lift (VerifyInclusion (U index) (cp_Size cp) leafHash (ip_Hashes ip) (cp_Hash cp))).

Definition VerifyCheckpoint (unverifiedCp : string) (verifier : noteVerifier) : result f_Checkpoint :=
  '(cp, _, _) ← wrapv "unverified checkpoint signature: "
    (lift (ParseCheckpoint unverifiedCp (nv_name verifier) verifier []));
  Ok cp.

Definition VerifyWitnessedCheckpoint (unverifiedCp : string) (verifier : noteVerifier)
    (otherVerifiers : list noteVerifier) : result (f_Checkpoint * sumdb_Note) :=
  '(cp, _, n) ← wrapv "unverified checkpoint signature: "
    (lift (ParseCheckpoint unverifiedCp (nv_name verifier) verifier otherVerifiers));
  Ok (cp, n).

Definition VerifyLogEntry (entry : TransparencyLogEntry) (verifier : noteVerifier) : result unit :=
  cp ← VerifyCheckpoint (GetEnvelope (GetCheckpoint (GetInclusionProof entry))) verifier;
  VerifyInclusionProof entry cp.

Definition VerifyConsistencyProof (consistencyProof : list bytes) (oldSize : Z) (oldRootHash : bytes)
    (newUnverifiedCp : string) (verifier : noteVerifier) : result unit :=
  newCp ← VerifyCheckpoint newUnverifiedCp verifier;
  lift (VerifyConsistency oldSize (cp_Size newCp) consistencyProof oldRootHash (cp_Hash newCp)).

Definition VerifyConsistencyProofWithCheckpoints (consistencyProof : list bytes)
    (oldUnverifiedCp newUnverifiedCp : string) (verifier : noteVerifier) : result unit :=
  oldCp ← VerifyCheckpoint oldUnverifiedCp verifier;
  VerifyConsistencyProof consistencyProof (cp_Size oldCp) (cp_Hash oldCp) newUnverifiedCp verifier.

(** ** Specification *)

(** [cp] is a checkpoint of the verifier's log, carried by the text [raw], and
    the verifier's key signed it: [raw] begins with a text that reads as [cp]
    and for which there is a signature that the key accepts. *)
Definition signed_checkpoint (verifier : noteVerifier) (raw : string) (cp : f_Checkpoint) : Prop :=
  cp_Origin cp = nv_name verifier ∧
  (∃ rest, Unmarshal raw = inr (cp, rest)) ∧
  ∃ text sig rest, HasPrefix raw text = true ∧ Unmarshal text = inr (cp, rest) ∧ nv_verify verifier text sig = true.

(** The entry's body is the leaf at the entry's index in the tree of [cp]. *)
Definition included (entry : TransparencyLogEntry) (proof : list bytes) (cp : f_Checkpoint) : Prop :=
  0 ≤ tle_LogIndex entry ∧
  VerifyInclusion (tle_LogIndex entry) (cp_Size cp) (HashLeaf (tle_CanonicalizedBody entry)) proof (cp_Hash cp) = inr tt.

(** ** Lemmas *)

Lemma VerifyCheckpoint_Ok raw v cp :
  VerifyCheckpoint raw v = Ok cp ↔ ∃ rest n, ParseCheckpoint raw (nv_name v) v [] = inr (cp, rest, n).
Proof.
  unfold VerifyCheckpoint. destruct (ParseCheckpoint _ _ _ _) as [e|[[cp' rest] n]]; go_step; cbn;
    split; try (by intros; split_hyps; congruence).
  intros [= <-]. eauto.
Qed.

Lemma VerifyCheckpoint_no_panic raw v : no_panic (VerifyCheckpoint raw v).
Proof. unfold VerifyCheckpoint. by destruct (ParseCheckpoint _ _ _ _) as [e|[[cp' rest] n]]. Qed.

Lemma VerifyCheckpoint_signed `{!LogFormatLaws} raw v cp :
  VerifyCheckpoint raw v = Ok cp → signed_checkpoint v raw cp.
Proof.
  intros (rest & n & Hp)%VerifyCheckpoint_Ok. split_and!.
  - by eapply Parse_origin.
  - by eapply Parse_Unmarshal.
  - destruct (Parse_signed _ _ _ _ _ _ _ Hp) as [Hpre [sig Hsig]].
    exists (note_Text n), sig, rest. split_and!; [done|by eapply Parse_text|done].
Qed.

Lemma VerifyInclusionProof_Ok entry cp :
  is_int64 (tle_LogIndex entry) →
  VerifyInclusionProof entry cp = Ok tt ↔
  ∃ ip, tle_InclusionProof entry = Some ip ∧ included entry (ip_Hashes ip) cp.
Proof.
  intros Hi. unfold VerifyInclusionProof, included. split.
  - intros Hv. go_inv_ext.
    match goal with Hs : NewSafeInt64 _ = Ok _ |- _ =>
      apply (NewSafeInt64_inv (num_int64 _)) in Hs as (n & Hn & Hr & ->); [|done] end.
    cbn in *. simplify_eq. eexists. split_and!; [done|lia|done].
  - intros (ip & Hip & Hpos & Hv). rewrite NewSafeInt64_int64_ok by done. go_step. rewrite Hip. go_step.
    cbn [U u]. by rewrite Hv.
Qed.

Lemma VerifyConsistencyProofWithCheckpoints_Ok proof old new v :
  VerifyConsistencyProofWithCheckpoints proof old new v = Ok tt ↔
  ∃ cp1 cp2, VerifyCheckpoint old v = Ok cp1 ∧ VerifyCheckpoint new v = Ok cp2 ∧
    VerifyConsistency (cp_Size cp1) (cp_Size cp2) proof (cp_Hash cp1) (cp_Hash cp2) = inr tt.
Proof.
  unfold VerifyConsistencyProofWithCheckpoints, VerifyConsistencyProof. rewrite bind_Ok. split.
  - intros (cp1 & H1 & (cp2 & H2 & H3)%bind_Ok). apply lift_Ok in H3. eauto 10.
  - intros (cp1 & cp2 & H1 & H2 & H3). exists cp1. split; [done|]. apply bind_Ok. exists cp2.
    by rewrite lift_Ok.
Qed.

(** ** Theorems *)

(** C14: a client accepts a log entry exactly when the entry carries an inclusion proof, the
    checkpoint in the proof parses under the verifier's name and key, the log index is not
    negative, and the proof's hashes show the entry's canonicalized body at that index in the
    tree of the checkpoint.  The root hash, the tree size and the index repeated in the inclusion
    proof, the log ID and the kind are not consulted. *)
Theorem VerifyLogEntry_iff entry v (Hi : is_int64 (tle_LogIndex entry)) :
  VerifyLogEntry entry v = Ok tt ↔
  ∃ ip cp rest n, tle_InclusionProof entry = Some ip ∧
    ParseCheckpoint (GetEnvelope (ip_Checkpoint ip)) (nv_name v) v [] = inr (cp, rest, n) ∧
    included entry (ip_Hashes ip) cp.
Proof.
  unfold VerifyLogEntry, GetInclusionProof. split.
  - intros (cp & Hcp & Hv)%bind_Ok. apply VerifyCheckpoint_Ok in Hcp as (rest & n & Hp).
    apply VerifyInclusionProof_Ok in Hv as (ip & Hip & Hin); [|done].
    rewrite Hip in Hp. by exists ip, cp, rest, n.
  - intros (ip & cp & rest & n & Hip & Hp & Hin). apply bind_Ok. exists cp. split.
    + apply VerifyCheckpoint_Ok. rewrite Hip. eauto.
    + apply VerifyInclusionProof_Ok; [done|]. eauto.
Qed.

(** C13: what acceptance means: an accepted entry is included in a tree whose checkpoint names
    the verifier's log as its origin, and that checkpoint is the one in the entry: the envelope
    begins with a text that reads as this checkpoint and carries a signature of the verifier's key. *)
Theorem VerifyLogEntry_sound `{!LogFormatLaws} entry v
    (Hi : is_int64 (tle_LogIndex entry)) (Hv : VerifyLogEntry entry v = Ok tt) :
  ∃ ip cp, tle_InclusionProof entry = Some ip ∧
    signed_checkpoint v (GetEnvelope (ip_Checkpoint ip)) cp ∧ included entry (ip_Hashes ip) cp.
Proof.
  unfold VerifyLogEntry in Hv. apply bind_Ok in Hv as (cp & Hcp & Hv).
  apply VerifyCheckpoint_signed in Hcp. apply VerifyInclusionProof_Ok in Hv as (ip & Hip & Hin); [|done].
  unfold GetInclusionProof in Hcp. rewrite Hip in Hcp. by exists ip, cp.
Qed.

(** Verifying a log entry never panics, whatever parts of the entry are missing: an entry
    without an inclusion proof is already refused for its empty checkpoint. *)
Theorem VerifyLogEntry_no_panic `{!LogFormatLaws} entry v : no_panic (VerifyLogEntry entry v).
Proof.
  unfold VerifyLogEntry, GetInclusionProof. destruct (tle_InclusionProof entry) as [ip|] eqn:Hip.
  - apply no_panic_bind; [apply VerifyCheckpoint_no_panic|]. intros cp _. unfold VerifyInclusionProof.
    rewrite Hip. apply no_panic_bind; [by auto with go|]. intros ix _. cbn. auto with go.
  - cbn. unfold VerifyCheckpoint. destruct (Parse_empty (nv_name v) v []) as [e ->]. done.
Qed.

(** C33: a client that follows a log sees it only grow: two texts that the two-checkpoint
    consistency check accepts are both checkpoints of the verifier's log, signed by its key; the
    proof connects the trees of these two checkpoints, the first is not larger than the second,
    and if they are of the same size they have the same root, so that a log which rolls back or
    shows two trees of one size is noticed. *)
Theorem consistency_no_rollback `{!LogFormatLaws} `{!MerkleLaws} proof old new v
    (Hv : VerifyConsistencyProofWithCheckpoints proof old new v = Ok tt) :
  ∃ cp1 cp2, signed_checkpoint v old cp1 ∧ signed_checkpoint v new cp2 ∧
    VerifyConsistency (cp_Size cp1) (cp_Size cp2) proof (cp_Hash cp1) (cp_Hash cp2) = inr tt ∧
    cp_Size cp1 ≤ cp_Size cp2 ∧ (cp_Size cp1 = cp_Size cp2 → cp1 = cp2).
Proof.
  apply VerifyConsistencyProofWithCheckpoints_Ok in Hv as (cp1 & cp2 & Hold & Hnew & Hc).
  apply VerifyCheckpoint_signed in Hold, Hnew. exists cp1, cp2. split_and!; try done.
  - by eapply Consistency_sizes.
  - intros Heq. rewrite Heq in Hc. apply Consistency_same_size in Hc.
    destruct Hold as [Ho1 _], Hnew as [Ho2 _], cp1, cp2. cbn in *. congruence.
Qed.
End verify.
