(* ===== verification/Storage.v ===== *)
(** * internal/tessera/tessera.go: adding entries to the log

    [storage] hands an entry to Tessera, waits until a published checkpoint
    covers it, builds the inclusion proof from tiles and verifies that proof
    before answering. *)
From S2P Require Import Prelude GoErrors GoStrings SafeInt Proto External IO Note TesseraLib VerifyEntry.

(** ** Operations *)

(** The interface [Storage], which the service is written against, over the
    log state it changes. *)
Record Storage (W E : Type) := {
  Add : E → io W TransparencyLogEntry;
  ReadTile : Z → Z → Z → io W bytes
}.
Arguments Add {W E}.
Arguments ReadTile {W E}.

Section storage.
Context `{X509} `{Merkle} `{LogFormat} `{Tessera}.

Record storage := {
  origin : string;
  awaiter : PublicationAwaiter;
  addFn : tessera_Entry → World → IndexFuture * World;
  readTileFn : Z → Z → Z → World → (error + bytes) * World
}.

(** *** Options and construction *)

Definition NewAppendOptions (origin : string) (signer : sig_Signer) : result AppendOptions :=
  let opts := tessera_NewAppendOptions in
  noteSigner ← wrap "getting note signer: " (NewNoteSigner origin signer);
  Ok (WithCheckpointSigner opts noteSigner).

Definition WithLifecycleOptions (opts : AppendOptions) (batchMaxSize batchMaxAge checkpointInterval pushback : Z)
    : AppendOptions :=
  let opts := WithBatching opts batchMaxSize batchMaxAge in
  let opts := WithCheckpointInterval opts checkpointInterval in
  let opts := WithPushback opts pushback in
  opts.

Definition inMemoryLRUSize : Z := 256.

Definition WithAntispamOptions (opts : AppendOptions) (as_ : option Antispam) : AppendOptions :=
  WithAntispam opts inMemoryLRUSize as_.

Definition WithWitnessing (opts : AppendOptions) (witnessPolicy : bytes) : result AppendOptions :=
  wg ← wrap "creating witness group from policy: " (lift (NewWitnessGroupFromPolicy witnessPolicy));
  Ok (WithWitnesses opts wg true).

(** One second, as a [time.Duration]. *)
Definition awaiterPollPeriod : Z := 1000000000.

Definition NewStorage (origin : string) (driver : Driver) (appendOptions : AppendOptions)
    : io World (storage * (World → (error + unit) * World)) :=
  '(appender, shutdown, reader) ← io_wrap "getting tessera appender: " (call (NewAppender driver appendOptions));
  let awaiter := NewPublicationAwaiter (ReadCheckpoint reader) awaiterPollPeriod in
  mret ({| origin := origin;
           awaiter := awaiter;
           addFn := Appender_Add appender;
           readTileFn := LogReader_ReadTile reader |}, shutdown).

(** *** Reading tiles and adding entries *)

Definition storage_ReadTile (s : storage) (level index p : Z) : io World bytes :=
  io_wrap ("reading tile level " +:+ FormatUint level +:+ " index " +:+ FormatUint index +:+
           " p " +:+ FormatUint p +:+ ": ")
    (call (readTileFn s level index p)).

Definition addEntry (s : storage) (entry : tessera_Entry) : io World (SafeInt64 * bool * bytes) :=
  '(idx, checkpointBody) ← io_wrap "await: " (call (λ w, let '(f, w') := addFn s entry w in Await (awaiter s) f w'));
  safeIdx ← io_wrap "invalid index: " (pure (NewSafeInt64 (num_uint64 (Index_Index idx))));
  mret (safeIdx, IsDup idx, checkpointBody).

Definition unmarshalCheckpoint (checkpointBody : bytes) : result f_Checkpoint :=
  '(checkpoint, _) ← lift (Unmarshal checkpointBody);
  Ok checkpoint.

Definition buildProof (s : storage) (idx : SafeInt64) (signedCheckpoint leafHash : bytes) : io World InclusionProof :=
  checkpoint ← io_wrap "unmarshalling checkpoint: " (pure (unmarshalCheckpoint signedCheckpoint));
  proofBuilder ← io_wrap "new proof builder: " (call (NewProofBuilder (cp_Size checkpoint) (storage_ReadTile s)));
  inclusionProof ← io_wrap "generating inclusion proof: " (call (ProofBuilder_InclusionProof proofBuilder (U idx)));
  safeCheckpointSize ←
    pure (match NewSafeInt64 (num_uint64 (cp_Size checkpoint)) with
          | Err _ => Err (ErrorString ("invalid tree size: " +:+ FormatUint (cp_Size checkpoint)))
          | r => r
          end);
  _ ← pure (match VerifyInclusion (U idx) (U safeCheckpointSize) leafHash inclusionProof (cp_Hash checkpoint) with
            | inl err => Err (InclusionProofVerificationError (U idx) err)
            | inr _ => Ok tt
            end);
  mret {| ip_LogIndex := I idx;
          ip_RootHash := cp_Hash checkpoint;
          ip_TreeSize := I safeCheckpointSize;
          ip_Hashes := inclusionProof;
          ip_Checkpoint := Some {| Envelope := signedCheckpoint |} |}.

Definition storage_Add (s : storage) (entry : tessera_Entry) : io World TransparencyLogEntry :=
  '(idx, dup, checkpointBody) ← io_wrap "add entry: " (addEntry s entry);
  if (dup : bool) then fail (DuplicateError (U idx))
  else
    inclusionProof ← io_wrap "building inclusion proof: " (buildProof s idx checkpointBody (LeafHash entry));
    mret {| tle_LogIndex := I idx;
            tle_LogId := None;
            tle_KindVersion := None;
            tle_InclusionProof := Some inclusionProof;
            tle_CanonicalizedBody := Data entry |}.

(** [*storage] implements the interface. *)
Definition storage_impl (s : storage) : Storage World tessera_Entry :=
  {| Add := storage_Add s; ReadTile := storage_ReadTile s |}.

(** A storage that was made, and the appender under it. *)
Lemma NewStorage_Ok origin driver opts w s sd w' :
  NewStorage origin driver opts w = (Ok (s, sd), w') →
  ∃ app rd, NewAppender driver opts w = (inr (app, sd, rd), w') ∧
    addFn s = Appender_Add app ∧ readTileFn s = LogReader_ReadTile rd ∧
    awaiter s = NewPublicationAwaiter (ReadCheckpoint rd) awaiterPollPeriod.
Proof.
  unfold NewStorage. intros ([[app sd'] rd] & w1 & Happ%io_wrap_Ok%call_Ok & Hs)%io_bind_Ok. injection Hs as <- <- ->.
  by exists app, rd.
Qed.

(** ** Specification: what a storage promises to the service *)

(** A log entry that carries its own proof: the body is the leaf at the given
    index of the tree whose (signed) checkpoint comes with the entry, and the
    numbers repeated in the proof agree with that checkpoint. *)
Record self_contained (body : bytes) (tle : TransparencyLogEntry) (ip : InclusionProof) (cp : f_Checkpoint) : Prop := {
  sc_body : tle_CanonicalizedBody tle = body;
  sc_proof : tle_InclusionProof tle = Some ip;
  sc_checkpoint : ∃ rest, Unmarshal (GetEnvelope (ip_Checkpoint ip)) = inr (cp, rest);
  sc_index : 0 ≤ tle_LogIndex tle ≤ MaxInt64;
  sc_index_proof : ip_LogIndex ip = tle_LogIndex tle;
  sc_size : 0 ≤ ip_TreeSize ip ≤ MaxInt64;
  sc_size_cp : ip_TreeSize ip = cp_Size cp;
  sc_root : ip_RootHash ip = cp_Hash cp;
  sc_included : included tle (ip_Hashes ip) cp
}.

(** The interface between storage and service. *)
Class StorageSpec {W E} (st : Storage W E) (newEntry : bytes → E) : Prop := {
  Add_self_contained : ∀ d w tle w',
    Add st (newEntry d) w = (Ok tle, w') → ∃ ip cp, self_contained d tle ip cp;
  Add_safe : ∀ e, io_safe (Add st e)
}.

(** ** Lemmas *)

Lemma unmarshalCheckpoint_Ok raw cp :
  unmarshalCheckpoint raw = Ok cp ↔ ∃ rest, Unmarshal raw = inr (cp, rest).
Proof.
  unfold unmarshalCheckpoint. destruct (Unmarshal raw) as [e|[cp' rest]]; go_step; split;
    intros; split_hyps; simplify_eq; eauto.
Qed.

Lemma addEntry_Ok s entry w idx dup raw w' `{!TesseraLaws} :
  addEntry s entry w = (Ok (idx, dup, raw), w') →
  0 ≤ U idx ≤ MaxInt64 ∧ I idx = U idx ∧
  ∃ f w1 ix, addFn s entry w = (f, w1) ∧ Await (awaiter s) f w1 = (inr (ix, raw), w') ∧
    Index_Index ix = U idx ∧ IsDup ix = dup.
Proof.
  unfold addEntry. intros Ha. io_inv. destruct x as [ix cp]. io_inv. simplify_eq.
  destruct (addFn s entry w) as [f w1] eqn:Hf.
  match goal with Haw : Await _ _ _ = _ |- _ => pose proof (Await_uint64 _ _ _ _ _ _ Haw) as Hix end.
  match goal with Hs : NewSafeInt64 _ = Ok _ |- _ =>
    apply (NewSafeInt64_inv (num_uint64 _)) in Hs as (n & Hn & Hr & ->); [|done] end.
  cbn in *. simplify_eq. unfold U, I. cbn. split_and!; [lia..|done|]. by exists f, w1, ix.
Qed.

Lemma buildProof_Ok s idx raw leafHash w ip w' `{!LogFormatLaws} :
  buildProof s idx raw leafHash w = (Ok ip, w') →
  ∃ cp, (∃ rest, Unmarshal raw = inr (cp, rest)) ∧ 0 ≤ cp_Size cp ≤ MaxInt64 ∧
    VerifyInclusion (U idx) (cp_Size cp) leafHash (ip_Hashes ip) (cp_Hash cp) = inr tt ∧
    ip = {| ip_LogIndex := I idx; ip_RootHash := cp_Hash cp; ip_TreeSize := cp_Size cp;
            ip_Hashes := ip_Hashes ip; ip_Checkpoint := Some {| Envelope := raw |} |}.
Proof.
  unfold buildProof. intros Hb. io_inv.
  match goal with Hu : unmarshalCheckpoint _ = Ok ?c |- _ =>
    rename c into cp; apply unmarshalCheckpoint_Ok in Hu as [rest Hu] end.
  destruct (NewSafeInt64 (num_uint64 (cp_Size cp))) as [sz|e|] eqn:Hsz; [|discriminate..].
  apply (NewSafeInt64_inv (num_uint64 _)) in Hsz as (n & Hn & Hr & ->); [|by eapply Unmarshal_uint64].
  cbn in Hn. simplify_eq. cbn [U u I i] in *.
  destruct (VerifyInclusion _ _ _ _ _) as [e|[]] eqn:Hv; [discriminate|].
  exists cp. split_and!; eauto; lia.
Qed.

Lemma storage_Add_self_contained `{!TesseraLaws} `{!LogFormatLaws} s d w tle w' :
  storage_Add s (NewEntry d) w = (Ok tle, w') → ∃ ip cp, self_contained d tle ip cp.
Proof.
  unfold storage_Add. intros Ha. io_inv. destruct x as [[idx dup] raw].
  match goal with H : addEntry _ _ _ = _ |- _ => destruct (addEntry_Ok _ _ _ _ _ _ _ H) as (Hr & Hi & _) end.
  destruct dup; io_inv.
  match goal with H : buildProof _ _ _ _ _ = (Ok ?p, _) |- _ =>
    rename p into ip; destruct (buildProof_Ok _ _ _ _ _ _ _ H) as (cp & Hu & Hsz & Hv & Hip) end.
  exists ip, cp. simplify_eq. rewrite Hip. split; cbn; try (done || lia).
  - apply Data_NewEntry.
  - unfold included. cbn. rewrite Data_NewEntry, Hi, <-LeafHash_NewEntry. split; [lia|done].
Qed.

Lemma addEntry_safe s entry : io_safe (addEntry s entry).
Proof.
  apply io_safe_bind; [by auto with go|]. intros [idx raw].
  apply io_safe_bind; [by auto with go|]. intros safeIdx w. exact Logic.I.
Qed.

Lemma unmarshalCheckpoint_no_panic raw : no_panic (unmarshalCheckpoint raw).
Proof. unfold unmarshalCheckpoint. by destruct (Unmarshal raw) as [|[]]. Qed.

Lemma buildProof_safe s idx raw leafHash : io_safe (buildProof s idx raw leafHash).
Proof.
  apply io_safe_bind; [auto using unmarshalCheckpoint_no_panic with go|]. intros cp.
  apply io_safe_bind; [by auto with go|]. intros pb.
  apply io_safe_bind; [by auto with go|]. intros hashes.
  apply io_safe_bind.
  { apply io_safe_pure. pose proof (NewSafeInt64_no_panic (num_uint64 (cp_Size cp))).
    by destruct (NewSafeInt64 _). }
  intros sz. apply io_safe_bind; [apply io_safe_pure; by case_match|]. intros [] w. exact Logic.I.
Qed.

#[local] Hint Resolve addEntry_safe buildProof_safe : go.

Lemma storage_Add_safe s entry : io_safe (storage_Add s entry).
Proof.
  apply io_safe_bind; [by auto with go|]. intros [[idx dup] raw].
  destruct dup; [by auto with go|]. apply io_safe_bind; [by auto with go|]. intros ip w. exact Logic.I.
Qed.

(** The storage keeps its promise. *)
#[export] Instance storage_impl_spec `{!TesseraLaws} `{!LogFormatLaws} s : StorageSpec (storage_impl s) NewEntry.
Proof.
  split; [|apply storage_Add_safe]. intros d w tle w' Ha.
  exact (storage_Add_self_contained s d w tle w' Ha).
Qed.

(** A self-contained entry passes the client's verification for every key
    under which its checkpoint parses. *)
Lemma self_contained_verifies `{!LogFormatLaws} d tle ip cp v cp' rest n :
  self_contained d tle ip cp →
  ParseCheckpoint (GetEnvelope (ip_Checkpoint ip)) (nv_name v) v [] = inr (cp', rest, n) →
  VerifyLogEntry tle v = Ok tt.
Proof.
  intros [Hb Hip [rest' Hu] Hi _ _ _ _ Hin] Hp. unfold VerifyLogEntry, GetInclusionProof. rewrite Hip. cbn.
  assert (VerifyCheckpoint (GetEnvelope (ip_Checkpoint ip)) v = Ok cp') as ->
    by (apply VerifyCheckpoint_Ok; eauto).
  destruct (Parse_Unmarshal _ _ _ _ _ _ _ Hp) as [rest'' Hu']. rewrite Hu in Hu'. simplify_eq. cbn.
  apply VerifyInclusionProof_Ok; [unfold is_int64; unfold MaxInt64 in *; lia|]. eauto.
Qed.

(** The checkpoint in a successful answer is the one the awaiter returned. *)
Lemma storage_Add_awaited s entry w tle w' :
  storage_Add s entry w = (Ok tle, w') →
  ∃ ip f w1 ix raw w2, tle_InclusionProof tle = Some ip ∧ ip_Checkpoint ip = Some {| Envelope := raw |} ∧
    Await (awaiter s) f w1 = (inr (ix, raw), w2).
Proof.
  intros Ha. unfold storage_Add in Ha. apply io_bind_Ok in Ha as ([[idx dup] raw] & w2 & Hadd & Ha).
  destruct dup; [discriminate|]. apply io_bind_Ok in Ha as (ip & w3 & Hp%io_wrap_Ok & Ht). injection Ht as <- <-.
  unfold addEntry in Hadd. apply io_wrap_Ok, io_bind_Ok in Hadd as ([ix raw'] & w4 & Haw%io_wrap_Ok%call_Ok & Hs).
  destruct (addFn s entry w) as [f w1] eqn:Hf.
  apply io_bind_Ok in Hs as (safe & w5 & _ & Hr). injection Hr as _ _ -> _.
  exists ip, f, w1, ix, raw, w4. split_and!; [done| |done].
  unfold buildProof in Hp. repeat (apply io_bind_Ok in Hp as (? & ? & _ & Hp)). by injection Hp as <- _.
Qed.

(** [storage_Add] by cases on what the sequencer answers. *)
Lemma storage_Add_eq `{!TesseraLaws} s entry w f w1 (Hadd : addFn s entry w = (f, w1)) :
  match Await (awaiter s) f w1 with
  | (inl e, w2) => storage_Add s entry w = (Err (Wrapf "add entry: " (Wrapf "await: " e)), w2)
  | (inr (ix, raw), w2) =>
      (MaxInt64 < Index_Index ix → ∃ e, storage_Add s entry w = (Err (Wrapf "add entry: " (Wrapf "invalid index: " e)), w2)) ∧
      (Index_Index ix ≤ MaxInt64 → IsDup ix = true →
       storage_Add s entry w = (Err (DuplicateError (Index_Index ix)), w2)) ∧
      (Index_Index ix ≤ MaxInt64 → IsDup ix = false → ∀ r w3,
       buildProof s {| u := Index_Index ix; i := Index_Index ix |} raw (LeafHash entry) w2 = (r, w3) →
       storage_Add s entry w =
         (match r with
          | Ok ip => Ok {| tle_LogIndex := Index_Index ix; tle_LogId := None; tle_KindVersion := None;
                           tle_InclusionProof := Some ip; tle_CanonicalizedBody := Data entry |}
          | Err e => Err (Wrapf "building inclusion proof: " e)
          | Panic => Panic
          end, w3))
  end.
Proof.
  destruct (Await (awaiter s) f w1) as [[e|[ix raw]] w2] eqn:Haw.
  - unfold storage_Add, addEntry, mbind, io_bind, io_bind_def, io_wrap, call. by rewrite Hadd, Haw.
  - pose proof (Await_uint64 _ _ _ _ _ _ Haw) as Hu.
    unfold storage_Add, addEntry, mbind, io_bind, io_bind_def, io_wrap, call, pure. rewrite Hadd, Haw. cbn.
    split_and!.
    + intros Hlt. unfold NewSafeInt64. destruct (Z.gtb_spec (Index_Index ix) MaxInt64); [|lia]. cbn. eauto.
    + intros Hle Hd. rewrite NewSafeInt64_uint64_ok by done. cbn. by rewrite Hd.
    + intros Hle Hd r w3 Hb. rewrite NewSafeInt64_uint64_ok by done. cbn. rewrite Hd.
      rewrite Hb. by destruct r.
Qed.

(** ** Theorems *)

(** C11: whenever adding an entry succeeds, the answer is self-contained: its body is the data
    given, its index and tree size fit in int64 and agree with the checkpoint that comes with
    it, the root hash is the checkpoint's, and the inclusion proof verifies for the leaf hash of
    the body at that index in that tree. *)
Theorem storage_Add_sound `{!TesseraLaws} `{!LogFormatLaws} s d w tle w'
    (Ha : Add (storage_impl s) (NewEntry d) w = (Ok tle, w')) :
  ∃ ip cp, self_contained d tle ip cp ∧ VerifyInclusionProof tle cp = Ok tt.
Proof.
  destruct (Add_self_contained d w tle w' Ha) as (ip & cp & Hsc). exists ip, cp. split; [done|].
  destruct Hsc. apply VerifyInclusionProof_Ok; [unfold is_int64; unfold MaxInt64 in *; lia|]. eauto.
Qed.

(** The outcome of adding an entry before its proof is built, branch by branch.  An error of
    the sequencer is passed on inside the wrapping "add entry: await: "; an index above MaxInt64
    is refused; a duplicate is answered with its index and without reading any tile; otherwise
    the answer is that of the proof construction, for the index and checkpoint just awaited. *)
Theorem storage_Add_cases `{!TesseraLaws} s entry w f w1 (Hadd : addFn s entry w = (f, w1)) :
  match Await (awaiter s) f w1 with
  | (inl e, w2) => storage_Add s entry w = (Err (Wrapf "add entry: " (Wrapf "await: " e)), w2)
  | (inr (ix, raw), w2) =>
      (MaxInt64 < Index_Index ix → ∃ e, storage_Add s entry w = (Err (Wrapf "add entry: " (Wrapf "invalid index: " e)), w2)) ∧
      (Index_Index ix ≤ MaxInt64 → IsDup ix = true →
       storage_Add s entry w = (Err (DuplicateError (Index_Index ix)), w2)) ∧
      (Index_Index ix ≤ MaxInt64 → IsDup ix = false → ∀ r w3,
       buildProof s {| u := Index_Index ix; i := Index_Index ix |} raw (LeafHash entry) w2 = (r, w3) →
       storage_Add s entry w =
         (match r with
          | Ok ip => Ok {| tle_LogIndex := Index_Index ix; tle_LogId := None; tle_KindVersion := None;
                           tle_InclusionProof := Some ip; tle_CanonicalizedBody := Data entry |}
          | Err e => Err (Wrapf "building inclusion proof: " e)
          | Panic => Panic
          end, w3))
  end.
Proof. exact (storage_Add_eq s entry w f w1 Hadd). Qed.

(** An inclusion proof that does not verify is never returned: when the proof the builder
    produced fails verification, building the proof fails with the verification error that
    carries the entry's index. *)
Theorem buildProof_verifies s idx raw leafHash w cp rest pb w1 hashes w2 e
    (Hu : Unmarshal raw = inr (cp, rest)) (Hsz : 0 ≤ cp_Size cp ≤ MaxInt64)
    (Hpb : NewProofBuilder (cp_Size cp) (storage_ReadTile s) w = (inr pb, w1))
    (Hip : ProofBuilder_InclusionProof pb (U idx) w1 = (inr hashes, w2))
    (Hv : VerifyInclusion (U idx) (cp_Size cp) leafHash hashes (cp_Hash cp) = inl e) :
  buildProof s idx raw leafHash w = (Err (InclusionProofVerificationError (U idx) e), w2).
Proof.
  unfold buildProof, mbind, io_bind, io_bind_def, io_wrap, call, pure, unmarshalCheckpoint. rewrite Hu. cbn.
  rewrite Hpb. cbn. rewrite Hip. cbn.
  rewrite NewSafeInt64_uint64_ok; [|unfold is_uint64; unfold MaxInt64, MaxUint64 in *; lia|lia].
  cbn. by rewrite Hv.
Qed.

(** Adding an entry never panics, whatever the sequencer, the tile reader, the proof builder
    and the checkpoint parser answer. *)
Theorem storage_Add_no_panic s entry w : no_panic (Add (storage_impl s) entry w).1.
Proof. apply storage_Add_safe. Qed.
End storage.
