(* ===== verification/Service.v ===== *)
(** * internal/server/service.go: the gRPC service

    [CreateEntry] turns a request into a canonicalized log entry, adds it to
    the log through the [Storage] interface, and answers with the entry and
    its proof, or with a gRPC status.  The handler's effects are on the log
    (through storage), on the response headers of the call, and on the
    metrics of the process. *)
From S2P Require Import Prelude GoErrors GoStrings SafeInt Proto External IO Note TesseraLib VerifyEntry Storage AlgorithmRegistry HashedRekord Dsse.

(** ** State *)

(** The counters of [metrics.go] that gRPC calls change. *)
Record counters := {
  newHashedRekordEntries : Z;
  newDsseEntries : Z;
  inclusionProofFailureCount : Z;
  panicsTotal : Z
}.

#[export] Instance counters_eq_dec : EqDecision counters.
Proof. solve_decision. Defined.

Inductive counter := NewHashedRekordEntries | NewDsseEntries | InclusionProofFailureCount | PanicsTotal.

Definition Inc (c : counter) (m : counters) : counters :=
  let '{| newHashedRekordEntries := h; newDsseEntries := d; inclusionProofFailureCount := f; panicsTotal := p |} := m in
  match c with
  | NewHashedRekordEntries => Build_counters (h + 1) d f p
  | NewDsseEntries => Build_counters h (d + 1) f p
  | InclusionProofFailureCount => Build_counters h d (f + 1) p
  | PanicsTotal => Build_counters h d f (p + 1)
  end.

(** Response metadata: key and value pairs in the order they were set. *)
Abbreviation MD := (list (string * string)) (only parsing).

(** What one call sees: the log, the headers of its response, the metrics. *)
Record rpc (W : Type) := { rpc_log : W; rpc_header : MD; rpc_metrics : counters }.
Arguments rpc_log {W}.
Arguments rpc_header {W}.
Arguments rpc_metrics {W}.
Arguments Build_rpc {W}.

(** The JSON libraries: [protojson.Marshal] on an entry, [jsoncanonicalizer.Transform]. *)
Class JsonLib := {
  protojson_Marshal : Entry → error + bytes;
  Transform : bytes → error + bytes
}.

(** ** Operations *)

Definition duplicateEntryHeader : string := "x-log-index".
Definition httpStatusCodeHeader : string := "x-http-code".
Definition httpErrorMessageHeader : string := "x-http-error-message".

(** [grpc.SetHeader(ctx, metadata.Pairs(k, v))]; its error is ignored by every caller. *)
Definition SetHeader {W} (k v : string) : io (rpc W) unit :=
  modify (λ r, Build_rpc (rpc_log r) (rpc_header r ++ [(k, v)]) (rpc_metrics r)).

Definition inc {W} (c : counter) : io (rpc W) unit :=
  modify (λ r, Build_rpc (rpc_log r) (rpc_header r) (Inc c (rpc_metrics r))).

(** [if err != nil { return nil, status.Errorf(code, msg) }] *)
Definition or_status {A} (code : Code) (msg : string) (m : result A) : result A :=
  match m with Err _ => Err (StatusError code msg) | m => m end.

(** The targets of [errors.As] in the handler. *)
Definition as_DuplicateError (e : error) : option Z :=
  match e with DuplicateError i => Some i | _ => None end.
Definition as_InclusionProofVerificationError (e : error) : option Z :=
  match e with InclusionProofVerificationError i _ => Some i | _ => None end.

Definition GetSpec (req : option CreateEntryRequest) : option isCreateEntryRequest_Spec :=
  match req with Some r => Request_Spec r | None => None end.

Inductive HealthStatus := SERVING.

Section service.
Context `{X509, SigstoreSignature, !DsseLib, Tessera, JsonLib}.

Record Server := {
  srv_storage : option (Storage World tessera_Entry);
  readOnly : bool;
  algorithmRegistry : option AlgorithmRegistryConfig;
  logID : bytes
}.

Definition NewServer (storage : option (Storage World tessera_Entry)) (readOnly : bool)
    (algorithmRegistry : option AlgorithmRegistryConfig) (logID : bytes) : Server :=
  if readOnly
  then {| srv_storage := None; readOnly := readOnly; algorithmRegistry := None; logID := logID |}
  else {| srv_storage := storage; readOnly := false; algorithmRegistry := algorithmRegistry; logID := logID |}.

(** The switch on the type of the request: the serialized entry, its kind and
    version, and the counter of its type.  [o1], [o2] and [o3] are the orders of
    the loops over maps in package dsse. *)
Definition serialize (o1 o2 o3 : map_order) (s : Server) (req : option CreateEntryRequest)
    : result (bytes * KindVersion * counter) :=
  match GetSpec req with
  | Some (CreateEntryRequest_HashedRekordRequestV002 hr) =>
      entry ← or_status InvalidArgument "invalid hashedrekord request"
                (HashedRekord.ToLogEntry hr (algorithmRegistry s));
      let kv := {| kv_Kind := Kind entry; kv_Version := ApiVersion entry |} in
      serialized ← or_status InvalidArgument "invalid hashedrekord request" (lift (protojson_Marshal entry));
      Ok (serialized, kv, NewHashedRekordEntries)
  | Some (CreateEntryRequest_DsseRequestV002 ds) =>
      entry ← or_status InvalidArgument "invalid dsse request"
                (Dsse.ToLogEntry o1 o2 o3 ds (algorithmRegistry s));
      let kv := {| kv_Kind := Kind entry; kv_Version := ApiVersion entry |} in
      serialized ← or_status InvalidArgument "invalid dsse request" (lift (protojson_Marshal entry));
      Ok (serialized, kv, NewDsseEntries)
  | None => Err (StatusError InvalidArgument "invalid type, must be either hashedrekord or dsse")
  end.

(** What the handler does with the error of [storage.Add]. *)
Definition handle_add_error (err : error) : io (rpc World) TransparencyLogEntry :=
  if errors_Is err ErrPushback then fail (StatusError Unavailable "reached max pushback; retry")
  else if errors_Is err ContextCanceled then fail (StatusError Canceled (Error err))
  else match errors_As as_DuplicateError err with
       | Some index =>
           _ ← SetHeader duplicateEntryHeader (FormatUint index);
           fail (StatusError AlreadyExists (Error err))
       | None =>
           _ ← match errors_As as_InclusionProofVerificationError err with
               | Some _ => inc InclusionProofFailureCount
               | None => mret tt
               end;
           fail (StatusError Unknown "failed to integrate entry")
       end.

Definition CreateEntry (o1 o2 o3 : map_order) (s : Server) (req : option CreateEntryRequest)
    : io (rpc World) TransparencyLogEntry :=
  if readOnly s then
    _ ← SetHeader httpStatusCodeHeader "405";
    _ ← SetHeader httpErrorMessageHeader "This log has been frozen, please switch to the latest log.";
    fail (StatusError Unimplemented "log frozen")
  else
    '(serialized, kv, metricsCounter) ← pure (serialize o1 o2 o3 s req);
    canonicalized ← pure (or_status InvalidArgument "invalid entry" (lift (Transform serialized)));
    let entry := NewEntry canonicalized in
    storage ← pure (deref (srv_storage s));
    added ← try (zoom rpc_log (λ w r, Build_rpc w (rpc_header r) (rpc_metrics r)) (Add storage entry));
    match added with
    | inl err => handle_add_error err
    | inr tle =>
        let tle := {| tle_LogIndex := tle_LogIndex tle;
                      tle_LogId := Some (logID s);
                      tle_KindVersion := Some kv;
                      tle_InclusionProof := tle_InclusionProof tle;
                      tle_CanonicalizedBody := tle_CanonicalizedBody tle |} in
        _ ← SetHeader httpStatusCodeHeader "201";
        _ ← inc metricsCounter;
        mret tle
    end.

Definition GetTile {A} (s : Server) : result A := Err (StatusError Unimplemented "method GetTile not implemented").
Definition GetEntryBundle {A} (s : Server) : result A :=
  Err (StatusError Unimplemented "method GetEntryBundle not implemented").
Definition GetCheckpoint {A} (s : Server) : result A :=
  Err (StatusError Unimplemented "method GetCheckpoint not implemented").

Definition Check (s : Server) : result HealthStatus := Ok SERVING.

(** [grpcPanicRecoveryHandler] of grpc.go, installed innermost around every
    handler by the recovery interceptor. *)
Definition grpcPanicRecoveryHandler {W} : io (rpc W) error :=
  _ ← inc PanicsTotal; mret (StatusError Internal "internal server error").

Definition recovered {W A} (m : io (rpc W) A) : io (rpc W) A := λ r,
  match m r with
  | (Panic, r') => (err ← grpcPanicRecoveryHandler; fail err) r'
  | x => x
  end.

(** ** Specification *)

(** The entry a request stands for, with its counter. *)
Definition request_entry (o1 o2 o3 : map_order) (s : Server) (req : option CreateEntryRequest)
    : option (result Entry * counter) :=
  match GetSpec req with
  | Some (CreateEntryRequest_HashedRekordRequestV002 hr) =>
      Some (HashedRekord.ToLogEntry hr (algorithmRegistry s), NewHashedRekordEntries)
  | Some (CreateEntryRequest_DsseRequestV002 ds) =>
      Some (Dsse.ToLogEntry o1 o2 o3 ds (algorithmRegistry s), NewDsseEntries)
  | None => None
  end.

(** The request is valid, and [body] is the canonical JSON of its entry [e]. *)
Definition canonical_body (o1 o2 o3 : map_order) (s : Server) (req : option CreateEntryRequest)
    (e : Entry) (c : counter) (body : bytes) : Prop :=
  request_entry o1 o2 o3 s req = Some (Ok e, c) ∧
  ∃ json, protojson_Marshal e = inr json ∧ Transform json = inr body.

(** The status, headers and counter with which a failed [Add] is answered. *)
Definition add_error_status (err : error) : Code * string :=
  if errors_Is err ErrPushback then (Unavailable, "reached max pushback; retry")
  else if errors_Is err ContextCanceled then (Canceled, Error err)
  else match errors_As as_DuplicateError err with
       | Some _ => (AlreadyExists, Error err)
       | None => (Unknown, "failed to integrate entry")
       end.

(** ** Lemmas *)

Lemma or_status_Ok {A} c msg (m : result A) a : or_status c msg m = Ok a ↔ m = Ok a.
Proof. destruct m; cbn; split; congruence. Qed.

Lemma no_panic_or_status {A} c msg (m : result A) : no_panic m → no_panic (or_status c msg m).
Proof. by destruct m. Qed.

Lemma hashedrekord_kind hr reg e :
  HashedRekord.ToLogEntry hr reg = Ok e → Kind e = "hashedrekord" ∧ ApiVersion e = "0.0.2".
Proof.
  unfold HashedRekord.ToLogEntry. intros Ht.
  repeat (apply bind_Ok in Ht as (? & _ & Ht)). by injection Ht as <-.
Qed.

Lemma dsse_kind o1 o2 o3 ds reg e :
  Dsse.ToLogEntry o1 o2 o3 ds reg = Ok e → Kind e = "dsse" ∧ ApiVersion e = "0.0.2".
Proof.
  unfold Dsse.ToLogEntry. intros Ht.
  repeat (apply bind_Ok in Ht as (? & _ & Ht)). by injection Ht as <-.
Qed.

Lemma serialize_Ok o1 o2 o3 s req json kv c :
  serialize o1 o2 o3 s req = Ok (json, kv, c) ↔
  ∃ e, request_entry o1 o2 o3 s req = Some (Ok e, c) ∧ protojson_Marshal e = inr json ∧
    kv = {| kv_Kind := Kind e; kv_Version := ApiVersion e |}.
Proof.
  unfold serialize, request_entry. destruct (GetSpec req) as [[hr|ds]|]; [| |by split; [|intros (?&?&_)]].
  - split.
    + intros (e & He%or_status_Ok & Hj)%bind_Ok. apply bind_Ok in Hj as (j & Hj%or_status_Ok%lift_Ok & Hr).
      simplify_eq. rewrite He. eauto.
    + intros (e & He & Hj & ->). injection He as He <-. rewrite He. go_step. cbn. by rewrite Hj.
  - split.
    + intros (e & He%or_status_Ok & Hj)%bind_Ok. apply bind_Ok in Hj as (j & Hj%or_status_Ok%lift_Ok & Hr).
      simplify_eq. rewrite He. eauto.
    + intros (e & He & Hj & ->). injection He as He <-. rewrite He. go_step. cbn. by rewrite Hj.
Qed.

(** A writable server on a valid request: the handler is [Add], and what follows it. *)
Lemma CreateEntry_valid o1 o2 o3 s st req e c body r :
  readOnly s = false → srv_storage s = Some st → canonical_body o1 o2 o3 s req e c body →
  CreateEntry o1 o2 o3 s req r =
  match Add st (NewEntry body) (rpc_log r) with
  | (Ok tle, w) =>
      (Ok {| tle_LogIndex := tle_LogIndex tle; tle_LogId := Some (logID s);
             tle_KindVersion := Some {| kv_Kind := Kind e; kv_Version := ApiVersion e |};
             tle_InclusionProof := tle_InclusionProof tle;
             tle_CanonicalizedBody := tle_CanonicalizedBody tle |},
       Build_rpc w (rpc_header r ++ [(httpStatusCodeHeader, "201")]) (Inc c (rpc_metrics r)))
  | (Err err, w) => handle_add_error err (Build_rpc w (rpc_header r) (rpc_metrics r))
  | (Panic, w) => (Panic, Build_rpc w (rpc_header r) (rpc_metrics r))
  end.
Proof.
  intros Hro Hst (He & json & Hj & Hb). unfold CreateEntry. rewrite Hro.
  unfold mbind, io_bind, io_bind_def, pure at 1.
  assert (serialize o1 o2 o3 s req = Ok (json, {| kv_Kind := Kind e; kv_Version := ApiVersion e |}, c)) as ->
    by (apply serialize_Ok; eauto).
  cbn. rewrite Hb. cbn. rewrite Hst. cbn. unfold try, zoom.
  by destruct (Add st (NewEntry body) (rpc_log r)) as [[tle|err|] w].
Qed.

(** A request that is not valid leaves everything as it was. *)
Lemma CreateEntry_invalid o1 o2 o3 s req r :
  readOnly s = false → (∀ e c body, ¬ canonical_body o1 o2 o3 s req e c body) →
  (CreateEntry o1 o2 o3 s req r).2 = r ∧ ¬ is_Ok (CreateEntry o1 o2 o3 s req r).1.
Proof.
  intros Hro Hno. unfold CreateEntry. rewrite Hro. unfold mbind, io_bind, io_bind_def, pure.
  destruct (serialize o1 o2 o3 s req) as [[[json kv] c]|err|] eqn:Hs; [|by auto..].
  apply serialize_Ok in Hs as (e & He & Hj & _).
  destruct (Transform json) as [err|body] eqn:Hb; cbn; [by auto|].
  exfalso. apply (Hno e c body). split; [done|]. eauto.
Qed.

Lemma handle_add_error_result err r :
  (handle_add_error err r).1 = Err (StatusError (add_error_status err).1 (add_error_status err).2).
Proof.
  unfold handle_add_error, add_error_status.
  destruct (errors_Is err ErrPushback); [done|]. destruct (errors_Is err ContextCanceled); [done|].
  destruct (errors_As as_DuplicateError err); [done|].
  by destruct (errors_As as_InclusionProofVerificationError err).
Qed.

(** The answers that report a new entry of a kind. *)
Definition logged_kind (kind : string) (x : result TransparencyLogEntry) : bool :=
  match x with
  | Ok tle => match tle_KindVersion tle with Some kv => bool_decide (kv_Kind kv = kind) | None => false end
  | _ => false
  end.

Definition count {A} (f : A → bool) (l : list A) : Z := Z.of_nat (length (List.filter f l)).

Lemma request_entry_kind o1 o2 o3 s req e c :
  request_entry o1 o2 o3 s req = Some (Ok e, c) →
  (Kind e = "hashedrekord" ∧ c = NewHashedRekordEntries ∨ Kind e = "dsse" ∧ c = NewDsseEntries) ∧ ApiVersion e = "0.0.2".
Proof.
  unfold request_entry. destruct (GetSpec req) as [[hr|ds]|]; [| |done]; intros [= He <-].
  - apply hashedrekord_kind in He as [-> ->]. auto.
  - apply dsse_kind in He as [-> ->]. auto.
Qed.

(** A writable server's handler, split on whether the request has a canonical body. *)
Lemma CreateEntry_cases o1 o2 o3 s st req r x r' :
  readOnly s = false → srv_storage s = Some st → CreateEntry o1 o2 o3 s req r = (x, r') →
  (r' = r ∧ ¬ is_Ok x) ∨ ∃ e c body, canonical_body o1 o2 o3 s req e c body.
Proof.
  intros Hro Hst Hc. unfold canonical_body.
  destruct (request_entry o1 o2 o3 s req) as [[[e|err|] c]|] eqn:He.
  1: destruct (protojson_Marshal e) as [err|json] eqn:Hj.
  2: destruct (Transform json) as [err|body] eqn:Hb.
  3: right; eauto 10.
  all: left; destruct (CreateEntry_invalid o1 o2 o3 s req r Hro) as [Hr1 Hr2];
    [intros ??? (? & ? & ? & ?); congruence|rewrite Hc in Hr1, Hr2; by cbn in *].
Qed.

Lemma handle_add_error_log err r : rpc_log (handle_add_error err r).2 = rpc_log r.
Proof.
  unfold handle_add_error. destruct (errors_Is err ErrPushback); [done|].
  destruct (errors_Is err ContextCanceled); [done|]. destruct (errors_As as_DuplicateError err); [done|].
  by destruct (errors_As as_InclusionProofVerificationError err).
Qed.

Lemma grpcPanicRecoveryHandler_eq {W A} (r : rpc W) :
  (err ← grpcPanicRecoveryHandler; fail err) r =
  (@Err A (StatusError Internal "internal server error"),
   Build_rpc (rpc_log r) (rpc_header r) (Inc PanicsTotal (rpc_metrics r))).
Proof. reflexivity. Qed.

(** ** Theorems *)

(** A read-only server answers every CreateEntry call with Unimplemented, sets the headers
    that the gateway turns into status 405 with the message about the frozen log, and touches
    neither the log nor the metrics, whatever the request is. *)
Lemma CreateEntry_read_only o1 o2 o3 st reg id req r :
  CreateEntry o1 o2 o3 (NewServer st true reg id) req r =
  (Err (StatusError Unimplemented "log frozen"),
   Build_rpc (rpc_log r)
     (rpc_header r ++ [(httpStatusCodeHeader, "405");
                       (httpErrorMessageHeader, "This log has been frozen, please switch to the latest log.")])
     (rpc_metrics r)).
Proof.
  unfold CreateEntry. cbn. unfold SetHeader, modify, fail, mbind, io_bind, io_bind_def. cbn.
  by rewrite <-app_assoc.
Qed.

(** The effect of a call on the log: none, or that of one [Add]. *)
Lemma CreateEntry_log o1 o2 o3 st reg id req r x r'
    (Hc : CreateEntry o1 o2 o3 (NewServer (Some st) false reg id) req r = (x, r')) :
  r' = r ∧ ¬ is_Ok x ∨
  ∃ e c body, canonical_body o1 o2 o3 (NewServer (Some st) false reg id) req e c body ∧
    rpc_log r' = (Add st (NewEntry body) (rpc_log r)).2.
Proof.
  destruct (CreateEntry_cases _ _ _ (NewServer (Some st) false reg id) _ _ _ _ _ eq_refl eq_refl Hc)
    as [?|(e & c & body & Hb)]; [by left|right].
  exists e, c, body. split; [done|].
  rewrite (CreateEntry_valid _ _ _ (NewServer (Some st) false reg id) _ _ _ _ _ _ eq_refl eq_refl Hb) in Hc.
  destruct (Add st (NewEntry body) (rpc_log r)) as [[tle|err|] w]; cbn in Hc |- *.
  - by injection Hc as <- <-.
  - pose proof (handle_add_error_log err (Build_rpc w (rpc_header r) (rpc_metrics r))) as Hl.
    rewrite Hc in Hl. done.
  - by injection Hc as <- <-.
Qed.

(** C12: only canonical bodies of valid entries reach the log: a CreateEntry call leaves the log
    as it was, or its effect on the log is one Add of the canonical JSON of the entry that
    ToLogEntry made of the request. *)
Theorem CreateEntry_only_valid_logged o1 o2 o3 st reg id req r x r'
    (Hc : CreateEntry o1 o2 o3 (NewServer (Some st) false reg id) req r = (x, r')) :
  r' = r ∧ ¬ is_Ok x ∨
  ∃ e c body, canonical_body o1 o2 o3 (NewServer (Some st) false reg id) req e c body ∧
    rpc_log r' = (Add st (NewEntry body) (rpc_log r)).2.
Proof. by apply CreateEntry_log. Qed.

(** A call that fails on a writable server sets no header but the index of a duplicate. *)
Lemma CreateEntry_error_headers o1 o2 o3 st reg id req r e r' :
  CreateEntry o1 o2 o3 (NewServer (Some st) false reg id) req r = (Err e, r') →
  rpc_header r' = rpc_header r ∨ ∃ v, rpc_header r' = rpc_header r ++ [(duplicateEntryHeader, v)].
Proof.
  intros Hc.
  destruct (CreateEntry_cases _ _ _ (NewServer (Some st) false reg id) _ _ _ _ _ eq_refl eq_refl Hc)
    as [[-> _]|(e' & c & body & Hb)]; [by left|].
  rewrite (CreateEntry_valid _ _ _ (NewServer (Some st) false reg id) _ _ _ _ _ _ eq_refl eq_refl Hb) in Hc.
  destruct (Add st (NewEntry body) (rpc_log r)) as [[t|err|] w] eqn:Ha; [discriminate| |discriminate].
  unfold handle_add_error in Hc. destruct (errors_Is err ErrPushback); [left; by injection Hc as _ <-|].
  destruct (errors_Is err ContextCanceled); [left; by injection Hc as _ <-|].
  destruct (errors_As as_DuplicateError err) as [ix|]; [right; exists (FormatUint ix); by injection Hc as _ <-|].
  left. destruct (errors_As as_InclusionProofVerificationError err); by injection Hc as _ <-.
Qed.

(** A call that succeeds: the request was valid, the storage added its body, and what the
    handler put into the storage's answer and did besides. *)
Lemma CreateEntry_Ok_inv o1 o2 o3 st reg id req r tle r' :
  CreateEntry o1 o2 o3 (NewServer (Some st) false reg id) req r = (Ok tle, r') →
  ∃ e c body t w, canonical_body o1 o2 o3 (NewServer (Some st) false reg id) req e c body ∧
    Add st (NewEntry body) (rpc_log r) = (Ok t, w) ∧
    tle = {| tle_LogIndex := tle_LogIndex t; tle_LogId := Some id;
             tle_KindVersion := Some {| kv_Kind := Kind e; kv_Version := ApiVersion e |};
             tle_InclusionProof := tle_InclusionProof t; tle_CanonicalizedBody := tle_CanonicalizedBody t |} ∧
    r' = Build_rpc w (rpc_header r ++ [(httpStatusCodeHeader, "201")]) (Inc c (rpc_metrics r)).
Proof.
  intros Hc.
  destruct (CreateEntry_cases _ _ _ (NewServer (Some st) false reg id) _ _ _ _ _ eq_refl eq_refl Hc)
    as [[_ Hno]|(e & c & body & Hb)]; [by destruct Hno|].
  rewrite (CreateEntry_valid _ _ _ (NewServer (Some st) false reg id) _ _ _ _ _ _ eq_refl eq_refl Hb) in Hc.
  destruct (Add st (NewEntry body) (rpc_log r)) as [[t|err|] w] eqn:Ha.
  - injection Hc as <- <-. by exists e, c, body, t, w.
  - pose proof (handle_add_error_result err (Build_rpc w (rpc_header r) (rpc_metrics r))) as Hres.
    rewrite Hc in Hres. discriminate.
  - discriminate.
Qed.

Section promises.
Context `{Merkle} `{LogFormat}.

(** C10: what a successful CreateEntry returns, for any storage that keeps its promise: the
    request was valid; the body of the answer is the canonical JSON of its entry; the answer is
    self-contained (its proof and checkpoint show the body in the log); it carries the entry's
    kind and version and the server's log ID; status 201 is set, and one counter is
    incremented. *)
Theorem CreateEntry_success o1 o2 o3 st `{!StorageSpec st NewEntry} reg id req r tle r'
    (Hc : CreateEntry o1 o2 o3 (NewServer (Some st) false reg id) req r = (Ok tle, r')) :
  ∃ e c body ip cp, canonical_body o1 o2 o3 (NewServer (Some st) false reg id) req e c body ∧
    self_contained body tle ip cp ∧
    tle_LogId tle = Some id ∧
    tle_KindVersion tle = Some {| kv_Kind := Kind e; kv_Version := "0.0.2" |} ∧
    rpc_header r' = rpc_header r ++ [(httpStatusCodeHeader, "201")] ∧
    rpc_metrics r' = Inc c (rpc_metrics r) ∧
    (Kind e = "hashedrekord" ∧ c = NewHashedRekordEntries ∨ Kind e = "dsse" ∧ c = NewDsseEntries).
Proof.
  apply CreateEntry_Ok_inv in Hc as (e & c & body & t & w & Hb & Ha & -> & ->).
  destruct (Add_self_contained body (rpc_log r) t w Ha) as (ip & cp & [?????????]).
  pose proof Hb as [[Hk <-]%request_entry_kind _].
  exists e, c, body, ip, cp. split; [done|]. split; [by split|]. auto.
Qed.

(** *** The service on top of the Tessera storage *)

(** The server of [cmd/rekor-server]: writable, on a [storage]. *)
Definition tessera_server (s : storage) (reg : AlgorithmRegistryConfig) (id : bytes) : Server :=
  NewServer (Some (storage_impl s)) false (Some reg) id.

Lemma tessera_server_valid o1 o2 o3 s reg id req e c body r x w :
  canonical_body o1 o2 o3 (tessera_server s reg id) req e c body →
  storage_Add s (NewEntry body) (rpc_log r) = (Err x, w) →
  CreateEntry o1 o2 o3 (tessera_server s reg id) req r = handle_add_error x (Build_rpc w (rpc_header r) (rpc_metrics r)).
Proof.
  intros Hb Ha.
  rewrite (CreateEntry_valid o1 o2 o3 (tessera_server s reg id) (storage_impl s) req e c body r eq_refl eq_refl Hb).
  cbn. by rewrite Ha.
Qed.

(** C19: how the answers of the sequencer reach the caller.  Backpressure from Tessera, however
    deep in the error chain, becomes Unavailable; a duplicate becomes AlreadyExists with the
    index of the first entry in the x-log-index header; a proof that fails verification becomes
    Unknown and increments the alarm counter.  In each case the log is left as the sequencer left
    it and no other counter changes. *)
Theorem CreateEntry_sequencer_errors `{!TesseraLaws} o1 o2 o3 s reg id req e c body r f w1
    (Hb : canonical_body o1 o2 o3 (tessera_server s reg id) req e c body)
    (Hadd : addFn s (NewEntry body) (rpc_log r) = (f, w1)) :
  (∀ err w2, Await (awaiter s) f w1 = (inl err, w2) → errors_Is err ErrPushback = true →
    CreateEntry o1 o2 o3 (tessera_server s reg id) req r =
    (Err (StatusError Unavailable "reached max pushback; retry"), Build_rpc w2 (rpc_header r) (rpc_metrics r))) ∧
  (∀ ix raw w2, Await (awaiter s) f w1 = (inr (ix, raw), w2) → Index_Index ix ≤ MaxInt64 → IsDup ix = true →
    CreateEntry o1 o2 o3 (tessera_server s reg id) req r =
    (Err (StatusError AlreadyExists (DuplicateError_Error (Index_Index ix))),
     Build_rpc w2 (rpc_header r ++ [(duplicateEntryHeader, FormatUint (Index_Index ix))]) (rpc_metrics r))) ∧
  (∀ ix raw w2 text w3, Await (awaiter s) f w1 = (inr (ix, raw), w2) → Index_Index ix ≤ MaxInt64 → IsDup ix = false →
    buildProof s {| u := Index_Index ix; i := Index_Index ix |} raw (LeafHash (NewEntry body)) w2
      = (Err (InclusionProofVerificationError (Index_Index ix) (ErrorString text)), w3) →
    CreateEntry o1 o2 o3 (tessera_server s reg id) req r =
    (Err (StatusError Unknown "failed to integrate entry"),
     Build_rpc w3 (rpc_header r) (Inc InclusionProofFailureCount (rpc_metrics r)))).
Proof.
  pose proof (storage_Add_eq s (NewEntry body) (rpc_log r) f w1 Hadd) as Heq. split_and!.
  - intros err w2 Haw Hpb. rewrite Haw in Heq.
    rewrite (tessera_server_valid _ _ _ _ _ _ _ _ _ _ _ _ _ Hb Heq).
    unfold handle_add_error. rewrite !errors_Is_Wrapf. by rewrite Hpb.
  - intros ix raw w2 Haw Hle Hd. rewrite Haw in Heq. destruct Heq as (_ & Heq & _).
    by rewrite (tessera_server_valid _ _ _ _ _ _ _ _ _ _ _ _ _ Hb (Heq Hle Hd)).
  - intros ix raw w2 text w3 Haw Hle Hd Hp. rewrite Haw in Heq. destruct Heq as (_ & _ & Heq).
    by rewrite (tessera_server_valid _ _ _ _ _ _ _ _ _ _ _ _ _ Hb (Heq Hle Hd _ _ Hp)).
Qed.

(** Whatever a writable server on the Tessera storage returns as a success, pkg/verify accepts,
    for every verifier under which the checkpoints of its awaiter parse. *)
Lemma CreateEntry_verifiable `{!TesseraLaws} `{!LogFormatLaws} o1 o2 o3 s reg id req r tle r' v
    (Hsigned : ∀ f w ix raw w', Await (awaiter s) f w = (inr (ix, raw), w') →
       ∃ cp rest n, ParseCheckpoint raw (nv_name v) v [] = inr (cp, rest, n))
    (Hc : CreateEntry o1 o2 o3 (NewServer (Some (storage_impl s)) false reg id) req r = (Ok tle, r')) :
  VerifyLogEntry tle v = Ok tt.
Proof.
  apply CreateEntry_Ok_inv in Hc as (e & c & body & t & w & _ & Ha & -> & _).
  destruct (Add_self_contained body (rpc_log r) t w Ha) as (ip & cp & Hsc).
  destruct (storage_Add_awaited _ _ _ _ _ Ha) as (ip' & f & w1 & ix & raw & w2 & Hip & Hraw & Haw).
  assert (ip' = ip) as -> by (destruct Hsc; congruence).
  destruct (Hsigned _ _ _ _ _ Haw) as (cp' & rest & n & Hp).
  eapply (self_contained_verifies body _ ip cp); [by destruct Hsc|]. by rewrite Hraw.
Qed.
End promises.

(** A request as the wire delivers it: the message of the oneof is not nil. *)
Definition request_wf (req : option CreateEntryRequest) : Prop :=
  match GetSpec req with
  | Some (CreateEntryRequest_HashedRekordRequestV002 hr) => is_Some hr
  | Some (CreateEntryRequest_DsseRequestV002 ds) => is_Some ds
  | None => True
  end.

Lemma serialize_safe `{!DsseLaws} o1 o2 o3 s reg req :
  request_wf req → algorithmRegistry s = Some reg → no_panic (serialize o1 o2 o3 s req).
Proof.
  unfold request_wf, serialize. intros Hwf Hreg. destruct (GetSpec req) as [[hr|ds]|]; [| |done];
    destruct Hwf as [m ->]; rewrite Hreg.
  - apply no_panic_bind; [apply no_panic_or_status, hashedrekord_ToLogEntry_safe|]. intros e _.
    apply no_panic_bind; [apply no_panic_or_status; auto with go|]. by intros.
  - apply no_panic_bind; [apply no_panic_or_status, dsse_ToLogEntry_safe|]. intros e _.
    apply no_panic_bind; [apply no_panic_or_status; auto with go|]. by intros.
Qed.

(** C32: a server built by NewServer answers every request the wire can deliver without a
    panic, read-only or not, whatever the message contains. *)
Theorem CreateEntry_no_panic `{!DsseLaws} `{Merkle} `{LogFormat} o1 o2 o3 st `{!StorageSpec st NewEntry} ro reg id req
    (Hwf : request_wf req) :
  io_safe (CreateEntry o1 o2 o3 (NewServer (Some st) ro (Some reg) id) req).
Proof.
  destruct ro; [by intros r|]. intros r. unfold CreateEntry. cbn [readOnly NewServer].
  unfold mbind, io_bind, io_bind_def, pure.
  pose proof (serialize_safe o1 o2 o3 (NewServer (Some st) false (Some reg) id) reg req Hwf eq_refl) as Hs.
  destruct (serialize _ _ _ _ req) as [[[json kv] c]|err|]; [|done..].
  destruct (Transform json) as [err|body]; [done|]. cbn. unfold try, zoom.
  pose proof (Add_safe (st := st) (NewEntry body) (rpc_log r)) as Ha.
  destruct (Add st (NewEntry body) (rpc_log r)) as [[tle|err|] w]; [done| |done].
  by rewrite handle_add_error_result.
Qed.
End service.
