(* ===== verification/History.v ===== *)
(** * The log only grows: acknowledged entries stay in it

    Tessera's part is that its log only grows and that an index it hands out
    belongs to the entry; the program's part is that an answer names that index
    and that entry.  Here for one call at a time; [Pool] has calls that
    interleave, [HttpHistory] sequences of writes over HTTP. *)
From S2P Require Import Prelude GoErrors GoStrings SafeInt Proto External IO Note TesseraLib VerifyEntry Storage AlgorithmRegistry HashedRekord Dsse Service.

(** ** What tessera documents of its log *)

(** The entries integrated so far; a future that was issued for an entry.  The
    log only grows, whoever acts on it, and the index that an awaited future
    gives is the position of its entry. *)
Class AppendOnly `{Tessera} := {
  log_entries : World → list bytes;
  issued : World → IndexFuture → bytes → Prop;
  issued_grows : ∀ w w' f d, issued w f d → log_entries w `prefix_of` log_entries w' → issued w' f d;
  Add_issues : ∀ driver opts w0 app sd rd w1 e w f w',
    NewAppender driver opts w0 = (inr (app, sd, rd), w1) → Appender_Add app e w = (f, w') →
    issued w' f (Data e) ∧ log_entries w `prefix_of` log_entries w';
  Await_grows : ∀ rd period f w x w',
    Await (NewPublicationAwaiter (ReadCheckpoint rd) period) f w = (x, w') → log_entries w `prefix_of` log_entries w';
  Await_position : ∀ rd period f d w ix raw w',
    issued w f d → Await (NewPublicationAwaiter (ReadCheckpoint rd) period) f w = (inr (ix, raw), w') →
    log_entries w' !! Z.to_nat (Index_Index ix) = Some d;
  ReadTile_grows : ∀ rd l i p w, log_entries w `prefix_of` log_entries (LogReader_ReadTile rd l i p w).2;
  NewProofBuilder_grows : ∀ n read,
    (∀ l i p w, log_entries w `prefix_of` log_entries (read l i p w).2) →
    ∀ w, log_entries w `prefix_of` log_entries (NewProofBuilder n read w).2;
  InclusionProof_grows : ∀ pb i w, log_entries w `prefix_of` log_entries (ProofBuilder_InclusionProof pb i w).2
}.

Section history.
Context `{X509} `{SigstoreSignature} `{!DsseLib} `{Merkle} `{LogFormat} `{Tessera} `{JsonLib}.
Context `{!AppendOnly} `{!TesseraLaws} `{!LogFormatLaws}.

(** ** Computations that only let the log grow *)

Definition grows {A} (m : io World A) : Prop := ∀ w, log_entries w `prefix_of` log_entries (m w).2.

Lemma grows_bind {A B} (m : io World A) (f : A → io World B) : grows m → (∀ a, grows (f a)) → grows (m ≫= f).
Proof.
  intros Hm Hf w. specialize (Hm w). unfold mbind, io_bind, io_bind_def.
  destruct (m w) as [[a|e|] w1]; [|done..]. etrans; [exact Hm|apply Hf].
Qed.

Lemma grows_wrap {A} p (m : io World A) : grows m → grows (io_wrap p m).
Proof. intros Hm w. specialize (Hm w). unfold io_wrap. by destruct (m w). Qed.

Lemma grows_call {A} (f : World → (error + A) * World) :
  (∀ w, log_entries w `prefix_of` log_entries (f w).2) → grows (call f).
Proof. intros Hf w. specialize (Hf w). unfold call. by destruct (f w). Qed.

Lemma grows_pure {A} (r : result A) : grows (pure r).
Proof. by intros w. Qed.

Lemma grows_fail {A} e : grows (fail e : io World A).
Proof. by intros w. Qed.

Lemma grows_mret {A} (a : A) : grows (mret a : io World A).
Proof. by intros w. Qed.

#[local] Hint Resolve grows_wrap grows_call grows_pure grows_fail grows_mret InclusionProof_grows : go.

(** A storage on an appender of tessera. *)
Definition on_tessera (s : storage) : Prop :=
  ∃ driver opts w0 app sd rd w1 period, NewAppender driver opts w0 = (inr (app, sd, rd), w1) ∧
    addFn s = Appender_Add app ∧ readTileFn s = LogReader_ReadTile rd ∧
    awaiter s = NewPublicationAwaiter (ReadCheckpoint rd) period.

Lemma NewStorage_on_tessera origin driver opts w s sd w' :
  NewStorage origin driver opts w = (Ok (s, sd), w') → on_tessera s.
Proof.
  intros (app & rd & Happ & Hadd & Hread & Haw)%NewStorage_Ok. by exists driver, opts, w, app, sd, rd, w', awaiterPollPeriod.
Qed.

(** The position of an entry that was added, and the log afterwards. *)
Lemma addEntry_position s e :
  on_tessera s → grows (addEntry s e) ∧
  ∀ w idx dup raw w', addEntry s e w = (Ok (idx, dup, raw), w') → log_entries w' !! Z.to_nat (U idx) = Some (Data e).
Proof.
  intros (driver & opts & w0 & app & sd & rd & w1 & period & Hnew & Hadd & Hread & Haw). split.
  - unfold addEntry. apply grows_bind; [|intros [idx raw]; apply grows_bind; auto with go].
    apply grows_wrap, grows_call. intros w. rewrite Hadd, Haw. destruct (Appender_Add app e w) as [f w2] eqn:Hf.
    destruct (Add_issues _ _ _ _ _ _ _ _ _ _ _ Hnew Hf) as [_ Hg].
    destruct (Await _ f w2) as [x w3] eqn:Ha. etrans; [exact Hg|by eapply Await_grows].
  - intros w idx dup raw w' Hrun. destruct (addEntry_Ok _ _ _ _ _ _ _ Hrun) as (_ & _ & f & w2 & ix & Hf & Ha & Hix & _).
    rewrite Hadd in Hf. rewrite Haw in Ha. destruct (Add_issues _ _ _ _ _ _ _ _ _ _ _ Hnew Hf) as [Hi _].
    rewrite <-Hix. by eapply Await_position.
Qed.

Lemma buildProof_grows s idx raw leaf : on_tessera s → grows (buildProof s idx raw leaf).
Proof.
  intros (driver & opts & w0 & app & sd & rd & w1 & period & _ & _ & Hread & _). unfold buildProof.
  apply grows_bind; [by auto with go|]. intros cp. apply grows_bind.
  { apply grows_wrap, grows_call, NewProofBuilder_grows. intros l i p. unfold storage_ReadTile. apply grows_wrap, grows_call.
    intros w. rewrite Hread. apply ReadTile_grows. }
  intros pb. apply grows_bind; [by auto with go|]. intros hashes. apply grows_bind; [by auto with go|].
  intros sz. apply grows_bind; auto with go.
Qed.

(** [Add] lets the log grow; an entry it returns is at its index, and one it reports as a
    duplicate at the index it reports. *)
Lemma storage_Add_position s d :
  on_tessera s → grows (storage_Add s (NewEntry d)) ∧
  ∀ w x w', storage_Add s (NewEntry d) w = (x, w') →
    match x with
    | Ok tle => tle_CanonicalizedBody tle = d ∧ log_entries w' !! Z.to_nat (tle_LogIndex tle) = Some d
    | Err (DuplicateError i) => log_entries w' !! Z.to_nat i = Some d
    | _ => True
    end.
Proof.
  intros Hs. destruct (addEntry_position s (NewEntry d) Hs) as [Hg Hpos]. split.
  - unfold storage_Add. apply grows_bind; [by auto with go|]. intros [[idx dup] raw]. destruct dup; [by auto with go|].
    apply grows_bind; [apply grows_wrap, buildProof_grows, Hs|auto with go].
  - intros w x w' Ha. unfold storage_Add in Ha. apply io_bind_inv in Ha as [([[idx dup] raw] & w1 & Hadd%io_wrap_Ok & Ha)|Hrest].
    + pose proof (Hpos _ _ _ _ _ Hadd) as Hp. rewrite Data_NewEntry in Hp.
      destruct (addEntry_Ok _ _ _ _ _ _ _ Hadd) as (_ & Hi & _). destruct dup; [by injection Ha as <- <-|].
      pose proof (buildProof_grows s idx raw (LeafHash (NewEntry d)) Hs w1) as Hb.
      apply io_bind_inv in Ha as [(ip & w2 & Hip%io_wrap_Ok & Ha)|Herr].
      * rewrite Hip in Hb. injection Ha as <- <-. cbn. rewrite Data_NewEntry, Hi. split; [done|]. by eapply prefix_lookup_Some.
      * destruct Herr as [(e & He & ->)|[He ->]]; [|done]. unfold io_wrap in He.
        destruct (buildProof s idx raw (LeafHash (NewEntry d)) w1) as [[] ?]; cbn in He; simplify_eq; done.
    + destruct Hrest as [(e & He & ->)|[_ ->]]; [|done]. unfold io_wrap in He.
      destruct (addEntry s (NewEntry d) w) as [[] ?]; cbn in He; simplify_eq; done.
Qed.

(** ** Calls and their answers *)

(** A call and its result. *)
Definition event : Type := (option CreateEntryRequest * result TransparencyLogEntry)%type.

(** An answer that is true of a log: the body is that of the request's entry, and it is at the index. *)
Definition recorded (s : Server) (log : list bytes) (ev : event) : Prop :=
  match ev with
  | (req, Ok tle) =>
      0 ≤ tle_LogIndex tle ∧ log !! Z.to_nat (tle_LogIndex tle) = Some (tle_CanonicalizedBody tle) ∧
      ∃ o1 o2 o3 e c, canonical_body o1 o2 o3 s req e c (tle_CanonicalizedBody tle)
  | _ => True
  end.

Lemma recorded_grows s log log' ev : recorded s log ev → log `prefix_of` log' → recorded s log' ev.
Proof.
  destruct ev as [req [tle|e|]]; [|done..]. intros (Hnn & Hlk & Hcb) Hp. split_and!; [done| |done]. by eapply prefix_lookup_Some.
Qed.

(** One call. *)
Lemma call_recorded o1 o2 o3 st reg id req w m x r :
  on_tessera st →
  recovered (CreateEntry o1 o2 o3 (tessera_server st reg id) req) (Build_rpc w [] m) = (x, r) →
  log_entries w `prefix_of` log_entries (rpc_log r) ∧ recorded (tessera_server st reg id) (log_entries (rpc_log r)) (req, x).
Proof.
  intros Hst Hrun. unfold tessera_server in *. unfold recovered in Hrun.
  destruct (CreateEntry o1 o2 o3 _ req (Build_rpc w [] m)) as [y r1] eqn:Hc.
  assert (log_entries w `prefix_of` log_entries (rpc_log r1)) as Hgrow.
  { destruct (CreateEntry_log _ _ _ _ _ _ _ _ _ _ Hc) as [[-> _]|(e & c & body & _ & ->)]; [done|].
    apply (storage_Add_position st body Hst). }
  destruct y as [tle|e|].
  - injection Hrun as <- <-. split; [done|].
    apply CreateEntry_Ok_inv in Hc as (e & c & body & t & w' & Hb & Ha & -> & ->). cbn in Ha |- *.
    destruct (storage_Add_position st body Hst) as [_ Hpos]. destruct (Hpos _ _ _ Ha) as [<- Hlook].
    destruct (storage_Add_self_contained _ _ _ _ _ Ha) as (ip & cp & Hsc). apply sc_index in Hsc.
    split_and!; [lia|done|]. by exists o1, o2, o3, e, c.
  - by injection Hrun as <- <-.
  - rewrite grpcPanicRecoveryHandler_eq in Hrun. by injection Hrun as <- <-.
Qed.

End history.
