(* ===== verification/Concurrent.v ===== *)
(** * Concurrent calls of the service

    The gRPC server runs every call in a goroutine of its own.  The handler and
    the storage are taken apart into their calls of Tessera and their updates
    of the metrics; between two of these any other call, or another writer of
    the log, may act.  Each of these is one access, which is assumed to return:
    waiting for the publication of a checkpoint blocks in Tessera, and what it
    returns is what it finds when it is done. *)
From S2P Require Import Prelude GoErrors GoStrings SafeInt Proto External IO Threads Note TesseraLib VerifyEntry Storage AlgorithmRegistry HashedRekord Dsse Service History.

Section steps.
Context `{X509} `{SigstoreSignature} `{!DsseLib} `{Merkle} `{LogFormat} `{Tessera} `{JsonLib}.

(** ** The storage, in steps *)

Definition addEntry_steps (s : storage) (entry : tessera_Entry) : prog World (SafeInt64 * bool * bytes) :=
  f ← Access _ (addFn s entry) (λ f, Return (Ok f));
  '(idx, checkpointBody) ← step_wrap "await: " (step_call (Await (awaiter s) f));
  safeIdx ← step_wrap "invalid index: " (Return (NewSafeInt64 (num_uint64 (Index_Index idx))));
  mret (safeIdx, IsDup idx, checkpointBody).

Definition buildProof_steps (s : storage) (idx : SafeInt64) (signedCheckpoint leafHash : bytes) : prog World InclusionProof :=
  checkpoint ← step_wrap "unmarshalling checkpoint: " (Return (unmarshalCheckpoint signedCheckpoint));
  proofBuilder ← step_wrap "new proof builder: " (step_call (NewProofBuilder (cp_Size checkpoint) (storage_ReadTile s)));
  inclusionProof ← step_wrap "generating inclusion proof: " (step_call (ProofBuilder_InclusionProof proofBuilder (U idx)));
  safeCheckpointSize ←
    Return (match NewSafeInt64 (num_uint64 (cp_Size checkpoint)) with
            | Err _ => Err (ErrorString ("invalid tree size: " +:+ FormatUint (cp_Size checkpoint)))
            | r => r
            end);
  _ ← Return (match VerifyInclusion (U idx) (U safeCheckpointSize) leafHash inclusionProof (cp_Hash checkpoint) with
              | inl err => Err (InclusionProofVerificationError (U idx) err)
              | inr _ => Ok tt
              end);
  mret {| ip_LogIndex := I idx;
          ip_RootHash := cp_Hash checkpoint;
          ip_TreeSize := I safeCheckpointSize;
          ip_Hashes := inclusionProof;
          ip_Checkpoint := Some {| Envelope := signedCheckpoint |} |}.

Definition storage_Add_steps (s : storage) (entry : tessera_Entry) : prog World TransparencyLogEntry :=
  '(idx, dup, checkpointBody) ← step_wrap "add entry: " (addEntry_steps s entry);
  if (dup : bool) then Return (Err (DuplicateError (U idx)))
  else
    inclusionProof ← step_wrap "building inclusion proof: " (buildProof_steps s idx checkpointBody (LeafHash entry));
    mret {| tle_LogIndex := I idx;
            tle_LogId := None;
            tle_KindVersion := None;
            tle_InclusionProof := Some inclusionProof;
            tle_CanonicalizedBody := Data entry |}.

(** ** The handler, in steps *)

Definition handle_add_error_steps (err : error) : prog (rpc World) TransparencyLogEntry :=
  if errors_Is err ErrPushback then Return (Err (StatusError Unavailable "reached max pushback; retry"))
  else if errors_Is err ContextCanceled then Return (Err (StatusError Canceled (Error err)))
  else match errors_As as_DuplicateError err with
       | Some index =>
           _ ← step_io (SetHeader duplicateEntryHeader (FormatUint index));
           Return (Err (StatusError AlreadyExists (Error err)))
       | None =>
           _ ← match errors_As as_InclusionProofVerificationError err with
               | Some _ => step_io (inc InclusionProofFailureCount)
               | None => mret tt
               end;
           Return (Err (StatusError Unknown "failed to integrate entry"))
       end.

(** The log as a part of what a call sees. *)
Definition set_log (w : World) (r : rpc World) : rpc World := Build_rpc w (rpc_header r) (rpc_metrics r).

Definition CreateEntry_steps (o1 o2 o3 : map_order) (s : Server) (add : tessera_Entry → prog World TransparencyLogEntry)
    (req : option CreateEntryRequest) : prog (rpc World) TransparencyLogEntry :=
  if readOnly s then
    _ ← step_io (SetHeader httpStatusCodeHeader "405");
    _ ← step_io (SetHeader httpErrorMessageHeader "This log has been frozen, please switch to the latest log.");
    Return (Err (StatusError Unimplemented "log frozen"))
  else
    '(serialized, kv, metricsCounter) ← Return (serialize o1 o2 o3 s req);
    canonicalized ← Return (or_status InvalidArgument "invalid entry" (lift (Transform serialized)));
    let entry := NewEntry canonicalized in
    _ ← Return (deref (srv_storage s));
    added ← step_try (step_zoom rpc_log set_log (add entry));
    match added with
    | inl err => handle_add_error_steps err
    | inr tle =>
        let tle := {| tle_LogIndex := tle_LogIndex tle;
                      tle_LogId := Some (logID s);
                      tle_KindVersion := Some kv;
                      tle_InclusionProof := tle_InclusionProof tle;
                      tle_CanonicalizedBody := tle_CanonicalizedBody tle |} in
        _ ← step_io (SetHeader httpStatusCodeHeader "201");
        _ ← step_io (inc metricsCounter);
        mret tle
    end.

(** The recovery interceptor around a handler. *)
Fixpoint recovered_steps {W A} (p : prog (rpc W) A) : prog (rpc W) A :=
  match p with
  | Return Panic => err ← step_io grpcPanicRecoveryHandler; Return (Err err)
  | Return r => Return r
  | Access B f k => Access B f (λ b, recovered_steps (k b))
  end.

(** ** Alone, the steps are the handler *)

Lemma run_addEntry s entry w : run (addEntry_steps s entry) w = addEntry s entry w.
Proof.
  unfold addEntry_steps, addEntry. cbn [run mbind prog_bind prog_bind_def]. 
  unfold io_wrap, call, mbind, io_bind, io_bind_def. cbn. destruct (addFn s entry w) as [f w1].
  destruct (Await (awaiter s) f w1) as [[e|[ix raw]] w2]; cbn; [done|]. by destruct (NewSafeInt64 _).
Qed.

Lemma run_buildProof s idx raw leaf w : run (buildProof_steps s idx raw leaf) w = buildProof s idx raw leaf w.
Proof.
  unfold buildProof_steps, buildProof.
  rewrite run_bind. apply io_bind_ext; [by rewrite run_wrap; apply io_wrap_ext|]. intros cp w1.
  rewrite run_bind. apply io_bind_ext; [by rewrite run_wrap; apply io_wrap_ext|]. intros pb w2.
  rewrite run_bind. apply io_bind_ext; [by rewrite run_wrap; apply io_wrap_ext|]. intros hashes w3.
  rewrite run_bind. apply io_bind_ext; [done|]. intros sz w4.
  rewrite run_bind. by apply io_bind_ext.
Qed.

Lemma run_storage_Add s entry w : run (storage_Add_steps s entry) w = storage_Add s entry w.
Proof.
  unfold storage_Add_steps, storage_Add.
  rewrite run_bind. apply io_bind_ext; [rewrite run_wrap; apply io_wrap_ext, run_addEntry|]. intros [[idx dup] raw] w1.
  destruct dup; [done|].
  rewrite run_bind. apply io_bind_ext; [|done]. rewrite run_wrap. apply io_wrap_ext, run_buildProof.
Qed.

Lemma run_handle_add_error err r : run (handle_add_error_steps err) r = handle_add_error err r.
Proof.
  unfold handle_add_error_steps, handle_add_error.
  destruct (errors_Is err ErrPushback); [done|]. destruct (errors_Is err ContextCanceled); [done|].
  destruct (errors_As as_DuplicateError err) as [i|]; [done|].
  by destruct (errors_As as_InclusionProofVerificationError err).
Qed.

Lemma run_CreateEntry o1 o2 o3 s st add req r :
  (readOnly s = false → srv_storage s = Some st) → (∀ e w, run (add e) w = Add st e w) →
  run (CreateEntry_steps o1 o2 o3 s add req) r = CreateEntry o1 o2 o3 s req r.
Proof.
  intros Hst Hadd. unfold CreateEntry_steps, CreateEntry. destruct (readOnly s); [done|]. rewrite (Hst eq_refl).
  rewrite run_bind. apply io_bind_ext; [done|]. intros [[json kv] c] r1.
  rewrite run_bind. apply io_bind_ext; [done|]. intros body r2.
  cbn [deref]. rewrite (pure_bind_Ok st). cbn [mbind prog_bind prog_bind_def].
  rewrite (run_bind _ (step_try _)). apply io_bind_ext.
  - rewrite run_try. apply try_ext. rewrite run_zoom by (done || by intros []). unfold zoom. by rewrite Hadd.
  - intros [err|tle] r3; [apply run_handle_add_error|done].
Qed.

Lemma run_recovered {W A} (p : prog (rpc W) A) r : run (recovered_steps p) r = recovered (run p) r.
Proof.
  revert r. unfold recovered. induction p as [x|B f k IH]; intros r; cbn; [by destruct x|].
  destruct (f r) as [b r']. apply IH.
Qed.
End steps.

(** ** What library errors are not

    The errors of the libraries are of their own types: none of them holds the
    program's [DuplicateError], unless a function of the program handed it to
    them. *)

Definition foreign (e : error) : Prop := errors_As as_DuplicateError e = None.

Class ForeignErrors `{Tessera} `{LogFormat} `{Merkle} : Prop := {
  Await_foreign : ∀ a f w e w', Await a f w = (inl e, w') → foreign e;
  ReadTile_foreign : ∀ rd l i p w e w', LogReader_ReadTile rd l i p w = (inl e, w') → foreign e;
  NewProofBuilder_foreign : ∀ n read,
    (∀ l i p w e w', read l i p w = (Err e, w') → foreign e) →
    ∀ w e w', NewProofBuilder n read w = (inl e, w') → foreign e;
  InclusionProof_foreign : ∀ pb i w e w', ProofBuilder_InclusionProof pb i w = (inl e, w') → foreign e;
  Unmarshal_foreign : ∀ raw e, Unmarshal raw = inl e → foreign e;
  VerifyInclusion_foreign : ∀ i n leaf p root e, VerifyInclusion i n leaf p root = inl e → foreign e
}.

Lemma foreign_Wrapf t e : foreign e → foreign (Wrapf t e).
Proof. done. Qed.

Section interference.
Context `{X509} `{SigstoreSignature} `{!DsseLib} `{Merkle} `{LogFormat} `{Tessera} `{JsonLib}.
Context `{!AppendOnly} `{!TesseraLaws} `{!LogFormatLaws} `{!ForeignErrors}.

(** ** The storage while others write *)

Definition grew (w w' : World) : Prop := log_entries w `prefix_of` log_entries w'.

#[export] Instance grew_preorder : PreOrder grew.
Proof. unfold grew. split; [by intros w|by intros w1 w2 w3; apply transitivity]. Qed.

Abbreviation rg_log := (rg grew grew).

(** The entry [d] is at an index. *)
Definition at_index (i : Z) (d : bytes) (w : World) : Prop := log_entries w !! Z.to_nat i = Some d.

Lemma at_index_grew i d w w' : at_index i d w → grew w w' → at_index i d w'.
Proof. unfold at_index, grew. apply prefix_lookup_Some. Qed.

(** An error with its text and what is in it. *)
Definition only_foreign {A} (Q : A → World → Prop) (r : result A) (w : World) : Prop :=
  match r with Ok a => Q a w | Err e => foreign e | Panic => False end.

Lemma rg_wrap_foreign {A} t (p : prog World A) Q w :
  rg_log p (only_foreign Q) w → rg_log (step_wrap t p) (only_foreign Q) w.
Proof. intros Hp. apply rg_on_result. eapply rg_mono; [exact Hp|]. by intros [a|e|] w'. Qed.

Lemma rg_return_foreign {A} (r : result A) (Q : A → World → Prop) w :
  (∀ a w', r = Ok a → grew w w' → Q a w') → (∀ e, r = Err e → foreign e) → r ≠ Panic → rg_log (Return r) (only_foreign Q) w.
Proof. intros Hok Herr Hp w' Hg. destruct r as [a|e|]; cbn; [by apply Hok|by apply Herr|done]. Qed.

(** A library call whose errors are foreign. *)
Lemma rg_call_foreign {A} (f : World → (error + A) * World) (Q : A → World → Prop) w :
  (∀ w', grew w w' → grew w' (f w').2 ∧ match (f w').1 with inr a => ∀ w'', grew (f w').2 w'' → Q a w'' | inl e => foreign e end) →
  rg_log (step_call f) (only_foreign Q) w.
Proof.
  intros Hf w' Hg. destruct (Hf w' Hg) as [Hgf Hq]. split; [done|]. destruct (f w').1 as [e|a]; cbn; auto.
Qed.

Lemma rg_bind_foreign {A B} (f : A → prog World B) (p : prog World A) (P : A → World → Prop) Q w :
  rg_log p (only_foreign P) w → (∀ a w', P a w' → rg_log (f a) (only_foreign Q) w') → rg_log (p ≫= f) (only_foreign Q) w.
Proof. intros Hp Hf. apply rg_bind; [apply _|]. eapply rg_mono; [exact Hp|]. intros [a|e|] w'; cbn; auto. Qed.

Lemma NewSafeInt64_foreign x e : NewSafeInt64 x = Err e → foreign e.
Proof. unfold NewSafeInt64. destruct x; repeat case_match; by intros [= <-]. Qed.

(** The index of an added entry is its position, whoever writes meanwhile. *)
Lemma addEntry_rg s e w :
  on_tessera s →
  rg_log (addEntry_steps s e) (only_foreign (λ x w, let '(idx, dup, raw) := x in
    SafeInt64_wf idx ∧ at_index (U idx) (Data e) w)) w.
Proof.
  intros (driver & opts & w0 & app & sd & rd & w1 & period & Hnew & Hadd & _ & Haw). unfold addEntry_steps.
  eapply (rg_bind_foreign _ _ (λ f w, issued w f (Data e))).
  { intros w2 Hg. rewrite Hadd. destruct (Appender_Add app e w2) as [f w3] eqn:Hf.
    destruct (Add_issues _ _ _ _ _ _ _ _ _ _ _ Hnew Hf) as [Hi Hgrow]. split; [exact Hgrow|]. intros w4 Hg4. cbn.
    by eapply issued_grows. }
  intros f w2 Hi. eapply (rg_bind_foreign _ _ (λ x w, is_uint64 (Index_Index x.1) ∧ at_index (Index_Index x.1) (Data e) w)).
  { apply rg_wrap_foreign, rg_call_foreign. intros w3 Hg. rewrite Haw.
    destruct (Await _ f w3) as [[err|[ix raw]] w4] eqn:Ha; cbn.
    - split; [by eapply Await_grows|by eapply Await_foreign].
    - split; [by eapply Await_grows|]. intros w5 Hg5. split; [by eapply Await_uint64|].
      eapply at_index_grew; [|exact Hg5]. eapply Await_position; [|exact Ha]. by eapply issued_grows. }
  intros [ix raw] w3 [Hu Hat]. cbn in Hu, Hat. eapply (rg_bind_foreign _ _ (λ idx w, SafeInt64_wf idx ∧ at_index (U idx) (Data e) w)).
  { apply rg_wrap_foreign, rg_return_foreign; [|apply NewSafeInt64_foreign|].
    - intros idx w4 Hs Hg. apply (NewSafeInt64_inv (num_uint64 _)) in Hs as (n & [= <-] & Hr & ->); [|done].
      split; [by split|]. cbn. by eapply at_index_grew.
    - pose proof (NewSafeInt64_no_panic (num_uint64 (Index_Index ix))) as Hn. by destruct (NewSafeInt64 _). }
  intros idx w4 [Hwf Hat4]. apply rg_return_foreign; [|done..]. intros a w5 [= <-] Hg. split; [done|by eapply at_index_grew].
Qed.

(** What a proof holds that was built and verified. *)
Definition proof_of (idx : SafeInt64) (raw leafHash : bytes) (ip : InclusionProof) : Prop :=
  ∃ cp, (∃ rest, Unmarshal raw = inr (cp, rest)) ∧ 0 ≤ cp_Size cp ≤ MaxInt64 ∧
    VerifyInclusion (U idx) (cp_Size cp) leafHash (ip_Hashes ip) (cp_Hash cp) = inr tt ∧
    ip_LogIndex ip = I idx ∧ ip_RootHash ip = cp_Hash cp ∧ ip_TreeSize ip = cp_Size cp ∧
    ip_Checkpoint ip = Some {| Envelope := raw |}.

Lemma ReadTile_steps_foreign s l i p w e w' : on_tessera s → storage_ReadTile s l i p w = (Err e, w') → foreign e.
Proof.
  intros (driver & opts & w0 & app & sd & rd & w1 & period & _ & _ & Hread & _). unfold storage_ReadTile, io_wrap, call.
  rewrite Hread. destruct (LogReader_ReadTile rd l i p w) as [[err|t] w2] eqn:Hr; cbn; [|done].
  intros [= <- _]. apply foreign_Wrapf. by eapply ReadTile_foreign.
Qed.

Lemma ReadTile_steps_grows s l i p w : on_tessera s → grew w (storage_ReadTile s l i p w).2.
Proof.
  intros (driver & opts & w0 & app & sd & rd & w1 & period & _ & _ & Hread & _). unfold storage_ReadTile, io_wrap, call.
  rewrite Hread. pose proof (ReadTile_grows rd l i p w) as Hg. by destruct (LogReader_ReadTile rd l i p w).
Qed.

Lemma buildProof_rg s idx raw leaf w :
  on_tessera s → rg_log (buildProof_steps s idx raw leaf) (only_foreign (λ ip _, proof_of idx raw leaf ip)) w.
Proof.
  intros Hs. unfold buildProof_steps.
  eapply (rg_bind_foreign _ _ (λ cp _, ∃ rest, Unmarshal raw = inr (cp, rest))).
  { apply rg_wrap_foreign, rg_return_foreign.
    - intros cp w' Hu _. by apply unmarshalCheckpoint_Ok.
    - unfold unmarshalCheckpoint. intros e. destruct (Unmarshal raw) as [err|[cp rest]] eqn:Hu; cbn; [|done].
      intros [= <-]. by eapply Unmarshal_foreign.
    - pose proof (unmarshalCheckpoint_no_panic raw) as Hn. by destruct (unmarshalCheckpoint raw). }
  intros cp w1 Hu. eapply (rg_bind_foreign _ _ (λ _ _, True)).
  { apply rg_wrap_foreign, rg_call_foreign. intros w2 _.
    split; [apply NewProofBuilder_grows; intros; by apply ReadTile_steps_grows|].
    destruct (NewProofBuilder _ _ w2) as [[e|pb] w3] eqn:Hpb; cbn; [|done].
    eapply NewProofBuilder_foreign; [|exact Hpb]. intros l i p w4 e' w5. by apply ReadTile_steps_foreign. }
  intros pb w2 _. eapply (rg_bind_foreign _ _ (λ _ _, True)).
  { apply rg_wrap_foreign, rg_call_foreign. intros w3 _. split; [apply InclusionProof_grows|].
    destruct (ProofBuilder_InclusionProof pb (U idx) w3) as [[e|h] w4] eqn:Hh; cbn; [|done]. by eapply InclusionProof_foreign. }
  intros hashes w3 _. eapply (rg_bind_foreign _ _ (λ sz _, U sz = cp_Size cp ∧ SafeInt64_wf sz)).
  { destruct Hu as [rest Hu%Unmarshal_uint64].
    destruct (NewSafeInt64 (num_uint64 (cp_Size cp))) as [sz|e|] eqn:Hsz; apply rg_return_foreign; try done.
    - intros sz' w4 [= <-] _. apply (NewSafeInt64_inv (num_uint64 _)) in Hsz as (n & [= <-] & Hr & ->); done.
    - by intros e' [= <-].
    - pose proof (NewSafeInt64_no_panic (num_uint64 (cp_Size cp))) as Hn. by rewrite Hsz in Hn. }
  intros sz w4 (Hsz & Hi & Hr). 
  eapply (rg_bind_foreign _ _ (λ _ _, VerifyInclusion (U idx) (cp_Size cp) leaf hashes (cp_Hash cp) = inr tt)).
  { rewrite <-Hsz. destruct (VerifyInclusion _ _ _ _ _) as [e|[]] eqn:Hv; apply rg_return_foreign; try done.
    intros e' [= <-]. unfold foreign, errors_As. cbn. by apply VerifyInclusion_foreign in Hv. }
  intros [] w5 Hv. apply rg_return_foreign; [|done..]. intros ip w6 [= <-] _. exists cp. cbn. rewrite <-Hi, Hsz.
  split_and!; try done; lia.
Qed.

(** What [Add] has done when it returns: the entry is in the log at the index of the answer, which
    carries its own proof, or at the index of the duplicate. *)
Definition added (d : bytes) (r : result TransparencyLogEntry) (w : World) : Prop :=
  match r with
  | Ok tle => (∃ ip cp, self_contained d tle ip cp) ∧ at_index (tle_LogIndex tle) d w
  | Err e => match errors_As as_DuplicateError e with Some i => 0 ≤ i ∧ at_index i d w | None => True end
  | Panic => False
  end.

Lemma only_foreign_added {A} (Q : A → World → Prop) d e w :
  only_foreign Q (Err e) w → added d (Err e) w.
Proof. cbn. unfold foreign. by intros ->. Qed.

Lemma storage_Add_rg s d w : on_tessera s → rg_log (storage_Add_steps s (NewEntry d)) (added d) w.
Proof.
  intros Hs. unfold storage_Add_steps. apply rg_bind; [apply _|].
  eapply rg_mono; [apply rg_wrap_foreign, addEntry_rg, Hs|]. rewrite Data_NewEntry.
  intros [[[idx dup] raw]|e|] w1; [|apply only_foreign_added|done]. intros [[Hui Hr] Hat]. destruct dup.
  { intros w2 Hg. cbn. split; [lia|by eapply at_index_grew]. }
  apply rg_bind; [apply _|]. eapply rg_mono.
  { apply (rg_frame _ _ (at_index (U idx) d)); [apply at_index_grew..|done|].
    apply rg_wrap_foreign, (buildProof_rg s idx raw (LeafHash (NewEntry d)) w1 Hs). }
  intros [ip|e|] w2 [Hp Hat2]; [|by eapply only_foreign_added|done].
  destruct Hp as (cp & Hu & Hsz & Hv & Hpi & Hpr & Hpt & Hpc). intros w3 Hg. split.
  - exists ip, cp. split; cbn; rewrite ?Data_NewEntry, ?Hpc; cbn; try (done || lia || congruence).
    unfold included. cbn. rewrite <-Hui, <-LeafHash_NewEntry. split; [lia|done].
  - cbn. rewrite <-Hui. by eapply at_index_grew.
Qed.

(** ** The handler while others write *)

(** Others let the log grow and change the metrics; the headers are the call's own. *)
Definition others (r r' : rpc World) : Prop := grew (rpc_log r) (rpc_log r') ∧ rpc_header r' = rpc_header r.
Definition own (r r' : rpc World) : Prop := grew (rpc_log r) (rpc_log r').

#[export] Instance others_preorder : PreOrder others.
Proof.
  split; [by intros r|]. intros r1 r2 r3 [Hg1 Hh1] [Hg2 Hh2]. split; [by etrans|congruence].
Qed.

(** An answer that is true of the log, with the headers it should have: a new entry is in the log
    at its index, with its proof; one that exists already is at the index in the header. *)
Definition answered (s : Server) (req : option CreateEntryRequest) (x : result TransparencyLogEntry) (r : rpc World) : Prop :=
  match x with
  | Ok tle => ∃ o1 o2 o3 e c body ip cp, canonical_body o1 o2 o3 s req e c body ∧
      self_contained body tle ip cp ∧ at_index (tle_LogIndex tle) body (rpc_log r) ∧
      tle_LogId tle = Some (logID s) ∧ tle_KindVersion tle = Some {| kv_Kind := Kind e; kv_Version := "0.0.2" |} ∧
      rpc_header r = [(httpStatusCodeHeader, "201")]
  | Err (StatusError AlreadyExists _) => ∃ o1 o2 o3 e c body i, canonical_body o1 o2 o3 s req e c body ∧
      0 ≤ i ∧ at_index i body (rpc_log r) ∧ rpc_header r = [(duplicateEntryHeader, FormatUint i)]
  | Err _ => rpc_header r = []
  | Panic => rpc_header r = []
  end.

Lemma answered_others s req x r r' : answered s req x r → others r r' → answered s req x r'.
Proof.
  intros Ha [Hg Hh]. destruct x as [tle|e|]; cbn in *; [|destruct e as [| | | | | |code d]; try congruence; destruct code; try congruence|congruence].
  - destruct Ha as (o1 & o2 & o3 & e & c & body & ip & cp & Hb & Hsc & Hat & Hid & Hkv & Hhd).
    exists o1, o2, o3, e, c, body, ip, cp. split_and!; try done; [by eapply at_index_grew|congruence].
  - destruct Ha as (o1 & o2 & o3 & e & c & body & i & Hb & Hi & Hat & Hhd).
    exists o1, o2, o3, e, c, body, i. split_and!; try done; [by eapply at_index_grew|congruence].
Qed.

Abbreviation rg_call := (rg others own).

(** An update of the headers or the metrics. *)
Lemma rg_modify (f : rpc World → rpc World) (Q : result unit → rpc World → Prop) r :
  (∀ r, rpc_log (f r) = rpc_log r) → (∀ r1 r2, others r r1 → others (f r1) r2 → Q (Ok tt) r2) →
  rg_call (step_io (modify f)) Q r.
Proof. intros Hlog HQ r1 Hr1. cbn. unfold own. rewrite Hlog. split; [done|]. intros r2 Hr2. by eapply HQ. Qed.

Lemma serialize_status o1 o2 o3 s req err :
  serialize o1 o2 o3 s req = Err err → ∃ msg, err = StatusError InvalidArgument msg.
Proof.
  unfold serialize, or_status. destruct (GetSpec req) as [[hr|ds]|]; [| |intros [= <-]; eauto].
  - destruct (HashedRekord.ToLogEntry hr _) as [e|e|]; go_step; [|intros [= <-]; eauto|done].
    destruct (protojson_Marshal e); cbn; [intros [= <-]; eauto|done].
  - destruct (Dsse.ToLogEntry o1 o2 o3 ds _) as [e|e|]; go_step; [|intros [= <-]; eauto|done].
    destruct (protojson_Marshal e); cbn; [intros [= <-]; eauto|done].
Qed.

Lemma handle_add_error_rg o1 o2 o3 s req e c body err r :
  canonical_body o1 o2 o3 s req e c body → added body (Err err) (rpc_log r) → rpc_header r = [] →
  rg_call (handle_add_error_steps err) (answered s req) r.
Proof.
  intros Hb Ha Hh. unfold handle_add_error_steps.
  destruct (errors_Is err ErrPushback); [intros r1 [_ Hr1]; cbn; congruence|].
  destruct (errors_Is err ContextCanceled); [intros r1 [_ Hr1]; cbn; congruence|].
  cbn in Ha. destruct (errors_As as_DuplicateError err) as [i|].
  - destruct Ha as [Hi Hat]. apply rg_bind; [apply _|]. apply rg_modify; [done|]. intros r1 r2 [Hg1 Hh1] [Hg2 Hh2].
    intros r3 [Hg3 Hh3]. cbn in *. exists o1, o2, o3, e, c, body, i. split_and!; [done|done| |by rewrite Hh3, Hh2, Hh1, Hh].
    eapply at_index_grew; [|exact Hg3]. eapply at_index_grew; [|exact Hg2]. by eapply at_index_grew.
  - apply rg_bind; [apply _|].
    destruct (errors_As as_InclusionProofVerificationError err).
    + apply rg_modify; [done|]. intros r1 r2 [_ Hh1] [_ Hh2] r3 [_ Hh3]. cbn in *. congruence.
    + intros r1 [_ Hh1] r2 [_ Hh2]. cbn in *. congruence.
Qed.

Lemma CreateEntry_rg o1 o2 o3 st reg id req r :
  on_tessera st → rpc_header r = [] →
  rg_call (CreateEntry_steps o1 o2 o3 (tessera_server st reg id) (storage_Add_steps st) req)
    (answered (tessera_server st reg id) req) r.
Proof.
  intros Hst Hh. unfold CreateEntry_steps. cbn [readOnly tessera_server NewServer].
  apply rg_bind; [apply _|]. intros r1 Hr1. assert (rpc_header r1 = []) as Hh1 by (destruct Hr1; congruence).
  destruct (serialize _ _ _ _ req) as [[[json kv] c]|err|] eqn:Hser; [|by apply serialize_status in Hser as [msg ->]|done].
  apply serialize_Ok in Hser as (e & He & Hj & ->).
  apply rg_bind; [apply _|]. intros r2 Hr2. assert (rpc_header r2 = []) as Hh2 by (destruct Hr2; congruence).
  destruct (Transform json) as [err|body] eqn:Hbody; cbn [lift or_status]; [done|].
  assert (canonical_body o1 o2 o3 (tessera_server st reg id) req e c body) as Hb by (split; [done|eauto]).
  apply rg_bind; [apply _|]. intros r3 Hr3. assert (rpc_header r3 = []) as Hh3 by (destruct Hr3; congruence).
  apply rg_bind; [apply _|]. apply rg_on_result. eapply rg_mono.
  { apply (rg_zoom others own grew grew rpc_log set_log (λ r, rpc_header r = []) _ (added body)).
    - by intros ?? [].
    - done.
    - done.
    - intros ?? [_ Heq] ?. congruence.
    - done.
    - done.
    - by apply storage_Add_rg. }
  intros [tle|err|] r4 [Ha Hh4]; [|by eapply handle_add_error_rg|done].
  destruct Ha as [(ip & cp & Hsc) Hat]. apply rg_bind; [apply _|]. apply rg_modify; [done|].
  intros r5 r6 [Hg5 Hh5] [Hg6 Hh6]. apply rg_bind; [apply _|]. apply rg_modify; [done|].
  intros r7 r8 [Hg7 Hh7] [Hg8 Hh8] r9 [Hg9 Hh9]. cbn in *. pose proof He as [_ Hv]%request_entry_kind.
  exists o1, o2, o3, e, c, body, ip, cp. split; [done|]. split_and!; try done.
  - by destruct Hsc; split.
  - repeat (eapply at_index_grew; [|eassumption]). done.
  - cbn. by rewrite Hv.
  - rewrite Hh9, Hh8, Hh7, Hh6, Hh5, Hh4. done.
Qed.

(** A recovered panic answers without headers. *)
Lemma recovered_rg s req (p : prog (rpc World) TransparencyLogEntry) r :
  rg_call p (answered s req) r → rg_call (recovered_steps p) (λ x r, x ≠ Panic ∧ answered s req x r) r.
Proof.
  revert r. induction p as [x|B f k IH]; cbn; intros r Hp.
  - destruct x as [tle|e|]; [intros r1 Hr1; split; [discriminate|by apply Hp]..|]. intros r1 Hr1. split; [by unfold own|].
    intros r2 Hr2. split; [discriminate|]. apply Hp in Hr1. destruct Hr2 as [_ Hr2]. cbn in Hr1 |- *. by rewrite Hr2, <-Hr1.
  - intros r1 Hr1. destruct (Hp r1 Hr1) as [Hg Hk]. split; [done|]. by apply IH.
Qed.
End interference.
