(* ===== verification/Pool.v ===== *)
(** * Calls in flight

    The calls that a server is working on, each in its own goroutine with its
    own headers, on the one log and the one set of metrics: a transition
    system in which calls arrive, take their next step in any order, and other
    writers add to the log. *)
From S2P Require Import Prelude GoErrors GoStrings SafeInt Proto External IO Threads Note TesseraLib VerifyEntry Storage AlgorithmRegistry HashedRekord Dsse Service History Concurrent.

Section pool.
Context `{X509} `{SigstoreSignature} `{!DsseLib} `{Merkle} `{LogFormat} `{Tessera} `{JsonLib}.

(** ** States and steps *)

(** A call: its request, the headers it has set, and what is left to do. *)
Record rpc_call := { c_req : option CreateEntryRequest; c_header : MD; c_prog : prog (rpc World) TransparencyLogEntry }.

Record server_state := { ss_log : World; ss_metrics : counters; ss_calls : list rpc_call }.

(** A new call, inside the recovery interceptor. *)
Definition spawn (o1 o2 o3 : map_order) (st : storage) (reg : AlgorithmRegistryConfig) (id : bytes)
    (req : option CreateEntryRequest) : rpc_call :=
  {| c_req := req; c_header := [];
     c_prog := recovered_steps (CreateEntry_steps o1 o2 o3 (tessera_server st reg id) (storage_Add_steps st) req) |}.

(** The next access of a call, which is over once it has a result. *)
Definition advance (c : rpc_call) (w : World) (m : counters) : option (rpc_call * World * counters) :=
  match c_prog c with
  | Return _ => None
  | Access _ f k =>
      let '(b, r) := f (Build_rpc w (c_header c) m) in
      Some ({| c_req := c_req c; c_header := rpc_header r; c_prog := k b |}, rpc_log r, rpc_metrics r)
  end.

(** A call makes its next access. *)
Inductive proceeds : server_state → server_state → Prop :=
  | proceed i c c' w w' m m' cs :
      cs !! i = Some c → advance c w m = Some (c', w', m') →
      proceeds {| ss_log := w; ss_metrics := m; ss_calls := cs |}
               {| ss_log := w'; ss_metrics := m'; ss_calls := <[i := c']> cs |}.

Section steps.
Context `{!AppendOnly} (st : storage) (reg : AlgorithmRegistryConfig) (id : bytes).

Inductive pool_step : server_state → server_state → Prop :=
  | step_proceed σ σ' : proceeds σ σ' → pool_step σ σ'
  | step_arrive o1 o2 o3 req w m cs :
      pool_step {| ss_log := w; ss_metrics := m; ss_calls := cs |}
                {| ss_log := w; ss_metrics := m; ss_calls := cs ++ [spawn o1 o2 o3 st reg id req] |}
  | step_other w w' m cs :
      grew w w' →
      pool_step {| ss_log := w; ss_metrics := m; ss_calls := cs |} {| ss_log := w'; ss_metrics := m; ss_calls := cs |}.
End steps.

(** ** Counting *)

(** A call that has been answered with a new entry of a kind. *)
Definition logged_prog (kind : string) (p : prog (rpc World) TransparencyLogEntry) : bool :=
  match p with Return x => logged_kind kind x | Access _ _ _ => false end.
Definition logged_call (kind : string) (c : rpc_call) : bool := logged_prog kind (c_prog c).

Definition one (b : bool) : Z := if b then 1 else 0.

Lemma count_app {A} (f : A → bool) l1 l2 : count f (l1 ++ l2) = count f l1 + count f l2.
Proof. unfold count. rewrite List.filter_app, length_app. lia. Qed.

Lemma count_cons {A} (f : A → bool) x l : count f (x :: l) = one (f x) + count f l.
Proof. unfold count, one. cbn. destruct (f x); cbn; lia. Qed.

Lemma count_insert {A} (f : A → bool) l i x y :
  l !! i = Some x → count f (<[i := y]> l) = count f l - one (f x) + one (f y).
Proof.
  revert i. induction l as [|z l IH]; intros [|i] Hl; try done; cbn in Hl.
  - injection Hl as ->. change (<[0%nat := y]> (x :: l)) with (y :: l). rewrite !count_cons. lia.
  - change (<[S i := y]> (z :: l)) with (z :: <[i := y]> l). rewrite !count_cons, (IH _ Hl). lia.
Qed.

(** The change of the entry counters by an access that leaves [p]. *)
Definition counts_to (p : prog (rpc World) TransparencyLogEntry) (r r' : rpc World) : Prop :=
  newHashedRekordEntries (rpc_metrics r') = newHashedRekordEntries (rpc_metrics r) + one (logged_prog "hashedrekord" p) ∧
  newDsseEntries (rpc_metrics r') = newDsseEntries (rpc_metrics r) + one (logged_prog "dsse" p).

(** Every access counts what it answers. *)
Fixpoint counted (p : prog (rpc World) TransparencyLogEntry) : Prop :=
  match p with
  | Return _ => True
  | Access _ f k => (∀ r, counts_to (k (f r).1) r (f r).2) ∧ ∀ b, counted (k b)
  end.

(** Accesses that do not count. *)
Definition same_counts (r r' : rpc World) : Prop :=
  newHashedRekordEntries (rpc_metrics r') = newHashedRekordEntries (rpc_metrics r) ∧
  newDsseEntries (rpc_metrics r') = newDsseEntries (rpc_metrics r).
Fixpoint quiet {A} (p : prog (rpc World) A) : Prop :=
  match p with
  | Return _ => True
  | Access _ f k => (∀ r, same_counts r (f r).2) ∧ ∀ b, quiet (k b)
  end.

(** An answer is still to come, or is none that counts. *)
Definition pending (p : prog (rpc World) TransparencyLogEntry) : Prop :=
  counted p ∧ logged_prog "hashedrekord" p = false ∧ logged_prog "dsse" p = false.

Lemma pending_bind {A} (p : prog (rpc World) A) f : quiet p → (∀ a, pending (f a)) → pending (p ≫= f).
Proof.
  unfold mbind, prog_bind. intros Hp Hf. induction p as [[a|e|]|B g k IH]; [by apply Hf|done..|].
  destruct Hp as [Hg Hk]. split; [|done]. cbn. split.
  - intros r. destruct (IH (g r).1 (Hk _)) as (_ & Hh & Hd). destruct (Hg r) as [Hgh Hgd].
    unfold counts_to. rewrite Hh, Hd. cbn. lia.
  - intros b. apply IH, Hk.
Qed.

Lemma quiet_on_result {A B} (h : result A → result B) (p : prog (rpc World) A) : quiet p → quiet (on_result h p).
Proof. induction p as [r|C g k IH]; [done|]. intros [Hg Hk]. split; [done|]. intros b. apply IH, Hk. Qed.

Lemma quiet_zoom {A} (p : prog World A) : quiet (step_zoom rpc_log set_log p).
Proof.
  induction p as [r|C g k IH]; cbn; [done|]. split; [|done]. intros r. by destruct (g (rpc_log r)).
Qed.

Lemma quiet_modify (f : rpc World → rpc World) : (∀ r, same_counts r (f r)) → quiet (step_io (modify f)).
Proof. intros Hf. by split. Qed.

Lemma pending_error (x : result TransparencyLogEntry) : ¬ is_Ok x → pending (Return x).
Proof. by destruct x. Qed.

Lemma handle_add_error_pending err : pending (handle_add_error_steps err).
Proof.
  unfold handle_add_error_steps. destruct (errors_Is err ErrPushback); [done|].
  destruct (errors_Is err ContextCanceled); [done|].
  destruct (errors_As as_DuplicateError err) as [i|]; (apply pending_bind; [|done]).
  - by apply quiet_modify.
  - destruct (errors_As as_InclusionProofVerificationError err); [|done]. apply quiet_modify. by intros [w h []].
Qed.

Lemma CreateEntry_pending o1 o2 o3 s add req : pending (CreateEntry_steps o1 o2 o3 s add req).
Proof.
  unfold CreateEntry_steps. destruct (readOnly s).
  { apply pending_bind; [by apply quiet_modify|]. intros []. apply pending_bind; [by apply quiet_modify|]. by intros []. }
  destruct (serialize o1 o2 o3 s req) as [[[json kv] c]|err|] eqn:Hser; [|done..].
  apply serialize_Ok in Hser as (e & [Hkc _]%request_entry_kind & _ & ->).
  change (Return (Ok ?x) ≫= ?f) with (f x). cbv beta iota.
  apply pending_bind; [done|]. intros body. apply pending_bind; [done|]. intros _.
  apply pending_bind; [apply quiet_on_result, quiet_zoom|]. intros [err|tle]; [apply handle_add_error_pending|].
  apply pending_bind; [by apply quiet_modify|]. intros []. split; [|done]. cbn. split; [|by intros []]. intros r.
  unfold counts_to, mret, prog_ret. cbn. destruct (rpc_metrics r).
  destruct Hkc as [[-> ->]|[-> ->]]; cbn; repeat case_bool_decide; cbn; try done; lia.
Qed.

Lemma recovered_pending p : pending p → pending (recovered_steps p).
Proof.
  assert (∀ k, logged_prog k (recovered_steps p) = logged_prog k p) as Hl by (intros k; by destruct p as [[]|]).
  unfold pending. rewrite !Hl. intros (Hc & Hh & Hd). split_and!; [|done..]. clear Hl Hh Hd.
  induction p as [x|B f k IH]; cbn in *.
  - destruct x as [tle|e|]; [done..|]. cbn. split; [|by intros []]. intros [w h []]. unfold counts_to, grpcPanicRecoveryHandler, inc, modify, mbind, io_bind, io_bind_def. cbn. lia.
  - destruct Hc as [Hf Hk]. split; [|by intros b; apply IH]. intros r. specialize (Hf r). unfold counts_to in *.
    destruct (k (f r).1) as [[]|] eqn:He; cbn in *; done.
Qed.

(** ** The invariant *)

Section invariant.
Context `{!AppendOnly} `{!TesseraLaws} `{!LogFormatLaws} `{!ForeignErrors}.
Context (st : storage) (reg : AlgorithmRegistryConfig) (id : bytes).

Abbreviation server := (tessera_server st reg id).

(** A call that will be answered truly, seen from its place in the state. *)
Definition call_ok (w : World) (m : counters) (c : rpc_call) : Prop :=
  rg others own (c_prog c) (λ x r, x ≠ Panic ∧ answered server (c_req c) x r) (Build_rpc w (c_header c) m) ∧ counted (c_prog c).

Record pool_inv (σ0 σ : server_state) : Prop := {
  inv_log : grew (ss_log σ0) (ss_log σ);
  inv_calls : ∀ c, c ∈ ss_calls σ → call_ok (ss_log σ) (ss_metrics σ) c;
  inv_hashedrekord : newHashedRekordEntries (ss_metrics σ) =
    newHashedRekordEntries (ss_metrics σ0) + count (logged_call "hashedrekord") (ss_calls σ);
  inv_dsse : newDsseEntries (ss_metrics σ) = newDsseEntries (ss_metrics σ0) + count (logged_call "dsse") (ss_calls σ)
}.

(** Nobody else changes more than a call allows for. *)
Lemma call_ok_grew w w' m m' c : call_ok w m c → grew w w' → call_ok w' m' c.
Proof. intros [Hrg Hc] Hg. split; [|done]. by eapply rg_stable; [apply _|exact Hrg|]. Qed.

Lemma advance_ok c w m c' w' m' :
  call_ok w m c → advance c w m = Some (c', w', m') →
  grew w w' ∧ call_ok w' m' c' ∧ logged_call "hashedrekord" c = false ∧ logged_call "dsse" c = false ∧
  newHashedRekordEntries m' = newHashedRekordEntries m + one (logged_call "hashedrekord" c') ∧
  newDsseEntries m' = newDsseEntries m + one (logged_call "dsse" c').
Proof.
  unfold advance, call_ok, logged_call. destruct (c_prog c) as [x|B f k] eqn:Hp; [done|]. intros [Hrg [Hf Hk]] Ha.
  specialize (Hrg (Build_rpc w (c_header c) m) ltac:(done)). specialize (Hf (Build_rpc w (c_header c) m)).
  destruct (f (Build_rpc w (c_header c) m)) as [b r]. injection Ha as <- <- <-. destruct Hrg as [Hown Hrg]. cbn in *.
  split_and!; try done; [by destruct r|by destruct Hf|by destruct Hf].
Qed.

Lemma spawn_ok o1 o2 o3 req w m : on_tessera st → call_ok w m (spawn o1 o2 o3 st reg id req).
Proof.
  intros Hst. split.
  - by apply recovered_rg, CreateEntry_rg.
  - apply recovered_pending, CreateEntry_pending.
Qed.

Lemma spawn_logged o1 o2 o3 req k : k = "hashedrekord" ∨ k = "dsse" → logged_call k (spawn o1 o2 o3 st reg id req) = false.
Proof.
  destruct (recovered_pending _ (CreateEntry_pending o1 o2 o3 server (storage_Add_steps st) req)) as (_ & Hh & Hd).
  by intros [->| ->].
Qed.

Lemma pool_step_inv σ0 σ σ' : on_tessera st → pool_inv σ0 σ → pool_step st reg id σ σ' → pool_inv σ0 σ'.
Proof.
  intros Hst Hinv Hs. destruct Hs as [σ σ' Hp|o1 o2 o3 req w m cs|w w' m cs Hg];
    [destruct Hp as [i c c' w w' m m' cs Hi Ha]|..]; destruct Hinv as [Hlog Hcalls Hh Hd]; cbn in *.
  - destruct (advance_ok c w m c' w' m' (Hcalls c (list_elem_of_lookup_2 _ _ _ Hi)) Ha) as (Hg & Hok & Hh0 & Hd0 & Hh1 & Hd1).
    split; cbn; [by etrans| | |].
    + intros c1 [j Hj]%list_elem_of_lookup. destruct (decide (i = j)) as [->|Hne].
      * rewrite list_lookup_insert_eq in Hj by (by eapply lookup_lt_Some). by injection Hj as <-.
      * rewrite list_lookup_insert_ne in Hj by done. eapply call_ok_grew; [|exact Hg]. by apply Hcalls, (list_elem_of_lookup_2 _ j).
    + rewrite (count_insert _ _ _ _ _ Hi), Hh0. cbn. lia.
    + rewrite (count_insert _ _ _ _ _ Hi), Hd0. cbn. lia.
  - split; cbn; [done| | |].
    + intros c [Hc| ->%list_elem_of_singleton]%elem_of_app; [by apply Hcalls|by apply spawn_ok].
    + rewrite count_app, count_cons, spawn_logged by auto. unfold count at 2. cbn. lia.
    + rewrite count_app, count_cons, spawn_logged by auto. unfold count at 2. cbn. lia.
  - split; cbn; [by etrans| |done|done]. intros c Hc. eapply call_ok_grew; [by apply Hcalls|done].
Qed.

Lemma pool_reachable_inv σ σ' :
  on_tessera st → ss_calls σ = [] → rtc (pool_step st reg id) σ σ' → pool_inv σ σ'.
Proof.
  intros Hst Hnil Hr. assert (pool_inv σ σ) as Hinv.
  { split; [done| |..]; rewrite Hnil; [by intros c ?%not_elem_of_nil|unfold count; cbn; lia..]. }
  revert Hinv. generalize σ at 1 3. intros σ0. clear Hnil. induction Hr as [|σ1 σ2 σ3 Hs _ IH]; [done|]. intros Hinv.
  by eapply IH, pool_step_inv.
Qed.
End invariant.

(** ** Scheduling *)

Lemma within_pure {S A} (r : result A) n : within (S := S) (Datatypes.S n) (Return r).
Proof. by destruct r. Qed.

(** [Add] makes four calls of Tessera, and the handler two updates more. *)
Lemma storage_Add_within s e : within 4 (storage_Add_steps s e).
Proof.
  apply (within_bind _ _ 2 2).
  - apply within_on_result; [by intros []|]. cbn. intros w w'. destruct (Await _ _ _).1 as [err|[ix raw]]; cbn; [done|].
    pose proof (NewSafeInt64_no_panic (num_uint64 (Index_Index ix))) as Hn. by destruct (NewSafeInt64 _).
  - intros [[idx dup] raw]. destruct dup; [done|]. apply (within_bind _ _ 2 0); [|done].
    apply within_on_result; [by intros []|]. unfold buildProof_steps.
    pose proof (unmarshalCheckpoint_no_panic raw) as Hu. destruct (unmarshalCheckpoint raw) as [cp|err|]; cbn; [|done..].
    intros w. destruct (NewProofBuilder _ _ _).1 as [err|pb]; cbn; [done|].
    intros w'. destruct (ProofBuilder_InclusionProof _ _ _).1 as [err|hashes]; cbn; [done|].
    pose proof (NewSafeInt64_no_panic (num_uint64 (cp_Size cp))) as Hn. destruct (NewSafeInt64 _) as [sz|err|]; cbn; [|done..].
    by destruct (VerifyInclusion _ _ _ _ _).
Qed.

Lemma CreateEntry_within o1 o2 o3 s st req : within 6 (CreateEntry_steps o1 o2 o3 s (storage_Add_steps st) req).
Proof.
  unfold CreateEntry_steps. destruct (readOnly s); [by intros [] []|].
  destruct (serialize o1 o2 o3 s req) as [[[json kv] c]|err|]; [|done..]. change (Return (Ok ?x) ≫= ?f) with (f x). cbv beta iota.
  destruct (Transform json) as [err|body]; [done|]. cbn [lift or_status]. change (Return (Ok ?x) ≫= ?f) with (f x). cbv beta iota zeta.
  destruct (srv_storage s) as [st'|]; [|done]. cbn [deref]. change (Return (Ok ?x) ≫= ?f) with (f x). cbv beta iota zeta.
  apply (within_bind _ _ 4 2); [apply within_on_result; [by intros []|]; apply within_zoom, storage_Add_within|].
  intros [err|tle]; [|by intros [] []]. unfold handle_add_error_steps.
  destruct (errors_Is err ErrPushback); [done|]. destruct (errors_Is err ContextCanceled); [done|].
  destruct (errors_As as_DuplicateError err) as [i|]; [by intros []|].
  destruct (errors_As as_InclusionProofVerificationError err); [by intros []|done].
Qed.

Lemma recovered_within {W A} (p : prog (rpc W) A) n : within n p → within n (recovered_steps p).
Proof.
  revert n. induction p as [r|B f k IH]; intros [|n]; cbn; try done; [| |by auto].
  - by destruct r.
  - destruct r; [done..|]. cbn. intros []; by destruct n.
Qed.

(** The accesses a call may still make, and all calls together. *)
Definition may_take (c : rpc_call) (n : nat) : Prop := within n (c_prog c).

Lemma spawn_may_take o1 o2 o3 st reg id req : may_take (spawn o1 o2 o3 st reg id req) 6.
Proof. apply recovered_within, CreateEntry_within. Qed.

Lemma advance_may_take c w m c' w' m' n :
  may_take c n → advance c w m = Some (c', w', m') → ∃ n', n = Datatypes.S n' ∧ may_take c' n'.
Proof.
  unfold may_take, advance. destruct (c_prog c) as [x|T f k]; [done|]. destruct n as [|n]; [by intros []|].
  intros Hk. specialize (Hk (Build_rpc w (c_header c) m)). destruct (f _) as [b r]. intros [= <- <- <-]. by exists n.
Qed.

Lemma proceeds_may_take σ σ' ns :
  Forall2 may_take (ss_calls σ) ns → proceeds σ σ' →
  ∃ ns', Forall2 may_take (ss_calls σ') ns' ∧ sum_list ns = Datatypes.S (sum_list ns').
Proof.
  intros Hns Hs. destruct Hs as [i c c' w w' m m' cs Hi Ha]. cbn in *.
  destruct (Forall2_lookup_l _ _ _ _ _ Hns Hi) as (n & Hn & Hc). destruct (advance_may_take _ _ _ _ _ _ _ Hc Ha) as (n' & -> & Hc').
  exists (<[i := n']> ns). split; [by apply Forall2_insert|]. clear -Hn. revert i Hn.
  induction ns as [|x ns IH]; intros [|i] Hn; try done; cbn in *; [by injection Hn as ->|].
  change (<[Datatypes.S i := n']> (x :: ns)) with (x :: <[i := n']> ns). cbn. rewrite (IH _ Hn). apply Nat.add_succ_r.
Qed.

(** A call that has not been answered can go on. *)
Lemma proceeds_unless_answered σ c : c ∈ ss_calls σ → (∃ x, c_prog c = Return x) ∨ ∃ σ', proceeds σ σ'.
Proof.
  destruct σ as [w m cs]. cbn. intros [i Hi]%list_elem_of_lookup. destruct (c_prog c) as [x|B f k] eqn:Hp; [by left; eexists|].
  right. destruct (f (Build_rpc w (c_header c) m)) as [b r] eqn:Hf. eexists. eapply proceed; [done|].
  unfold advance. rewrite Hp, Hf. done.
Qed.

(** ** Theorems *)

(** The two translations of the handler agree: run alone, the steps of a call are the handler inside
    the recovery interceptor, with the same answer, headers, log and metrics. *)
Theorem steps_are_the_handler o1 o2 o3 st reg id req r :
  run (c_prog (spawn o1 o2 o3 st reg id req)) r = recovered (CreateEntry o1 o2 o3 (tessera_server st reg id) req) r.
Proof.
  unfold spawn. cbn [c_prog]. rewrite run_recovered. unfold recovered.
  by rewrite (run_CreateEntry o1 o2 o3 (tessera_server st reg id) (storage_impl st)) by (done || apply run_storage_Add).
Qed.

Section answers.
Context `{!AppendOnly} `{!TesseraLaws} `{!LogFormatLaws} `{!ForeignErrors}.

(** C5: answers given to concurrent calls are true, and stay true: in every state that a server on a
    storage made by NewStorage reaches, whatever calls arrive, however they interleave and
    whatever other writers add, the log is an extension of what it was, no call has panicked,
    and every call that has been answered was answered truly.  A success carries the canonical
    body of its request, which is in the log at the index of the answer, with a verified proof,
    the log ID, the kind, and status 201 as its only header; AlreadyExists names in its only
    header the index at which the log has that body; other answers set no header. *)
Theorem concurrent_answers_true origin driver opts w0 st sd w1 reg id σ σ'
    (Hst : NewStorage origin driver opts w0 = (Ok (st, sd), w1))
    (Hnil : ss_calls σ = []) (Hreach : rtc (pool_step st reg id) σ σ') :
  log_entries (ss_log σ) `prefix_of` log_entries (ss_log σ') ∧
  ∀ c x, c ∈ ss_calls σ' → c_prog c = Return x →
    x ≠ Panic ∧ answered (tessera_server st reg id) (c_req c) x (Build_rpc (ss_log σ') (c_header c) (ss_metrics σ')).
Proof.
  destruct (pool_reachable_inv st reg id σ σ' (NewStorage_on_tessera _ _ _ _ _ _ _ Hst) Hnil Hreach) as [Hlog Hcalls _ _].
  split; [done|]. intros c x Hc Hx. destruct (Hcalls c Hc) as [Hrg _]. rewrite Hx in Hrg. by apply Hrg.
Qed.

(** C9: the entry counters are exact at every moment, however calls interleave: they have grown by the
    number of calls that have been answered with a new entry of their kind. *)
Theorem concurrent_counters_exact origin driver opts w0 st sd w1 reg id σ σ'
    (Hst : NewStorage origin driver opts w0 = (Ok (st, sd), w1))
    (Hnil : ss_calls σ = []) (Hreach : rtc (pool_step st reg id) σ σ') :
  newHashedRekordEntries (ss_metrics σ') =
    newHashedRekordEntries (ss_metrics σ) + count (logged_call "hashedrekord") (ss_calls σ') ∧
  newDsseEntries (ss_metrics σ') = newDsseEntries (ss_metrics σ) + count (logged_call "dsse") (ss_calls σ').
Proof.
  destruct (pool_reachable_inv st reg id σ σ' (NewStorage_on_tessera _ _ _ _ _ _ _ Hst) Hnil Hreach) as [_ _ Hh Hd]. done.
Qed.
End answers.
End pool.
