(* ===== verification/RekorGrpc.v ===== *)
(** * pkg/generated/protobuf: the gRPC service Rekor

    The request messages of [rekor_service.pb.go] and the stubs of
    [rekor_service_grpc.pb.go]: the client, which names the method it invokes,
    the table of methods a server registers, and the handlers, which decode a
    request and call the server through the interceptor. *)
From S2P Require Import Prelude GoErrors GoStrings Proto External IO Service.

(** ** rekor_service.pb.go *)

(** [L] is a uint32. *)
Record TileRequest := { tr_L : Z; tr_N : string }.
Record EntryBundleRequest := { ebr_N : string }.

Definition TileRequest_GetL (x : option TileRequest) : Z := match x with Some x => tr_L x | None => 0 end.
Definition TileRequest_GetN (x : option TileRequest) : string := match x with Some x => tr_N x | None => "" end.
Definition EntryBundleRequest_GetN (x : option EntryBundleRequest) : string :=
  match x with Some x => ebr_N x | None => "" end.

(** [google.api.HttpBody]; extensions are never set. *)
Record HttpBody := { ContentType : string; hb_Data : bytes }.

(** ** Messages of any type

    The handlers and interceptors pass messages as [interface{}]: a message
    with its type.  A type assertion that fails panics. *)
Inductive message :=
  | msg_CreateEntryRequest (m : CreateEntryRequest)
  | msg_TileRequest (m : TileRequest)
  | msg_EntryBundleRequest (m : EntryBundleRequest)
  | msg_Empty
  | msg_TransparencyLogEntry (m : TransparencyLogEntry)
  | msg_HttpBody (m : HttpBody).

Inductive msg_type := T_CreateEntryRequest | T_TileRequest | T_EntryBundleRequest | T_Empty | T_TransparencyLogEntry | T_HttpBody.

#[export] Instance TileRequest_eq_dec : EqDecision TileRequest.
Proof. solve_decision. Defined.
#[export] Instance EntryBundleRequest_eq_dec : EqDecision EntryBundleRequest.
Proof. solve_decision. Defined.
#[export] Instance HttpBody_eq_dec : EqDecision HttpBody.
Proof. solve_decision. Defined.
#[export] Instance message_eq_dec : EqDecision message.
Proof. solve_decision. Defined.
#[export] Instance msg_type_eq_dec : EqDecision msg_type.
Proof. solve_decision. Defined.

Definition type_of (m : message) : msg_type :=
  match m with
  | msg_CreateEntryRequest _ => T_CreateEntryRequest
  | msg_TileRequest _ => T_TileRequest
  | msg_EntryBundleRequest _ => T_EntryBundleRequest
  | msg_Empty => T_Empty
  | msg_TransparencyLogEntry _ => T_TransparencyLogEntry
  | msg_HttpBody _ => T_HttpBody
  end.

Definition as_CreateEntryRequest (m : message) : result CreateEntryRequest :=
  match m with msg_CreateEntryRequest x => Ok x | _ => Panic end.
Definition as_TileRequest (m : message) : result TileRequest :=
  match m with msg_TileRequest x => Ok x | _ => Panic end.
Definition as_EntryBundleRequest (m : message) : result EntryBundleRequest :=
  match m with msg_EntryBundleRequest x => Ok x | _ => Panic end.
Definition as_Empty (m : message) : result unit :=
  match m with msg_Empty => Ok tt | _ => Panic end.
Definition as_TransparencyLogEntry (m : message) : result TransparencyLogEntry :=
  match m with msg_TransparencyLogEntry x => Ok x | _ => Panic end.
Definition as_HttpBody (m : message) : result HttpBody :=
  match m with msg_HttpBody x => Ok x | _ => Panic end.

(** ** Full method names *)

Definition Rekor_CreateEntry_FullMethodName : string := "/dev.sigstore.rekor.v2.Rekor/CreateEntry".
Definition Rekor_GetTile_FullMethodName : string := "/dev.sigstore.rekor.v2.Rekor/GetTile".
Definition Rekor_GetEntryBundle_FullMethodName : string := "/dev.sigstore.rekor.v2.Rekor/GetEntryBundle".
Definition Rekor_GetCheckpoint_FullMethodName : string := "/dev.sigstore.rekor.v2.Rekor/GetCheckpoint".

Section grpc.
Context {S : Type}.

(** ** The client *)

(** A call as its caller sees it: the reply or an error, the header metadata
    that [grpc.Header] collects, and the state afterwards. *)
Definition rpc_call (A : Type) : Type := S → (error + A) * MD * S.

(** [grpc.ClientConnInterface]: the method, the request and the type of the reply. *)
Definition ClientConn : Type := string → message → msg_type → rpc_call message.

Record RekorClient := {
  rc_CreateEntry : CreateEntryRequest → rpc_call TransparencyLogEntry;
  rc_GetTile : TileRequest → rpc_call HttpBody;
  rc_GetEntryBundle : EntryBundleRequest → rpc_call HttpBody;
  rc_GetCheckpoint : unit → rpc_call HttpBody
}.

(** [out := new(T); err := c.cc.Invoke(ctx, method, in, out, ...)]: the reply has
    the type that was asked for; one of another type is an error of the connection. *)
Definition invoke {A} (cc : ClientConn) (method : string) (in_ : message) (out : msg_type)
    (assert : message → result A) : rpc_call A := λ s,
  match cc method in_ out s with
  | (inl err, md, s') => (inl err, md, s')
  | (inr m, md, s') =>
      match assert m with
      | Ok a => (inr a, md, s')
      | _ => (inl (StatusError Internal "unexpected reply"), md, s')
      end
  end.

Definition rekorClient_CreateEntry (cc : ClientConn) (in_ : CreateEntryRequest) : rpc_call TransparencyLogEntry :=
  invoke cc Rekor_CreateEntry_FullMethodName (msg_CreateEntryRequest in_) T_TransparencyLogEntry as_TransparencyLogEntry.
Definition rekorClient_GetTile (cc : ClientConn) (in_ : TileRequest) : rpc_call HttpBody :=
  invoke cc Rekor_GetTile_FullMethodName (msg_TileRequest in_) T_HttpBody as_HttpBody.
Definition rekorClient_GetEntryBundle (cc : ClientConn) (in_ : EntryBundleRequest) : rpc_call HttpBody :=
  invoke cc Rekor_GetEntryBundle_FullMethodName (msg_EntryBundleRequest in_) T_HttpBody as_HttpBody.
Definition rekorClient_GetCheckpoint (cc : ClientConn) (in_ : unit) : rpc_call HttpBody :=
  invoke cc Rekor_GetCheckpoint_FullMethodName msg_Empty T_HttpBody as_HttpBody.

Definition NewRekorClient (cc : ClientConn) : RekorClient :=
  {| rc_CreateEntry := rekorClient_CreateEntry cc;
     rc_GetTile := rekorClient_GetTile cc;
     rc_GetEntryBundle := rekorClient_GetEntryBundle cc;
     rc_GetCheckpoint := rekorClient_GetCheckpoint cc |}.

(** ** The server *)

Record RekorServer := {
  rs_CreateEntry : option CreateEntryRequest → io S TransparencyLogEntry;
  rs_GetTile : option TileRequest → io S HttpBody;
  rs_GetEntryBundle : option EntryBundleRequest → io S HttpBody;
  rs_GetCheckpoint : unit → io S HttpBody
}.

Definition UnimplementedRekorServer : RekorServer :=
  {| rs_CreateEntry := λ _, fail (StatusError Unimplemented "method CreateEntry not implemented");
     rs_GetTile := λ _, fail (StatusError Unimplemented "method GetTile not implemented");
     rs_GetEntryBundle := λ _, fail (StatusError Unimplemented "method GetEntryBundle not implemented");
     rs_GetCheckpoint := λ _, fail (StatusError Unimplemented "method GetCheckpoint not implemented") |}.

(** [grpc.UnaryServerInterceptor], given the full method and the request. *)
Definition UnaryServerInterceptor : Type := string → message → (message → io S message) → io S message.

(** A handler: the server, the decoder of the request, and the interceptor, if there is one. *)
Definition MethodHandler : Type := RekorServer → (msg_type → result message) → option UnaryServerInterceptor → io S message.

Definition _Rekor_CreateEntry_Handler : MethodHandler := λ srv dec interceptor,
  in_ ← pure (dec T_CreateEntryRequest);
  let handler req := req ← pure (as_CreateEntryRequest req);
                     out ← rs_CreateEntry srv (Some req); mret (msg_TransparencyLogEntry out) in
  match interceptor with
  | None => handler in_
  | Some interceptor => interceptor Rekor_CreateEntry_FullMethodName in_ handler
  end.

Definition _Rekor_GetTile_Handler : MethodHandler := λ srv dec interceptor,
  in_ ← pure (dec T_TileRequest);
  let handler req := req ← pure (as_TileRequest req);
                     out ← rs_GetTile srv (Some req); mret (msg_HttpBody out) in
  match interceptor with
  | None => handler in_
  | Some interceptor => interceptor Rekor_GetTile_FullMethodName in_ handler
  end.

Definition _Rekor_GetEntryBundle_Handler : MethodHandler := λ srv dec interceptor,
  in_ ← pure (dec T_EntryBundleRequest);
  let handler req := req ← pure (as_EntryBundleRequest req);
                     out ← rs_GetEntryBundle srv (Some req); mret (msg_HttpBody out) in
  match interceptor with
  | None => handler in_
  | Some interceptor => interceptor Rekor_GetEntryBundle_FullMethodName in_ handler
  end.

Definition _Rekor_GetCheckpoint_Handler : MethodHandler := λ srv dec interceptor,
  in_ ← pure (dec T_Empty);
  let handler req := req ← pure (as_Empty req);
                     out ← rs_GetCheckpoint srv req; mret (msg_HttpBody out) in
  match interceptor with
  | None => handler in_
  | Some interceptor => interceptor Rekor_GetCheckpoint_FullMethodName in_ handler
  end.

Record MethodDesc := { MethodName : string; Handler : MethodHandler }.
Record ServiceDesc := { ServiceName : string; Methods : list MethodDesc; Metadata : string }.

Definition Rekor_ServiceDesc : ServiceDesc :=
  {| ServiceName := "dev.sigstore.rekor.v2.Rekor";
     Methods := [
       {| MethodName := "CreateEntry"; Handler := _Rekor_CreateEntry_Handler |};
       {| MethodName := "GetTile"; Handler := _Rekor_GetTile_Handler |};
       {| MethodName := "GetEntryBundle"; Handler := _Rekor_GetEntryBundle_Handler |};
       {| MethodName := "GetCheckpoint"; Handler := _Rekor_GetCheckpoint_Handler |} ];
     Metadata := "rekor/v2/rekor_service.proto" |}.

(** The services of a [grpc.Server]: each with the server that implements it. *)
Definition registrar : Type := list (ServiceDesc * RekorServer).

(** [RegisterService] is fatal for a service name that is already registered. *)
Definition RegisterService (s : registrar) (desc : ServiceDesc) (srv : RekorServer) : result registrar :=
  if bool_decide (ServiceName desc ∈ (ServiceName ∘ fst) <$> s) then Panic else Ok (s ++ [(desc, srv)]).

(** The servers of the program embed [UnimplementedRekorServer] by value, so that
    [testEmbeddedByValue] returns. *)
Definition RegisterRekorServer (s : registrar) (srv : RekorServer) : result registrar :=
  RegisterService s Rekor_ServiceDesc srv.
End grpc.
Arguments rpc_call : clear implicits.
Arguments ClientConn : clear implicits.
Arguments RekorClient : clear implicits.
Arguments RekorServer : clear implicits.
Arguments MethodHandler : clear implicits.
Arguments MethodDesc : clear implicits.
Arguments ServiceDesc : clear implicits.
Arguments UnaryServerInterceptor : clear implicits.

(** ** Messages on the wire

    A message that went over a connection is a copy: the same content at other
    addresses, which matters where a message holds pointers that are compared. *)

(** The content of a request, without the addresses of its verifiers. *)
Definition spec_content (s : isCreateEntryRequest_Spec)
    : option HashedRekordRequestV002 + option (option pbdsse_Envelope * list (option Verifier)) :=
  match s with
  | CreateEntryRequest_HashedRekordRequestV002 r => inl r
  | CreateEntryRequest_DsseRequestV002 None => inr None
  | CreateEntryRequest_DsseRequestV002 (Some r) => inr (Some (ds_Envelope r, option_map pointee <$> ds_Verifiers r))
  end.

Definition same_content (r r' : CreateEntryRequest) : Prop :=
  option_map spec_content (Request_Spec r) = option_map spec_content (Request_Spec r').

#[export] Instance same_content_equivalence : Equivalence same_content.
Proof. unfold same_content. split; [intros x|intros x y|intros x y z]; congruence. Qed.

(** A message without nil pointers where the format has no place for them. *)
Definition verifier_no_nil (v : Verifier) : Prop :=
  match Verifier_Verifier v with
  | Some (Verifier_PublicKey None) | Some (Verifier_X509Certificate None) => False
  | _ => True
  end.

Definition signature_no_nil (s : Signature) : Prop :=
  match Signature_Verifier s with Some v => verifier_no_nil v | None => True end.

Definition request_no_nil (r : CreateEntryRequest) : Prop :=
  match Request_Spec r with
  | None => True
  | Some (CreateEntryRequest_HashedRekordRequestV002 None) | Some (CreateEntryRequest_DsseRequestV002 None) => False
  | Some (CreateEntryRequest_HashedRekordRequestV002 (Some hr)) =>
      match hr_Signature hr with Some s => signature_no_nil s | None => True end
  | Some (CreateEntryRequest_DsseRequestV002 (Some ds)) =>
      match ds_Envelope ds with Some e => Forall is_Some (pb_Signatures e) | None => True end ∧
      Forall (λ v, match v with Some p => verifier_no_nil (pointee p) | None => False end) (ds_Verifiers ds)
  end.

(** An answer whose integers fit the fields of type int64. *)
Definition entry_int64 (e : TransparencyLogEntry) : Prop :=
  is_int64 (tle_LogIndex e) ∧
  match tle_InclusionProof e with
  | Some ip => is_int64 (ip_LogIndex ip) ∧ is_int64 (ip_TreeSize ip)
  | None => True
  end.

Definition sendable (m : message) : Prop :=
  match m with
  | msg_CreateEntryRequest r => request_no_nil r
  | msg_TransparencyLogEntry e => entry_int64 e
  | msg_TileRequest r => 0 ≤ tr_L r < 2 ^ 32
  | _ => True
  end.

(** Equal up to addresses. *)
Definition same_message (m m' : message) : Prop :=
  match m, m' with
  | msg_CreateEntryRequest r, msg_CreateEntryRequest r' => same_content r r'
  | m, m' => m = m'
  end.

(** [proto.Marshal] and [proto.Unmarshal]. *)
Class ProtoLib := {
  proto_Marshal : message → error + bytes;
  proto_Unmarshal : msg_type → bytes → error + message
}.

(** The wire format gives back what was written, into a message of the given type. *)
Class ProtoLaws `{ProtoLib} : Prop := {
  Unmarshal_type : ∀ ty b m, proto_Unmarshal ty b = inr m → type_of m = ty;
  Unmarshal_proto_Marshal : ∀ m b, sendable m → proto_Marshal m = inr b →
    ∃ m', proto_Unmarshal (type_of m) b = inr m' ∧ same_message m m'
}.

(** ** A connection to a server

    What gRPC documents of a unary call.  The client's state [P] is that of the
    process the server runs in; [begin_call] starts a call with empty headers,
    [call_header] are the headers set during the call, and [end_call] is the
    state the call leaves behind. *)
Class CallState (P S : Type) := {
  begin_call : P → S;
  call_header : S → MD;
  end_call : S → P
}.

Definition as_Code (e : error) : option Code := match e with StatusError c _ => Some c | _ => None end.

(** The status a handler's error is sent as: its own, the one it wraps, or the
    one of a cancelled context, and otherwise Unknown. *)
Definition status_of (e : error) : error :=
  match e with
  | StatusError c d => StatusError c d
  | _ => match errors_As as_Code e with
         | Some c => StatusError c (Error e)
         | None => if errors_Is e ContextCanceled then StatusError Canceled (Error e) else StatusError Unknown (Error e)
         end
  end.

(** The largest reply a client accepts unless it is configured otherwise. *)
Definition defaultClientMaxReceiveMessageSize : Z := 4 * 1024 * 1024.

(** [cc] is a connection to a server with these services, this interceptor and
    this limit on requests: a call of a registered method runs that method's
    handler on the request decoded from the wire, and the reply comes back
    over the wire, or the error as a status. *)
Record grpc_conn {P S : Type} `{ProtoLib} `{CallState P S} (cc : ClientConn P) (reg : list (ServiceDesc S * RekorServer S))
    (icpt : UnaryServerInterceptor S) (maxRecv : Z) : Prop := {
  conn_reply : ∀ desc srv d in_ b out p m s' b' m',
    (desc, srv) ∈ reg → d ∈ Methods desc → proto_Marshal in_ = inr b → len b ≤ maxRecv →
    Handler d srv (λ ty, lift (proto_Unmarshal ty b)) (Some icpt) (begin_call p) = (Ok m, s') →
    proto_Marshal m = inr b' → len b' ≤ defaultClientMaxReceiveMessageSize → proto_Unmarshal out b' = inr m' →
    cc ("/" +:+ ServiceName desc +:+ "/" +:+ MethodName d) in_ out p = (inr m', call_header s', end_call s');
  conn_status : ∀ desc srv d in_ b out p e s',
    (desc, srv) ∈ reg → d ∈ Methods desc → proto_Marshal in_ = inr b → len b ≤ maxRecv →
    Handler d srv (λ ty, lift (proto_Unmarshal ty b)) (Some icpt) (begin_call p) = (Err e, s') →
    cc ("/" +:+ ServiceName desc +:+ "/" +:+ MethodName d) in_ out p = (inl (status_of e), call_header s', end_call s')
}.
Arguments conn_reply {P S _ _ cc reg icpt maxRecv}.
Arguments conn_status {P S _ _ cc reg icpt maxRecv}.

(** ** The stubs reach the server *)

Section stubs.
Context {P S : Type} `{ProtoLib} `{CallState P S}.

(** What a call that ran as [x] is to its caller: an error as its status, a
    reply as what the wire delivers of it. *)
Definition delivered (x : result message * S) (y : (error + message) * MD * P) : Prop :=
  match x with
  | (Ok m, s') => ∃ m', same_message m m' ∧ y = (inr m', call_header s', end_call s')
  | (Err e, s') => y = (inl (status_of e), call_header s', end_call s')
  | (Panic, _) => True
  end.

(** A call whose reply, if there is one, has the type [ty] and can be sent. *)
Definition replies (ty : msg_type) (x : result message * S) : Prop :=
  match x with
  | (Ok m, _) => type_of m = ty ∧ sendable m ∧ ∃ b, proto_Marshal m = inr b ∧ len b ≤ defaultClientMaxReceiveMessageSize
  | _ => True
  end.

(** The typed result of a stub as a message. *)
Definition untyped {A} (to : A → message) (y : (error + A) * MD * P) : (error + message) * MD * P :=
  match y with
  | (inl e, md, p) => (inl e, md, p)
  | (inr a, md, p) => (inr (to a), md, p)
  end.

Lemma invoke_delivered `{!ProtoLaws} {A} cc reg icpt maxRecv desc srv d in_ out b p (to : A → message) from :
  grpc_conn cc reg icpt maxRecv → (desc, srv) ∈ reg → d ∈ Methods desc →
  proto_Marshal in_ = inr b → len b ≤ maxRecv →
  (∀ m, type_of m = out → ∃ a, m = to a) → (∀ a, from (to a) = Ok a) →
  let x := Handler d srv (λ ty, lift (proto_Unmarshal ty b)) (Some icpt) (begin_call p) in
  replies out x →
  delivered x (untyped to (invoke cc ("/" +:+ ServiceName desc +:+ "/" +:+ MethodName d) in_ out from p)).
Proof.
  intros Hcc Hreg Hd Hb Hlen Hto Hfrom x Hx. unfold invoke. destruct x as [[m|e|] s'] eqn:Hh; [| |done].
  - destruct Hx as (Hty & Hsend & b' & Hb' & Hlen').
    destruct (Unmarshal_proto_Marshal m b' Hsend Hb') as (m' & Hm' & Hsame). rewrite Hty in Hm'.
    rewrite (conn_reply Hcc _ _ _ _ _ _ _ _ _ _ _ Hreg Hd Hb Hlen Hh Hb' Hlen' Hm').
    destruct (Hto m' (Unmarshal_type _ _ _ Hm')) as [a ->]. rewrite Hfrom. by exists (to a).
  - by rewrite (conn_status Hcc _ _ _ _ _ _ _ _ _ Hreg Hd Hb Hlen Hh).
Qed.

(** The server's method behind a stub, as the handler passes it to the interceptor. *)
Definition served {A B} (assert : message → result A) (f : A → io S B) (to : B → message) : message → io S message :=
  λ req, req ← pure (assert req); out ← f req; mret (to out).

(** A request fits: it can be encoded, within the limit of the server. *)
Definition request_fits (maxRecv : Z) (m : message) : Prop :=
  sendable m ∧ ∃ b, proto_Marshal m = inr b ∧ len b ≤ maxRecv.

(** One stub: the request arrives as a copy, at the method [f] of the server. *)
Lemma stub_delivered `{!ProtoLaws} {A B C} cc reg icpt maxRecv desc srv d in_ out p
    (assert : message → result B) (f : B → io S C) (send : C → message) (to : A → message) from :
  grpc_conn cc reg icpt maxRecv → (desc, srv) ∈ reg → d ∈ Methods desc → request_fits maxRecv in_ →
  (∀ m, type_of m = out → ∃ a, m = to a) → (∀ a, from (to a) = Ok a) →
  let method := "/" +:+ ServiceName desc +:+ "/" +:+ MethodName d in
  (∀ dec, Handler d srv dec (Some icpt) = (in' ← pure (dec (type_of in_)); icpt method in' (served assert f send))) →
  ∃ in', same_message in_ in' ∧
    let x := icpt method in' (served assert f send) (begin_call p) in
    replies out x → delivered x (untyped to (invoke cc method in_ out from p)).
Proof.
  intros Hcc Hreg Hd (Hsend & b & Hb & Hlen) Hto Hfrom method Hh.
  destruct (Unmarshal_proto_Marshal in_ b Hsend Hb) as (in' & Hin' & Hsame). exists in'. split; [done|].
  pose proof (invoke_delivered cc reg icpt maxRecv desc srv d in_ out b p to from Hcc Hreg Hd Hb Hlen Hto Hfrom) as Hdel.
  rewrite Hh, Hin' in Hdel. exact Hdel.
Qed.

(** The stub of CreateEntry on a server with this service. *)
Lemma CreateEntry_stub `{!ProtoLaws} cc srv icpt maxRecv p req :
  grpc_conn cc [(Rekor_ServiceDesc, srv)] icpt maxRecv → request_fits maxRecv (msg_CreateEntryRequest req) →
  ∃ req', same_content req req' ∧
    let x := icpt Rekor_CreateEntry_FullMethodName (msg_CreateEntryRequest req')
               (served as_CreateEntryRequest (λ r, rs_CreateEntry srv (Some r)) msg_TransparencyLogEntry) (begin_call p) in
    replies T_TransparencyLogEntry x →
    delivered x (untyped msg_TransparencyLogEntry (rc_CreateEntry (NewRekorClient cc) req p)).
Proof.
  intros Hcc Hfits.
  destruct (stub_delivered cc _ icpt maxRecv _ srv {| MethodName := "CreateEntry"; Handler := _Rekor_CreateEntry_Handler |}
    (msg_CreateEntryRequest req) T_TransparencyLogEntry p as_CreateEntryRequest (λ r, rs_CreateEntry srv (Some r))
    msg_TransparencyLogEntry msg_TransparencyLogEntry as_TransparencyLogEntry Hcc ltac:(by apply list_elem_of_singleton))
    as (in' & Hsame & Hdel); try done.
  - set_solver.
  - intros []; try discriminate; eauto.
  - destruct in' as [req'| | | | |]; try done. by exists req'.
Qed.

Lemma HttpBody_typed m : type_of m = T_HttpBody → ∃ a, m = msg_HttpBody a.
Proof. destruct m; try discriminate; eauto. Qed.

(** The other stubs: their requests have no addresses. *)
Lemma GetTile_stub `{!ProtoLaws} cc srv icpt maxRecv p req :
  grpc_conn cc [(Rekor_ServiceDesc, srv)] icpt maxRecv → request_fits maxRecv (msg_TileRequest req) →
  let x := icpt Rekor_GetTile_FullMethodName (msg_TileRequest req) (served as_TileRequest (λ r, rs_GetTile srv (Some r)) msg_HttpBody) (begin_call p) in
  replies T_HttpBody x → delivered x (untyped msg_HttpBody (rc_GetTile (NewRekorClient cc) req p)).
Proof.
  intros Hcc Hfits.
  destruct (stub_delivered cc _ icpt maxRecv _ srv {| MethodName := "GetTile"; Handler := _Rekor_GetTile_Handler |}
    (msg_TileRequest req) T_HttpBody p as_TileRequest (λ r, rs_GetTile srv (Some r)) msg_HttpBody msg_HttpBody as_HttpBody Hcc ltac:(by apply list_elem_of_singleton))
    as (in' & Hsame & Hdel); try done; [set_solver|apply HttpBody_typed|]. by destruct Hsame.
Qed.

Lemma GetEntryBundle_stub `{!ProtoLaws} cc srv icpt maxRecv p req :
  grpc_conn cc [(Rekor_ServiceDesc, srv)] icpt maxRecv → request_fits maxRecv (msg_EntryBundleRequest req) →
  let x := icpt Rekor_GetEntryBundle_FullMethodName (msg_EntryBundleRequest req) (served as_EntryBundleRequest (λ r, rs_GetEntryBundle srv (Some r)) msg_HttpBody) (begin_call p) in
  replies T_HttpBody x → delivered x (untyped msg_HttpBody (rc_GetEntryBundle (NewRekorClient cc) req p)).
Proof.
  intros Hcc Hfits.
  destruct (stub_delivered cc _ icpt maxRecv _ srv {| MethodName := "GetEntryBundle"; Handler := _Rekor_GetEntryBundle_Handler |}
    (msg_EntryBundleRequest req) T_HttpBody p as_EntryBundleRequest (λ r, rs_GetEntryBundle srv (Some r)) msg_HttpBody msg_HttpBody as_HttpBody Hcc ltac:(by apply list_elem_of_singleton))
    as (in' & Hsame & Hdel); try done; [set_solver|apply HttpBody_typed|]. by destruct Hsame.
Qed.

Lemma GetCheckpoint_stub `{!ProtoLaws} cc srv icpt maxRecv p :
  grpc_conn cc [(Rekor_ServiceDesc, srv)] icpt maxRecv → request_fits maxRecv msg_Empty →
  let x := icpt Rekor_GetCheckpoint_FullMethodName msg_Empty (served as_Empty (rs_GetCheckpoint srv) msg_HttpBody) (begin_call p) in
  replies T_HttpBody x → delivered x (untyped msg_HttpBody (rc_GetCheckpoint (NewRekorClient cc) tt p)).
Proof.
  intros Hcc Hfits.
  destruct (stub_delivered cc _ icpt maxRecv _ srv {| MethodName := "GetCheckpoint"; Handler := _Rekor_GetCheckpoint_Handler |}
    msg_Empty T_HttpBody p as_Empty (rs_GetCheckpoint srv) msg_HttpBody msg_HttpBody as_HttpBody Hcc ltac:(by apply list_elem_of_singleton))
    as (in' & Hsame & Hdel); try done; [set_solver|apply HttpBody_typed|]. by destruct Hsame.
Qed.

(** C21: every stub of the client reaches the method of its name: over a connection to a server on
    which [RegisterRekorServer] registered [srv], a call of each of the four stubs runs, inside
    the server's interceptor, the method of the same name on a copy of the request, and returns
    the method's reply, or the status of its error, with the headers the method set. *)
Theorem stubs_reach_methods `{!ProtoLaws} cc reg srv icpt maxRecv p
    (Hreg : RegisterRekorServer [] srv = Ok reg) (Hcc : grpc_conn cc reg icpt maxRecv) :
  (∀ req, request_fits maxRecv (msg_CreateEntryRequest req) →
    ∃ req', same_content req req' ∧
      let x := icpt Rekor_CreateEntry_FullMethodName (msg_CreateEntryRequest req')
                 (served as_CreateEntryRequest (λ r, rs_CreateEntry srv (Some r)) msg_TransparencyLogEntry) (begin_call p) in
      replies T_TransparencyLogEntry x →
      delivered x (untyped msg_TransparencyLogEntry (rc_CreateEntry (NewRekorClient cc) req p))) ∧
  (∀ req, request_fits maxRecv (msg_TileRequest req) →
    let x := icpt Rekor_GetTile_FullMethodName (msg_TileRequest req)
               (served as_TileRequest (λ r, rs_GetTile srv (Some r)) msg_HttpBody) (begin_call p) in
    replies T_HttpBody x → delivered x (untyped msg_HttpBody (rc_GetTile (NewRekorClient cc) req p))) ∧
  (∀ req, request_fits maxRecv (msg_EntryBundleRequest req) →
    let x := icpt Rekor_GetEntryBundle_FullMethodName (msg_EntryBundleRequest req)
               (served as_EntryBundleRequest (λ r, rs_GetEntryBundle srv (Some r)) msg_HttpBody) (begin_call p) in
    replies T_HttpBody x → delivered x (untyped msg_HttpBody (rc_GetEntryBundle (NewRekorClient cc) req p))) ∧
  (request_fits maxRecv msg_Empty →
    let x := icpt Rekor_GetCheckpoint_FullMethodName msg_Empty
               (served as_Empty (rs_GetCheckpoint srv) msg_HttpBody) (begin_call p) in
    replies T_HttpBody x → delivered x (untyped msg_HttpBody (rc_GetCheckpoint (NewRekorClient cc) tt p))).
Proof.
  injection Hreg as <-. split_and!; intros.
  - by apply (CreateEntry_stub cc srv icpt maxRecv).
  - by eapply GetTile_stub.
  - by eapply GetEntryBundle_stub.
  - by eapply GetCheckpoint_stub.
Qed.
End stubs.
