(* ===== verification/Messages.v ===== *)
(** * pkg/generated/protobuf: the methods of the messages

    What the generated code adds to the message types of [Proto] and
    [RekorGrpc]: [Reset] and a getter for every field.  A getter may be called
    on a nil pointer and then gives the zero value; the getter of one case of
    a oneof gives nil when another case is set. *)
From S2P Require Import Prelude GoErrors Proto Service RekorGrpc.

(** ** Zero values: [T{}] *)

Class Zero (A : Type) := zero : A.
#[export] Hint Mode Zero ! : typeclass_instances.

#[export] Instance zero_bytes : Zero bytes := "".
#[export] Instance zero_uint32 : Zero Z := 0.
#[export] Instance zero_pointer {A} : Zero (option A) := None.
#[export] Instance zero_slice {A} : Zero (list A) := [].
(** Enumerations start with the unspecified value. *)
#[export] Instance zero_KeyDetails : Zero PublicKeyDetails := PublicKeyDetails_other 0.

#[export] Instance zero_PublicKey : Zero pb_PublicKey := {| pk_RawBytes := zero |}.
#[export] Instance zero_Verifier : Zero Verifier := {| Verifier_Verifier := zero; KeyDetails := zero |}.
#[export] Instance zero_Signature : Zero Signature := {| Content := zero; Signature_Verifier := zero |}.
#[export] Instance zero_HashedRekordRequest : Zero HashedRekordRequestV002 := {| hr_Digest := zero; hr_Signature := zero |}.
#[export] Instance zero_HashedRekordLogEntry : Zero HashedRekordLogEntryV002 := {| hre_Data := zero; hre_Signature := zero |}.
#[export] Instance zero_DSSERequest : Zero DSSERequestV002 := {| ds_Envelope := zero; ds_Verifiers := zero |}.
#[export] Instance zero_DSSELogEntry : Zero DSSELogEntryV002 := {| dse_PayloadHash := zero; dse_Signatures := zero |}.
#[export] Instance zero_Spec : Zero Spec := {| Spec_Spec := zero |}.
#[export] Instance zero_Entry : Zero Entry := {| Kind := zero; ApiVersion := zero; Entry_Spec := zero |}.
#[export] Instance zero_CreateEntryRequest : Zero CreateEntryRequest := {| Request_Spec := zero |}.
#[export] Instance zero_TileRequest : Zero TileRequest := {| tr_L := zero; tr_N := zero |}.
#[export] Instance zero_EntryBundleRequest : Zero EntryBundleRequest := {| ebr_N := zero |}.

(** [*x = T{}], which dereferences x: the message afterwards. *)
Definition Reset {A} `{Zero A} (x : option A) : result A := _ ← deref x; Ok zero.

(** ** Getters *)

(** [if x != nil { return x.F }; return zero] *)
Definition get_field {A B} `{Zero B} (field : A → B) (x : option A) : B :=
  match x with Some x => field x | None => zero end.

(** [if x != nil { if x, ok := x.Oneof.( *Case); ok { return x.Field } }; return nil] *)
Definition get_case {A O B} (oneof : A → option O) (case : O → option (option B)) (x : option A) : option B :=
  match x with
  | Some x => match oneof x ≫= case with Some b => b | None => None end
  | None => None
  end.

(** verifier.pb.go *)
Definition PublicKey_GetRawBytes := get_field pk_RawBytes.
Definition Verifier_GetVerifier := get_field Verifier_Verifier.
Definition Verifier_GetPublicKey := get_case Verifier_Verifier (λ o, match o with Verifier_PublicKey k => Some k | _ => None end).
Definition Verifier_GetX509Certificate :=
  get_case Verifier_Verifier (λ o, match o with Verifier_X509Certificate c => Some c | _ => None end).
Definition Verifier_GetKeyDetails := get_field KeyDetails.
Definition Signature_GetContent := get_field Content.
Definition Signature_GetVerifier := get_field Signature_Verifier.

(** hashedrekord.pb.go *)
Definition HashedRekordRequestV002_GetDigest := get_field hr_Digest.
Definition HashedRekordRequestV002_GetSignature := get_field hr_Signature.
Definition HashedRekordLogEntryV002_GetData := get_field hre_Data.
Definition HashedRekordLogEntryV002_GetSignature := get_field hre_Signature.

(** dsse.pb.go *)
Definition DSSERequestV002_GetEnvelope := get_field ds_Envelope.
Definition DSSERequestV002_GetVerifiers := get_field ds_Verifiers.
Definition DSSELogEntryV002_GetPayloadHash := get_field dse_PayloadHash.
Definition DSSELogEntryV002_GetSignatures := get_field dse_Signatures.

(** entry.pb.go *)
Definition Entry_GetKind := get_field Kind.
Definition Entry_GetApiVersion := get_field ApiVersion.
Definition Entry_GetSpec := get_field Entry_Spec.
Definition Spec_GetSpec := get_field Spec_Spec.
Definition Spec_GetHashedRekordV002 := get_case Spec_Spec (λ o, match o with Spec_HashedRekordV002 e => Some e | _ => None end).
Definition Spec_GetDsseV002 := get_case Spec_Spec (λ o, match o with Spec_DsseV002 e => Some e | _ => None end).
Definition CreateEntryRequest_GetSpec := get_field Request_Spec.
Definition CreateEntryRequest_GetHashedRekordRequestV002 :=
  get_case Request_Spec (λ o, match o with CreateEntryRequest_HashedRekordRequestV002 r => Some r | _ => None end).
Definition CreateEntryRequest_GetDsseRequestV002 :=
  get_case Request_Spec (λ o, match o with CreateEntryRequest_DsseRequestV002 r => Some r | _ => None end).

(** rekor_service.pb.go *)
Definition GetL := get_field tr_L.
Definition GetN := get_field tr_N.
Definition Bundle_GetN := get_field ebr_N.

(** ** The getters the handlers are modelled with *)

Lemma handler_getters :
  (∀ x, GetRawBytes x = PublicKey_GetRawBytes x) ∧ (∀ x, GetPublicKey x = Verifier_GetPublicKey x) ∧
  (∀ x, GetX509Certificate x = Verifier_GetX509Certificate x) ∧ (∀ x, GetSpec x = CreateEntryRequest_GetSpec x) ∧
  (∀ x, TileRequest_GetL x = GetL x) ∧ (∀ x, TileRequest_GetN x = GetN x) ∧ (∀ x, EntryBundleRequest_GetN x = Bundle_GetN x).
Proof. split_and!; try done; by intros [[[[]|] ?]|]. Qed.

(** A message after [Reset] answers every getter as a nil message does. *)
Theorem reset_like_nil {A B} `{Zero A, Zero B} (field : A → B) (x : option A) y :
  field zero = zero → Reset x = Ok y → get_field field (Some y) = get_field field None.
Proof. intros Hf Hr. apply bind_Ok in Hr as (a & _ & [= <-]). exact Hf. Qed.

(** The two cases of a request exclude each other, and say what [GetSpec] does. *)
Theorem request_cases x :
  match CreateEntryRequest_GetSpec x with
  | Some (CreateEntryRequest_HashedRekordRequestV002 r) =>
      CreateEntryRequest_GetHashedRekordRequestV002 x = r ∧ CreateEntryRequest_GetDsseRequestV002 x = None
  | Some (CreateEntryRequest_DsseRequestV002 r) =>
      CreateEntryRequest_GetHashedRekordRequestV002 x = None ∧ CreateEntryRequest_GetDsseRequestV002 x = r
  | None => CreateEntryRequest_GetHashedRekordRequestV002 x = None ∧ CreateEntryRequest_GetDsseRequestV002 x = None
  end.
Proof. by destruct x as [[[[]|]]|]. Qed.
