(* ===== verification/Gateway.v ===== *)
(** * internal/server/http.go, grpcstats.go, logging.go: around the handlers

    The functions the HTTP gateway and the gRPC server call around each
    request: the response modifier and error handler of the gateway, the
    filter for forwarded headers, the request-size statistics and the filter
    of the request log. *)
From S2P Require Import Prelude GoErrors GoStrings Proto External IO Note TesseraLib Storage Service.

(** ** HTTP responses *)

(** A header map: [http.Header] and [metadata.MD]. *)
Abbreviation header_map := (gmap string (list string)) (only parsing).

(** An [http.ResponseWriter]: the header map, the status once written, the body. *)
Record response := { w_Header : header_map; w_status : option Z; w_body : bytes }.

(** [WriteHeader]: net/http panics on a code that is not three digits long; only the first call counts. *)
Definition WriteHeader (code : Z) (w : response) : result response :=
  if (code <? 100) || (code >? 999) then Panic
  else Ok {| w_Header := w_Header w;
             w_status := match w_status w with Some c => Some c | None => Some code end;
             w_body := w_body w |}.

(** [Write]: sends status 200 first if none was written. *)
Definition Write (data : bytes) (w : response) : response :=
  {| w_Header := w_Header w;
     w_status := match w_status w with Some c => Some c | None => Some 200 end;
     w_body := w_body w +:+ data |}.

(** What the handlers of the gateway see and change: the response, and the
    metadata in the context, if any (a map that is shared, so that deletions
    from it stay). *)
Record gw := { gw_w : response; gw_md : option header_map }.

(** [MD.Get]: keys are stored in lower case. *)
Definition Get (md : header_map) (k : string) : list string := default [] (md !! k).

(** Metadata from the pairs a handler set, in order. *)
Definition md_of (pairs : MD) : header_map :=
  foldl (λ md kv, <[kv.1 := Get md kv.1 ++ [kv.2]]> md) ∅ pairs.

(** The error handler of grpc-gateway that the program falls back to. *)
Class GatewayLib := { DefaultHTTPErrorHandler : error → response → response }.

(** ** http.go *)

Definition set_w (w : response) (g : gw) : gw := {| gw_w := w; gw_md := gw_md g |}.
Definition set_md (md : header_map) (g : gw) : gw := {| gw_w := gw_w g; gw_md := Some md |}.

(** [for header := range w.Header() { if strings.HasPrefix(header, "Grpc-") { delete(...) } }] *)
Definition delete_grpc_headers (h : header_map) : header_map :=
  filter (λ kv, HasPrefix kv.1 "Grpc-" = false) h.

Definition httpResponseModifier : io gw unit :=
  md0 ← gets gw_md;
  match md0 with
  | None => mret tt
  | Some md =>
      _ ← modify (λ g, set_w {| w_Header := delete_grpc_headers (w_Header (gw_w g));
                                w_status := w_status (gw_w g); w_body := w_body (gw_w g) |} g);
      _ ← match Get md httpStatusCodeHeader with
          | [] => mret tt
          | v :: _ =>
              code ← pure (Atoi v);
              _ ← modify (set_md (delete httpStatusCodeHeader md));
              w ← gets gw_w;
              w' ← pure (WriteHeader code w);
              modify (set_w w')
          end;
      md ← gets (λ g, default ∅ (gw_md g));
      match Get md httpErrorMessageHeader with
      | [] => mret tt
      | msg :: _ =>
          _ ← modify (set_md (delete httpErrorMessageHeader md));
          modify (λ g, set_w (Write (msg +:+ String "010" "") (gw_w g)) g)
      end
  end.

Section handlers.
Context `{GatewayLib}.

Definition customHTTPErrorHandler (err : error) : io gw unit :=
  let fallback e := modify (λ g, set_w (DefaultHTTPErrorHandler e (gw_w g)) g) in
  md0 ← gets gw_md;
  match md0 with
  | None => fallback err
  | Some md =>
      match Get md httpStatusCodeHeader with
      | [] => fallback err
      | _ =>
          r ← try httpResponseModifier;
          match r with
          | inl e => fallback e
          | inr _ => mret tt
          end
      end
  end.
End handlers.

Definition forwardHeaderHandler (key : string) : string * bool :=
  if bool_decide (key = duplicateEntryHeader) then (key, true) else ("", false).

(** ** grpcstats.go *)

Definition splitFullMethodName (fullMethod : string) : string * string :=
  let fullMethod := TrimPrefix fullMethod "/" in
  match Index fullMethod "/" with
  | Some i => (slice_to fullMethod i, slice_from fullMethod (i + 1))
  | None => ("unknown", "unknown")
  end.

(** [stats.RPCStats]: an incoming payload with its length on the wire, or another event. *)
Inductive RPCStats := InPayload (WireLength : Z) | OtherStats.

(** The observations of the histogram [grpcRequestSize]: service, method, part and size. *)
Abbreviation observations := (list (string * string * string * Z)) (only parsing).

(** [TagRPC] stores the method name in the context; [HandleRPC] reads it back. *)
Definition TagRPC (ctx : option string) (FullMethodName : string) : option string := Some FullMethodName.

Definition HandleRPC (ctx : option string) (stat : RPCStats) (grpcRequestSize : observations) : observations :=
  match ctx with
  | None => grpcRequestSize
  | Some fullMethodName =>
      let '(service, method) := splitFullMethodName fullMethodName in
      match stat with
      | InPayload size => grpcRequestSize ++ [(service, method, "payload", size)]
      | OtherStats => grpcRequestSize
      end
  end.

(** ** logging.go *)

(** A field of a log record: a value of type [any]. *)
Inductive any := any_string (s : string) | any_other.

(** Whether some field is the key "grpc.service" followed by the health service. *)
Fixpoint health_fields (fields : list any) : bool :=
  match fields with
  | any_string key :: ((any_string value :: _) as rest) =>
      (bool_decide (key = "grpc.service") && bool_decide (value = "grpc.health.v1.Health")) || health_fields rest
  | _ :: rest => health_fields rest
  | [] => false
  end.

Definition call_events : list string :=
  ["request received"; "request sent"; "response received"; "response sent"; "finished call"].

(** [None]: nothing is logged; otherwise the record handed to the logger. *)
Definition interceptorLogger (lvl : Z) (msg : string) (fields : list any) : option (Z * string * list any) :=
  if bool_decide (msg ∈ call_events) && health_fields fields then None else Some (lvl, msg, fields).

Inductive LoggableEvent := FinishCall | PayloadReceived | PayloadSent.
Definition LevelDebug : Z := -4.
Definition LevelInfo : Z := 0.

Definition loggingOpts (level : Z) (requestResponseLogging : bool) : list LoggableEvent :=
  if level =? LevelDebug
  then [FinishCall] ++ (if requestResponseLogging then [PayloadReceived; PayloadSent] else [])
  else [].

(** ** Lemmas *)

Lemma delete_grpc_headers_spec h k :
  is_Some (delete_grpc_headers h !! k) → HasPrefix k "Grpc-" = false.
Proof. intros [v Hv]. apply map_lookup_filter_Some in Hv as [_ Hk]. exact Hk. Qed.

Lemma delete_grpc_headers_idemp h : delete_grpc_headers (delete_grpc_headers h) = delete_grpc_headers h.
Proof. unfold delete_grpc_headers. rewrite map_filter_filter. apply map_filter_ext. naive_solver. Qed.

Lemma Get_delete_ne (md : header_map) k k' : k ≠ k' → Get (delete k md) k' = Get md k'.
Proof. intros. unfold Get. by rewrite lookup_delete_ne. Qed.

Lemma Get_delete_eq (md : header_map) k : Get (delete k md) k = [].
Proof. unfold Get. by rewrite lookup_delete_eq. Qed.

(** [httpResponseModifier] as a function of what the metadata holds. *)
Lemma httpResponseModifier_eq w md :
  httpResponseModifier {| gw_w := w; gw_md := Some md |} =
  let w1 := {| w_Header := delete_grpc_headers (w_Header w); w_status := w_status w; w_body := w_body w |} in
  let finish w md :=
    match Get md httpErrorMessageHeader with
    | [] => (Ok tt, {| gw_w := w; gw_md := Some md |})
    | msg :: _ => (Ok tt, {| gw_w := Write (msg +:+ String "010" "") w; gw_md := Some (delete httpErrorMessageHeader md) |})
    end in
  match Get md httpStatusCodeHeader with
  | [] => finish w1 md
  | v :: _ =>
      match Atoi v with
      | Ok code =>
          let md' := delete httpStatusCodeHeader md in
          match WriteHeader code w1 with
          | Ok w2 => finish w2 md'
          | Err e => (Err e, {| gw_w := w1; gw_md := Some md' |})
          | Panic => (Panic, {| gw_w := w1; gw_md := Some md' |})
          end
      | Err e => (Err e, {| gw_w := w1; gw_md := Some md |})
      | Panic => (Panic, {| gw_w := w1; gw_md := Some md |})
      end
  end.
Proof.
  unfold httpResponseModifier, mbind, io_bind, io_bind_def, gets, modify, pure, set_w, set_md. cbn -[Get Atoi WriteHeader Write].
  destruct (Get md httpStatusCodeHeader) as [|v vs]; cbn -[Get Atoi WriteHeader Write].
  { by destruct (Get md httpErrorMessageHeader). }
  destruct (Atoi v) as [code|e|]; cbn -[Get Atoi WriteHeader Write]; [|done..].
  destruct (WriteHeader code _) as [w2|e|]; cbn -[Get Atoi WriteHeader Write]; [|done..].
  by destruct (Get (delete httpStatusCodeHeader md) httpErrorMessageHeader).
Qed.

Lemma health_fields_spec fields :
  health_fields fields = true ↔
  ∃ i, fields !! i = Some (any_string "grpc.service") ∧ fields !! S i = Some (any_string "grpc.health.v1.Health").
Proof.
  induction fields as [|f fields IH]; [split; [done|by intros (i & ? & _)]|].
  assert (Hstep : (∃ i, (f :: fields) !! i = Some (any_string "grpc.service") ∧
                        (f :: fields) !! S i = Some (any_string "grpc.health.v1.Health")) ↔
    (f = any_string "grpc.service" ∧ fields !! 0%nat = Some (any_string "grpc.health.v1.Health")) ∨
    health_fields fields = true).
  { rewrite IH. split.
    - intros ([|i] & H1 & H2); cbn in H1, H2; [left; by injection H1 as ->|right; by exists i].
    - intros [[-> H0]|(i & H1 & H2)]; [by exists 0%nat|by exists (S i)]. }
  rewrite Hstep. destruct f as [key|], fields as [|[value|] rest]; cbn [health_fields lookup list_lookup].
  all: try (rewrite orb_true_iff, andb_true_iff, !bool_decide_eq_true).
  all: split; [try tauto|]; try (intros [[H1 H2]|?]; [|done]); try (by simplify_eq); naive_solver.
Qed.

(** ** Theorems *)

Section gateway.
Context `{X509, SigstoreSignature, !DsseLib, Tessera, JsonLib, GatewayLib}.

(** A call to a frozen log, through the gateway: with the headers CreateEntry sets on a
    read-only server, the error handler writes status 405 and the message about the frozen log
    as the body, drops every header that starts with Grpc-, leaves none of the internal headers
    in the metadata and never reaches the default error handler. *)
Lemma frozen_response o1 o2 o3 st reg id req wld m w err r
    (Hr : (CreateEntry o1 o2 o3 (NewServer st true reg id) req (Build_rpc wld [] m)).2 = r)
    (Hw : w_status w = None) :
  customHTTPErrorHandler err {| gw_w := w; gw_md := Some (md_of (rpc_header r)) |} =
  (Ok tt, {| gw_w := {| w_Header := delete_grpc_headers (w_Header w);
                        w_status := Some 405;
                        w_body := w_body w +:+ "This log has been frozen, please switch to the latest log." +:+ String "010" "" |};
             gw_md := Some ∅ |}).
Proof.
  subst r. unfold customHTTPErrorHandler, mbind, io_bind, io_bind_def, gets, try. cbn -[httpResponseModifier md_of].
  match goal with |- context [md_of ?l] => set (md := md_of l) end.
  assert (Get md httpStatusCodeHeader = ["405"]) as -> by reflexivity.
  rewrite httpResponseModifier_eq.
  assert (Get md httpStatusCodeHeader = ["405"]) as -> by reflexivity.
  cbn -[Get md delete Write delete_grpc_headers]. rewrite Hw.
  assert (Get (delete httpStatusCodeHeader md) httpErrorMessageHeader =
    ["This log has been frozen, please switch to the latest log."]) as -> by reflexivity.
  cbn -[md delete delete_grpc_headers]. do 3 f_equal.
Qed.

(** When the response modifier succeeds (the status header, if set, is a three-digit
    number), no header that starts with Grpc- and none of the two internal headers is
    left, and running it again changes nothing. *)
Theorem httpResponseModifier_cleans w md g'
    (Hok : httpResponseModifier {| gw_w := w; gw_md := Some md |} = (Ok tt, g')) :
  (∀ k, is_Some (w_Header (gw_w g') !! k) → HasPrefix k "Grpc-" = false) ∧
  (∃ md', gw_md g' = Some md' ∧ Get md' httpStatusCodeHeader = [] ∧ Get md' httpErrorMessageHeader = []) ∧
  httpResponseModifier g' = (Ok tt, g').
Proof.
  assert (Hclean : ∀ w1 md1, delete_grpc_headers (w_Header w1) = w_Header w1 →
    Get md1 httpStatusCodeHeader = [] → Get md1 httpErrorMessageHeader = [] →
    g' = {| gw_w := w1; gw_md := Some md1 |} →
    (∀ k, is_Some (w_Header (gw_w g') !! k) → HasPrefix k "Grpc-" = false) ∧
    (∃ md', gw_md g' = Some md' ∧ Get md' httpStatusCodeHeader = [] ∧ Get md' httpErrorMessageHeader = []) ∧
    httpResponseModifier g' = (Ok tt, g')).
  { intros w1 md1 Hd Hg1 Hg2 ->. split_and!.
    - cbn. intros k. rewrite <-Hd. apply delete_grpc_headers_spec.
    - eauto.
    - rewrite httpResponseModifier_eq. cbn zeta. rewrite Hg1, Hg2, Hd. by destruct w1. }
  rewrite httpResponseModifier_eq in Hok. cbn zeta in Hok.
  destruct (Get md httpStatusCodeHeader) as [|v vs] eqn:Hs.
  - destruct (Get md httpErrorMessageHeader) as [|msg ms] eqn:Hm; injection Hok as Hok; symmetry in Hok.
    + eapply Hclean; [|done|done|exact Hok]. cbn. apply delete_grpc_headers_idemp.
    + eapply Hclean; [| | |exact Hok]; cbn; [apply delete_grpc_headers_idemp| |apply Get_delete_eq].
      by rewrite Get_delete_ne.
  - destruct (Atoi v) as [code|e|]; [|discriminate..]. unfold WriteHeader in Hok.
    destruct (_ || _); [discriminate|]. cbn zeta in Hok. rewrite Get_delete_ne in Hok by done.
    destruct (Get md httpErrorMessageHeader) as [|msg ms] eqn:Hm; injection Hok as Hok; symmetry in Hok.
    + eapply Hclean; [| | |exact Hok]; cbn; [apply delete_grpc_headers_idemp|apply Get_delete_eq|by rewrite Get_delete_ne].
    + eapply Hclean; [| | |exact Hok]; cbn; [apply delete_grpc_headers_idemp| |apply Get_delete_eq].
      rewrite Get_delete_ne by done. apply Get_delete_eq.
Qed.

(** The duplicate index survives the way to an HTTP client: the value CreateEntry puts in
    x-log-index is under the one key the gateway forwards, and reading it back as a number gives
    the index; the internal headers are not forwarded. *)
Theorem duplicate_index_forwarded (ix : Z) (Hix : 0 ≤ ix ≤ MaxInt64) :
  let md := md_of [(duplicateEntryHeader, FormatUint ix)] in
  forwardHeaderHandler duplicateEntryHeader = (duplicateEntryHeader, true) ∧
  (v ← Ok (Get md duplicateEntryHeader); match v with v :: _ => Atoi v | [] => Panic end) = Ok ix ∧
  (∀ k k', forwardHeaderHandler k = (k', true) → k = duplicateEntryHeader ∧ k' = k).
Proof.
  cbn zeta. split_and!; [done| |].
  - cbn -[Atoi FormatUint]. by apply Atoi_FormatUint.
  - intros k k'. unfold forwardHeaderHandler. destruct (bool_decide _) eqn:Hb; [|done].
    apply bool_decide_eq_true in Hb. by intros [= <-].
Qed.
End gateway.

Lemma Index_append_slash s m :
  Contains s "/" = false → Index (s +:+ "/" +:+ m) "/" = Some (String.length s).
Proof.
  unfold Contains, Index. induction s as [|c s IH]; intros Hc; [by destruct m|].
  change (String c s +:+ "/" +:+ m) with (String c (s +:+ "/" +:+ m)).
  change (String.index 0 "/" (String c s)) with
    (if String.prefix "/" (String c s) then Some 0%nat
     else match String.index 0 "/" s with Some n => Some (S n) | None => None end) in Hc.
  change (String.index 0 "/" (String c (s +:+ "/" +:+ m))) with
    (if String.prefix "/" (String c (s +:+ "/" +:+ m)) then Some 0%nat
     else match String.index 0 "/" (s +:+ "/" +:+ m) with Some n => Some (S n) | None => None end).
  assert (String.prefix "/" (String c (s +:+ "/" +:+ m)) = String.prefix "/" (String c s)) as ->.
  { assert (Hp : ∀ t, String.prefix "/" (String c t) = if ascii_dec "/" c then true else false).
    { intros t. change (String.prefix "/" (String c t)) with (if ascii_dec "/" c then String.prefix "" t else false).
      by destruct t. }
    by rewrite !Hp. }
  destruct (String.prefix "/" (String c s)); [done|].
  destruct (String.index 0 "/" s); [done|]. by rewrite IH.
Qed.

(** Request sizes are recorded under the right labels: for the full method name of a
    service whose name has no slash, the tagged call is observed under that service and method;
    other events are not observed. *)
Theorem HandleRPC_labels ctx service method size obs
    (Hs : Contains service "/" = false) :
  HandleRPC (TagRPC ctx ("/" +:+ service +:+ "/" +:+ method)) (InPayload size) obs =
    obs ++ [(service, method, "payload", size)] ∧
  HandleRPC (TagRPC ctx ("/" +:+ service +:+ "/" +:+ method)) OtherStats obs = obs.
Proof.
  assert (splitFullMethodName ("/" +:+ service +:+ "/" +:+ method) = (service, method)) as Hsplit.
  { unfold splitFullMethodName. rewrite TrimPrefix_append, Index_append_slash by done.
    unfold slice_to, slice_from. rewrite substring_append_l. f_equal.
    rewrite !length_append. replace (service +:+ "/" +:+ method) with ((service +:+ "/") +:+ method) by apply append_assoc.
    replace (String.length service + 1)%nat with (String.length (service +:+ "/")) by (by rewrite length_append).
    rewrite substring_append_r. rewrite length_append. cbn [String.length].
    replace (_ - _)%nat with (String.length method) by lia. apply substring_full. }
  unfold HandleRPC, TagRPC. by rewrite Hsplit.
Qed.

(** The request log leaves out exactly the call events of the health service: a record is
    dropped if and only if its message is one of the five call events and some field
    "grpc.service" is followed by the name of the health service; every other record is logged
    unchanged. *)
Theorem interceptorLogger_spec lvl msg fields :
  (interceptorLogger lvl msg fields = None ↔
   msg ∈ call_events ∧
   ∃ i, fields !! i = Some (any_string "grpc.service") ∧ fields !! S i = Some (any_string "grpc.health.v1.Health")) ∧
  (∀ r, interceptorLogger lvl msg fields = Some r → r = (lvl, msg, fields)).
Proof.
  unfold interceptorLogger. rewrite <-health_fields_spec.
  destruct (bool_decide (msg ∈ call_events)) eqn:Hb, (health_fields fields) eqn:Hh; cbn.
  all: first [apply bool_decide_eq_true in Hb|apply bool_decide_eq_false in Hb].
  all: split; [split; [try done|intros [? ?]; done]|by intros r [= <-]].
Qed.
