(* ===== verification/RekorGateway.v ===== *)
(** * pkg/generated/protobuf/rekor_service.pb.gw.go: HTTP routes of the service

    The compiled path patterns, the functions that turn an HTTP request into a
    call of a stub (or, for a server in the same process, of a method), the
    handlers around them and their registration. *)
From S2P Require Import Prelude GoErrors GoStrings GoPath Proto External IO Service Gateway RekorGrpc.

(** ** The runtime of grpc-gateway *)

(** What a handler reads of an HTTP request: the method, the path and the body. *)
Record server_request := { sr_Method : string; sr_Path : string; sr_Body : bytes }.

(** Decoding and encoding of bodies by the mux's marshaler, conversion of path
    parameters, the annotation of the context, and path patterns: [NewPattern]
    takes a version, opcodes with their operands, a pool of strings and a verb,
    and a pattern matches the components of a path, binding variables. *)
Class GatewayRuntime := {
  decode_body : msg_type → bytes → error + message;
  encode_body : message → error + bytes;
  runtime_Uint32 : string → error + Z;
  runtime_String : string → error + string;
  AnnotateContext : server_request → string → string → error + unit;
  AnnotateIncomingContext : server_request → string → string → error + unit;
  Pattern : Type;
  NewPattern : Z → list Z → list string → string → error + Pattern;
  (** the pattern of a path template, as [mux.HandlePath] compiles it *)
  path_pattern : string → error + Pattern;
  MatchPattern : Pattern → list string → option (gmap string string)
}.

(** The options of a mux that the program sets. *)
Record mux_options := {
  mo_errorHandler : error → io gw unit;
  mo_forwardResponse : list (io gw unit);
  mo_outgoingHeader : string → string * bool
}.

(** [runtime.HTTPError]: the error handler of the mux. *)
Definition HTTPError (o : mux_options) (err : error) : io gw unit := mo_errorHandler o err.

Section gateway.
Context `{GatewayRuntime} {P : Type}.

(** A handler works on the response and on the state of the process. *)
Definition HandlerFunc : Type := server_request → gmap string string → io (gw * P) unit.

Record route := { rt_method : string; rt_pattern : Pattern; rt_handler : HandlerFunc }.

(** A [runtime.ServeMux]: its options, and the routes in the order of registration. *)
Record ServeMux := { mux_options_of : mux_options; mux_routes : list route }.

Definition Handle (mux : ServeMux) (meth : string) (pat : Pattern) (h : HandlerFunc) : ServeMux :=
  {| mux_options_of := mux_options_of mux;
     mux_routes := mux_routes mux ++ [{| rt_method := meth; rt_pattern := pat; rt_handler := h |}] |}.

(** [runtime.MustPattern] *)
Definition MustPattern (p : error + Pattern) : result Pattern :=
  match p with inr p => Ok p | inl _ => Panic end.

(** ** The patterns *)

Definition ops_CreateEntry : list Z := [2; 0; 2; 1; 2; 2; 2; 3].
Definition pool_CreateEntry : list string := ["api"; "v2"; "log"; "entries"].
Definition ops_GetTile : list Z := [2; 0; 2; 1; 2; 2; 1; 0; 4; 1; 5; 3; 3; 0; 4; 1; 5; 4].
Definition pool_GetTile : list string := ["api"; "v2"; "tile"; "L"; "N"].
Definition ops_GetEntryBundle : list Z := [2; 0; 2; 1; 2; 2; 2; 3; 3; 0; 4; 1; 5; 4].
Definition pool_GetEntryBundle : list string := ["api"; "v2"; "tile"; "entries"; "N"].
Definition ops_GetCheckpoint : list Z := [2; 0; 2; 1; 2; 2].
Definition pool_GetCheckpoint : list string := ["api"; "v2"; "checkpoint"].

Definition pattern_Rekor_CreateEntry_0 : result Pattern := MustPattern (NewPattern 1 ops_CreateEntry pool_CreateEntry "").
Definition pattern_Rekor_GetTile_0 : result Pattern := MustPattern (NewPattern 1 ops_GetTile pool_GetTile "").
Definition pattern_Rekor_GetEntryBundle_0 : result Pattern :=
  MustPattern (NewPattern 1 ops_GetEntryBundle pool_GetEntryBundle "").
Definition pattern_Rekor_GetCheckpoint_0 : result Pattern := MustPattern (NewPattern 1 ops_GetCheckpoint pool_GetCheckpoint "").

(** The templates that the handlers pass to [runtime.WithHTTPPathPattern]. *)
Definition path_CreateEntry : string := "/api/v2/log/entries".
Definition path_GetTile : string := "/api/v2/tile/{L}/{N=**}".
Definition path_GetEntryBundle : string := "/api/v2/tile/entries/{N=**}".
Definition path_GetCheckpoint : string := "/api/v2/checkpoint".

(** ** Requests *)

Definition invalid_argument {A} (text : string) : error + A := inl (StatusError InvalidArgument text).

(** Decoding the body into a message of the type: an error other than [io.EOF]
    is an invalid argument; at the end of the input the message stays empty. *)
Definition decode_CreateEntryRequest (body : bytes) : error + CreateEntryRequest :=
  match decode_body T_CreateEntryRequest body with
  | inl err => if errors_Is err EOF then inr {| Request_Spec := None |} else invalid_argument (Error err)
  | inr (msg_CreateEntryRequest m) => inr m
  | inr _ => invalid_argument "unexpected message"
  end.

(** [val, ok := pathParams[name]; x, err = conv(val)] *)
Definition path_param {A} (pathParams : gmap string string) (name : string) (conv : string → error + A) : error + A :=
  match pathParams !! name with
  | None => invalid_argument ("missing parameter " +:+ name)
  | Some val =>
      match conv val with
      | inl err => invalid_argument ("type mismatch, parameter: " +:+ name +:+ ", error: " +:+ Error err)
      | inr x => inr x
      end
  end.

Definition tile_request (pathParams : gmap string string) : error + TileRequest :=
  match path_param pathParams "L" runtime_Uint32 with
  | inl err => inl err
  | inr l => match path_param pathParams "N" runtime_String with
             | inl err => inl err
             | inr n => inr {| tr_L := l; tr_N := n |}
             end
  end.

Definition bundle_request (pathParams : gmap string string) : error + EntryBundleRequest :=
  match path_param pathParams "N" runtime_String with
  | inl err => inl err
  | inr n => inr {| ebr_N := n |}
  end.

(** A stub's call, made only when the request could be built. *)
Definition call_stub {A B} (in_ : error + A) (stub : A → rpc_call P B) (to : B → message) : rpc_call P message := λ p,
  match in_ with
  | inl err => (inl err, [], p)
  | inr in_ => match stub in_ p with
               | (inl err, md, p') => (inl err, md, p')
               | (inr out, md, p') => (inr (to out), md, p')
               end
  end.

Definition request_Rekor_CreateEntry_0 (client : RekorClient P) (req : server_request) (pathParams : gmap string string)
    : rpc_call P message :=
  call_stub (decode_CreateEntryRequest (sr_Body req)) (rc_CreateEntry client) msg_TransparencyLogEntry.

Definition request_Rekor_GetTile_0 (client : RekorClient P) (req : server_request) (pathParams : gmap string string)
    : rpc_call P message :=
  call_stub (tile_request pathParams) (rc_GetTile client) msg_HttpBody.

Definition request_Rekor_GetEntryBundle_0 (client : RekorClient P) (req : server_request) (pathParams : gmap string string)
    : rpc_call P message :=
  call_stub (bundle_request pathParams) (rc_GetEntryBundle client) msg_HttpBody.

Definition request_Rekor_GetCheckpoint_0 (client : RekorClient P) (req : server_request) (pathParams : gmap string string)
    : rpc_call P message :=
  call_stub (inr tt) (rc_GetCheckpoint client) msg_HttpBody.

(** The same on a server in the same process. *)
Section local.
Context {S : Type} `{CallState P S}.

Definition call_method {A B} (in_ : error + A) (method : A → io S B) (to : B → message) : io S message :=
  in_ ← pure (lift in_); out ← method in_; mret (to out).

Definition local_request_Rekor_CreateEntry_0 (server : RekorServer S) (req : server_request) (pathParams : gmap string string)
    : io S message :=
  call_method (decode_CreateEntryRequest (sr_Body req)) (λ r, rs_CreateEntry server (Some r)) msg_TransparencyLogEntry.

Definition local_request_Rekor_GetTile_0 (server : RekorServer S) (req : server_request) (pathParams : gmap string string)
    : io S message :=
  call_method (tile_request pathParams) (λ r, rs_GetTile server (Some r)) msg_HttpBody.

Definition local_request_Rekor_GetEntryBundle_0 (server : RekorServer S) (req : server_request) (pathParams : gmap string string)
    : io S message :=
  call_method (bundle_request pathParams) (λ r, rs_GetEntryBundle server (Some r)) msg_HttpBody.

Definition local_request_Rekor_GetCheckpoint_0 (server : RekorServer S) (req : server_request) (pathParams : gmap string string)
    : io S message :=
  call_method (inr tt) (rs_GetCheckpoint server) msg_HttpBody.
End local.
End gateway.
Arguments HandlerFunc : clear implicits.
Arguments route {_} _.
Arguments ServeMux {_} _.

(** ** Handlers and registration *)

(** The rest of the runtime: forwarding a reply, and serving a request. *)
Class MuxLib `{GatewayRuntime} := {
  ForwardResponseMessage : mux_options → message → io gw unit;
  ServeHTTP : ∀ {P}, ServeMux P → server_request → io (gw * P) unit
}.

Section handlers.
Context `{MuxLib} {P : Type}.

(** On the response, with the state of the process left alone. *)
Definition respond (m : io gw unit) : io (gw * P) unit := zoom fst (λ g s, (g, s.2)) m.

(** A context with, or without, the metadata of the call. *)
Definition with_metadata (md : option MD) : io (gw * P) unit :=
  modify (λ s, ({| gw_w := gw_w s.1; gw_md := match md with Some md => Some (md_of md) | None => None end |}, s.2)).

(** What every handler that [RegisterRekorHandlerClient] registers does, given
    the full method, the path template and the request function. *)
Definition client_handler (o : mux_options) (method path : string)
    (request : server_request → gmap string string → rpc_call P message) : HandlerFunc P := λ req pathParams,
  match AnnotateContext req method path with
  | inl err => _ ← with_metadata None; respond (HTTPError o err)
  | inr _ => λ s,
      let '(resp, md, p) := request req pathParams s.2 in
      (_ ← with_metadata (Some md);
       match resp with
       | inl err => respond (HTTPError o err)
       | inr resp => respond (ForwardResponseMessage o resp)
       end) (s.1, p)
  end.

(** The same for a server in the process; a panic of the method is one of the handler. *)
Definition server_handler {S : Type} `{CallState P S} (o : mux_options) (method path : string)
    (request : server_request → gmap string string → io S message) : HandlerFunc P := λ req pathParams,
  match AnnotateIncomingContext req method path with
  | inl err => _ ← with_metadata None; respond (HTTPError o err)
  | inr _ => λ s,
      match request req pathParams (begin_call s.2) with
      | (Panic, s') => (Panic, (s.1, end_call s'))
      | (Err err, s') => (_ ← with_metadata (Some (call_header s')); respond (HTTPError o err)) (s.1, end_call s')
      | (Ok resp, s') =>
          (_ ← with_metadata (Some (call_header s')); respond (ForwardResponseMessage o resp)) (s.1, end_call s')
      end
  end.

Definition RegisterRekorHandlerServer {S : Type} `{CallState P S} (mux : ServeMux P) (server : RekorServer S)
    : result (ServeMux P) :=
  let o := mux_options_of mux in
  p1 ← pattern_Rekor_CreateEntry_0; p2 ← pattern_Rekor_GetTile_0;
  p3 ← pattern_Rekor_GetEntryBundle_0; p4 ← pattern_Rekor_GetCheckpoint_0;
  let mux := Handle mux "POST" p1 (server_handler o "/dev.sigstore.rekor.v2.Rekor/CreateEntry" path_CreateEntry
               (local_request_Rekor_CreateEntry_0 server)) in
  let mux := Handle mux "GET" p2 (server_handler o "/dev.sigstore.rekor.v2.Rekor/GetTile" path_GetTile
               (local_request_Rekor_GetTile_0 server)) in
  let mux := Handle mux "GET" p3 (server_handler o "/dev.sigstore.rekor.v2.Rekor/GetEntryBundle" path_GetEntryBundle
               (local_request_Rekor_GetEntryBundle_0 server)) in
  let mux := Handle mux "GET" p4 (server_handler o "/dev.sigstore.rekor.v2.Rekor/GetCheckpoint" path_GetCheckpoint
               (local_request_Rekor_GetCheckpoint_0 server)) in
  Ok mux.

Definition RegisterRekorHandlerClient (mux : ServeMux P) (client : RekorClient P) : result (ServeMux P) :=
  let o := mux_options_of mux in
  p1 ← pattern_Rekor_CreateEntry_0; p2 ← pattern_Rekor_GetTile_0;
  p3 ← pattern_Rekor_GetEntryBundle_0; p4 ← pattern_Rekor_GetCheckpoint_0;
  let mux := Handle mux "POST" p1 (client_handler o "/dev.sigstore.rekor.v2.Rekor/CreateEntry" path_CreateEntry
               (request_Rekor_CreateEntry_0 client)) in
  let mux := Handle mux "GET" p2 (client_handler o "/dev.sigstore.rekor.v2.Rekor/GetTile" path_GetTile
               (request_Rekor_GetTile_0 client)) in
  let mux := Handle mux "GET" p3 (client_handler o "/dev.sigstore.rekor.v2.Rekor/GetEntryBundle" path_GetEntryBundle
               (request_Rekor_GetEntryBundle_0 client)) in
  let mux := Handle mux "GET" p4 (client_handler o "/dev.sigstore.rekor.v2.Rekor/GetCheckpoint" path_GetCheckpoint
               (request_Rekor_GetCheckpoint_0 client)) in
  Ok mux.

Definition RegisterRekorHandler (mux : ServeMux P) (conn : ClientConn P) : result (ServeMux P) :=
  RegisterRekorHandlerClient mux (NewRekorClient conn).

(** [grpc.NewClient] gives a connection or an error.  Registration itself does
    not fail, so the connection stays open until the context is done. *)
Definition RegisterRekorHandlerFromEndpoint (NewClient : string → error + ClientConn P) (mux : ServeMux P) (endpoint : string)
    : result (ServeMux P) :=
  conn ← lift (NewClient endpoint);
  RegisterRekorHandler mux conn.
End handlers.

(** ** What the runtime documents *)

(** *** Opcodes (package utilities): nop, push, push a literal, push the rest,
    concatenate the top [n], capture.  The stack has its top first. *)
Fixpoint run_ops (ops : list Z) (pool : list string) (components stack : list string) (vars : gmap string string)
    : option (gmap string string) :=
  match ops with
  | [] => match components with [] => Some vars | _ => None end
  | code :: operand :: ops' =>
      if code =? 0 then run_ops ops' pool components stack vars
      else if code =? 1 then
        match components with
        | c :: components' => run_ops ops' pool components' (c :: stack) vars
        | [] => None
        end
      else if code =? 2 then
        match components, pool !! Z.to_nat operand with
        | c :: components', Some lit =>
            if bool_decide (c = lit) then run_ops ops' pool components' (c :: stack) vars else None
        | _, _ => None
        end
      else if code =? 3 then run_ops ops' pool [] (join_slash components :: stack) vars
      else if code =? 4 then
        let n := Z.to_nat operand in
        run_ops ops' pool components (join_slash (reverse (take n stack)) :: drop n stack) vars
      else if code =? 5 then
        match stack, pool !! Z.to_nat operand with
        | c :: stack', Some name => run_ops ops' pool components stack' (<[name := c]> vars)
        | _, _ => None
        end
      else None
  | [_] => None
  end.

(** *** Path templates (google.api.http): literals, [{x}] for one component,
    and, at the end, [{x=**}] for any number of them. *)
Inductive segment := Lit (s : string) | Var (name : string) | VarRest (name : string).

Definition parse_segment (c : string) : segment :=
  match list_ascii_of_string c with
  | "{"%char :: l =>
      match reverse l with
      | "}"%char :: "*"%char :: "*"%char :: "="%char :: name => VarRest (string_of_list_ascii (reverse name))
      | "}"%char :: name => Var (string_of_list_ascii (reverse name))
      | _ => Lit c
      end
  | _ => Lit c
  end.

Definition parse_template (path : string) : list segment := parse_segment <$> split_slash (TrimPrefix path "/").

Fixpoint match_template (t : list segment) (components : list string) : option (gmap string string) :=
  match t, components with
  | [], [] => Some ∅
  | [VarRest x], cs => Some {[ x := join_slash cs ]}
  | Lit s :: t', c :: cs => if bool_decide (c = s) then match_template t' cs else None
  | Var x :: t', c :: cs => (λ vars, <[x := c]> vars) <$> match_template t' cs
  | _, _ => None
  end.

(** Patterns run their opcodes, and integers in paths are parsed and in range. *)
Class RuntimeLaws `{GatewayRuntime} : Prop := {
  Pattern_ops : ∀ ops pool p, NewPattern 1 ops pool "" = inr p →
    ∀ components, MatchPattern p components = run_ops ops pool components [] ∅;
  Pattern_template : ∀ path p, path_pattern path = inr p →
    ∀ components, MatchPattern p components = match_template (parse_template path) components;
  String_id : ∀ s, runtime_String s = inr s;
  Uint32_range : ∀ s n, runtime_Uint32 s = inr n → 0 ≤ n < 2 ^ 32
}.

(** *** Routing

    The most recently registered route of the method whose pattern matches. *)
Definition dispatch `{GatewayRuntime} {P} (routes : list (route P)) (method : string) (components : list string)
    : option (HandlerFunc P * gmap string string) :=
  head (omap (λ r, if bool_decide (rt_method r = method)
                   then (λ vars, (rt_handler r, vars)) <$> MatchPattern (rt_pattern r) components
                   else None) (reverse routes)).

(** A component without the characters that have a meaning in a path. *)
Definition plain_component (c : string) : Prop :=
  Forall (λ a, a ≠ "/"%char ∧ a ≠ ":"%char ∧ a ≠ "%"%char) (list_ascii_of_string c).

#[export] Instance plain_component_dec c : Decision (plain_component c).
Proof. unfold plain_component. apply _. Defined.

(** Run the options of the mux one after another. *)
Definition run_options (opts : list (io gw unit)) : io gw unit := foldr (λ m k, _ ← m; k) (mret tt) opts.

(** A request for a path of plain components goes to the handler of its route;
    a reply is written after the response options have run, with headers that
    the runtime adds before them, and an option's error is handled as one. *)
Class MuxLaws `{MuxLib} : Prop := {
  ServeHTTP_dispatch : ∀ P (mux : ServeMux P) method components body h vars s,
    components ≠ [] → Forall plain_component components →
    dispatch (mux_routes mux) method components = Some (h, vars) →
    let req := {| sr_Method := method; sr_Path := "/" +:+ join_slash components; sr_Body := body |} in
    ServeHTTP mux req s = h req vars s;
  Forward_writes : ∀ o m g body, encode_body m = inr body →
    ∃ hdr, ForwardResponseMessage o m g =
      match run_options (mo_forwardResponse o) (set_w {| w_Header := hdr; w_status := w_status (gw_w g); w_body := w_body (gw_w g) |} g) with
      | (Ok _, g') => (Ok tt, set_w (Write body (gw_w g')) g')
      | (Err e, g') => HTTPError o e g'
      | (Panic, g') => (Panic, g')
      end
}.

(** ** The mux of the proxy (internal/server/http.go) *)

Section proxy.
Context `{MuxLib} `{GatewayLib} {P : Type}.

Definition proxy_options : mux_options :=
  {| mo_errorHandler := customHTTPErrorHandler;
     mo_forwardResponse := [httpResponseModifier];
     mo_outgoingHeader := forwardHeaderHandler |}.

(** [runtime.NewServeMux] with these options and [WithHealthzEndpoint], which
    handles GET /healthz with a call of the health service. *)
Definition NewServeMux (healthz : HandlerFunc P) : ServeMux P :=
  let mux := {| mux_options_of := proxy_options; mux_routes := [] |} in
  match path_pattern "/healthz" with
  | inr p => Handle mux "GET" p healthz
  | inl _ => mux
  end.

(** The mux with the service's routes. *)
Definition proxy_mux (NewClient : string → error + ClientConn P) (healthz : HandlerFunc P) (endpoint : string) : result (ServeMux P) :=
  RegisterRekorHandlerFromEndpoint NewClient (NewServeMux healthz) endpoint.
End proxy.

(** ** Theorems *)

(** *** The compiled patterns *)

Lemma MustPattern_Ok `{GatewayRuntime} x p : MustPattern x = Ok p → x = inr p.
Proof. destruct x; cbn; congruence. Qed.

(** Literal prefixes: one component at a time. *)
Lemma run_ops_lit operand ops pool lit components stack vars :
  pool !! Z.to_nat operand = Some lit →
  run_ops (2 :: operand :: ops) pool components stack vars =
  match components with
  | c :: components' => if bool_decide (c = lit) then run_ops ops pool components' (c :: stack) vars else None
  | [] => None
  end.
Proof. intros Hlit. cbn. by destruct components; rewrite ?Hlit. Qed.

Lemma match_template_lit s t components :
  match_template (Lit s :: t) components =
  match components with
  | c :: cs => if bool_decide (c = s) then match_template t cs else None
  | [] => None
  end.
Proof. by destruct t as [|[]], components. Qed.

(** The end of the tile and bundle patterns: the rest of the path is captured. *)
Lemma run_ops_rest operand pool name components stack vars :
  pool !! Z.to_nat operand = Some name →
  run_ops [3; 0; 4; 1; 5; operand] pool components stack vars = Some (<[name := join_slash components]> vars).
Proof. intros Hname. cbn. by rewrite Hname. Qed.

Ltac pattern_step :=
  match goal with
  | |- context [run_ops (2 :: ?o :: _) _ ?cs _ _] =>
      erewrite (run_ops_lit o) by reflexivity; rewrite match_template_lit;
      destruct cs as [|? ?cs]; [done|];
      match goal with |- (if bool_decide ?P then _ else _) = _ => destruct (bool_decide P); [|done] end
  end.

Lemma ops_CreateEntry_spec cs :
  run_ops ops_CreateEntry pool_CreateEntry cs [] ∅ = match_template (parse_template path_CreateEntry) cs.
Proof.
  change (parse_template path_CreateEntry) with [Lit "api"; Lit "v2"; Lit "log"; Lit "entries"].
  unfold ops_CreateEntry. do 4 pattern_step. done.
Qed.

Lemma ops_GetCheckpoint_spec cs :
  run_ops ops_GetCheckpoint pool_GetCheckpoint cs [] ∅ = match_template (parse_template path_GetCheckpoint) cs.
Proof.
  change (parse_template path_GetCheckpoint) with [Lit "api"; Lit "v2"; Lit "checkpoint"].
  unfold ops_GetCheckpoint. do 3 pattern_step. done.
Qed.

Lemma ops_GetEntryBundle_spec cs :
  run_ops ops_GetEntryBundle pool_GetEntryBundle cs [] ∅ = match_template (parse_template path_GetEntryBundle) cs.
Proof.
  change (parse_template path_GetEntryBundle) with [Lit "api"; Lit "v2"; Lit "tile"; Lit "entries"; VarRest "N"].
  unfold ops_GetEntryBundle. do 4 pattern_step. by rewrite (run_ops_rest 4 _ "N").
Qed.

Lemma ops_GetTile_spec cs :
  run_ops ops_GetTile pool_GetTile cs [] ∅ = match_template (parse_template path_GetTile) cs.
Proof.
  change (parse_template path_GetTile) with [Lit "api"; Lit "v2"; Lit "tile"; Var "L"; VarRest "N"].
  unfold ops_GetTile. do 3 pattern_step. destruct cs as [|l cs]; [done|].
  transitivity (run_ops [3; 0; 4; 1; 5; 4] pool_GetTile cs [s1; s0; s] {[ "L" := l ]}); [done|].
  by rewrite (run_ops_rest 4 _ "N").
Qed.

(** C22: the compiled patterns and the templates written beside them agree: each of the four
    sequences of opcodes matches a path exactly when the template that the handler announces
    does, and binds the same variables to the same values. *)
Theorem patterns_match_templates `{RuntimeLaws} components :
  (∀ p, pattern_Rekor_CreateEntry_0 = Ok p →
    MatchPattern p components = match_template (parse_template path_CreateEntry) components) ∧
  (∀ p, pattern_Rekor_GetTile_0 = Ok p →
    MatchPattern p components = match_template (parse_template path_GetTile) components) ∧
  (∀ p, pattern_Rekor_GetEntryBundle_0 = Ok p →
    MatchPattern p components = match_template (parse_template path_GetEntryBundle) components) ∧
  (∀ p, pattern_Rekor_GetCheckpoint_0 = Ok p →
    MatchPattern p components = match_template (parse_template path_GetCheckpoint) components).
Proof.
  split_and!; intros p Hp%MustPattern_Ok; rewrite (Pattern_ops _ _ _ Hp).
  - apply ops_CreateEntry_spec.
  - apply ops_GetTile_spec.
  - apply ops_GetEntryBundle_spec.
  - apply ops_GetCheckpoint_spec.
Qed.

(** *** Routing *)

(** Where a request goes. *)
Inductive routed := To_CreateEntry | To_GetTile (l n : string) | To_GetEntryBundle (n : string) | To_GetCheckpoint.

Definition route_of (method : string) (components : list string) : option routed :=
  if bool_decide (method = "POST") then
    if bool_decide (components = ["api"; "v2"; "log"; "entries"]) then Some To_CreateEntry else None
  else if bool_decide (method = "GET") then
    if bool_decide (components = ["api"; "v2"; "checkpoint"]) then Some To_GetCheckpoint
    else if bool_decide (take 3 components = ["api"; "v2"; "tile"]) then
      match drop 3 components with
      | [] => None
      | l :: rest =>
          Some (if bool_decide (l = "entries") then To_GetEntryBundle (join_slash rest) else To_GetTile l (join_slash rest))
      end
    else None
  else None.

(** The handler and the path parameters of a route, for a client. *)
Definition handler_of `{MuxLib} {P} (o : mux_options) (client : RekorClient P) (r : routed)
    : HandlerFunc P * gmap string string :=
  match r with
  | To_CreateEntry => (client_handler o Rekor_CreateEntry_FullMethodName path_CreateEntry (request_Rekor_CreateEntry_0 client), ∅)
  | To_GetTile l n => (client_handler o Rekor_GetTile_FullMethodName path_GetTile (request_Rekor_GetTile_0 client),
                       {[ "L" := l; "N" := n ]})
  | To_GetEntryBundle n =>
      (client_handler o Rekor_GetEntryBundle_FullMethodName path_GetEntryBundle (request_Rekor_GetEntryBundle_0 client), {[ "N" := n ]})
  | To_GetCheckpoint =>
      (client_handler o Rekor_GetCheckpoint_FullMethodName path_GetCheckpoint (request_Rekor_GetCheckpoint_0 client), ∅)
  end.

Lemma match_CreateEntry cs :
  match_template (parse_template path_CreateEntry) cs =
  if bool_decide (cs = ["api"; "v2"; "log"; "entries"]) then Some ∅ else None.
Proof.
  change (parse_template path_CreateEntry) with [Lit "api"; Lit "v2"; Lit "log"; Lit "entries"].
  destruct cs as [|a [|b [|c [|d [|e cs]]]]]; cbn; repeat case_bool_decide; simplify_eq; done.
Qed.

Lemma match_GetCheckpoint cs :
  match_template (parse_template path_GetCheckpoint) cs =
  if bool_decide (cs = ["api"; "v2"; "checkpoint"]) then Some ∅ else None.
Proof.
  change (parse_template path_GetCheckpoint) with [Lit "api"; Lit "v2"; Lit "checkpoint"].
  destruct cs as [|a [|b [|c [|d cs]]]]; cbn; repeat case_bool_decide; simplify_eq; done.
Qed.

Lemma match_GetTile cs :
  match_template (parse_template path_GetTile) cs =
  if bool_decide (take 3 cs = ["api"; "v2"; "tile"])
  then match drop 3 cs with [] => None | l :: rest => Some {[ "L" := l; "N" := join_slash rest ]} end else None.
Proof.
  change (parse_template path_GetTile) with [Lit "api"; Lit "v2"; Lit "tile"; Var "L"; VarRest "N"].
  destruct cs as [|a [|b [|c [|d cs]]]]; cbn -[join_slash]; repeat case_bool_decide; simplify_eq; done.
Qed.

Lemma match_GetEntryBundle cs :
  match_template (parse_template path_GetEntryBundle) cs =
  if bool_decide (take 3 cs = ["api"; "v2"; "tile"])
  then match drop 3 cs with
       | [] => None
       | l :: rest => if bool_decide (l = "entries") then Some {[ "N" := join_slash rest ]} else None
       end else None.
Proof.
  change (parse_template path_GetEntryBundle) with [Lit "api"; Lit "v2"; Lit "tile"; Lit "entries"; VarRest "N"].
  destruct cs as [|a [|b [|c [|d cs]]]]; cbn -[join_slash]; repeat case_bool_decide; simplify_eq; done.
Qed.

Section routing.
Context `{MuxLib} `{!RuntimeLaws} {P : Type}.

(** The routes of the service, once the package's patterns are compiled. *)
Lemma Register_inv (mux mux' : ServeMux P) client :
  RegisterRekorHandlerClient mux client = Ok mux' →
  ∃ p1 p2 p3 p4, pattern_Rekor_CreateEntry_0 = Ok p1 ∧ pattern_Rekor_GetTile_0 = Ok p2 ∧
    pattern_Rekor_GetEntryBundle_0 = Ok p3 ∧ pattern_Rekor_GetCheckpoint_0 = Ok p4 ∧
    let h r := (handler_of (mux_options_of mux) client r).1 in
    mux_options_of mux' = mux_options_of mux ∧
    mux_routes mux' = mux_routes mux ++
      [{| rt_method := "POST"; rt_pattern := p1; rt_handler := h To_CreateEntry |};
       {| rt_method := "GET"; rt_pattern := p2; rt_handler := h (To_GetTile "" "") |};
       {| rt_method := "GET"; rt_pattern := p3; rt_handler := h (To_GetEntryBundle "") |};
       {| rt_method := "GET"; rt_pattern := p4; rt_handler := h To_GetCheckpoint |}].
Proof.
  unfold RegisterRekorHandlerClient. intros Hr.
  apply bind_Ok in Hr as (p1 & Hp1 & Hr). apply bind_Ok in Hr as (p2 & Hp2 & Hr).
  apply bind_Ok in Hr as (p3 & Hp3 & Hr). apply bind_Ok in Hr as (p4 & Hp4 & Hr). injection Hr as <-.
  exists p1, p2, p3, p4. split_and!; try done. cbn. by rewrite <-!app_assoc.
Qed.

Lemma dispatch_app (rs : list (route P)) method cs r :
  dispatch (rs ++ [r]) method cs =
  match (if bool_decide (rt_method r = method) then MatchPattern (rt_pattern r) cs else None) with
  | Some vars => Some (rt_handler r, vars)
  | None => dispatch rs method cs
  end.
Proof.
  unfold dispatch. rewrite reverse_app. cbn. case_bool_decide; [|done]. by destruct (MatchPattern _ _).
Qed.

Lemma dispatch_service (mux mux' : ServeMux P) (client : RekorClient P) method cs :
  RegisterRekorHandlerClient mux client = Ok mux' →
  dispatch (mux_routes mux') method cs =
  match route_of method cs with
  | Some r => Some (handler_of (mux_options_of mux) client r)
  | None => dispatch (mux_routes mux) method cs
  end.
Proof.
  intros Hreg. destruct (Register_inv _ _ _ Hreg) as (p1 & p2 & p3 & p4 & Hp1 & Hp2 & Hp3 & Hp4 & _ & Hroutes).
  rewrite Hroutes. clear Hroutes Hreg.
  apply MustPattern_Ok in Hp1, Hp2, Hp3, Hp4.
  change (?l ++ [?a; ?b; ?c; ?d]) with (l ++ [a] ++ [b] ++ [c] ++ [d]).
  rewrite !(app_assoc _ [_]), !dispatch_app. cbn [rt_method rt_pattern rt_handler].
  rewrite (Pattern_ops _ _ _ Hp1), (Pattern_ops _ _ _ Hp2), (Pattern_ops _ _ _ Hp3), (Pattern_ops _ _ _ Hp4).
  rewrite ops_CreateEntry_spec, ops_GetTile_spec, ops_GetEntryBundle_spec, ops_GetCheckpoint_spec.
  rewrite match_CreateEntry, match_GetTile, match_GetEntryBundle, match_GetCheckpoint. unfold route_of.
  destruct (decide (method = "POST")) as [->|Hpost].
  { rewrite !(bool_decide_false ("GET" = "POST")), !(bool_decide_true ("POST" = "POST")) by done. by case_bool_decide. }
  destruct (decide (method = "GET")) as [->|Hget]; [|by rewrite !bool_decide_false by congruence].
  rewrite (bool_decide_false ("POST" = "GET")), (bool_decide_false ("GET" = "POST")), !(bool_decide_true ("GET" = "GET")) by done.
  case_bool_decide as Hcp; [done|]. case_bool_decide as Htile; [|done].
  destruct (drop 3 cs) as [|l rest]; [done|]. by case_bool_decide.
Qed.

Lemma NewServeMux_options `{GatewayLib} (healthz : HandlerFunc P) : mux_options_of (NewServeMux healthz) = proxy_options.
Proof. unfold NewServeMux. by destruct (path_pattern _). Qed.

(** The routes of the proxy's mux before the service is registered. *)
Lemma dispatch_healthz `{GatewayLib} (healthz : HandlerFunc P) p method cs :
  path_pattern "/healthz" = inr p →
  dispatch (mux_routes (NewServeMux healthz)) method cs =
  if bool_decide (method = "GET") && bool_decide (cs = ["healthz"]) then Some (healthz, ∅) else None.
Proof.
  intros Hp. unfold NewServeMux. rewrite Hp. cbn [Handle mux_routes]. rewrite dispatch_app. cbn [rt_method rt_pattern rt_handler].
  rewrite (Pattern_template _ _ Hp). change (parse_template "/healthz") with [Lit "healthz"].
  destruct (decide (method = "GET")) as [->|Hm]; [|by rewrite !bool_decide_false by congruence].
  rewrite !(bool_decide_true ("GET" = "GET")) by done.
  destruct cs as [|a [|b cs]]; cbn; repeat case_bool_decide; simplify_eq; done.
Qed.

(** C15: the routes of the service, exactly: once the service is registered on the proxy's mux, a
    request for a path of plain components is handled by CreateEntry if and only if it is a POST to
    api/v2/log/entries, by GetCheckpoint for GET api/v2/checkpoint, by GetEntryBundle for GET
    api/v2/tile/entries/..., although the tile template matches that path too, and by GetTile
    for every other GET below api/v2/tile/, each with the path parameters of its template; of the
    other paths only GET healthz has a handler, the health check. *)
Theorem routes_exact `{GatewayLib} `{!MuxLaws} (mux : ServeMux P) (client : RekorClient P) healthz p method components body
    (Hp : path_pattern "/healthz" = inr p) (Hreg : RegisterRekorHandlerClient (NewServeMux healthz) client = Ok mux)
    (Hne : components ≠ []) (Hplain : Forall plain_component components) :
  let req := {| sr_Method := method; sr_Path := "/" +:+ join_slash components; sr_Body := body |} in
  match route_of method components with
  | Some r => ∀ s, ServeHTTP mux req s = (handler_of proxy_options client r).1 req (handler_of proxy_options client r).2 s
  | None => if bool_decide (method = "GET") && bool_decide (components = ["healthz"])
            then ∀ s, ServeHTTP mux req s = healthz req ∅ s
            else dispatch (mux_routes mux) method components = None
  end.
Proof.
  pose proof (dispatch_service _ mux client method components Hreg) as Hd.
  rewrite NewServeMux_options in Hd. intros req. destruct (route_of method components) as [r|].
  - intros s. apply ServeHTTP_dispatch; [done|done|]. rewrite Hd. by destruct (handler_of _ _ r).
  - rewrite (dispatch_healthz healthz p) in Hd by done. destruct (_ && _); [|exact Hd].
    intros s. by apply ServeHTTP_dispatch.
Qed.
End routing.
