(* ===== verification/Config.v ===== *)
(** * internal/server/grpcconfig.go, httpconfig.go: configuration of the servers

    A configuration is built from defaults by applying options in order; each
    option sets the fields it is named after. *)
From S2P Require Import Prelude GoErrors GoStrings Gateway.

Definition defaultMaxSize : Z := 4 * 1024 * 1024.
(** Sixty seconds, as a [time.Duration]. *)
Definition defaultTimeout : Z := 60 * 1000000000.

Module Grpc.
Record GRPCConfig := {
  port : Z;
  host : string;
  timeout : Z;
  maxMessageSize : Z;
  certFile : string;
  keyFile : string;
  logLevel : Z;
  requestResponseLogging : bool
}.

Definition GRPCOption := GRPCConfig → GRPCConfig.

Definition NewGRPCConfig (options : list GRPCOption) : GRPCConfig :=
  let config := {|
    port := 8081; host := "localhost"; timeout := defaultTimeout; maxMessageSize := defaultMaxSize;
    certFile := ""; keyFile := ""; logLevel := LevelInfo; requestResponseLogging := false |} in
  foldl (λ config opt, opt config) config options.

Definition WithGRPCPort (port : Z) : GRPCOption := λ c,
  Build_GRPCConfig port (host c) (timeout c) (maxMessageSize c) (certFile c) (keyFile c) (logLevel c) (requestResponseLogging c).
Definition WithGRPCHost (host : string) : GRPCOption := λ c,
  Build_GRPCConfig (port c) host (timeout c) (maxMessageSize c) (certFile c) (keyFile c) (logLevel c) (requestResponseLogging c).
Definition WithGRPCTimeout (timeout : Z) : GRPCOption := λ c,
  Build_GRPCConfig (port c) (host c) timeout (maxMessageSize c) (certFile c) (keyFile c) (logLevel c) (requestResponseLogging c).
Definition WithGRPCMaxMessageSize (maxMessageSize : Z) : GRPCOption := λ c,
  Build_GRPCConfig (port c) (host c) (timeout c) maxMessageSize (certFile c) (keyFile c) (logLevel c) (requestResponseLogging c).
Definition WithTLSCredentials (certFile keyFile : string) : GRPCOption := λ c,
  Build_GRPCConfig (port c) (host c) (timeout c) (maxMessageSize c) certFile keyFile (logLevel c) (requestResponseLogging c).
Definition WithGRPCLogLevel (logLevel : Z) (requestResponseLogging : bool) : GRPCOption := λ c,
  Build_GRPCConfig (port c) (host c) (timeout c) (maxMessageSize c) (certFile c) (keyFile c) logLevel requestResponseLogging.

Definition GRPCTarget (gc : GRPCConfig) : string := host gc +:+ ":" +:+ Itoa (port gc).
Definition HasTLS (gc : GRPCConfig) : bool := negb (is_empty (certFile gc)) && negb (is_empty (keyFile gc)).
End Grpc.

Module Http.
Record HTTPConfig := {
  host : string;
  timeout : Z;
  port : Z;
  metricsPort : Z;
  maxRequestBodySize : Z;
  certFile : string;
  keyFile : string;
  grpcCertFile : string;
  supportGCP : bool
}.

Definition HTTPOption := HTTPConfig → HTTPConfig.

Definition NewHTTPConfig (options : list HTTPOption) : HTTPConfig :=
  let config := {|
    host := "localhost"; timeout := defaultTimeout; port := 8080; metricsPort := 2112;
    maxRequestBodySize := defaultMaxSize; certFile := ""; keyFile := ""; grpcCertFile := ""; supportGCP := false |} in
  foldl (λ config opt, opt config) config options.

Definition WithHTTPPort (port : Z) : HTTPOption := λ c,
  Build_HTTPConfig (host c) (timeout c) port (metricsPort c) (maxRequestBodySize c) (certFile c) (keyFile c) (grpcCertFile c) (supportGCP c).
Definition WithHTTPHost (host : string) : HTTPOption := λ c,
  Build_HTTPConfig host (timeout c) (port c) (metricsPort c) (maxRequestBodySize c) (certFile c) (keyFile c) (grpcCertFile c) (supportGCP c).
Definition WithHTTPTimeout (timeout : Z) : HTTPOption := λ c,
  Build_HTTPConfig (host c) timeout (port c) (metricsPort c) (maxRequestBodySize c) (certFile c) (keyFile c) (grpcCertFile c) (supportGCP c).
Definition WithHTTPMaxRequestBodySize (size : Z) : HTTPOption := λ c,
  Build_HTTPConfig (host c) (timeout c) (port c) (metricsPort c) size (certFile c) (keyFile c) (grpcCertFile c) (supportGCP c).
Definition WithHTTPMetricsPort (port' : Z) : HTTPOption := λ c,
  Build_HTTPConfig (host c) (timeout c) (port c) port' (maxRequestBodySize c) (certFile c) (keyFile c) (grpcCertFile c) (supportGCP c).
Definition WithHTTPTLSCredentials (certFile keyFile : string) : HTTPOption := λ c,
  Build_HTTPConfig (host c) (timeout c) (port c) (metricsPort c) (maxRequestBodySize c) certFile keyFile (grpcCertFile c) (supportGCP c).
Definition WithGRPCTLSCredentials (certFile' : string) : HTTPOption := λ c,
  Build_HTTPConfig (host c) (timeout c) (port c) (metricsPort c) (maxRequestBodySize c) (certFile c) (keyFile c) certFile' (supportGCP c).
Definition WithGCPSupport (supportGCP : bool) : HTTPOption := λ c,
  Build_HTTPConfig (host c) (timeout c) (port c) (metricsPort c) (maxRequestBodySize c) (certFile c) (keyFile c) (grpcCertFile c) supportGCP.

Definition HTTPTarget (hc : HTTPConfig) : string := host hc +:+ ":" +:+ Itoa (port hc).
Definition HTTPMetricsTarget (hc : HTTPConfig) : string := host hc +:+ ":" +:+ Itoa (metricsPort hc).
Definition HasTLS (hc : HTTPConfig) : bool := negb (is_empty (certFile hc)) && negb (is_empty (keyFile hc)).
Definition HasGRPCTLS (hc : HTTPConfig) : bool := negb (is_empty (grpcCertFile hc)).
End Http.

(** ** Targets *)

(** A number in decimal contains no colon. *)
Lemma digits_no_colon l z : is_Some (digits_val z l) → ":"%char ∉ l.
Proof.
  revert z. induction l as [|c l IH]; intros z; [set_solver|]. cbn [digits_val].
  destruct (digit_of c) as [d|] eqn:Hc; [|by intros [??]]. intros Hl%IH Hin.
  apply elem_of_cons in Hin as [<-|?]; done.
Qed.

Lemma Itoa_no_colon n : ":"%char ∉ list_ascii_of_string (Itoa n).
Proof.
  assert (∀ m, 0 ≤ m → ":"%char ∉ list_ascii_of_string (FormatUint m)) as Hm.
  { intros m Hm. eapply digits_no_colon. rewrite digits_val_FormatUint by done. eauto. }
  unfold Itoa. destruct (Z.ltb_spec n 0); [|apply Hm; lia].
  cbn. rewrite elem_of_cons. intros [?|Hin]; [done|]. by apply Hm in Hin; [|lia].
Qed.

Lemma Itoa_inj m n : Itoa m = Itoa n → m = n.
Proof.
  intros Heq%(f_equal (signed_val ∘ list_ascii_of_string)). cbn in Heq.
  assert (∀ k, signed_val (list_ascii_of_string (Itoa k)) = Some k) as Hk; [|rewrite !Hk in Heq; congruence].
  intros k. unfold Itoa. destruct (Z.ltb_spec k 0); [|apply signed_val_FormatUint; lia].
  cbn [list_ascii_of_string String.append]. unfold signed_val, unsigned_val. rewrite Ascii.eqb_refl.
  pose proof (digits_val_FormatUint (- k) ltac:(lia)) as Hd.
  destruct (list_ascii_of_string (FormatUint (- k))) eqn:E.
  - exfalso. destruct (pretty_N_head (Z.to_N (- k))) as (? & ? & Hl & _). unfold FormatUint in E. congruence.
  - rewrite Hd. cbn. f_equal. lia.
Qed.

Lemma list_ascii_append s t : list_ascii_of_string (s +:+ t) = list_ascii_of_string s ++ list_ascii_of_string t.
Proof. induction s; cbn; congruence. Qed.

(** Targets are determined by host and port. *)
Lemma target_inj h h' p p' : h +:+ ":" +:+ Itoa p = h' +:+ ":" +:+ Itoa p' → h = h' ∧ p = p'.
Proof.
  intros Heq%(f_equal (reverse ∘ list_ascii_of_string)). cbn in Heq.
  rewrite !list_ascii_append in Heq. cbn [list_ascii_of_string String.append app] in Heq.
  rewrite !reverse_app, !reverse_cons, <-!app_assoc in Heq. cbn [app] in Heq.
  apply split_unique in Heq as [Hp Hh]; [|rewrite elem_of_reverse; apply Itoa_no_colon..].
  apply (inj reverse) in Hp, Hh. split.
  - by rewrite <-(string_of_list_ascii_of_string h), Hh, string_of_list_ascii_of_string.
  - apply Itoa_inj. by rewrite <-(string_of_list_ascii_of_string (Itoa p)), Hp, string_of_list_ascii_of_string.
Qed.
