(* ===== verification/MockServer.v ===== *)
(** * internal/server/service_mock.go: a server for the tests of clients

    A server of the service with fixed answers, and a wrapper that starts it
    with the configurations of the real one, waits until it answers, and stops
    it.  The running server itself is that of [Serve]. *)
From S2P Require Import Prelude GoErrors GoStrings GoPath Proto External IO Service RekorGrpc Config.

(** ** The answers *)

(** Paths of tiles (tessera/api/layout): level, index and width of a partial tile. *)
Class LayoutLib := {
  ParseTileLevelIndexPartial : string → string → error + (Z * Z * Z);
  ParseTileIndexPartial : string → error + (Z * Z)
}.

Definition testEntry : TransparencyLogEntry := {|
  tle_LogIndex := 0;
  tle_LogId := Some "abc";
  tle_KindVersion := Some {| kv_Kind := "placeholder"; kv_Version := "1.2.3" |};
  tle_InclusionProof := Some {|
    ip_LogIndex := 0;
    ip_RootHash := "abc";
    ip_TreeSize := 0;
    ip_Hashes := ["def"; "ghi"];
    ip_Checkpoint := Some {| Envelope := "placeholder" |} |};
  tle_CanonicalizedBody := "abcd" |}.

Section answers.
Context `{LayoutLib}.

Definition mock_CreateEntry (_ : option CreateEntryRequest) : result TransparencyLogEntry := Ok testEntry.

Definition octet_stream (data : bytes) : HttpBody := {| ContentType := "application/octet-stream"; hb_Data := data |}.

Definition mock_GetTile (in_ : option TileRequest) : result HttpBody :=
  in_ ← deref in_;
  '(l, i, w) ← lift (ParseTileLevelIndexPartial (FormatUint (tr_L in_)) (tr_N in_));
  Ok (octet_stream ("test-tile:" +:+ FormatUint l +:+ "," +:+ FormatUint i +:+ "," +:+ FormatUint w)).

Definition mock_GetEntryBundle (in_ : option EntryBundleRequest) : result HttpBody :=
  in_ ← deref in_;
  '(i, w) ← lift (ParseTileIndexPartial (ebr_N in_));
  Ok (octet_stream ("test-entries:" +:+ FormatUint i +:+ "," +:+ FormatUint w)).

Definition mock_GetCheckpoint (_ : unit) : result HttpBody := Ok (octet_stream "test-checkpoint").

Definition mock_Check : result HealthStatus := Ok SERVING.

Definition mockRekorServer {S} : RekorServer S :=
  {| rs_CreateEntry := λ r, pure (mock_CreateEntry r);
     rs_GetTile := λ r, pure (mock_GetTile r);
     rs_GetEntryBundle := λ r, pure (mock_GetEntryBundle r);
     rs_GetCheckpoint := λ r, pure (mock_GetCheckpoint r) |}.
End answers.

(** ** Starting and stopping

    [t.Fatal] ends the test: an error. *)

(** A reply: its status, and what reading its body gives. *)
Record http_reply := { rp_StatusCode : Z; rp_Body : error + bytes }.

(** What a test does outside the program: HTTP requests, files, signals and
    the generation of keys and certificates. *)
Class TestLib := {
  Env : Type;
  http_Get : string → Env → (error + http_reply) * Env;
  TempDir : Env → string * Env;
  rsa_GenerateKey : Z → Env → (error + bytes) * Env;
  (** a certificate of the key, signed by itself, for localhost and 127.0.0.1 *)
  CreateCertificate : bytes → Env → (error + bytes) * Env;
  MarshalPKCS8PrivateKey : bytes → error + bytes;
  os_Create : string → Env → (error + unit) * Env;
  pem_Encode : string → string → bytes → Env → (error + unit) * Env;
  file_Close : string → Env → (error + unit) * Env;
  os_Remove : string → Env → (error + unit) * Env;
  (** SIGTERM to the process, and waiting until Serve has returned *)
  Kill : Env → (error + unit) * Env;
  Wait : Env → Env
}.

(** A goroutine that runs [Serve]: its configurations and the timeout for the
    shutdown of the storage, which does nothing. *)
Record serving := { g_hc : Http.HTTPConfig; g_gc : Grpc.GRPCConfig; g_timeout : Z }.

(** The state of a test: its environment, the configurations of the server it
    started, the files to remove, the counter of the wait group, the goroutines
    that run [Serve], the replies seen and the seconds slept. *)
Record test_state `{TestLib} := {
  ts_env : Env;
  ms_gc : Grpc.GRPCConfig;
  ms_hc : Http.HTTPConfig;
  ms_cleanupFiles : list string;
  ms_wg : Z;
  ts_serving : list serving;
  ts_replies : list (error + http_reply);
  ts_slept : Z
}.

Section mock.
Context `{TestLib}.

Definition with_env {A} (m : io Env A) : io test_state A :=
  zoom ts_env (λ e s, {| ts_env := e; ms_gc := ms_gc s; ms_hc := ms_hc s; ms_cleanupFiles := ms_cleanupFiles s;
                         ms_wg := ms_wg s; ts_serving := ts_serving s; ts_replies := ts_replies s; ts_slept := ts_slept s |}) m.

(** [http.Get], recorded. *)
Definition get (url : string) : io test_state (error + http_reply) := λ s,
  let '(r, e) := http_Get url (ts_env s) in
  (Ok r, {| ts_env := e; ms_gc := ms_gc s; ms_hc := ms_hc s; ms_cleanupFiles := ms_cleanupFiles s;
            ms_wg := ms_wg s; ts_serving := ts_serving s; ts_replies := ts_replies s ++ [r]; ts_slept := ts_slept s |}).

Definition sleep (seconds : Z) : io test_state unit :=
  modify (λ s, {| ts_env := ts_env s; ms_gc := ms_gc s; ms_hc := ms_hc s; ms_cleanupFiles := ms_cleanupFiles s;
                  ms_wg := ms_wg s; ts_serving := ts_serving s; ts_replies := ts_replies s; ts_slept := ts_slept s + seconds |}).

Definition configure (gc : Grpc.GRPCConfig) (hc : Http.HTTPConfig) (files : list string) : io test_state unit :=
  modify (λ s, {| ts_env := ts_env s; ms_gc := gc; ms_hc := hc; ms_cleanupFiles := ms_cleanupFiles s ++ files;
                  ms_wg := ms_wg s; ts_serving := ts_serving s; ts_replies := ts_replies s; ts_slept := ts_slept s |}).

(** A new wait group, [go func() { Serve(...); ms.wg.Done() }()] and [ms.wg.Add(1)]: [Serve]
    returns after a signal only, so the counter is incremented before. *)
Definition go_serve (timeout : Z) : io test_state unit :=
  modify (λ s, {| ts_env := ts_env s; ms_gc := ms_gc s; ms_hc := ms_hc s; ms_cleanupFiles := ms_cleanupFiles s;
                  ms_wg := 1; ts_serving := ts_serving s ++ [{| g_hc := ms_hc s; g_gc := ms_gc s; g_timeout := timeout |}];
                  ts_replies := ts_replies s; ts_slept := ts_slept s |}).

(** [ms.wg.Wait()] after the signal: every [Serve] of the process has returned. *)
Definition wait_group : io test_state unit :=
  modify (λ s, {| ts_env := Wait (ts_env s); ms_gc := ms_gc s; ms_hc := ms_hc s; ms_cleanupFiles := ms_cleanupFiles s;
                  ms_wg := 0; ts_serving := []; ts_replies := ts_replies s; ts_slept := ts_slept s |}).

Definition mock_timeout : Z := 1000000000.

Definition healthz_url : string := "http://localhost:8080/healthz".

(** The loop of both start methods, over the rest of [range 6]: ready when the
    status is [code] and the body contains [text]. *)
Fixpoint poll_from (fatal : string) (code : Z) (text : string) (indices : list Z) : io test_state unit :=
  match indices with
  | [] => mret tt
  | i :: rest =>
      if i =? 5 then fail (ErrorString fatal)
      else
        resp ← get healthz_url;
        let again := _ ← sleep 1; poll_from fatal code text rest in
        match resp with
        | inr r =>
            if rp_StatusCode r =? code then
              match rp_Body r with
              | inl err => fail (ErrorString ("parsing response body: " +:+ Error err))
              | inr body => if Contains body text then mret tt else again
              end
            else again
        | inl _ => again
        end
  end.

Definition poll (fatal : string) (code : Z) (text : string) : io test_state unit := poll_from fatal code text (seqZ 0 6).

Definition StatusOK : Z := 200.
Definition StatusBadRequest : Z := 400.
Definition quote : string := String "034" "".
Definition serving_json : string := "{" +:+ quote +:+ "status" +:+ quote +:+ ":" +:+ quote +:+ "SERVING" +:+ quote +:+ "}".

Definition MockServer_Start : io test_state unit :=
  _ ← configure (Grpc.NewGRPCConfig [Grpc.WithGRPCHost "localhost"; Grpc.WithGRPCPort 8081])
        (Http.NewHTTPConfig [Http.WithHTTPHost "localhost"; Http.WithHTTPPort 8080]) [];
  _ ← go_serve mock_timeout;
  poll "mock server failed to startup" StatusOK serving_json.

Definition fatal {A} (text : string) (m : io test_state A) : io test_state A := λ s,
  let '(r, s') := m s in
  (match r with Err err => Err (ErrorString (text +:+ ": " +:+ Error err)) | r => r end, s').

(** One of the two files: created, written as PEM, closed. *)
Definition write_pem (name path kind : string) (der : bytes) : io test_state unit :=
  _ ← fatal ("failed to write data to " +:+ name) (with_env (call (pem_Encode path kind der)));
  fatal ("error closing " +:+ name) (with_env (call (file_Close path))).

Definition generateSelfSignedCert : io test_state (string * string) :=
  tempDir ← with_env (λ e, let '(d, e') := TempDir e in (Ok d, e'));
  priv ← fatal "failed to generate private key" (with_env (call (rsa_GenerateKey 2048)));
  derBytes ← fatal "failed to create certificate" (with_env (call (CreateCertificate priv)));
  let certFile := Join [tempDir; "cert.pem"] in
  _ ← fatal "failed to open cert.pem for writing" (with_env (call (os_Create certFile)));
  _ ← write_pem "cert.pem" certFile "CERTIFICATE" derBytes;
  let keyFile := Join [tempDir; "key.pem"] in
  _ ← fatal "failed to open key.pem for writing" (with_env (call (os_Create keyFile)));
  privBytes ← fatal "unable to marshal private key" (pure (lift (MarshalPKCS8PrivateKey priv)));
  _ ← write_pem "key.pem" keyFile "PRIVATE KEY" privBytes;
  mret (certFile, keyFile).

Definition MockServer_StartTLS : io test_state unit :=
  '(certFile, keyFile) ← generateSelfSignedCert;
  _ ← configure
        (Grpc.NewGRPCConfig [Grpc.WithGRPCHost "localhost"; Grpc.WithGRPCPort 8081; Grpc.WithTLSCredentials certFile keyFile])
        (Http.NewHTTPConfig [Http.WithHTTPHost "localhost"; Http.WithHTTPPort 8080; Http.WithHTTPTLSCredentials certFile keyFile;
                             Http.WithGRPCTLSCredentials certFile]) [certFile; keyFile];
  _ ← go_serve mock_timeout;
  poll "mock TLS server failed to startup" StatusBadRequest "Client sent an HTTP request to an HTTPS server".

(** A file that cannot be removed is only logged. *)
Fixpoint remove_files (files : list string) : io test_state unit :=
  match files with
  | [] => mret tt
  | file :: files' => _ ← try (with_env (call (os_Remove file))); remove_files files'
  end.

Definition MockServer_Stop : io test_state unit :=
  r ← try (with_env (call Kill));
  match r with
  | inl _ => fail (ErrorString "could not kill server")
  | inr _ =>
      _ ← wait_group;
      files ← gets ms_cleanupFiles;
      remove_files files
  end.

(** ** Theorems *)

(** How a reply lets the loop go on. *)
Definition ready (code : Z) (text : string) (x : error + http_reply) : Prop :=
  ∃ r body, x = inr r ∧ rp_StatusCode r = code ∧ rp_Body r = inr body ∧ Contains body text = true.

Definition unreadable (code : Z) (err : error) (x : error + http_reply) : Prop :=
  ∃ r, x = inr r ∧ rp_StatusCode r = code ∧ rp_Body r = inl err.

Definition not_ready (code : Z) (text : string) (x : error + http_reply) : Prop :=
  ∀ r, x = inr r → rp_StatusCode r = code → ∃ body, rp_Body r = inr body ∧ Contains body text = false.

(** The outcome of a loop that saw the replies [l], one second apart, of at most [n]. *)
Definition poll_outcome (text_fatal : string) (code : Z) (text : string) (n : nat) (x : result unit)
    (l : list (error + http_reply)) (slept : Z) : Prop :=
  (length l ≤ n)%nat ∧
  match x with
  | Ok _ => ∃ l0 y, l = l0 ++ [y] ∧ Forall (not_ready code text) l0 ∧ ready code text y ∧ slept = Z.of_nat (length l0)
  | Err e =>
      (e = ErrorString text_fatal ∧ length l = n ∧ Forall (not_ready code text) l ∧ slept = Z.of_nat n) ∨
      (∃ l0 y err, l = l0 ++ [y] ∧ Forall (not_ready code text) l0 ∧ unreadable code err y ∧
         e = ErrorString ("parsing response body: " +:+ Error err) ∧ slept = Z.of_nat (length l0))
  | Panic => False
  end.

(** One more reply that is not ready. *)
Lemma poll_outcome_again text_fatal code text n x l slept y :
  not_ready code text y → poll_outcome text_fatal code text n x l slept →
  poll_outcome text_fatal code text (S n) x (y :: l) (slept + 1).
Proof.
  intros Hy [Hlen Hx]. split; [cbn; lia|]. destruct x as [u|e|]; [| |done].
  - destruct Hx as (l0 & z & -> & Hl & Hz & ->). exists (y :: l0), z. split_and!; [done|by constructor|done|cbn; lia].
  - destruct Hx as [(-> & Hn & Hl & ->)|(l0 & z & err & -> & Hl & Hz & -> & ->)]; [left|right].
    + split_and!; [done|cbn; lia|by constructor|lia].
    + exists (y :: l0), z, err. split_and!; [done|by constructor|done|done|cbn; lia].
Qed.

Lemma poll_from_outcome text_fatal code text n s :
  (n ≤ 5)%nat →
  ∃ x l slept s', poll_from text_fatal code text (seqZ (5 - Z.of_nat n) (Z.of_nat n + 1)) s = (x, s') ∧
    ts_replies s' = ts_replies s ++ l ∧ ts_slept s' = ts_slept s + slept ∧ ts_serving s' = ts_serving s ∧
    poll_outcome text_fatal code text n x l slept.
Proof.
  revert s. induction n as [|n IH]; intros s Hn.
  { exists (Err (ErrorString text_fatal)), [], 0, s. split_and!; [done|by rewrite app_nil_r|lia|done|]. split; [done|]. left. by split_and!. }
  rewrite seqZ_cons by lia. cbn [poll_from]. destruct (Z.eqb_spec (5 - Z.of_nat (S n)) 5); [lia|].
  replace (Z.succ (5 - Z.of_nat (S n))) with (5 - Z.of_nat n) by lia.
  replace (Z.pred (Z.of_nat (S n) + 1)) with (Z.of_nat n + 1) by lia.
  unfold mbind, io_bind, io_bind_def, get, sleep, modify, fail, mret, io_ret.
  destruct (http_Get healthz_url (ts_env s)) as [y e].
  set (s1 := {| ts_env := e; ms_gc := ms_gc s; ms_hc := ms_hc s; ms_cleanupFiles := ms_cleanupFiles s;
                ms_wg := ms_wg s; ts_serving := ts_serving s; ts_replies := ts_replies s ++ [y]; ts_slept := ts_slept s |}).
  set (s2 := {| ts_env := ts_env s1; ms_gc := ms_gc s1; ms_hc := ms_hc s1; ms_cleanupFiles := ms_cleanupFiles s1;
                ms_wg := ms_wg s1; ts_serving := ts_serving s1; ts_replies := ts_replies s1; ts_slept := ts_slept s1 + 1 |}).
  destruct (IH s2 ltac:(lia)) as (x & l & slept & s' & Hrun & Hl & Hs & Hv & Hout). cbn [ts_replies ts_slept ts_serving s2 s1] in Hl, Hs, Hv.
  assert (Hagain : not_ready code text y → ∃ x l slept s',
    poll_from text_fatal code text (seqZ (5 - Z.of_nat n) (Z.of_nat n + 1)) s2 = (x, s') ∧
    ts_replies s' = ts_replies s ++ l ∧ ts_slept s' = ts_slept s + slept ∧ ts_serving s' = ts_serving s ∧
    poll_outcome text_fatal code text (S n) x l slept).
  { intros Hy. exists x, (y :: l), (slept + 1), s'. split_and!; [done|by rewrite Hl, <-app_assoc|lia|done|by apply poll_outcome_again]. }
  destruct y as [err|r]; [by apply Hagain|].
  destruct (Z.eqb_spec (rp_StatusCode r) code) as [Hc|Hc]; [|by apply Hagain; intros r' [= <-]].
  destruct (rp_Body r) as [err|body] eqn:Hb.
  - eexists _, [inr r], 0, s1. split_and!; [done|done|cbn; lia|done|]. split; [cbn; lia|]. right. exists [], (inr r), err.
    split_and!; [done|done|by exists r|done|done].
  - destruct (Contains body text) eqn:Ht; [|apply Hagain; intros r' [= <-] _; eauto].
    exists (Ok tt), [inr r], 0, s1. split_and!; [done|done|cbn; lia|done|]. split; [cbn; lia|].
    exists [], (inr r). split_and!; [done|done|by exists r, body|done].
Qed.

Lemma poll_terminates text_fatal code text s :
  ∃ x l slept s', poll text_fatal code text s = (x, s') ∧
    ts_replies s' = ts_replies s ++ l ∧ ts_slept s' = ts_slept s + slept ∧ ts_serving s' = ts_serving s ∧ slept ≤ 5 ∧
    poll_outcome text_fatal code text 5 x l slept.
Proof.
  unfold poll. change (seqZ 0 6) with (seqZ (5 - Z.of_nat 5) (Z.of_nat 5 + 1)).
  destruct (poll_from_outcome text_fatal code text 5 s ltac:(done)) as (x & l & slept & s' & -> & Hl & Hs & Hv & Hout).
  exists x, l, slept, s'. split_and!; [done|done|done|done| |done].
  destruct Hout as [Hlen Hx]. destruct x as [u|e|]; [| |done].
  - destruct Hx as (l0 & y & -> & _ & _ & ->). rewrite length_app in Hlen. cbn in Hlen. lia.
  - destruct Hx as [(_ & _ & _ & ->)|(l0 & y & err & -> & _ & _ & _ & ->)]; [lia|]. rewrite length_app in Hlen. cbn in Hlen. lia.
Qed.

(** A step that sends no request, does not wait and does not panic. *)
Definition quiet {A} (m : io test_state A) : Prop :=
  ∀ s, no_panic (m s).1 ∧ ts_replies (m s).2 = ts_replies s ∧ ts_slept (m s).2 = ts_slept s ∧ ts_serving (m s).2 = ts_serving s.

Lemma quiet_bind {A B} (m : io test_state A) (f : A → io test_state B) :
  quiet m → (∀ a, quiet (f a)) → quiet (m ≫= f).
Proof.
  intros Hm Hf s. unfold mbind, io_bind, io_bind_def. destruct (Hm s) as (Hp & Hr & Hs & Hv). destruct (m s) as [[a|e|] s1]; cbn in *; [|done|done].
  destruct (Hf a s1) as (Hp' & Hr' & Hs' & Hv'). split_and!; [done|congruence..].
Qed.

Lemma quiet_call {A} (f : Env → (error + A) * Env) : quiet (with_env (call f)).
Proof. intros s. unfold with_env, zoom, call. by destruct (f (ts_env s)) as [[] e]. Qed.

Lemma quiet_fatal {A} text (m : io test_state A) : quiet m → quiet (fatal text m).
Proof. intros Hm s. destruct (Hm s) as (Hp & Hr & Hs & Hv). unfold fatal. by destruct (m s) as [[] s1]. Qed.

Lemma quiet_pure {A} (x : error + A) : quiet (pure (lift x)).
Proof. intros s. by destruct x. Qed.

Lemma quiet_cert : quiet generateSelfSignedCert.
Proof.
  unfold generateSelfSignedCert, write_pem. apply quiet_bind.
  { intros s. unfold with_env, zoom. by destruct (TempDir (ts_env s)). }
  intros dir. repeat (apply quiet_bind; [|intros ?]); auto using quiet_fatal, quiet_call, quiet_pure.
  by intros s.
Qed.

(** Starting the mock server ends, whatever the server does: after at most five requests for
    the health endpoint and five seconds of waiting it has either seen a reply that shows the
    server is up, the last one and no earlier one, or it has failed: because five replies in a row
    showed nothing, or because the body of the last one could not be read.  One goroutine then
    runs Serve on localhost.  With TLS it can fail before, while the certificate is made, without
    a goroutine and without a request. *)
Theorem Start_terminates s :
  (∃ x l slept s' g, MockServer_Start s = (x, s') ∧
    ts_replies s' = ts_replies s ++ l ∧ ts_slept s' = ts_slept s + slept ∧ slept ≤ 5 ∧
    ts_serving s' = ts_serving s ++ [g] ∧ Http.HTTPTarget (g_hc g) = "localhost:8080" ∧ Grpc.GRPCTarget (g_gc g) = "localhost:8081" ∧
    poll_outcome "mock server failed to startup" StatusOK serving_json 5 x l slept) ∧
  (∃ x l slept s', MockServer_StartTLS s = (x, s') ∧
    ts_replies s' = ts_replies s ++ l ∧ ts_slept s' = ts_slept s + slept ∧ slept ≤ 5 ∧
    (is_Err x ∧ l = [] ∧ slept = 0 ∧ ts_serving s' = ts_serving s ∨
     ∃ g, ts_serving s' = ts_serving s ++ [g] ∧ Http.HTTPTarget (g_hc g) = "localhost:8080" ∧ Grpc.GRPCTarget (g_gc g) = "localhost:8081" ∧
       poll_outcome "mock TLS server failed to startup" StatusBadRequest "Client sent an HTTP request to an HTTPS server" 5 x l slept)).
Proof.
  split.
  - unfold MockServer_Start, mbind, io_bind, io_bind_def, configure, go_serve, modify.
    match goal with |- context [poll ?f ?c ?t ?s0] =>
      destruct (poll_terminates f c t s0) as (x & l & slept & s' & -> & Hl & Hs & Hv & Hle & Hout) end.
    cbn [ts_serving] in Hv. by eexists x, l, slept, s', _.
  - destruct (quiet_cert s) as (Hp & Hr & Hs & Hv). unfold MockServer_StartTLS, mbind, io_bind, io_bind_def, configure, go_serve, modify.
    destruct (generateSelfSignedCert s) as [[[certFile keyFile]|e|] s1]; cbn [fst snd] in *; [| |done].
    + match goal with |- context [poll ?f ?c ?t ?s0] =>
        destruct (poll_terminates f c t s0) as (x & l & slept & s' & -> & Hl & Hs' & Hv' & Hle & Hout) end.
      exists x, l, slept, s'. cbn [ts_replies ts_slept ts_serving] in Hl, Hs', Hv'.
      split_and!; [done|congruence|congruence|done|right]. rewrite Hv in Hv'. by eexists.
    + exists (Err e), [], 0, s1. rewrite app_nil_r. split_and!; [done|done|lia|lia|by left].
Qed.

Lemma remove_files_keeps l s : ts_serving (remove_files l s).2 = ts_serving s ∧ ms_wg (remove_files l s).2 = ms_wg s.
Proof.
  revert s. induction l as [|file l IH]; intros s; cbn; [done|].
  unfold mbind, io_bind, io_bind_def, try, with_env, zoom, call. destruct (os_Remove file (ts_env s)) as [[e|u] env]; cbn; by rewrite !(proj1 (IH _)), !(proj2 (IH _)).
Qed.

(** Stopping ends the goroutines that were started. *)
Lemma Stop_stops s s' : MockServer_Stop s = (Ok tt, s') → ts_serving s' = [] ∧ ms_wg s' = 0.
Proof.
  unfold MockServer_Stop. intros (r & s1 & _ & Hs)%io_bind_Ok. destruct r as [e|[]]; [discriminate|].
  apply io_bind_Ok in Hs as ([] & s2 & Hw & Hs). apply io_bind_Ok in Hs as (files & s3 & Hf & Hs). injection Hw as <-.
  injection Hf as <- <-. pose proof (remove_files_keeps (ms_cleanupFiles s1)) as Hk. cbn [ms_cleanupFiles] in Hs.
  match type of Hs with remove_files _ ?s0 = _ => specialize (Hk s0) end. by rewrite Hs in Hk.
Qed.
End mock.
