(* ===== verification/Metrics.v ===== *)
(** * internal/server/metrics.go: the metrics and their server

    The registry with the program's metrics, which is made once, the server
    that exposes it, and the label sets that exist from the start. *)
From S2P Require Import Prelude GoErrors GoStrings Proto External IO Service Gateway RekorGrpc Config.

(** ** Prometheus *)

Inductive metric_kind := Counter | CounterVec | HistogramVec | GaugeFunc.

(** A metric: its kind, its full name, its help text, and the names of its
    variable and of its constant labels. *)
Record metric := { m_kind : metric_kind; m_name : string; m_help : string; m_labels : list string; m_const : list string }.

(** A registry; registering a name twice panics ([MustRegister] and promauto). *)
Definition registry : Type := list metric.

Definition MustRegister (reg : registry) (m : metric) : result registry :=
  if bool_decide (m_name m ∈ m_name <$> reg) then Panic else Ok (reg ++ [m]).

(** The metrics of a collector, one after another. *)
Fixpoint MustRegister_all (reg : registry) (ms : list metric) : result registry :=
  match ms with
  | [] => Ok reg
  | m :: ms' => reg ← MustRegister reg m; MustRegister_all reg ms'
  end.

(** [WithLabelValues] panics, and [GetMetricWithLabelValues] fails, unless
    there is a value for each label. *)
Definition WithLabelValues (m : metric) (values : list string) : result (list string) :=
  if bool_decide (length values = length (m_labels m)) then Ok values else Panic.

(** What the program takes of the middleware and of OpenTelemetry: the metrics
    of gRPC servers, and the exporter, which registers a collector of its own. *)
Class MetricsLib := {
  NewServerMetrics : list metric;
  otelprom_New : error + unit
}.

(** ** _initMetricsFunc *)

Record metrics := {
  reg : registry;
  newHashedRekordEntries : metric;
  newDsseEntries : metric;
  httpLatency : metric;
  httpRequestsCount : metric;
  httpRequestSize : metric;
  panicsTotal : metric;
  inclusionProofFailureCount : metric;
  grpcRequestSize : metric
}.

Definition counter (name help : string) : metric :=
  {| m_kind := Counter; m_name := name; m_help := help; m_labels := []; m_const := [] |}.
Definition histogram_vec (name help : string) (labels : list string) : metric :=
  {| m_kind := HistogramVec; m_name := name; m_help := help; m_labels := labels; m_const := [] |}.

Section metrics.
Context `{MetricsLib}.

(** [f.NewCounter(...)] and its like: the metric, registered. *)
Definition new_metric (m : metric) : io registry metric := λ r,
  match MustRegister r m with
  | Ok r' => (Ok m, r')
  | Err e => (Err e, r)
  | Panic => (Panic, r)
  end.

Definition build_info : metric :=
  {| m_kind := GaugeFunc; m_name := "rekor_v2" +:+ "_" +:+ "build_info";
     m_help := "A metric with a constant '1' value labeled by version, revision, branch, and goversion from which rekor was built.";
     m_labels := []; m_const := ["version"; "revision"; "build_date"; "goversion"] |}.

Definition initMetrics : result metrics :=
  let m : io registry metrics :=
    r ← gets id;
    r ← pure (MustRegister_all r NewServerMetrics);
    _ ← modify (λ _, r);
    hashedrekord ← new_metric (counter "rekor_v2_new_hashedrekord_entries" "The total number of new dsse log entries");
    dsse ← new_metric (counter "rekor_v2_new_dsse_entries" "The total number of new dsse log entries");
    request_size ← new_metric (histogram_vec "rekor_v2_grpc_api_request_size" "API Request size on GRPC calls"
                                 ["grpc_service"; "grpc_method"; "grpc_packet_part"]);
    latency ← new_metric (histogram_vec "rekor_v2_http_api_latency" "API Latency on HTTP calls" ["code"; "method"]);
    requests ← new_metric {| m_kind := CounterVec; m_name := "rekor_v2_http_requests_total"; m_help := "Count all HTTP requests";
                             m_labels := ["code"; "method"]; m_const := [] |};
    http_size ← new_metric (histogram_vec "rekor_v2_http_api_request_size" "API Request size on HTTP calls" ["code"; "method"]);
    panics ← new_metric (counter "rekor_v2_grpc_req_panics_recovered_total" "Total number of gRPC requests recovered from internal panic.");
    failures ← new_metric (counter "rekor_v2_inclusion_proof_failure_total"
      "Total number of inclusion proof verification failures, which should always be zero. Likely catastrophic failure if not zero.");
    _ ← new_metric build_info;
    _ ← pure (match otelprom_New with
              | inl _ => Err (ErrorString "failed to register opentelemetry metrics for prometheus:")
              | inr _ => Ok tt
              end);
    r ← gets id;
    mret {| reg := r; newHashedRekordEntries := hashedrekord; newDsseEntries := dsse; httpLatency := latency;
            httpRequestsCount := requests; httpRequestSize := http_size; panicsTotal := panics;
            inclusionProofFailureCount := failures; grpcRequestSize := request_size |} in
  (m []).1.

(** [sync.OnceValue]: the function runs once; a panic is repeated by every
    later call.  An error is the end of the process. *)
Inductive once := NotRun | Ran (m : metrics) | Panicked.

Definition getMetrics : io once metrics := λ o,
  match o with
  | Ran m => (Ok m, o)
  | Panicked => (Panic, o)
  | NotRun => match initMetrics with
              | Ok m => (Ok m, Ran m)
              | Err e => (Err e, NotRun)
              | Panic => (Panic, Panicked)
              end
  end.
End metrics.

(** ** The metrics server *)

Record http_metrics := {
  hm_Addr : string;
  hm_HandlerTimeout : Z;
  hm_ReadTimeout : Z;
  hm_ReadHeaderTimeout : Z;
  hm_WriteTimeout : Z;
  hm_IdleTimeout : Z
}.

Definition newHTTPMetrics (config : Http.HTTPConfig) : http_metrics :=
  let endpoint := Http.HTTPMetricsTarget config in
  {| hm_Addr := endpoint;
     hm_HandlerTimeout := Http.timeout config;
     hm_ReadTimeout := Http.timeout config;
     hm_ReadHeaderTimeout := Http.timeout config;
     hm_WriteTimeout := Http.timeout config;
     hm_IdleTimeout := Http.timeout config |}.

(** ** Label sets from the start

    A label set of the histogram of request sizes for every method of every
    service, whatever the order of the map; the result is discarded, so a
    wrong number of values would go unnoticed. *)
Definition InitializeCustomGrpcMetrics (o : map_order) (m : metrics) (serviceInfo : gmap string (list string)) : list (list string) :=
  '(serviceName, methods) ← order o (map_to_list serviceInfo);
  omap (λ methodName, match WithLabelValues (grpcRequestSize m) [serviceName; methodName; "payload"] with
                      | Ok l => Some l
                      | _ => None
                      end) methods.

(** [GetServiceInfo] of a gRPC server: the methods by service. *)
Definition GetServiceInfo {S} (reg : list (ServiceDesc S * RekorServer S)) : gmap string (list string) :=
  list_to_map ((λ x, (ServiceName x.1, MethodName <$> Methods x.1)) <$> reg).

(** ** Lemmas *)

(** Names outside the program's own prefix. *)
Definition foreign_names (ms : list metric) : Prop :=
  NoDup (m_name <$> ms) ∧ Forall (λ m, HasPrefix (m_name m) "rekor_v2_" = false) ms.

Lemma MustRegister_new r m : m_name m ∉ m_name <$> r → MustRegister r m = Ok (r ++ [m]).
Proof. intros Hm. unfold MustRegister. by rewrite bool_decide_false. Qed.

Lemma MustRegister_all_new r ms : NoDup (m_name <$> (r ++ ms)) → MustRegister_all r ms = Ok (r ++ ms).
Proof.
  revert r. induction ms as [|m ms IH]; intros r Hnd; cbn; [by rewrite app_nil_r|].
  rewrite MustRegister_new.
  - cbn. rewrite IH; by rewrite <-app_assoc.
  - rewrite fmap_app in Hnd. apply NoDup_app in Hnd as (_ & Hdis & _). intros Hin. apply (Hdis _ Hin). by left.
Qed.

(** One of the program's own metrics, registered after others of its own. *)
Lemma new_metric_own fs own m :
  foreign_names fs → HasPrefix (m_name m) "rekor_v2_" = true → m_name m ∉ m_name <$> own →
  new_metric m (fs ++ own) = (Ok m, fs ++ own ++ [m]).
Proof.
  intros [_ Hfs] Hm Hown. unfold new_metric. rewrite MustRegister_new; [by rewrite <-app_assoc|].
  rewrite fmap_app. intros [(m' & Heq & Hin)%list_elem_of_fmap|?]%elem_of_app; [|done].
  rewrite Forall_forall in Hfs. specialize (Hfs m' Hin). cbn in Hfs. rewrite <-Heq in Hfs. congruence.
Qed.

Section init.
Context `{MetricsLib}.

Ltac register_next :=
  match goal with
  | |- context [new_metric ?m (?fs ++ ?own)] =>
      rewrite (new_metric_own fs own m); [cbn [app]|assumption|vm_compute; reflexivity
        |refine (bool_decide_eq_true_1 _ _); vm_compute; reflexivity]
  end.

Lemma initMetrics_Ok :
  foreign_names NewServerMetrics → otelprom_New = inr tt →
  ∃ m own, initMetrics = Ok m ∧ reg m = NewServerMetrics ++ own ∧
    NoDup (m_name <$> own) ∧ Forall (λ m, HasPrefix (m_name m) "rekor_v2_" = true) own ∧
    m_labels (grpcRequestSize m) = ["grpc_service"; "grpc_method"; "grpc_packet_part"].
Proof.
  intros Hf Ho. unfold initMetrics, mbind, io_bind, io_bind_def, gets, modify, pure. cbn [id].
  rewrite MustRegister_all_new by (cbn; apply Hf). cbn [app].
  rewrite <-(app_nil_r NewServerMetrics). repeat (register_next; cbn beta iota).
  rewrite Ho. eexists _, _. split; [reflexivity|]. split; [rewrite (app_nil_r NewServerMetrics); reflexivity|]. split_and!; [| |reflexivity].
  - refine (bool_decide_eq_true_1 _ _). vm_compute. reflexivity.
  - repeat constructor.
Qed.

(** ** Theorems *)

(** A label set of a registered service is among those that exist from the start. *)
Lemma initialized_labels o m info service methods method :
  info !! service = Some methods → method ∈ methods → length (m_labels (grpcRequestSize m)) = 3%nat →
  [service; method; "payload"] ∈ InitializeCustomGrpcMetrics o m info.
Proof.
  intros Hs Hm Hl. unfold InitializeCustomGrpcMetrics. apply list_elem_of_bind. exists (service, methods). split.
  - apply list_elem_of_omap. exists method. split; [done|]. unfold WithLabelValues. by rewrite bool_decide_true.
  - rewrite (order_perm o). by apply elem_of_map_to_list.
Qed.

(** The metrics are made once and fit their uses: if the middleware's metrics have other names
    than the program's and the exporter registers, the first call of getMetrics registers all
    metrics without a panic and every later call returns the same ones; for every method of the
    registered Rekor service, the request-size statistics are observed under the service and
    the method, with a value for each label of the histogram, and this label set is one of those
    that exist from the start, whatever other services the server has. *)
Theorem metrics_fit_service {S} o (srv : RekorServer S) rg others
    (Hf : foreign_names NewServerMetrics) (Ho : otelprom_New = inr tt) (Hreg : RegisterRekorServer [] srv = Ok rg) :
  ∃ m, getMetrics NotRun = (Ok m, Ran m) ∧ getMetrics (Ran m) = (Ok m, Ran m) ∧ NoDup (m_name <$> reg m) ∧
    ∀ d size obs, d ∈ Methods (Rekor_ServiceDesc (S := S)) →
      let service := ServiceName (Rekor_ServiceDesc (S := S)) in
      let labels := [service; MethodName d; "payload"] in
      HandleRPC (TagRPC None ("/" +:+ service +:+ "/" +:+ MethodName d)) (InPayload size) obs =
        obs ++ [(service, MethodName d, "payload", size)] ∧
      WithLabelValues (grpcRequestSize m) labels = Ok labels ∧
      labels ∈ InitializeCustomGrpcMetrics o m (GetServiceInfo rg ∪ others).
Proof.
  injection Hreg as <-.
  destruct (initMetrics_Ok Hf Ho) as (m & own & Hm & Hr & Hnd & Hown & Hl). exists m.
  split_and!; [unfold getMetrics; by rewrite Hm|done| |].
  - rewrite Hr, fmap_app. apply NoDup_app. split_and!; [apply Hf| |done].
    intros n (x & -> & Hx)%list_elem_of_fmap (y & Hxy & Hy)%list_elem_of_fmap. destruct Hf as [_ Hf].
    rewrite Forall_forall in Hf, Hown. specialize (Hf x Hx). specialize (Hown y Hy). cbn in Hf, Hown. rewrite Hxy in Hf. congruence.
  - intros d size obs Hd service labels. split_and!.
    + apply HandleRPC_labels. vm_compute. reflexivity.
    + unfold WithLabelValues. rewrite Hl. done.
    + apply (initialized_labels _ _ _ _ (MethodName <$> Methods (Rekor_ServiceDesc (S := S)))); [|by apply list_elem_of_fmap_2|by rewrite Hl].
      apply lookup_union_Some_l. unfold GetServiceInfo. cbn [fmap list_fmap fst]. apply lookup_insert_eq.
Qed.
End init.

(** ** A concrete run *)

Module MetricsExamples.
#[export] Instance metrics_lib : MetricsLib :=
  {| NewServerMetrics := [counter "grpc_server_started_total" "Total number of RPCs started on the server."]; otelprom_New := inr tt |}.

Lemma metrics_fit_service_witness :
  ∃ m, getMetrics NotRun = (Ok m, Ran m) ∧ getMetrics (Ran m) = (Ok m, Ran m) ∧ NoDup (m_name <$> reg m) ∧
    ∀ d size obs, d ∈ Methods (Rekor_ServiceDesc (S := unit)) →
      let service := ServiceName (Rekor_ServiceDesc (S := unit)) in
      let labels := [service; MethodName d; "payload"] in
      HandleRPC (TagRPC None ("/" +:+ service +:+ "/" +:+ MethodName d)) (InPayload size) obs =
        obs ++ [(service, MethodName d, "payload", size)] ∧
      WithLabelValues (grpcRequestSize m) labels = Ok labels ∧
      labels ∈ InitializeCustomGrpcMetrics order_rev m
        (GetServiceInfo (S := unit) [(Rekor_ServiceDesc, UnimplementedRekorServer)] ∪ {[ "grpc.health.v1.Health" := ["Check"; "Watch"] ]}).
Proof.
  refine (metrics_fit_service order_rev (UnimplementedRekorServer (S := unit)) _ {[ "grpc.health.v1.Health" := ["Check"; "Watch"] ]} _ eq_refl eq_refl).
  split; [|by repeat constructor]. refine (bool_decide_eq_true_1 _ _). vm_compute. reflexivity.
Defined.
End MetricsExamples.
