(* ===== verification/Servers.v ===== *)
(** * internal/server/grpc.go, http.go: how the servers are put together

    The options with which the gRPC server and the HTTP proxy are created from
    their configurations, and the chain of interceptors around every gRPC
    handler. *)
From S2P Require Import Prelude GoErrors GoStrings Proto External IO Note TesseraLib Storage Service Gateway Config.

(** ** TLS *)

Class TlsLib := {
  KeyPair : Type;
  LoadX509KeyPair : string → string → error + KeyPair
}.

Definition VersionTLS13 : Z := 772.   (* 0x0304 *)

(** One call with what the interceptors have seen of it. *)
Record call_log (W : Type) := { cl_rpc : rpc W; cl_seen : list (option Code) }.
Arguments cl_rpc {W}.
Arguments cl_seen {W}.
Arguments Build_call_log {W}.

Section servers.
Context `{TlsLib}.

Record tls_Config := { Certificates : list KeyPair; MinVersion : Z }.

Definition loadTLSCredentials (certFile keyFile : string) : result tls_Config :=
  cert ← wrap "failed to load key pair: " (lift (LoadX509KeyPair certFile keyFile));
  Ok {| Certificates := [cert]; MinVersion := VersionTLS13 |}.

(** ** grpc.go *)

(** The unary interceptors, outermost first. *)
Inductive interceptor := LoggingInterceptor (events : list LoggableEvent) | MetricsInterceptor | RecoveryInterceptor.

Record grpc_server := {
  gs_interceptors : list interceptor;
  gs_ConnectionTimeout : Z;
  gs_MaxConnectionIdle : Z;
  gs_MaxRecvMsgSize : Z;
  gs_Creds : option tls_Config;
  gs_services : list string;
  gs_serverEndpoint : string
}.

(** An error is a log message followed by [os.Exit(1)]. *)
Definition newGRPCServer (config : Grpc.GRPCConfig) : result grpc_server :=
  creds ← (if Grpc.HasTLS config
           then match loadTLSCredentials (Grpc.certFile config) (Grpc.keyFile config) with
                | Ok c => Ok (Some c)
                | Err _ => Err (ErrorString "failed to load TLS credentials")
                | Panic => Panic
                end
           else Ok None);
  Ok {| gs_interceptors :=
          [LoggingInterceptor (loggingOpts (Grpc.logLevel config) (Grpc.requestResponseLogging config));
           MetricsInterceptor; RecoveryInterceptor];
        gs_ConnectionTimeout := Grpc.timeout config;
        gs_MaxConnectionIdle := Grpc.timeout config;
        gs_MaxRecvMsgSize := Grpc.maxMessageSize config;
        gs_Creds := creds;
        gs_services := ["Rekor"; "Health"; "Reflection"];
        gs_serverEndpoint := Grpc.GRPCTarget config |}.

(** ** http.go *)

(** What is wrapped around the mux, in the order it is wrapped. *)
Inductive http_wrapper :=
  | InstrumentMetricHandler | InstrumentHandlerDuration | InstrumentHandlerCounter | InstrumentHandlerRequestSize
  | WithCloudTraceContext | MaxBytesHandler (n : Z).

(** How the proxy dials the gRPC server. *)
Inductive dial := DialInsecure | DialTLSSkipVerify.

Record http_proxy := {
  hp_dial : dial;
  hp_DiscardUnknown : bool;
  hp_EmitUnpopulated : bool;
  hp_handler : list http_wrapper;
  hp_Addr : string;
  hp_ReadTimeout : Z;
  hp_ReadHeaderTimeout : Z;
  hp_WriteTimeout : Z;
  hp_IdleTimeout : Z;
  hp_TLSConfig : option tls_Config
}.

(** [cc] and [reg]: whether connecting to the gRPC server and registering the gateway succeed. *)
Definition newHTTPProxy (cc reg : error + unit) (config : Http.HTTPConfig) : result http_proxy :=
  let opts := if Http.HasGRPCTLS config then DialTLSSkipVerify else DialInsecure in
  _ ← match cc with inr _ => Ok tt | inl _ => Err (ErrorString "failed to connect to grpc server") end;
  _ ← match reg with inr _ => Ok tt | inl _ => Err (ErrorString "failed to register gateway:") end;
  let handler := [InstrumentMetricHandler; InstrumentHandlerDuration; InstrumentHandlerCounter; InstrumentHandlerRequestSize] in
  let handler := if Http.supportGCP config then handler ++ [WithCloudTraceContext] else handler in
  let handler := handler ++ [MaxBytesHandler (Http.maxRequestBodySize config)] in
  tls ← (if Http.HasTLS config
         then match LoadX509KeyPair (Http.certFile config) (Http.keyFile config) with
              | inr cert => Ok (Some {| Certificates := [cert]; MinVersion := VersionTLS13 |})
              | inl _ => Err (ErrorString "failed to load TLS certificates:")
              end
         else Ok None);
  Ok {| hp_dial := opts;
        hp_DiscardUnknown := false;
        hp_EmitUnpopulated := true;
        hp_handler := handler;
        hp_Addr := Http.HTTPTarget config;
        hp_ReadTimeout := Http.timeout config;
        hp_ReadHeaderTimeout := Http.timeout config;
        hp_WriteTimeout := Http.timeout config;
        hp_IdleTimeout := Http.timeout config;
        hp_TLSConfig := tls |}.

(** ** The interceptor chain

    What one call looks like from outside: the interceptors for logging and
    metrics record the code they see ([None] for a panic that passes through). *)
Definition code_of {A} (x : result A) : option Code :=
  match x with
  | Ok _ => Some OK
  | Err (StatusError c _) => Some c
  | Err _ => Some Unknown
  | Panic => None
  end.

Definition intercept {W A} (i : interceptor) (h : io (call_log W) A) : io (call_log W) A :=
  match i with
  | LoggingInterceptor _ | MetricsInterceptor => λ s,
      let '(x, s') := h s in (x, Build_call_log (cl_rpc s') (cl_seen s' ++ [code_of x]))
  | RecoveryInterceptor => λ s,
      match h s with
      | (Panic, s') => let '(x, r) := (err ← grpcPanicRecoveryHandler; fail err) (cl_rpc s') in (x, Build_call_log r (cl_seen s'))
      | r => r
      end
  end.

(** [grpc.ChainUnaryInterceptor]: the first interceptor is the outermost. *)
Definition chain {W A} (is_ : list interceptor) (h : io (call_log W) A) : io (call_log W) A := foldr intercept h is_.

(** A handler inside the chain. *)
Definition handle {W A} (h : io (rpc W) A) : io (call_log W) A :=
  zoom cl_rpc (λ r s, Build_call_log r (cl_seen s)) h.

(** ** Theorems *)

(** The whole chain of a server: the recovery interceptor turns a panic into an
    error, and the other two see the code of what comes out of it. *)
Lemma chain_run {W A} config gs (h : io (call_log W) A) s :
  newGRPCServer config = Ok gs →
  chain (gs_interceptors gs) h s =
  match h s with
  | (Panic, s') =>
      (Err (StatusError Internal "internal server error"),
       Build_call_log (Build_rpc (rpc_log (cl_rpc s')) (rpc_header (cl_rpc s')) (Inc PanicsTotal (rpc_metrics (cl_rpc s'))))
         ((cl_seen s' ++ [Some Internal]) ++ [Some Internal]))
  | (x, s') => (x, Build_call_log (cl_rpc s') ((cl_seen s' ++ [code_of x]) ++ [code_of x]))
  end.
Proof.
  unfold newGRPCServer. intros (creds & _ & Hgs)%bind_Ok. injection Hgs as <-. cbn.
  by destruct (h s) as [[a|e|] s'].
Qed.

(** A panic in a handler is an ordinary failure to everything around it: on a server made by
    newGRPCServer, a handler that panics is answered with the status Internal, the panic counter
    goes up by one, and the logging and metrics interceptors both see that status; any other
    result passes through unchanged and is seen by both. *)
Theorem panics_are_contained {W A} config gs (h : io (rpc W) A) r
    (Hgs : newGRPCServer config = Ok gs) :
  match h r with
  | (Panic, r') =>
      chain (gs_interceptors gs) (handle h) (Build_call_log r []) =
      (Err (StatusError Internal "internal server error"),
       Build_call_log (Build_rpc (rpc_log r') (rpc_header r') (Inc PanicsTotal (rpc_metrics r'))) [Some Internal; Some Internal])
  | (x, r') =>
      chain (gs_interceptors gs) (handle h) (Build_call_log r []) = (x, Build_call_log r' [code_of x; code_of x])
  end.
Proof.
  pose proof (chain_run config gs (handle h) (Build_call_log r []) Hgs) as Hrun. unfold handle, zoom in *. cbn in *.
  by destruct (h r) as [[a|e|] r'].
Qed.

(** TLS is all or nothing and never below version 1.3: when the servers are created, the
    gRPC server and the HTTP proxy have TLS settings exactly when both their certificate and
    their key file are configured, with 1.3 as the minimum version. *)
Theorem tls_settings gc hc cc reg gs hp
    (Hg : newGRPCServer gc = Ok gs) (Hh : newHTTPProxy cc reg hc = Ok hp) :
  (is_Some (gs_Creds gs) ↔ Grpc.certFile gc ≠ "" ∧ Grpc.keyFile gc ≠ "") ∧
  (is_Some (hp_TLSConfig hp) ↔ Http.certFile hc ≠ "" ∧ Http.keyFile hc ≠ "") ∧
  (∀ c, gs_Creds gs = Some c ∨ hp_TLSConfig hp = Some c → MinVersion c = VersionTLS13).
Proof.
  assert (Hne : ∀ s t, negb (is_empty s) && negb (is_empty t) = true ↔ s ≠ "" ∧ t ≠ "").
  { intros s t. rewrite andb_true_iff, !negb_true_iff, !is_empty_false. done. }
  assert (Hg' : (is_Some (gs_Creds gs) ↔ Grpc.HasTLS gc = true) ∧ ∀ c, gs_Creds gs = Some c → MinVersion c = VersionTLS13).
  { unfold newGRPCServer in Hg. apply bind_Ok in Hg as (creds & Hc & Hg). injection Hg as <-. cbn [gs_Creds].
    destruct (Grpc.HasTLS gc); [|injection Hc as <-; split; [by split; [intros [??]|]|done]].
    unfold loadTLSCredentials in Hc. destruct (LoadX509KeyPair _ _); [discriminate|]. injection Hc as <-.
    split; [by split; eauto|]. by intros c [= <-]. }
  assert (Hh' : (is_Some (hp_TLSConfig hp) ↔ Http.HasTLS hc = true) ∧ ∀ c, hp_TLSConfig hp = Some c → MinVersion c = VersionTLS13).
  { unfold newHTTPProxy in Hh. apply bind_Ok in Hh as (u1 & _ & Hh). apply bind_Ok in Hh as (u2 & _ & Hh).
    apply bind_Ok in Hh as (tls & Ht & Hh). injection Hh as <-. cbn [hp_TLSConfig].
    destruct (Http.HasTLS hc); [|injection Ht as <-; split; [by split; [intros [??]|]|done]].
    destruct (LoadX509KeyPair _ _); [discriminate|]. injection Ht as <-. split; [by split; eauto|]. by intros c [= <-]. }
  destruct Hg' as [Hg1 Hg2], Hh' as [Hh1 Hh2]. unfold Grpc.HasTLS in Hg1. unfold Http.HasTLS in Hh1.
  rewrite Hne in Hg1, Hh1. split_and!; [done|done|]. intros c [Hc|Hc]; auto.
Qed.

(** The size limit applies to everything the proxy does with a request: the limit on the
    request body, with the configured size, is the outermost of the handlers, and every timeout
    of the proxy is the configured one. *)
Theorem proxy_limits cc reg hc hp (Hh : newHTTPProxy cc reg hc = Ok hp) :
  last (hp_handler hp) = Some (MaxBytesHandler (Http.maxRequestBodySize hc)) ∧
  hp_ReadTimeout hp = Http.timeout hc ∧ hp_ReadHeaderTimeout hp = Http.timeout hc ∧
  hp_WriteTimeout hp = Http.timeout hc ∧ hp_IdleTimeout hp = Http.timeout hc ∧ hp_DiscardUnknown hp = false.
Proof.
  unfold newHTTPProxy in Hh. apply bind_Ok in Hh as (u1 & _ & Hh). apply bind_Ok in Hh as (u2 & _ & Hh).
  apply bind_Ok in Hh as (tls & Ht & Hh). injection Hh as <-. cbn -[last]. split; [|done].
  by destruct (Http.supportGCP hc).
Qed.
End servers.

(** ** Concrete runs *)

Module ServersExamples.

#[export] Instance tls : TlsLib := {| KeyPair := string; LoadX509KeyPair := λ c k, inr (c +:+ k) |}.

Definition gconf : Grpc.GRPCConfig := Grpc.NewGRPCConfig [Grpc.WithTLSCredentials "cert" "key"].
Definition hconf : Http.HTTPConfig := Http.NewHTTPConfig [Http.WithGCPSupport true].
Definition gs : grpc_server :=
  match newGRPCServer gconf with Ok g => g | _ => Build_grpc_server [] 0 0 0 None [] "" end.
Definition hp : http_proxy :=
  match newHTTPProxy (inr tt) (inr tt) hconf with
  | Ok h => h
  | _ => Build_http_proxy DialInsecure false false [] "" 0 0 0 0 None
  end.
Definition start : rpc unit := Build_rpc tt [] (Build_counters 0 0 0 0).
Definition boom : io (rpc unit) unit := pure Panic.

Lemma panics_are_contained_witness :
  chain (gs_interceptors gs) (handle boom) (Build_call_log start []) =
  (Err (StatusError Internal "internal server error"),
   Build_call_log (Build_rpc tt [] (Build_counters 0 0 0 1)) [Some Internal; Some Internal]).
Proof. refine (panics_are_contained gconf gs boom start _). vm_compute. reflexivity. Defined.

Lemma tls_settings_witness :
  (is_Some (gs_Creds gs) ↔ Grpc.certFile gconf ≠ "" ∧ Grpc.keyFile gconf ≠ "") ∧
  (is_Some (hp_TLSConfig hp) ↔ Http.certFile hconf ≠ "" ∧ Http.keyFile hconf ≠ "") ∧
  (∀ c, gs_Creds gs = Some c ∨ hp_TLSConfig hp = Some c → MinVersion c = VersionTLS13).
Proof. apply (tls_settings gconf hconf (inr tt) (inr tt) gs hp); vm_compute; reflexivity. Defined.

Lemma proxy_limits_witness : last (hp_handler hp) = Some (MaxBytesHandler 4194304).
Proof. refine (proj1 (proxy_limits (inr tt) (inr tt) hconf hp _)). vm_compute. reflexivity. Defined.
End ServersExamples.
