(* ===== verification/Serve.v ===== *)
(** * internal/server/serve.go and the start methods: running and stopping the servers

    [Serve] starts the gRPC server, the HTTP proxy and the metrics server, each
    with two goroutines (one waits for a signal and shuts the server down, one
    serves and reports to the wait group), waits for all of them, and only then
    shuts Tessera down.  The goroutines are the threads of a transition system;
    a step is one of their actions, a signal, or the arrival or end of a
    request. *)
From S2P Require Import Prelude GoErrors GoStrings Gateway Config.

(** ** State *)

(** The signal goroutine of a [start] method: created, after
    [signal.Notify], after [<-sigint] (shutting the server down), and after
    [close(waitToClose)]. *)
Inductive sig_state := SigNew | SigReady | SigGot | SigClosed.

(** The serving goroutine: in [Serve], after [Serve] returned because of the
    shutdown, after [wg.Done()], and after the statements that follow it (for
    the metrics server, [otelShutdown]). *)
Inductive srv_state := SrvServing | SrvStopped | SrvDone | SrvFinished.

Record threads := {
  t_sig : sig_state;
  t_srv : srv_state;
  t_chan : bool;      (* a signal is in the channel sigint, which buffers one *)
  t_open : nat        (* requests in flight *)
}.

(** [Serve] itself: starting the servers, in [wg.Wait()], in
    [tesseraShutdownFn], and returned. *)
Inductive main_state := Starting | Waiting | StoppingTessera | Returned.

Record proc := {
  p_main : main_state;
  p_servers : list threads;   (* gRPC, HTTP proxy, metrics, in the order they are started *)
  p_wg : Z                    (* the counter of the wait group *)
}.

(** A process runs or has exited ([os.Exit(1)], or killed by a signal without a handler). *)
Inductive state := Run (p : proc) | Exited.

#[export] Instance sig_state_eq_dec : EqDecision sig_state.
Proof. solve_decision. Defined.
#[export] Instance srv_state_eq_dec : EqDecision srv_state.
Proof. solve_decision. Defined.
#[export] Instance threads_eq_dec : EqDecision threads.
Proof. solve_decision. Defined.
#[export] Instance main_state_eq_dec : EqDecision main_state.
Proof. solve_decision. Defined.
#[export] Instance proc_eq_dec : EqDecision proc.
Proof. solve_decision. Defined.

Definition started : threads := {| t_sig := SigNew; t_srv := SrvServing; t_chan := false; t_open := 0 |}.

Definition set_sig (s : sig_state) (t : threads) : threads :=
  {| t_sig := s; t_srv := t_srv t; t_chan := t_chan t; t_open := t_open t |}.
Definition set_srv (s : srv_state) (t : threads) : threads :=
  {| t_sig := t_sig t; t_srv := s; t_chan := t_chan t; t_open := t_open t |}.
Definition set_chan (b : bool) (t : threads) : threads :=
  {| t_sig := t_sig t; t_srv := t_srv t; t_chan := b; t_open := t_open t |}.
Definition set_open (n : nat) (t : threads) : threads :=
  {| t_sig := t_sig t; t_srv := t_srv t; t_chan := t_chan t; t_open := n |}.

(** [signal.Notify] was called: the goroutine's channel receives signals. *)
Definition registered (t : threads) : bool := match t_sig t with SigNew => false | _ => true end.
(** The server's shutdown has begun. *)
Definition stopping (t : threads) : bool := match t_sig t with SigGot | SigClosed => true | _ => false end.
(** The serving goroutine has called [wg.Done()]. *)
Definition reported (t : threads) : bool := match t_srv t with SrvDone | SrvFinished => true | _ => false end.

(** ** The start methods: what the two goroutines of one server do

    [grpcServer.start], [httpProxy.start] and [httpMetrics.start] differ in
    the library calls they make; the order of their actions is the same. *)
Inductive thread_step : threads → threads → Prop :=
  | st_notify t : t_sig t = SigNew → thread_step t (set_sig SigReady t)
  | st_receive t : t_sig t = SigReady → t_chan t = true → thread_step t (set_chan false (set_sig SigGot t))
  (* GracefulStop or Shutdown returns when no request is in flight; then close(waitToClose) *)
  | st_close t : t_sig t = SigGot → t_open t = 0%nat → thread_step t (set_sig SigClosed t)
  (* Serve returns once the shutdown has begun, possibly before it has ended *)
  | st_stopped t : t_srv t = SrvServing → stopping t = true → thread_step t (set_srv SrvStopped t)
  (* requests end *)
  | st_reply t n : t_open t = S n → thread_step t (set_open n t)
  (* after wg.Done() *)
  | st_finish t : t_srv t = SrvDone → thread_step t (set_srv SrvFinished t).

(** [<-waitToClose; wg.Done()] *)
Definition can_report (t : threads) : bool := bool_decide (t_srv t = SrvStopped) && bool_decide (t_sig t = SigClosed).

(** ** Serve *)

Definition num_servers : nat := 3.

(** The checks at the start of [Serve]. *)
Definition serve_config_ok (hc : Http.HTTPConfig) (gc : Grpc.GRPCConfig) : bool :=
  negb ((Http.port hc =? 0) || (Grpc.port gc =? 0)) &&
  negb ((Http.port hc =? Grpc.port gc) && bool_decide (Http.host hc = Grpc.host gc)).

Definition initial (hc : Http.HTTPConfig) (gc : Grpc.GRPCConfig) : state :=
  if serve_config_ok hc gc then Run {| p_main := Starting; p_servers := []; p_wg := 0 |} else Exited.

(** Internal steps: actions of the program after the servers are started. *)
Inductive istep : proc → proc → Prop :=
  | is_thread p k t t' :
      p_servers p !! k = Some t → thread_step t t' →
      istep p {| p_main := p_main p; p_servers := <[k := t']> (p_servers p); p_wg := p_wg p |}
  | is_done p k t :
      p_servers p !! k = Some t → can_report t = true →
      istep p {| p_main := p_main p; p_servers := <[k := set_srv SrvDone t]> (p_servers p); p_wg := p_wg p - 1 |}
  | is_wait p :
      p_main p = Waiting → p_wg p = 0 →
      istep p {| p_main := StoppingTessera; p_servers := p_servers p; p_wg := p_wg p |}
  | is_tessera p :
      p_main p = StoppingTessera →
      istep p {| p_main := Returned; p_servers := p_servers p; p_wg := p_wg p |}.

Inductive step : state → state → Prop :=
  | s_internal p p' : istep p p' → step (Run p) (Run p')
  (* the next start method: listen, launch the goroutines, wg.Add(1) *)
  | s_start p :
      p_main p = Starting → (length (p_servers p) < num_servers)%nat →
      step (Run p) (Run {| p_main := Starting; p_servers := p_servers p ++ [started]; p_wg := p_wg p + 1 |})
  | s_all_started p :
      p_main p = Starting → length (p_servers p) = num_servers →
      step (Run p) (Run {| p_main := Waiting; p_servers := p_servers p; p_wg := p_wg p |})
  (* a start method fails (listener, credentials), or Serve fails *)
  | s_exit p : p_main p ≠ Returned → step (Run p) Exited
  (* SIGINT or SIGTERM: to every registered channel, or the default action if there is none *)
  | s_signal p :
      existsb registered (p_servers p) = true →
      step (Run p) (Run {| p_main := p_main p;
                           p_servers := (λ t, if registered t then set_chan true t else t) <$> p_servers p;
                           p_wg := p_wg p |})
  | s_killed p : existsb registered (p_servers p) = false → step (Run p) Exited
  (* a request arrives at a server that accepts requests *)
  | s_request p k t :
      p_servers p !! k = Some t → t_srv t = SrvServing → stopping t = false →
      step (Run p) (Run {| p_main := p_main p; p_servers := <[k := set_open (S (t_open t)) t]> (p_servers p); p_wg := p_wg p |}).

Definition reachable hc gc (s : state) : Prop := rtc step (initial hc gc) s.

(** ** The invariant *)

Definition pending (ts : list threads) : Z := Z.of_nat (length (List.filter (λ t, negb (reported t)) ts)).

(** One server: it reports only after its shutdown has ended, with no request in flight. *)
Record thread_inv (t : threads) : Prop := {
  ti_stopped : t_srv t ≠ SrvServing → stopping t = true;
  ti_closed : t_sig t = SigClosed → t_open t = 0%nat;
  ti_reported : reported t = true → t_sig t = SigClosed
}.

Record inv (p : proc) : Prop := {
  i_wg : p_wg p = pending (p_servers p);
  i_threads : Forall thread_inv (p_servers p);
  i_length : p_main p ≠ Starting → length (p_servers p) = num_servers;
  i_length_le : (length (p_servers p) ≤ num_servers)%nat;
  i_main : p_main p = StoppingTessera ∨ p_main p = Returned → p_wg p = 0
}.

(** ** Preservation *)

Definition weight (t : threads) : Z := if reported t then 0 else 1.

Lemma pending_cons t ts : pending (t :: ts) = weight t + pending ts.
Proof. unfold pending, weight. cbn. destruct (reported t); cbn [negb length]; lia. Qed.

Lemma pending_app ts ts' : pending (ts ++ ts') = pending ts + pending ts'.
Proof. induction ts as [|t ts IH]; cbn [app]; rewrite ?pending_cons; [done|lia]. Qed.

Lemma pending_insert ts k t t' :
  ts !! k = Some t → pending (<[k := t']> ts) = pending ts - weight t + weight t'.
Proof.
  revert k. induction ts as [|t0 ts IH]; intros [|k] Hk; cbn in Hk; simplify_eq.
  - cbn. rewrite !pending_cons. lia.
  - change (<[S k := t']> (t0 :: ts)) with (t0 :: <[k := t']> ts). rewrite !pending_cons, (IH k) by done. lia.
Qed.

Lemma pending_fmap f ts : (∀ t, reported (f t) = reported t) → pending (f <$> ts) = pending ts.
Proof.
  intros Hf. induction ts as [|t ts IH]; [done|]. change (f <$> t :: ts) with (f t :: (f <$> ts)).
  rewrite !pending_cons, IH. unfold weight. by rewrite Hf.
Qed.

Lemma pending_nonneg ts : 0 ≤ pending ts.
Proof. unfold pending. lia. Qed.

Lemma pending_zero ts : pending ts = 0 ↔ Forall (λ t, reported t = true) ts.
Proof.
  induction ts as [|t ts IH]; [by split|]. rewrite pending_cons, Forall_cons, <-IH.
  pose proof (pending_nonneg ts). unfold weight. destruct (reported t); split; intros; [split; [done|lia]|lia|lia|].
  by destruct_and?.
Qed.

Lemma thread_step_inv t t' : thread_inv t → thread_step t t' → thread_inv t' ∧ reported t' = reported t.
Proof.
  intros [H1 H2 H3] Hs. destruct Hs as [t Hn|t Hr Hc|t Hg Ho|t Hv Hst|t n Ho|t Hd]; destruct t as [[] [] ch op];
    unfold reported, stopping in *; cbn in *; try discriminate; (split; [split|done]); cbn;
    unfold reported, stopping; cbn; try congruence;
    first [by specialize (H1 ltac:(done))|by specialize (H3 eq_refl)|by specialize (H2 eq_refl); congruence].
Qed.

Lemma thread_inv_report t : thread_inv t → can_report t = true → thread_inv (set_srv SrvDone t) ∧ reported t = false.
Proof.
  intros [H1 H2 H3] [Hs%bool_decide_eq_true Hc%bool_decide_eq_true]%andb_true_iff.
  destruct t as [sg sv ch op]. cbn in *. subst. split; [split; cbn; auto|done].
Qed.

Lemma istep_inv p p' : inv p → istep p p' → inv p'.
Proof.
  intros [Hwg Hts Hlen Hle Hm] Hs. destruct Hs as [p k t t' Hk Ht|p k t Hk Hr|p Hw Hz|p Hst].
  - pose proof (proj1 (Forall_lookup _ _) Hts _ _ Hk) as Hti. destruct (thread_step_inv _ _ Hti Ht) as [Hti' Hrep].
    split; cbn.
    + rewrite (pending_insert _ _ _ _ Hk). unfold weight. rewrite Hrep. lia.
    + by apply Forall_insert.
    + by rewrite length_insert.
    + by rewrite length_insert.
    + done.
  - pose proof (proj1 (Forall_lookup _ _) Hts _ _ Hk) as Hti. destruct (thread_inv_report _ Hti Hr) as [Hti' Hrep].
    assert (Hp : pending (<[k := set_srv SrvDone t]> (p_servers p)) = pending (p_servers p) - 1).
    { rewrite (pending_insert _ _ _ _ Hk). unfold weight. rewrite Hrep. cbn. lia. }
    split; cbn.
    + lia.
    + by apply Forall_insert.
    + by rewrite length_insert.
    + by rewrite length_insert.
    + intros Hmain%Hm. pose proof (pending_nonneg (<[k := set_srv SrvDone t]> (p_servers p))). lia.
  - split; cbn; auto. intros _. apply Hlen. congruence.
  - split; cbn; auto. intros _. apply Hlen. congruence.
Qed.

Lemma step_inv p s' : inv p → step (Run p) s' → match s' with Run p' => inv p' | Exited => True end.
Proof.
  intros Hinv Hs. inversion Hs as [q p' Hi|q Hst Hlt|q Hst Hl|q Hx|q Hr|q Hk|q k t Hk Hsv Hstop]; subst; try done.
  - by eapply istep_inv.
  - destruct Hinv as [Hwg Hts Hlen Hle Hm]. split; cbn.
    + rewrite pending_app. change (pending [started]) with 1. lia.
    + apply Forall_app. split; [done|]. constructor; [|constructor]. split; done.
    + done.
    + rewrite length_app. cbn. lia.
    + rewrite Hst in Hm. intros [?|?]; discriminate.
  - destruct Hinv as [Hwg Hts Hlen Hle Hm]. split; cbn; auto. intros [?|?]; discriminate.
  - destruct Hinv as [Hwg Hts Hlen Hle Hm]. split; cbn; rewrite ?length_fmap; auto.
    + rewrite pending_fmap; [done|]. intros t. by destruct (registered t).
    + apply Forall_fmap. eapply Forall_impl; [done|]. intros t [H1 H2 H3]. cbn.
      destruct (registered t); split; done.
  - destruct Hinv as [Hwg Hts Hlen Hle Hm].
    pose proof (proj1 (Forall_lookup _ _) Hts _ _ Hk) as [H1 H2 H3].
    split; cbn; rewrite ?length_insert; auto.
    + rewrite (pending_insert _ _ _ _ Hk). unfold weight. change (reported (set_open _ t)) with (reported t). lia.
    + apply Forall_insert; [done|]. destruct t as [[] [] ch op]; cbn in *; try discriminate; split; done.
Qed.

Lemma reachable_inv hc gc p : reachable hc gc (Run p) → inv p.
Proof.
  intros Hr. assert (∀ s s', rtc step s s' → match s with Run p => inv p | Exited => True end →
    match s' with Run p => inv p | Exited => True end) as Hpres.
  { induction 1 as [|s s1 s2 Hs _ IH]; [done|]. intros Hi. apply IH. destruct s as [q|]; [by eapply step_inv|by inversion Hs]. }
  apply (Hpres _ _ Hr). unfold initial. destruct (serve_config_ok hc gc); [|done].
  split; cbn; try done; try (intros [?|?]; discriminate). unfold num_servers. lia.
Qed.

(** ** Progress *)

(** Every server's signal goroutine has a signal to receive or has received it. *)
Record signalled (p : proc) : Prop := {
  sg_main : p_main p ≠ Starting;
  sg_servers : Forall (λ t, stopping t = true ∨ t_sig t = SigReady ∧ t_chan t = true) (p_servers p)
}.

Definition sig_measure (s : sig_state) : nat := match s with SigNew => 3 | SigReady => 2 | SigGot => 1 | SigClosed => 0 end.
Definition srv_measure (s : srv_state) : nat := match s with SrvServing => 3 | SrvStopped => 2 | SrvDone => 1 | SrvFinished => 0 end.
Definition main_measure (m : main_state) : nat := match m with Starting => 3 | Waiting => 2 | StoppingTessera => 1 | Returned => 0 end.
Definition thread_measure (t : threads) : nat := sig_measure (t_sig t) + srv_measure (t_srv t) + t_open t.
Definition measure (p : proc) : nat := main_measure (p_main p) + sum_list_with thread_measure (p_servers p).

Lemma sum_list_with_insert {A} (f : A → nat) l k x y :
  l !! k = Some x → (sum_list_with f (<[k := y]> l) + f x = sum_list_with f l + f y)%nat.
Proof.
  revert k. induction l as [|z l IH]; intros [|k] Hk; cbn in Hk; simplify_eq.
  - cbn. lia.
  - change (<[S k := y]> (z :: l)) with (z :: <[k := y]> l). cbn [sum_list_with]. specialize (IH k Hk). lia.
Qed.

Lemma istep_measure p p' : istep p p' → (measure p' < measure p)%nat.
Proof.
  intros Hs. unfold measure. destruct Hs as [p k t t' Hk Ht|p k t Hk Hr|p Hw Hz|p Hst]; cbn.
  - pose proof (sum_list_with_insert thread_measure _ _ _ t' Hk).
    assert (thread_measure t' < thread_measure t)%nat; [|lia].
    unfold thread_measure. destruct Ht as [t Hn|t Hr Hc|t Hg Ho|t Hv Hst|t n Ho|t Hd]; cbn;
      rewrite ?Hn, ?Hr, ?Hg, ?Hv, ?Ho, ?Hd; cbn; lia.
  - apply andb_true_iff in Hr as [Hs%bool_decide_eq_true _].
    pose proof (sum_list_with_insert thread_measure _ _ _ (set_srv SrvDone t) Hk) as Hsum.
    unfold thread_measure at 2 4 in Hsum. cbn in Hsum. rewrite Hs in Hsum. cbn in Hsum. lia.
  - rewrite Hw. cbn. lia.
  - rewrite Hst. cbn. lia.
Qed.

Lemma istep_signalled p p' : signalled p → istep p p' → signalled p'.
Proof.
  intros [Hm Hsv] Hs. destruct Hs as [p k t t' Hk Ht|p k t Hk Hr|p Hw Hz|p Hst]; split; cbn; try done.
  - apply Forall_insert; [done|]. pose proof (proj1 (Forall_lookup _ _) Hsv _ _ Hk) as Hti. cbn in Hti.
    destruct Ht as [t Hn|t Hr Hc|t Hg Ho|t Hv Hst|t n Ho|t Hd]; unfold stopping in *; cbn;
      try (by left); try (by rewrite Hg in Hti; left); try done.
    rewrite Hn in Hti. naive_solver.
  - apply Forall_insert; [done|]. exact (proj1 (Forall_lookup _ _) Hsv _ _ Hk).
Qed.

(** A server that has been signalled and has not reported can take a step. *)
Lemma thread_progress t :
  thread_inv t → (stopping t = true ∨ t_sig t = SigReady ∧ t_chan t = true) → reported t = false →
  (∃ t', thread_step t t') ∨ can_report t = true.
Proof.
  intros _ Hsig Hrep. destruct (t_sig t) eqn:Hs.
  - left. unfold stopping in Hsig. rewrite Hs in Hsig. naive_solver.
  - left. unfold stopping in Hsig. rewrite Hs in Hsig. destruct Hsig as [?|[_ Hc]]; [done|].
    eexists. by apply st_receive.
  - left. destruct (t_open t) as [|n] eqn:Ho; eexists; [by apply st_close|by apply st_reply].
  - unfold reported in Hrep. destruct (t_srv t) eqn:Hv; try done.
    + left. eexists. apply st_stopped; [done|]. unfold stopping. by rewrite Hs.
    + right. unfold can_report. by rewrite Hs, Hv.
Qed.

Lemma progress p : inv p → signalled p → p_main p ≠ Returned → ∃ p', istep p p'.
Proof.
  intros [Hwg Hts Hlen Hle Hm] [Hns Hsig] Hnr.
  destruct (p_main p) eqn:Hmain; [done| |eexists; by apply is_tessera|done].
  destruct (decide (p_wg p = 0)) as [Hz|Hz]; [eexists; by apply is_wait|].
  assert (¬ Forall (λ t, reported t = true) (p_servers p)) as Hnot by (rewrite <-pending_zero; lia).
  apply not_Forall_Exists in Hnot; [|intros ?; apply _].
  apply Exists_exists in Hnot as (t & Ht & Hrep). apply list_elem_of_lookup in Ht as [k Hk].
  destruct (thread_progress t) as [[t' Hstep]|Hr].
  - by eapply Forall_lookup_1.
  - exact (proj1 (Forall_lookup _ _) Hsig _ _ Hk).
  - by apply not_true_is_false in Hrep.
  - eexists. by eapply is_thread.
  - eexists. by eapply is_done.
Qed.

Lemma istep_reachable hc gc p p' : reachable hc gc (Run p) → rtc istep p p' → reachable hc gc (Run p').
Proof.
  intros Hr Hs. unfold reachable. etrans; [exact Hr|]. clear Hr.
  induction Hs as [|p p1 p2 H1 _ IH]; [done|]. eapply rtc_l; [by apply s_internal|done].
Qed.

Lemma completes n p :
  (measure p < n)%nat → inv p → signalled p → ∃ p', rtc istep p p' ∧ p_main p' = Returned.
Proof.
  revert p. induction n as [|n IH]; intros p Hn Hi Hs; [lia|].
  destruct (decide (p_main p = Returned)) as [Hret|Hret]; [by exists p|].
  destruct (progress p Hi Hs Hret) as [p1 H1]. pose proof (istep_measure _ _ H1).
  destruct (IH p1) as (p2 & H2 & Hret2); [lia|by eapply istep_inv|by eapply istep_signalled|].
  exists p2. split; [by eapply rtc_l|done].
Qed.

Lemma rtc_istep_inv p p' : inv p → signalled p → rtc istep p p' → inv p' ∧ signalled p'.
Proof.
  intros Hi Hs Hr. induction Hr as [|p p1 p2 H1 _ IH]; [done|].
  apply IH; [by eapply istep_inv|by eapply istep_signalled].
Qed.

Lemma nsteps_measure n p p' : nsteps istep n p p' → (n + measure p' ≤ measure p)%nat.
Proof. induction 1 as [|n p p1 p2 H1 _ IH]; [lia|]. apply istep_measure in H1. lia. Qed.

(** ** Theorems *)

(** Tessera is shut down only after every server has stopped: in every reachable state in
    which Serve has come to the Tessera shutdown or past it, all three servers have finished
    their own shutdown, with no request in flight and none to come, and have reported to the
    wait group. *)
Theorem tessera_stops_last hc gc p
    (Hr : reachable hc gc (Run p)) (Hm : p_main p = StoppingTessera ∨ p_main p = Returned) :
  length (p_servers p) = num_servers ∧
  Forall (λ t, t_sig t = SigClosed ∧ t_srv t ≠ SrvServing ∧ t_open t = 0%nat) (p_servers p).
Proof.
  apply reachable_inv in Hr as [Hwg Hts Hlen _ Hz]. split; [apply Hlen; destruct Hm; congruence|].
  specialize (Hz Hm). rewrite Hwg in Hz. apply pending_zero in Hz.
  apply Forall_forall. intros t Ht. rewrite Forall_forall in Hts, Hz. destruct (Hts t Ht) as [H1 H2 H3].
  pose proof (H3 (Hz t Ht)) as Hc. split_and!; [done| |by apply H2].
  specialize (Hz t Ht). unfold reported in Hz. by destruct (t_srv t).
Qed.

(** The wait group counts the servers that have been started and have not reported; in
    particular it never goes below zero, where Done would panic. *)
Theorem wait_group_count hc gc p (Hr : reachable hc gc (Run p)) :
  p_wg p = Z.of_nat (length (List.filter (λ t, negb (reported t)) (p_servers p))) ∧ 0 ≤ p_wg p.
Proof. apply reachable_inv in Hr as [Hwg _ _ _ _]. rewrite Hwg. unfold pending. split; [done|lia]. Qed.

(** Once the servers are started and each has its signal, shutdown completes: however the
    goroutines are scheduled, and whatever requests are in flight (new arrivals, which a server
    admits until it takes up its signal, aside), they can take only finitely many steps (with the bound given by the measure), they do not get stuck before Serve has
    returned, and some run of them makes it return. *)
Theorem shutdown_completes hc gc p (Hr : reachable hc gc (Run p)) (Hs : signalled p) :
  (∀ n p', nsteps istep n p p' → (n ≤ measure p)%nat) ∧
  (∀ p', rtc istep p p' → (∀ p'', ¬ istep p' p'') → p_main p' = Returned) ∧
  (∃ p', rtc istep p p' ∧ p_main p' = Returned).
Proof.
  pose proof (reachable_inv _ _ _ Hr) as Hi. split_and!.
  - intros n p' Hn%nsteps_measure. lia.
  - intros p' Hp' Hstuck. destruct (rtc_istep_inv _ _ Hi Hs Hp') as [Hi' Hs'].
    destruct (decide (p_main p' = Returned)) as [|Hne]; [done|].
    destruct (progress p' Hi' Hs' Hne) as [p'' H'']. by destruct (Hstuck p'').
  - by apply (completes (S (measure p))); [lia|..].
Qed.

(** When Serve goes past its checks, both ports are set and the HTTP proxy and the gRPC
    server have different addresses; otherwise the process exits before starting anything. *)
Theorem serve_addresses hc gc :
  match initial hc gc with
  | Run p => p_servers p = [] ∧ Http.port hc ≠ 0 ∧ Grpc.port gc ≠ 0 ∧ Http.HTTPTarget hc ≠ Grpc.GRPCTarget gc
  | Exited => Http.port hc = 0 ∨ Grpc.port gc = 0 ∨ Http.HTTPTarget hc = Grpc.GRPCTarget gc
  end.
Proof.
  unfold initial, serve_config_ok. destruct (Z.eqb_spec (Http.port hc) 0); [by left|].
  destruct (Z.eqb_spec (Grpc.port gc) 0); [by right; left|]. cbn.
  destruct (Z.eqb_spec (Http.port hc) (Grpc.port gc)) as [Hp|Hp]; cbn.
  - destruct (bool_decide (Http.host hc = Grpc.host gc)) eqn:Hb; cbn.
    + apply bool_decide_eq_true in Hb. right. right. unfold Http.HTTPTarget, Grpc.GRPCTarget. by rewrite Hb, Hp.
    + apply bool_decide_eq_false in Hb. split_and!; try done. by intros [? ?]%target_inj.
  - split_and!; try done. by intros [? ?]%target_inj.
Qed.

(** ** Concrete runs *)

Module ServeExamples.

Definition hc : Http.HTTPConfig := Http.NewHTTPConfig [].
Definition gc : Grpc.GRPCConfig := Grpc.NewGRPCConfig [].

Ltac next c := eapply rtc_l; [c|cbn].
Ltac thread k c := next ltac:(apply s_internal; eapply (is_thread _ k); [reflexivity|apply c; reflexivity]).
Ltac report k := next ltac:(apply s_internal; eapply (is_done _ k); reflexivity).

Definition mk (sg : sig_state) (sv : srv_state) (ch : bool) : threads :=
  {| t_sig := sg; t_srv := sv; t_chan := ch; t_open := 0 |}.

(** Three servers, started, registered, and signalled. *)
Definition signalled_state : proc :=
  {| p_main := Waiting; p_servers := replicate 3 (mk SigReady SrvServing true); p_wg := 3 |}.

Lemma signalled_reachable : reachable hc gc (Run signalled_state).
Proof.
  unfold reachable. change (initial hc gc) with (Run {| p_main := Starting; p_servers := []; p_wg := 0 |}).
  next ltac:(apply s_start; [reflexivity|cbn; unfold num_servers; lia]).
  next ltac:(apply s_start; [reflexivity|cbn; unfold num_servers; lia]).
  next ltac:(apply s_start; [reflexivity|cbn; unfold num_servers; lia]).
  next ltac:(apply s_all_started; reflexivity).
  thread 0%nat st_notify. thread 1%nat st_notify. thread 2%nat st_notify.
  next ltac:(apply s_signal; reflexivity).
  apply rtc_refl.
Qed.

(** The state after every server has stopped and reported, and Serve has returned. *)
Definition returned_state : proc :=
  {| p_main := Returned; p_servers := replicate 3 (mk SigClosed SrvDone false); p_wg := 0 |}.

Lemma returned_reachable : reachable hc gc (Run returned_state).
Proof.
  unfold reachable. etrans; [exact signalled_reachable|].
  thread 0%nat st_receive. thread 0%nat st_stopped. thread 0%nat st_close. report 0%nat.
  thread 1%nat st_receive. thread 1%nat st_stopped. thread 1%nat st_close. report 1%nat.
  thread 2%nat st_receive. thread 2%nat st_stopped. thread 2%nat st_close. report 2%nat.
  next ltac:(apply s_internal, is_wait; reflexivity).
  next ltac:(apply s_internal, is_tessera; reflexivity).
  apply rtc_refl.
Qed.

Lemma tessera_stops_last_witness :
  length (p_servers returned_state) = num_servers ∧
  Forall (λ t, t_sig t = SigClosed ∧ t_srv t ≠ SrvServing ∧ t_open t = 0%nat) (p_servers returned_state).
Proof. apply (tessera_stops_last hc gc returned_state); [exact returned_reachable|right; reflexivity]. Defined.

Lemma wait_group_count_witness :
  p_wg signalled_state = Z.of_nat (length (List.filter (λ t, negb (reported t)) (p_servers signalled_state))) ∧
  0 ≤ p_wg signalled_state.
Proof. apply (wait_group_count hc gc signalled_state). exact signalled_reachable. Defined.

Lemma shutdown_completes_witness : ∃ p', rtc istep signalled_state p' ∧ p_main p' = Returned.
Proof.
  apply (shutdown_completes hc gc signalled_state); [exact signalled_reachable|].
  split; [done|]. repeat constructor; right; done.
Defined.

(** The state after a signal that came between the starts of the gRPC server and of the others. *)
Definition half_stopped_state : proc :=
  {| p_main := Waiting;
     p_servers := [mk SigClosed SrvFinished false; mk SigReady SrvServing false; mk SigReady SrvServing false]; p_wg := 2 |}.

Lemma half_stopped_reachable : reachable hc gc (Run half_stopped_state).
Proof.
  unfold reachable. change (initial hc gc) with (Run {| p_main := Starting; p_servers := []; p_wg := 0 |}).
  next ltac:(apply s_start; [reflexivity|cbn; unfold num_servers; lia]).
  thread 0%nat st_notify.
  next ltac:(apply s_signal; reflexivity).
  next ltac:(apply s_start; [reflexivity|cbn; unfold num_servers; lia]).
  next ltac:(apply s_start; [reflexivity|cbn; unfold num_servers; lia]).
  next ltac:(apply s_all_started; reflexivity).
  thread 1%nat st_notify. thread 2%nat st_notify.
  thread 0%nat st_receive. thread 0%nat st_stopped. thread 0%nat st_close. report 0%nat. thread 0%nat st_finish.
  apply rtc_refl.
Qed.

Lemma half_stopped_stuck p : ¬ istep half_stopped_state p.
Proof.
  intros Hs. inversion Hs as [? k t t' Hk Ht|? k t Hk Hc|? _ Hwg|? Hm]; subst; try discriminate.
  - destruct k as [|[|[|k]]]; cbn in Hk; simplify_eq; inversion Ht; discriminate.
  - destruct k as [|[|[|k]]]; cbn in Hk; simplify_eq; discriminate Hc.
Qed.

(** C40: a signal during startup can stop some of the servers only: each start method registers for
    signals in its own goroutine, so a signal that comes when the gRPC server has registered and
    the others have not stops the gRPC server alone.  The run below reaches a state in which
    that server is gone, the two HTTP servers serve on, and Serve waits for them; without
    another signal no goroutine of the program has a step left. *)
Theorem startup_signal_lost :
  ∃ p, reachable hc gc (Run p) ∧ p_main p = Waiting ∧ (∀ p', ¬ istep p p') ∧
    t_srv <$> p_servers p = [SrvFinished; SrvServing; SrvServing].
Proof.
  exists half_stopped_state. split_and!; [exact half_stopped_reachable|done|exact half_stopped_stuck|done].
Qed.

(** The OpenTelemetry exporter may never be shut down: the metrics server reports to the
    wait group before it calls otelShutdown, and there is a run in which Serve returns while
    that call has not been made. *)
Theorem otel_shutdown_not_awaited :
  ∃ p, reachable hc gc (Run p) ∧ p_main p = Returned ∧ t_srv <$> p_servers p !! 2%nat = Some SrvDone.
Proof. exists returned_state. split; [exact returned_reachable|done]. Qed.

End ServeExamples.
