(* ===== verification/Lifetime.v ===== *)
(** * The life of a server: calls in flight while it starts, runs and stops

    [Serve] has the goroutines that start and stop the servers and counts the
    requests in flight; [Pool] has the goroutines of the calls that write to the
    log.  Here they run together: a call arrives only while the gRPC server
    accepts requests, and [GracefulStop] returns only when the calls have been
    answered.  A run projects to a run of each part. *)
From S2P Require Import Prelude GoErrors GoStrings SafeInt Proto External IO Threads Note TesseraLib VerifyEntry Storage AlgorithmRegistry HashedRekord Dsse Service History Concurrent Pool Gateway Config Serve.

Section lifetime.
Context `{X509} `{SigstoreSignature} `{!DsseLib} `{Merkle} `{LogFormat} `{Tessera} `{JsonLib}.

(** ** States *)

(** A process that runs: its servers, the requests at the gRPC server other than writes (reads and
    health checks), and the log, the metrics and the calls that write. *)
Record system := { sy_proc : proc; sy_rest : nat; sy_server : server_state }.

(** A call is in flight until it has been answered. *)
Definition open_call (c : rpc_call) : nat := match c_prog c with Return _ => 0 | Access _ _ _ => 1 end.
Definition in_flight (σ : server_state) : nat := sum_list_with open_call (ss_calls σ).

(** The gRPC server is the first that is started. *)
Definition grpc_open (p : proc) : nat := match p_servers p !! 0%nat with Some t => t_open t | None => 0 end.

Definition accepts (p : proc) : Prop :=
  ∃ t, p_servers p !! 0%nat = Some t ∧ t_srv t = SrvServing ∧ stopping t = false.

Definition set_grpc (n : nat) (p : proc) : proc :=
  {| p_main := p_main p; p_servers := alter (set_open n) 0%nat (p_servers p); p_wg := p_wg p |}.

(** The requests at the gRPC server are the calls and the others. *)
Definition with_requests (p : proc) (rest : nat) (σ : server_state) : system :=
  {| sy_proc := set_grpc (rest + in_flight σ) p; sy_rest := rest; sy_server := σ |}.

(** ** Steps *)

Section steps.
Context `{!AppendOnly} (st : storage) (reg : AlgorithmRegistryConfig) (id : bytes).

(** Steps of a process that goes on running. *)
Inductive sys_step : system → system → Prop :=
  (* anything but the arrival or the end of a request at the gRPC server *)
  | sys_process p p' rest σ :
      step (Run p) (Run p') → grpc_open p' = grpc_open p →
      sys_step {| sy_proc := p; sy_rest := rest; sy_server := σ |} {| sy_proc := p'; sy_rest := rest; sy_server := σ |}
  | sys_arrive p rest o1 o2 o3 req w m cs :
      accepts p →
      sys_step {| sy_proc := p; sy_rest := rest; sy_server := {| ss_log := w; ss_metrics := m; ss_calls := cs |} |}
        (with_requests p rest {| ss_log := w; ss_metrics := m; ss_calls := cs ++ [spawn o1 o2 o3 st reg id req] |})
  | sys_proceed p rest σ σ' :
      proceeds σ σ' → sys_step {| sy_proc := p; sy_rest := rest; sy_server := σ |} (with_requests p rest σ')
  | sys_request p rest σ :
      accepts p → sys_step {| sy_proc := p; sy_rest := rest; sy_server := σ |} (with_requests p (S rest) σ)
  | sys_reply p rest σ :
      sys_step {| sy_proc := p; sy_rest := S rest; sy_server := σ |} (with_requests p rest σ)
  (* other writers of the log, and the sequencer *)
  | sys_other p rest w w' m cs :
      grew w w' →
      sys_step {| sy_proc := p; sy_rest := rest; sy_server := {| ss_log := w; ss_metrics := m; ss_calls := cs |} |}
               {| sy_proc := p; sy_rest := rest; sy_server := {| ss_log := w'; ss_metrics := m; ss_calls := cs |} |}.

(** What the goroutines of the process do by themselves: no arrivals, no signals. *)
Inductive sys_istep : system → system → Prop :=
  | sysi_process p p' rest σ :
      istep p p' → grpc_open p' = grpc_open p →
      sys_istep {| sy_proc := p; sy_rest := rest; sy_server := σ |} {| sy_proc := p'; sy_rest := rest; sy_server := σ |}
  | sysi_proceed p rest σ σ' :
      proceeds σ σ' → sys_istep {| sy_proc := p; sy_rest := rest; sy_server := σ |} (with_requests p rest σ')
  | sysi_reply p rest σ :
      sys_istep {| sy_proc := p; sy_rest := S rest; sy_server := σ |} (with_requests p rest σ).

Lemma sys_istep_step y y' : sys_istep y y' → sys_step y y'.
Proof. intros []; [apply sys_process; [by apply s_internal|done]|by apply sys_proceed|apply sys_reply]. Qed.

(** ** Counting requests *)

(** The requests that [Serve] counts are those that there are. *)
Definition balanced (y : system) : Prop := grpc_open (sy_proc y) = (sy_rest y + in_flight (sy_server y))%nat.

Lemma set_open_id t : set_open (t_open t) t = t.
Proof. by destruct t. Qed.

Lemma set_grpc_id p : set_grpc (grpc_open p) p = p.
Proof.
  unfold set_grpc, grpc_open. destruct p as [m [|t ts] wg]; [done|]. cbn. by rewrite set_open_id.
Qed.

Lemma set_grpc_some n p t :
  p_servers p !! 0%nat = Some t →
  set_grpc n p = {| p_main := p_main p; p_servers := <[0%nat := set_open n t]> (p_servers p); p_wg := p_wg p |}.
Proof. unfold set_grpc. destruct p as [m [|t' ts] wg]; [done|]. cbn. by intros [= ->]. Qed.

Lemma grpc_open_set n p : (p_servers p = [] → n = 0%nat) → grpc_open (set_grpc n p) = n.
Proof. unfold grpc_open, set_grpc. destruct p as [m [|t ts] wg]; cbn; [|done]. intros Hn. by rewrite Hn. Qed.

Lemma accepts_started p : accepts p → p_servers p ≠ [].
Proof. intros (t & Ht & _) Hnil. by rewrite Hnil in Ht. Qed.

(** A request comes or goes, as [Serve] sees it. *)
Lemma grpc_arrives p : accepts p → step (Run p) (Run (set_grpc (S (grpc_open p)) p)).
Proof.
  intros (t & Ht & Hs & Hn). rewrite (set_grpc_some _ _ _ Ht). unfold grpc_open. rewrite Ht. by apply s_request.
Qed.

Lemma grpc_replies p n : grpc_open p = S n → istep p (set_grpc n p).
Proof.
  unfold grpc_open. destruct (p_servers p !! 0%nat) as [t|] eqn:Ht; [|done]. intros Hn.
  rewrite (set_grpc_some _ _ _ Ht). eapply is_thread; [done|by apply st_reply].
Qed.

(** A call that makes a step was in flight, and may have been answered by it. *)
Lemma proceeds_in_flight σ σ' :
  proceeds σ σ' → in_flight σ' = in_flight σ ∨ in_flight σ = S (in_flight σ').
Proof.
  intros Hs. destruct Hs as [i c c' w w' m m' cs Hi Ha]. unfold in_flight. cbn.
  pose proof (sum_list_with_insert open_call cs i c c' Hi) as Hsum. unfold advance in Ha. unfold open_call at 2 4 in Hsum.
  destruct (c_prog c); [done|]. destruct (c_prog c'); lia.
Qed.

Lemma in_flight_spawn o1 o2 o3 req w m cs :
  let c := spawn o1 o2 o3 st reg id req in
  in_flight {| ss_log := w; ss_metrics := m; ss_calls := cs ++ [c] |} =
  (in_flight {| ss_log := w; ss_metrics := m; ss_calls := cs |} + open_call c)%nat.
Proof. unfold in_flight. cbn. rewrite sum_list_with_app. cbn. lia. Qed.

Lemma in_flight_answered σ : in_flight σ = 0%nat ↔ ∀ c, c ∈ ss_calls σ → ∃ x, c_prog c = Return x.
Proof.
  unfold in_flight. induction (ss_calls σ) as [|c cs IH]; cbn.
  - split; [by intros _ c ?%not_elem_of_nil|done].
  - split.
    + intros Hz c' [->|Hc]%elem_of_cons; [|apply IH; [lia|done]].
      unfold open_call in Hz. destruct (c_prog c); [by eexists|lia].
    + intros Hall. rewrite (proj2 IH) by (intros c' Hc'; by apply Hall, list_elem_of_further).
      destruct (Hall c ltac:(left)) as [x Hx]. unfold open_call. by rewrite Hx.
Qed.

(** ** Projections *)

(** The number of requests changes by one at most, and grows only when they are accepted. *)
Definition may_become (p : proc) (n : nat) : Prop :=
  n = grpc_open p ∨ accepts p ∧ n = S (grpc_open p) ∨ grpc_open p = S n.

Lemma may_become_serve p rest σ :
  may_become p (rest + in_flight σ) →
  rtc step (Run p) (Run (sy_proc (with_requests p rest σ))) ∧ balanced (with_requests p rest σ).
Proof.
  unfold balanced. cbn. generalize (rest + in_flight σ)%nat. intros n [->|[[Ha ->]|Hn]].
  - by rewrite set_grpc_id.
  - split; [by apply rtc_once, grpc_arrives|]. apply grpc_open_set. by intros ?%accepts_started.
  - split; [by apply rtc_once, s_internal, grpc_replies|]. apply grpc_open_set.
    intros Hnil. unfold grpc_open in Hn. by rewrite Hnil in Hn.
Qed.

Lemma sys_step_serve y y' :
  balanced y → sys_step y y' → rtc step (Run (sy_proc y)) (Run (sy_proc y')) ∧ balanced y'.
Proof.
  unfold balanced at 1. intros Hb Hs.
  destruct Hs as [p p' rest σ Hs Hg|p rest o1 o2 o3 req w m cs Ha|p rest σ σ' Hp|p rest σ Ha|p rest σ|p rest w w' m cs Hg]; cbn [sy_proc sy_rest sy_server] in Hb.
  - split; [by apply rtc_once|]. unfold balanced. cbn. congruence.
  - apply may_become_serve. unfold may_become. rewrite in_flight_spawn, Hb. unfold open_call.
    destruct (c_prog _); [left; lia|right; left; split; [done|lia]].
  - apply may_become_serve. unfold may_become. destruct (proceeds_in_flight _ _ Hp); [left; lia|right; right; lia].
  - apply may_become_serve. right. left. split; [done|]. rewrite Hb. lia.
  - apply may_become_serve. right. right. rewrite Hb. lia.
  - split; [done|]. exact Hb.
Qed.

Lemma sys_step_pool y y' : sys_step y y' → rtc (pool_step st reg id) (sy_server y) (sy_server y').
Proof.
  intros []; cbn; [done|apply rtc_once, step_arrive|by apply rtc_once, step_proceed|done|done|by apply rtc_once, step_other].
Qed.

(** Starting: nothing is in flight. *)
Definition sys_initial (hc : Http.HTTPConfig) (gc : Grpc.GRPCConfig) (y : system) : Prop :=
  initial hc gc = Run (sy_proc y) ∧ sy_rest y = 0%nat ∧ ss_calls (sy_server y) = [].

Lemma sys_initial_balanced hc gc y : sys_initial hc gc y → balanced y.
Proof.
  unfold sys_initial, initial. intros (Hp & Hr & Hc). destruct (serve_config_ok hc gc); [|done]. injection Hp as Hp.
  unfold balanced, in_flight. by rewrite Hr, Hc, <- Hp.
Qed.

Lemma sys_reachable hc gc y y' :
  sys_initial hc gc y → rtc sys_step y y' →
  reachable hc gc (Run (sy_proc y')) ∧ balanced y' ∧ rtc (pool_step st reg id) (sy_server y) (sy_server y').
Proof.
  intros Hi Hr. assert (rtc step (Run (sy_proc y)) (Run (sy_proc y')) ∧ balanced y' ∧
    rtc (pool_step st reg id) (sy_server y) (sy_server y')) as (Hs & Hb & Hp).
  { pose proof (sys_initial_balanced _ _ _ Hi) as Hb. clear Hi. induction Hr as [|y y1 y2 Hs _ IH]; [done|].
    destruct (sys_step_serve _ _ Hb Hs) as [Hs1 Hb1]. destruct (IH Hb1) as (Hs2 & Hb2 & Hp).
    split_and!; [by etrans|done|]. etrans; [by apply sys_step_pool|done]. }
  split_and!; [|done..]. unfold reachable. destruct Hi as [-> _]. exact Hs.
Qed.

(** ** After the servers have stopped *)

(** Serve has got to the shutdown of Tessera. *)
Definition past_servers (p : proc) : Prop := p_main p = StoppingTessera ∨ p_main p = Returned.

Lemma past_servers_stopped p :
  inv p → past_servers p →
  length (p_servers p) = num_servers ∧ Forall (λ t, stopping t = true ∧ t_srv t ≠ SrvServing ∧ t_open t = 0%nat) (p_servers p).
Proof.
  intros [Hwg Hts Hlen _ Hz] Hm. split; [apply Hlen; destruct Hm; congruence|].
  specialize (Hz Hm). rewrite Hwg in Hz. apply pending_zero in Hz.
  apply Forall_forall. intros t Ht. rewrite Forall_forall in Hts, Hz. destruct (Hts t Ht) as [_ Hopen Hrep].
  pose proof (Hrep (Hz t Ht)) as Hc. split_and!; [by unfold stopping; rewrite Hc| |by apply Hopen].
  specialize (Hz t Ht). unfold reported in Hz. by destruct (t_srv t).
Qed.

Lemma past_servers_quiet p : inv p → past_servers p → grpc_open p = 0%nat ∧ ¬ accepts p.
Proof.
  intros Hi Hm. destruct (past_servers_stopped p Hi Hm) as [Hlen Hall]. unfold grpc_open, accepts.
  destruct (p_servers p) as [|t ts]; [by cbn in Hlen|]. apply Forall_cons in Hall as [(Hst & Hsv & Ho) _]. split; [done|].
  intros (t' & [= <-] & ? & _). done.
Qed.

Lemma step_past_servers p p' : past_servers p → step (Run p) (Run p') → past_servers p'.
Proof.
  unfold past_servers. intros Hm Hs. inversion Hs as [q q' Hi|q Hst|q Hst| |q Hr| |q k t]; subst; cbn; try done;
    try (rewrite Hst in Hm; by destruct Hm).
  destruct Hi; cbn; [done|done|by left|by right].
Qed.

(** Then nothing is left to do for the calls, and none comes. *)
Lemma past_servers_step y y' :
  inv (sy_proc y) → balanced y → past_servers (sy_proc y) → sys_step y y' →
  ss_calls (sy_server y') = ss_calls (sy_server y) ∧ grew (ss_log (sy_server y)) (ss_log (sy_server y')) ∧ past_servers (sy_proc y').
Proof.
  intros Hi Hb Hm Hs. destruct (past_servers_quiet _ Hi Hm) as [Hz Hna]. unfold balanced in Hb. rewrite Hz in Hb.
  assert (in_flight (sy_server y) = 0%nat) as Hfl by lia.
  destruct Hs as [p p' rest σ Hs Hg|p rest o1 o2 o3 req w m cs Ha|p rest σ σ' Hp|p rest σ Ha|p rest σ|p rest w w' m cs Hg];
    cbn [sy_proc sy_rest sy_server ss_calls ss_log] in *; try done; try lia.
  - split_and!; [done..|by eapply step_past_servers].
  - exfalso. destruct Hp as [i c c' w w' m m' cs Hc Ha].
    destruct (proj1 (in_flight_answered _) Hfl c (list_elem_of_lookup_2 _ _ _ Hc)) as [x Hx]. unfold advance in Ha. by rewrite Hx in Ha.
Qed.

Lemma past_servers_final hc gc y y' :
  reachable hc gc (Run (sy_proc y)) → balanced y → past_servers (sy_proc y) → rtc sys_step y y' →
  ss_calls (sy_server y') = ss_calls (sy_server y) ∧ grew (ss_log (sy_server y)) (ss_log (sy_server y')).
Proof.
  intros Hr Hb Hm Hs. induction Hs as [|y y1 y2 Hy _ IH]; [done|].
  destruct (past_servers_step _ _ (reachable_inv _ _ _ Hr) Hb Hm Hy) as (<- & Hg & Hm1).
  destruct (sys_step_serve _ _ Hb Hy) as [Hs1 Hb1]. destruct IH as [-> Hg']; [|done..|split; [done|by etrans]].
  unfold reachable in *. by etrans.
Qed.

(** ** Progress *)

Lemma istep_grpc_open p p' : istep p p' → (grpc_open p' ≤ grpc_open p)%nat.
Proof.
  intros Hs. unfold grpc_open. destruct Hs as [p k t t' Hk Ht|p k t Hk Hr|p Hw Hz|p Hst]; cbn; [| |done..].
  - destruct (p_servers p) as [|t0 ts]; [done|]. destruct k as [|k]; cbn in *; [|done]. injection Hk as ->.
    destruct Ht; cbn; lia.
  - destruct (p_servers p) as [|t0 ts]; [done|]. destruct k as [|k]; cbn in *; [|done]. by injection Hk as ->.
Qed.

(** Requests only end. *)
Lemma grpc_settles p n :
  n = grpc_open p ∨ grpc_open p = S n →
  rtc istep p (set_grpc n p) ∧ (measure (set_grpc n p) ≤ measure p)%nat.
Proof.
  intros [->|Hn].
  - by rewrite set_grpc_id.
  - pose proof (grpc_replies _ _ Hn) as Hs. split; [by apply rtc_once|]. apply istep_measure in Hs. lia.
Qed.

Lemma sys_istep_serve y y' : balanced y → sys_istep y y' → rtc istep (sy_proc y) (sy_proc y').
Proof.
  unfold balanced. intros Hb Hs. destruct Hs as [p p' rest σ Hs Hg|p rest σ σ' Hp|p rest σ]; cbn [sy_proc sy_rest sy_server] in Hb.
  - by apply rtc_once.
  - apply grpc_settles. destruct (proceeds_in_flight _ _ Hp); [left; lia|right; lia].
  - apply grpc_settles. right. lia.
Qed.

(** Every step uses up one of the steps that the servers and the calls may still make. *)
Lemma sys_istep_measure y y' ns :
  balanced y → Forall2 may_take (ss_calls (sy_server y)) ns → sys_istep y y' →
  ∃ ns', Forall2 may_take (ss_calls (sy_server y')) ns' ∧
    (measure (sy_proc y') + sum_list ns' < measure (sy_proc y) + sum_list ns)%nat.
Proof.
  unfold balanced. intros Hb Hns Hs.
  destruct Hs as [p p' rest σ Hs Hg|p rest σ σ' Hp|p rest σ]; cbn [sy_proc sy_rest sy_server] in *.
  - exists ns. apply istep_measure in Hs. split; [done|lia].
  - destruct (proceeds_may_take _ _ _ Hns Hp) as (ns' & Hns' & Hsum). exists ns'. split; [done|].
    destruct (grpc_settles p (rest + in_flight σ')) as [_ Hle]; [destruct (proceeds_in_flight _ _ Hp); [left; lia|right; lia]|].
    cbn. lia.
  - exists ns. split; [done|]. pose proof (istep_measure _ _ (grpc_replies p (rest + in_flight σ) ltac:(lia))). cbn. lia.
Qed.

Lemma sys_nsteps_measure n y y' ns :
  balanced y → Forall2 may_take (ss_calls (sy_server y)) ns → nsteps sys_istep n y y' →
  (n ≤ measure (sy_proc y) + sum_list ns)%nat.
Proof.
  intros Hb Hns Hn. revert ns Hb Hns. induction Hn as [|n y y1 y2 Hs _ IH]; intros ns Hb Hns; [lia|].
  destruct (sys_istep_measure _ _ _ Hb Hns Hs) as (ns' & Hns' & Hlt).
  destruct (sys_step_serve _ _ Hb (sys_istep_step _ _ Hs)) as [_ Hb']. specialize (IH ns' Hb' Hns'). lia.
Qed.

Lemma in_flight_proceeds σ : in_flight σ ≠ 0%nat → ∃ σ', proceeds σ σ'.
Proof.
  intros Hne. assert (∃ c, c ∈ ss_calls σ ∧ open_call c ≠ 0%nat) as (c & Hc & Ho).
  { unfold in_flight in Hne. induction (ss_calls σ) as [|c cs IH]; cbn in Hne; [done|].
    destruct (decide (open_call c = 0%nat)) as [Hz|Hz]; [|exists c; split; [left|done]].
    destruct IH as (c' & Hc' & Ho); [lia|]. exists c'. split; [by right|done]. }
  destruct (proceeds_unless_answered σ c Hc) as [[x Hx]|?]; [|done]. unfold open_call in Ho. by rewrite Hx in Ho.
Qed.

Lemma sys_progress y :
  inv (sy_proc y) → balanced y → signalled (sy_proc y) → p_main (sy_proc y) ≠ Returned → ∃ y', sys_istep y y'.
Proof.
  destruct y as [p rest σ]. unfold balanced. cbn [sy_proc sy_rest sy_server]. intros Hi Hb Hs Hm.
  destruct rest as [|rest]; [|eexists; apply sysi_reply].
  destruct (decide (in_flight σ = 0%nat)) as [Hz|Hz].
  - destruct (progress p Hi Hs Hm) as [p' Hp]. exists {| sy_proc := p'; sy_rest := 0; sy_server := σ |}.
    apply sysi_process; [done|]. apply istep_grpc_open in Hp. lia.
  - destruct (in_flight_proceeds σ Hz) as [σ' Hp]. eexists. by apply sysi_proceed.
Qed.

Lemma rtc_sys_istep y y' :
  inv (sy_proc y) → balanced y → signalled (sy_proc y) → rtc sys_istep y y' →
  inv (sy_proc y') ∧ balanced y' ∧ signalled (sy_proc y').
Proof.
  intros Hi Hb Hs Hr. induction Hr as [|y y1 y2 Hy _ IH]; [done|].
  destruct (rtc_istep_inv _ _ Hi Hs (sys_istep_serve _ _ Hb Hy)) as [Hi1 Hs1].
  destruct (sys_step_serve _ _ Hb (sys_istep_step _ _ Hy)) as [_ Hb1]. by apply IH.
Qed.

(** A call never needs more steps than a new one. *)
Lemma pool_may_take σ σ' :
  Forall (λ c, may_take c 6) (ss_calls σ) → rtc (pool_step st reg id) σ σ' → Forall (λ c, may_take c 6) (ss_calls σ').
Proof.
  intros Hall Hr. induction Hr as [|σ σ1 σ2 Hs _ IH]; [done|]. apply IH. clear IH.
  destruct Hs as [σ σ1 Hp|o1 o2 o3 req w m cs|]; [|cbn [ss_calls] in *; apply Forall_app; split; [done|]; by constructor; [apply spawn_may_take|]|done].
  destruct Hp as [i c c' w w' m m' cs Hi Ha]. cbn [ss_calls] in *. apply Forall_insert; [done|].
  destruct (advance_may_take _ _ _ _ _ _ _ (Forall_lookup_1 (λ c, may_take c 6) _ _ _ Hall Hi) Ha) as (n & [= <-] & Hn).
  by eapply within_mono; [exact Hn|lia].
Qed.

End steps.

(** ** Theorems *)

Section theorems.
Context `{!AppendOnly}.

(** C8: a server that is told to stop answers the calls it has and stops: once every server has its
    signal, whatever calls and other requests are in flight, the goroutines can take only finitely
    many steps, six for each call besides those of the servers, and when none of them can take another, Serve has
    returned and every call has been answered. *)
Theorem shutdown_drains st reg id hc gc y0 y
    (Hinit : sys_initial hc gc y0) (Hreach : rtc (sys_step st reg id) y0 y) (Hsig : signalled (sy_proc y)) :
  (∀ n y', nsteps sys_istep n y y' → (n ≤ measure (sy_proc y) + 6 * length (ss_calls (sy_server y)))%nat) ∧
  (∀ y', rtc sys_istep y y' → (∀ y'', ¬ sys_istep y' y'') →
     p_main (sy_proc y') = Returned ∧ ∀ c, c ∈ ss_calls (sy_server y') → ∃ x, c_prog c = Return x).
Proof.
  destruct (sys_reachable _ _ _ _ _ _ _ Hinit Hreach) as (Hr%reachable_inv & Hb & Hp). split.
  - intros n y' Hn. rewrite Nat.mul_comm, <- sum_list_replicate. apply (sys_nsteps_measure st reg id n y y'); [done| |exact Hn].
    apply Forall2_replicate_r; [done|]. eapply pool_may_take; [|exact Hp].
    destruct Hinit as (_ & _ & ->). constructor.
  - intros y' Hs Hstuck. destruct (rtc_sys_istep st reg id _ _ Hr Hb Hsig Hs) as (Hi' & Hb' & Hs').
    destruct (decide (p_main (sy_proc y') = Returned)) as [Hret|Hne].
    + split; [done|]. apply in_flight_answered. destruct (past_servers_quiet _ Hi' (or_intror Hret)) as [Hz _].
      unfold balanced in Hb'. lia.
    + by destruct (sys_progress _ Hi' Hb' Hs' Hne) as [y'' ?%Hstuck].
Qed.

Context `{!TesseraLaws} `{!LogFormatLaws} `{!ForeignErrors}.

(** C7: no call is lost when a server stops: in every state that a process reaches, whatever calls
    arrive and however all goroutines interleave, if Serve has got to the shutdown of Tessera then the
    three servers have stopped with no request in flight, every call that ever arrived has been
    answered, truly and without a panic, and from then on no call arrives, no answer changes and
    the log only grows. *)
Theorem shutdown_loses_no_call origin driver opts w0 st sd w1 reg id hc gc y0 y
    (Hst : NewStorage origin driver opts w0 = (Ok (st, sd), w1))
    (Hinit : sys_initial hc gc y0) (Hreach : rtc (sys_step st reg id) y0 y) (Hpast : past_servers (sy_proc y)) :
  length (p_servers (sy_proc y)) = num_servers ∧
  Forall (λ t, stopping t = true ∧ t_srv t ≠ SrvServing ∧ t_open t = 0%nat) (p_servers (sy_proc y)) ∧
  (∀ c, c ∈ ss_calls (sy_server y) → ∃ x, c_prog c = Return x ∧ x ≠ Panic ∧
     answered (tessera_server st reg id) (c_req c) x
       (Build_rpc (ss_log (sy_server y)) (c_header c) (ss_metrics (sy_server y)))) ∧
  ∀ y', rtc (sys_step st reg id) y y' →
    ss_calls (sy_server y') = ss_calls (sy_server y) ∧ grew (ss_log (sy_server y)) (ss_log (sy_server y')).
Proof.
  destruct (sys_reachable _ _ _ _ _ _ _ Hinit Hreach) as (Hr & Hb & Hp). pose proof (reachable_inv _ _ _ Hr) as Hi.
  destruct (past_servers_stopped _ Hi Hpast) as [Hlen Hall]. destruct (past_servers_quiet _ Hi Hpast) as [Hz _].
  pose proof (pool_reachable_inv st reg id _ _ (NewStorage_on_tessera _ _ _ _ _ _ _ Hst) (proj2 (proj2 Hinit)) Hp) as Hpool.
  split_and!; [done|done| |].
  - intros c Hc. unfold balanced in Hb. rewrite Hz in Hb.
    destruct (proj1 (in_flight_answered (sy_server y)) ltac:(lia) c Hc) as [x Hx]. exists x. split; [done|].
    destruct (inv_calls _ _ _ _ _ Hpool c Hc) as [Hrg _]. rewrite Hx in Hrg. by apply Hrg.
  - intros y' Hs. by eapply past_servers_final.
Qed.
End theorems.
End lifetime.
