(* ===== verification/SignerVerifier.v ===== *)
(** * internal/signerverifier and the signerverifier packages of the backends

    The signing key of the log comes from a file, from a KMS or from an
    encrypted Tink keyset.  The packages for GCP and AWS differ in the KMS
    client they use and in the options of the KMS call. *)
From S2P Require Import Prelude GoErrors GoStrings Proto External Note.

(** A sigstore [signature.SignerVerifier]: a signer and a verifier in one. *)
Record SignerVerifier := { as_Signer : sig_Signer; as_Verifier : sig_Verifier }.

(** The key libraries: PEM files, the KMS registry of sigstore, Tink. *)
Class KeyLib := {
  PrivateKey : Type;
  pemutil_Read : string → bytes → error + PrivateKey;
  LoadDefaultSignerVerifier : PrivateKey → error + SignerVerifier;
  RPCOption : Type;
  kms_SupportedProviders : list string;
  kms_Get : string → Hash → list RPCOption → error + SignerVerifier;
  (** Tink: opening a file, reading a keyset with a key encryption key *)
  AEAD : Type;
  KeyHandle : Type;
  os_Open : string → error + bytes;
  keyset_Read : bytes → AEAD → error + KeyHandle;
  KeyHandleToSigner : KeyHandle → error + PrivateKey;
  filepath_Clean : string → string;
  (** KMS clients of Tink, by cloud *)
  KMSClient : Type;
  gcpkms_NewClientWithOptions : string → error + KMSClient;
  awskms_NewClientWithOptions : string → error + KMSClient;
  GetAEAD : KMSClient → string → error + AEAD
}.

(** The verifier of the pair has the signer's key and accepts what it signs. *)
Definition consistent (sv : SignerVerifier) : Prop :=
  signer_PublicKey (as_Signer sv) = verifier_PublicKey (as_Verifier sv) ∧
  ∀ msg sig, SignMessage (as_Signer sv) msg = inr sig → VerifySig (as_Verifier sv) sig msg = inr tt.

(** What sigstore documents of the signer-verifiers it returns. *)
Class KeyLaws `{KeyLib} : Prop := {
  LoadDefault_consistent : ∀ k sv, LoadDefaultSignerVerifier k = inr sv → consistent sv;
  kms_Get_consistent : ∀ uri h opts sv, kms_Get uri h opts = inr sv → consistent sv
}.

Section signerverifier.
Context `{KeyLib}.

(** ** internal/signerverifier *)

Definition NewFileSignerVerifier (keyPath keyPass : string) : result SignerVerifier :=
  opaqueKey ← wrap ("file: provide a valid signer, " +:+ keyPath +:+ " is not valid: ") (lift (pemutil_Read keyPath keyPass));
  wrap ("file: loaded private key from " +:+ keyPath +:+ " can't be used to sign: ")
    (lift (LoadDefaultSignerVerifier opaqueKey)).

Definition NewTinkSignerVerifierWithHandle (kek : AEAD) (keysetPath : string) : result SignerVerifier :=
  f ← lift (os_Open (filepath_Clean keysetPath));
  kh ← lift (keyset_Read f kek);
  signer ← lift (KeyHandleToSigner kh);
  lift (LoadDefaultSignerVerifier signer).

(** ** internal/tessera/gcp/signerverifier and internal/tessera/aws/signerverifier

    Each package has its configuration, its options and its [New]. *)

Record signerVerifierConfig := {
  filePath : string;
  password : string;
  kms : string;
  kmsHash : Hash;
  kmsRPCOpts : list RPCOption;
  tinkKEKURI : string;
  tinkKeysetPath : string
}.

Definition empty_config : signerVerifierConfig :=
  {| filePath := ""; password := ""; kms := ""; kmsHash := 0; kmsRPCOpts := []; tinkKEKURI := ""; tinkKeysetPath := "" |}.

Definition Option := signerVerifierConfig → signerVerifierConfig.

Definition WithFile (path pass : string) : Option := λ sc,
  {| filePath := path; password := pass; kms := kms sc; kmsHash := kmsHash sc; kmsRPCOpts := kmsRPCOpts sc;
     tinkKEKURI := tinkKEKURI sc; tinkKeysetPath := tinkKeysetPath sc |}.
Definition WithKMS (uri : string) (hash : Hash) (rpcOpts : list RPCOption) : Option := λ sc,
  {| filePath := filePath sc; password := password sc; kms := uri; kmsHash := hash; kmsRPCOpts := rpcOpts;
     tinkKEKURI := tinkKEKURI sc; tinkKeysetPath := tinkKeysetPath sc |}.
Definition WithTink (kekURI keysetPath : string) : Option := λ sc,
  {| filePath := filePath sc; password := password sc; kms := kms sc; kmsHash := kmsHash sc; kmsRPCOpts := kmsRPCOpts sc;
     tinkKEKURI := kekURI; tinkKeysetPath := keysetPath |}.

Record aws_signerVerifierConfig := {
  aws_filePath : string;
  aws_password : string;
  aws_kms : string;
  aws_kmsHash : Hash;
  aws_tinkKEKURI : string;
  aws_tinkKeysetPath : string
}.

Definition aws_empty_config : aws_signerVerifierConfig :=
  {| aws_filePath := ""; aws_password := ""; aws_kms := ""; aws_kmsHash := 0; aws_tinkKEKURI := ""; aws_tinkKeysetPath := "" |}.

Definition aws_Option := aws_signerVerifierConfig → aws_signerVerifierConfig.

Definition aws_WithFile (path pass : string) : aws_Option := λ sc,
  {| aws_filePath := path; aws_password := pass; aws_kms := aws_kms sc; aws_kmsHash := aws_kmsHash sc;
     aws_tinkKEKURI := aws_tinkKEKURI sc; aws_tinkKeysetPath := aws_tinkKeysetPath sc |}.
Definition aws_WithKMS (uri : string) (hash : Hash) : aws_Option := λ sc,
  {| aws_filePath := aws_filePath sc; aws_password := aws_password sc; aws_kms := uri; aws_kmsHash := hash;
     aws_tinkKEKURI := aws_tinkKEKURI sc; aws_tinkKeysetPath := aws_tinkKeysetPath sc |}.
Definition aws_WithTink (kekURI keysetPath : string) : aws_Option := λ sc,
  {| aws_filePath := aws_filePath sc; aws_password := aws_password sc; aws_kms := aws_kms sc; aws_kmsHash := aws_kmsHash sc;
     aws_tinkKEKURI := kekURI; aws_tinkKeysetPath := keysetPath |}.

(** [registry.RegisterKMSClient] also puts the client into Tink's process-wide
    registry, which the program does not read. *)
Definition gcp_getKeyEncryptionKey (kmsKey : string) : result AEAD :=
  if HasPrefix kmsKey "gcp-kms://" then
    client ← lift (gcpkms_NewClientWithOptions kmsKey);
    lift (GetAEAD client kmsKey)
  else Err (ErrorString "unsupported KMS key type").

Definition aws_getKeyEncryptionKey (kmsKey : string) : result AEAD :=
  if HasPrefix kmsKey "aws-kms://" then
    client ← lift (awskms_NewClientWithOptions kmsKey);
    lift (GetAEAD client kmsKey)
  else Err (ErrorString "unsupported KMS key type").

Definition gcp_NewTinkSignerVerifier (kekURI keysetPath : string) : result SignerVerifier :=
  _ ← guard_err (is_empty kekURI || is_empty keysetPath) (ErrorString "key encryption key URI or keyset path unset");
  kek ← gcp_getKeyEncryptionKey kekURI;
  NewTinkSignerVerifierWithHandle kek keysetPath.

Definition aws_NewTinkSignerVerifier (kekURI keysetPath : string) : result SignerVerifier :=
  _ ← guard_err (is_empty kekURI || is_empty keysetPath) (ErrorString "key encryption key URI or keyset path unset");
  kek ← aws_getKeyEncryptionKey kekURI;
  NewTinkSignerVerifierWithHandle kek keysetPath.

(** [slices.ContainsFunc(kms.SupportedProviders(), ...)] *)
Definition kms_supported (uri : string) : bool := existsb (λ s, HasPrefix uri s) kms_SupportedProviders.

Definition insufficient : error :=
  ErrorString "insufficient signing parameters provided, must configure one of file, KMS, or Tink signer-verifiers".

Definition gcp_New (opts : list Option) : result SignerVerifier :=
  let sc := foldl (λ sc o, o sc) empty_config opts in
  if kms_supported (kms sc) then lift (kms_Get (kms sc) (kmsHash sc) (kmsRPCOpts sc))
  else if negb (is_empty (tinkKEKURI sc)) then gcp_NewTinkSignerVerifier (tinkKEKURI sc) (tinkKeysetPath sc)
  else if negb (is_empty (filePath sc)) then NewFileSignerVerifier (filePath sc) (password sc)
  else Err insufficient.

(** The AWS package passes no RPC options. *)
Definition aws_New (opts : list aws_Option) : result SignerVerifier :=
  let sc := foldl (λ sc o, o sc) aws_empty_config opts in
  if kms_supported (aws_kms sc) then lift (kms_Get (aws_kms sc) (aws_kmsHash sc) [])
  else if negb (is_empty (aws_tinkKEKURI sc)) then aws_NewTinkSignerVerifier (aws_tinkKEKURI sc) (aws_tinkKeysetPath sc)
  else if negb (is_empty (aws_filePath sc)) then NewFileSignerVerifier (aws_filePath sc) (aws_password sc)
  else Err insufficient.

(** ** Choosing the signer from the flags

    The switch of [cmd/rekor-server] and [cmd/freeze-checkpoint]: a file, a KMS
    key or a Tink keyset, in this order.  Both commands have their own copy of it. *)
Record signer_flags := {
  f_signer_filepath : string;
  f_signer_password : string;
  f_signer_kmskey : string;
  f_signer_kmshash : string;
  f_signer_tink_kek_uri : string;
  f_signer_tink_keyset_path : string;
  f_kms_rpc : list RPCOption      (* from gcp-kms-retries and gcp-kms-timeout *)
}.

Definition hashAlgMap : gmap string Hash :=
  {[ "sha256" := crypto_SHA256; "sha384" := crypto_SHA384; "sha512" := crypto_SHA512 ]}.

(** [no_hash] and [no_signer]: how the command reports a bad hash name, and that no signer is set. *)
Definition signer_options (no_hash : string → error) (no_signer : error) (f : signer_flags) : result (list Option) :=
  if negb (is_empty (f_signer_filepath f)) then Ok [WithFile (f_signer_filepath f) (f_signer_password f)]
  else if negb (is_empty (f_signer_kmskey f)) then
    match hashAlgMap !! f_signer_kmshash f with
    | None => Err (no_hash (f_signer_kmshash f))
    | Some hashAlg => Ok [WithKMS (f_signer_kmskey f) hashAlg (f_kms_rpc f)]
    end
  else if negb (is_empty (f_signer_tink_kek_uri f)) then
    Ok [WithTink (f_signer_tink_kek_uri f) (f_signer_tink_keyset_path f)]
  else Err no_signer.

(** The switch of the AWS command, which reads no RPC flags. *)
Definition aws_signer_options (no_hash : string → error) (no_signer : error) (f : signer_flags) : result (list aws_Option) :=
  if negb (is_empty (f_signer_filepath f)) then Ok [aws_WithFile (f_signer_filepath f) (f_signer_password f)]
  else if negb (is_empty (f_signer_kmskey f)) then
    match hashAlgMap !! f_signer_kmshash f with
    | None => Err (no_hash (f_signer_kmshash f))
    | Some hashAlg => Ok [aws_WithKMS (f_signer_kmskey f) hashAlg]
    end
  else if negb (is_empty (f_signer_tink_kek_uri f)) then
    Ok [aws_WithTink (f_signer_tink_kek_uri f) (f_signer_tink_keyset_path f)]
  else Err no_signer.

(** ** Lemmas *)

Lemma NewFileSignerVerifier_consistent `{!KeyLaws} p pw sv : NewFileSignerVerifier p pw = Ok sv → consistent sv.
Proof.
  unfold NewFileSignerVerifier. intros (k & _ & Hl)%bind_Ok. apply wrap_Ok, lift_Ok in Hl.
  by eapply LoadDefault_consistent.
Qed.

Lemma NewTinkSignerVerifierWithHandle_consistent `{!KeyLaws} kek ks sv :
  NewTinkSignerVerifierWithHandle kek ks = Ok sv → consistent sv.
Proof.
  unfold NewTinkSignerVerifierWithHandle. intros (f & _ & (kh & _ & (k & _ & Hl)%bind_Ok)%bind_Ok)%bind_Ok.
  apply lift_Ok in Hl. by eapply LoadDefault_consistent.
Qed.

Lemma gcp_New_consistent `{!KeyLaws} opts sv : gcp_New opts = Ok sv → consistent sv.
Proof.
  unfold gcp_New. generalize (foldl (λ sc o, o sc) empty_config opts). intros sc.
  destruct (kms_supported (kms sc)); [by intros Hl%lift_Ok; eapply kms_Get_consistent|].
  destruct (negb (is_empty (tinkKEKURI sc))).
  - intros (u & _ & (kek & _ & Ht)%bind_Ok)%bind_Ok. by eapply NewTinkSignerVerifierWithHandle_consistent.
  - destruct (negb (is_empty (filePath sc))); [|discriminate]. apply NewFileSignerVerifier_consistent.
Qed.

(** ** Theorems *)

(** Where a key comes from. *)
Inductive key_source := FromFile (path pass : string) | FromKMS (uri : string) (hash : Hash) | FromTink (kek keyset : string).

(** The source the flags name: the first of the three that is set. *)
Definition selected (f : signer_flags) : option key_source :=
  if negb (is_empty (f_signer_filepath f)) then Some (FromFile (f_signer_filepath f) (f_signer_password f))
  else if negb (is_empty (f_signer_kmskey f)) then
    FromKMS (f_signer_kmskey f) <$> hashAlgMap !! f_signer_kmshash f
  else if negb (is_empty (f_signer_tink_kek_uri f)) then
    Some (FromTink (f_signer_tink_kek_uri f) (f_signer_tink_keyset_path f))
  else None.

Definition load_gcp (rpc : list RPCOption) (s : key_source) : result SignerVerifier :=
  match s with
  | FromFile p pw => NewFileSignerVerifier p pw
  | FromKMS uri h => if kms_supported uri then lift (kms_Get uri h rpc) else Err insufficient
  | FromTink kek ks => gcp_NewTinkSignerVerifier kek ks
  end.

Definition load_aws (s : key_source) : result SignerVerifier :=
  match s with
  | FromFile p pw => NewFileSignerVerifier p pw
  | FromKMS uri h => if kms_supported uri then lift (kms_Get uri h []) else Err insufficient
  | FromTink kek ks => aws_NewTinkSignerVerifier kek ks
  end.

(** What sigstore documents of its KMS registry: a provider is a non-empty scheme. *)
Definition providers_nonempty : Prop := Forall (λ s, s ≠ "") kms_SupportedProviders.

Lemma kms_supported_empty : providers_nonempty → kms_supported "" = false.
Proof.
  unfold kms_supported, providers_nonempty. intros Hp.
  destruct (existsb _ _) eqn:He; [|done]. apply existsb_exists in He as (s & Hin%list_elem_of_In & Hpre).
  rewrite Forall_forall in Hp. specialize (Hp s Hin). unfold HasPrefix in Hpre. by destruct s.
Qed.

Lemma gcp_New_selected (Hp : providers_nonempty) no_hash no_signer f :
  match selected f with
  | Some src => signer_options no_hash no_signer f ≫= gcp_New = load_gcp (f_kms_rpc f) src
  | None => is_Err (signer_options no_hash no_signer f ≫= gcp_New)
  end.
Proof.
  pose proof (kms_supported_empty Hp) as Hk. unfold selected, signer_options, gcp_New.
  destruct (is_empty (f_signer_filepath f)) eqn:Hf; cbn; [|by rewrite Hk, Hf].
  destruct (is_empty (f_signer_kmskey f)) eqn:Hkms; cbn.
  - destruct (is_empty (f_signer_tink_kek_uri f)) eqn:Ht; cbn; [done|]. by rewrite Hk, Ht.
  - destruct (hashAlgMap !! f_signer_kmshash f) as [h|]; cbn; [|done]. by destruct (kms_supported (f_signer_kmskey f)).
Qed.

Lemma aws_New_selected (Hp : providers_nonempty) no_hash no_signer f :
  match selected f with
  | Some src => aws_signer_options no_hash no_signer f ≫= aws_New = load_aws src
  | None => is_Err (aws_signer_options no_hash no_signer f ≫= aws_New)
  end.
Proof.
  pose proof (kms_supported_empty Hp) as Hk. unfold selected, aws_signer_options, aws_New.
  destruct (is_empty (f_signer_filepath f)) eqn:Hf; cbn; [|by rewrite Hk, Hf].
  destruct (is_empty (f_signer_kmskey f)) eqn:Hkms; cbn.
  - destruct (is_empty (f_signer_tink_kek_uri f)) eqn:Ht; cbn; [done|]. by rewrite Hk, Ht.
  - destruct (hashAlgMap !! f_signer_kmshash f) as [h|]; cbn; [|done]. by destruct (kms_supported (f_signer_kmskey f)).
Qed.

(** C36: the key that the commands load is the one the flags name: although both New functions try
    KMS, Tink and file in that order while the commands look for a file, a KMS key and a Tink
    keyset, a command hands over one option only, so New uses exactly the selected source, with
    the RPC options on GCP and without on AWS, and fails if no source is selected or the KMS scheme
    is unknown. *)
Theorem New_uses_selected (Hp : providers_nonempty) no_hash no_signer f :
  match selected f with
  | Some src => signer_options no_hash no_signer f ≫= gcp_New = load_gcp (f_kms_rpc f) src ∧
                aws_signer_options no_hash no_signer f ≫= aws_New = load_aws src
  | None => is_Err (signer_options no_hash no_signer f ≫= gcp_New) ∧
            is_Err (aws_signer_options no_hash no_signer f ≫= aws_New)
  end.
Proof.
  pose proof (gcp_New_selected Hp no_hash no_signer f). pose proof (aws_New_selected Hp no_hash no_signer f).
  by destruct (selected f).
Qed.
End signerverifier.
