(* ===== verification/Freeze.v ===== *)
(** * cmd/freeze-checkpoint: marking the final checkpoint of a log

    The command reads the published checkpoint, appends an extension line that
    says the log is frozen, signs it again with the key of the log and uploads
    it.  The object in the bucket changes only when the writer is closed. *)
From S2P Require Import Prelude GoErrors GoStrings Proto External IO Note TesseraLib SignerVerifier.

(** ** Operations *)

Definition frozenString : string := "Log frozen — ".

Record freeze_flags `{KeyLib} := {
  gcp_bucket : string;
  hostname : string;
  f_signer : signer_flags
}.

(** Google Cloud Storage: the object that holds the checkpoint.  [gcs_NewReader]
    opens it for reading, [gcs_ReadAll] reads it, [gcs_Write] fills the buffer of a
    writer, and [gcs_Close] replaces the object by what was written. *)
Class GcsLib := {
  Object : Type;
  gcs_NewClient : error + unit;
  gcs_NewReader : Object → error + unit;
  gcs_ReadAll : Object → error + bytes;
  gcs_Write : bytes → error + unit;
  gcs_Close : Object → bytes → error + Object
}.

(** What the storage service documents: an object that was replaced is read back. *)
Class GcsLaws `{GcsLib} : Prop := {
  Close_Read : ∀ o data o', gcs_Close o data = inr o' → gcs_ReadAll o' = inr data
}.

(** The outcomes of the command that are not errors. *)
Inductive freeze_outcome := LogFrozen | AlreadyFrozen.

Section freeze.
Context `{X509} `{KeyLib} `{LogFormat} `{GcsLib}.

Definition getSignerVerifier (f : freeze_flags) : result SignerVerifier :=
  opts ← signer_options (λ kmshash, ErrorString ("invalid hash algorithm for --signer-kmshash: " +:+ kmshash))
           (ErrorString "must provide a signer using a file, KMS, or Tink") (f_signer f);
  wrap "initializing key signer: " (gcp_New opts).

Definition getNoteSigner (f : freeze_flags) (signer : sig_Signer) : result noteSigner :=
  wrap "initializing note signer: " (NewNoteSigner (hostname f) signer).

Definition getNoteVerifier (f : freeze_flags) (verifier : sig_Verifier) : result noteVerifier :=
  wrap "initializing note verifier: " (NewNoteVerifier (hostname f) verifier).

(** The reader and the writer of the object; nothing is read or written yet. *)
Definition objectAccess (o : Object) : result unit :=
  _ ← wrap "getting GCS client: " (lift gcs_NewClient);
  wrap "getting object reader: " (lift (gcs_NewReader o)).

(** [None]: the checkpoint is already frozen. *)
Definition getCheckpoint (o : Object) (noteVerifier : noteVerifier) : result (option f_Checkpoint) :=
  rawCheckpoint ← wrap "reading object: " (lift (gcs_ReadAll o));
  noteObj ← wrap "opening checkpoint: " (lift (note_Open rawCheckpoint [noteVerifier]));
  '(checkpoint, rest) ← wrap "parsing checkpoint: " (lift (Unmarshal (note_Text noteObj)));
  if Contains rest frozenString then Ok None else Ok (Some checkpoint).

(** What is written to the buffer of the writer; [now] is the formatted time. *)
Definition updateCheckpoint (now : string) (noteSigner : noteSigner) (checkpoint : f_Checkpoint) : result bytes :=
  let text := Marshal checkpoint +:+ frozenString +:+ now +:+ String "010" "" in
  signedNote ← wrap "re-signing checkpoint: "
    (lift (note_Sign {| note_Text := text; note_Sigs := []; note_UnverifiedSigs := [] |} [noteSigner]));
  _ ← wrap "writing checkpoint: " (lift (gcs_Write signedNote));
  Ok signedNote.

(** [rootCmd.Run]; every error path exits with status 1. *)
Definition freeze (f : freeze_flags) (now : string) : io Object freeze_outcome :=
  _ ← pure (guard_err (is_empty (gcp_bucket f)) (ErrorString "must provide --gcs-bucket"));
  _ ← pure (guard_err (is_empty (hostname f)) (ErrorString "must provide --hostname for the rekor server's identity"));
  sv ← pure (getSignerVerifier f);
  noteSigner ← pure (getNoteSigner f (as_Signer sv));
  noteVerifier ← pure (getNoteVerifier f (as_Verifier sv));
  o ← gets id;
  _ ← pure (objectAccess o);
  checkpoint ← pure (getCheckpoint o noteVerifier);
  match checkpoint with
  | None => mret AlreadyFrozen
  | Some checkpoint =>
      data ← pure (updateCheckpoint now noteSigner checkpoint);
      o' ← pure (wrap "closing object writer: " (lift (gcs_Close o data)));
      _ ← modify (λ _, o');
      mret LogFrozen
  end.

(** ** Lemmas *)

Lemma getCheckpoint_Ok o v r :
  getCheckpoint o v = Ok r → ∃ raw n cp rest,
    gcs_ReadAll o = inr raw ∧ note_Open raw [v] = inr n ∧ Unmarshal (note_Text n) = inr (cp, rest) ∧
    r = if Contains rest frozenString then None else Some cp.
Proof.
  unfold getCheckpoint. intros Hg. go_inv_ext. destruct x1 as [cp rest].
  repeat eexists; [done..|]. destruct (Contains rest frozenString); by simplify_eq.
Qed.

Lemma updateCheckpoint_Ok now s cp data :
  updateCheckpoint now s cp = Ok data →
  note_Sign {| note_Text := Marshal cp +:+ frozenString +:+ now +:+ String "010" ""; note_Sigs := []; note_UnverifiedSigs := [] |} [s]
  = inr data ∧ gcs_Write data = inr tt.
Proof. unfold updateCheckpoint. intros Hu. go_inv_ext. repeat match goal with x : unit |- _ => destruct x end. done. Qed.

(** The text that was signed reads back as the same checkpoint with the frozen line as its rest. *)
Lemma updated_reads_back `{!NoteLaws} now s v raw cp rest data :
  Unmarshal raw = inr (cp, rest) → matching s v → updateCheckpoint now s cp = Ok data →
  ∃ n, note_Open data [v] = inr n ∧ Unmarshal (note_Text n) = inr (cp, frozenString +:+ now +:+ String "010" "").
Proof.
  intros Hu Hm [Hs _]%updateCheckpoint_Ok. destruct (Open_Sign _ _ _ _ Hs Hm) as (n & Hn & Ht).
  exists n. split; [done|]. rewrite Ht. cbn. by eapply Unmarshal_Marshal.
Qed.

Lemma getSignerVerifier_consistent `{!KeyLaws} f sv : getSignerVerifier f = Ok sv → consistent sv.
Proof.
  unfold getSignerVerifier. intros (opts & _ & Hn)%bind_Ok. apply wrap_Ok in Hn. by eapply gcp_New_consistent.
Qed.

(** The note signer and verifier of one run match. *)
Lemma notes_matching `{!KeyLaws} f sv s v :
  getSignerVerifier f = Ok sv → getNoteSigner f (as_Signer sv) = Ok s → getNoteVerifier f (as_Verifier sv) = Ok v →
  matching s v.
Proof.
  intros [Hk Hsig]%getSignerVerifier_consistent Hs%wrap_Ok Hv%wrap_Ok.
  destruct (NewNote_match _ _ _ _ _ Hs Hv Hk Hsig) as (_ & Hn1 & Hn2 & Hh & Hall). split; [congruence|done|done].
Qed.

(** The key of a run is the one its flags select. *)
Lemma getSignerVerifier_selected (Hp : providers_nonempty) f sv :
  getSignerVerifier f = Ok sv → ∃ src, selected (f_signer f) = Some src ∧ load_gcp (f_kms_rpc (f_signer f)) src = Ok sv.
Proof.
  unfold getSignerVerifier. intros (opts & Hopts & Hn%wrap_Ok)%bind_Ok.
  pose proof (gcp_New_selected Hp (λ kmshash, ErrorString ("invalid hash algorithm for --signer-kmshash: " +:+ kmshash))
    (ErrorString "must provide a signer using a file, KMS, or Tink") (f_signer f)) as Hsel. rewrite Hopts in Hsel. cbn in Hsel. rewrite Hn in Hsel.
  destruct (selected (f_signer f)) as [src|]; [by exists src|done].
Qed.

(** A run that gets as far as the checkpoint: the key material, and the rest of the run. *)
Lemma freeze_inv f now o r o' :
  freeze f now o = (Ok r, o') →
  ∃ sv s v c, gcp_bucket f ≠ "" ∧ hostname f ≠ "" ∧ getSignerVerifier f = Ok sv ∧ getNoteSigner f (as_Signer sv) = Ok s ∧
    getNoteVerifier f (as_Verifier sv) = Ok v ∧ objectAccess o = Ok tt ∧ getCheckpoint o v = Ok c ∧
    match c with
    | None => r = AlreadyFrozen ∧ o' = o
    | Some cp => r = LogFrozen ∧ ∃ data, updateCheckpoint now s cp = Ok data ∧ gcs_Close o data = inr o'
    end.
Proof.
  unfold freeze. intros Hf. io_inv.
  repeat match goal with x : unit |- _ => destruct x | Hg : guard_err _ _ = Ok _ |- _ => apply guard_err_Ok, is_empty_false in Hg end.
  match goal with Hg : gets id _ = _ |- _ => injection Hg as <- <- end.
  repeat eexists; [done..|].
  match goal with |- match ?c with _ => _ end => destruct c as [cp|] end; io_inv.
  - match goal with Hm : modify _ _ = _ |- _ => injection Hm as ? ? end.
    repeat match goal with Hw : wrap _ _ = Ok _ |- _ => apply wrap_Ok, lift_Ok in Hw end. subst. eauto.
  - done.
Qed.

(** Nothing after the upload can fail. *)
Lemma freeze_error_unchanged f now o r o' : freeze f now o = (r, o') → ¬ is_Ok r → o' = o.
Proof.
  intros Hf Hno. revert Hf.
  assert (Hstep : ∀ A B (m : result A) (k : A → io Object B) (P : result B) o1, ¬ is_Ok P →
    (∀ a, k a o1 = (P, o') → o' = o1) → (x ← pure m; k x) o1 = (P, o') → o' = o1).
  { intros A B m k P o1 HP Hk [(a & o2 & [_ ->]%pure_Ok & Hf)|[(e' & Hp & _)|[Hp _]]]%io_bind_inv.
    - by eapply Hk.
    - by injection Hp as _ <-.
    - by injection Hp as _ <-. }
  unfold freeze. do 5 (apply Hstep; [done|intros ?]).
  intros [(o1 & o2 & [= <- <-] & Hf)|[(? & [=] & _)|[[=] _]]]%io_bind_inv. revert Hf.
  do 2 (apply Hstep; [done|intros ?]). destruct a5 as [cp|]; [|by intros [= <- <-]].
  do 2 (apply Hstep; [done|intros ?]). intros [(? & ? & _ & [= <- <-])|[(? & [=] & _)|[[=] _]]]%io_bind_inv.
  by destruct Hno.
Qed.

(** ** Theorems *)

(** C17: freezing a log keeps its checkpoint: when the command reports success, the object held
    an unfrozen checkpoint that opens under the log's key, and the new object opens under the same
    key and reads as the same checkpoint (origin, size and root hash), now followed by the line
    that marks the log as frozen.  The log's key is the one that the signer flags select, under the
    name given by --hostname: the note verifier has that name, the key ID of that name and public
    key, and accepts exactly what the key's verifier accepts.  (No KMS provider is registered for
    the empty URI.) *)
Theorem freeze_preserves_checkpoint `{!KeyLaws} `{!NoteLaws} `{!GcsLaws} f now o o'
    (Hp : providers_nonempty) (Hf : freeze f now o = (Ok LogFrozen, o')) :
  ∃ src sv pub v logID raw n cp rest raw' n',
    selected (f_signer f) = Some src ∧ load_gcp (f_kms_rpc (f_signer f)) src = Ok sv ∧
    verifier_PublicKey (as_Verifier sv) = inr pub ∧ nv_name v = hostname f ∧
    KeyHash (hostname f) pub = Ok (nv_hash v, logID) ∧
    (∀ msg sig, nv_verify v msg sig = true ↔ VerifySig (as_Verifier sv) sig msg = inr tt) ∧
    gcs_ReadAll o = inr raw ∧ note_Open raw [v] = inr n ∧ Unmarshal (note_Text n) = inr (cp, rest) ∧
    Contains rest frozenString = false ∧
    gcs_ReadAll o' = inr raw' ∧ note_Open raw' [v] = inr n' ∧
    Unmarshal (note_Text n') = inr (cp, frozenString +:+ now +:+ String "010" "").
Proof.
  apply freeze_inv in Hf as (sv & s & v & c & _ & _ & Hsv & Hs & Hv & _ & Hc & Hrest).
  destruct c as [cp|]; [destruct Hrest as (_ & data & Hup & Hclose)|by destruct Hrest].
  apply getCheckpoint_Ok in Hc as (raw & n & cp' & rest & Hraw & Hopen & Hun & Hcont).
  destruct (Contains rest frozenString) eqn:Hco; [done|]. injection Hcont as ->.
  destruct (updated_reads_back _ _ _ _ _ _ _ Hun (notes_matching _ _ _ _ Hsv Hs Hv) Hup) as (n' & Hn' & Hun').
  destruct (getSignerVerifier_selected Hp _ _ Hsv) as (src & Hsel & Hload).
  destruct (NewNoteVerifier_key _ _ _ (proj1 (wrap_Ok _ _ _) Hv)) as (pub & logID & Hpub & Hkey).
  destruct (NewNoteVerifier_Ok _ _ _ (proj1 (wrap_Ok _ _ _) Hv)) as (_ & Hname & Hver).
  exists src, sv, pub, v, logID, raw, n, cp', rest, data, n'. split_and!; try done. by eapply Close_Read.
Qed.

(** C18: freezing is idempotent: after a successful run, running the command again, at any time,
    finds the log frozen and leaves the object as it is. *)
Theorem freeze_idempotent `{!KeyLaws} `{!NoteLaws} `{!GcsLaws} f now now' o o'
    (Hf : freeze f now o = (Ok LogFrozen, o')) (Haccess : objectAccess o' = Ok tt) :
  freeze f now' o' = (Ok AlreadyFrozen, o').
Proof.
  apply freeze_inv in Hf as (sv & s & v & c & Hb & Hh & Hsv & Hs & Hv & _ & Hc & Hrest).
  destruct c as [cp|]; [destruct Hrest as (_ & data & Hup & Hclose)|by destruct Hrest].
  apply getCheckpoint_Ok in Hc as (raw & n & cp' & rest & Hraw & Hopen & Hun & Hcont).
  destruct (Contains rest frozenString) eqn:Hco; [done|]. injection Hcont as ->.
  destruct (updated_reads_back _ _ _ _ _ _ _ Hun (notes_matching _ _ _ _ Hsv Hs Hv) Hup) as (n' & Hn' & Hun').
  assert (getCheckpoint o' v = Ok None) as Hc'.
  { unfold getCheckpoint. rewrite (Close_Read _ _ _ Hclose). go_step. rewrite Hn'. go_step. rewrite Hun'. go_step.
    assert (Contains (frozenString +:+ now +:+ String "010" "") frozenString = true) as ->
      by exact (Contains_append "" frozenString _).
    done. }
  unfold freeze, mbind, io_bind, io_bind_def, pure, gets.
  rewrite (proj2 (is_empty_false _) Hb), (proj2 (is_empty_false _) Hh). cbn [guard_err].
  rewrite Hsv, Hs, Hv. cbn [id]. by rewrite Haccess, Hc'.
Qed.

(** A failed or superfluous run changes nothing: unless the command reports that it froze the
    log, the object in the bucket is the one that was there before. *)
Theorem freeze_unchanged f now o r o' (Hf : freeze f now o = (r, o')) (Hr : r ≠ Ok LogFrozen) : o' = o.
Proof.
  destruct r as [out|e|]; [|by eapply freeze_error_unchanged; [done|intros []]..].
  apply freeze_inv in Hf as (sv & s & v & c & _ & _ & _ & _ & _ & _ & _ & Hrest).
  destruct c as [cp|]; [destruct Hrest as [-> _]; done|by destruct Hrest as [_ ->]].
Qed.
End freeze.
