(* ===== verification/Client.v ===== *)
(** * pkg/client: reading from and writing to a log over HTTP

    The options and transport shared by the clients, the write client, which
    posts a request to the log and decodes the answer, and the read client,
    which fetches checkpoints, tiles and entry bundles. *)
From S2P Require Import Prelude GoErrors GoStrings GoPath Proto External IO Note TesseraLib VerifyEntry.

(** ** HTTP *)

Record http_Request := { req_Method : string; req_URL : string; req_Header : gmap string string; req_Body : bytes }.
(** A response: its status, and what [io.ReadAll] of its body gives. *)
Record http_Response := { resp_StatusCode : Z; resp_Body : error + bytes }.

(** An [http.RoundTripper] over the state of the network. *)
Definition RoundTripper (N : Type) : Type := http_Request → N → (error + http_Response) * N.

Definition StatusCreated : Z := 201.

(** A parsed URL: its path, and whatever else it holds. *)
Record URL := { url_Path : string; url_rest : string }.

(** ** option.go and transport.go *)

Record Config (TLS : Type) := { UserAgent : string; Timeout : Z; TLSConfig : option TLS }.
Arguments UserAgent {TLS}.
Arguments Timeout {TLS}.
Arguments TLSConfig {TLS}.
Arguments Build_Config {TLS}.

Section options.
Context {TLS N : Type}.

Definition Option := Config TLS → Config TLS.
Definition WithUserAgent (agent : string) : Option := λ c, Build_Config agent (Timeout c) (TLSConfig c).
Definition WithTimeout (timeout : Z) : Option := λ c, Build_Config (UserAgent c) timeout (TLSConfig c).
Definition WithTLSConfig (tlsConfig : option TLS) : Option := λ c, Build_Config (UserAgent c) (Timeout c) tlsConfig.

(** [for _, o := range opts { o(cfg) }] on an empty configuration *)
Definition apply_options (opts : list Option) : Config TLS := foldl (λ c o, o c) (Build_Config "" 0 None) opts.

(** [roundTripper.RoundTrip] *)
Definition RoundTrip (inner : RoundTripper N) (userAgent : string) : RoundTripper N := λ req,
  inner (if negb (is_empty userAgent)
         then {| req_Method := req_Method req; req_URL := req_URL req;
                 req_Header := <["User-Agent" := userAgent]> (req_Header req); req_Body := req_Body req |}
         else req).

Definition CreateRoundTripper (DefaultTransport : RoundTripper N) (inner : option (RoundTripper N)) (userAgent : string)
    : RoundTripper N :=
  let inner := default DefaultTransport inner in
  if is_empty userAgent then inner else RoundTrip inner userAgent.
End options.

(** ** The libraries under the clients *)

(** net/url, net/http and protojson as the clients use them; [Net] is the state of the network. *)
Class HttpLib := {
  Net : Type;
  TLSSettings : Type;
  url_Parse : string → error + URL;
  url_String : URL → string;
  DefaultTransport : RoundTripper Net;
  (** [&http.Transport{TLSClientConfig: c}] *)
  NewTransport : TLSSettings → RoundTripper Net;
  (** [http.NewRequest]: fails on a bad method or URL *)
  check_request : string → string → error + unit;
  (** [client.Do], over a transport and with a timeout *)
  Do : RoundTripper Net → Z → http_Request → Net → (error + http_Response) * Net;
  (** [protojson.Marshal] of a request, [protojson.Unmarshal] of an answer *)
  marshal_request : CreateEntryRequest → error + bytes;
  unmarshal_entry : bytes → error + TransparencyLogEntry
}.

Section clients.
Context `{HttpLib}.

(** The transport both constructors build. *)
Definition client_transport (cfg : Config TLSSettings) : RoundTripper Net :=
  let transport := match TLSConfig cfg with Some c => NewTransport c | None => DefaultTransport end in
  CreateRoundTripper DefaultTransport (Some transport) (UserAgent cfg).

(** ** write/write.go *)

Definition addPath : string := "/api/v2/log/entries".

Record writeClient := { wc_baseURL : URL; wc_transport : RoundTripper Net; wc_timeout : Z }.

Definition NewWriter (writeURL : string) (opts : list Option) : result writeClient :=
  let cfg := apply_options opts in
  baseURL ← wrap ("parsing url " +:+ writeURL +:+ ": ") (lift (url_Parse writeURL));
  Ok {| wc_baseURL := baseURL; wc_transport := client_transport cfg; wc_timeout := Timeout cfg |}.

(** An argument of type [any]: the two request messages, or a value of another type. *)
Inductive AddArg :=
  | Arg_HashedRekord (r : option HashedRekordRequestV002)
  | Arg_DSSE (r : option DSSERequestV002)
  | Arg_other (type_name : string).

Definition createHashedRekordRequest (h : option HashedRekordRequestV002) : CreateEntryRequest :=
  {| Request_Spec := Some (CreateEntryRequest_HashedRekordRequestV002 h) |}.

Definition createDSSERequest (d : option DSSERequestV002) : CreateEntryRequest :=
  {| Request_Spec := Some (CreateEntryRequest_DsseRequestV002 d) |}.

Definition createRequest (entry : AddArg) : result CreateEntryRequest :=
  match entry with
  | Arg_HashedRekord e => Ok (createHashedRekordRequest e)
  | Arg_DSSE e => Ok (createDSSERequest e)
  | Arg_other ty => Err (ErrorString ("unsupported entry type: " +:+ ty))
  end.

Definition write_Add (w : writeClient) (entry : AddArg) : io Net TransparencyLogEntry :=
  cer ← io_wrap "creating request: " (pure (createRequest entry));
  let endpoint := {| url_Path := Join [url_Path (wc_baseURL w); addPath]; url_rest := url_rest (wc_baseURL w) |} in
  payload ← io_wrap "marshaling request: " (pure (lift (marshal_request cer)));
  _ ← io_wrap "creating request: " (pure (lift (check_request "POST" (url_String endpoint))));
  let req := {| req_Method := "POST"; req_URL := url_String endpoint;
                req_Header := {[ "Content-Type" := "application/json" ]}; req_Body := payload |} in
  resp ← io_wrap "getting response: " (call (Do (wc_transport w) (wc_timeout w) req));
  body ← io_wrap "reading response: " (pure (lift (resp_Body resp)));
  if negb (resp_StatusCode resp =? StatusCreated)
  then fail (ErrorString ("unexpected response: " +:+ Itoa (resp_StatusCode resp) +:+ " " +:+ body))
  else io_wrap "unmarshaling response body: " (pure (lift (unmarshal_entry body))).
End clients.

(** ** read/read.go *)

(** The tile client of tessera: fetching over HTTP from a base URL, and
    [FetchCheckpoint], which parses what it fetched. *)
Class FetcherLib `{HttpLib} := {
  HTTPFetcher : Type;
  NewHTTPFetcher : URL → RoundTripper Net → Z → error + HTTPFetcher;
  fetch_checkpoint : HTTPFetcher → Net → (error + bytes) * Net;
  fetch_tile : HTTPFetcher → Z → Z → Z → Net → (error + bytes) * Net;
  fetch_bundle : HTTPFetcher → Z → Z → Net → (error + bytes) * Net;
  FetchCheckpoint : (Net → (error + bytes) * Net) → noteVerifier → string → Net →
    (error + (f_Checkpoint * bytes * sumdb_Note)) * Net
}.

(** What tessera documents of [FetchCheckpoint]: the checkpoint it returns is
    the one that the fetched octets parse to under the verifier and the origin. *)
Class FetcherLaws `{FetcherLib} `{LogFormat} : Prop := {
  Fetch_parses : ∀ f v origin n cp raw nt n', FetchCheckpoint f v origin n = (inr (cp, raw, nt), n') →
    ∃ rest, f n = (inr raw, n') ∧ ParseCheckpoint raw origin v [] = inr (cp, rest, nt)
}.

Section reader.
Context `{X509} `{HttpLib} `{!FetcherLib} `{LogFormat}.

Record readClient := { rc_baseURL : URL; rc_client : HTTPFetcher; rc_origin : string; rc_verifier : noteVerifier }.

Definition NewReader (readURL origin : string) (verifier : sig_Verifier) (opts : list Option) : result readClient :=
  let cfg := apply_options opts in
  baseURL ← wrap ("parsing url " +:+ readURL +:+ ": ") (lift (url_Parse readURL));
  noteVerifier ← wrap "creating note verifier: " (NewNoteVerifier origin verifier);
  tileClient ← wrap "creating tile client: " (lift (NewHTTPFetcher baseURL (client_transport cfg) (Timeout cfg)));
  Ok {| rc_baseURL := baseURL; rc_client := tileClient; rc_origin := origin; rc_verifier := noteVerifier |}.

Definition read_ReadCheckpoint (r : readClient) : io Net (f_Checkpoint * sumdb_Note) :=
  '(cp, _, n) ← io_wrap "fetching checkpoint: "
    (call (FetchCheckpoint (fetch_checkpoint (rc_client r)) (rc_verifier r) (rc_origin r)));
  mret (cp, n).

Definition read_ReadTile (r : readClient) (level index p : Z) : io Net bytes :=
  io_wrap "reading tile: " (call (fetch_tile (rc_client r) level index p)).

Definition read_ReadEntryBundle (r : readClient) (index p : Z) : io Net bytes :=
  io_wrap "reading entry bundle: " (call (fetch_bundle (rc_client r) index p)).

(** ** Theorems *)

(** C34: a checkpoint the read client returns is one of its log: a client made by NewReader for
    an origin and a key only returns checkpoints with that origin that are covered by a signature
    which the key verifies. *)
Theorem ReadCheckpoint_signed `{!FetcherLaws} `{!LogFormatLaws} readURL origin verifier opts r n cp nt n'
    (Hnew : NewReader readURL origin verifier opts = Ok r)
    (Hread : read_ReadCheckpoint r n = (Ok (cp, nt), n')) :
  ∃ raw, fetch_checkpoint (rc_client r) n = (inr raw, n') ∧
    cp_Origin cp = origin ∧ (∃ rest, Unmarshal raw = inr (cp, rest)) ∧
    ∃ sig, HasPrefix raw (note_Text nt) = true ∧ VerifySig verifier sig (note_Text nt) = inr tt.
Proof.
  unfold read_ReadCheckpoint in Hread. apply io_bind_Ok in Hread as ([[cp0 raw] nt0] & n1 & Hf & Hr).
  apply io_wrap_Ok, call_Ok in Hf. injection Hr as <- <- <-.
  destruct (Fetch_parses _ _ _ _ _ _ _ _ Hf) as (rest & Hraw & Hp).
  unfold NewReader in Hnew. apply bind_Ok in Hnew as (u & _ & Hnew). apply bind_Ok in Hnew as (nv & Hnv & Hnew).
  apply bind_Ok in Hnew as (fc & _ & Hnew). injection Hnew as <-. cbn in *.
  apply wrap_Ok, NewNoteVerifier_Ok in Hnv as (_ & _ & Hver).
  destruct (Parse_signed _ _ _ _ _ _ _ Hp) as [Hpre [sig Hsig]].
  exists raw. split_and!; [done|by eapply Parse_origin|by eapply Parse_Unmarshal|].
  exists sig. split; [done|by apply Hver].
Qed.
End reader.

(** *** Writing *)

Section writing.
Context `{HttpLib}.

(** Entries are posted to the log's path under the base URL: for a base path that is empty
    or a rooted path of plain components, with or without a trailing slash or doubled slashes,
    the path of the request is those components followed by api/v2/log/entries. *)
Theorem endpoint_path (p : string)
    (Hp : p = "" ∨ HasPrefix p "/" = true)
    (Hplain : Forall plain (List.filter (λ c, negb (is_empty c)) (split_slash p))) :
  Join [p; addPath] =
  "/" +:+ join_slash (List.filter (λ c, negb (is_empty c)) (split_slash p) ++ ["api"; "v2"; "log"; "entries"]).
Proof.
  destruct Hp as [->|Hp]; [reflexivity|].
  assert (Hne : is_empty p = false) by (by destruct p).
  unfold Join. cbn [List.filter]. rewrite Hne. change (is_empty addPath) with false. cbn [negb].
  change (join_slash [p; addPath]) with (p +:+ "/" +:+ addPath).
  rewrite (Clean_rooted _ _ eq_refl).
  - by rewrite split_slash_append_slash, List.filter_app.
  - apply HasPrefix_spec in Hp as [q ->]. rewrite append_assoc. apply HasPrefix_spec. eauto.
  - rewrite split_slash_append_slash, List.filter_app. apply Forall_app. split; [done|].
    refine (bool_decide_eq_true_1 _ _). vm_compute. reflexivity.
Qed.

(** The write client sends one POST of the JSON of the request, with its content type, and
    returns an entry only when the server answered with status 201 and a body that decodes to
    that entry; any other status is an error. *)
Theorem write_Add_Ok w entry n tle n' (Ha : write_Add w entry n = (Ok tle, n')) :
  ∃ cer payload resp body, createRequest entry = Ok cer ∧ marshal_request cer = inr payload ∧
    Do (wc_transport w) (wc_timeout w)
      {| req_Method := "POST";
         req_URL := url_String {| url_Path := Join [url_Path (wc_baseURL w); addPath]; url_rest := url_rest (wc_baseURL w) |};
         req_Header := {[ "Content-Type" := "application/json" ]}; req_Body := payload |} n = (inr resp, n') ∧
    resp_StatusCode resp = 201 ∧ resp_Body resp = inr body ∧ unmarshal_entry body = inr tle.
Proof.
  unfold write_Add in Ha.
  apply io_bind_Ok in Ha as (cer & n1 & Hc%io_wrap_Ok%pure_Ok & Ha). destruct Hc as [Hc ->].
  apply io_bind_Ok in Ha as (payload & n1 & Hm%io_wrap_Ok%pure_Ok & Ha). destruct Hm as [Hm%lift_Ok ->].
  apply io_bind_Ok in Ha as (u & n1 & Hu%io_wrap_Ok%pure_Ok & Ha). destruct Hu as [_ ->].
  apply io_bind_Ok in Ha as (resp & n1 & Hd%io_wrap_Ok%call_Ok & Ha).
  apply io_bind_Ok in Ha as (body & n2 & Hb%io_wrap_Ok%pure_Ok & Ha). destruct Hb as [Hb%lift_Ok ->].
  destruct (Z.eqb_spec (resp_StatusCode resp) StatusCreated) as [Hs|Hs]; cbn [negb] in Ha; [|discriminate].
  apply io_wrap_Ok, pure_Ok in Ha as [Ht%lift_Ok ->]. by exists cer, payload, resp, body.
Qed.
End writing.

(** The user agent is set exactly when one is configured: the transport of a client hands
    every request to the underlying transport, unchanged if the agent is empty, and otherwise
    with that User-Agent header and nothing else changed. *)
Theorem CreateRoundTripper_agent {N} (def inner : RoundTripper N) agent req n :
  CreateRoundTripper def (Some inner) agent req n =
  inner (if bool_decide (agent = "") then req
         else {| req_Method := req_Method req; req_URL := req_URL req;
                 req_Header := <["User-Agent" := agent]> (req_Header req); req_Body := req_Body req |}) n.
Proof.
  unfold CreateRoundTripper, RoundTrip. cbn. destruct agent as [|c s]; [by rewrite bool_decide_true|].
  by rewrite bool_decide_false.
Qed.
