(* ===== verification/Drivers.v ===== *)
(** * internal/tessera/{posix,gcp,aws,gcpcloudsql}: the storage backends

    Each backend builds a Tessera driver from its configuration and, if asked
    to, a persistent antispam store.  The Cloud SQL backend talks to Google
    Cloud Storage through an S3 client and changes that client's middleware to
    make request signatures work. *)
From S2P Require Import Prelude GoErrors GoStrings GoPath Proto External IO Note TesseraLib.

(** ** Libraries of the backends *)

(** [AntispamOpts] of every backend. *)
Record AntispamOpts := { MaxBatchSize : Z; PushbackThreshold : Z }.

(** One step of the S3 client's middleware: the names, and the two steps the program inserts. *)
Inductive middleware :=
  | Named (name : string)
  | IgnoreHeaders (headers : list string)
  | RestoreIgnored.

(** [Stack.Finalize] and the flag [EnableTrailingChecksum] of the checksum step. *)
Record stack := { Finalize : list middleware; EnableTrailingChecksum : bool }.

(** A change of the stack: when it is built, or ([OnOperation]) at the start of an operation. *)
Inductive APIOption := OnBuild (f : stack → error + stack) | OnOperation (f : string → stack → stack).

(** [s3.Options], the fields that are set. *)
Record s3_Options := { UsePathStyle : bool; APIOptions : list APIOption }.

Record aws_Config (SDK : Type) := {
  SDKConfig : SDK;
  S3Options : s3_Options → s3_Options;
  Bucket : string;
  DSN : string;
  MaxOpenConns : Z;
  MaxIdleConns : Z
}.
Arguments Build_aws_Config {SDK}.

Class DriverLib `{Tessera} := {
  posix_New : string → error + Driver;
  badger_NewAntispam : string → AntispamOpts → error + Antispam;
  GCSClient : Type;
  SpannerClient : Type;
  gcs_Client : string → error + GCSClient;
  spanner_Client : string → string → error + SpannerClient;
  (** bucket, Spanner database and their clients *)
  gcp_driver_New : string → string → GCSClient → SpannerClient → error + Driver;
  gcp_NewAntispam : string → AntispamOpts → error + Antispam;
  SDK : Type;
  LoadDefaultConfig : error + SDK;
  (** with region, static credentials (access key, secret) and base endpoint *)
  LoadDefaultConfig_with : string → string → string → string → error + SDK;
  aws_driver_New : aws_Config SDK → error + Driver;
  aws_NewAntispam : string → AntispamOpts → error + Antispam;
  os_Getenv : string → string;
  GitVersion : string;
  GOOS : string;
  GOARCH : string
}.

Section drivers.
Context `{DriverLib}.

(** The shape every [NewDriver] has: a driver, then an antispam store if it is configured. *)
Definition with_antispam (name : string) (driver : result Driver) (persistent : bool) (as_ : result Antispam)
    (as_name : string) : result (Driver * option Antispam) :=
  driver ← wrapv ("failed to initialize " +:+ name +:+ " driver: ") driver;
  if persistent then
    a ← wrapv ("failed to initialize " +:+ as_name +:+ " antispam: ") as_;
    Ok (driver, Some a)
  else Ok (driver, None).

(** ** posix *)

Record posix_Configuration := {
  px_StorageDir : string; px_PersistentAntispam : bool; px_ASMaxBatchSize : Z; px_ASPushbackThreshold : Z }.

Definition newPOSIXDriver (storageDir : string) : result Driver :=
  wrap "creating Tessera POSIX driver: " (lift (posix_New storageDir)).

Definition newPOSIXAntispam (storageDir : string) (maxBatchSize pushbackThreshold : Z) : result Antispam :=
  let asOpts := {| MaxBatchSize := maxBatchSize; PushbackThreshold := pushbackThreshold |} in
  lift (badger_NewAntispam (Join [storageDir; ".state"; "antispam"]) asOpts).

Definition posix_NewDriver (config : posix_Configuration) : result (Driver * option Antispam) :=
  with_antispam "POSIX" (newPOSIXDriver (px_StorageDir config)) (px_PersistentAntispam config)
    (newPOSIXAntispam (px_StorageDir config) (px_ASMaxBatchSize config) (px_ASPushbackThreshold config)) "GCP".

(** ** gcp *)

Record gcp_Configuration := {
  gc_Hostname : string; gc_Bucket : string; gc_SpannerDB : string;
  gc_PersistentAntispam : bool; gc_ASMaxBatchSize : Z; gc_ASPushbackThreshold : Z }.

Definition userAgent (hostname : string) : string :=
  "rekor-tiles/" +:+ GitVersion +:+ " (" +:+ GOOS +:+ "; " +:+ GOARCH +:+ ") " +:+ hostname.

Definition newGCPDriver (bucket spannerDB hostname : string) : result Driver :=
  let agent := userAgent hostname in
  gcsClient ← wrap "creating storage client: " (lift (gcs_Client agent));
  spannerClient ← wrap "creating spanner client: " (lift (spanner_Client spannerDB agent));
  wrap "getting tessera GCP driver: " (lift (gcp_driver_New bucket spannerDB gcsClient spannerClient)).

Definition newGCPAntispam (spannerDb : string) (maxBatchSize pushbackThreshold : Z) : result Antispam :=
  let asOpts := {| MaxBatchSize := maxBatchSize; PushbackThreshold := pushbackThreshold |} in
  lift (gcp_NewAntispam (spannerDb +:+ "-antispam") asOpts).

Definition gcp_NewDriver (config : gcp_Configuration) : result (Driver * option Antispam) :=
  _ ← guard_err (is_empty (gc_Bucket config) || is_empty (gc_SpannerDB config))
        (ErrorString "required flags missing to initialize Tessera driver");
  with_antispam "GCP" (newGCPDriver (gc_Bucket config) (gc_SpannerDB config) (gc_Hostname config))
    (gc_PersistentAntispam config)
    (newGCPAntispam (gc_SpannerDB config) (gc_ASMaxBatchSize config) (gc_ASPushbackThreshold config)) "GCP".

(** ** aws *)

Record aws_Configuration := {
  aw_Bucket : string; aw_MySQLDSN : string; aw_MaxOpenConns : Z; aw_MaxIdleConns : Z;
  aw_PersistentAntispam : bool; aw_ASMaxBatchSize : Z; aw_ASPushbackThreshold : Z }.

(** [if n > 0 { cfg.Field = n }] on a field that is zero *)
Definition positive_or_zero (n : Z) : Z := if n >? 0 then n else 0.

Definition aws_s3Opts (o : s3_Options) : s3_Options := {| UsePathStyle := true; APIOptions := APIOptions o |}.

Definition newAWSDriver (bucket mysqlDSN : string) (maxOpenConns maxIdleConns : Z) : result Driver :=
  sdkCfg ← wrap "loading AWS SDK config: " (lift LoadDefaultConfig);
  let cfg := Build_aws_Config sdkCfg aws_s3Opts bucket mysqlDSN (positive_or_zero maxOpenConns) (positive_or_zero maxIdleConns) in
  wrap "getting tessera AWS driver: " (lift (aws_driver_New cfg)).

Definition newAWSAntispam (mysqlDSN : string) (maxBatchSize pushbackThreshold : Z) : result Antispam :=
  let asOpts := {| MaxBatchSize := maxBatchSize; PushbackThreshold := pushbackThreshold |} in
  lift (aws_NewAntispam mysqlDSN asOpts).

Definition aws_NewDriver (config : aws_Configuration) : result (Driver * option Antispam) :=
  _ ← guard_err (is_empty (aw_Bucket config) || is_empty (aw_MySQLDSN config))
        (ErrorString "AWS backend requires --aws-bucket and --aws-mysql-dsn flags");
  with_antispam "AWS" (newAWSDriver (aw_Bucket config) (aw_MySQLDSN config) (aw_MaxOpenConns config) (aw_MaxIdleConns config))
    (aw_PersistentAntispam config)
    (newAWSAntispam (aw_MySQLDSN config) (aw_ASMaxBatchSize config) (aw_ASPushbackThreshold config)) "AWS".

(** ** gcpcloudsql *)

Record cloudsql_Configuration := {
  cs_DSN : string; cs_Bucket : string; cs_MaxOpenConns : Z; cs_MaxIdleConns : Z;
  cs_PersistentAntispam : bool; cs_ASMaxBatchSize : Z; cs_ASPushbackThreshold : Z }.

(** *** Middleware *)

Definition mw_name (m : middleware) : string :=
  match m with Named n => n | IgnoreHeaders _ => "IgnoreHeaders" | RestoreIgnored => "RestoreIgnored" end.

(** [stack.Finalize.Insert(m, relativeTo, Before or After)] *)
Fixpoint Insert (m : middleware) (relativeTo : string) (before : bool) (l : list middleware) : option (list middleware) :=
  match l with
  | [] => None
  | x :: l' =>
      if bool_decide (mw_name x = relativeTo) then Some (if before then m :: x :: l' else x :: m :: l')
      else match Insert m relativeTo before l' with Some r => Some (x :: r) | None => None end
  end.

Definition insert_step (m : middleware) (relativeTo : string) (before : bool) (s : stack) : error + stack :=
  match Insert m relativeTo before (Finalize s) with
  | Some l => inr {| Finalize := l; EnableTrailingChecksum := EnableTrailingChecksum s |}
  | None => inl (ErrorString ("not found, " +:+ relativeTo))
  end.

Definition ignoreSigningHeaders (headers : list string) (o : s3_Options) : s3_Options :=
  {| UsePathStyle := UsePathStyle o;
     APIOptions := APIOptions o ++ [OnBuild (λ s,
       match insert_step (IgnoreHeaders headers) "Signing" true s with
       | inl e => inl e
       | inr s1 => insert_step RestoreIgnored "Signing" false s1
       end)] |}.

Definition checksum_step : string := "AWSChecksum:ComputeInputPayloadChecksum".
Definition trailer_step : string := "addInputChecksumTrailer".

Definition disableTrailingChecksumForGCS (o : s3_Options) : s3_Options :=
  {| UsePathStyle := UsePathStyle o;
     APIOptions := APIOptions o ++ [OnOperation (λ opName s,
       if bool_decide (opName = "UploadPart") || bool_decide (opName = "PutObject")
       then {| Finalize := List.filter (λ m, negb (bool_decide (mw_name m = trailer_step))) (Finalize s);
               EnableTrailingChecksum :=
                 if existsb (λ m, bool_decide (mw_name m = checksum_step)) (Finalize s) then false
                 else EnableTrailingChecksum s |}
       else s)] |}.

Definition cloudsql_s3Opts (o : s3_Options) : s3_Options :=
  let o := {| UsePathStyle := true; APIOptions := APIOptions o |} in
  let o := ignoreSigningHeaders ["Accept-Encoding"] o in
  disableTrailingChecksumForGCS o.

Definition newCloudSQLDriver (cloudSQLDSN bucket : string) (maxOpenConns maxIdleConns : Z) : result Driver :=
  _ ← wrap "loading AWS SDK config: " (lift LoadDefaultConfig);
  let accessKey := os_Getenv "GCS_HMAC_ACCESS_KEY_ID" in
  let secret := os_Getenv "GCS_HMAC_SECRET" in
  let region := if is_empty (os_Getenv "GCS_REGION") then "auto" else os_Getenv "GCS_REGION" in
  let endpoint := os_Getenv "GCS_ENDPOINT_URL" in
  sdkCfg ← wrap "loading AWS SDK config for GCS: " (lift (LoadDefaultConfig_with region accessKey secret endpoint));
  let cfg := Build_aws_Config sdkCfg cloudsql_s3Opts bucket cloudSQLDSN (positive_or_zero maxOpenConns) (positive_or_zero maxIdleConns) in
  wrap "getting Tessera GCP Cloud SQL driver: " (lift (aws_driver_New cfg)).

Definition newCloudSQLAntispam (cloudsqlDSN : string) (maxBatchSize pushbackThreshold : Z) : result Antispam :=
  let asOpts := {| MaxBatchSize := maxBatchSize; PushbackThreshold := pushbackThreshold |} in
  lift (aws_NewAntispam cloudsqlDSN asOpts).

Definition cloudsql_NewDriver (config : cloudsql_Configuration) : result (Driver * option Antispam) :=
  _ ← guard_err (is_empty (cs_DSN config) || is_empty (cs_Bucket config))
        (ErrorString "GCP CloudSQL backend requires --gcp-bucket and --gcp-cloudsql-dsn flags");
  with_antispam "GCP CloudSQL" (newCloudSQLDriver (cs_DSN config) (cs_Bucket config) (cs_MaxOpenConns config) (cs_MaxIdleConns config))
    (cs_PersistentAntispam config)
    (newCloudSQLAntispam (cs_DSN config) (cs_ASMaxBatchSize config) (cs_ASPushbackThreshold config)) "GCP CloudSQL".
End drivers.

(** *** Running the finalize steps

    A request's headers, and the map that [ignoreHeaders] leaves in the
    context.  [fs_smithy]: the request is a [*smithyhttp.Request]. *)
Record fin_state := { fs_smithy : bool; fs_Header : gmap string (list string); fs_ignored : gmap string string }.

Definition Header_Get (h : gmap string (list string)) (k : string) : string :=
  match h !! k with Some (v :: _) => v | _ => "" end.

(** [ignoreHeaders]: the loop with [ignored[h] = req.Header.Get(h); req.Header.Del(h)]. *)
Definition ignoreHeaders (headers : list string) (s : fin_state) : result fin_state :=
  if negb (fs_smithy s) then Err (ErrorString "(ignoreHeaders) unexpected request middleware type")
  else
    let '(h, ign) := foldl (λ acc k, (delete k acc.1, <[k := Header_Get acc.1 k]> acc.2)) (fs_Header s, ∅) headers in
    Ok {| fs_smithy := fs_smithy s; fs_Header := h; fs_ignored := ign |}.

(** [restoreIgnored]: the loop, in any order of the map. *)
Definition restoreIgnored (o : map_order) (s : fin_state) : result fin_state :=
  if negb (fs_smithy s) then Err (ErrorString "(restoreIgnored) unexpected request middleware type")
  else
    Ok {| fs_smithy := fs_smithy s;
          fs_Header := foldl (λ h kv, <[kv.1 := [kv.2]]> h) (fs_Header s) (order o (map_to_list (fs_ignored s)));
          fs_ignored := fs_ignored s |}.

(** A run of the steps, with the headers that the signing step sees.  The
    other steps of the client leave the headers alone here. *)
Fixpoint run_finalize (o : map_order) (steps : list middleware) (s : fin_state)
    : result (list (gmap string (list string)) * fin_state) :=
  match steps with
  | [] => Ok ([], s)
  | IgnoreHeaders hs :: steps' => s1 ← ignoreHeaders hs s; run_finalize o steps' s1
  | RestoreIgnored :: steps' => s1 ← restoreIgnored o s; run_finalize o steps' s1
  | Named n :: steps' =>
      '(seen, s') ← run_finalize o steps' s;
      Ok (if bool_decide (n = "Signing") then fs_Header s :: seen else seen, s')
  end.

(** The stack after the client is built and an operation is started. *)
Definition build_stack (opts : list APIOption) (opName : string) (s : stack) : error + stack :=
  foldl (λ acc o, match acc, o with
                  | inr s, OnBuild f => f s
                  | inr s, OnOperation f => inr (f opName s)
                  | inl e, _ => inl e
                  end) (inr s) opts.

(** ** Lemmas *)

Lemma Insert_split m r before pre x post :
  Forall (λ y, mw_name y ≠ r) pre → mw_name x = r →
  Insert m r before (pre ++ x :: post) = Some (pre ++ (if before then [m; x] else [x; m]) ++ post).
Proof.
  induction pre as [|y pre IH]; intros Hp Hx; cbn.
  - rewrite bool_decide_true by done. by destruct before.
  - apply Forall_cons in Hp as [Hy Hp]. rewrite bool_decide_false by done. by rewrite IH.
Qed.

Lemma foldl_set_lookup (l : list (string * string)) (h : gmap string (list string)) k :
  NoDup l.*1 →
  foldl (λ h kv, <[kv.1 := [kv.2]]> h) h l !! k =
  match (list_to_map l : gmap string string) !! k with Some v => Some [v] | None => h !! k end.
Proof.
  revert h. induction l as [|[k' v] l IH]; intros h Hnd; [done|]. cbn in Hnd. apply NoDup_cons in Hnd as [Hni Hnd].
  cbn [foldl]. rewrite IH by done. cbn [list_to_map foldr fst snd].
  destruct (decide (k = k')) as [->|Hne].
  - rewrite not_elem_of_list_to_map_1 by done. by rewrite !lookup_insert_eq.
  - by rewrite !lookup_insert_ne by congruence.
Qed.

(** Restoring does not depend on the order of the map. *)
Lemma restore_lookup o (m : gmap string string) (h : gmap string (list string)) k :
  foldl (λ h kv, <[kv.1 := [kv.2]]> h) h (order o (map_to_list m)) !! k =
  match m !! k with Some v => Some [v] | None => h !! k end.
Proof.
  assert (order o (map_to_list m) ≡ₚ map_to_list m) as Hp by apply order_perm.
  assert (NoDup (order o (map_to_list m)).*1) as Hnd by (rewrite Hp; apply NoDup_fst_map_to_list).
  rewrite foldl_set_lookup by done.
  assert ((list_to_map (order o (map_to_list m)) : gmap string string) = m) as ->; [|done].
  rewrite (list_to_map_proper _ _ Hnd Hp). apply list_to_map_to_list.
Qed.

Lemma run_named o steps s :
  Forall (λ m, ∃ n, m = Named n ∧ n ≠ "Signing") steps → run_finalize o steps s = Ok ([], s).
Proof.
  induction steps as [|m steps IH]; intros Hs; [done|]. apply Forall_cons in Hs as [(n & -> & Hn) Hs].
  cbn. rewrite IH by done. cbn. by rewrite bool_decide_false.
Qed.

Lemma run_named_app o pre steps s r :
  Forall (λ m, ∃ n, m = Named n ∧ n ≠ "Signing") pre → run_finalize o steps s = Ok r → run_finalize o (pre ++ steps) s = Ok r.
Proof.
  induction pre as [|m pre IH]; intros Hs Hr; [done|]. apply Forall_cons in Hs as [(n & -> & Hn) Hs].
  cbn. rewrite (IH Hs Hr). cbn. destruct r. by rewrite bool_decide_false.
Qed.

(** ** Theorems *)


(** What a backend hands to the storage: every backend but POSIX refuses a configuration
    without its bucket and database, and a driver comes with a persistent antispam store if and
    only if the configuration asks for one. *)
Theorem NewDriver_configuration `{DriverLib} cp cg ca cc d a :
  (posix_NewDriver cp = Ok (d, a) → (is_Some a ↔ px_PersistentAntispam cp = true)) ∧
  (gcp_NewDriver cg = Ok (d, a) →
     gc_Bucket cg ≠ "" ∧ gc_SpannerDB cg ≠ "" ∧ (is_Some a ↔ gc_PersistentAntispam cg = true)) ∧
  (aws_NewDriver ca = Ok (d, a) →
     aw_Bucket ca ≠ "" ∧ aw_MySQLDSN ca ≠ "" ∧ (is_Some a ↔ aw_PersistentAntispam ca = true)) ∧
  (cloudsql_NewDriver cc = Ok (d, a) →
     cs_DSN cc ≠ "" ∧ cs_Bucket cc ≠ "" ∧ (is_Some a ↔ cs_PersistentAntispam cc = true)).
Proof.
  assert (Hw : ∀ n dr p as_ an, with_antispam n dr p as_ an = Ok (d, a) → is_Some a ↔ p = true).
  { intros n dr p as_ an (x & _ & Hx)%bind_Ok. destruct p; [|by injection Hx as _ <-; split; [intros [??]|]].
    apply bind_Ok in Hx as (y & _ & Hy). injection Hy as _ <-. by split; eauto. }
  assert (Hg : ∀ s t e, guard_err (is_empty s || is_empty t) e = Ok tt → s ≠ "" ∧ t ≠ "").
  { intros s t e Hs%guard_err_Ok. apply orb_false_iff in Hs as [?%is_empty_false ?%is_empty_false]. done. }
  split_and!.
  - apply Hw.
  - intros ([] & [? ?]%Hg & ?%Hw)%bind_Ok. done.
  - intros ([] & [? ?]%Hg & ?%Hw)%bind_Ok. done.
  - intros ([] & [? ?]%Hg & ?%Hw)%bind_Ok. done.
Qed.
