(* ===== verification/Cmd.v ===== *)
(** * cmd/rekor-server and internal/cli: from the flags to a running server

    The flags all servers share with their defaults, the serve command of each
    backend, and what it hands to [server.Serve]. *)
From S2P Require Import Prelude GoErrors GoStrings GoPath Sha256 Proto External IO Note TesseraLib VerifyEntry Storage AlgorithmRegistry HashedRekord Dsse Service Gateway Config SignerVerifier Drivers.

(** ** internal/cli/flags.go *)

Definition Second : Z := 1000000000.

(** Durations and sizes that tessera recommends. *)
Class TesseraDefaults := {
  DefaultBatchMaxSize : Z;
  DefaultBatchMaxAge : Z;
  DefaultCheckpointInterval : Z;
  DefaultPushbackMaxOutstanding : Z
}.

(** The flags of every server, by name. *)
Record server_flags := {
  read_only : bool;
  http_port : Z;
  http_address : string;
  http_metrics_port : Z;
  grpc_port : Z;
  grpc_address : string;
  server_timeout : Z;
  max_request_body_size : Z;
  log_level : string;
  request_response_logging : bool;
  grpc_tls_cert_file : string;
  grpc_tls_key_file : string;
  http_tls_cert_file : string;
  http_tls_key_file : string;
  hostname : string;
  batch_max_size : Z;
  batch_max_age : Z;
  checkpoint_interval : Z;
  pushback_max_outstanding : Z;
  tlog_timeout : Z;
  persistent_antispam : bool;
  antispam_max_batch_size : Z;
  antispam_pushback_threshold : Z;
  witness_policy_path : string;
  client_signing_algorithms : list string
}.

Section flags.
Context `{SigstoreSignature} `{TesseraDefaults}.

Definition defaultKeyAlgorithms : result (list string) :=
  keyAlgorithmTypes ← mapM (λ keyAlgorithm, lift (FormatSignatureAlgorithmFlag keyAlgorithm)) AllowedClientSigningAlgorithms;
  Ok (Sort keyAlgorithmTypes).

(** The defaults [Initialize] registers, given what [os.Hostname] answers. *)
Definition Initialize (os_Hostname : error + string) : result server_flags :=
  keyAlgorithmTypes ← defaultKeyAlgorithms;
  Ok {|
    read_only := false;
    http_port := 3000;
    http_address := "127.0.0.1";
    http_metrics_port := 2112;
    grpc_port := 3001;
    grpc_address := "127.0.0.1";
    server_timeout := 20 * Second;
    max_request_body_size := 4 * 1024 * 1024;
    log_level := "info";
    request_response_logging := false;
    grpc_tls_cert_file := "";
    grpc_tls_key_file := "";
    http_tls_cert_file := "";
    http_tls_key_file := "";
    hostname := match os_Hostname with inr h => h | inl _ => "localhost" end;
    batch_max_size := DefaultBatchMaxSize;
    batch_max_age := DefaultBatchMaxAge;
    checkpoint_interval := DefaultCheckpointInterval;
    pushback_max_outstanding := DefaultPushbackMaxOutstanding;
    tlog_timeout := 30 * Second;
    persistent_antispam := false;
    antispam_max_batch_size := 0;
    antispam_pushback_threshold := 0;
    witness_policy_path := "";
    client_signing_algorithms := keyAlgorithmTypes |}.
End flags.

(** ** Log levels: [slog.Level.UnmarshalText] *)

Definition upper_char (c : ascii) : ascii :=
  let z := octet c in if (97 <=? z) && (z <=? 122) then char_of (z - 32) else c.
Definition ToUpper (s : string) : string := string_of_list_ascii (upper_char <$> list_ascii_of_string s).

(** The name, and the rest from the first sign on. *)
Fixpoint cut_sign (l : list ascii) : list ascii * option (list ascii) :=
  match l with
  | [] => ([], None)
  | c :: l' =>
      if bool_decide (c = "+"%char) || bool_decide (c = "-"%char) then ([], Some l)
      else let '(name, rest) := cut_sign l' in (c :: name, rest)
  end.

Definition parse_level (s : string) : result Z :=
  let '(name, rest) := cut_sign (list_ascii_of_string s) in
  offset ← match rest with None => Ok 0 | Some r => Atoi (string_of_list_ascii r) end;
  let name := ToUpper (string_of_list_ascii name) in
  level ← if bool_decide (name = "DEBUG") then Ok (-4)
          else if bool_decide (name = "INFO") then Ok 0
          else if bool_decide (name = "WARN") then Ok 4
          else if bool_decide (name = "ERROR") then Ok 8
          else Err (ErrorString "unknown name");
  Ok (to_int64 (level + offset)).

(** ** The serve command *)

(** [slog.Error(msg, ...); os.Exit(1)] *)
Definition or_exit {A} (msg : string) (m : result A) : result A :=
  match m with Err _ => Err (ErrorString msg) | m => m end.

Lemma or_exit_Ok {A} msg (m : result A) a : or_exit msg m = Ok a ↔ m = Ok a.
Proof. destruct m; cbn; split; congruence. Qed.

Definition io_exit {S A} (msg : string) (m : io S A) : io S A := λ s, let '(x, s') := m s in (or_exit msg x, s').

(** What the command hands to [server.Serve]. *)
Record startup `{SigstoreSignature} `{Tessera} := {
  su_http : Http.HTTPConfig;
  su_grpc : Grpc.GRPCConfig;
  su_timeout : Z;
  su_server : Server;
  su_shutdown : World → (error + unit) * World
}.

Section serve.
Context `{X509} `{SigstoreSignature} `{!DsseLib} `{LogFormat} `{Merkle} `{Tessera} `{JsonLib} `{KeyLib} `{!DriverLib}.

(** The files the command reads besides the key: [os.ReadFile]. *)
Variable os_ReadFile : string → error + bytes.

Definition http_config (f : server_flags) (gcp : bool) : Http.HTTPConfig :=
  Http.NewHTTPConfig ([
    Http.WithHTTPPort (http_port f);
    Http.WithHTTPHost (http_address f);
    Http.WithHTTPTimeout (server_timeout f);
    Http.WithHTTPMaxRequestBodySize (max_request_body_size f);
    Http.WithHTTPMetricsPort (http_metrics_port f);
    Http.WithHTTPTLSCredentials (http_tls_cert_file f) (http_tls_key_file f);
    Http.WithGRPCTLSCredentials (grpc_tls_cert_file f)] ++ (if gcp then [Http.WithGCPSupport true] else [])).

Definition grpc_config (f : server_flags) (logLevel : Z) : Grpc.GRPCConfig :=
  Grpc.NewGRPCConfig [
    Grpc.WithGRPCPort (grpc_port f);
    Grpc.WithGRPCHost (grpc_address f);
    Grpc.WithGRPCTimeout (server_timeout f);
    Grpc.WithGRPCMaxMessageSize (max_request_body_size f);
    Grpc.WithGRPCLogLevel logLevel (request_response_logging f);
    Grpc.WithTLSCredentials (grpc_tls_cert_file f) (grpc_tls_key_file f)].

(** The append options of a writable server: lifecycle, antispam, witnessing. *)
Definition append_options (f : server_flags) (opts : AppendOptions) (persistentAntispam : option Antispam)
    : result AppendOptions :=
  let opts := WithLifecycleOptions opts (batch_max_size f) (batch_max_age f) (checkpoint_interval f) (pushback_max_outstanding f) in
  let opts := WithAntispamOptions opts persistentAntispam in
  if negb (is_empty (witness_policy_path f)) then
    policy ← or_exit "failed to read witness policy file" (lift (os_ReadFile (witness_policy_path f)));
    or_exit "failed to initialize witnessing" (WithWitnessing opts policy)
  else Ok opts.

(** The storage and its shutdown function: in read-only mode no appender is started. *)
Definition start_storage (newDriver : result (Driver * option Antispam)) (f : server_flags) (opts : AppendOptions)
    : io World (option (Storage World tessera_Entry) * (World → (error + unit) * World)) :=
  if read_only f then mret (None, λ w, (inr tt, w))
  else
    '(tesseraDriver, persistentAntispam) ← pure (or_exit "failed to initialize driver" newDriver);
    appendOptions ← pure (append_options f opts persistentAntispam);
    '(st, shutdown) ← io_exit "failed to initialize tessera storage" (NewStorage (hostname f) tesseraDriver appendOptions);
    mret (Some (storage_impl st), shutdown).

(** The body of every serve command, after the signer and with the backend's driver. *)
Definition serve_with (signer : result SignerVerifier) (newDriver : result (Driver * option Antispam)) (gcp : bool)
    (f : server_flags) : io World startup :=
  logLevel ← pure (or_exit "invalid log-level specified; must be one of 'debug', 'info', 'error', or 'warn'" (parse_level (log_level f)));
  signer ← pure signer;
  pubkey ← pure (or_exit "failed to get public key from signing key" (lift (signer_PublicKey (as_Signer signer))));
  _ ← pure (or_exit "failed to marshal public key to DER" (lift (MarshalPKIXPublicKey pubkey)));
  appendOptions ← pure (or_exit "failed to initialize append options" (NewAppendOptions (hostname f) (as_Signer signer)));
  pubKey ← pure (or_exit "failed to get public key" (lift (signer_PublicKey (as_Signer signer))));
  '(_, logID) ← pure (or_exit "failed to get log ID" (KeyHash (hostname f) pubKey));
  '(tesseraStorage, shutdownFn) ← start_storage newDriver f appendOptions;
  algorithmRegistry ← pure (or_exit "failed to get algorithm registry" (AlgorithmRegistry (Some (client_signing_algorithms f))));
  mret {| su_http := http_config f gcp;
          su_grpc := grpc_config f logLevel;
          su_timeout := tlog_timeout f;
          su_server := NewServer tesseraStorage (read_only f) (Some algorithmRegistry) logID;
          su_shutdown := shutdownFn |}.

(** *** The four backends *)

Definition no_hash : string → error := λ _, ErrorString "invalid hash algorithm for --signer-kmshash".
Definition no_signer : error := ErrorString "no signer configured; must provide a signer using a file, KMS, or Tink".

Definition gcp_signer (sf : signer_flags) : result SignerVerifier :=
  opts ← signer_options no_hash no_signer sf;
  or_exit "failed to initialize signer" (gcp_New opts).

Definition aws_signer (sf : signer_flags) : result SignerVerifier :=
  opts ← aws_signer_options no_hash no_signer sf;
  or_exit "failed to initialize signer" (aws_New opts).

Definition posix_signer (filepath pass : string) : result SignerVerifier :=
  _ ← guard_err (is_empty filepath) (ErrorString "--signer-filepath must be set");
  or_exit "failed to initialize signer" (NewFileSignerVerifier filepath pass).

Definition serve_gcp (sf : signer_flags) (bucket spanner : string) (f : server_flags) : io World startup :=
  serve_with (gcp_signer sf)
    (gcp_NewDriver {| gc_Hostname := hostname f; gc_Bucket := bucket; gc_SpannerDB := spanner;
                      gc_PersistentAntispam := persistent_antispam f;
                      gc_ASMaxBatchSize := antispam_max_batch_size f;
                      gc_ASPushbackThreshold := antispam_pushback_threshold f |}) true f.

Definition serve_cloudsql (sf : signer_flags) (dsn bucket : string) (f : server_flags) : io World startup :=
  serve_with (gcp_signer sf)
    (cloudsql_NewDriver {| cs_DSN := dsn; cs_Bucket := bucket; cs_MaxOpenConns := 0; cs_MaxIdleConns := 0;
                           cs_PersistentAntispam := persistent_antispam f;
                           cs_ASMaxBatchSize := antispam_max_batch_size f;
                           cs_ASPushbackThreshold := antispam_pushback_threshold f |}) true f.

Definition serve_aws (sf : signer_flags) (bucket dsn : string) (maxOpenConns maxIdleConns : Z) (f : server_flags) : io World startup :=
  serve_with (aws_signer sf)
    (aws_NewDriver {| aw_Bucket := bucket; aw_MySQLDSN := dsn; aw_MaxOpenConns := maxOpenConns; aw_MaxIdleConns := maxIdleConns;
                      aw_PersistentAntispam := persistent_antispam f;
                      aw_ASMaxBatchSize := antispam_max_batch_size f;
                      aw_ASPushbackThreshold := antispam_pushback_threshold f |}) false f.

Definition serve_posix (filepath pass storageDir : string) (f : server_flags) : io World startup :=
  serve_with (posix_signer filepath pass)
    (posix_NewDriver {| px_StorageDir := storageDir;
                        px_PersistentAntispam := persistent_antispam f;
                        px_ASMaxBatchSize := antispam_max_batch_size f;
                        px_ASPushbackThreshold := antispam_pushback_threshold f |}) false f.
End serve.

(** ** Lemmas *)

Section serve_lemmas.
Context `{X509} `{SigstoreSignature} `{!DsseLib} `{LogFormat} `{Merkle} `{Tessera} `{JsonLib} `{KeyLib} `{!DriverLib}.
Context (os_ReadFile : string → error + bytes).

Abbreviation serve_with := (serve_with os_ReadFile).

(** A startup that succeeds. *)
Lemma serve_with_Ok signer newDriver gcp f w su w' :
  serve_with signer newDriver gcp f w = (Ok su, w') →
  ∃ sv pub opts id logID st sd reg lvl,
    signer = Ok sv ∧ signer_PublicKey (as_Signer sv) = inr pub ∧
    NewAppendOptions (hostname f) (as_Signer sv) = Ok opts ∧
    KeyHash (hostname f) pub = Ok (id, logID) ∧
    start_storage os_ReadFile newDriver f opts w = (Ok (st, sd), w') ∧
    AlgorithmRegistry (Some (client_signing_algorithms f)) = Ok reg ∧
    su = {| su_http := http_config f gcp; su_grpc := grpc_config f lvl; su_timeout := tlog_timeout f;
            su_server := NewServer st (read_only f) (Some reg) logID; su_shutdown := sd |}.
Proof.
  unfold Cmd.serve_with. intros Hs.
  apply io_bind_Ok in Hs as (lvl & w1 & [_ ->]%pure_Ok & Hs).
  apply io_bind_Ok in Hs as (sv & w1 & [Hsv ->]%pure_Ok & Hs).
  apply io_bind_Ok in Hs as (pub & w1 & [Hpub%or_exit_Ok%lift_Ok ->]%pure_Ok & Hs).
  apply io_bind_Ok in Hs as (der & w1 & [_ ->]%pure_Ok & Hs).
  apply io_bind_Ok in Hs as (opts & w1 & [Hopts%or_exit_Ok ->]%pure_Ok & Hs).
  apply io_bind_Ok in Hs as (pub' & w1 & [Hpub'%or_exit_Ok%lift_Ok ->]%pure_Ok & Hs).
  rewrite Hpub in Hpub'. injection Hpub' as <-.
  apply io_bind_Ok in Hs as ([id logID] & w1 & [Hid%or_exit_Ok ->]%pure_Ok & Hs).
  apply io_bind_Ok in Hs as ([st sd] & w1 & Hst & Hs).
  apply io_bind_Ok in Hs as (reg & w2 & [Hreg%or_exit_Ok ->]%pure_Ok & Hs).
  injection Hs as <- <-. by exists sv, pub, opts, id, logID, st, sd, reg, lvl.
Qed.

(** The options of [NewAppendOptions] name the note signer of the log's key. *)
Lemma NewAppendOptions_signer `{!CheckpointSigning} origin signer opts :
  NewAppendOptions origin signer = Ok opts → ∃ ns, NewNoteSigner origin signer = Ok ns ∧ checkpoint_signer opts ns.
Proof.
  unfold NewAppendOptions. intros (ns & Hns%wrap_Ok & Ho)%bind_Ok. injection Ho as <-.
  exists ns. split; [done|apply signer_set].
Qed.

(** None of the options that follow replaces the signer. *)
Lemma append_options_signer `{!CheckpointSigning} f opts anti opts' ns :
  append_options os_ReadFile f opts anti = Ok opts' → checkpoint_signer opts ns → checkpoint_signer opts' ns.
Proof.
  unfold append_options, WithLifecycleOptions, WithAntispamOptions. intros Ho Hs.
  assert (Hpre : checkpoint_signer (WithAntispam (WithPushback (WithCheckpointInterval
    (WithBatching opts (batch_max_size f) (batch_max_age f)) (checkpoint_interval f)) (pushback_max_outstanding f))
    inMemoryLRUSize anti) ns).
  { by apply signer_WithAntispam, signer_WithPushback, signer_WithCheckpointInterval, signer_WithBatching. }
  destruct (negb _); [|by injection Ho as <-].
  apply bind_Ok in Ho as (policy & _ & Ho%or_exit_Ok). unfold WithWitnessing in Ho.
  apply bind_Ok in Ho as (g & _ & Ho). injection Ho as <-. by apply signer_WithWitnesses.
Qed.

(** The storage a command starts: none in read-only mode, else one on an appender with options
    that keep the signer. *)
Lemma start_storage_Ok `{!CheckpointSigning} newDriver f opts w st sd w' :
  start_storage os_ReadFile newDriver f opts w = (Ok (st, sd), w') →
  read_only f = true ∧ st = None ∨
  read_only f = false ∧ ∃ s driver opts', st = Some (storage_impl s) ∧
    (∀ ns, checkpoint_signer opts ns → checkpoint_signer opts' ns) ∧
    NewStorage (hostname f) driver opts' w = (Ok (s, sd), w').
Proof.
  unfold start_storage. destruct (read_only f); intros Hst; [left; by injection Hst as <- <-|right; split; [done|]].
  apply io_bind_Ok in Hst as ([driver anti] & w1 & [_ ->]%pure_Ok & Hst).
  apply io_bind_Ok in Hst as (opts' & w1 & [Hopts ->]%pure_Ok & Hst).
  apply io_bind_Ok in Hst as ([s sd'] & w2 & Hnew & Hst). injection Hst as <- <- <-.
  unfold io_exit in Hnew. destruct (NewStorage (hostname f) driver opts' w) as [x w3] eqn:Hns.
  assert (x = Ok (s, sd') ∧ w3 = w2) as [-> ->].
  { injection Hnew as Hx ->. by apply or_exit_Ok in Hx. }
  exists s, driver, opts'. split_and!; [done| |done].
  intros ns. by apply (append_options_signer f opts anti).
Qed.

(** A server that takes writes: its storage is on Tessera, every checkpoint that its storage awaits
    parses for a client with the key of the log, and its log ID belongs to that key. *)
Lemma started_storage_signed `{!CheckpointSigning} sv newDriver gcp f w su w' verifier nv
    (Hs : serve_with (Ok sv) newDriver gcp f w = (Ok su, w')) (Hro : read_only f = false)
    (Hnv : NewNoteVerifier (hostname f) verifier = Ok nv)
    (Hkey : signer_PublicKey (as_Signer sv) = verifier_PublicKey verifier)
    (Hmatch : ∀ msg sig, SignMessage (as_Signer sv) msg = inr sig → VerifySig verifier sig msg = inr tt) :
  ∃ s reg lid driver opts sd, su_server su = tessera_server s reg lid ∧
    NewStorage (hostname f) driver opts w = (Ok (s, sd), w') ∧
    (∀ f' w2 ix raw w3, Await (awaiter s) f' w2 = (inr (ix, raw), w3) →
       ∃ cp rest n, ParseCheckpoint raw (nv_name nv) nv [] = inr (cp, rest, n)) ∧
    ∃ pub pre, verifier_PublicKey verifier = inr pub ∧ id_preimage (hostname f) pub = Some pre ∧ lid = Sum256 pre.
Proof.
  apply serve_with_Ok in Hs as (sv' & pub & opts & id & lid & st & sd & reg & lvl & Hsv & Hpub & Hopts & Hid & Hst & _ & ->).
  injection Hsv as <-. cbn [su_server].
  apply start_storage_Ok in Hst as [[Hro' _]|(_ & s & driver & opts' & -> & Hpres & Hnew)]; [congruence|].
  pose proof Hnew as (app & rd & Happ & _ & _ & Haw)%NewStorage_Ok.
  destruct (NewAppendOptions_signer _ _ _ Hopts) as (ns & Hns & Hset).
  destruct (NewNote_match _ _ _ _ _ Hns Hnv Hkey Hmatch) as (_ & Hn1 & Hn2 & Hh & Hall).
  exists s, reg, lid, driver, opts', sd. rewrite Hro. split_and!; [done|done| |].
  - rewrite Haw. intros f' w2 ix raw w3 Hawait.
    eapply Await_signed; [exact Happ|apply Hpres, Hset| |exact Hawait]. split; [congruence|done|done].
  - destruct (KeyHash_Ok _ _ _ _ Hid) as (pre & Hpre & -> & ->). exists pub, pre. split_and!; [congruence|done|done].
Qed.

(** Whatever a started server returns as a success, a client of the log accepts. *)
Lemma started_log_verifiable `{!TesseraLaws} `{!LogFormatLaws} `{!CheckpointSigning}
    sv newDriver gcp f w su w' o1 o2 o3 req r tle r' verifier nv
    (Hs : serve_with (Ok sv) newDriver gcp f w = (Ok su, w'))
    (Hc : CreateEntry o1 o2 o3 (su_server su) req r = (Ok tle, r'))
    (Hnv : NewNoteVerifier (hostname f) verifier = Ok nv)
    (Hkey : signer_PublicKey (as_Signer sv) = verifier_PublicKey verifier)
    (Hmatch : ∀ msg sig, SignMessage (as_Signer sv) msg = inr sig → VerifySig verifier sig msg = inr tt) :
  VerifyLogEntry tle nv = Ok tt ∧
  ∃ pub pre, verifier_PublicKey verifier = inr pub ∧ id_preimage (hostname f) pub = Some pre ∧
    tle_LogId tle = Some (Sum256 pre).
Proof.
  destruct (read_only f) eqn:Hro.
  { apply serve_with_Ok in Hs as (? & ? & ? & ? & ? & ? & ? & ? & ? & _ & _ & _ & _ & _ & _ & ->). cbn [su_server] in Hc.
    rewrite Hro, CreateEntry_read_only in Hc. by injection Hc. }
  destruct (started_storage_signed _ _ _ _ _ _ _ _ _ Hs Hro Hnv Hkey Hmatch)
    as (s & reg & lid & _ & _ & _ & Hsrv & _ & Hsigned & pub & pre & Hpub & Hpre & ->). rewrite Hsrv in Hc. split.
  - by eapply CreateEntry_verifiable.
  - exists pub, pre. split_and!; [done..|]. by apply CreateEntry_Ok_inv in Hc as (e & c & body & t & w2 & _ & _ & -> & _).
Qed.

(** The server of a command is frozen or has a storage. *)
Lemma serve_with_server `{!CheckpointSigning} signer newDriver gcp f w su w' :
  serve_with signer newDriver gcp f w = (Ok su, w') →
  ∃ st reg id, su_server su = NewServer st (read_only f) (Some reg) id ∧ (read_only f = true ∨ is_Some st).
Proof.
  intros (sv & pub & opts & id & logID & st & sd & reg & lvl & _ & _ & _ & _ & Hst & _ & ->)%serve_with_Ok.
  exists st, reg, logID. split; [done|].
  apply start_storage_Ok in Hst as [[-> _]|(_ & s & ? & ? & -> & _)]; [by left|right; eauto].
Qed.

(** ** Theorems *)

(** In read-only mode no command touches the log: whatever the backend and its driver, the
    startup leaves the state of the log alone, starts no storage, has nothing to shut down, and
    the server it hands over is the frozen one. *)
Theorem serve_read_only signer newDriver gcp f w su w'
    (Hro : read_only f = true) (Hs : serve_with signer newDriver gcp f w = (Ok su, w')) :
  w' = w ∧ (∃ reg id, su_server su = NewServer None true (Some reg) id) ∧
  ∀ w1, su_shutdown su w1 = (inr tt, w1).
Proof.
  apply serve_with_Ok in Hs as (sv & pub & opts & id & logID & st & sd & reg & lvl & _ & _ & _ & _ & Hst & _ & ->).
  unfold start_storage in Hst. rewrite Hro in *. injection Hst as <- <- <-.
  split_and!; [done|by exists reg, logID|done].
Qed.

(** C29: the log ID the server puts into its answers identifies the key that signs the
    checkpoints: it is the SHA-256 of the octets that identify the key under the hostname, and
    its first four octets are the key ID of the note signer that the command configures Tessera
    with. *)
Theorem log_id_identifies_signer signer newDriver gcp f w su w'
    (Hs : serve_with signer newDriver gcp f w = (Ok su, w')) :
  ∃ sv pub ns pre, signer = Ok sv ∧ signer_PublicKey (as_Signer sv) = inr pub ∧
    id_preimage (hostname f) pub = Some pre ∧
    logID (su_server su) = Sum256 pre ∧
    NewAppendOptions (hostname f) (as_Signer sv) = Ok (WithCheckpointSigner tessera_NewAppendOptions ns) ∧
    ns_name ns = hostname f ∧ ns_hash ns = BigEndian_Uint32 (logID (su_server su)).
Proof.
  apply serve_with_Ok in Hs as (sv & pub & opts & id & lid & st & sd & reg & lvl & Hsv & Hpub & Hopts & Hid & _ & _ & ->).
  destruct (KeyHash_Ok _ _ _ _ Hid) as (pre & Hpre & -> & ->).
  assert (logID (NewServer st (read_only f) (Some reg) (Sum256 pre)) = Sum256 pre) as Hlog by (by destruct (read_only f)).
  pose proof Hopts as Hopts'. unfold NewAppendOptions in Hopts'. apply bind_Ok in Hopts' as (ns & Hns%wrap_Ok & Ho).
  injection Ho as <-. exists sv, pub, ns, pre. cbn. rewrite Hlog. split_and!; try done.
  - unfold NewNoteSigner in Hns. apply bind_Ok in Hns as ([] & _ & Hns). apply bind_Ok in Hns as (pk & _ & Hns).
    apply bind_Ok in Hns as ([i full] & _ & Hns). by injection Hns as <-.
  - unfold NewNoteSigner in Hns. apply bind_Ok in Hns as ([] & _ & Hns).
    apply bind_Ok in Hns as (pk & Hpk%wrap_Ok%lift_Ok & Hns).
    apply bind_Ok in Hns as ([i full] & Hk & Hns). injection Hns as <-. cbn. congruence.
Qed.

End serve_lemmas.

(** What sigstore documents of its algorithm flags: parsing reads back what formatting writes. *)
Definition flags_round_trip `{SigstoreSignature} : Prop :=
  ∀ d flag, FormatSignatureAlgorithmFlag d = inr flag → ParseSignatureAlgorithmFlag flag = inr d.

(** C39: with the default flags a server accepts exactly the algorithms the program allows: when
    Initialize has set the defaults and AlgorithmRegistry accepts them, the default list of flags
    is sorted, and the registry is the one of sigstore for a permutation of
    AllowedClientSigningAlgorithms, given that sigstore reads back the names it writes. *)
Theorem default_flags_accept_allowed `{SigstoreSignature} `{TesseraDefaults} (Hrt : flags_round_trip) host f reg
    (Hi : Initialize host = Ok f)
    (Hreg : AlgorithmRegistry (Some (client_signing_algorithms f)) = Ok reg) :
  Sorted string_le (client_signing_algorithms f) ∧
  ∃ algs, algs ≡ₚ AllowedClientSigningAlgorithms ∧ NewAlgorithmRegistryConfig algs = inr reg.
Proof.
  unfold Initialize in Hi. apply bind_Ok in Hi as (flags & Hd & Hf). injection Hf as <-.
  cbn [client_signing_algorithms] in *.
  unfold defaultKeyAlgorithms in Hd. apply bind_Ok in Hd as (l & Hl%mapM_Ok & Hs). injection Hs as <-.
  split; [apply Sort_Sorted|]. apply AlgorithmRegistry_Ok in Hreg as (algs & Hnew & Hparse).
  exists algs. split; [|done].
  set (g := λ f, match ParseSignatureAlgorithmFlag f with inr a => a | inl _ => PKIX_ED25519 end).
  assert (Hg : ∀ fs ds, Forall2 (λ f a, ParseSignatureAlgorithmFlag f = inr a) fs ds → ds = g <$> fs).
  { induction 1 as [|f d fs ds Hf _ IH]; [done|]. cbn. rewrite IH. unfold g at 2. by rewrite Hf. }
  rewrite (Hg _ _ Hparse), (Hg l AllowedClientSigningAlgorithms).
  - apply fmap_Permutation, Sort_perm.
  - apply Forall2_flip. eapply Forall2_impl; [exact Hl|]. intros d fl Hfl%lift_Ok. by apply Hrt.
Qed.
