(* ===== verification/Deployment.v ===== *)
(** * A running server, from the command to the client

    A command starts a server, which runs as in [Lifetime]: calls arrive and
    interleave, others write to the log, signals come, the server stops.  What
    it answers in all this a client verifies offline, with nothing but the
    hostname and the public key of the log. *)
From S2P Require Import Prelude GoErrors GoStrings Sha256 SafeInt Proto External IO Threads Note TesseraLib VerifyEntry Storage AlgorithmRegistry HashedRekord Dsse Service History Concurrent Pool Gateway Config Serve Lifetime SignerVerifier Drivers Cmd.

Section answers.
Context `{X509} `{SigstoreSignature} `{!DsseLib} `{Merkle} `{LogFormat} `{Tessera} `{JsonLib}.

(** ** The checkpoint of an answer is one that was awaited *)

Definition carries (P : bytes → Prop) (tle : TransparencyLogEntry) : Prop :=
  ∃ ip raw, tle_InclusionProof tle = Some ip ∧ ip_Checkpoint ip = Some {| Envelope := raw |} ∧ P raw.

Section awaited.
Context (st : storage) (P : bytes → Prop).
Hypothesis Hawaited : ∀ f w ix raw w', Await (awaiter st) f w = (inr (ix, raw), w') → P raw.

Lemma storage_Add_carries entry : yields (carries P) (storage_Add_steps st entry).
Proof.
  apply (yields_bind (λ x, P x.2)).
  - apply yields_wrap. unfold addEntry_steps. apply yields_then. intros f.
    apply (yields_bind (λ x, P x.2)); [|by intros [ix raw] Hraw; apply yields_then].
    apply yields_wrap, yields_call. intros w [ix raw] w' Ha. by eapply Hawaited.
  - intros [[idx dup] raw] Hraw. destruct dup; [done|].
    apply (yields_bind (λ ip, ip_Checkpoint ip = Some {| Envelope := raw |})).
    + apply yields_wrap. unfold buildProof_steps.
      repeat (apply yields_then; intros ?). done.
    + intros ip Hip. by exists ip, raw.
Qed.

Lemma CreateEntry_carries o1 o2 o3 s req : yields (carries P) (CreateEntry_steps o1 o2 o3 s (storage_Add_steps st) req).
Proof.
  unfold CreateEntry_steps. destruct (readOnly s).
  { repeat (apply yields_then; intros ?). done. }
  apply yields_then. intros [[json kv] c].
  do 2 (apply yields_then; intros ?).
  apply (yields_bind (λ x, match x with inr tle => carries P tle | inl _ => True end));
    [apply yields_try, yields_zoom, storage_Add_carries|].
  intros [err|tle] Hadded.
  - unfold handle_add_error_steps. destruct (errors_Is err ErrPushback); [done|]. destruct (errors_Is err ContextCanceled); [done|].
    destruct (errors_As as_DuplicateError err); by apply yields_then.
  - repeat (apply yields_then; intros ?). exact Hadded.
Qed.

Lemma recovered_yields {W A} (R : A → Prop) (p : prog (rpc W) A) : yields R p → yields R (recovered_steps p).
Proof. induction p as [[a|e|]|B f k IH]; cbn; auto. Qed.

Lemma pool_carries `{!AppendOnly} reg id σ σ' :
  ss_calls σ = [] → rtc (pool_step st reg id) σ σ' → Forall (λ c, yields (carries P) (c_prog c)) (ss_calls σ').
Proof.
  intros Hnil Hr. assert (Forall (λ c, yields (carries P) (c_prog c)) (ss_calls σ)) as Hall by (rewrite Hnil; constructor).
  clear Hnil. induction Hr as [|σ σ1 σ2 Hs _ IH]; [done|]. apply IH. clear IH.
  destruct Hs as [σ σ1 Hp|o1 o2 o3 req w m cs|w w' m cs]; cbn [ss_calls] in *; [|apply Forall_app; split; [done|]|done].
  - destruct Hp as [i c c' w w' m m' cs Hi Ha]. cbn [ss_calls] in *. apply Forall_insert; [done|].
    pose proof (Forall_lookup_1 _ _ _ _ Hall Hi) as Hc. cbn in Hc. unfold advance in Ha.
    destruct (c_prog c) as [x|T f k]; [done|]. cbn in Hc. specialize (Hc (Build_rpc w (c_header c) m)).
    destruct (f _) as [b r]. by injection Ha as <- _ _.
  - constructor; [|constructor]. apply recovered_yields, CreateEntry_carries.
Qed.
End awaited.
End answers.

(** ** Theorem *)

Section deployment.
Context `{X509} `{SigstoreSignature} `{!DsseLib} `{LogFormat} `{Merkle} `{Tessera} `{JsonLib} `{KeyLib} `{!DriverLib}.
Context `{!TesseraLaws} `{!LogFormatLaws} `{!CheckpointSigning} `{!AppendOnly} `{!ForeignErrors}.

(** What a client holds who has the hostname and the public key of a log: a verifier for the key that
    the command was given. *)
Record client_key (f : server_flags) (sv : SignerVerifier) (verifier : sig_Verifier) (nv : noteVerifier) : Prop := {
  ck_verifier : NewNoteVerifier (hostname f) verifier = Ok nv;
  ck_key : signer_PublicKey (as_Signer sv) = verifier_PublicKey verifier;
  ck_signs : ∀ msg sig, SignMessage (as_Signer sv) msg = inr sig → VerifySig verifier sig msg = inr tt
}.

(** C3: everything a running server acknowledges can be verified: a command with write access starts a
    server on a storage.  From then on, whatever calls arrive, however the goroutines of calls and
    servers interleave, whatever other writers do and whenever signals come, every call that has
    been answered with an entry was answered truly: the body is the canonical form of the request
    and is in the log at the index of the answer; VerifyLogEntry accepts the entry for a client
    with the hostname and the public key of the log; and the log ID in it is the SHA-256 of the
    octets that identify that key. *)
Theorem served_answers_verify os_ReadFile sv newDriver gcp f w su w' verifier nv
    (Hs : serve_with os_ReadFile (Ok sv) newDriver gcp f w = (Ok su, w')) (Hro : read_only f = false)
    (Hck : client_key f sv verifier nv) :
  ∃ st reg lid, su_server su = tessera_server st reg lid ∧
  ∀ y0 y, sys_initial (su_http su) (su_grpc su) y0 → rtc (sys_step st reg lid) y0 y →
    grew (ss_log (sy_server y0)) (ss_log (sy_server y)) ∧
    ∀ c tle, c ∈ ss_calls (sy_server y) → c_prog c = Return (Ok tle) →
      answered (su_server su) (c_req c) (Ok tle) (Build_rpc (ss_log (sy_server y)) (c_header c) (ss_metrics (sy_server y))) ∧
      VerifyLogEntry tle nv = Ok tt ∧
      ∃ pub pre, verifier_PublicKey verifier = inr pub ∧ id_preimage (hostname f) pub = Some pre ∧ tle_LogId tle = Some (Sum256 pre).
Proof.
  destruct Hck as [Hnv Hkey Hsig].
  destruct (started_storage_signed _ _ _ _ _ _ _ _ _ _ Hs Hro Hnv Hkey Hsig)
    as (st & reg & lid & driver & opts & sd & Hsrv & Hnew & Hsigned & pub & pre & Hpub & Hpre & Hlid).
  exists st, reg, lid. split; [done|]. intros y0 y Hinit Hreach.
  destruct (sys_reachable _ _ _ _ _ _ _ Hinit Hreach) as (_ & _ & Hp). destruct Hinit as (_ & _ & Hnil).
  pose proof (pool_reachable_inv st reg lid _ _ (NewStorage_on_tessera _ _ _ _ _ _ _ Hnew) Hnil Hp) as Hpool.
  split; [by destruct Hpool|]. intros c tle Hc Hx.
  destruct (inv_calls _ _ _ _ _ Hpool c Hc) as [Hrg _]. rewrite Hx in Hrg. destruct (Hrg _ ltac:(done)) as [_ Hans].
  rewrite Hsrv. split; [exact Hans|].
  pose proof (proj1 (Forall_forall _ _) (pool_carries st _ Hsigned reg lid _ _ Hnil Hp) c Hc) as Hcar.
  cbn in Hcar. rewrite Hx in Hcar. destruct Hcar as (ip' & raw & Hip & Hraw & cp' & rest & n & Hparse).
  destruct Hans as (o1 & o2 & o3 & e & cn & body & ip & cp & _ & Hsc & _ & Hid & _).
  assert (ip' = ip) as -> by (destruct Hsc; congruence). split.
  - eapply (self_contained_verifies body tle ip cp); [done|]. by rewrite Hraw.
  - exists pub, pre. split_and!; [done..|]. rewrite Hid. by rewrite <- Hlid.
Qed.
End deployment.
