(* ===== verification/Flags.v ===== *)
(** * Flags of the commands: registration and reading

    Every command registers its flags with pflag, binds them to viper and reads
    them back by name with a typed getter.  pflag panics when a name is defined
    twice; viper converts the value of a flag to the type of the getter, and
    gives the zero value for a name it does not know, so that a misspelt name
    or a wrong getter would go unnoticed. *)
From S2P Require Import Prelude GoErrors GoStrings Proto External IO Note TesseraLib VerifyEntry Storage AlgorithmRegistry HashedRekord Dsse Service Config SignerVerifier Drivers Cmd Freeze.

(** ** pflag *)

Inductive flag_value :=
  | FBool (b : bool) | FInt (n : Z) | FUint (n : Z) | FUint32 (n : Z) | FString (s : string)
  | FDuration (ns : Z) | FStringSlice (l : list string).

Inductive flag_type := TBool | TInt | TUint | TUint32 | TString | TDuration | TStringSlice.

Definition flag_type_of (v : flag_value) : flag_type :=
  match v with
  | FBool _ => TBool | FInt _ => TInt | FUint _ => TUint | FUint32 _ => TUint32 | FString _ => TString
  | FDuration _ => TDuration | FStringSlice _ => TStringSlice
  end.

(** The values that viper gives back.  It takes them from the text of the flag:
    a number goes through int, so that a uint above MaxInt64, which pflag
    accepts, does not survive; a list is written and read again as one CSV
    record, in which a single empty string is nothing and a carriage return may
    be lost. *)
Definition flag_range (v : flag_value) : Prop :=
  match v with
  | FInt n | FDuration n => is_int64 n
  | FUint n => 0 ≤ n ≤ MaxInt64
  | FUint32 n => 0 ≤ n < 2 ^ 32
  | FStringSlice l => l ≠ [""] ∧ Forall (λ s, Contains s (String "013" "") = false) l
  | FBool _ | FString _ => True
  end.

(** The flags of a command in the order of definition, with their values. *)
Definition FlagSet : Type := list (string * flag_value).

Definition lookup_flag (name : string) (fs : FlagSet) : option flag_value :=
  snd <$> List.find (λ kv, bool_decide (kv.1 = name)) fs.

(** [AddFlag] panics on a name that is already defined. *)
Definition add_flag (fs : FlagSet) (name : string) (v : flag_value) : result FlagSet :=
  match lookup_flag name fs with Some _ => Panic | None => Ok (fs ++ [(name, v)]) end.

(** Parsing a command line sets values and keeps names and types. *)
Definition parsed_from (fs env : FlagSet) : Prop :=
  (λ kv, (kv.1, flag_type_of kv.2)) <$> env = (λ kv, (kv.1, flag_type_of kv.2)) <$> fs.

(** ** internal/cli/flags.go *)

Section flags.
Context `{SigstoreSignature} `{TesseraDefaults}.

Definition cli_Initialize (os_Hostname : error + string) (fs : FlagSet) : result FlagSet :=
  fs ← add_flag fs "read-only" (FBool false);
  fs ← add_flag fs "http-port" (FInt 3000);
  fs ← add_flag fs "http-address" (FString "127.0.0.1");
  fs ← add_flag fs "http-metrics-port" (FInt 2112);
  fs ← add_flag fs "grpc-port" (FInt 3001);
  fs ← add_flag fs "grpc-address" (FString "127.0.0.1");
  fs ← add_flag fs "server-timeout" (FDuration (20 * Second));
  fs ← add_flag fs "max-request-body-size" (FInt (4 * 1024 * 1024));
  fs ← add_flag fs "log-level" (FString "info");
  fs ← add_flag fs "request-response-logging" (FBool false);
  fs ← add_flag fs "grpc-tls-cert-file" (FString "");
  fs ← add_flag fs "grpc-tls-key-file" (FString "");
  fs ← add_flag fs "http-tls-cert-file" (FString "");
  fs ← add_flag fs "http-tls-key-file" (FString "");
  fs ← add_flag fs "hostname" (FString (match os_Hostname with inr h => h | inl _ => "localhost" end));
  fs ← add_flag fs "batch-max-size" (FUint DefaultBatchMaxSize);
  fs ← add_flag fs "batch-max-age" (FDuration DefaultBatchMaxAge);
  fs ← add_flag fs "checkpoint-interval" (FDuration DefaultCheckpointInterval);
  fs ← add_flag fs "pushback-max-outstanding" (FUint DefaultPushbackMaxOutstanding);
  fs ← add_flag fs "tlog-timeout" (FDuration (30 * Second));
  fs ← add_flag fs "persistent-antispam" (FBool false);
  fs ← add_flag fs "antispam-max-batch-size" (FUint 0);
  fs ← add_flag fs "antispam-pushback-threshold" (FUint 0);
  fs ← add_flag fs "witness-policy-path" (FString "");
  keyAlgorithmTypes ← defaultKeyAlgorithms;
  add_flag fs "client-signing-algorithms" (FStringSlice keyAlgorithmTypes).

(** ** The init functions of the commands

    [viper.BindPFlags] of flags that exist does not fail. *)

Definition gcp_init (os_Hostname : error + string) : result FlagSet :=
  fs ← cli_Initialize os_Hostname [];
  fs ← add_flag fs "gcp-bucket" (FString "");
  fs ← add_flag fs "gcp-spanner" (FString "");
  fs ← add_flag fs "signer-filepath" (FString "");
  fs ← add_flag fs "signer-password" (FString "");
  fs ← add_flag fs "signer-kmskey" (FString "");
  fs ← add_flag fs "signer-kmshash" (FString "sha256");
  fs ← add_flag fs "signer-tink-kek-uri" (FString "");
  fs ← add_flag fs "signer-tink-keyset-path" (FString "");
  fs ← add_flag fs "gcp-kms-retries" (FUint 0);
  add_flag fs "gcp-kms-timeout" (FUint32 0).

Definition cloudsql_init (os_Hostname : error + string) : result FlagSet :=
  fs ← cli_Initialize os_Hostname [];
  fs ← add_flag fs "gcp-cloudsql-dsn" (FString "");
  fs ← add_flag fs "gcp-bucket" (FString "");
  fs ← add_flag fs "signer-filepath" (FString "");
  fs ← add_flag fs "signer-password" (FString "");
  fs ← add_flag fs "signer-kmskey" (FString "");
  fs ← add_flag fs "signer-kmshash" (FString "sha256");
  fs ← add_flag fs "signer-tink-kek-uri" (FString "");
  fs ← add_flag fs "signer-tink-keyset-path" (FString "");
  fs ← add_flag fs "gcp-kms-retries" (FUint 0);
  add_flag fs "gcp-kms-timeout" (FUint32 0).

Definition aws_init (os_Hostname : error + string) : result FlagSet :=
  fs ← cli_Initialize os_Hostname [];
  fs ← add_flag fs "aws-bucket" (FString "");
  fs ← add_flag fs "aws-mysql-dsn" (FString "");
  fs ← add_flag fs "aws-max-open-conns" (FInt 0);
  fs ← add_flag fs "aws-max-idle-conns" (FInt 0);
  fs ← add_flag fs "signer-filepath" (FString "");
  fs ← add_flag fs "signer-password" (FString "");
  fs ← add_flag fs "signer-kmskey" (FString "");
  fs ← add_flag fs "signer-kmshash" (FString "sha256");
  fs ← add_flag fs "signer-tink-kek-uri" (FString "");
  add_flag fs "signer-tink-keyset-path" (FString "").

Definition posix_init (os_Hostname : error + string) : result FlagSet :=
  fs ← cli_Initialize os_Hostname [];
  fs ← add_flag fs "storage-dir" (FString "");
  fs ← add_flag fs "signer-filepath" (FString "");
  add_flag fs "signer-password" (FString "").
End flags.

(** The freeze command has no shared flags. *)
Definition freeze_init : result FlagSet :=
  fs ← add_flag [] "gcp-bucket" (FString "");
  fs ← add_flag fs "hostname" (FString "");
  fs ← add_flag fs "signer-filepath" (FString "");
  fs ← add_flag fs "signer-password" (FString "");
  fs ← add_flag fs "signer-kmskey" (FString "");
  fs ← add_flag fs "signer-kmshash" (FString "sha256");
  fs ← add_flag fs "signer-tink-kek-uri" (FString "");
  fs ← add_flag fs "signer-tink-keyset-path" (FString "");
  fs ← add_flag fs "gcp-kms-retries" (FUint 0);
  add_flag fs "gcp-kms-timeout" (FUint32 0).

(** ** viper *)

(** Conversions between the types of flags and getters (package cast). *)
Class ViperLib := {
  cast_Bool : flag_value → bool;
  cast_Int : flag_value → Z;
  cast_Uint : flag_value → Z;
  cast_Uint32 : flag_value → Z;
  cast_String : flag_value → string;
  cast_Duration : flag_value → Z;
  cast_StringSlice : flag_value → list string
}.

(** A flag that is read with the getter of its type gives its value, if viper
    can represent it. *)
Class ViperLaws `{ViperLib} : Prop := {
  cast_Bool_id : ∀ b, cast_Bool (FBool b) = b;
  cast_Int_id : ∀ n, flag_range (FInt n) → cast_Int (FInt n) = n;
  cast_Uint_id : ∀ n, flag_range (FUint n) → cast_Uint (FUint n) = n;
  cast_Uint32_id : ∀ n, flag_range (FUint32 n) → cast_Uint32 (FUint32 n) = n;
  cast_String_id : ∀ s, cast_String (FString s) = s;
  cast_Duration_id : ∀ n, flag_range (FDuration n) → cast_Duration (FDuration n) = n;
  cast_StringSlice_id : ∀ l, flag_range (FStringSlice l) → cast_StringSlice (FStringSlice l) = l
}.

Section viper.
Context `{ViperLib} (env : FlagSet).

Definition viper_get {A} (zero : A) (cast : flag_value → A) (name : string) : A :=
  match lookup_flag name env with Some v => cast v | None => zero end.

Definition GetBool : string → bool := viper_get false cast_Bool.
Definition GetInt : string → Z := viper_get 0 cast_Int.
Definition GetUint : string → Z := viper_get 0 cast_Uint.
Definition GetUint32 : string → Z := viper_get 0 cast_Uint32.
Definition GetString : string → string := viper_get "" cast_String.
Definition GetDuration : string → Z := viper_get 0 cast_Duration.
Definition GetStringSlice : string → list string := viper_get [] cast_StringSlice.

(** ** What the commands read

    The flags do not change after parsing, so a command that reads each flag
    where it uses it reads the same values as here, where they are read into
    one record. *)

Definition read_server_flags : server_flags := {|
  read_only := GetBool "read-only";
  http_port := GetInt "http-port";
  http_address := GetString "http-address";
  http_metrics_port := GetInt "http-metrics-port";
  grpc_port := GetInt "grpc-port";
  grpc_address := GetString "grpc-address";
  server_timeout := GetDuration "server-timeout";
  max_request_body_size := GetInt "max-request-body-size";
  log_level := GetString "log-level";
  request_response_logging := GetBool "request-response-logging";
  grpc_tls_cert_file := GetString "grpc-tls-cert-file";
  grpc_tls_key_file := GetString "grpc-tls-key-file";
  http_tls_cert_file := GetString "http-tls-cert-file";
  http_tls_key_file := GetString "http-tls-key-file";
  Cmd.hostname := GetString "hostname";
  batch_max_size := GetUint "batch-max-size";
  batch_max_age := GetDuration "batch-max-age";
  checkpoint_interval := GetDuration "checkpoint-interval";
  pushback_max_outstanding := GetUint "pushback-max-outstanding";
  tlog_timeout := GetDuration "tlog-timeout";
  persistent_antispam := GetBool "persistent-antispam";
  antispam_max_batch_size := GetUint "antispam-max-batch-size";
  antispam_pushback_threshold := GetUint "antispam-pushback-threshold";
  witness_policy_path := GetString "witness-policy-path";
  client_signing_algorithms := GetStringSlice "client-signing-algorithms" |}.

(** [time.Duration(viper.GetUint32("gcp-kms-timeout")) * time.Second] *)
Definition kms_timeout : Z := to_int64 (to_int64 (GetUint32 "gcp-kms-timeout") * Second).

Section commands.
Context `{KeyLib}.

(** The option with a retrying interceptor, from the retries and the timeout of each. *)
Variable retry_option : Z → Z → RPCOption.

Definition read_gcp_signer : signer_flags := {|
  f_signer_filepath := GetString "signer-filepath";
  f_signer_password := GetString "signer-password";
  f_signer_kmskey := GetString "signer-kmskey";
  f_signer_kmshash := GetString "signer-kmshash";
  f_signer_tink_kek_uri := GetString "signer-tink-kek-uri";
  f_signer_tink_keyset_path := GetString "signer-tink-keyset-path";
  f_kms_rpc := [retry_option (GetUint "gcp-kms-retries") kms_timeout] |}.

Definition read_aws_signer : signer_flags := {|
  f_signer_filepath := GetString "signer-filepath";
  f_signer_password := GetString "signer-password";
  f_signer_kmskey := GetString "signer-kmskey";
  f_signer_kmshash := GetString "signer-kmshash";
  f_signer_tink_kek_uri := GetString "signer-tink-kek-uri";
  f_signer_tink_keyset_path := GetString "signer-tink-keyset-path";
  f_kms_rpc := [] |}.

Definition read_freeze_flags : freeze_flags := {|
  gcp_bucket := GetString "gcp-bucket";
  Freeze.hostname := GetString "hostname";
  f_signer := read_gcp_signer |}.
End commands.
End viper.

(** ** The serve commands on their flags *)

Section run.
Context `{X509} `{SigstoreSignature} `{!DsseLib} `{LogFormat} `{Merkle} `{Tessera} `{JsonLib} `{KeyLib} `{!DriverLib} `{ViperLib}.
Context (os_ReadFile : string → error + bytes) (retry_option : Z → Z → RPCOption) (env : FlagSet).

Definition gcp_serveCmd : io World startup :=
  serve_gcp os_ReadFile (read_gcp_signer env retry_option) (GetString env "gcp-bucket") (GetString env "gcp-spanner") (read_server_flags env).

Definition cloudsql_serveCmd : io World startup :=
  serve_cloudsql os_ReadFile (read_gcp_signer env retry_option) (GetString env "gcp-cloudsql-dsn") (GetString env "gcp-bucket")
    (read_server_flags env).

Definition aws_serveCmd : io World startup :=
  serve_aws os_ReadFile (read_aws_signer env) (GetString env "aws-bucket") (GetString env "aws-mysql-dsn")
    (GetInt env "aws-max-open-conns") (GetInt env "aws-max-idle-conns") (read_server_flags env).

Definition posix_serveCmd : io World startup :=
  serve_posix os_ReadFile (GetString env "signer-filepath") (GetString env "signer-password") (GetString env "storage-dir")
    (read_server_flags env).
End run.

Definition freeze_rootCmd `{X509} `{KeyLib} `{LogFormat} `{GcsLib} `{ViperLib} (retry_option : Z → Z → RPCOption) (env : FlagSet)
    : string → Object → result freeze_outcome * Object :=
  freeze (read_freeze_flags env retry_option).

(** ** Flags as the values of a command

    The flags that would give a command these values. *)

Definition server_listing (f : server_flags) : FlagSet := [
  ("read-only", FBool (read_only f));
  ("http-port", FInt (http_port f));
  ("http-address", FString (http_address f));
  ("http-metrics-port", FInt (http_metrics_port f));
  ("grpc-port", FInt (grpc_port f));
  ("grpc-address", FString (grpc_address f));
  ("server-timeout", FDuration (server_timeout f));
  ("max-request-body-size", FInt (max_request_body_size f));
  ("log-level", FString (log_level f));
  ("request-response-logging", FBool (request_response_logging f));
  ("grpc-tls-cert-file", FString (grpc_tls_cert_file f));
  ("grpc-tls-key-file", FString (grpc_tls_key_file f));
  ("http-tls-cert-file", FString (http_tls_cert_file f));
  ("http-tls-key-file", FString (http_tls_key_file f));
  ("hostname", FString (Cmd.hostname f));
  ("batch-max-size", FUint (batch_max_size f));
  ("batch-max-age", FDuration (batch_max_age f));
  ("checkpoint-interval", FDuration (checkpoint_interval f));
  ("pushback-max-outstanding", FUint (pushback_max_outstanding f));
  ("tlog-timeout", FDuration (tlog_timeout f));
  ("persistent-antispam", FBool (persistent_antispam f));
  ("antispam-max-batch-size", FUint (antispam_max_batch_size f));
  ("antispam-pushback-threshold", FUint (antispam_pushback_threshold f));
  ("witness-policy-path", FString (witness_policy_path f));
  ("client-signing-algorithms", FStringSlice (client_signing_algorithms f))].

Definition signer_listing `{KeyLib} (s : signer_flags) : FlagSet := [
  ("signer-filepath", FString (f_signer_filepath s));
  ("signer-password", FString (f_signer_password s));
  ("signer-kmskey", FString (f_signer_kmskey s));
  ("signer-kmshash", FString (f_signer_kmshash s));
  ("signer-tink-kek-uri", FString (f_signer_tink_kek_uri s));
  ("signer-tink-keyset-path", FString (f_signer_tink_keyset_path s))].

Definition kms_listing (retries timeout : Z) : FlagSet :=
  [("gcp-kms-retries", FUint retries); ("gcp-kms-timeout", FUint32 timeout)].

(** ** Lemmas *)

Lemma lookup_flag_app name fs fs' :
  lookup_flag name (fs ++ fs') = match lookup_flag name fs with Some v => Some v | None => lookup_flag name fs' end.
Proof.
  unfold lookup_flag. induction fs as [|[k v] fs IH]; [done|]. cbn. by case_bool_decide.
Qed.

Lemma parsed_from_cons k v fs env :
  parsed_from ((k, v) :: fs) env → ∃ v' env', env = (k, v') :: env' ∧ flag_type_of v' = flag_type_of v ∧ parsed_from fs env'.
Proof. unfold parsed_from. destruct env as [|[k' v'] env']; cbn; [done|]. intros [= -> Ht Hp]. by exists v', env'. Qed.

Lemma parsed_from_nil env : parsed_from [] env → env = [].
Proof. by destruct env. Qed.

Lemma parsed_from_app fs fs' env :
  parsed_from (fs ++ fs') env → ∃ env1 env2, env = env1 ++ env2 ∧ parsed_from fs env1 ∧ parsed_from fs' env2.
Proof.
  revert env. induction fs as [|[k v] fs IH]; intros env Hp; [by exists [], env|].
  apply parsed_from_cons in Hp as (v' & env' & -> & Ht & (env1 & env2 & -> & Hp1 & Hp2)%IH).
  exists ((k, v') :: env1), env2. split_and!; [done| |done]. unfold parsed_from in *. cbn. by rewrite Ht, Hp1.
Qed.

(** Names of flags do not change by parsing. *)
Lemma parsed_lookup_None fs env name : parsed_from fs env → lookup_flag name fs = None → lookup_flag name env = None.
Proof.
  unfold lookup_flag. revert env. induction fs as [|[k v] fs IH]; intros env Hp; [by apply parsed_from_nil in Hp as ->|].
  apply parsed_from_cons in Hp as (v' & env' & -> & _ & Hp). cbn. case_bool_decide; [done|]. by apply IH.
Qed.

(** Split a parsed set of flags into its flags, each with the constructor of its type. *)
Ltac parse_flags :=
  repeat match goal with
  | Hp : parsed_from (_ :: _) _ |- _ =>
      apply parsed_from_cons in Hp as ([] & ? & -> & Ht & Hp); try discriminate Ht; clear Ht
  | Hp : parsed_from [] _ |- _ => apply parsed_from_nil in Hp as ->
  end.

(** Evaluate the lookups of a goal, and convert. *)
Ltac read_flags :=
  unfold GetBool, GetInt, GetUint, GetUint32, GetString, GetDuration, GetStringSlice, viper_get;
  repeat match goal with
  | |- context [lookup_flag ?k ?env] =>
      let x := eval vm_compute in (lookup_flag k env) in change (lookup_flag k env) with x; cbv iota
  end.

Section reading.
Context `{ViperLib} `{!ViperLaws}.

Lemma read_server_listing f env1 env2 :
  parsed_from (server_listing f) env1 → Forall (λ kv, flag_range kv.2) env1 →
  server_listing (read_server_flags (env1 ++ env2)) = env1.
Proof.
  intros Hp Hw. unfold server_listing in Hp. parse_flags.
  repeat match goal with Hw : Forall _ (_ :: _) |- _ => let h := fresh "Hr" in apply Forall_cons in Hw as [h Hw]; cbn [snd] in h end.
  unfold server_listing, read_server_flags.
  cbn [read_only http_port http_address http_metrics_port grpc_port grpc_address server_timeout max_request_body_size log_level
    request_response_logging grpc_tls_cert_file grpc_tls_key_file http_tls_cert_file http_tls_key_file Cmd.hostname batch_max_size
    batch_max_age checkpoint_interval pushback_max_outstanding tlog_timeout persistent_antispam antispam_max_batch_size
    antispam_pushback_threshold witness_policy_path client_signing_algorithms app].
  read_flags.
  by rewrite !cast_Bool_id, !cast_Int_id, !cast_Uint_id, !cast_String_id, !cast_Duration_id, !cast_StringSlice_id.
Qed.
End reading.

(** A name that is not a shared flag is looked up among the command's own. *)
Lemma get_own `{ViperLib} {A} f env1 env2 (zero : A) cast name :
  parsed_from (server_listing f) env1 → lookup_flag name (server_listing f) = None →
  viper_get (env1 ++ env2) zero cast name = viper_get env2 zero cast name.
Proof.
  intros Hp Hn. unfold viper_get. rewrite lookup_flag_app. by rewrite (parsed_lookup_None _ _ _ Hp Hn).
Qed.

(** The product of a uint32 and a second fits a duration. *)
Lemma kms_timeout_exact n : flag_range (FUint32 n) → to_int64 (to_int64 n * Second) = n * Second.
Proof.
  cbn. intros Hn. unfold Second. rewrite (to_int64_id n); [rewrite to_int64_id; [done|]|]; unfold is_int64, MaxInt64; lia.
Qed.

Lemma cli_Initialize_listing `{SigstoreSignature} `{TesseraDefaults} host f :
  Initialize host = Ok f → cli_Initialize host [] = Ok (server_listing f).
Proof.
  unfold Initialize. intros (algs & Hd & Hf)%bind_Ok. injection Hf as <-.
  unfold cli_Initialize. rewrite Hd. vm_compute. reflexivity.
Qed.

Section commands.
Context `{X509} `{SigstoreSignature} `{!DsseLib} `{LogFormat} `{Merkle} `{Tessera} `{JsonLib} `{KeyLib} `{!DriverLib}.
Context `{TesseraDefaults} `{GcsLib} `{ViperLib} `{!ViperLaws}.
Context (os_ReadFile : string → error + bytes) (retry_option : Z → Z → RPCOption).

(** Read the command's own flags, given that its shared ones are [env1]. *)
Ltac read_own :=
  unfold GetBool, GetInt, GetUint, GetUint32, GetString, GetDuration, GetStringSlice;
  repeat (erewrite get_own by first [eassumption|vm_compute; reflexivity]);
  read_flags;
  rewrite ?cast_String_id, ?cast_Int_id, ?cast_Uint_id, ?cast_Uint32_id by assumption.

Ltac flag_ranges :=
  repeat match goal with Hw : Forall _ (_ :: _) |- _ => let h := fresh "Hr" in apply Forall_cons in Hw as [h Hw]; cbn [snd] in h end.

Lemma gcp_flags host f :
  Initialize host = Ok f → ∃ fs, gcp_init host = Ok fs ∧
  (∀ env, parsed_from fs env → Forall (λ kv, flag_range kv.2) env →
    env = server_listing (read_server_flags env) ++
          [("gcp-bucket", FString (GetString env "gcp-bucket")); ("gcp-spanner", FString (GetString env "gcp-spanner"))] ++
          signer_listing (read_gcp_signer env retry_option) ++
          kms_listing (GetUint env "gcp-kms-retries") (GetUint32 env "gcp-kms-timeout") ∧
    flag_range (FUint32 (GetUint32 env "gcp-kms-timeout"))).
Proof.
  intros Hf. eexists. split; [unfold gcp_init; rewrite (cli_Initialize_listing _ _ Hf); reflexivity|].
  rewrite <-!app_assoc. cbn [app]. intros env (env1 & env2 & -> & Hp1 & Hp)%parsed_from_app [Hw1 Hw]%Forall_app.
  parse_flags. flag_ranges.
  rewrite (read_server_listing f) by done. unfold signer_listing, kms_listing, read_gcp_signer.
  cbn [f_signer_filepath f_signer_password f_signer_kmskey f_signer_kmshash f_signer_tink_kek_uri f_signer_tink_keyset_path].
  read_own. done.
Qed.

Lemma cloudsql_flags host f :
  Initialize host = Ok f → ∃ fs, cloudsql_init host = Ok fs ∧
  (∀ env, parsed_from fs env → Forall (λ kv, flag_range kv.2) env →
    env = server_listing (read_server_flags env) ++
          [("gcp-cloudsql-dsn", FString (GetString env "gcp-cloudsql-dsn")); ("gcp-bucket", FString (GetString env "gcp-bucket"))] ++
          signer_listing (read_gcp_signer env retry_option) ++
          kms_listing (GetUint env "gcp-kms-retries") (GetUint32 env "gcp-kms-timeout") ∧
    flag_range (FUint32 (GetUint32 env "gcp-kms-timeout"))).
Proof.
  intros Hf. eexists. split; [unfold cloudsql_init; rewrite (cli_Initialize_listing _ _ Hf); reflexivity|].
  rewrite <-!app_assoc. cbn [app]. intros env (env1 & env2 & -> & Hp1 & Hp)%parsed_from_app [Hw1 Hw]%Forall_app.
  parse_flags. flag_ranges.
  rewrite (read_server_listing f) by done. unfold signer_listing, kms_listing, read_gcp_signer.
  cbn [f_signer_filepath f_signer_password f_signer_kmskey f_signer_kmshash f_signer_tink_kek_uri f_signer_tink_keyset_path].
  read_own. done.
Qed.

Lemma aws_flags host f :
  Initialize host = Ok f → ∃ fs, aws_init host = Ok fs ∧
  (∀ env, parsed_from fs env → Forall (λ kv, flag_range kv.2) env →
    env = server_listing (read_server_flags env) ++
          [("aws-bucket", FString (GetString env "aws-bucket")); ("aws-mysql-dsn", FString (GetString env "aws-mysql-dsn"));
           ("aws-max-open-conns", FInt (GetInt env "aws-max-open-conns")); ("aws-max-idle-conns", FInt (GetInt env "aws-max-idle-conns"))] ++
          signer_listing (read_aws_signer env)).
Proof.
  intros Hf. eexists. split; [unfold aws_init; rewrite (cli_Initialize_listing _ _ Hf); reflexivity|].
  rewrite <-!app_assoc. cbn [app]. intros env (env1 & env2 & -> & Hp1 & Hp)%parsed_from_app [Hw1 Hw]%Forall_app.
  parse_flags. flag_ranges.
  rewrite (read_server_listing f) by done. unfold signer_listing, read_aws_signer.
  cbn [f_signer_filepath f_signer_password f_signer_kmskey f_signer_kmshash f_signer_tink_kek_uri f_signer_tink_keyset_path].
  read_own. done.
Qed.

Lemma posix_flags host f :
  Initialize host = Ok f → ∃ fs, posix_init host = Ok fs ∧
  (∀ env, parsed_from fs env → Forall (λ kv, flag_range kv.2) env →
    env = server_listing (read_server_flags env) ++
          [("storage-dir", FString (GetString env "storage-dir")); ("signer-filepath", FString (GetString env "signer-filepath"));
           ("signer-password", FString (GetString env "signer-password"))]).
Proof.
  intros Hf. eexists. split; [unfold posix_init; rewrite (cli_Initialize_listing _ _ Hf); reflexivity|].
  rewrite <-!app_assoc. cbn [app]. intros env (env1 & env2 & -> & Hp1 & Hp)%parsed_from_app [Hw1 Hw]%Forall_app.
  parse_flags. flag_ranges. rewrite (read_server_listing f) by done. read_own. done.
Qed.

Lemma freeze_own_flags :
  ∃ fs, freeze_init = Ok fs ∧
  (∀ env, parsed_from fs env → Forall (λ kv, flag_range kv.2) env →
    let ff := read_freeze_flags env retry_option in
    env = [("gcp-bucket", FString (gcp_bucket ff)); ("hostname", FString (Freeze.hostname ff))] ++ signer_listing (f_signer ff) ++
          kms_listing (GetUint env "gcp-kms-retries") (GetUint32 env "gcp-kms-timeout") ∧
    flag_range (FUint32 (GetUint32 env "gcp-kms-timeout"))).
Proof.
  eexists. split; [reflexivity|]. cbn [app]. intros env Hp Hw. parse_flags. flag_ranges.
  unfold signer_listing, kms_listing, read_freeze_flags, read_gcp_signer.
  cbn [gcp_bucket Freeze.hostname f_signer f_signer_filepath f_signer_password f_signer_kmskey f_signer_kmshash f_signer_tink_kek_uri
    f_signer_tink_keyset_path].
  read_flags. rewrite ?cast_String_id, ?cast_Uint_id, ?cast_Uint32_id by assumption. done.
Qed.

(** The options of the KMS calls. *)
Lemma kms_rpc_exact env :
  flag_range (FUint32 (GetUint32 env "gcp-kms-timeout")) →
  f_kms_rpc (read_gcp_signer env retry_option) =
    [retry_option (GetUint env "gcp-kms-retries") (GetUint32 env "gcp-kms-timeout" * Second)].
Proof. intros Ht. cbn. unfold kms_timeout. by rewrite kms_timeout_exact. Qed.

(** ** Theorems *)

(** C16: every command reads its flags by the names and types it registered them with: its init
    function defines no flag twice, and whatever values in the range of viper a command line gives
    to the flags, the command runs with exactly those, each in its place.  The range leaves out
    uint values above MaxInt64, which pflag accepts and viper reads through int, and of the lists
    the one of a single empty string and those with a carriage return.  The flags are listed from
    the record of values that the command runs with, and the list is the whole set of the flags it
    registered, so none is unregistered, read with another type or missing from the record; the
    timeout of a KMS call, in seconds, does not overflow. *)
Theorem commands_read_their_flags host f (Hf : Initialize host = Ok f) :
  (∃ fs, gcp_init host = Ok fs ∧ ∀ env, parsed_from fs env → Forall (λ kv, flag_range kv.2) env →
    ∃ bucket spanner s retries timeout f',
      gcp_serveCmd os_ReadFile retry_option env = serve_gcp os_ReadFile s bucket spanner f' ∧
      f_kms_rpc s = [retry_option retries (timeout * Second)] ∧
      env = server_listing f' ++ [("gcp-bucket", FString bucket); ("gcp-spanner", FString spanner)] ++ signer_listing s ++
            kms_listing retries timeout) ∧
  (∃ fs, cloudsql_init host = Ok fs ∧ ∀ env, parsed_from fs env → Forall (λ kv, flag_range kv.2) env →
    ∃ dsn bucket s retries timeout f',
      cloudsql_serveCmd os_ReadFile retry_option env = serve_cloudsql os_ReadFile s dsn bucket f' ∧
      f_kms_rpc s = [retry_option retries (timeout * Second)] ∧
      env = server_listing f' ++ [("gcp-cloudsql-dsn", FString dsn); ("gcp-bucket", FString bucket)] ++ signer_listing s ++
            kms_listing retries timeout) ∧
  (∃ fs, aws_init host = Ok fs ∧ ∀ env, parsed_from fs env → Forall (λ kv, flag_range kv.2) env →
    ∃ bucket dsn open idle s f',
      aws_serveCmd os_ReadFile env = serve_aws os_ReadFile s bucket dsn open idle f' ∧
      env = server_listing f' ++ [("aws-bucket", FString bucket); ("aws-mysql-dsn", FString dsn);
              ("aws-max-open-conns", FInt open); ("aws-max-idle-conns", FInt idle)] ++ signer_listing s) ∧
  (∃ fs, posix_init host = Ok fs ∧ ∀ env, parsed_from fs env → Forall (λ kv, flag_range kv.2) env →
    ∃ dir path pass f',
      posix_serveCmd os_ReadFile env = serve_posix os_ReadFile path pass dir f' ∧
      env = server_listing f' ++ [("storage-dir", FString dir); ("signer-filepath", FString path); ("signer-password", FString pass)]) ∧
  (∃ fs, freeze_init = Ok fs ∧ ∀ env, parsed_from fs env → Forall (λ kv, flag_range kv.2) env →
    ∃ ff retries timeout,
      freeze_rootCmd retry_option env = freeze ff ∧
      f_kms_rpc (f_signer ff) = [retry_option retries (timeout * Second)] ∧
      env = [("gcp-bucket", FString (gcp_bucket ff)); ("hostname", FString (Freeze.hostname ff))] ++ signer_listing (f_signer ff) ++
            kms_listing retries timeout).
Proof.
  split_and!.
  - destruct (gcp_flags host f Hf) as (fs & Hfs & He). exists fs. split; [done|]. intros env Hp Hw. destruct (He env Hp Hw) as [Henv Ht].
    eexists _, _, (read_gcp_signer env retry_option), _, (GetUint32 env "gcp-kms-timeout"), _.
    split_and!; [done|by apply kms_rpc_exact|exact Henv].
  - destruct (cloudsql_flags host f Hf) as (fs & Hfs & He). exists fs. split; [done|]. intros env Hp Hw. destruct (He env Hp Hw) as [Henv Ht].
    eexists _, _, (read_gcp_signer env retry_option), _, (GetUint32 env "gcp-kms-timeout"), _.
    split_and!; [done|by apply kms_rpc_exact|exact Henv].
  - destruct (aws_flags host f Hf) as (fs & Hfs & He). exists fs. split; [done|]. intros env Hp Hw.
    eexists _, _, _, _, (read_aws_signer env), _. split; [done|exact (He env Hp Hw)].
  - destruct (posix_flags host f Hf) as (fs & Hfs & He). exists fs. split; [done|]. intros env Hp Hw.
    eexists _, _, _, _. split; [done|exact (He env Hp Hw)].
  - destruct freeze_own_flags as (fs & Hfs & He). exists fs. split; [done|]. intros env Hp Hw. destruct (He env Hp Hw) as [Henv Ht].
    eexists (read_freeze_flags env retry_option), _, (GetUint32 env "gcp-kms-timeout").
    split_and!; [done|by apply kms_rpc_exact|exact Henv].
Qed.
End commands.
