(* ===== verification/Main.v ===== *)
(** * The programs: from main to a command

    Each program is a root command with its flags and subcommands, which the
    init functions of its package put together; [main] calls [Execute], and
    [Execute] hands the command line to cobra.  A serve command that gets as far
    as [server.Serve] leaves a running server. *)
From S2P Require Import Prelude GoErrors GoStrings GoPath Proto External IO Note TesseraLib VerifyEntry Storage AlgorithmRegistry HashedRekord Dsse Service Config SignerVerifier Drivers Cmd Freeze Flags.

(** ** Commands of cobra *)

(** A command that works on [W] and leaves an [R]. *)
Inductive Command (W R : Type) := MkCommand {
  Use : string;
  Short : string;
  Long : string;
  cmd_Flags : FlagSet;
  Run : option (FlagSet → io W R);
  Commands : list (Command W R)
}.
Arguments MkCommand {W R}.
Arguments Use {W R}.
Arguments Short {W R}.
Arguments Long {W R}.
Arguments cmd_Flags {W R}.
Arguments Run {W R}.
Arguments Commands {W R}.

(** The name of a command is the first word of its usage line. *)
Fixpoint first_word (s : string) : string :=
  match s with
  | String c s' => if bool_decide (c = " "%char) then "" else String c (first_word s')
  | "" => ""
  end.
Definition Name {W R} (c : Command W R) : string := first_word (Use c).

Definition AddCommand {W R} (parent c : Command W R) : Command W R :=
  MkCommand (Use parent) (Short parent) (Long parent) (cmd_Flags parent) (Run parent) (Commands parent ++ [c]).

(** A command line against the flags of a command, and what executing a command comes to. *)
Inductive parsed := Parsed (env : FlagSet) | HelpAsked | BadFlags (e : error).
Inductive executed (R : Type) := Ran (x : result R) | Helped | Refused (e : error).
Arguments Ran {R}.
Arguments Helped {R}.
Arguments Refused {R}.

Class CobraLib (W R : Type) := {
  ParseFlags : FlagSet → list string → parsed;
  cobra_Execute : Command W R → list string → W → executed R * W;
  (** the version command of release-utils *)
  version_Version : Command W R
}.

(** Words that cobra reads as commands of its own. *)
Definition reserved : list string := ["help"; "completion"; "__complete"; "__completeNoDesc"].

(** The flags of a command that was found are parsed, and the command runs with them. *)
Definition run_with {W R} `{CobraLib W R} (c : Command W R) (run : FlagSet → io W R) (args : list string) (w : W)
    : executed R * W :=
  match ParseFlags (cmd_Flags c) args with
  | Parsed env => let '(x, w') := run env w in (Ran x, w')
  | HelpAsked => (Helped, w)
  | BadFlags e => (Refused e, w)
  end.

(** What cobra documents: parsing sets values; a command without [Run] shows its help; a word that
    names a subcommand selects it, and another word is refused; a command without subcommands takes
    every line. *)
Class CobraLaws (W R : Type) `{CobraLib W R} : Prop := {
  Parsed_from : ∀ fs args env, ParseFlags fs args = Parsed env → parsed_from fs env;
  Execute_help : ∀ c w, Run c = None → Commands c ≠ [] → cobra_Execute c [] w = (Helped, w);
  Execute_child : ∀ c l1 sub l2 run args w,
    Commands c = l1 ++ sub :: l2 → Name sub ∉ (Name <$> l1 ++ l2) ++ reserved → HasPrefix (Name sub) "-" = false → Name sub ≠ "" →
    Commands sub = [] → Run sub = Some run → cobra_Execute c (Name sub :: args) w = run_with sub run args w;
  Execute_unknown : ∀ c word args w,
    Commands c ≠ [] → Run c = None → word ∉ (Name <$> Commands c) ++ reserved → HasPrefix word "-" = false → word ≠ "" →
    ∃ e, cobra_Execute c (word :: args) w = (Refused e, w);
  Execute_leaf : ∀ c run args w,
    Commands c = [] → Run c = Some run → (∀ word, head args = Some word → word ∉ reserved) →
    cobra_Execute c args w = run_with c run args w;
  Version_name : Name version_Version = "version"
}.

(** ** The functions Execute and main *)

(** How a process ends, or what it has become. *)
Inductive process_state (R : Type) := Exit (code : Z) | Done (r : R) | Crash.
Arguments Exit {R}.
Arguments Done {R}.
Arguments Crash {R}.

(** [os.Exit(1)] in a command, the value it leaves, or the crash of a panic. *)
Definition exit_of {R} (x : result R) : process_state R :=
  match x with Ok r => Done r | Err _ => Exit 1 | Panic => Crash end.

(** [if err := rootCmd.Execute(); err != nil { ...; os.Exit(1) }] *)
Definition Execute {W R} `{CobraLib W R} (rootCmd : Command W R) (args : list string) (w : W) : process_state R * W :=
  let '(x, w') := cobra_Execute rootCmd args w in
  (match x with Refused _ => Exit 1 | Helped => Exit 0 | Ran x => exit_of x end, w').

(** A program: the init functions run before [main]. *)
Definition start_program {W R} `{CobraLib W R} (init : result (Command W R)) (args : list string) (w : W) : process_state R * W :=
  match init with Ok rootCmd => Execute rootCmd args w | Err _ => (Exit 1, w) | Panic => (Crash, w) end.

(** ** The servers *)

Section servers.
Context `{X509} `{SigstoreSignature} `{!DsseLib} `{LogFormat} `{Merkle} `{Tessera} `{JsonLib} `{KeyLib} `{!DriverLib} `{ViperLib}.
Context `{TesseraDefaults} `{!CobraLib World startup}.
Context (os_Hostname : error + string) (os_ReadFile : string → error + bytes) (retry_option : Z → Z → RPCOption).

(** The serve command of a program, from its flags and its function. *)
Definition serveCmd (fs : FlagSet) (run : FlagSet → io World startup) : Command World startup :=
  MkCommand "serve" "start the Rekor server" "start the Rekor server" fs (Some run) [].

Definition line_break : string := String "010" (String "009" "").
Definition rootLong : string := "Rekor provides signature transparency for Sigstore's software" +:+ line_break.

Definition gcp_rootCmd : Command World startup :=
  MkCommand "rekor-server" "Rekor signature transparency log server (GCP)"
    (rootLong +:+ "signing infrastructure. Rekor stores log entries on GCP Cloud Storage") [] None [].
Definition aws_rootCmd : Command World startup :=
  MkCommand "rekor-server" "Rekor signature transparency log server (AWS)"
    (rootLong +:+ "signing infrastructure. Rekor stores log entries on AWS S3") [] None [].
Definition cloudsql_rootCmd : Command World startup :=
  MkCommand "rekor-server" "Rekor signature transparency log server (GCP Cloud SQL)"
    (rootLong +:+ "signing infrastructure. Rekor stores log entries on GCP Cloud Storage") [] None [].
Definition posix_rootCmd : Command World startup :=
  MkCommand "rekor-server" "Rekor signature transparency log server (POSIX)"
    (rootLong +:+ "signing infrastructure. Rekor stores log entries on a POSIX-compliant filesystem") [] None [].

(** The init function of serve.go, with the flags of [Flags], and then that of version.go. *)
Definition with_serve (rootCmd : Command World startup) (init : result FlagSet) (run : FlagSet → io World startup)
    : result (Command World startup) :=
  fs ← init;
  Ok (AddCommand rootCmd (serveCmd fs run)).
Definition with_version (rootCmd : Command World startup) : Command World startup := AddCommand rootCmd version_Version.

Definition gcp_app : result (Command World startup) :=
  root ← with_serve gcp_rootCmd (gcp_init os_Hostname) (gcp_serveCmd os_ReadFile retry_option);
  Ok (with_version root).
Definition aws_app : result (Command World startup) :=
  root ← with_serve aws_rootCmd (aws_init os_Hostname) (aws_serveCmd os_ReadFile);
  Ok (with_version root).
Definition cloudsql_app : result (Command World startup) :=
  root ← with_serve cloudsql_rootCmd (cloudsql_init os_Hostname) (cloudsql_serveCmd os_ReadFile retry_option);
  Ok (with_version root).
Definition posix_app : result (Command World startup) :=
  root ← with_serve posix_rootCmd (posix_init os_Hostname) (posix_serveCmd os_ReadFile);
  Ok (with_version root).

(** [func main() { app.Execute() }], after the init functions. *)
Definition gcp_main : list string → World → process_state startup * World := start_program gcp_app.
Definition aws_main : list string → World → process_state startup * World := start_program aws_app.
Definition cloudsql_main : list string → World → process_state startup * World := start_program cloudsql_app.
Definition posix_main : list string → World → process_state startup * World := start_program posix_app.

(** The four programs. *)
Inductive backend := GCP | AWS | CloudSQL | POSIX.

Definition main (b : backend) : list string → World → process_state startup * World :=
  match b with GCP => gcp_main | AWS => aws_main | CloudSQL => cloudsql_main | POSIX => posix_main end.

(** The flags and the serve function of a program. *)
Definition flags_of (b : backend) : result FlagSet :=
  match b with
  | GCP => gcp_init os_Hostname | AWS => aws_init os_Hostname
  | CloudSQL => cloudsql_init os_Hostname | POSIX => posix_init os_Hostname
  end.
Definition serve_of (b : backend) : FlagSet → io World startup :=
  match b with
  | GCP => gcp_serveCmd os_ReadFile retry_option | AWS => aws_serveCmd os_ReadFile
  | CloudSQL => cloudsql_serveCmd os_ReadFile retry_option | POSIX => posix_serveCmd os_ReadFile
  end.
End servers.

(** ** The freeze program *)

Definition freeze_app `{X509} `{KeyLib} `{LogFormat} `{GcsLib} `{ViperLib} (retry_option : Z → Z → RPCOption) (now : string)
    : result (Command Object freeze_outcome) :=
  fs ← freeze_init;
  Ok (MkCommand "freeze-checkpoint" "Freeze the log checkpoint"
        "Add an extension line to the final checkpoint to indicate to consumers that no more checkpoints are going to be published. Only supported for GCP."
        fs (Some (λ env, freeze_rootCmd retry_option env now)) []).

Definition freeze_main `{X509} `{KeyLib} `{LogFormat} `{GcsLib} `{ViperLib} `{!CobraLib Object freeze_outcome}
    (retry_option : Z → Z → RPCOption) (now : string) : list string → Object → process_state freeze_outcome * Object :=
  start_program (freeze_app retry_option now).

(** ** Lemmas *)

Section lemmas.
Context `{X509} `{SigstoreSignature} `{!DsseLib} `{LogFormat} `{Merkle} `{Tessera} `{JsonLib} `{KeyLib} `{!DriverLib} `{ViperLib}.
Context `{TesseraDefaults} `{!CobraLib World startup} `{!CobraLaws World startup}.
Context (os_Hostname : error + string) (os_ReadFile : string → error + bytes) (retry_option : Z → Z → RPCOption).

Abbreviation main := (main os_Hostname os_ReadFile retry_option).
Abbreviation serve_of := (serve_of os_ReadFile retry_option).

(** The flags of every program are registered without a clash. *)
Lemma flags_of_Ok b f : Initialize os_Hostname = Ok f → ∃ fs, flags_of os_Hostname b = Ok fs.
Proof.
  intros Hf. destruct b; cbn [flags_of]; eexists;
    [unfold gcp_init|unfold aws_init|unfold cloudsql_init|unfold posix_init];
    rewrite (cli_Initialize_listing _ _ Hf); reflexivity.
Qed.

(** The tree of every program: a root that does nothing, the serve command, the version command. *)
Lemma main_tree b fs :
  flags_of os_Hostname b = Ok fs →
  ∃ root, Run root = None ∧ Commands root = [serveCmd fs (serve_of b); version_Version] ∧ main b = Execute root.
Proof.
  intros Hfs. destruct b; cbn [flags_of] in Hfs.
  - exists (with_version (AddCommand gcp_rootCmd (serveCmd fs (serve_of GCP)))). split_and!; [done|done|].
    unfold Main.main, gcp_main, start_program, gcp_app, with_serve. by rewrite Hfs.
  - exists (with_version (AddCommand aws_rootCmd (serveCmd fs (serve_of AWS)))). split_and!; [done|done|].
    unfold Main.main, aws_main, start_program, aws_app, with_serve. by rewrite Hfs.
  - exists (with_version (AddCommand cloudsql_rootCmd (serveCmd fs (serve_of CloudSQL)))). split_and!; [done|done|].
    unfold Main.main, cloudsql_main, start_program, cloudsql_app, with_serve. by rewrite Hfs.
  - exists (with_version (AddCommand posix_rootCmd (serveCmd fs (serve_of POSIX)))). split_and!; [done|done|].
    unfold Main.main, posix_main, start_program, posix_app, with_serve. by rewrite Hfs.
Qed.

Lemma names_of_tree fs run : Name <$> [serveCmd fs run; version_Version] = ["serve"; "version"].
Proof. cbn [fmap list_fmap]. by rewrite Version_name. Qed.

(** The word serve selects the serve command. *)
Lemma main_serve b fs args w :
  flags_of os_Hostname b = Ok fs →
  main b ("serve" :: args) w =
  match ParseFlags fs args with
  | Parsed env => let '(x, w') := serve_of b env w in (exit_of x, w')
  | HelpAsked => (Exit 0, w)
  | BadFlags _ => (Exit 1, w)
  end.
Proof.
  intros (root & _ & Hc & ->)%main_tree. unfold Execute.
  change "serve" with (Name (serveCmd fs (serve_of b))) at 1.
  rewrite (Execute_child root [] (serveCmd fs (serve_of b)) [version_Version] (serve_of b) args w Hc);
    [|cbn [app fmap list_fmap]; rewrite Version_name; refine (bool_decide_eq_true_1 _ _); vm_compute; reflexivity|done..].
  unfold run_with. cbn [cmd_Flags serveCmd]. destruct (ParseFlags fs args) as [env| |e]; [|done..].
  by destruct (serve_of b env w).
Qed.

(** A step that has no effect, before one that leaves the state. *)
Lemma pure_bind_state {S A B} (r : result A) (f : A → io S B) s : (∀ a, (f a s).2 = s) → ((pure r ≫= f) s).2 = s.
Proof. intros Hf. unfold mbind, io_bind, io_bind_def, pure. by destruct r; cbn. Qed.

(** In read-only mode the startup does not touch the log, whatever its result. *)
Lemma serve_with_read_only signer newDriver gcp f w :
  read_only f = true → (serve_with os_ReadFile signer newDriver gcp f w).2 = w.
Proof.
  intros Hro. unfold serve_with, start_storage. rewrite Hro.
  do 6 (apply pure_bind_state; intros ?). apply pure_bind_state. intros [id logID].
  apply (pure_bind_state (Ok _)). intros [st sd]. by apply pure_bind_state.
Qed.

Lemma serve_of_read_only b env w :
  GetBool env "read-only" = true →
  (serve_of b env w).2 = w ∧
  ∀ su, (serve_of b env w).1 = Ok su → ∃ reg id, su_server su = NewServer None true (Some reg) id.
Proof.
  intros Hro. assert (Hf : read_only (read_server_flags env) = true) by done.
  destruct b; (split; [by apply serve_with_read_only|]); intros su;
    match goal with |- (Main.serve_of _ _ ?b env w).1 = _ → _ => destruct (serve_of b env w) as [x w'] eqn:Hs end; cbn [fst]; intros ->;
    by destruct (serve_read_only _ _ _ _ _ _ _ _ Hf Hs) as (_ & ? & _).
Qed.

(** ** Theorem *)

(** C30: what the command line of a server does, for each of the four programs.  Without arguments
    the program shows its help; an unknown command exits with status 1; neither touches the log.
    With serve, the flags that were registered are parsed from the rest of the line: a bad flag
    exits with status 1, a request for help with 0, and otherwise the serve function runs with the
    values that were parsed, to a running server, to status 1, or, should it panic, to a crash of the
    process.  With the read-only flag no line changes the log, and a server that runs is the frozen
    one. *)
Theorem main_serves b f (Hf : Initialize os_Hostname = Ok f) :
  ∃ fs, flags_of os_Hostname b = Ok fs ∧ ∀ w,
    main b [] w = (Exit 0, w) ∧
    (∀ word args, word ∉ ["serve"; "version"] ++ reserved → HasPrefix word "-" = false → word ≠ "" →
      main b (word :: args) w = (Exit 1, w)) ∧
    ∀ args, match ParseFlags fs args with
            | Parsed env =>
                parsed_from fs env ∧
                main b ("serve" :: args) w = (let '(x, w') := serve_of b env w in (exit_of x, w')) ∧
                (GetBool env "read-only" = true →
                  (main b ("serve" :: args) w).2 = w ∧
                  ∀ su, (main b ("serve" :: args) w).1 = Done su → ∃ reg id, su_server su = NewServer None true (Some reg) id)
            | HelpAsked => main b ("serve" :: args) w = (Exit 0, w)
            | BadFlags _ => main b ("serve" :: args) w = (Exit 1, w)
            end.
Proof.
  destruct (flags_of_Ok b f Hf) as [fs Hfs]. exists fs. split; [done|]. intros w. split_and!.
  - destruct (main_tree b fs Hfs) as (root & Hr & Hc & ->). unfold Execute. by rewrite Execute_help by (by rewrite ?Hc).
  - intros word args Hw Hp Hne. destruct (main_tree b fs Hfs) as (root & Hr & Hc & ->). unfold Execute.
    destruct (Execute_unknown root word args w) as [e ->]; [by rewrite Hc|done|by rewrite Hc, names_of_tree|done|done|done].
  - intros args. pose proof (main_serve b fs args w Hfs) as Hm. destruct (ParseFlags fs args) as [env| |e] eqn:Hp; [|done..].
    split_and!; [by eapply Parsed_from|done|]. intros Hro. destruct (serve_of_read_only b env w Hro) as [Hlog Hsu]. rewrite Hm.
    destruct (serve_of b env w) as [x w']. split; [done|]. cbn in *. intros su Hd. apply Hsu. by destruct x; cbn in Hd; simplify_eq.
Qed.
End lemmas.

(** The freeze program takes every command line that parses, and runs with the values of its flags. *)
Lemma freeze_main_runs `{X509} `{KeyLib} `{LogFormat} `{GcsLib} `{ViperLib} `{!CobraLib Object freeze_outcome}
    `{!CobraLaws Object freeze_outcome} retry_option now args o :
  (∀ word, head args = Some word → word ∉ reserved) →
  ∃ fs, freeze_init = Ok fs ∧
    freeze_main retry_option now args o =
    match ParseFlags fs args with
    | Parsed env => let '(x, o') := freeze (read_freeze_flags env retry_option) now o in (exit_of x, o')
    | HelpAsked => (Exit 0, o)
    | BadFlags _ => (Exit 1, o)
    end.
Proof.
  intros Hargs. assert (∃ fs, freeze_init = Ok fs) as [fs Hfs] by (eexists; reflexivity).
  exists fs. split; [done|]. unfold freeze_main, start_program, freeze_app, Execute.
  rewrite Hfs. cbn [mbind result_bind]. erewrite Execute_leaf by done. unfold run_with. cbn [cmd_Flags].
  destruct (ParseFlags _ args) as [env| |e]; [|done..]. unfold freeze_rootCmd. by destruct (freeze _ now o).
Qed.
