(* ===== verification/WritePath.v ===== *)
(** * A write from the client to the log and back

    The write client, the HTTP gateway, the gRPC server and the service
    composed: what a client's [Add] does is what the service's [CreateEntry]
    does on the request the client was given. *)
From S2P Require Import Prelude GoErrors GoStrings GoPath Sha256 Proto External IO Note TesseraLib VerifyEntry Storage AlgorithmRegistry HashedRekord Dsse Service Gateway RekorGrpc RekorGateway Config Servers SignerVerifier Drivers Cmd Client.

(** ** The pieces put together *)

Section compose.
Context `{X509} `{SigstoreSignature} `{!DsseLib} `{Tessera} `{JsonLib}.

(** The state of the server process between calls. *)
Definition process : Type := (World * counters)%type.

#[export] Instance process_call : CallState process (call_log World) := {|
  begin_call := λ p, Build_call_log (Build_rpc p.1 [] p.2) [];
  call_header := λ s, rpc_header (cl_rpc s);
  end_call := λ s, (rpc_log (cl_rpc s), rpc_metrics (cl_rpc s))
|}.

(** [*server.Server] as a [pb.RekorServer]. *)
Definition rekor_server (o1 o2 o3 : map_order) (s : Server) : RekorServer (call_log World) :=
  {| rs_CreateEntry := λ req, handle (CreateEntry o1 o2 o3 s req);
     rs_GetTile := λ _, pure (GetTile s);
     rs_GetEntryBundle := λ _, pure (GetEntryBundle s);
     rs_GetCheckpoint := λ _, pure (GetCheckpoint s) |}.

(** The interceptor chain of a gRPC server. *)
Definition server_interceptor `{TlsLib} (gs : grpc_server) : UnaryServerInterceptor (call_log World) :=
  λ _ req handler, chain (gs_interceptors gs) (handler req).
End compose.

(** ** What the JSON of the two sides has in common

    protojson reads back what it wrote: the gateway decodes the requests the
    client encodes, and the client decodes the entries the gateway encodes. *)
Class WriteJson `{HttpLib} `{GatewayRuntime} : Prop := {
  decode_marshal : ∀ r b, request_no_nil r → marshal_request r = inr b →
    ∃ r', decode_body T_CreateEntryRequest b = inr (msg_CreateEntryRequest r') ∧ same_content r r';
  unmarshal_encode : ∀ e b, entry_int64 e → encode_body (msg_TransparencyLogEntry e) = inr b → unmarshal_entry b = inr e
}.

(** The gateway's own error handler writes a status that is not 201. *)
Class GatewayLaws `{GatewayLib} : Prop := {
  Default_status : ∀ e w, w_status w = None →
    ∃ code, w_status (DefaultHTTPErrorHandler e w) = Some code ∧ code ≠ StatusCreated
}.

(** A response that nothing has been written to. *)
Definition fresh_response : gw := {| gw_w := {| w_Header := ∅; w_status := None; w_body := "" |}; gw_md := None |}.

Section path.
Context `{X509} `{SigstoreSignature} `{!DsseLib} `{Tessera} `{JsonLib} `{TlsLib}.
Context `{MuxLib} `{!RuntimeLaws} `{!MuxLaws} `{GatewayLib} `{!GatewayLaws} `{ProtoLib} `{!ProtoLaws} `{HttpLib} `{!WriteJson}.

(** The client's requests for a URL reach a mux: as long as the body is within
    the limit, the handler sees the method, the path of the URL and the body,
    and the client the status and the body that were written (200 if no status
    was).  [view] is the server process as part of the network. *)
Definition reaches (view : Net → process) (wc : writeClient) (u : URL) (mux : ServeMux process) (limit : Z) : Prop :=
  ∀ method header body n g p',
    len body ≤ limit →
    ServeHTTP mux {| sr_Method := method; sr_Path := url_Path u; sr_Body := body |} (fresh_response, view n) = (Ok tt, (g, p')) →
    ∃ n', Do (wc_transport wc) (wc_timeout wc)
            {| req_Method := method; req_URL := url_String u; req_Header := header; req_Body := body |} n
          = (inr {| resp_StatusCode := default 200 (w_status (gw_w g)); resp_Body := inr (w_body (gw_w g)) |}, n') ∧
          view n' = p'.

(** The request fits in every encoding, and so does an answer. *)
Definition request_encodes (limit maxRecv : Z) (r : CreateEntryRequest) : Prop :=
  request_no_nil r ∧
  (∃ b, marshal_request r = inr b ∧ len b ≤ limit) ∧
  ∀ r', same_content r r' → ∃ b, proto_Marshal (msg_CreateEntryRequest r') = inr b ∧ len b ≤ maxRecv.

Definition answer_encodes (e : TransparencyLogEntry) : Prop :=
  entry_int64 e ∧
  (∃ b, proto_Marshal (msg_TransparencyLogEntry e) = inr b ∧ len b ≤ defaultClientMaxReceiveMessageSize) ∧
  ∃ b, encode_body (msg_TransparencyLogEntry e) = inr b.

(** ** Lemmas *)

Lemma no_nil_content r r' : same_content r r' → request_no_nil r → request_no_nil r'.
Proof.
  unfold same_content, request_no_nil. destruct (Request_Spec r) as [[[hr|]|[ds|]]|], (Request_Spec r') as [[[hr'|]|[ds'|]]|];
    cbn; try discriminate; try done; [by intros [= ->]|].
  intros [= He Hv]. rewrite <-He. intros [Hsig Hver]. split; [done|].
  revert Hver. generalize dependent (ds_Verifiers ds'). induction (ds_Verifiers ds) as [|v vs IH]; intros [|v' vs'] Hv Hall;
    cbn in Hv; try discriminate; [constructor|]. injection Hv as Hv Hvs. apply Forall_cons in Hall as [Hall1 Hall2].
  constructor; [|by apply IH]. destruct v as [p|], v' as [p'|]; cbn in Hv; try done. injection Hv as Hv. by rewrite <-Hv.
Qed.

(** The service inside the interceptors. *)
Lemma intercepted_CreateEntry o1 o2 o3 s config gs r p :
  newGRPCServer config = Ok gs →
  server_interceptor gs Rekor_CreateEntry_FullMethodName (msg_CreateEntryRequest r)
    (served as_CreateEntryRequest (λ r, rs_CreateEntry (rekor_server o1 o2 o3 s) (Some r)) msg_TransparencyLogEntry)
    (begin_call p) =
  match CreateEntry o1 o2 o3 s (Some r) (Build_rpc p.1 [] p.2) with
  | (Ok tle, r') => (Ok (msg_TransparencyLogEntry tle), Build_call_log r' [Some OK; Some OK])
  | (Err e, r') => (Err e, Build_call_log r' [code_of (@Err message e); code_of (@Err message e)])
  | (Panic, r') =>
      (Err (StatusError Internal "internal server error"),
       Build_call_log (Build_rpc (rpc_log r') (rpc_header r') (Inc PanicsTotal (rpc_metrics r'))) [Some Internal; Some Internal])
  end.
Proof.
  intros Hgs. unfold server_interceptor. rewrite (chain_run config gs _ _ Hgs).
  unfold served, mbind, io_bind, io_bind_def, pure. cbn. unfold handle, zoom. cbn.
  by destruct (CreateEntry o1 o2 o3 s (Some r) (Build_rpc p.1 [] p.2)) as [[tle|e|] r'].
Qed.

(** The headers a call leaves behind ask for status 201 after a success, and for none or 405 otherwise. *)
Lemma CreateEntry_status_header o1 o2 o3 st ro reg id req w m x r' :
  ro = true ∨ is_Some st →
  CreateEntry o1 o2 o3 (NewServer st ro reg id) req (Build_rpc w [] m) = (x, r') →
  match x with
  | Ok _ => rpc_header r' = [(httpStatusCodeHeader, "201")]
  | Err _ => let v := Get (md_of (rpc_header r')) httpStatusCodeHeader in v = [] ∨ v = ["405"]
  | Panic => rpc_header r' = []
  end.
Proof.
  intros Hro Hc. destruct ro.
  { rewrite CreateEntry_read_only in Hc. injection Hc as <- <-. right. reflexivity. }
  destruct Hro as [|[st' ->]]; [done|]. destruct x as [tle|e|].
  - by apply CreateEntry_Ok_inv in Hc as (? & ? & ? & ? & ? & _ & _ & _ & ->).
  - apply CreateEntry_error_headers in Hc as [->|[v ->]]; left; reflexivity.
  - destruct (CreateEntry_cases _ _ _ (NewServer (Some st') false reg id) _ _ _ _ _ eq_refl eq_refl Hc)
      as [[-> _]|(e & c & body & Hb)]; [done|].
    rewrite (CreateEntry_valid _ _ _ (NewServer (Some st') false reg id) _ _ _ _ _ _ eq_refl eq_refl Hb) in Hc.
    destruct (Add st' _ _) as [[t|err|] w']; [discriminate| |by injection Hc as <-].
    pose proof (handle_add_error_result err (Build_rpc w' [] m)) as Hres. cbn in Hc. rewrite Hc in Hres. discriminate.
Qed.

(** An error becomes a response whose status is not 201. *)
Lemma error_response_status err w md :
  w_status w = None → (Get md httpStatusCodeHeader = [] ∨ Get md httpStatusCodeHeader = ["405"]) →
  ∃ g code, customHTTPErrorHandler err {| gw_w := w; gw_md := Some md |} = (Ok tt, g) ∧
    w_status (gw_w g) = Some code ∧ code ≠ StatusCreated.
Proof.
  intros Hw Hmd. unfold customHTTPErrorHandler, mbind, io_bind, io_bind_def, gets, try. cbn -[httpResponseModifier].
  destruct Hmd as [Hmd|Hmd]; rewrite Hmd.
  - destruct (Default_status err w Hw) as (code & Hcode & Hne). unfold modify, set_w. cbn. eauto.
  - rewrite httpResponseModifier_eq. cbn zeta. rewrite Hmd. cbn -[Get delete Write delete_grpc_headers]. rewrite Hw.
    destruct (Get (delete httpStatusCodeHeader md) httpErrorMessageHeader); cbn; by eexists _, 405.
Qed.

(** A reply with the headers of a success becomes a response with status 201 and its JSON. *)
Lemma success_response m body w :
  encode_body m = inr body → w_status w = None → w_body w = "" →
  ∃ g, ForwardResponseMessage proxy_options m {| gw_w := w; gw_md := Some (md_of [(httpStatusCodeHeader, "201")]) |} = (Ok tt, g) ∧
    w_status (gw_w g) = Some StatusCreated ∧ w_body (gw_w g) = body.
Proof.
  intros Hm Hw Hb.
  destruct (Forward_writes proxy_options m {| gw_w := w; gw_md := Some (md_of [(httpStatusCodeHeader, "201")]) |} body Hm) as [hdr ->].
  cbn [mo_forwardResponse proxy_options run_options foldr].
  unfold mbind, io_bind, io_bind_def. unfold set_w at 1. cbn [gw_w gw_md]. rewrite httpResponseModifier_eq.
  rewrite Hw, Hb. cbn -[Write delete_grpc_headers]. eexists. split; [done|]. by cbn.
Qed.

(** ** One call through the gateway *)

(** What a call of the service, inside the interceptors, leaves behind: a panic is counted. *)
Definition after_call {A} (x : result A * rpc World) : process :=
  (rpc_log x.2, match x.1 with Panic => Inc PanicsTotal (rpc_metrics x.2) | _ => rpc_metrics x.2 end).

(** The gateway's answer to a call that ran as [x]: the reply, or the status of the error, with
    the headers that the call set. *)
Definition gateway_answer (x : result TransparencyLogEntry * rpc World) : io (gw * process) unit := λ s,
  let g := {| gw_w := gw_w s.1; gw_md := Some (md_of (rpc_header x.2)) |} in
  match x.1 with
  | Ok tle => respond (ForwardResponseMessage proxy_options (msg_TransparencyLogEntry tle)) (g, after_call x)
  | Err e => respond (HTTPError proxy_options (status_of e)) (g, after_call x)
  | Panic => respond (HTTPError proxy_options (StatusError Internal "internal server error")) (g, after_call x)
  end.

(** A process that runs the service: the gRPC server with its interceptors, and the gateway's
    mux, which calls it over a connection. *)
Record deployed (o1 o2 o3 : map_order) (s : Server) (maxRecv : Z) (mux : ServeMux process) : Prop := {
  dep_parts : ∃ config gs cc healthz, newGRPCServer config = Ok gs ∧
    grpc_conn cc [(Rekor_ServiceDesc, rekor_server o1 o2 o3 s)] (server_interceptor gs) maxRecv ∧
    RegisterRekorHandler (NewServeMux healthz) cc = Ok mux ∧ maxRecv = gs_MaxRecvMsgSize gs;
  dep_annotate : ∀ req method path, AnnotateContext req method path = inr tt
}.

Lemma gateway_CreateEntry o1 o2 o3 s maxRecv mux body r p :
  deployed o1 o2 o3 s maxRecv mux →
  decode_body T_CreateEntryRequest body = inr (msg_CreateEntryRequest r) →
  request_fits maxRecv (msg_CreateEntryRequest r) →
  ∃ r', same_content r r' ∧
    let x := CreateEntry o1 o2 o3 s (Some r') (Build_rpc p.1 [] p.2) in
    (∀ tle, x.1 = Ok tle → answer_encodes tle) →
    ∀ w, ServeHTTP mux {| sr_Method := "POST"; sr_Path := addPath; sr_Body := body |} (w, p) = gateway_answer x (w, p).
Proof.
  intros [(config & gs & cc & healthz & Hgs & Hcc & Hmux & _) Hann] Hdec Hfits.
  destruct (CreateEntry_stub cc _ _ maxRecv p r Hcc Hfits) as (r' & Hsame & Hstub). exists r'. split; [done|].
  intros x Hx w. cbn zeta in Hstub.
  change addPath with ("/" +:+ join_slash ["api"; "v2"; "log"; "entries"]).
  erewrite (ServeHTTP_dispatch _ mux "POST" ["api"; "v2"; "log"; "entries"]); [|done| |by rewrite (dispatch_service (NewServeMux healthz) mux (NewRekorClient cc) _ _ Hmux)].
  2:{ refine (bool_decide_eq_true_1 _ _). vm_compute. reflexivity. }
  rewrite NewServeMux_options. unfold client_handler. change ("/" +:+ join_slash ["api"; "v2"; "log"; "entries"]) with addPath. rewrite Hann.
  unfold request_Rekor_CreateEntry_0, call_stub, decode_CreateEntryRequest. cbn [sr_Body fst snd]. rewrite Hdec.
  rewrite (intercepted_CreateEntry _ _ _ _ _ _ _ _ Hgs) in Hstub. fold x in Hstub. unfold gateway_answer.
  destruct (rc_CreateEntry (NewRekorClient cc) r p) as [[y md] p'].
  destruct x as [[tle|e|] r1] eqn:Hrun.
  - destruct (Hx tle eq_refl) as (Hint & Hm & _). destruct (Hstub (conj eq_refl (conj Hint Hm))) as (m' & Hm' & Hy).
    cbn in Hm'. subst m'. by destruct y; cbn in Hy; simplify_eq.
  - specialize (Hstub I). by destruct y; cbn in Hstub; simplify_eq.
  - specialize (Hstub I). by destruct y; cbn in Hstub; simplify_eq.
Qed.

(** *** What the client sees of it *)

(** The status and the body of the response show how the call ended. *)
Definition response_shows (x : result TransparencyLogEntry) (g : gw) : Prop :=
  match x with
  | Ok tle => w_status (gw_w g) = Some StatusCreated ∧ encode_body (msg_TransparencyLogEntry tle) = inr (w_body (gw_w g))
  | _ => ∃ code, w_status (gw_w g) = Some code ∧ code ≠ StatusCreated
  end.

Lemma gateway_answer_shows o1 o2 o3 st ro reg id req p x :
  ro = true ∨ is_Some st →
  CreateEntry o1 o2 o3 (NewServer st ro reg id) req (Build_rpc p.1 [] p.2) = x →
  (∀ tle, x.1 = Ok tle → answer_encodes tle) →
  ∃ g, gateway_answer x (fresh_response, p) = (Ok tt, (g, after_call x)) ∧ response_shows x.1 g.
Proof.
  intros Hro Hx Henc. destruct x as [x r'].
  pose proof (CreateEntry_status_header _ _ _ _ _ _ _ _ _ _ _ _ Hro Hx) as Hh. unfold gateway_answer, respond, zoom. cbn [fst snd].
  destruct x as [tle|e|]; cbn [fst snd] in *.
  - destruct (Henc tle eq_refl) as (_ & _ & body & Hbody). rewrite Hh.
    destruct (success_response _ body (gw_w fresh_response) Hbody eq_refl eq_refl) as (g & -> & Hg1 & Hg2).
    exists g. split; [done|]. split; [done|]. by rewrite Hg2.
  - destruct (error_response_status (status_of e) (gw_w fresh_response) (md_of (rpc_header r')) eq_refl Hh)
      as (g & code & Hg & Hst & Hne). unfold HTTPError. cbn [mo_errorHandler proxy_options]. rewrite Hg. exists g. split; [done|]. by exists code.
  - destruct (error_response_status (StatusError Internal "internal server error") (gw_w fresh_response) (md_of (rpc_header r')) eq_refl)
      as (g & code & Hg & Hst & Hne); [by rewrite Hh; left|].
    unfold HTTPError. cbn [mo_errorHandler proxy_options]. rewrite Hg. exists g. split; [done|]. by exists code.
Qed.

(** ** The write client *)

(** A client that writes to a deployed server: the base URL has no path, requests for it reach
    the mux, and the URL of the endpoint is one that [http.NewRequest] accepts. *)
Record connected (view : Net → process) (wc : writeClient) (mux : ServeMux process) (limit : Z) : Prop := {
  con_base : url_Path (wc_baseURL wc) = "" ∨ url_Path (wc_baseURL wc) = "/";
  con_check : check_request "POST" (url_String {| url_Path := addPath; url_rest := url_rest (wc_baseURL wc) |}) = inr tt;
  con_reaches : reaches view wc {| url_Path := addPath; url_rest := url_rest (wc_baseURL wc) |} mux limit
}.

(** The client's result, from the response. *)
Lemma write_Add_response view wc mux limit entry r payload n g p' :
  connected view wc mux limit → createRequest entry = Ok r → marshal_request r = inr payload → len payload ≤ limit →
  ServeHTTP mux {| sr_Method := "POST"; sr_Path := addPath; sr_Body := payload |} (fresh_response, view n) = (Ok tt, (g, p')) →
  ∃ n', view n' = p' ∧
    write_Add wc entry n =
      (let code := default 200 (w_status (gw_w g)) in
       if negb (code =? StatusCreated)
       then Err (ErrorString ("unexpected response: " +:+ Itoa code +:+ " " +:+ w_body (gw_w g)))
       else wrap "unmarshaling response body: " (lift (unmarshal_entry (w_body (gw_w g)))), n').
Proof.
  intros [Hbase Hcheck Hreach] Hr Hp Hlen Hserve.
  destruct (Hreach "POST" {[ "Content-Type" := "application/json" ]} payload n g p' Hlen Hserve) as (n' & Hdo & Hview).
  exists n'. split; [done|].
  assert (Hjoin : Join [url_Path (wc_baseURL wc); addPath] = addPath) by (by destruct Hbase as [-> | ->]).
  unfold write_Add, mbind, io_bind, io_bind_def, io_wrap, pure. rewrite Hr. cbn [wrap]. rewrite Hp, Hjoin. cbn [lift wrap].
  rewrite Hcheck. cbn [lift wrap]. unfold call. rewrite Hdo. cbn [lift wrap resp_StatusCode resp_Body].
  by destruct (negb _).
Qed.

(** ** Theorems *)

(** The response to a write, and the state it leaves, from the call of the service. *)
Lemma write_response o1 o2 o3 st ro reg id maxRecv mux limit r p :
  deployed o1 o2 o3 (NewServer st ro reg id) maxRecv mux → request_encodes limit maxRecv r →
  ∃ r' payload, same_content r r' ∧ marshal_request r = inr payload ∧ len payload ≤ limit ∧
    let x := CreateEntry o1 o2 o3 (NewServer st ro reg id) (Some r') (Build_rpc p.1 [] p.2) in
    (∀ tle, x.1 = Ok tle → answer_encodes tle) →
    ∀ w, ServeHTTP mux {| sr_Method := "POST"; sr_Path := addPath; sr_Body := payload |} (w, p) = gateway_answer x (w, p).
Proof.
  intros Hdep (Hnil & (payload & Hpay & Hlen) & Hfit).
  destruct (decode_marshal r payload Hnil Hpay) as (r1 & Hdec & Hsame1).
  assert (Hfits : request_fits maxRecv (msg_CreateEntryRequest r1)).
  { split; [exact (no_nil_content _ _ Hsame1 Hnil)|exact (Hfit r1 Hsame1)]. }
  destruct (gateway_CreateEntry o1 o2 o3 _ maxRecv mux payload r1 p Hdep Hdec Hfits) as (r' & Hsame' & Hg).
  exists r', payload. split_and!; [by transitivity r1|done|done|exact Hg].
Qed.

(** A write and the call it comes to. *)
Lemma write_Add_call view wc mux limit o1 o2 o3 st ro reg id maxRecv entry r n :
  deployed o1 o2 o3 (NewServer st ro reg id) maxRecv mux → ro = true ∨ is_Some st →
  connected view wc mux limit → createRequest entry = Ok r → request_encodes limit maxRecv r →
  ∃ r', same_content r r' ∧
    let x := CreateEntry o1 o2 o3 (NewServer st ro reg id) (Some r') (Build_rpc (view n).1 [] (view n).2) in
    (∀ tle, x.1 = Ok tle → answer_encodes tle) →
    ∃ n', view n' = after_call x ∧
      match x.1 with
      | Ok tle => write_Add wc entry n = (Ok tle, n')
      | _ => ∃ code body, code ≠ StatusCreated ∧
               write_Add wc entry n = (Err (ErrorString ("unexpected response: " +:+ Itoa code +:+ " " +:+ body)), n')
      end.
Proof.
  intros Hdep Hro Hcon Hr Henc.
  destruct (write_response _ _ _ _ _ _ _ _ _ _ _ (view n) Hdep Henc) as (r' & payload & Hsame & Hpay & Hlen & Hserve).
  exists r'. split; [done|]. intros x Hx. specialize (Hserve Hx fresh_response).
  destruct (gateway_answer_shows _ _ _ _ _ _ _ _ _ x Hro eq_refl Hx) as (g & Hg & Hshow). fold x in Hserve. rewrite Hg in Hserve.
  destruct (write_Add_response _ _ _ _ _ _ _ _ _ _ Hcon Hr Hpay Hlen Hserve) as (n' & Hview & Hadd).
  exists n'. split; [done|]. rewrite Hadd. unfold response_shows in Hshow.
  destruct x as [[tle|e|] rr]; cbn [fst] in *.
  - destruct Hshow as [-> Hbody]. cbn [default]. rewrite Z.eqb_refl. cbn [negb].
    by rewrite (unmarshal_encode tle _ (proj1 (Hx tle eq_refl)) Hbody).
  - destruct Hshow as (code & -> & Hne). exists code, (w_body (gw_w g)). split; [done|]. cbn zeta. change (default 200 (Some code)) with code.
    by rewrite (proj2 (Z.eqb_neq _ _) Hne).
  - destruct Hshow as (code & -> & Hne). exists code, (w_body (gw_w g)). split; [done|]. cbn zeta. change (default 200 (Some code)) with code.
    by rewrite (proj2 (Z.eqb_neq _ _) Hne).
Qed.

(** C6: writing over HTTP refines the service: when a client posts an entry to a deployed server,
    through JSON, the gateway's route, the gRPC stub, the wire, the interceptors and back, the
    outcome is that of CreateEntry on a copy of the request.  The state of the process afterwards
    is the one that call leaves (with the panic counted if it panicked); the client gets exactly
    the entry the call returned, or, if the call failed or panicked, an error with a status that
    is not 201.  This is for entries that the client turns into a request without nil parts which
    can be encoded within both size limits, and for answers that can be encoded. *)
Theorem http_write_refines view wc mux limit o1 o2 o3 st ro reg id maxRecv entry r n
    (Hdep : deployed o1 o2 o3 (NewServer st ro reg id) maxRecv mux) (Hro : ro = true ∨ is_Some st)
    (Hcon : connected view wc mux limit)
    (Hr : createRequest entry = Ok r) (Henc : request_encodes limit maxRecv r) :
  ∃ r', same_content r r' ∧
    let x := CreateEntry o1 o2 o3 (NewServer st ro reg id) (Some r') (Build_rpc (view n).1 [] (view n).2) in
    (∀ tle, x.1 = Ok tle → answer_encodes tle) →
    ∃ n', view n' = after_call x ∧
      match x.1 with
      | Ok tle => write_Add wc entry n = (Ok tle, n')
      | _ => ∃ code body, code ≠ StatusCreated ∧
               write_Add wc entry n = (Err (ErrorString ("unexpected response: " +:+ Itoa code +:+ " " +:+ body)), n')
      end.
Proof. by eapply write_Add_call. Qed.

(** *** Reading *)

(** A call of a method that only fails, inside the interceptors. *)
Lemma intercepted_failure {A B} config gs method in_ (assert : message → result A) (f : A → io (call_log World) B) to a e p :
  newGRPCServer config = Ok gs → assert in_ = Ok a → f a = fail e →
  server_interceptor gs method in_ (served assert f to) (begin_call p) =
  (Err e, Build_call_log (Build_rpc p.1 [] p.2) [code_of (@Err message e); code_of (@Err message e)]).
Proof.
  intros Hgs Ha Hf. unfold server_interceptor. rewrite (chain_run config gs _ _ Hgs).
  unfold served, mbind, io_bind, io_bind_def, pure. rewrite Ha, Hf. done.
Qed.

(** The answer to a route of a server that implements no reads. *)
Definition read_error (r : routed) : option error :=
  match r with
  | To_CreateEntry => None
  | To_GetTile l n =>
      Some (match runtime_Uint32 l with
            | inl err => StatusError InvalidArgument ("type mismatch, parameter: L, error: " +:+ Error err)
            | inr _ => StatusError Unimplemented "method GetTile not implemented"
            end)
  | To_GetEntryBundle n => Some (StatusError Unimplemented "method GetEntryBundle not implemented")
  | To_GetCheckpoint => Some (StatusError Unimplemented "method GetCheckpoint not implemented")
  end.

(** The message a route sends. *)
Definition route_fits (maxRecv : Z) (r : routed) : Prop :=
  match r with
  | To_CreateEntry => True
  | To_GetTile l n => ∀ z, runtime_Uint32 l = inr z → ∃ b, proto_Marshal (msg_TileRequest {| tr_L := z; tr_N := n |}) = inr b ∧ len b ≤ maxRecv
  | To_GetEntryBundle n => ∃ b, proto_Marshal (msg_EntryBundleRequest {| ebr_N := n |}) = inr b ∧ len b ≤ maxRecv
  | To_GetCheckpoint => ∃ b, proto_Marshal msg_Empty = inr b ∧ len b ≤ maxRecv
  end.

(** The stub that a read route calls fails, and leaves the process alone. *)
Lemma read_route_fails o1 o2 o3 s gs cc config maxRecv r e req p :
  newGRPCServer config = Ok gs → grpc_conn cc [(Rekor_ServiceDesc, rekor_server o1 o2 o3 s)] (server_interceptor gs) maxRecv →
  read_error r = Some e → route_fits maxRecv r →
  ∃ method path request, handler_of proxy_options (NewRekorClient cc) r =
      (client_handler proxy_options method path request, (handler_of proxy_options (NewRekorClient cc) r).2) ∧
    request req (handler_of proxy_options (NewRekorClient cc) r).2 p = (inl e, [], p).
Proof.
  intros Hgs Hcc He Hfit. destruct r as [|l n|n|]; [done| | |]; injection He as <-; eexists _, _, _; (split; [reflexivity|]); cbn [handler_of snd].
  - unfold request_Rekor_GetTile_0, call_stub, tile_request, path_param. 
    rewrite lookup_insert_eq. destruct (runtime_Uint32 l) as [err|z] eqn:Hz; [done|].
    rewrite lookup_insert_ne, lookup_singleton_eq by done. rewrite String_id.
    assert (Hf : request_fits maxRecv (msg_TileRequest {| tr_L := z; tr_N := n |})) by (split; [by apply (Uint32_range l)|by apply Hfit]).
    pose proof (GetTile_stub cc _ _ maxRecv p _ Hcc Hf) as Hd. cbn zeta in Hd.
    erewrite (intercepted_failure config) in Hd by done. specialize (Hd Logic.I).
    destruct (rc_GetTile _ _ p) as [[[e'|b] md] p']; cbn in Hd; simplify_eq. by destruct p.
  - unfold request_Rekor_GetEntryBundle_0, call_stub, bundle_request, path_param.
    rewrite lookup_singleton_eq, String_id.
    pose proof (GetEntryBundle_stub cc _ _ maxRecv p {| ebr_N := n |} Hcc (conj Logic.I Hfit)) as Hd. cbn zeta in Hd.
    erewrite (intercepted_failure config) in Hd by done. specialize (Hd Logic.I).
    destruct (rc_GetEntryBundle _ _ p) as [[[e'|b] md] p']; cbn in Hd; simplify_eq. by destruct p.
  - unfold request_Rekor_GetCheckpoint_0, call_stub.
    pose proof (GetCheckpoint_stub cc _ _ maxRecv p Hcc (conj Logic.I Hfit)) as Hd. cbn zeta in Hd.
    erewrite (intercepted_failure config) in Hd by done. specialize (Hd Logic.I).
    destruct (rc_GetCheckpoint _ _ p) as [[[e'|b] md] p']; cbn in Hd; simplify_eq. by destruct p.
Qed.

(** C31: the server serves no reads: a GET of a tile, an entry bundle or a checkpoint from a deployed
    server, writable or frozen, is routed to its method, is answered by the default error handler
    with the status Unimplemented of that method, or with InvalidArgument if the level of a tile is
    not a uint32, and leaves the process as it was. *)
Theorem http_reads_refused o1 o2 o3 s maxRecv mux components body r e w p
    (Hdep : deployed o1 o2 o3 s maxRecv mux) (Hplain : Forall plain_component components)
    (Hr : route_of "GET" components = Some r) (He : read_error r = Some e) (Hfit : route_fits maxRecv r) :
  ServeHTTP mux {| sr_Method := "GET"; sr_Path := "/" +:+ join_slash components; sr_Body := body |} (w, p) =
  (Ok tt, ({| gw_w := DefaultHTTPErrorHandler e (gw_w w); gw_md := Some ∅ |}, p)).
Proof.
  assert (Hne : components ≠ []) by (intros ->; vm_compute in Hr; discriminate Hr).
  destruct Hdep as [(config & gs & cc & healthz & Hgs & Hcc & Hmux & _) Hann].
  pose (req := {| sr_Method := "GET"; sr_Path := "/" +:+ join_slash components; sr_Body := body |}).
  destruct (read_route_fails o1 o2 o3 s gs cc config maxRecv r e req p Hgs Hcc He Hfit) as (method & path & request & Hh & Hreq).
  erewrite ServeHTTP_dispatch; [|done|done|]; [|rewrite (dispatch_service (NewServeMux healthz) mux (NewRekorClient cc) _ _ Hmux), Hr, NewServeMux_options, Hh; reflexivity].
  fold req. unfold client_handler. rewrite Hann. cbn [fst snd]. rewrite Hreq. done.
Qed.

(** C23: a write to a frozen log: for every entry that the client turns into a request without nil
    parts which can be encoded within the size limits of the proxy and of the gRPC server, valid or
    not, the client's Add fails with the status 405 and the message that asks for the latest log,
    and the server's process is as it was.  Nothing is said of other entries. *)
Theorem http_write_frozen view wc mux limit o1 o2 o3 st reg id maxRecv entry r n
    (Hdep : deployed o1 o2 o3 (NewServer st true reg id) maxRecv mux) (Hcon : connected view wc mux limit)
    (Hr : createRequest entry = Ok r) (Henc : request_encodes limit maxRecv r) :
  ∃ n', view n' = view n ∧
    write_Add wc entry n =
      (Err (ErrorString ("unexpected response: 405 This log has been frozen, please switch to the latest log." +:+ String "010" "")), n').
Proof.
  destruct (write_response _ _ _ _ _ _ _ _ _ _ _ (view n) Hdep Henc) as (r' & payload & _ & Hpay & Hlen & Hserve).
  rewrite CreateEntry_read_only in Hserve. specialize (Hserve ltac:(done) fresh_response).
  unfold gateway_answer, respond, zoom, HTTPError in Hserve. cbn [fst snd mo_errorHandler proxy_options] in Hserve.
  erewrite (frozen_response o1 o2 o3 st reg id None (view n).1 (view n).2) in Hserve; [|by rewrite CreateEntry_read_only|done].
  destruct (write_Add_response _ _ _ _ _ _ _ _ _ _ Hcon Hr Hpay Hlen Hserve) as (n' & Hview & Hadd).
  exists n'. split; [by rewrite Hview, (surjective_pairing (view n))|exact Hadd].
Qed.
End path.
