(* ===== verification/HttpHistory.v ===== *)
(** * Histories of writes over HTTP

    Any number of clients writing to a server that a command started, one
    request after the other, while others add to the log in between. *)
From S2P Require Import Prelude GoErrors GoStrings GoPath Sha256 Proto External IO Note TesseraLib VerifyEntry Storage AlgorithmRegistry HashedRekord Dsse Service History Gateway RekorGrpc RekorGateway Config Servers SignerVerifier Drivers Cmd Client WritePath.

Section http_history.
Context `{X509} `{SigstoreSignature} `{!DsseLib} `{LogFormat} `{Merkle} `{Tessera} `{JsonLib} `{KeyLib} `{!DriverLib} `{TlsLib}.
Context `{MuxLib} `{!RuntimeLaws} `{!MuxLaws} `{GatewayLib} `{!GatewayLaws} `{ProtoLib} `{!ProtoLaws} `{HttpLib} `{!WriteJson}.
Context `{!TesseraLaws} `{!LogFormatLaws} `{!CheckpointSigning} `{!AppendOnly}.

(** The log of the server, seen in the network. *)
Definition log_of (view : Net → process) (n : Net) : list bytes := log_entries (view n).1.

(** What a server answers to a request in a state of the network can be encoded. *)
Definition answers_encode (o1 o2 o3 : map_order) (s : Server) (view : Net → process) (n : Net) (r : CreateEntryRequest) : Prop :=
  ∀ r' e c, same_content r r' → CreateEntry o1 o2 o3 s (Some r') (Build_rpc (view n).1 [] (view n).2) = (Ok e, c) → answer_encodes e.

(** The writes of a set of clients, with the requests they stand for and their results. *)
Inductive http_history (view : Net → process) (clients : writeClient → Prop) (limit maxRecv : Z)
    (o1 o2 o3 : map_order) (s : Server) : Net → list (CreateEntryRequest * result TransparencyLogEntry) → Net → Prop :=
  | http_end n : http_history view clients limit maxRecv o1 o2 o3 s n [] n
  | http_other n n' tr n'' :
      log_of view n `prefix_of` log_of view n' → http_history view clients limit maxRecv o1 o2 o3 s n' tr n'' →
      http_history view clients limit maxRecv o1 o2 o3 s n tr n''
  | http_write wc entry r n x n' tr n'' :
      clients wc → createRequest entry = Ok r → request_encodes limit maxRecv r → answers_encode o1 o2 o3 s view n r →
      write_Add wc entry n = (x, n') → http_history view clients limit maxRecv o1 o2 o3 s n' tr n'' →
      http_history view clients limit maxRecv o1 o2 o3 s n ((r, x) :: tr) n''.

(** ** One write *)

(** A server that a command started has a storage on tessera, or is frozen. *)
Lemma started_server os_ReadFile signer newDriver gcp f w su w' :
  serve_with os_ReadFile signer newDriver gcp f w = (Ok su, w') →
  (∃ reg id, su_server su = NewServer None true reg id) ∨
  ∃ s reg id, on_tessera s ∧ su_server su = tessera_server s reg id.
Proof.
  intros Hs. destruct (serve_with_Ok _ _ _ _ _ _ _ _ Hs) as (sv & pub & opts & id & logID & st & sd & reg & lvl & _ & _ & _ & _ & Hst & _ & ->).
  cbn [su_server]. destruct (start_storage_Ok _ _ _ _ _ _ _ _ Hst) as [[-> ->]|(-> & s & driver & opts' & -> & _ & Hnew)]; [left; by exists (Some reg), logID|right].
  exists s, reg, logID. split; [by eapply NewStorage_on_tessera|done].
Qed.

(** A call on such a server lets the log grow, and a success is in it. *)
Lemma started_call os_ReadFile signer newDriver gcp f w su w' o1 o2 o3 req w1 m x r :
  serve_with os_ReadFile signer newDriver gcp f w = (Ok su, w') →
  CreateEntry o1 o2 o3 (su_server su) req (Build_rpc w1 [] m) = (x, r) →
  log_entries w1 `prefix_of` log_entries (rpc_log r) ∧ recorded (su_server su) (log_entries (rpc_log r)) (req, x).
Proof.
  intros Hrun Hc. destruct (started_server _ _ _ _ _ _ _ _ Hrun) as [(reg & id & Heq)|(s & reg & id & Hs & Heq)]; rewrite Heq in Hc |- *.
  { rewrite CreateEntry_read_only in Hc. by injection Hc as <- <-. }
  destruct x as [tle|e|].
  - apply (call_recorded o1 o2 o3 s reg id req w1 m (Ok tle) r Hs). unfold recovered. by rewrite Hc.
  - apply (call_recorded o1 o2 o3 s reg id req w1 m (Err e) r Hs). unfold recovered. by rewrite Hc.
  - split; [|done]. destruct (call_recorded o1 o2 o3 s reg id req w1 m _ _ Hs (surjective_pairing _)) as [Hg _].
    unfold recovered in Hg. by rewrite Hc in Hg.
Qed.

Section kept.
Context (os_ReadFile : string → error + bytes) (sv : SignerVerifier) (newDriver : result (Driver * option Antispam)) (gcp : bool).
Context (f : server_flags) (su : startup) (view : Net → process) (mux : ServeMux process) (limit maxRecv : Z).
Context (o1 o2 o3 : map_order) (clients : writeClient → Prop) (verifier : sig_Verifier) (nv : noteVerifier).

(** A server that was started and deployed, clients that reach it, and a verifier for the key of the log. *)
Record in_service : Prop := {
  sv_started : ∃ w w', serve_with os_ReadFile (Ok sv) newDriver gcp f w = (Ok su, w');
  sv_deployed : deployed o1 o2 o3 (su_server su) maxRecv mux;
  sv_clients : ∀ wc, clients wc → connected view wc mux limit;
  sv_verifier : NewNoteVerifier (hostname f) verifier = Ok nv;
  sv_key : signer_PublicKey (as_Signer sv) = verifier_PublicKey verifier;
  sv_signs : ∀ msg sig, SignMessage (as_Signer sv) msg = inr sig → VerifySig verifier sig msg = inr tt
}.

(** A result that is true of the log and verifies: the entry is that of a copy of the request. *)
Definition kept (log : list bytes) (ev : CreateEntryRequest * result TransparencyLogEntry) : Prop :=
  match ev with
  | (r, Ok tle) =>
      VerifyLogEntry tle nv = Ok tt ∧
      (∃ pub pre, verifier_PublicKey verifier = inr pub ∧ id_preimage (hostname f) pub = Some pre ∧ tle_LogId tle = Some (Sum256 pre)) ∧
      ∃ r', same_content r r' ∧ recorded (su_server su) log (Some r', Ok tle)
  | _ => True
  end.

Lemma write_kept wc entry r n x n' :
  in_service → clients wc → createRequest entry = Ok r → request_encodes limit maxRecv r →
  answers_encode o1 o2 o3 (su_server su) view n r → write_Add wc entry n = (x, n') →
  log_of view n `prefix_of` log_of view n' ∧ kept (log_of view n') (r, x).
Proof.
  intros [(w & w' & Hs) Hdep Hcl Hnv Hkey Hsig] Hwc Hr Henc Hans Hadd.
  destruct (serve_with_server _ _ _ _ _ _ _ _ Hs) as (st & reg & id & Hsrv & Hro). rewrite Hsrv in Hdep.
  destruct (write_Add_call _ _ _ _ _ _ _ _ _ _ _ _ _ _ n Hdep Hro (Hcl wc Hwc) Hr Henc) as (r' & Hsame & Hcall).
  rewrite <-Hsrv in Hcall. cbn zeta in Hcall.
  destruct (CreateEntry o1 o2 o3 (su_server su) (Some r') (Build_rpc (view n).1 [] (view n).2)) as [y c] eqn:Hc. cbn [fst] in Hcall.
  destruct Hcall as (n1 & Hview & Hres); [intros e ->; by eapply Hans|].
  destruct (started_call _ _ _ _ _ _ _ _ _ _ _ _ _ _ _ _ Hs Hc) as [Hg Hrec].
  assert (write_Add wc entry n = (x, n1) ∧ (∀ tle, x = Ok tle → y = Ok tle)) as [Hadd1 Hxy].
  { destruct y as [tle|e|].
    - rewrite Hres in Hadd. injection Hadd as <- _. by split.
    - destruct Hres as (? & ? & _ & Hres). rewrite Hres in Hadd. by injection Hadd as <- _.
    - destruct Hres as (? & ? & _ & Hres). rewrite Hres in Hadd. by injection Hadd as <- _. }
  rewrite Hadd in Hadd1. injection Hadd1 as ->. unfold log_of. rewrite Hview. split; [done|].
  destruct x as [tle|e|]; [|done..]. specialize (Hxy tle eq_refl). subst y. cbn [kept].
  destruct (started_log_verifiable _ _ _ _ _ _ _ _ _ _ _ _ _ _ _ _ _ Hs Hc Hnv Hkey Hsig) as [Hver Hid].
  split_and!; [exact Hver|exact Hid|by exists r'].
Qed.

Lemma kept_grows log log' ev : kept log ev → log `prefix_of` log' → kept log' ev.
Proof.
  destruct ev as [r [tle|e|]]; [|done..]. intros (Hv & Hid & r' & Hsame & Hrec) Hp. split_and!; [done|done|]. exists r'. split; [done|].
  by eapply recorded_grows.
Qed.

(** ** Theorem *)

(** C4: what clients wrote over HTTP is in the log and stays there: a server is started by a command and
    deployed behind its gateway, and any number of clients post entries to it, while others add to
    the log.  At the end the log is an extension of what it was, and for every Add that returned
    an entry, the log has the body of that entry at its index; the body is the canonical JSON of
    the entry for a copy of the request that was posted; and VerifyLogEntry accepts the entry
    with the hostname and the public key of the log, and its log ID is the SHA-256 of the octets
    that identify that key. *)
Theorem http_entries_kept n tr n' (Hsrv : in_service) (Hh : http_history view clients limit maxRecv o1 o2 o3 (su_server su) n tr n') :
  log_of view n `prefix_of` log_of view n' ∧ ∀ ev, ev ∈ tr → kept (log_of view n') ev.
Proof.
  induction Hh as [n|n n1 tr n' Hg _ [IHg IH]|wc entry r n x n1 tr n' Hwc Hr Henc Hans Hadd _ [IHg IH]].
  - split; [done|]. by intros ev ?%not_elem_of_nil.
  - split; [by etrans|done].
  - destruct (write_kept _ _ _ _ _ _ Hsrv Hwc Hr Henc Hans Hadd) as [Hg Hk]. split; [by etrans|].
    intros ev [-> |Hin]%elem_of_cons; [by eapply kept_grows|by apply IH].
Qed.
End kept.
End http_history.
