(* ===== verification/Sharding.v ===== *)
(** * tests/sharding/client: the programs that sign and verify across shards

    [sign] makes a key, signs an artifact with it, has the signature logged by
    the logs it selects, and writes the public key and the bundle to files;
    [verify] reads those files back.  The two share nothing but the files and
    the trusted root.  sigstore-go, which signs, logs and verifies, is a class;
    files, output and exits are written out. *)
From S2P Require Import Prelude GoErrors GoStrings Sha256 Proto External IO Sample.

(** ** The machine *)

(** Files, and the paths at which the system refuses to read or write, with its error.  Files are
    kept by path as it is written: two paths of one file (through a link or a dot) are not
    identified, so that where a theorem says that two paths differ, they name different files. *)
Record os_files := { f_data : gmap string bytes; f_denied : string → option error }.

Definition ReadFile (path : string) (fs : os_files) : error + bytes :=
  match f_denied fs path, f_data fs !! path with
  | Some err, _ => inl err
  | None, Some data => inr data
  | None, None => inl (ErrorString ("open " +:+ path +:+ ": no such file or directory"))
  end.

Definition WriteFile (path : string) (data : bytes) (fs : os_files) : (error + unit) * os_files :=
  match f_denied fs path with
  | Some err => (inl err, fs)
  | None => (inr tt, {| f_data := <[path := data]> (f_data fs); f_denied := f_denied fs |})
  end.

Lemma ReadFile_written path data fs fs' :
  WriteFile path data fs = (inr tt, fs') → ReadFile path fs' = inr data.
Proof.
  unfold WriteFile, ReadFile. destruct (f_denied fs path) eqn:Hd; [done|]. intros [= <-]. cbn. by rewrite Hd, lookup_insert_eq.
Qed.

Lemma ReadFile_other path path' data fs x fs' :
  WriteFile path data fs = (x, fs') → path' ≠ path → ReadFile path' fs' = ReadFile path' fs.
Proof.
  unfold WriteFile, ReadFile. destruct (f_denied fs path) eqn:Hd; intros [= <- <-] Hne; [done|]. cbn.
  by rewrite lookup_insert_ne.
Qed.

(** ** sigstore-go *)

(** A key with the time it is valid for; none is given here. *)
Record TimeConstrainedVerifier `{SigstoreSignature} := { tcv_verifier : SigVerifier; tcv_start : option Z; tcv_end : option Z }.

(** [sign.RekorOptions] *)
Record RekorOptions := { ro_BaseURL : string; ro_Timeout : Z; ro_Retries : Z; ro_Version : Z }.

(** A [root.TrustedMaterial]: its keys, and the rest, which only the library reads. *)
Record TrustedMaterial (R : Type) `{SigstoreSignature} := {
  tm_rest : R;
  PublicKeyVerifier : string → error + TimeConstrainedVerifier
}.
Arguments tm_rest {R _}.
Arguments PublicKeyVerifier {R _}.
Arguments Build_TrustedMaterial {R _}.

(** [sign.BundleOptions], the fields that are set. *)
Record BundleOptions (R L : Type) `{SigstoreSignature} := {
  bo_TrustedRoot : option (TrustedMaterial R);
  bo_TransparencyLogs : list L
}.
Arguments bo_TrustedRoot {R L _}.
Arguments bo_TransparencyLogs {R L _}.
Arguments Build_BundleOptions {R L _}.

Inductive VerifierOption := WithNoObserverTimestamps | WithTransparencyLog (threshold : Z).

Inductive ArtifactPolicy := WithArtifactDigest (algorithm : string) (digest : bytes).
Inductive IdentityPolicy := WithKey.
Record PolicyBuilder := { pb_artifact : ArtifactPolicy; pb_identities : list IdentityPolicy }.

Class SigstoreGo `{SigstoreSignature} := {
  (** the network, and the source of randomness *)
  Outside : Type;
  Time : Type;
  time_Parse : string → error + Time;
  pem_Decode : bytes → option bytes;
  (** pkg/sign *)
  EphemeralKeypair : Type;
  NewEphemeralKeypair : Outside → (error + EphemeralKeypair) * Outside;
  GetPublicKeyPem : EphemeralKeypair → error + string;
  Rekor : Type;
  NewRekor : RekorOptions → Rekor;
  TrustedRest : Type;
  ProtoBundle : Type;
  sign_Bundle : bytes → EphemeralKeypair → BundleOptions TrustedRest Rekor → Outside → (error + ProtoBundle) * Outside;
  marshal_bundle : ProtoBundle → error + bytes;
  (** pkg/root; a trusted root and a set of keys are trusted material *)
  NewTrustedRootFromPath : string → os_files → error + TrustedMaterial TrustedRest;
  NewTrustedPublicKeyMaterial : (string → error + TimeConstrainedVerifier) → TrustedMaterial TrustedRest;
  SigningConfig : Type;
  NewSigningConfigFromPath : string → os_files → error + SigningConfig;
  Service : Type;
  Service_URL : Service → string;
  ServiceConfiguration : Type;
  RekorLogURLs : SigningConfig → list Service;
  RekorLogURLsConfig : SigningConfig → ServiceConfiguration;
  SelectServices : list Service → ServiceConfiguration → list Z → Time → error + list Service;
  (** pkg/bundle and pkg/verify *)
  Bundle : Type;
  LoadJSONFromPath : string → os_files → error + Bundle;
  BundleVerifier : Type;
  NewVerifier : TrustedMaterial TrustedRest → list VerifierOption → error + BundleVerifier;
  verify_Verify : BundleVerifier → Bundle → PolicyBuilder → error + unit
}.

(** What sigstore-go documents: a key in PEM form can be decoded, a trusted root is read from its file,
    and the keys of a material of public keys are those of the function it was made with. *)
Class SigstoreGoLaws `{SigstoreGo} : Prop := {
  Pem_decodes : ∀ k pem, GetPublicKeyPem k = inr pem → is_Some (pem_Decode pem);
  TrustedRoot_reads : ∀ path fs fs', ReadFile path fs = ReadFile path fs' →
    NewTrustedRootFromPath path fs = NewTrustedRootFromPath path fs';
  Material_keys : ∀ f hint, PublicKeyVerifier (NewTrustedPublicKeyMaterial f) hint = f hint
}.

Section sharding.
Context `{X509} `{SigstoreGo}.

Record machine := {
  m_files : os_files;
  m_outside : Outside;
  m_env : gmap string string;
  m_now : Time;
  m_stdout : list string
}.

Definition Getenv (name : string) (m : machine) : string := default "" (m_env m !! name).

(** [log.Fatal] is an error, with which the process ends. *)
Definition on_files {A} (f : os_files → (error + A) * os_files) : io machine A :=
  zoom m_files (λ fs m, {| m_files := fs; m_outside := m_outside m; m_env := m_env m; m_now := m_now m; m_stdout := m_stdout m |}) (call f).
Definition from_files {A} (f : os_files → error + A) : io machine A := call (λ m, (f (m_files m), m)).
Definition outside {A} (f : Outside → (error + A) * Outside) : io machine A :=
  zoom m_outside (λ o m, {| m_files := m_files m; m_outside := o; m_env := m_env m; m_now := m_now m; m_stdout := m_stdout m |}) (call f).
Definition printed (line : string) (m : machine) : machine :=
  {| m_files := m_files m; m_outside := m_outside m; m_env := m_env m; m_now := m_now m; m_stdout := m_stdout m ++ [line] |}.
Definition Println (line : string) : io machine unit :=
  modify (printed line).

(** ** verifyTrustedMaterial, of both programs *)

Record verifyTrustedMaterial := { vtm_TrustedMaterial : TrustedMaterial TrustedRest; vtm_keyTrustedMaterial : TrustedMaterial TrustedRest }.

Definition vtm_PublicKeyVerifier (v : verifyTrustedMaterial) (hint : string) : error + TimeConstrainedVerifier :=
  PublicKeyVerifier (vtm_keyTrustedMaterial v) hint.

(** As trusted material: the methods of the embedded value, but for the one above. *)
Definition as_TrustedMaterial (v : verifyTrustedMaterial) : TrustedMaterial TrustedRest :=
  {| tm_rest := tm_rest (vtm_TrustedMaterial v); PublicKeyVerifier := vtm_PublicKeyVerifier v |}.

(** The part that both programs do with the PEM form of a key. *)
Definition material_of_pem (pubPem : bytes) (trustedRootPath : string) : io machine (TrustedMaterial TrustedRest) :=
  block ← pure (deref (pem_Decode pubPem));
  pubKey ← pure (lift (ParsePKIXPublicKey block));
  verifier ← pure (lift (LoadVerifier pubKey crypto_SHA256));
  let key := {| tcv_verifier := verifier; tcv_start := None; tcv_end := None |} in
  trustedRoot ← from_files (NewTrustedRootFromPath trustedRootPath);
  mret (as_TrustedMaterial {| vtm_TrustedMaterial := trustedRoot; vtm_keyTrustedMaterial := NewTrustedPublicKeyMaterial (λ _, inr key) |}).

(** ** sign/sign.go *)

(** The flags, and the arguments after them. *)
Record sign_flags := {
  sf_rekorURL : string;
  sf_bundleOut : string;
  sf_keyOut : string;
  sf_trustedRootPath : string;
  sf_signingConfigPath : string;
  sf_args : list string
}.

Section sign.
Variable f : sign_flags.

Definition key : io machine EphemeralKeypair :=
  keypair ← outside NewEphemeralKeypair;
  pubPem ← pure (lift (GetPublicKeyPem keypair));
  _ ← on_files (WriteFile (sf_keyOut f) pubPem);
  mret keypair.

Definition sign_trustedMaterialForKey (keypair : EphemeralKeypair) : io machine (TrustedMaterial TrustedRest) :=
  pubPem ← pure (lift (GetPublicKeyPem keypair));
  material_of_pem pubPem (sf_trustedRootPath f).

Definition signingConfig : io machine SigningConfig := from_files (NewSigningConfigFromPath (sf_signingConfigPath f)).

Definition discoverRekorURLs (config : SigningConfig) (url : string) : io machine (list string) :=
  fakeTime ← gets (Getenv "NOW");
  now ← gets m_now;
  now ← (if negb (is_empty fakeTime) then pure (lift (time_Parse fakeTime)) else mret now);
  if negb (is_empty url) then mret [url]
  else
    services ← pure (lift (SelectServices (RekorLogURLs config) (RekorLogURLsConfig config) [2] now));
    mret (Service_URL <$> services).

Definition rekor_options (url : string) : RekorOptions :=
  {| ro_BaseURL := url; ro_Timeout := 90 * 1000000000; ro_Retries := 0; ro_Version := 2 |}.

(** [opts.TransparencyLogs = append(opts.TransparencyLogs, ...)] for each URL *)
Definition setRekorOpts (opts : BundleOptions TrustedRest Rekor) (urls : list string) : BundleOptions TrustedRest Rekor :=
  foldl (λ o url, {| bo_TrustedRoot := bo_TrustedRoot o;
                     bo_TransparencyLogs := bo_TransparencyLogs o ++ [NewRekor (rekor_options url)] |}) opts urls.

Definition sign_main : io machine unit :=
  match sf_args f with
  | [] => fail (ErrorString "expected artifact to sign")
  | arg :: _ =>
      artifact ← from_files (ReadFile arg);
      keypair ← key;
      trustedRoot ← sign_trustedMaterialForKey keypair;
      config ← signingConfig;
      rekorURLs ← discoverRekorURLs config (sf_rekorURL f);
      let opts := setRekorOpts {| bo_TrustedRoot := Some trustedRoot; bo_TransparencyLogs := [] |} rekorURLs in
      signedBundle ← outside (sign_Bundle artifact keypair opts);
      bundleJSON ← pure (lift (marshal_bundle signedBundle));
      _ ← on_files (WriteFile (sf_bundleOut f) bundleJSON);
      Println "SIGNED"
  end.
End sign.

(** ** verify/verify.go *)

Record verify_flags := { vf_bundlePath : string; vf_keyPath : string; vf_trustedRootPath : string; vf_args : list string }.

Section verify.
Variable f : verify_flags.

Definition verify_trustedMaterialForKey : io machine (TrustedMaterial TrustedRest) :=
  pubPem ← from_files (ReadFile (vf_keyPath f));
  material_of_pem pubPem (vf_trustedRootPath f).

Definition getBundle : io machine Bundle := from_files (LoadJSONFromPath (vf_bundlePath f)).

Definition verifyPolicy (artifact : bytes) : PolicyBuilder :=
  let digest := Sum256 artifact in
  {| pb_artifact := WithArtifactDigest "sha256" digest; pb_identities := [WithKey] |}.

Definition verifierConfig : list VerifierOption := [WithNoObserverTimestamps; WithTransparencyLog 1].

Definition verify_main : io machine unit :=
  match vf_args f with
  | [] => fail (ErrorString "expected artifact to verify")
  | arg :: _ =>
      artifact ← from_files (ReadFile arg);
      trustedRoot ← verify_trustedMaterialForKey;
      let policy := verifyPolicy artifact in
      b ← getBundle;
      sev ← pure (lift (NewVerifier trustedRoot verifierConfig));
      _ ← pure (lift (verify_Verify sev b policy));
      Println "VERIFIED"
  end.

(** What the library is to be asked about an artifact: is there a bundle for its digest, signed with a
    key of the material and logged at least once? *)
Definition check_bundle (tm : TrustedMaterial TrustedRest) (artifact : bytes) (fs : os_files) : result unit :=
  b ← lift (LoadJSONFromPath (vf_bundlePath f) fs);
  sev ← lift (NewVerifier tm [WithNoObserverTimestamps; WithTransparencyLog 1]);
  lift (verify_Verify sev b {| pb_artifact := WithArtifactDigest "sha256" (Sum256 artifact); pb_identities := [WithKey] |}).

(** The trusted material that a PEM text and a trusted root make. *)
Lemma material_of_pem_run pubPem path m :
  material_of_pem pubPem path m =
  (block ← deref (pem_Decode pubPem);
   pubKey ← lift (ParsePKIXPublicKey block);
   verifier ← lift (LoadVerifier pubKey crypto_SHA256);
   trustedRoot ← lift (NewTrustedRootFromPath path (m_files m));
   Ok (as_TrustedMaterial {| vtm_TrustedMaterial := trustedRoot;
     vtm_keyTrustedMaterial := NewTrustedPublicKeyMaterial
       (λ _, inr {| tcv_verifier := verifier; tcv_start := None; tcv_end := None |}) |}), m).
Proof.
  unfold material_of_pem, from_files, call, pure, mbind, io_bind, io_bind_def. destruct (pem_Decode pubPem); [|done]. cbn.
  destruct (ParsePKIXPublicKey _); [done|]. cbn. destruct (LoadVerifier _ _); [done|]. cbn. by destruct (NewTrustedRootFromPath _ _).
Qed.

Lemma verify_main_run arg args artifact pubPem tm m :
  vf_args f = arg :: args → ReadFile arg (m_files m) = inr artifact → ReadFile (vf_keyPath f) (m_files m) = inr pubPem →
  material_of_pem pubPem (vf_trustedRootPath f) m = (Ok tm, m) →
  verify_main m =
  match check_bundle tm artifact (m_files m) with
  | Ok _ => (Ok tt, printed "VERIFIED" m)
  | x => (x, m)
  end.
Proof.
  intros Ha Hart Hkey Htm. unfold verify_main, verify_trustedMaterialForKey, getBundle, check_bundle. rewrite Ha.
  unfold from_files, call, pure, mbind, io_bind, io_bind_def. rewrite Hart. cbn. rewrite Hkey. cbn. rewrite Htm. cbn.
  destruct (LoadJSONFromPath _ _); [done|]. cbn. destruct (NewVerifier _ _); [done|]. cbn. by destruct (verify_Verify _ _ _) as [|[]].
Qed.
End verify.

(** ** What the programs do *)

Lemma setRekorOpts_logs opts urls :
  setRekorOpts opts urls =
  {| bo_TrustedRoot := bo_TrustedRoot opts; bo_TransparencyLogs := bo_TransparencyLogs opts ++ (NewRekor ∘ rekor_options <$> urls) |}.
Proof.
  unfold setRekorOpts. revert opts. induction urls as [|url urls IH]; intros [root logs]; cbn; [by rewrite app_nil_r|].
  rewrite IH. cbn. by rewrite <- app_assoc.
Qed.

(** A step on the files that succeeds. *)
Lemma on_files_Ok {A} (g : os_files → (error + A) * os_files) m a m' :
  on_files g m = (Ok a, m') →
  g (m_files m) = (inr a, m_files m') ∧ m_outside m' = m_outside m ∧ m_env m' = m_env m ∧ m_now m' = m_now m ∧ m_stdout m' = m_stdout m.
Proof. unfold on_files, zoom, call. destruct (g (m_files m)) as [[] fs]; cbn; intros [= <- <-]; done. Qed.

Lemma outside_Ok {A} (g : Outside → (error + A) * Outside) m a m' :
  outside g m = (Ok a, m') →
  g (m_outside m) = (inr a, m_outside m') ∧ m_files m' = m_files m ∧ m_env m' = m_env m ∧ m_now m' = m_now m ∧ m_stdout m' = m_stdout m.
Proof. unfold outside, zoom, call. destruct (g (m_outside m)) as [[] o]; cbn; intros [= <- <-]; done. Qed.

Lemma from_files_Ok {A} (g : os_files → error + A) m a m' : from_files g m = (Ok a, m') → g (m_files m) = inr a ∧ m' = m.
Proof. unfold from_files. intros Hc%call_Ok. by injection Hc as -> ->. Qed.

(** The logs that are written to: the one that was named, or those that the signing configuration
    has for version 2 of the API at this time, which NOW may set. *)
Definition selected_urls (config : SigningConfig) (url : string) (m : machine) : result (list string) :=
  now ← (if is_empty (Getenv "NOW" m) then Ok (m_now m) else lift (time_Parse (Getenv "NOW" m)));
  if is_empty url then
    map Service_URL <$> lift (SelectServices (RekorLogURLs config) (RekorLogURLsConfig config) [2] now)
  else Ok [url].

Lemma selected_urls_Ok config url m urls :
  selected_urls config url m = Ok urls → ∃ now,
    (Getenv "NOW" m = "" → now = m_now m) ∧ (Getenv "NOW" m ≠ "" → time_Parse (Getenv "NOW" m) = inr now) ∧
    (url ≠ "" → urls = [url]) ∧
    (url = "" → ∃ services, SelectServices (RekorLogURLs config) (RekorLogURLsConfig config) [2] now = inr services ∧
      urls = Service_URL <$> services).
Proof.
  unfold selected_urls. intros (now & Hnow & Hu)%bind_Ok. exists now. split_and!.
  - intros He. rewrite He in Hnow. by injection Hnow.
  - intros He%is_empty_false. rewrite He in Hnow. by apply lift_Ok.
  - intros He%is_empty_false. rewrite He in Hu. by injection Hu.
  - intros ->. cbn in Hu. destruct (SelectServices _ _ _ _) as [e|services]; [done|]. injection Hu as <-. eauto.
Qed.

Lemma discoverRekorURLs_run config url m : discoverRekorURLs config url m = (selected_urls config url m, m).
Proof.
  unfold discoverRekorURLs, selected_urls, gets, pure, mbind, io_bind, io_bind_def. cbn.
  destruct (is_empty (Getenv "NOW" m)); cbn.
  - destruct (is_empty url); cbn; [|done]. by destruct (SelectServices _ _ _ _).
  - destruct (time_Parse _); cbn; [done|]. destruct (is_empty url); cbn; [|done]. by destruct (SelectServices _ _ _ _).
Qed.

(** What a run of [sign] that succeeds has done, state by state. *)
Lemma sign_main_Ok f m m' :
  sign_main f m = (Ok tt, m') →
  ∃ arg args artifact kp pem fs1 tm config urls pb json o o',
    sf_args f = arg :: args ∧ ReadFile arg (m_files m) = inr artifact ∧
    GetPublicKeyPem kp = inr pem ∧ WriteFile (sf_keyOut f) pem (m_files m) = (inr tt, fs1) ∧
    (∃ m1, m_files m1 = fs1 ∧ m_env m1 = m_env m ∧ m_now m1 = m_now m ∧ material_of_pem pem (sf_trustedRootPath f) m1 = (Ok tm, m1) ∧
      selected_urls config (sf_rekorURL f) m1 = Ok urls) ∧
    NewSigningConfigFromPath (sf_signingConfigPath f) fs1 = inr config ∧
    sign_Bundle artifact kp {| bo_TrustedRoot := Some tm; bo_TransparencyLogs := NewRekor ∘ rekor_options <$> urls |} o = (inr pb, o') ∧
    marshal_bundle pb = inr json ∧ WriteFile (sf_bundleOut f) json fs1 = (inr tt, m_files m') ∧
    m_stdout m' = m_stdout m ++ ["SIGNED"].
Proof.
  unfold sign_main. destruct (sf_args f) as [|arg args]; [done|]. intros Hs.
  apply io_bind_Ok in Hs as (artifact & m0 & [Hart ->]%from_files_Ok & Hs).
  apply io_bind_Ok in Hs as (kp & m1 & Hk & Hs).
  apply io_bind_Ok in Hk as (kp0 & m2 & (_ & Hf2 & He2 & Hn2 & Ho2)%outside_Ok & Hk).
  apply io_bind_Ok in Hk as (pem & m3 & [Hpem%lift_Ok ->]%pure_Ok & Hk).
  apply io_bind_Ok in Hk as ([] & m4 & (Hw & _ & He4 & Hn4 & Ho4)%on_files_Ok & Hk). injection Hk as -> ->.
  apply io_bind_Ok in Hs as (tm & m5 & Htm & Hs).
  apply io_bind_Ok in Htm as (pem' & m6 & [Hpem'%lift_Ok ->]%pure_Ok & Htm). rewrite Hpem in Hpem'. injection Hpem' as <-.
  assert (m5 = m1) as -> by (rewrite material_of_pem_run in Htm; by injection Htm).
  apply io_bind_Ok in Hs as (config & m7 & [Hconf ->]%from_files_Ok & Hs).
  apply io_bind_Ok in Hs as (urls & m8 & Hurls & Hs). rewrite discoverRekorURLs_run in Hurls. injection Hurls as Hurls <-.
  rewrite setRekorOpts_logs in Hs. apply io_bind_Ok in Hs as (pb & m9 & (Hb & Hf9 & _ & _ & Ho9)%outside_Ok & Hs).
  apply io_bind_Ok in Hs as (json & m10 & [Hj%lift_Ok ->]%pure_Ok & Hs).
  apply io_bind_Ok in Hs as ([] & m11 & (Hw' & _ & _ & _ & Ho11)%on_files_Ok & Hs). injection Hs as <-.
  exists arg, args, artifact, kp, pem, (m_files m1), tm, config, urls, pb, json, (m_outside m1), (m_outside m9).
  split_and!; try done; [by rewrite <- Hf2|exists m1; split_and!; try done; congruence|by rewrite <- Hf9|]. cbn. congruence.
Qed.

(** ** Theorems *)

Section laws.
Context `{!SigstoreGoLaws}.

(** C35: what sign writes is what verify reads: after a run of sign that succeeds, with the key and the
    bundle in two files that are neither the artifact nor the trusted root, verify asks about the
    signed artifact, by its SHA-256 digest, the trusted material against which the bundle was made.
    That material has the signer's key as its only key, under every hint.  The bundle was made with
    the logs of --rekor-url or, without it, with all those that the services of the signing
    configuration, selected for version 2 of the API at the time of NOW or else of the clock, name,
    in their order.  verify prints VERIFIED if the bundle read back is accepted, and otherwise fails
    with the error of the library. *)
Theorem sign_then_verify f m m' arg args
    (Hsign : sign_main f m = (Ok tt, m'))
    (Hargs : sf_args f = arg :: args)
    (Hkb : sf_keyOut f ≠ sf_bundleOut f)
    (Hart : arg ∉ [sf_keyOut f; sf_bundleOut f]) (Hroot : sf_trustedRootPath f ∉ [sf_keyOut f; sf_bundleOut f]) :
  let g := {| vf_bundlePath := sf_bundleOut f; vf_keyPath := sf_keyOut f; vf_trustedRootPath := sf_trustedRootPath f; vf_args := sf_args f |} in
  ∃ artifact kp keyPem fs1 config now urls tm pb json o o',
    ReadFile arg (m_files m) = inr artifact ∧
    GetPublicKeyPem kp = inr keyPem ∧ WriteFile (sf_keyOut f) keyPem (m_files m) = (inr tt, fs1) ∧
    NewSigningConfigFromPath (sf_signingConfigPath f) fs1 = inr config ∧
    (Getenv "NOW" m = "" → now = m_now m) ∧ (Getenv "NOW" m ≠ "" → time_Parse (Getenv "NOW" m) = inr now) ∧
    (sf_rekorURL f ≠ "" → urls = [sf_rekorURL f]) ∧
    (sf_rekorURL f = "" → ∃ services,
      SelectServices (RekorLogURLs config) (RekorLogURLsConfig config) [2] now = inr services ∧ urls = Service_URL <$> services) ∧
    sign_Bundle artifact kp
      {| bo_TrustedRoot := Some tm;
         bo_TransparencyLogs :=
           (λ url, NewRekor {| ro_BaseURL := url; ro_Timeout := 90 * 1000000000; ro_Retries := 0; ro_Version := 2 |}) <$> urls |} o
    = (inr pb, o') ∧
    marshal_bundle pb = inr json ∧ ReadFile (sf_bundleOut f) (m_files m') = inr json ∧
    (∃ der pk sv, pem_Decode keyPem = Some der ∧ ParsePKIXPublicKey der = inr pk ∧
      LoadVerifier pk crypto_SHA256 = inr sv ∧
      ∀ hint, PublicKeyVerifier tm hint = inr {| tcv_verifier := sv; tcv_start := None; tcv_end := None |}) ∧
    ∀ m2, m_files m2 = m_files m' →
      verify_main g m2 =
      match check_bundle g tm artifact (m_files m2) with Ok _ => (Ok tt, printed "VERIFIED" m2) | x => (x, m2) end.
Proof.
  destruct (sign_main_Ok _ _ _ Hsign) as (arg' & args' & artifact & kp & pem & fs1 & tm & config & urls & pb & json & o & o' &
    Ha & Hr & Hpem & Hw1 & (m1 & <- & He1 & Hn1 & Htm & Hu) & Hconf & Hb & Hj & Hw2 & _).
  rewrite Hargs in Ha. injection Ha as <- <-. apply not_elem_of_cons in Hart as [Ha1 [Ha2 _]%not_elem_of_cons].
  apply not_elem_of_cons in Hroot as [Hr1 [Hr2 _]%not_elem_of_cons].
  apply selected_urls_Ok in Hu as (now & Hnow & Hfake & Hone & Hmany).
  assert (Getenv "NOW" m1 = Getenv "NOW" m) as Hget by (unfold Getenv; by rewrite He1). rewrite Hget in Hnow, Hfake. rewrite Hn1 in Hnow.
  exists artifact, kp, pem, (m_files m1), config, now, urls, tm, pb, json, o, o'. split_and!; try done.
  - by eapply ReadFile_written.
  - rewrite material_of_pem_run in Htm. injection Htm as Htm.
    apply bind_Ok in Htm as (der & Hder%deref_Ok & Htm). apply bind_Ok in Htm as (pk & Hpk%lift_Ok & Htm).
    apply bind_Ok in Htm as (sv & Hsv%lift_Ok & Htm). apply bind_Ok in Htm as (tr & _ & Htm). injection Htm as <-.
    exists der, pk, sv. split_and!; try done. intros hint. cbn. unfold vtm_PublicKeyVerifier. cbn. apply (Material_keys (λ _, inr _)).
  - intros m2 Hm2. apply (verify_main_run _ arg args artifact pem); cbn; rewrite ?Hm2; [done| | |].
    + by rewrite (ReadFile_other _ _ _ _ _ _ Hw2 Ha2), (ReadFile_other _ _ _ _ _ _ Hw1 Ha1).
    + rewrite (ReadFile_other _ _ _ _ _ _ Hw2 Hkb). by eapply ReadFile_written.
    + rewrite material_of_pem_run in Htm |- *. injection Htm as <-. f_equal.
      by rewrite (TrustedRoot_reads _ (m_files m2) (m_files m1)) by (by rewrite Hm2, (ReadFile_other _ _ _ _ _ _ Hw2 Hr2)).
Qed.

(** sign does not panic: the PEM form that the library gives of the key can be decoded. *)
Theorem sign_main_no_panic f : io_safe (sign_main f).
Proof.
  unfold sign_main, key, signingConfig, on_files, outside, from_files. destruct (sf_args f) as [|arg args]; [by intros m|].
  apply io_safe_bind; [auto with go|]. intros artifact.
  apply io_safe_bind; [unfold key; repeat (apply io_safe_bind; [auto with go|intros ?]); by intros m|]. intros kp.
  apply io_safe_bind.
  { intros m. unfold sign_trustedMaterialForKey, mbind at 1, io_bind, io_bind_def, pure. destruct (GetPublicKeyPem kp) as [|pem] eqn:Hp; [done|]. cbn.
    rewrite material_of_pem_run. destruct (Pem_decodes _ _ Hp) as [der ->]. cbn.
    destruct (ParsePKIXPublicKey der); [done|]. cbn. destruct (LoadVerifier _ _); [done|]. cbn. by destruct (NewTrustedRootFromPath _ _). }
  intros tm. apply io_safe_bind; [auto with go|]. intros config. apply io_safe_bind.
  { intros m. rewrite discoverRekorURLs_run. unfold selected_urls. cbn. destruct (is_empty (Getenv _ _)); cbn.
    - destruct (is_empty _); [|done]. by destruct (SelectServices _ _ _ _).
    - destruct (time_Parse _); [done|]. cbn. destruct (is_empty _); [|done]. by destruct (SelectServices _ _ _ _). }
  intros urls. repeat (apply io_safe_bind; [auto with go|intros ?]). by intros m.
Qed.
End laws.

(** verify panics exactly when the key file can be read and holds no PEM block: pem.Decode then returns
    a nil block, whose octets are read. *)
Theorem verify_main_panics g m :
  (verify_main g m).1 = Panic ↔
  ∃ arg args artifact pem, vf_args g = arg :: args ∧ ReadFile arg (m_files m) = inr artifact ∧
    ReadFile (vf_keyPath g) (m_files m) = inr pem ∧ pem_Decode pem = None.
Proof.
  unfold verify_main, verify_trustedMaterialForKey, getBundle. destruct (vf_args g) as [|arg args]; [split; [done|by intros (? & ? & ? & ? & ? & _)]|].
  unfold from_files, call, pure, mbind, io_bind, io_bind_def.
  destruct (ReadFile arg (m_files m)) as [e|artifact] eqn:Ha; cbn; [split; [done|intros (? & ? & ? & ? & [= <- <-] & ? & _); congruence]|].
  destruct (ReadFile (vf_keyPath g) (m_files m)) as [e|pem] eqn:Hk; cbn; [split; [done|intros (? & ? & ? & ? & _ & _ & ? & _); congruence]|]. rewrite material_of_pem_run.
  destruct (pem_Decode pem) as [der|] eqn:Hd; cbn; [|by split; [intros _; exists arg, args, artifact, pem|]].
  split; [|intros (? & ? & ? & ? & _ & _ & ? & ?); congruence]. destruct (ParsePKIXPublicKey der); [done|]. cbn. destruct (LoadVerifier _ _); [done|]. cbn.
  destruct (NewTrustedRootFromPath _ _); [done|]. cbn. destruct (LoadJSONFromPath _ _); [done|]. cbn.
  destruct (NewVerifier _ _); [done|]. cbn. by destruct (verify_Verify _ _ _).
Qed.
End sharding.

(** ** A run of both programs *)

Module ShardingExamples.
Import Sample.

(** A small sigstore-go: a key is a serial number, the PEM form adds a label, the bundle is the key's
    signature of the digest, and both logs of the configuration are selected for version 2. *)
Definition pem_label : string := "PEM:".

Definition sample_read {A} (make : bytes → A) (path : string) (fs : os_files) : error + A :=
  match ReadFile path fs with inl e => inl e | inr data => inr (make data) end.

Definition sample_verify (tm : TrustedMaterial bytes) (bundle : bytes) (p : PolicyBuilder) : error + unit :=
  let '(WithArtifactDigest _ digest) := pb_artifact p in
  match PublicKeyVerifier tm "" with inl e => inl e | inr k => verify_message (tcv_verifier k) bundle digest end.

#[export] Instance sigstore_go : SigstoreGo := {|
  Outside := Z * list string;
  Time := string;
  time_Parse := inr;
  pem_Decode := λ d, if HasPrefix d pem_label then Some (TrimPrefix d pem_label) else None;
  EphemeralKeypair := string;
  NewEphemeralKeypair := λ o, (inr ("key" +:+ Itoa o.1), (o.1 + 1, o.2));
  GetPublicKeyPem := λ k, inr (pem_label +:+ k);
  Rekor := string;
  NewRekor := ro_BaseURL;
  TrustedRest := bytes;
  ProtoBundle := bytes;
  sign_Bundle := λ data k opts o, (inr (sign k (Sum256 data)), (o.1, o.2 ++ bo_TransparencyLogs opts));
  marshal_bundle := inr;
  NewTrustedRootFromPath := sample_read (λ d, {| tm_rest := d; PublicKeyVerifier := λ _, inl (ErrorString "no public keys") |});
  NewTrustedPublicKeyMaterial := λ f, {| tm_rest := ""; PublicKeyVerifier := f |};
  SigningConfig := bytes;
  NewSigningConfigFromPath := sample_read (λ d, d);
  Service := string;
  Service_URL := λ s, s;
  ServiceConfiguration := unit;
  RekorLogURLs := λ d, [d; d +:+ "/next"];
  RekorLogURLsConfig := λ _, tt;
  SelectServices := λ l _ versions _, if bool_decide (versions = [2]) then inr l else inl (ErrorString "no matching services");
  Bundle := bytes;
  LoadJSONFromPath := sample_read (λ d, d);
  BundleVerifier := TrustedMaterial bytes;
  NewVerifier := λ tm _, inr tm;
  verify_Verify := sample_verify
|}.

#[export] Instance sigstore_go_laws : SigstoreGoLaws.
Proof.
  split.
  - intros k pem [= <-]. unfold pem_Decode, sigstore_go. rewrite (proj2 (HasPrefix_spec _ _)) by eauto. by eexists.
  - intros path fs fs' Hr. cbn. unfold sample_read. by rewrite Hr.
  - done.
Qed.

Definition sign1 : sign_flags := {|
  sf_rekorURL := ""; sf_bundleOut := "bundle.json"; sf_keyOut := "key.pem"; sf_trustedRootPath := "root.json";
  sf_signingConfigPath := "config.json"; sf_args := ["artifact"] |}.

Definition verify1 : verify_flags := {|
  vf_bundlePath := "bundle.json"; vf_keyPath := "key.pem"; vf_trustedRootPath := "root.json"; vf_args := ["artifact"] |}.

Definition machine1 : machine := {|
  m_files := {| f_data := {[ "artifact" := "data"; "root.json" := "root"; "config.json" := "https://log2" ]}; f_denied := λ _, None |};
  m_outside := (7, []); m_env := ∅; m_now := "now"; m_stdout := [] |}.

Definition signed1 : machine := (sign_main sign1 machine1).2.

Lemma sign1_run : (sign_main sign1 machine1).1 = Ok tt ∧ m_outside signed1 = (8, ["https://log2"; "https://log2/next"]).
Proof. split; vm_compute; reflexivity. Qed.

Lemma verify1_run :
  (verify_main verify1 signed1).1 = Ok tt ∧ m_stdout (verify_main verify1 signed1).2 = ["SIGNED"; "VERIFIED"].
Proof. split; vm_compute; reflexivity. Qed.

(** Without a PEM block in the key file. *)
Lemma verify1_panics :
  (verify_main {| vf_bundlePath := "bundle.json"; vf_keyPath := "artifact"; vf_trustedRootPath := "root.json"; vf_args := ["artifact"] |} signed1).1
  = Panic.
Proof. vm_compute. reflexivity. Qed.

Lemma sign_then_verify_witness :
  ∃ artifact kp tm pb o o', ReadFile "artifact" (m_files machine1) = inr artifact ∧
    sign_Bundle artifact kp {| bo_TrustedRoot := Some tm; bo_TransparencyLogs := ["https://log2"; "https://log2/next"] |} o = (inr pb, o') ∧
    (∃ sv, ∀ hint, PublicKeyVerifier tm hint = inr {| tcv_verifier := sv; tcv_start := None; tcv_end := None |}) ∧
    verify_main verify1 signed1 =
    match check_bundle verify1 tm artifact (m_files signed1) with Ok _ => (Ok tt, printed "VERIFIED" signed1) | x => (x, signed1) end.
Proof.
  destruct (sign_then_verify sign1 machine1 signed1 "artifact" []) as
    (artifact & kp & pem & fs1 & config & now & urls & tm & pb & json & o & o' &
     Hr & Hpem & Hw & Hconf & _ & _ & _ & Hmany & Hb & _ & _ & (_ & _ & sv & _ & _ & _ & Hk) & Hv).
  - unfold signed1. rewrite <- (proj1 sign1_run). by destruct (sign_main sign1 machine1).
  - reflexivity.
  - discriminate.
  - by apply (bool_decide_unpack _).
  - by apply (bool_decide_unpack _).
  - destruct (Hmany eq_refl) as (services & [= <-] & Hurls). injection Hw as <-. injection Hconf as <-.
    rewrite Hurls in Hb. exists artifact, kp, tm, pb, o, o'.
    split; [exact Hr|]. split; [exact Hb|]. split; [by exists sv|exact (Hv signed1 eq_refl)].
Defined.
End ShardingExamples.
