(* ===== verification/SampleLog.v ===== *)
(** * A sample log

    Concrete functions with the documented behaviour of the transparency-log
    libraries, on a log that is a list of bodies.  The root of a tree is the
    concatenation of its leaf hashes, and a proof is the root itself.  They
    show that the laws of [TesseraLib] can hold, and the concrete runs of the
    storage, the service and the client use them. *)
From S2P Require Import Prelude GoErrors GoStrings Base64 SafeInt Proto External IO Note TesseraLib VerifyEntry Storage Service History Concurrent Sample.

Module SampleLog.

(** ** Merkle trees *)

Definition hash_leaf (d : bytes) : bytes := "leaf:" +:+ d +:+ ";".
Definition root_of (leaves : list bytes) : bytes := String.concat "" (hash_leaf <$> leaves).

Definition verify_inclusion (index size : Z) (leaf : bytes) (proof : list bytes) (root : bytes) : error + unit :=
  if bool_decide (proof = [root]) && Contains root leaf && (index <? size)
  then inr tt else inl (ErrorString "calculated root does not match expected root").

Definition verify_consistency (size1 size2 : Z) (proof : list bytes) (root1 root2 : bytes) : error + unit :=
  if (if size1 =? size2 then bool_decide (root1 = root2) else HasPrefix root2 root1 && (size1 <? size2))
  then inr tt else inl (ErrorString "inconsistent").

#[export] Instance merkle : Merkle :=
  {| HashLeaf := hash_leaf; VerifyInclusion := verify_inclusion; VerifyConsistency := verify_consistency |}.

#[export] Instance merkle_laws : MerkleLaws.
Proof.
  split; cbn; unfold verify_consistency.
  - intros n m p r1 r2. destruct (Z.eqb_spec n m); [lia|].
    destruct (_ && _) eqn:Hb; [|done]. apply andb_true_iff in Hb as [_ Hlt%Z.ltb_lt]. lia.
  - intros n p r1 r2. rewrite Z.eqb_refl. by destruct (bool_decide_reflect (r1 = r2)).
Qed.

(** ** Checkpoints: origin, size and base64 root on a line each, then an empty line and a signature *)

Definition newline : string := String "010" "".

(** The first line, and what follows it. *)
Fixpoint cut (s : string) : option (string * string) :=
  match s with
  | EmptyString => None
  | String c s' =>
      if bool_decide (c = "010"%char) then Some ("", s')
      else match cut s' with Some (a, b) => Some (String c a, b) | None => None end
  end.

Definition parse_uint (s : string) : option Z :=
  match digits_val 0 (list_ascii_of_string s) with
  | Some n => if (0 <=? n) && (n <=? MaxUint64) && negb (is_empty s) then Some n else None
  | None => None
  end.

Definition unmarshal (raw : bytes) : error + (f_Checkpoint * bytes) :=
  let bad := inl (ErrorString "invalid checkpoint") in
  match cut raw with
  | Some (origin, l1) =>
      match cut l1 with
      | Some (size, l2) =>
          match cut l2, parse_uint size with
          | Some (hash, rest), Some n =>
              match DecodeString hash with
              | Ok root => inr ({| cp_Origin := origin; cp_Size := n; cp_Hash := root |}, rest)
              | _ => bad
              end
          | _, _ => bad
          end
      | None => bad
      end
  | None => bad
  end.

Definition marshal (cp : f_Checkpoint) : bytes :=
  cp_Origin cp +:+ newline +:+ FormatUint (cp_Size cp) +:+ newline +:+ EncodeToString (cp_Hash cp) +:+ newline.

(** The text of a signed checkpoint is what precedes the empty line. *)
Definition text_of (raw rest : bytes) : bytes := slice_to raw (String.length raw - String.length rest).

Definition parse (raw : bytes) (origin : string) (v : noteVerifier) (others : list noteVerifier)
    : error + (f_Checkpoint * bytes * sumdb_Note) :=
  match unmarshal raw with
  | inl e => inl e
  | inr (cp, rest) =>
      let text := text_of raw rest in
      let sig64 := TrimPrefix rest newline in
      match DecodeString sig64 with
      | Ok sig =>
          if bool_decide (cp_Origin cp = origin) && nv_verify v text sig
          then inr (cp, "", {| note_Text := text;
                               note_Sigs := [{| sig_Name := nv_name v; sig_Hash := nv_hash v; sig_Base64 := sig64 |}];
                               note_UnverifiedSigs := [] |})
          else inl (ErrorString "malformed note")
      | _ => inl (ErrorString "malformed note")
      end
  end.

Definition sign_note (n : sumdb_Note) (signers : list noteSigner) : error + bytes :=
  match signers with
  | s :: _ => match ns_sign s (note_Text n) with
              | inl e => inl e
              | inr sig => inr (note_Text n +:+ newline +:+ EncodeToString sig)
              end
  | [] => inl (ErrorString "no signers")
  end.

(** The text before the last line, and the last line. *)
Definition cut_last (s : string) : option (string * string) :=
  match cut (string_of_list_ascii (reverse (list_ascii_of_string s))) with
  | Some (a, b) => Some (string_of_list_ascii (reverse (list_ascii_of_string b)),
                         string_of_list_ascii (reverse (list_ascii_of_string a)))
  | None => None
  end.

Definition open_note (raw : bytes) (vs : list noteVerifier) : error + sumdb_Note :=
  match cut_last raw, vs with
  | Some (text, sig64), v :: _ =>
      match DecodeString sig64 with
      | Ok sig =>
          if nv_verify v text sig
          then inr {| note_Text := text;
                      note_Sigs := [{| sig_Name := nv_name v; sig_Hash := nv_hash v; sig_Base64 := sig64 |}];
                      note_UnverifiedSigs := [] |}
          else inl (ErrorString "note has no verifiable signatures")
      | _ => inl (ErrorString "malformed note")
      end
  | _, _ => inl (ErrorString "malformed note")
  end.

#[export] Instance log_format : LogFormat :=
  {| Unmarshal := unmarshal; Marshal := marshal; ParseCheckpoint := parse; note_Sign := sign_note; note_Open := open_note |}.

Lemma prefix_substring n s : String.prefix (String.substring 0 n s) s = true.
Proof.
  revert n. induction s as [|c s IH]; intros [|n]; try done. cbn.
  destruct (ascii_dec c c); [apply IH|congruence].
Qed.

Lemma parse_uint_range s n : parse_uint s = Some n → is_uint64 n.
Proof.
  unfold parse_uint, is_uint64. destruct (digits_val _ _) as [m|]; [|discriminate].
  destruct (_ && _) eqn:Hb; [|discriminate]. intros [= <-].
  apply andb_true_iff in Hb as [[H1 H2]%andb_true_iff _]. lia.
Qed.

Lemma unmarshal_uint64 raw cp rest : unmarshal raw = inr (cp, rest) → is_uint64 (cp_Size cp).
Proof.
  unfold unmarshal. destruct (cut raw) as [[origin l1]|]; [|discriminate].
  destruct (cut l1) as [[size l2]|]; [|discriminate]. destruct (cut l2) as [[hash rest']|]; [|discriminate].
  destruct (parse_uint size) as [n|] eqn:Hn; [|discriminate].
  destruct (DecodeString hash); [|discriminate..]. intros [= <- <-]. by apply parse_uint_range in Hn.
Qed.

Lemma cut_app s t : "010"%char ∉ list_ascii_of_string s → cut (s +:+ newline +:+ t) = Some (s, t).
Proof.
  induction s as [|c s IH]; intros Hn; [done|]. cbn in *. apply not_elem_of_cons in Hn as [Hc Hn].
  rewrite bool_decide_false by congruence. cbn in IH. by rewrite IH.
Qed.

Lemma cut_line s a b : cut s = Some (a, b) → "010"%char ∉ list_ascii_of_string a.
Proof.
  revert a. induction s as [|c s IH]; intros a; cbn; [done|].
  destruct (bool_decide (c = "010"%char)) eqn:Hc; [by intros [= <- _]; set_solver|].
  apply bool_decide_eq_false in Hc. destruct (cut s) as [[a' b']|]; [|done]. intros [= <- <-]. cbn.
  apply not_elem_of_cons. split; [congruence|by apply IH].
Qed.

Lemma cut_inv s a b : cut s = Some (a, b) → s = a +:+ newline +:+ b.
Proof.
  revert a. induction s as [|c s IH]; intros a; cbn; [done|].
  destruct (bool_decide (c = "010"%char)) eqn:Hc; [apply bool_decide_eq_true in Hc as ->; by intros [= <- <-]|].
  destruct (cut s) as [[a' b']|]; [|done]. intros [= <- <-]. cbn. f_equal. by apply IH.
Qed.

(** The lines that are read are the text of the checkpoint, without the rest. *)
Lemma unmarshal_text_of raw cp rest : unmarshal raw = inr (cp, rest) → unmarshal (text_of raw rest) = inr (cp, "").
Proof.
  unfold unmarshal. destruct (cut raw) as [[origin l1]|] eqn:H1; [|discriminate].
  destruct (cut l1) as [[size l2]|] eqn:H2; [|discriminate]. destruct (cut l2) as [[hash rest']|] eqn:H3; [|discriminate].
  destruct (parse_uint size) as [n|] eqn:Hn; [|discriminate]. destruct (DecodeString hash) as [root| |] eqn:Hd; [|discriminate..].
  intros [= <- <-].
  assert (text_of raw rest' = origin +:+ newline +:+ size +:+ newline +:+ hash +:+ newline +:+ "") as ->.
  { rewrite (cut_inv _ _ _ H1), (cut_inv _ _ _ H2), (cut_inv _ _ _ H3).
    replace (origin +:+ newline +:+ size +:+ newline +:+ hash +:+ newline +:+ rest')
      with ((origin +:+ newline +:+ size +:+ newline +:+ hash +:+ newline +:+ "") +:+ rest') by (by rewrite !append_assoc).
    unfold text_of, slice_to. rewrite length_append, Nat.add_sub. apply substring_append_l. }
  apply cut_line in H1, H2, H3. by rewrite !cut_app, Hn, Hd by done.
Qed.

Lemma parse_inv raw origin v vs cp rest n :
  parse raw origin v vs = inr (cp, rest, n) →
  ∃ rest', unmarshal raw = inr (cp, rest') ∧ cp_Origin cp = origin ∧ rest = "" ∧ note_Text n = text_of raw rest' ∧
    ∃ sig, nv_verify v (text_of raw rest') sig = true.
Proof.
  unfold parse. destruct (unmarshal raw) as [e|[cp' rest']]; [discriminate|].
  destruct (DecodeString _) as [sig|e|]; [|discriminate..].
  destruct (bool_decide _ && _) eqn:Hb; [|discriminate]. intros [= <- <- <-].
  apply andb_true_iff in Hb as [Ho%bool_decide_eq_true Hv]. exists rest'. split_and!; eauto.
Qed.

#[export] Instance log_format_laws : LogFormatLaws.
Proof.
  split; cbn.
  - intros * (rest' & Hu & _)%parse_inv. eauto.
  - intros * (rest' & _ & Ho & _)%parse_inv. done.
  - intros * (rest' & _ & _ & _ & -> & Hv)%parse_inv. split; [apply prefix_substring|done].
  - intros * (rest' & Hu & _ & -> & -> & _)%parse_inv. by apply unmarshal_text_of.
  - intros. by eexists.
  - apply unmarshal_uint64.
Qed.

(** *** The laws of notes *)

Lemma digits_no_newline l z : is_Some (digits_val z l) → "010"%char ∉ l.
Proof.
  revert z. induction l as [|c l IH]; intros z; [set_solver|]. cbn [digits_val].
  destruct (digit_of c) as [d|] eqn:Hc; [|by intros [??]]. intros Hl%IH Hin.
  apply elem_of_cons in Hin as [<-|?]; done.
Qed.

Lemma encode_newline s : "010"%char ∉ list_ascii_of_string (EncodeToString s).
Proof.
  unfold EncodeToString. rewrite list_ascii_of_string_of_list_ascii, <-encode_no_newline.
  intros [_ Hin]%list_elem_of_In%filter_In. discriminate.
Qed.

Lemma parse_uint_FormatUint n : is_uint64 n → parse_uint (FormatUint n) = Some n.
Proof.
  intros [H1 H2]. unfold parse_uint. rewrite digits_val_FormatUint by done.
  assert (is_empty (FormatUint n) = false) as ->.
  { destruct (pretty_N_head (Z.to_N n)) as (c & l & Hl & _). unfold FormatUint. by destruct (pretty (Z.to_N n)). }
  rewrite (proj2 (Z.leb_le _ _) H1), (proj2 (Z.leb_le _ _) H2). done.
Qed.

(** A checkpoint can be written when its origin is one line and its size a uint64. *)
Lemma unmarshal_text cp ext :
  "010"%char ∉ list_ascii_of_string (cp_Origin cp) → is_uint64 (cp_Size cp) →
  unmarshal (marshal cp +:+ ext) = inr (cp, ext).
Proof.
  intros Hc Hsz. unfold unmarshal, marshal. rewrite !append_assoc.
  rewrite cut_app by done. rewrite cut_app.
  2: { eapply digits_no_newline. rewrite digits_val_FormatUint by apply Hsz. eauto. }
  rewrite cut_app by apply encode_newline. rewrite parse_uint_FormatUint by done.
  rewrite DecodeString_EncodeToString. by destruct cp.
Qed.

Lemma unmarshal_marshal raw cp rest ext :
  unmarshal raw = inr (cp, rest) → unmarshal (marshal cp +:+ ext) = inr (cp, ext).
Proof.
  intros Hu. apply unmarshal_text; [|by eapply unmarshal_uint64]. unfold unmarshal in Hu.
  destruct (cut raw) as [[origin l1]|] eqn:Hc; [|discriminate]. apply cut_line in Hc.
  destruct (cut l1) as [[size l2]|]; [|discriminate]. destruct (cut l2) as [[hash rest']|]; [|discriminate].
  destruct (parse_uint size); [|discriminate]. destruct (DecodeString hash); [|discriminate..]. by injection Hu as <- _.
Qed.

Lemma cut_last_app s t : "010"%char ∉ list_ascii_of_string t → cut_last (s +:+ newline +:+ t) = Some (s, t).
Proof.
  intros Ht. unfold cut_last.
  assert (string_of_list_ascii (reverse (list_ascii_of_string (s +:+ newline +:+ t))) =
    string_of_list_ascii (reverse (list_ascii_of_string t)) +:+ newline +:+
    string_of_list_ascii (reverse (list_ascii_of_string s))) as ->.
  { assert (∀ x y, list_ascii_of_string (x +:+ y) = list_ascii_of_string x ++ list_ascii_of_string y) as Happ
      by (intros x y; induction x; cbn; congruence).
    assert (∀ x y, string_of_list_ascii (x ++ y) = string_of_list_ascii x +:+ string_of_list_ascii y) as Happ'
      by (intros x y; induction x; cbn; congruence).
    rewrite !Happ, !reverse_app, !Happ'. rewrite append_assoc. done. }
  rewrite cut_app; [|by rewrite list_ascii_of_string_of_list_ascii, elem_of_reverse].
  by rewrite !list_ascii_of_string_of_list_ascii, !reverse_involutive, !string_of_list_ascii_of_string.
Qed.

#[export] Instance note_laws : NoteLaws.
Proof.
  split; [|intros raw cp rest ext; apply unmarshal_marshal].
  - intros n s v raw Hs [_ _ Hm]. cbn [note_Sign note_Open log_format sign_note] in *. destruct (ns_sign s (note_Text n)) as [e|sig] eqn:Hsig; [discriminate|].
    assert (raw = note_Text n +:+ newline +:+ EncodeToString sig) as -> by congruence.
    unfold open_note. rewrite cut_last_app by apply encode_newline.
    rewrite DecodeString_EncodeToString, (Hm _ _ Hsig). by eexists.
Qed.

(** ** The log *)

Definition sample_key : bytes := "logkey".
Definition sample_origin : string := "log.example".
Definition verifier : noteVerifier :=
  {| nv_name := sample_origin; nv_hash := 7;
     nv_verify := λ msg sig, bool_decide (sig = Sample.sign sample_key msg) |}.

(** The signed checkpoint of a list of bodies. *)
Definition checkpoint_of (leaves : list bytes) : bytes :=
  let text := marshal {| cp_Origin := sample_origin; cp_Size := Z.of_nat (length leaves); cp_Hash := root_of leaves |} in
  text +:+ newline +:+ EncodeToString (Sample.sign sample_key text).

(** An entry is its body; a future holds the index and whether it is a duplicate, or nothing if the
    entry was refused. *)
Definition position (d : bytes) (leaves : list bytes) : option nat :=
  fst <$> list_find (λ x, x = d) leaves.

Definition append (d : bytes) (leaves : list bytes) : option tessera_Index * list bytes :=
  match position d leaves with
  | Some n => (Some {| Index_Index := Z.of_nat n; IsDup := true |}, leaves)
  | None => (Some {| Index_Index := Z.of_nat (length leaves); IsDup := false |}, leaves ++ [d])
  end.

(** An appender under pressure refuses every entry. *)
Definition append_pushback (d : bytes) (leaves : list bytes) : option tessera_Index * list bytes :=
  (None, leaves).
Definition pushback : error := Wrapf "too many outstanding: " (Sentinel ErrPushback "pushback").

(** The checkpoint that the configured signer publishes. *)
Definition read_checkpoint (signer : option noteSigner) (leaves : list bytes) : error + bytes :=
  match signer with
  | None => inl (ErrorString "no checkpoint signer")
  | Some s =>
      let cp := {| cp_Origin := ns_name s; cp_Size := Z.of_nat (length leaves); cp_Hash := root_of leaves |} in
      if bool_decide ("010"%char ∈ list_ascii_of_string (cp_Origin cp)) || (MaxUint64 <? cp_Size cp)
      then inl (ErrorString "invalid checkpoint")
      else sign_note {| note_Text := marshal cp; note_Sigs := []; note_UnverifiedSigs := [] |} [s]
  end.

Definition signer : noteSigner :=
  {| ns_name := sample_origin; ns_hash := 7; ns_sign := λ msg, inr (Sample.sign sample_key msg) |}.

(** An awaiter is the function that reads the current checkpoint. *)
Definition checkpoint_reader : Type := list bytes → (error + bytes) * list bytes.
Definition reader_of (s : option noteSigner) : checkpoint_reader := λ w, (read_checkpoint s w, w).

Definition await (read : checkpoint_reader) (f : option tessera_Index) (leaves : list bytes)
    : (error + (tessera_Index * bytes)) * list bytes :=
  match f with
  | None => (inl pushback, leaves)
  | Some ix =>
      if (0 <=? Index_Index ix) && (Index_Index ix <=? MaxUint64)
      then match read leaves with
           | (inr raw, leaves') => (inr (ix, raw), leaves')
           | (inl _, leaves') => (inl (ErrorString "reading checkpoint"), leaves')
           end
      else (inl (ErrorString "bad index"), leaves)
  end.

#[export] Instance tessera : Tessera := {|
  World := list bytes;
  tessera_Entry := bytes;
  NewEntry := id;
  Data := id;
  LeafHash := hash_leaf;
  IndexFuture := option tessera_Index;
  PublicationAwaiter := checkpoint_reader;
  NewPublicationAwaiter := λ read _, read;
  Await := await;
  ProofBuilder := bytes;
  NewProofBuilder := λ _ readTile w,
    match readTile 0 0 0 w with (Ok t, w') => (inr t, w') | (Err e, w') => (inl e, w') | (Panic, w') => (inl (ErrorString "panic"), w') end;
  ProofBuilder_InclusionProof := λ pb _ w, (inr [pb], w);
  AppendOptions := option noteSigner;
  tessera_NewAppendOptions := None;
  WithCheckpointSigner := λ _ s, Some s;
  WithBatching := λ o _ _, o;
  WithCheckpointInterval := λ o _, o;
  WithPushback := λ o _, o;
  Antispam := unit;
  WithAntispam := λ o _ _, o;
  WitnessGroup := bytes;
  NewWitnessGroupFromPolicy := inr;
  WithWitnesses := λ o _ _, o;
  Driver := unit;
  Appender := unit;
  Appender_Add := λ _, append;
  LogReader := option noteSigner;
  ReadCheckpoint := reader_of;
  LogReader_ReadTile := λ _ _ _ _ w, (inr (root_of w), w);
  NewAppender := λ _ o w, (inr (tt, (λ w, (inr tt, w)), o), w)
|}.

Lemma await_inv read f w ix raw w' :
  await read f w = (inr (ix, raw), w') → is_uint64 (Index_Index ix) ∧ read w = (inr raw, w').
Proof.
  unfold await. destruct f as [ix'|]; [|done]. destruct (_ && _) eqn:Hb; [|done].
  destruct (read w) as [[e|raw'] w1]; [done|]. intros [= <- <- <-]. split; [|done].
  apply andb_true_iff in Hb as [H1 H2]. unfold is_uint64. lia.
Qed.

#[export] Instance tessera_laws : TesseraLaws.
Proof. split; [done|done|]. cbn. by intros * []%await_inv. Qed.

Lemma text_of_app text rest : text_of (text +:+ rest) rest = text.
Proof.
  unfold text_of, slice_to. rewrite length_append, Nat.add_sub.
  induction text as [|c t IH]; cbn; [by destruct rest|]. by rewrite IH.
Qed.

(** What the configured signer publishes parses under a matching verifier. *)
Lemma read_checkpoint_parses s v w raw :
  read_checkpoint (Some s) w = inr raw → matching s v → ∃ cp rest n, parse raw (nv_name v) v [] = inr (cp, rest, n).
Proof.
  intros Hr [Hname _ Hsig]. cbn [read_checkpoint] in Hr.
  set (cp := {| cp_Origin := ns_name s; cp_Size := Z.of_nat (length w); cp_Hash := root_of w |}) in *.
  destruct (_ || _) eqn:Hb; [discriminate|].
  apply orb_false_iff in Hb as [Ho%bool_decide_eq_false Hsz%Z.ltb_ge]. cbn [sign_note note_Text] in Hr.
  destruct (ns_sign s (marshal cp)) as [e|sig] eqn:Hs; [discriminate|].
  assert (raw = marshal cp +:+ newline +:+ EncodeToString sig) as -> by congruence.
  unfold parse. rewrite unmarshal_text by (done || (unfold is_uint64; cbn; cbn in Hsz; lia)).
  rewrite text_of_app.
  assert (TrimPrefix (newline +:+ EncodeToString sig) newline = EncodeToString sig) as -> by apply TrimPrefix_append.
  rewrite DecodeString_EncodeToString. rewrite (Hsig _ _ Hs), bool_decide_true by done. cbn. eauto.
Qed.

#[export] Instance checkpoint_signing : CheckpointSigning.
Proof.
  refine (Build_CheckpointSigning _ _ (λ o s, o = Some s) _ _ _ _ _ _ _); try done.
  cbn. intros driver opts w0 appender shutdown reader w1 s v period f w ix raw w' Hnew -> Hm Haw.
  injection Hnew as _ _ <- _. apply await_inv in Haw as [_ Hr]. injection Hr as Hr _.
  by eapply read_checkpoint_parses.
Defined.

(** A future is issued for an entry that has the future's index. *)
Definition issued_for (w : list bytes) (f : option tessera_Index) (d : bytes) : Prop :=
  match f with None => True | Some ix => w !! Z.to_nat (Index_Index ix) = Some d end.

Lemma append_issues d w f w' : append d w = (f, w') → issued_for w' f d ∧ w `prefix_of` w'.
Proof.
  unfold append, position. destruct (list_find _ w) as [[n x]|] eqn:Hf; cbn; intros [= <- <-]; cbn; rewrite Nat2Z.id.
  - by apply list_find_Some in Hf as (? & -> & _).
  - split; [by apply list_lookup_middle|by apply prefix_app_r].
Qed.

Lemma await_same s f w x w' : await (reader_of s) f w = (x, w') → w' = w.
Proof.
  unfold await, reader_of. destruct f as [ix|]; [|by intros [= _ <-]].
  destruct (_ && _); [|by intros [= _ <-]]. destruct (read_checkpoint s w); by intros [= _ <-].
Qed.

Lemma await_index read ix w iy raw w' : await read (Some ix) w = (inr (iy, raw), w') → iy = ix.
Proof. unfold await. destruct (_ && _); [|done]. destruct (read w) as [[]]; by intros [= <- _ _]. Qed.

#[export] Instance append_only : AppendOnly.
Proof.
  refine (Build_AppendOnly _ (id : World → list bytes) issued_for _ _ _ _ _ _ _); cbn; unfold id.
  - intros w w' [ix|] d; cbn; [|done]. apply prefix_lookup_Some.
  - intros driver opts w0 app sd rd w1 e w f w' _ Ha. exact (append_issues _ _ _ _ Ha).
  - intros rd period f w x w' Ha. by rewrite (await_same _ _ _ _ _ Ha).
  - intros rd period [ix|] d w iy raw w' Hi Ha; [|done]. by rewrite (await_same _ _ _ _ _ Ha), (await_index _ _ _ _ _ _ Ha).
  - done.
  - intros n read Hr w. specialize (Hr 0 0 0 w). by destruct (read 0 0 0 w) as [[] ?].
  - done.
Defined.

(** The errors of the sample libraries are texts. *)
Lemma await_foreign read f w e w' : await read f w = (inl e, w') → foreign e.
Proof.
  unfold await. destruct f as [ix|]; [|by intros [= <- _]]. destruct (_ && _); [|by intros [= <- _]].
  destruct (read w) as [[e'|raw] w1]; by intros [= <- _].
Qed.

Lemma unmarshal_foreign raw e : unmarshal raw = inl e → foreign e.
Proof. unfold unmarshal. repeat case_match; by intros [= <-]. Qed.

#[export] Instance foreign_errors : ForeignErrors.
Proof.
  split; cbn.
  - intros a f w e w'. apply await_foreign.
  - done.
  - intros n read Hr w e w'. destruct (read 0 0 0 w) as [[t|e1|] w1] eqn:He; [done|intros [= <- _]; by eapply Hr|by intros [= <- _]].
  - done.
  - apply unmarshal_foreign.
  - intros i n leaf p root e. unfold verify_inclusion. destruct (_ && _); [done|]. by intros [= <-].
Qed.

(** A storage on the sample log, one under pressure, and one whose tiles are wrong. *)
Definition store : storage :=
  {| origin := sample_origin; awaiter := reader_of (Some signer) : PublicationAwaiter; addFn := append;
     readTileFn := λ _ _ _ w, (inr (root_of w), w) |}.
Definition store_pushback : storage :=
  {| origin := sample_origin; awaiter := reader_of (Some signer) : PublicationAwaiter; addFn := append_pushback;
     readTileFn := λ _ _ _ w, (inr (root_of w), w) |}.
Definition store_bad_tiles : storage :=
  {| origin := sample_origin; awaiter := reader_of (Some signer) : PublicationAwaiter; addFn := append;
     readTileFn := λ _ _ _ w, (inr "tampered", w) |}.

(** JSON: the kind and the digest or payload hash of an entry. *)
Definition json_of (e : Entry) : error + bytes :=
  match Entry_Spec e ≫= Spec_Spec with
  | Some (Spec_HashedRekordV002 (Some hr)) =>
      inr (Kind e +:+ ":" +:+ match hre_Data hr with Some d => EncodeToString (Digest d) | None => "" end)
  | Some (Spec_DsseV002 (Some ds)) =>
      inr (Kind e +:+ ":" +:+ match dse_PayloadHash ds with Some d => EncodeToString (Digest d) | None => "" end)
  | _ => inl (ErrorString "proto: invalid entry")
  end.

#[export] Instance json : JsonLib := {| protojson_Marshal := json_of; Transform := inr |}.

End SampleLog.
