(* ===== verification/LogExamples.v ===== *)
(** * Concrete runs of the storage, the service and the client

    A request goes through the whole program on the sample log: it is
    validated, added, answered with a proof, and the answer is verified. *)
From S2P Require Import Prelude GoErrors GoStrings Base64 SafeInt Proto External IO Threads Note TesseraLib VerifyEntry Storage HashedRekord Dsse Service History Concurrent Pool Sample SampleLog.

Module LogExamples.
Import Sample SampleLog.

(** ** A request and the server's answer *)

Definition request (digest : bytes) : option CreateEntryRequest := Some {|
  Request_Spec := Some (CreateEntryRequest_HashedRekordRequestV002 (Some {|
    hr_Digest := digest;
    hr_Signature := Some {|
      Content := sign "alice" digest;
      Signature_Verifier := Some {|
        Verifier_Verifier := Some (Verifier_PublicKey (Some {| pk_RawBytes := "alice" |}));
        KeyDetails := PKIX_ED25519_PH |} |} |})) |}.

Definition registry : @AlgorithmRegistryConfig sigstore := [PKIX_ED25519_PH].
Definition server (s : storage) : Server := tessera_server s registry "logid".
Definition start (w : list bytes) : rpc World := @Build_rpc World w [] (Build_counters 0 0 0 0).

Definition body1 : bytes := "hashedrekord:ZDE=".
Definition entry1 : Entry :=
  match HashedRekord.ToLogEntry
    (match GetSpec (request "d1") with Some (CreateEntryRequest_HashedRekordRequestV002 hr) => hr | _ => None end)
    (Some registry) with Ok e => e | _ => {| Kind := ""; ApiVersion := ""; Entry_Spec := None |} end.

Definition leaves1 : list bytes := ["older"; body1].

Definition proof1 : InclusionProof := {|
  ip_LogIndex := 1; ip_RootHash := root_of leaves1; ip_TreeSize := 2; ip_Hashes := [root_of leaves1];
  ip_Checkpoint := Some {| Envelope := checkpoint_of leaves1 |} |}.

Definition stored1 : TransparencyLogEntry := {|
  tle_LogIndex := 1; tle_LogId := None; tle_KindVersion := None;
  tle_InclusionProof := Some proof1; tle_CanonicalizedBody := body1 |}.

Definition answer1 : TransparencyLogEntry := {|
  tle_LogIndex := 1; tle_LogId := Some "logid";
  tle_KindVersion := Some {| kv_Kind := "hashedrekord"; kv_Version := "0.0.2" |};
  tle_InclusionProof := Some proof1; tle_CanonicalizedBody := body1 |}.

Definition checkpoint1 : f_Checkpoint := {| cp_Origin := sample_origin; cp_Size := 2; cp_Hash := root_of leaves1 |}.

Definition CreateEntry1 (s : storage) := CreateEntry order_id order_id order_id (server s).

Lemma storage_run : Add (storage_impl store) (NewEntry body1) ["older"] = (Ok stored1, leaves1).
Proof. vm_compute. reflexivity. Qed.

Lemma service_run :
  CreateEntry1 store (request "d1") (start ["older"]) =
  (Ok answer1, Build_rpc leaves1 [("x-http-code", "201")] (Build_counters 1 0 0 0)).
Proof. vm_compute. reflexivity. Qed.

Lemma request_canonical s : canonical_body order_id order_id order_id (server s) (request "d1") entry1 NewHashedRekordEntries body1.
Proof. split; [vm_compute; reflexivity|]. eexists. split; vm_compute; reflexivity. Qed.

Lemma client_run : VerifyLogEntry answer1 verifier = Ok tt.
Proof. vm_compute. reflexivity. Qed.

(** ** Witnesses: verification *)

Lemma VerifyLogEntry_iff_witness :
  ∃ ip cp rest n, tle_InclusionProof answer1 = Some ip ∧
    ParseCheckpoint (GetEnvelope (ip_Checkpoint ip)) (nv_name verifier) verifier [] = inr (cp, rest, n) ∧
    included answer1 (ip_Hashes ip) cp.
Proof.
  apply (VerifyLogEntry_iff answer1 verifier).
  - cbn. unfold is_int64, MaxInt64. lia.
  - exact client_run.
Defined.

Lemma VerifyLogEntry_sound_witness :
  ∃ ip cp, tle_InclusionProof answer1 = Some ip ∧
    signed_checkpoint verifier (GetEnvelope (ip_Checkpoint ip)) cp ∧ included answer1 (ip_Hashes ip) cp.
Proof.
  apply (VerifyLogEntry_sound answer1 verifier).
  - cbn. unfold is_int64, MaxInt64. lia.
  - exact client_run.
Defined.

Lemma VerifyLogEntry_no_panic_witness :
  no_panic (VerifyLogEntry {| tle_LogIndex := 0; tle_LogId := None; tle_KindVersion := None;
                              tle_InclusionProof := None; tle_CanonicalizedBody := "" |} verifier).
Proof. apply VerifyLogEntry_no_panic. Defined.

Lemma consistency_no_rollback_witness :
  ∃ cp1 cp2, signed_checkpoint verifier (checkpoint_of ["older"]) cp1 ∧ signed_checkpoint verifier (checkpoint_of leaves1) cp2 ∧
    VerifyConsistency (cp_Size cp1) (cp_Size cp2) [] (cp_Hash cp1) (cp_Hash cp2) = inr tt ∧
    cp_Size cp1 ≤ cp_Size cp2 ∧ (cp_Size cp1 = cp_Size cp2 → cp1 = cp2).
Proof.
  apply (consistency_no_rollback [] (checkpoint_of ["older"]) (checkpoint_of leaves1) verifier). vm_compute. reflexivity.
Defined.

(** ** Witnesses: storage *)

Lemma storage_Add_sound_witness :
  ∃ ip cp, self_contained body1 stored1 ip cp ∧ VerifyInclusionProof stored1 cp = Ok tt.
Proof. apply (storage_Add_sound store body1 ["older"] stored1 leaves1). exact storage_run. Defined.

Lemma storage_Add_cases_witness :
  storage_Add store "older" ["older"] = (Err (DuplicateError 0), ["older"]).
Proof.
  apply (storage_Add_cases store "older" ["older"] (Some {| Index_Index := 0; IsDup := true |}) ["older"]);
    [reflexivity|unfold MaxInt64; cbn; lia|reflexivity].
Defined.

Lemma buildProof_verifies_witness :
  buildProof store_bad_tiles {| u := 1; i := 1 |} (checkpoint_of leaves1) (hash_leaf body1) leaves1 =
  (Err (InclusionProofVerificationError 1 (ErrorString "calculated root does not match expected root")), leaves1).
Proof.
  apply (buildProof_verifies store_bad_tiles {| u := 1; i := 1 |} (checkpoint_of leaves1) (hash_leaf body1) leaves1
    checkpoint1 (newline +:+ EncodeToString (sign sample_key (marshal checkpoint1))) "tampered" leaves1 ["tampered"] leaves1
    (ErrorString "calculated root does not match expected root"));
    [vm_compute; reflexivity|cbn; unfold MaxInt64; lia|vm_compute; reflexivity..].
Defined.

(** ** Witnesses: service *)

Lemma CreateEntry_only_valid_logged_witness :
  Build_rpc leaves1 [("x-http-code", "201")] (Build_counters 1 0 0 0) = start ["older"] ∧ ¬ is_Ok (Ok answer1) ∨
  ∃ e c body, canonical_body order_id order_id order_id (server store) (request "d1") e c body ∧
    leaves1 = (Add (storage_impl store) (NewEntry body) ["older"]).2.
Proof.
  apply (CreateEntry_only_valid_logged order_id order_id order_id (storage_impl store) (Some registry) "logid"
    (request "d1") (start ["older"]) (Ok answer1) (Build_rpc leaves1 [("x-http-code", "201")] (Build_counters 1 0 0 0))).
  exact service_run.
Defined.

Lemma CreateEntry_success_witness :
  ∃ e c body ip cp, canonical_body order_id order_id order_id (server store) (request "d1") e c body ∧
    self_contained body answer1 ip cp ∧ tle_LogId answer1 = Some "logid" ∧
    tle_KindVersion answer1 = Some {| kv_Kind := Kind e; kv_Version := "0.0.2" |} ∧
    [("x-http-code", "201")] = [] ++ [(httpStatusCodeHeader, "201")] ∧
    Build_counters 1 0 0 0 = Inc c (Build_counters 0 0 0 0) ∧
    (Kind e = "hashedrekord" ∧ c = NewHashedRekordEntries ∨ Kind e = "dsse" ∧ c = NewDsseEntries).
Proof.
  apply (CreateEntry_success order_id order_id order_id (storage_impl store) (Some registry) "logid"
    (request "d1") (start ["older"]) answer1 (Build_rpc leaves1 [("x-http-code", "201")] (Build_counters 1 0 0 0))).
  exact service_run.
Defined.

Lemma CreateEntry_sequencer_errors_witness :
  CreateEntry1 store_pushback (request "d1") (start ["older"]) =
  (Err (StatusError Unavailable "reached max pushback; retry"), start ["older"]).
Proof.
  refine (proj1 (CreateEntry_sequencer_errors order_id order_id order_id store_pushback registry "logid" (request "d1")
    entry1 NewHashedRekordEntries body1 (start ["older"])
    None ["older"]
    (request_canonical store_pushback) eq_refl)
    (Wrapf "too many outstanding: " (Sentinel ErrPushback "pushback")) ["older"] eq_refl _).
  reflexivity.
Defined.

Lemma CreateEntry_no_panic_witness :
  io_safe (CreateEntry order_id order_id order_id (NewServer (Some (storage_impl store)) false (Some registry) "logid") (request "d1")).
Proof. apply (CreateEntry_no_panic order_id order_id order_id (storage_impl store)). by eexists. Defined.

(** ** Witnesses: calls in flight *)

Lemma storage_new :
  NewStorage sample_origin (tt : Driver) (Some signer : AppendOptions) ["older"] = (Ok (store, λ w, (inr tt, w)), ["older"]).
Proof. reflexivity. Qed.

(** A schedule: whose turn it is. *)
Definition next (σ : server_state) (i : nat) : option server_state :=
  c ← ss_calls σ !! i;
  '(c', w', m') ← advance c (ss_log σ) (ss_metrics σ);
  Some {| ss_log := w'; ss_metrics := m'; ss_calls := <[i := c']> (ss_calls σ) |}.

Fixpoint schedule (σ : server_state) (turns : list nat) : option server_state :=
  match turns with [] => Some σ | i :: turns => σ' ← next σ i; schedule σ' turns end.

Lemma next_proceeds σ i σ' : next σ i = Some σ' → proceeds σ σ'.
Proof.
  unfold next. destruct (ss_calls σ !! i) as [c|] eqn:Hi; cbn; [|done].
  destruct (advance c _ _) as [[[c' w'] m']|] eqn:Ha; [|done]. destruct σ as [w m cs]. cbn in *. intros [= <-].
  by eapply proceed.
Qed.

Lemma schedule_steps σ turns σ' : schedule σ turns = Some σ' → nsteps proceeds (length turns) σ σ'.
Proof.
  revert σ. induction turns as [|i turns IH]; intros σ; cbn; [intros [= <-]; constructor|].
  destruct (next σ i) as [σ1|] eqn:Hn; [|done]. intros Hs. eapply nsteps_l; [by eapply next_proceeds|by apply IH].
Qed.

Lemma schedule_reached st reg id σ turns σ' : schedule σ turns = Some σ' → rtc (pool_step st reg id) σ σ'.
Proof.
  intros Hs%schedule_steps. induction Hs; [done|]. eapply rtc_l; [by apply step_proceed|done].
Qed.

(** Two clients post the same entry at the same time, and another writer comes in between. *)
Definition idle1 : server_state := {| ss_log := ["older"] : World; ss_metrics := Build_counters 0 0 0 0; ss_calls := [] |}.
Definition call1 : rpc_call := spawn order_id order_id order_id store registry "logid" (request "d1").
Definition busy1 : server_state :=
  {| ss_log := ["older"] : World; ss_metrics := Build_counters 0 0 0 0; ss_calls := [call1; call1] |}.
Definition later1 : server_state := default idle1 (schedule busy1 [0; 1; 1; 0; 0]%nat).
Definition other1 : server_state :=
  {| ss_log := (ss_log later1 ++ ["other"]) : World; ss_metrics := ss_metrics later1; ss_calls := ss_calls later1 |}.
Definition done1 : server_state := default idle1 (schedule other1 [1; 0; 0; 0]%nat).

Definition moves (σ : server_state) (turns : list nat) : bool := if schedule σ turns then true else false.

Lemma moves_schedule σ turns : moves σ turns = true → schedule σ turns = Some (default idle1 (schedule σ turns)).
Proof. unfold moves. by destruct (schedule σ turns). Qed.

Lemma done1_reached : rtc (pool_step store registry "logid") idle1 done1.
Proof.
  eapply rtc_l; [apply (step_arrive _ _ _ order_id order_id order_id (request "d1"))|].
  eapply rtc_l; [apply (step_arrive _ _ _ order_id order_id order_id (request "d1"))|].
  etrans; [apply (schedule_reached _ _ _ busy1 [0; 1; 1; 0; 0]%nat later1); apply moves_schedule; vm_compute; reflexivity|].
  apply (rtc_l _ _ other1); [|apply (schedule_reached _ _ _ other1 [1; 0; 0; 0]%nat done1); apply moves_schedule; vm_compute; reflexivity].
  unfold other1. destruct later1 as [w m cs]. cbn.
  apply step_other. by apply prefix_app_r.
Qed.

Definition duplicate1 : result TransparencyLogEntry := Err (StatusError AlreadyExists (Error (DuplicateError 1))).

Lemma done1_answers :
  ss_log done1 = leaves1 ++ ["other"] ∧
  (λ c, (c_req c, c_header c, c_prog c)) <$> ss_calls done1 =
  [(request "d1", [(httpStatusCodeHeader, "201")], Return (Ok answer1));
   (request "d1", [(duplicateEntryHeader, "1")], Return duplicate1)].
Proof. split; vm_compute; reflexivity. Qed.

Lemma concurrent_answers_true_witness :
  answered (server store) (request "d1") (Ok answer1)
    (Build_rpc (ss_log done1) [(httpStatusCodeHeader, "201")] (ss_metrics done1)) ∧
  answered (server store) (request "d1") duplicate1
    (Build_rpc (ss_log done1) [(duplicateEntryHeader, "1")] (ss_metrics done1)).
Proof.
  destruct (concurrent_answers_true _ _ _ _ _ _ _ registry "logid" idle1 done1 storage_new eq_refl done1_reached) as [_ Htrue].
  destruct done1_answers as [_ Hcalls]. destruct (ss_calls done1) as [|[q1 h1 p1] [|[q2 h2 p2] [|? ?]]]; try discriminate Hcalls.
  injection Hcalls as -> -> -> -> -> ->. split.
  - exact (proj2 (Htrue _ _ (list_elem_of_here _ _) eq_refl)).
  - exact (proj2 (Htrue _ _ (list_elem_of_further _ _ _ (list_elem_of_here _ _)) eq_refl)).
Defined.

Lemma concurrent_counters_exact_witness :
  newHashedRekordEntries (ss_metrics done1) = 1 ∧ newDsseEntries (ss_metrics done1) = 0.
Proof.
  destruct (concurrent_counters_exact _ _ _ _ _ _ _ registry "logid" idle1 done1 storage_new eq_refl done1_reached) as [-> ->].
  split; vm_compute; reflexivity.
Defined.

End LogExamples.
