(* ===== verification/LifetimeExamples.v ===== *)
(** * A server that is stopped while it answers a call

    The servers start, a client posts an entry, the process is told to stop,
    the call is answered, and Serve returns: on the sample log. *)
From S2P Require Import Prelude GoErrors GoStrings SafeInt Proto External IO Threads Note TesseraLib VerifyEntry Storage AlgorithmRegistry HashedRekord Dsse Service History Concurrent Pool Gateway Config Serve Lifetime Sample SampleLog LogExamples.

Module LifetimeExamples.
Import Sample SampleLog LogExamples ServeExamples.

Abbreviation life_step := (sys_step store registry "logid").

(** ** Runs in parts *)

(** The steps of the process while the calls stand still. *)
Definition holds (p p' : proc) : Prop := step (Run p) (Run p') ∧ grpc_open p' = grpc_open p.

Lemma process_run p p' rest σ :
  rtc holds p p' → rtc life_step {| sy_proc := p; sy_rest := rest; sy_server := σ |} {| sy_proc := p'; sy_rest := rest; sy_server := σ |}.
Proof. induction 1 as [|p p1 p2 [Hs Hg] _ IH]; [done|]. eapply rtc_l; [by apply sys_process|done]. Qed.

Lemma set_grpc_again n m p : set_grpc n (set_grpc m p) = set_grpc n p.
Proof. unfold set_grpc. by destruct p as [mn [|t ts] wg]. Qed.

(** The steps of the calls while the process stands still. *)
Lemma calls_run k p rest σ σ' :
  nsteps proceeds k σ σ' → rtc life_step (with_requests p rest σ) (with_requests p rest σ').
Proof.
  induction 1 as [|k σ σ1 σ2 Hs _ IH]; [done|]. eapply rtc_l; [|exact IH].
  unfold with_requests at 2. rewrite <- (set_grpc_again _ (rest + in_flight σ)). by apply sys_proceed.
Qed.

Ltac hold c := eapply rtc_l; [split; [c|reflexivity]|cbn].
Ltac hold_thread k c := hold ltac:(apply s_internal; eapply (is_thread _ k); [reflexivity|apply c; reflexivity]).
Ltac hold_report k := hold ltac:(apply s_internal; eapply (is_done _ k); reflexivity).

(** ** The process *)

Definition boot1 : proc := {| p_main := Starting; p_servers := []; p_wg := 0 |}.
Definition ready1 : proc := {| p_main := Waiting; p_servers := replicate 3 (mk SigReady SrvServing false); p_wg := 3 |}.
Definition told1 (n : nat) : proc :=
  set_grpc n {| p_main := Waiting; p_servers := replicate 3 (mk SigReady SrvServing true); p_wg := 3 |}.

Lemma boot1_ready : rtc holds boot1 ready1.
Proof.
  unfold boot1, ready1. hold ltac:(apply s_start; [reflexivity|cbn; unfold num_servers; lia]).
  hold ltac:(apply s_start; [reflexivity|cbn; unfold num_servers; lia]).
  hold ltac:(apply s_start; [reflexivity|cbn; unfold num_servers; lia]).
  hold ltac:(apply s_all_started; reflexivity).
  hold_thread 0%nat st_notify. hold_thread 1%nat st_notify. hold_thread 2%nat st_notify. apply rtc_refl.
Qed.

Lemma ready1_told n : rtc holds (set_grpc n ready1) (told1 n).
Proof. eapply rtc_l; [split; [apply s_signal; reflexivity|reflexivity]|]. apply rtc_refl. Qed.

Lemma told1_returned : rtc holds (told1 0) returned_state.
Proof.
  unfold told1, returned_state, set_grpc. cbn.
  hold_thread 0%nat st_receive. hold_thread 0%nat st_stopped. hold_thread 0%nat st_close. hold_report 0%nat.
  hold_thread 1%nat st_receive. hold_thread 1%nat st_stopped. hold_thread 1%nat st_close. hold_report 1%nat.
  hold_thread 2%nat st_receive. hold_thread 2%nat st_stopped. hold_thread 2%nat st_close. hold_report 2%nat.
  hold ltac:(apply s_internal, is_wait; reflexivity). hold ltac:(apply s_internal, is_tessera; reflexivity). apply rtc_refl.
Qed.

(** ** The life of the server *)

Definition one1 : server_state :=
  {| ss_log := ["older"] : World; ss_metrics := Build_counters 0 0 0 0; ss_calls := [call1] |}.
Definition over1 : server_state := default idle1 (schedule one1 [0; 0; 0; 0; 0; 0]%nat).

Definition born1 : system := {| sy_proc := boot1; sy_rest := 0; sy_server := idle1 |}.
Definition busy_told1 : system := {| sy_proc := told1 1; sy_rest := 0; sy_server := one1 |}.
Definition dead1 : system := {| sy_proc := returned_state; sy_rest := 0; sy_server := over1 |}.

Lemma born1_initial : sys_initial hc gc born1.
Proof. done. Qed.

Lemma busy_told1_reached : rtc life_step born1 busy_told1.
Proof.
  etrans; [apply process_run, boot1_ready|].
  eapply rtc_l; [apply (sys_arrive _ _ _ ready1 0 order_id order_id order_id (request "d1")); by eexists|].
  unfold with_requests. etrans; [apply process_run, ready1_told|]. apply rtc_refl.
Qed.

Lemma over1_reached : nsteps proceeds 6 one1 over1.
Proof. apply (schedule_steps one1 [0; 0; 0; 0; 0; 0]%nat), moves_schedule. vm_compute. reflexivity. Qed.

Lemma over1_settled : in_flight over1 = 0%nat.
Proof. vm_compute. reflexivity. Qed.

Lemma dead1_reached : rtc life_step born1 dead1.
Proof.
  etrans; [exact busy_told1_reached|]. etrans; [exact (calls_run 6 (told1 1) 0 one1 over1 over1_reached)|].
  unfold with_requests. rewrite over1_settled. apply process_run. exact told1_returned.
Qed.

Lemma over1_answers : (λ c, (c_req c, c_header c, c_prog c)) <$> ss_calls over1 =
  [(request "d1", [(httpStatusCodeHeader, "201")], Return (Ok answer1))].
Proof. vm_compute. reflexivity. Qed.

(** ** Witnesses *)

Lemma shutdown_loses_no_call_witness :
  answered (server store) (request "d1") (Ok answer1)
    (Build_rpc (ss_log over1) [(httpStatusCodeHeader, "201")] (ss_metrics over1)).
Proof.
  destruct (shutdown_loses_no_call _ _ _ _ _ _ _ registry "logid" hc gc born1 dead1 storage_new born1_initial dead1_reached
    (or_intror eq_refl)) as (_ & _ & Hcalls & _).
  pose proof over1_answers as Hans. change (sy_server dead1) with over1 in Hcalls.
  destruct (ss_calls over1) as [|[q h p] [|? ?]]; try discriminate Hans. injection Hans as -> -> ->.
  destruct (Hcalls _ (list_elem_of_here _ _)) as (x & [= <-] & _ & Ha). exact Ha.
Defined.

Lemma shutdown_drains_witness :
  (∀ n y', nsteps sys_istep n busy_told1 y' → (n ≤ 24)%nat) ∧
  (∀ y', rtc sys_istep busy_told1 y' → (∀ y'', ¬ sys_istep y' y'') →
     p_main (sy_proc y') = Returned ∧ ∀ c, c ∈ ss_calls (sy_server y') → ∃ x, c_prog c = Return x).
Proof.
  apply (shutdown_drains store registry "logid" hc gc born1 busy_told1 born1_initial busy_told1_reached).
  split; [done|]. repeat constructor; right; done.
Defined.
End LifetimeExamples.
