(* ===== verification/CmdExamples.v ===== *)
(** * Concrete runs of the commands and the clients

    Sample implementations of the key, storage and HTTP libraries, and runs of
    the freeze command, the serve command, the clients and the gateway on
    them. *)
From S2P Require Import Prelude GoErrors GoStrings GoPath Base64 Sha256 SafeInt Proto External IO Note TesseraLib VerifyEntry Storage AlgorithmRegistry HashedRekord Dsse Service Gateway Config SignerVerifier Drivers Cmd Freeze Flags Main Client Sample SampleLog LogExamples.

Module CmdExamples.
Import Sample SampleLog LogExamples.

(** ** Sample libraries *)

Definition sv_of (key : bytes) : SignerVerifier :=
  {| as_Signer := {| signer_PublicKey := inr (PK_ed25519 key); SignMessage := λ msg, inr (sign key msg) |};
     as_Verifier := {| verifier_PublicKey := inr (PK_ed25519 key); VerifySig := verify_message key |} |}.

#[export] Instance key_lib : KeyLib := {|
  PrivateKey := bytes;
  pemutil_Read := λ path _, inr path;
  LoadDefaultSignerVerifier := λ k, inr (sv_of k);
  RPCOption := unit;
  kms_SupportedProviders := ["awskms://"; "gcpkms://"];
  kms_Get := λ uri _ _, inr (sv_of uri);
  AEAD := bytes;
  KeyHandle := bytes;
  os_Open := inr;
  keyset_Read := λ f _, inr f;
  KeyHandleToSigner := inr;
  filepath_Clean := Clean;
  KMSClient := unit;
  gcpkms_NewClientWithOptions := λ _, inr tt;
  awskms_NewClientWithOptions := λ _, inr tt;
  GetAEAD := λ _ k, inr k
|}.

Lemma sv_of_consistent k : consistent (sv_of k).
Proof. split; [done|]. intros msg sig [= <-]. cbn. unfold verify_message. by rewrite bool_decide_true. Qed.

#[export] Instance key_laws : KeyLaws.
Proof. split; [intros k sv [= <-]|intros uri h opts sv [= <-]]; apply sv_of_consistent. Qed.

#[export] Instance gcs_lib : GcsLib := {|
  Object := bytes;
  gcs_NewClient := inr tt;
  gcs_NewReader := λ _, inr tt;
  gcs_ReadAll := inr;
  gcs_Write := λ _, inr tt;
  gcs_Close := λ _ data, inr data
|}.

#[export] Instance gcs_laws : GcsLaws.
Proof. split. by intros o data o' [= <-]. Qed.

#[export] Instance driver_lib : DriverLib := {|
  posix_New := λ _, inr tt;
  badger_NewAntispam := λ _ _, inr tt;
  GCSClient := unit;
  SpannerClient := unit;
  gcs_Client := λ _, inr tt;
  spanner_Client := λ _ _, inr tt;
  gcp_driver_New := λ _ _ _ _, inr tt;
  gcp_NewAntispam := λ _ _, inr tt;
  SDK := unit;
  LoadDefaultConfig := inr tt;
  LoadDefaultConfig_with := λ _ _ _ _, inr tt;
  aws_driver_New := λ _, inr tt;
  aws_NewAntispam := λ _ _, inr tt;
  os_Getenv := λ _, "";
  GitVersion := "v2";
  GOOS := "linux";
  GOARCH := "amd64"
|}.

#[export] Instance tessera_defaults : TesseraDefaults :=
  {| DefaultBatchMaxSize := 256; DefaultBatchMaxAge := Second; DefaultCheckpointInterval := 10 * Second;
     DefaultPushbackMaxOutstanding := 4096 |}.

(** The network records the requests it has seen. *)
#[export] Instance http_lib : HttpLib := {|
  Net := list http_Request;
  TLSSettings := unit;
  url_Parse := λ s, inr {| url_Path := s; url_rest := "" |};
  url_String := url_Path;
  DefaultTransport := λ req n, (inr {| resp_StatusCode := 201; resp_Body := inr (req_Body req) |}, n ++ [req]);
  NewTransport := λ _ req n, (inr {| resp_StatusCode := 201; resp_Body := inr (req_Body req) |}, n ++ [req]);
  check_request := λ _ _, inr tt;
  Do := λ tr _ req n, tr req n;
  marshal_request := λ _, inr "json";
  unmarshal_entry := λ body, inr {| tle_LogIndex := 0; tle_LogId := None; tle_KindVersion := None;
                                    tle_InclusionProof := None; tle_CanonicalizedBody := body |}
|}.

#[export] Instance fetcher_lib : FetcherLib := {|
  HTTPFetcher := URL;
  NewHTTPFetcher := λ u _ _, inr u;
  fetch_checkpoint := λ _ n, (inr (checkpoint_of leaves1), n);
  fetch_tile := λ _ _ _ _ n, (inr "", n);
  fetch_bundle := λ _ _ _ n, (inr "", n);
  FetchCheckpoint := λ f v origin n,
    match f n with
    | (inr raw, n') => match parse raw origin v [] with
                       | inr (cp, _, nt) => (inr (cp, raw, nt), n')
                       | inl e => (inl e, n')
                       end
    | (inl e, n') => (inl e, n')
    end
|}.

#[export] Instance fetcher_laws : FetcherLaws.
Proof.
  split. cbn. intros f v origin n cp raw nt n'. destruct (f n) as [[e|raw0] n0]; [done|].
  destruct (parse raw0 origin v []) as [e|[[cp0 rest] nt0]] eqn:Hp; [done|]. intros [= <- <- <- <-]. eauto.
Qed.

#[export] Instance gateway_lib : GatewayLib :=
  {| DefaultHTTPErrorHandler := λ _ w, {| w_Header := w_Header w; w_status := Some 500; w_body := "error" |} |}.

(** ** Keys and freezing *)

Definition no_rpc : list RPCOption := [].
Definition flags_kms : signer_flags :=
  {| f_signer_filepath := ""; f_signer_password := ""; f_signer_kmskey := "gcpkms://key"; f_signer_kmshash := "sha256";
     f_signer_tink_kek_uri := "gcp-kms://kek"; f_signer_tink_keyset_path := "keyset"; f_kms_rpc := no_rpc |}.

Lemma New_uses_selected_witness :
  signer_options (λ _, ErrorString "") (ErrorString "") flags_kms ≫= gcp_New =
    load_gcp no_rpc (FromKMS "gcpkms://key" crypto_SHA256) ∧
  aws_signer_options (λ _, ErrorString "") (ErrorString "") flags_kms ≫= aws_New =
    load_aws (FromKMS "gcpkms://key" crypto_SHA256).
Proof.
  refine (New_uses_selected _ (λ _, ErrorString "") (ErrorString "") flags_kms).
  by repeat constructor.
Defined.

Definition fflags : freeze_flags := {| gcp_bucket := "bucket"; Freeze.hostname := sample_origin; f_signer := flags_kms |}.

(** A checkpoint signed by the KMS key, and the object after it is frozen. *)
Definition published : bytes :=
  let text := marshal checkpoint1 in text +:+ newline +:+ EncodeToString (sign "gcpkms://key" text).
Definition frozen (now : string) : bytes :=
  let text := marshal checkpoint1 +:+ frozenString +:+ now +:+ newline in
  text +:+ newline +:+ EncodeToString (sign "gcpkms://key" text).

Lemma freeze_run : freeze fflags "Mon" published = (Ok LogFrozen, frozen "Mon").
Proof. vm_compute. reflexivity. Qed.

Lemma freeze_preserves_checkpoint_witness :
  ∃ src sv pub v logID raw n cp rest raw' n',
    selected flags_kms = Some src ∧ load_gcp no_rpc src = Ok sv ∧
    verifier_PublicKey (as_Verifier sv) = inr pub ∧ nv_name v = sample_origin ∧
    KeyHash sample_origin pub = Ok (nv_hash v, logID) ∧
    (∀ msg sig, nv_verify v msg sig = true ↔ VerifySig (as_Verifier sv) sig msg = inr tt) ∧
    gcs_ReadAll published = inr raw ∧ note_Open raw [v] = inr n ∧ Unmarshal (note_Text n) = inr (cp, rest) ∧
    Contains rest frozenString = false ∧
    gcs_ReadAll (frozen "Mon") = inr raw' ∧ note_Open raw' [v] = inr n' ∧
    Unmarshal (note_Text n') = inr (cp, frozenString +:+ "Mon" +:+ String "010" "").
Proof. refine (freeze_preserves_checkpoint fflags "Mon" published (frozen "Mon") _ freeze_run). by repeat constructor. Defined.

Lemma freeze_idempotent_witness : freeze fflags "Tue" (frozen "Mon") = (Ok AlreadyFrozen, frozen "Mon").
Proof. exact (freeze_idempotent fflags "Mon" "Tue" published (frozen "Mon") freeze_run eq_refl). Defined.

Lemma freeze_unchanged_witness : "not a checkpoint" = "not a checkpoint".
Proof.
  refine (freeze_unchanged fflags "Mon" "not a checkpoint" (freeze fflags "Mon" "not a checkpoint").1 _ _ _).
  - vm_compute. reflexivity.
  - vm_compute. discriminate.
Defined.

(** ** Drivers *)


Lemma NewDriver_configuration_witness : is_Some (Some tt) ↔ true = true.
Proof.
  refine (proj1 (@NewDriver_configuration tessera driver_lib
    {| px_StorageDir := "dir"; px_PersistentAntispam := true; px_ASMaxBatchSize := 0; px_ASPushbackThreshold := 0 |}
    (Build_gcp_Configuration "" "" "" false 0 0) (Build_aws_Configuration "" "" 0 0 false 0 0)
    (Build_cloudsql_Configuration "" "" 0 0 false 0 0) tt (Some tt)) _).
  vm_compute. reflexivity.
Defined.

(** ** The serve command *)

Definition sflags (ro : bool) : server_flags :=
  match Initialize (inr sample_origin) with
  | Ok f => {| read_only := ro; http_port := http_port f; http_address := http_address f; http_metrics_port := http_metrics_port f;
               grpc_port := grpc_port f; grpc_address := grpc_address f; server_timeout := server_timeout f;
               max_request_body_size := max_request_body_size f; log_level := log_level f;
               request_response_logging := request_response_logging f; grpc_tls_cert_file := ""; grpc_tls_key_file := "";
               http_tls_cert_file := ""; http_tls_key_file := ""; Cmd.hostname := Cmd.hostname f; batch_max_size := batch_max_size f;
               batch_max_age := batch_max_age f; checkpoint_interval := checkpoint_interval f;
               pushback_max_outstanding := pushback_max_outstanding f; tlog_timeout := tlog_timeout f;
               persistent_antispam := false; antispam_max_batch_size := 0; antispam_pushback_threshold := 0;
               witness_policy_path := ""; client_signing_algorithms := client_signing_algorithms f |}
  | _ => {| read_only := ro; http_port := 0; http_address := ""; http_metrics_port := 0; grpc_port := 0; grpc_address := "";
            server_timeout := 0; max_request_body_size := 0; log_level := ""; request_response_logging := false;
            grpc_tls_cert_file := ""; grpc_tls_key_file := ""; http_tls_cert_file := ""; http_tls_key_file := "";
            Cmd.hostname := ""; batch_max_size := 0; batch_max_age := 0; checkpoint_interval := 0; pushback_max_outstanding := 0;
            tlog_timeout := 0; persistent_antispam := false; antispam_max_batch_size := 0; antispam_pushback_threshold := 0;
            witness_policy_path := ""; client_signing_algorithms := [] |}
  end.

Definition no_files : string → error + bytes := λ _, inl (ErrorString "no such file").
Definition serve1 (ro : bool) : result startup * World := serve_posix no_files "logkey" "" "dir" (sflags ro) leaves1.

Lemma serve1_Ok ro : is_Ok (serve1 ro).1.
Proof. destruct ro; vm_compute; exact Logic.I. Qed.

Lemma serve_read_only_witness :
  match serve1 true with
  | (Ok su, w') => w' = leaves1 ∧ (∃ reg id, su_server su = NewServer None true (Some reg) id) ∧
      ∀ w1, su_shutdown su w1 = (inr tt, w1)
  | _ => False
  end.
Proof.
  pose proof (serve1_Ok true) as Hok. destruct (serve1 true) as [[su|e|] w'] eqn:Hs; [|destruct Hok..].
  unfold serve1, serve_posix in Hs.
  exact (serve_read_only no_files _ _ false (sflags true) leaves1 su w' eq_refl Hs).
Defined.

Lemma log_id_identifies_signer_witness :
  match serve1 false with
  | (Ok su, w') =>
      ∃ sv pub ns pre, posix_signer "logkey" "" = Ok sv ∧ signer_PublicKey (as_Signer sv) = inr pub ∧
        id_preimage (Cmd.hostname (sflags false)) pub = Some pre ∧ logID (su_server su) = Sum256 pre ∧
        NewAppendOptions (Cmd.hostname (sflags false)) (as_Signer sv) = Ok (WithCheckpointSigner tessera_NewAppendOptions ns) ∧
        ns_name ns = Cmd.hostname (sflags false) ∧ ns_hash ns = BigEndian_Uint32 (logID (su_server su))
  | _ => False
  end.
Proof.
  pose proof (serve1_Ok false) as Hok. destruct (serve1 false) as [[su|e|] w'] eqn:Hs; [|destruct Hok..].
  unfold serve1, serve_posix in Hs.
  exact (log_id_identifies_signer no_files _ _ false (sflags false) leaves1 su w' Hs).
Defined.

(** The key of the log, and a verifier for it. *)
Definition log_signer : SignerVerifier := sv_of sample_key.

Lemma posix_signer1 : posix_signer "logkey" "" = Ok log_signer.
Proof. reflexivity. Qed.

Lemma note_verifier_Ok : is_Ok (NewNoteVerifier (Cmd.hostname (sflags false)) (as_Verifier log_signer)).
Proof. vm_compute. exact Logic.I. Qed.

Lemma sample_flags_round_trip : flags_round_trip.
Proof.
  intros d flag. unfold FormatSignatureAlgorithmFlag, ParseSignatureAlgorithmFlag. cbn. unfold format_flag, parse_flag.
  destruct d; try (intros Hf; vm_compute in Hf; injection Hf as <-; vm_compute; reflexivity).
  intros Hf. unfold flags in Hf. cbn in Hf. discriminate Hf.
Qed.

Lemma default_flags_accept_allowed_witness :
  ∃ algs, algs ≡ₚ AllowedClientSigningAlgorithms ∧
    (NewAlgorithmRegistryConfig algs : error + @AlgorithmRegistryConfig sigstore) =
    inr (match AlgorithmRegistry (Some (client_signing_algorithms (sflags false))) with Ok r => r | _ => [] end).
Proof.
  refine (proj2 (default_flags_accept_allowed sample_flags_round_trip (inr sample_origin) (sflags false) _ _ _)).
  - vm_compute. reflexivity.
  - vm_compute. reflexivity.
Defined.

(** ** Flags *)

#[export] Instance viper_lib : ViperLib := {|
  cast_Bool := λ v, match v with FBool b => b | _ => false end;
  cast_Int := λ v, match v with FInt n => n | _ => 0 end;
  cast_Uint := λ v, match v with FUint n => if n <=? MaxInt64 then n else 0 | _ => 0 end;
  cast_Uint32 := λ v, match v with FUint32 n => n | _ => 0 end;
  cast_String := λ v, match v with FString s => s | _ => "" end;
  cast_Duration := λ v, match v with FDuration n => n | _ => 0 end;
  cast_StringSlice := λ v, match v with FStringSlice l => if bool_decide (l = [""]) then [] else l | _ => [] end
|}.

#[export] Instance viper_laws : ViperLaws.
Proof.
  split; try done.
  - intros n [_ Hn%Z.leb_le]. cbn. by rewrite Hn.
  - intros l [Hl _]. cbn. by rewrite bool_decide_false.
Qed.

(** The POSIX command with a read-only log in a directory. *)
Definition env1 : FlagSet :=
  server_listing (sflags true) ++ [("storage-dir", FString "dir"); ("signer-filepath", FString "logkey"); ("signer-password", FString "")].

Lemma commands_read_their_flags_witness :
  ∃ dir path pass f',
    posix_serveCmd no_files env1 = serve_posix no_files path pass dir f' ∧
    env1 = server_listing f' ++ [("storage-dir", FString dir); ("signer-filepath", FString path); ("signer-password", FString pass)].
Proof.
  destruct (commands_read_their_flags no_files (λ _ _, tt : @RPCOption key_lib) (inr sample_origin) (sflags false))
    as (_ & _ & _ & (fs & Hfs & Hread) & _); [vm_compute; reflexivity|].
  apply Hread.
  - vm_compute in Hfs. injection Hfs as <-. vm_compute. reflexivity.
  - repeat constructor; vm_compute; discriminate.
Defined.

(** ** Command lines *)

(** [--name] for a flag that is a bool and [--name=value] for a string. *)
Definition matches (arg : string) (kv : string * flag_value) : bool :=
  match kv with
  | (k, FBool _) => bool_decide (arg = "--" +:+ k)
  | (k, FString _) => HasPrefix arg ("--" +:+ k +:+ "=")
  | _ => false
  end.
Definition set_from (arg : string) (kv : string * flag_value) : string * flag_value :=
  if matches arg kv then
    match kv with
    | (k, FBool _) => (k, FBool true)
    | (k, FString _) => (k, FString (TrimPrefix arg ("--" +:+ k +:+ "=")))
    | _ => kv
    end
  else kv.

Fixpoint parse_line (fs : FlagSet) (args : list string) : parsed :=
  match args with
  | [] => Parsed fs
  | arg :: args =>
      if bool_decide (arg = "--help") then HelpAsked
      else if existsb (matches arg) fs then parse_line (set_from arg <$> fs) args
      else BadFlags (ErrorString ("unknown flag: " +:+ arg))
  end.

Definition run_line {W R} (c : Command W R) (run : FlagSet → io W R) (args : list string) (w : W) : executed R * W :=
  match parse_line (cmd_Flags c) args with
  | Parsed env => let '(x, w') := run env w in (Ran x, w')
  | HelpAsked => (Helped, w)
  | BadFlags e => (Refused e, w)
  end.

Definition execute_line {W R} (c : Command W R) (args : list string) (w : W) : executed R * W :=
  match Commands c, Run c, args with
  | [], Some run, _ => run_line c run args w
  | _, _, [] => (Helped, w)
  | cs, _, word :: args =>
      match List.find (λ s, bool_decide (Name s = word)) cs with
      | Some sub => match Run sub with Some run => run_line sub run args w | None => (Helped, w) end
      | None => if bool_decide (word ∈ reserved) then (Helped, w) else (Refused (ErrorString ("unknown command " +:+ word)), w)
      end
  end.

#[export] Instance cobra_lib {W R} : CobraLib W R :=
  {| ParseFlags := parse_line; cobra_Execute := execute_line; version_Version := MkCommand "version" "" "" [] None [] |}.

Lemma parse_line_from fs args env : parse_line fs args = Parsed env → parsed_from fs env.
Proof.
  revert fs. induction args as [|arg args IH]; intros fs; cbn; [by intros [= <-]|].
  case_bool_decide; [done|]. destruct (existsb _ _); [|done]. intros Henv%IH. unfold parsed_from in *. rewrite Henv, <-list_fmap_compose.
  apply list_fmap_ext. intros _ [k v] _. unfold compose, set_from. destruct (matches arg (k, v)); [|done]. by destruct v.
Qed.

Lemma find_child {W R} (l1 : list (Command W R)) sub l2 :
  Name sub ∉ Name <$> l1 → List.find (λ s, bool_decide (Name s = Name sub)) (l1 ++ sub :: l2) = Some sub.
Proof.
  induction l1 as [|c l1 IH]; cbn; intros Hn; [by rewrite bool_decide_true|].
  apply not_elem_of_cons in Hn as [Hc Hn]. rewrite bool_decide_false by congruence. by apply IH.
Qed.

#[export] Instance cobra_laws {W R} : CobraLaws W R.
Proof.
  split; cbn [ParseFlags cobra_Execute version_Version cobra_lib].
  - apply parse_line_from.
  - intros c w Hr Hc. unfold execute_line. rewrite Hr. by destruct (Commands c).
  - intros c l1 sub l2 run args w Hc Hn _ _ _ Hr. unfold execute_line. rewrite Hc.
    rewrite fmap_app, !not_elem_of_app in Hn. destruct Hn as [[Hn _] _]. pose proof (find_child l1 sub l2 Hn) as Hf.
    destruct (l1 ++ sub :: l2) eqn:Hl; [by destruct l1|]. rewrite Hf, Hr. by destruct (Run c).
  - intros c word args w Hc Hr [Hn Hres]%not_elem_of_app _ _. unfold execute_line. rewrite Hr.
    destruct (Commands c) as [|c0 cs]; [done|]. destruct (List.find _ (c0 :: cs)) as [sub|] eqn:Hf.
    + apply List.find_some in Hf as [Hin Hname%bool_decide_eq_true]. destruct Hn. subst word.
      by apply list_elem_of_fmap_2, list_elem_of_In.
    + rewrite bool_decide_false by done. eauto.
  - intros c run args w Hc Hr _. unfold execute_line. by rewrite Hc, Hr.
  - reflexivity.
Qed.

Definition posix_run : list string → list bytes → process_state startup * list bytes :=
  Main.main (inr sample_origin) no_files (λ _ _, tt : @RPCOption key_lib) POSIX.

(** A frozen log, from the command line. *)
Definition read_only_line : list string := ["--read-only"; "--signer-filepath=logkey"].

Lemma posix_read_only_runs : match (posix_run ("serve" :: read_only_line) leaves1).1 with Done _ => True | _ => False end.
Proof. vm_compute. exact Logic.I. Qed.

Lemma main_serves_witness :
  posix_run ["serv"] leaves1 = (Exit 1, leaves1) ∧
  ∃ su reg id, posix_run ("serve" :: read_only_line) leaves1 = (Done su, leaves1) ∧ su_server su = NewServer None true (Some reg) id.
Proof.
  destruct (main_serves (inr sample_origin) no_files (λ _ _, tt : @RPCOption key_lib) POSIX (sflags false)) as (fs & Hfs & Hm);
    [vm_compute; reflexivity|].
  destruct (Hm leaves1) as (_ & Hbad & Hserve). split.
  - apply Hbad; [refine (bool_decide_eq_true_1 _ _); vm_compute; reflexivity|done|done].
  - specialize (Hserve read_only_line). vm_compute in Hfs. injection Hfs as <-.
    destruct (ParseFlags _ read_only_line) as [env| |e] eqn:Hp; [|vm_compute in Hp; discriminate..].
    destruct Hserve as (_ & _ & Hro). destruct Hro as [Hw Hsrv]; [vm_compute in Hp; injection Hp as <-; reflexivity|].
    fold posix_run in Hw, Hsrv. pose proof posix_read_only_runs as Hrun.
    destruct (posix_run ("serve" :: read_only_line) leaves1) as [[code|su|] w']; [destruct Hrun| |destruct Hrun].
    cbn in Hw. subst w'. destruct (Hsrv su eq_refl) as (reg & id & Hs). by exists su, reg, id.
Defined.

(** ** The clients *)

Definition sample_verifier : sig_Verifier :=
  {| verifier_PublicKey := inr (PK_ed25519 sample_key); VerifySig := verify_message sample_key |}.

Definition reader1 : result readClient := Client.NewReader "https://log.example" sample_origin sample_verifier [].

Lemma ReadCheckpoint_signed_witness :
  match reader1 with
  | Ok r => match read_ReadCheckpoint r [] with
            | (Ok (cp, nt), n') => ∃ raw, fetch_checkpoint (rc_client r) [] = (inr raw, n') ∧ cp_Origin cp = sample_origin ∧
                (∃ rest, Unmarshal raw = inr (cp, rest)) ∧
                ∃ sig, HasPrefix raw (note_Text nt) = true ∧ VerifySig sample_verifier sig (note_Text nt) = inr tt
            | _ => False
            end
  | _ => False
  end.
Proof.
  assert (match reader1 with Ok r => is_Ok (read_ReadCheckpoint r []).1 | _ => False end) as Hok
    by (vm_compute; exact Logic.I).
  destruct reader1 as [r|e|] eqn:Hr; [|destruct Hok..].
  destruct (read_ReadCheckpoint r []) as [[[cp nt]|e|] n'] eqn:Hread; [|destruct Hok..].
  exact (ReadCheckpoint_signed "https://log.example" sample_origin sample_verifier [] r [] cp nt n' Hr Hread).
Defined.

Lemma endpoint_path_witness : Join ["/rekor/"; addPath] = "/rekor/api/v2/log/entries".
Proof.
  apply (endpoint_path "/rekor/").
  - right. reflexivity.
  - refine (bool_decide_eq_true_1 _ _). vm_compute. reflexivity.
Defined.

Definition writer1 : writeClient :=
  {| wc_baseURL := {| url_Path := "/rekor"; url_rest := "" |}; wc_transport := DefaultTransport; wc_timeout := 0 |}.

Lemma write_Add_Ok_witness :
  match write_Add writer1 (Arg_HashedRekord None) [] with
  | (Ok tle, n') => ∃ cer payload resp body, createRequest (Arg_HashedRekord None) = Ok cer ∧ marshal_request cer = inr payload ∧
      Do (wc_transport writer1) (wc_timeout writer1)
        {| req_Method := "POST";
           req_URL := url_String {| url_Path := Join [url_Path (wc_baseURL writer1); addPath]; url_rest := url_rest (wc_baseURL writer1) |};
           req_Header := {[ "Content-Type" := "application/json" ]}; req_Body := payload |} [] = (inr resp, n') ∧
      resp_StatusCode resp = 201 ∧ resp_Body resp = inr body ∧ unmarshal_entry body = inr tle
  | _ => False
  end.
Proof.
  assert (is_Ok (write_Add writer1 (Arg_HashedRekord None) []).1) as Hok by (vm_compute; exact Logic.I).
  destruct (write_Add writer1 (Arg_HashedRekord None) []) as [[tle|e|] n'] eqn:Ha; [|destruct Hok..].
  exact (write_Add_Ok writer1 (Arg_HashedRekord None) [] tle n' Ha).
Defined.

(** ** The gateway *)

Definition fresh : response := {| w_Header := {[ "Grpc-Metadata-X" := ["v"]; "Date" := ["now"] ]}; w_status := None; w_body := "" |}.

Lemma httpResponseModifier_cleans_witness :
  match httpResponseModifier {| gw_w := fresh; gw_md := Some (md_of [("x-http-code", "201")]) |} with
  | (Ok _, g') => httpResponseModifier g' = (Ok tt, g')
  | _ => False
  end.
Proof.
  destruct (httpResponseModifier _) as [r g'] eqn:Hr.
  assert (r = Ok tt) as -> by (change r with (r, g').1; rewrite <-Hr; vm_compute; reflexivity).
  exact (proj2 (proj2 (httpResponseModifier_cleans fresh (md_of [("x-http-code", "201")]) g' Hr))).
Defined.

Lemma duplicate_index_forwarded_witness :
  let md := md_of [(duplicateEntryHeader, FormatUint 42)] in
  (v ← Ok (Get md duplicateEntryHeader); match v with v :: _ => Atoi v | [] => Panic end) = Ok 42.
Proof.
  refine (proj1 (proj2 (duplicate_index_forwarded 42 _))). unfold MaxInt64. lia.
Defined.

Lemma HandleRPC_labels_witness :
  HandleRPC (TagRPC None "/rekor.Rekor/CreateEntry") (InPayload 7) [] = [("rekor.Rekor", "CreateEntry", "payload", 7)].
Proof. exact (proj1 (HandleRPC_labels None "rekor.Rekor" "CreateEntry" 7 [] eq_refl)). Defined.
End CmdExamples.
