(* ===== verification/WriteExamples.v ===== *)
(** * Concrete writes over HTTP

    Sample implementations of the codecs, of the gateway's runtime and of a
    gRPC connection, and a client that writes through them to the sample log. *)
From S2P Require Import Prelude GoErrors GoStrings GoPath Sha256 SafeInt Proto External IO Note TesseraLib VerifyEntry Storage AlgorithmRegistry HashedRekord Dsse Service History Gateway RekorGrpc RekorGateway Config Servers SignerVerifier Drivers Cmd Client WritePath HttpHistory Sample SampleLog LogExamples CmdExamples.

Module WriteExamples.
Import Sample SampleLog LogExamples CmdExamples.
#[local] Existing Instance ServersExamples.tls.

(** ** A codec for the messages of the runs

    A message is encoded as its position in a table. *)
Definition req1 : CreateEntryRequest :=
  match request "d1" with Some r => r | None => {| Request_Spec := None |} end.

(** The answer of the server that the serve command starts. *)
Definition answer2 : TransparencyLogEntry :=
  match serve1 false with
  | (Ok su, _) => match CreateEntry order_id order_id order_id (su_server su) (Some req1) (start ["older"]) with
                  | (Ok e, _) => e
                  | _ => answer1
                  end
  | _ => answer1
  end.

Definition table : list message :=
  [msg_CreateEntryRequest req1; msg_TransparencyLogEntry answer1; msg_TransparencyLogEntry answer2; msg_Empty;
   msg_TileRequest {| tr_L := 3; tr_N := "x001/002" |}; msg_EntryBundleRequest {| ebr_N := "001" |};
   msg_HttpBody {| ContentType := "text/plain"; hb_Data := "cp" |}].

Definition encode (m : message) : error + bytes :=
  match list_find (λ x, x = m) table with
  | Some (i, _) => inr (FormatUint (Z.of_nat i))
  | None => inl (ErrorString "cannot encode")
  end.

Definition decode (ty : msg_type) (b : bytes) : error + message :=
  match parse_uint b with
  | Some i => match table !! Z.to_nat i with
              | Some m => if bool_decide (type_of m = ty) then inr m else inl (ErrorString "wrong type")
              | None => inl (ErrorString "cannot decode")
              end
  | None => inl (ErrorString "cannot decode")
  end.

Lemma decode_type ty b m : decode ty b = inr m → type_of m = ty.
Proof.
  unfold decode. destruct (parse_uint b) as [i|]; [|done]. destruct (table !! Z.to_nat i) as [m'|]; [|done].
  case_bool_decide; [|done]. by intros [= <-].
Qed.

Lemma table_round_trip m b : encode m = inr b → decode (type_of m) b = inr m.
Proof.
  unfold encode, decode. destruct (list_find _ _) as [[i x]|] eqn:Hf; [|done]. intros [= <-].
  apply list_find_Some in Hf as (Hi & -> & _).
  assert (Hlt : (i < 7)%nat) by (apply lookup_lt_Some in Hi; exact Hi).
  rewrite parse_uint_FormatUint by (unfold is_uint64, MaxUint64; lia).
  by rewrite Nat2Z.id, Hi, bool_decide_true.
Qed.

#[export] Instance proto_lib : ProtoLib := {| proto_Marshal := encode; proto_Unmarshal := decode |}.

#[export] Instance proto_laws : ProtoLaws.
Proof.
  split; [apply decode_type|]. intros m b _ Hb. exists m. split; [by apply table_round_trip|].
  destruct m; cbn; reflexivity.
Qed.

(** ** The gateway's runtime *)

#[export] Instance runtime : GatewayRuntime := {|
  decode_body := decode;
  encode_body := encode;
  runtime_Uint32 := λ s, match parse_uint s with
                         | Some n => if n <? 2 ^ 32 then inr n else inl (ErrorString "out of range")
                         | None => inl (ErrorString "invalid syntax")
                         end;
  runtime_String := inr;
  AnnotateContext := λ _ _ _, inr tt;
  AnnotateIncomingContext := λ _ _ _, inr tt;
  Pattern := (list Z * list string) + string;
  NewPattern := λ _ ops pool _, inr (inl (ops, pool));
  path_pattern := λ path, inr (inr path);
  MatchPattern := λ p components,
    match p with
    | inl (ops, pool) => run_ops ops pool components [] ∅
    | inr path => match_template (parse_template path) components
    end
|}.

#[export] Instance runtime_laws : RuntimeLaws.
Proof.
  split; [by intros ops pool p [= <-]|by intros path p [= <-]|done|]. cbn. intros s n. destruct (parse_uint s) as [m|] eqn:Hm; [|done].
  destruct (Z.ltb_spec m (2 ^ 32)); [|done]. intros [= <-]. apply parse_uint_range in Hm. unfold is_uint64 in Hm. lia.
Qed.

#[export] Instance mux_lib : MuxLib := {|
  ForwardResponseMessage := λ o m g,
    match encode m with
    | inl e => HTTPError o e g
    | inr body => match run_options (mo_forwardResponse o) g with
                  | (Ok _, g') => (Ok tt, set_w (Write body (gw_w g')) g')
                  | (Err e, g') => HTTPError o e g'
                  | (Panic, g') => (Panic, g')
                  end
    end;
  ServeHTTP := λ P mux req s,
    match dispatch (mux_routes mux) (sr_Method req) (split_slash (TrimPrefix (sr_Path req) "/")) with
    | Some (h, vars) => h req vars s
    | None => (Ok tt, (set_w {| w_Header := ∅; w_status := Some 404; w_body := "Not Found" |} s.1, s.2))
    end
|}.

#[export] Instance mux_laws : MuxLaws.
Proof.
  split.
  - intros P mux method components body h vars s Hne Hplain Hd req. cbn [ServeHTTP mux_lib sr_Method sr_Path req].
    rewrite TrimPrefix_append, split_join_no_slash; [by rewrite Hd|done|].
    eapply Forall_impl; [exact Hplain|]. intros c Hc Hin. unfold plain_component in Hc. rewrite Forall_forall in Hc.
    by destruct (Hc _ Hin) as [? _].
  - intros o m g body Hm. exists (w_Header (gw_w g)). cbn [ForwardResponseMessage mux_lib]. change (encode_body m) with (encode m) in Hm.
    rewrite Hm. destruct g as [[hdr st bd] md]. reflexivity.
Qed.

#[export] Instance gateway_laws : GatewayLaws.
Proof. split. intros e w _. by exists 500. Qed.

(** ** A connection to a server in the same process *)

Section conn.
Context {P S : Type} `{CallState P S}.

Definition conn_of (srv : RekorServer S) (icpt : UnaryServerInterceptor S) (maxRecv : Z) : ClientConn P :=
  λ method in_ out p,
    match list_find (λ d, "/" +:+ ServiceName (Rekor_ServiceDesc (S := S)) +:+ "/" +:+ MethodName d = method) (Methods Rekor_ServiceDesc), proto_Marshal in_ with
    | Some (_, d), inr b =>
        if len b <=? maxRecv then
          match Handler d srv (λ ty, lift (proto_Unmarshal ty b)) (Some icpt) (begin_call p) with
          | (Ok m, s') => match proto_Marshal m with
                          | inr b' => (proto_Unmarshal out b', call_header s', end_call s')
                          | inl e => (inl (StatusError Internal (Error e)), call_header s', end_call s')
                          end
          | (Err e, s') => (inl (status_of e), call_header s', end_call s')
          | (Panic, s') => (inl (StatusError Unavailable "connection lost"), [], end_call s')
          end
        else (inl (StatusError Unimplemented "too large"), [], p)
    | _, inl e => (inl (StatusError Internal (Error e)), [], p)
    | None, _ => (inl (StatusError Unimplemented "unknown method"), [], p)
    end.

Lemma find_method (d : MethodDesc S) :
  d ∈ Methods Rekor_ServiceDesc →
  ∃ i, list_find (λ d', "/" +:+ ServiceName (Rekor_ServiceDesc (S := S)) +:+ "/" +:+ MethodName d' =
                        "/" +:+ ServiceName (Rekor_ServiceDesc (S := S)) +:+ "/" +:+ MethodName d) (Methods Rekor_ServiceDesc) = Some (i, d).
Proof.
  cbn [Methods Rekor_ServiceDesc]. rewrite !elem_of_cons, elem_of_nil.
  intros [-> |[-> |[-> |[-> |[]]]]]; eexists; reflexivity.
Qed.

Lemma conn_of_conn srv icpt maxRecv : grpc_conn (conn_of srv icpt maxRecv) [(Rekor_ServiceDesc, srv)] icpt maxRecv.
Proof.
  split.
  - intros desc srv' d in_ b out p m s' b' m' [= -> ->]%list_elem_of_singleton Hd Hb Hlen Hh Hb' _ Hm'.
    unfold conn_of. destruct (find_method d Hd) as [i ->]. by rewrite Hb, (proj2 (Z.leb_le _ _) Hlen), Hh, Hb', Hm'.
  - intros desc srv' d in_ b out p e s' [= -> ->]%list_elem_of_singleton Hd Hb Hlen Hh.
    unfold conn_of. destruct (find_method d Hd) as [i ->]. by rewrite Hb, (proj2 (Z.leb_le _ _) Hlen), Hh.
Qed.
End conn.

(** ** A client's network: the process of the server behind one transport *)

Definition transport_of (mux : ServeMux process) (limit : Z) : RoundTripper process := λ req p,
  if len (req_Body req) <=? limit then
    match ServeHTTP mux {| sr_Method := req_Method req; sr_Path := req_URL req; sr_Body := req_Body req |} (fresh_response, p) with
    | (Ok _, (g, p')) => (inr {| resp_StatusCode := default 200 (w_status (gw_w g)); resp_Body := inr (w_body (gw_w g)) |}, p')
    | (_, (_, p')) => (inl (ErrorString "EOF"), p')
    end
  else (inr {| resp_StatusCode := 413; resp_Body := inr "" |}, p).

#[export] Instance process_http : HttpLib := {|
  Net := process;
  TLSSettings := unit;
  url_Parse := λ s, inr {| url_Path := s; url_rest := "" |};
  url_String := url_Path;
  DefaultTransport := λ _ p, (inl (ErrorString "no route to host"), p);
  NewTransport := λ _ _ p, (inl (ErrorString "no route to host"), p);
  check_request := λ _ _, inr tt;
  Do := λ tr _ req p, tr req p;
  marshal_request := λ r, encode (msg_CreateEntryRequest r);
  unmarshal_entry := λ b, match decode T_TransparencyLogEntry b with
                          | inr (msg_TransparencyLogEntry e) => inr e
                          | inr _ => inl (ErrorString "wrong type")
                          | inl e => inl e
                          end
|}.

#[export] Instance write_json : WriteJson.
Proof.
  split.
  - intros r b _ Hb. exists r. split; [exact (table_round_trip _ _ Hb)|reflexivity].
  - intros e b _ Hb. cbn. by rewrite (table_round_trip _ _ Hb : decode T_TransparencyLogEntry b = _).
Qed.

(** *** A server and its mux *)

Definition limit : Z := 4 * 1024 * 1024.

Definition conn1 (s : Server) : ClientConn process :=
  conn_of (rekor_server order_id order_id order_id s) (server_interceptor ServersExamples.gs) limit.

Definition healthz1 : HandlerFunc process := λ _ _, respond (modify (λ g, set_w (Write "SERVING" (gw_w g)) g)).

Definition mux1 (s : Server) : ServeMux process :=
  match RegisterRekorHandler (NewServeMux healthz1) (conn1 s) with Ok m => m | _ => NewServeMux healthz1 end.

Lemma deployed1 s : deployed order_id order_id order_id s limit (mux1 s).
Proof.
  split; [|done]. exists ServersExamples.gconf, ServersExamples.gs, (conn1 s), healthz1. split_and!; [reflexivity|apply conn_of_conn|reflexivity|reflexivity].
Qed.

Definition client1 (s : Server) : writeClient :=
  {| wc_baseURL := {| url_Path := ""; url_rest := "" |}; wc_transport := transport_of (mux1 s) limit; wc_timeout := 0 |}.

Lemma connected1 s : connected id (client1 s) (mux1 s) limit.
Proof.
  split; [by left|done|]. intros method header body n g p' Hlen Hs. exists p'. split; [|done].
  cbn [Do process_http client1 wc_transport transport_of req_Body req_URL req_Method url_String url_Path].
  unfold transport_of. cbn [req_Body req_URL req_Method]. rewrite (proj2 (Z.leb_le _ _) Hlen).
  cbn [url_Path] in Hs. unfold id in Hs. by rewrite Hs.
Qed.

(** ** The writes *)

Definition arg1 : AddArg :=
  match Request_Spec req1 with
  | Some (CreateEntryRequest_HashedRekordRequestV002 r) => Arg_HashedRekord r
  | _ => Arg_other ""
  end.

Lemma arg1_request : createRequest arg1 = Ok req1.
Proof. reflexivity. Qed.

Lemma req1_content r : same_content req1 r → r = req1.
Proof.
  unfold same_content. destruct r as [[[hr|[ds|]]|]]; cbn; try discriminate. by intros [= <-].
Qed.

Lemma req1_encodes : request_encodes limit limit req1.
Proof.
  split; [done|]. split.
  - exists "0". split; [vm_compute; reflexivity|]. vm_compute. discriminate.
  - intros r -> %req1_content. exists "0". split; [vm_compute; reflexivity|]. vm_compute. discriminate.
Qed.

Definition process1 : process := (["older"], Build_counters 0 0 0 0).

Lemma answer1_encodes : answer_encodes answer1.
Proof.
  split; [repeat split; vm_compute; discriminate|]. split.
  - exists "1". split; [vm_compute; reflexivity|]. vm_compute. discriminate.
  - exists "1". vm_compute. reflexivity.
Qed.

Lemma http_write_refines_witness :
  ∃ r', same_content req1 r' ∧
    let x := CreateEntry order_id order_id order_id (server store) (Some r') (Build_rpc process1.1 [] process1.2) in
    (∀ tle, x.1 = Ok tle → answer_encodes tle) →
    ∃ n' : process, n' = after_call x ∧
      match x.1 with
      | Ok tle => write_Add (client1 (server store)) arg1 process1 = (Ok tle, n')
      | _ => ∃ code body, code ≠ StatusCreated ∧
               write_Add (client1 (server store)) arg1 process1 =
                 (Err (ErrorString ("unexpected response: " +:+ Itoa code +:+ " " +:+ body)), n')
      end.
Proof.
  exact (http_write_refines id (client1 (server store)) (mux1 (server store)) limit order_id order_id order_id
    (Some (storage_impl store)) false (Some registry) "logid" limit arg1 req1 process1
    (deployed1 _) (or_intror (ex_intro _ _ eq_refl)) (connected1 _) arg1_request req1_encodes).
Defined.

(** The same write, evaluated. *)
Example http_write_run : write_Add (client1 (server store)) arg1 process1 = (Ok answer1, (leaves1, Build_counters 1 0 0 0)).
Proof. vm_compute. reflexivity. Qed.

Lemma http_write_frozen_witness :
  ∃ n' : process, n' = process1 ∧
    write_Add (client1 (NewServer None true (Some registry) "logid")) arg1 process1 =
      (Err (ErrorString ("unexpected response: 405 This log has been frozen, please switch to the latest log." +:+ String "010" "")), n').
Proof.
  exact (http_write_frozen id (client1 _) (mux1 (NewServer None true (Some registry) "logid")) limit order_id order_id order_id
    None (Some registry) "logid" limit arg1 req1 process1 (deployed1 _) (connected1 _) arg1_request req1_encodes).
Defined.

(** *** A server started by the command *)

Definition su1 : startup :=
  match serve1 false with
  | (Ok su, _) => su
  | _ => {| su_http := ServersExamples.hconf; su_grpc := ServersExamples.gconf; su_timeout := 0;
            su_server := server store; su_shutdown := λ w, (inr tt, w) |}
  end.

Lemma serve1_su1 : serve1 false = (Ok su1, (serve1 false).2).
Proof. unfold su1. pose proof (serve1_Ok false) as Hok. by destruct (serve1 false) as [[su|e|] w]; [|destruct Hok..]. Qed.

Lemma su1_answer :
  (CreateEntry order_id order_id order_id (su_server su1) (Some req1) (Build_rpc process1.1 [] process1.2)).1 = Ok answer2.
Proof. vm_compute. reflexivity. Qed.

Lemma answer2_encodes : answer_encodes answer2.
Proof.
  split; [repeat split; vm_compute; discriminate|]. split.
  - exists "2". split; [vm_compute; reflexivity|]. vm_compute. discriminate.
  - exists "2". vm_compute. reflexivity.
Qed.

Lemma su1_write : (write_Add (client1 (su_server su1)) arg1 process1).1 = Ok answer2.
Proof. vm_compute. reflexivity. Qed.

(** *** A history: a write, and then another writer *)

Definition after1 : process := (write_Add (client1 (su_server su1)) arg1 process1).2.
Definition after2 : process := (after1.1 ++ ["other"], after1.2).

Lemma su1_encodes p : p.1 = process1.1 → answers_encode order_id order_id order_id (su_server su1) id p req1.
Proof.
  intros Hp r' e c ->%req1_content Hc. unfold id in Hc.
  assert ((CreateEntry order_id order_id order_id (su_server su1) (Some req1) (Build_rpc p.1 [] p.2)).1 = Ok answer2) as Ha.
  { destruct p as [w m]. cbn in Hp. subst w. destruct m. vm_compute. reflexivity. }
  rewrite Hc in Ha. injection Ha as ->. exact answer2_encodes.
Qed.

Lemma su1_history :
  http_history id (eq (client1 (su_server su1))) limit limit order_id order_id order_id (su_server su1)
    process1 [(req1, Ok answer2)] after2.
Proof.
  eapply (http_write _ _ _ _ _ _ _ _ (client1 (su_server su1)) arg1 req1 process1 (Ok answer2) after1);
    [done|exact arg1_request|exact req1_encodes|by apply su1_encodes| |].
  - rewrite <-su1_write. by destruct (write_Add (client1 (su_server su1)) arg1 process1) eqn:He; unfold after1; rewrite He.
  - eapply http_other; [|apply http_end]. unfold log_of, id, after2. cbn [fst]. by apply prefix_app_r.
Qed.

Lemma http_entries_kept_witness :
  match NewNoteVerifier (Cmd.hostname (sflags false)) (as_Verifier log_signer) with
  | Ok nv => kept (sflags false) su1 (as_Verifier log_signer) nv (log_of id after2) (req1, Ok answer2)
  | _ => False
  end.
Proof.
  pose proof note_verifier_Ok as Hok. destruct (NewNoteVerifier _ _) as [nv|e|] eqn:Hv; [|destruct Hok..].
  pose proof serve1_su1 as Hs. unfold serve1 at 1, serve_posix in Hs. rewrite posix_signer1 in Hs.
  refine (proj2 (http_entries_kept no_files log_signer _ false (sflags false) su1 id (mux1 (su_server su1)) limit limit
    order_id order_id order_id (eq (client1 (su_server su1))) (as_Verifier log_signer) nv process1 [(req1, Ok answer2)] after2 _ su1_history)
    (req1, Ok answer2) (list_elem_of_here _ _)).
  split; [by eexists _, _|apply deployed1|intros wc <-; apply connected1|exact Hv|done|].
  intros msg sig Hsig. cbn in *. unfold verify_message. injection Hsig as <-. by rewrite bool_decide_true.
Defined.

(** ** Stubs and routes *)

Lemma stubs_reach_methods_witness :
  ∃ req', same_content req1 req' ∧
    let x := server_interceptor ServersExamples.gs Rekor_CreateEntry_FullMethodName (msg_CreateEntryRequest req')
               (served as_CreateEntryRequest (λ r, rs_CreateEntry (rekor_server order_id order_id order_id (server store)) (Some r))
                  msg_TransparencyLogEntry) (begin_call process1) in
    replies T_TransparencyLogEntry x →
    delivered x (untyped msg_TransparencyLogEntry (rc_CreateEntry (NewRekorClient (conn1 (server store))) req1 process1)).
Proof.
  refine (proj1 (stubs_reach_methods (conn1 (server store)) _ (rekor_server order_id order_id order_id (server store))
    (server_interceptor ServersExamples.gs) limit process1 eq_refl (conn_of_conn _ _ _)) req1 _).
  split; [done|]. exists "0". split; [vm_compute; reflexivity|]. vm_compute. discriminate.
Defined.

Lemma patterns_match_templates_witness :
  MatchPattern (inl (ops_GetTile, pool_GetTile)) ["api"; "v2"; "tile"; "3"; "x001"; "002"] =
  match_template (parse_template path_GetTile) ["api"; "v2"; "tile"; "3"; "x001"; "002"].
Proof.
  exact (proj1 (proj2 (patterns_match_templates ["api"; "v2"; "tile"; "3"; "x001"; "002"])) (inl (ops_GetTile, pool_GetTile)) eq_refl).
Defined.

Lemma routes_exact_witness :
  let req := {| sr_Method := "GET"; sr_Path := "/api/v2/tile/entries/001"; sr_Body := "" |} in
  let h := handler_of proxy_options (NewRekorClient (conn1 (server store))) (To_GetEntryBundle "001") in
  ServeHTTP (mux1 (server store)) req (fresh_response, process1) = h.1 req h.2 (fresh_response, process1).
Proof.
  refine (routes_exact (mux1 (server store)) (NewRekorClient (conn1 (server store))) healthz1 (inr "/healthz") "GET"
    ["api"; "v2"; "tile"; "entries"; "001"] "" eq_refl eq_refl _ _ (fresh_response, process1)); [done|].
  refine (bool_decide_eq_true_1 _ _). vm_compute. reflexivity.
Defined.

Lemma http_reads_refused_witness :
  ServeHTTP (mux1 (server store)) {| sr_Method := "GET"; sr_Path := "/api/v2/tile/3/x001/002"; sr_Body := "" |} (fresh_response, process1) =
  (Ok tt, ({| gw_w := DefaultHTTPErrorHandler (StatusError Unimplemented "method GetTile not implemented") (gw_w fresh_response);
              gw_md := Some ∅ |}, process1)).
Proof.
  refine (http_reads_refused order_id order_id order_id (server store) limit (mux1 (server store))
    ["api"; "v2"; "tile"; "3"; "x001"; "002"] "" (To_GetTile "3" "x001/002") _ fresh_response process1 (deployed1 _) _ _ _ _).
  - refine (bool_decide_eq_true_1 _ _). vm_compute. reflexivity.
  - vm_compute. reflexivity.
  - vm_compute. reflexivity.
  - intros z Hz. vm_compute in Hz. injection Hz as <-. exists "4". split; [vm_compute; reflexivity|]. vm_compute. discriminate.
Defined.
End WriteExamples.
