(* ===== verification/DeploymentExamples.v ===== *)
(** * A client of a server that a command started

    The sample server of [WriteExamples], running with any calls in flight. *)
From S2P Require Import Prelude GoErrors GoStrings Sha256 SafeInt Proto External IO Threads Note TesseraLib VerifyEntry Storage AlgorithmRegistry HashedRekord Dsse Service History Concurrent Pool Gateway Config Serve Lifetime SignerVerifier Drivers Cmd Deployment Sample SampleLog LogExamples CmdExamples WriteExamples.

Module DeploymentExamples.
Import Sample SampleLog LogExamples CmdExamples WriteExamples.

Lemma client1_key nv :
  NewNoteVerifier (Cmd.hostname (sflags false)) (as_Verifier log_signer) = Ok nv →
  client_key (sflags false) log_signer (as_Verifier log_signer) nv.
Proof.
  intros Hv. split; [done|done|]. intros msg sig Hsig. cbn in *. unfold verify_message. injection Hsig as <-.
  by rewrite bool_decide_true.
Qed.

Lemma served_answers_verify_witness :
  match NewNoteVerifier (Cmd.hostname (sflags false)) (as_Verifier log_signer) with
  | Ok nv =>
      ∃ st reg lid, su_server su1 = tessera_server st reg lid ∧
      ∀ y0 y c tle, sys_initial (su_http su1) (su_grpc su1) y0 → rtc (sys_step st reg lid) y0 y →
        c ∈ ss_calls (sy_server y) → c_prog c = Return (Ok tle) → VerifyLogEntry tle nv = Ok tt
  | _ => False
  end.
Proof.
  destruct (NewNoteVerifier _ _) as [nv|e|] eqn:Hv; [|vm_compute in Hv; discriminate Hv..].
  pose proof serve1_su1 as Hs. unfold serve1 at 1, serve_posix in Hs. rewrite posix_signer1 in Hs.
  destruct (served_answers_verify no_files log_signer _ false (sflags false) _ su1 _ (as_Verifier log_signer) nv Hs eq_refl (client1_key nv Hv))
    as (st & reg & lid & Hsrv & Hall).
  exists st, reg, lid. split; [exact Hsrv|]. intros y0 y c tle Hi Hr Hc Hx. apply (proj2 (Hall y0 y Hi Hr) c tle Hc Hx).
Defined.
End DeploymentExamples.
